(* ===== verification/_CoqProject ===== *)
-Q . S2P
Prelude.v
Bytes.v
FileUtil.v
FileLock.v
BinSearch.v
Page.v
FreeList.v
Mvcc.v
Meta.v
Node.v
ObjPool.v
World.v
Disk.v
Pager.v
Tree.v
Cursor.v
Traversal.v
Termination.v
Image.v
Alloc.v
Bucket.v
BranchPages.v
Tx.v
DB.v
Stage.v
Spill.v
Commit.v
Update.v
Inline.v
MapDB.v
Work.v
Gather.v
Program.v
Reopen.v
Session.v
Crash.v
Handle.v
Snapshot.v
