(* ===== verification/Prelude.v ===== *)
(** * cbtree: a verification of the storage engine in src/src/Bolt

    cbtree is an embedded key-value store in C++ after BoltDB: one file of
    fixed-size pages, a B+tree per bucket, copy-on-write transactions with one
    writer and any number of readers.

    ** Parts of the program and files of the development

    - Prelude.v: faults and results, machine integers, tactics, hint databases,
      list lemmas.
    - Bytes.v: memory as bytes, little-endian loads and stores, [Item] with the
      order of [std::string] (type.h).
    - BinSearch.v: the loop of [Node::binarySearch] and of the two searches of
      [Cursor], over an accessor of keys.
    - Page.v: page headers and elements at their offsets (page.h, type.h).
    - FreeList.v: all of freeList.h and freeList.cc.
    - Mvcc.v: what transactions and the free list owe each other, as a
      transition system over the operations of FreeList.v.
    - Meta.v: the meta record, its page, [validate], the choice of [getMeta]
      (meta.h, meta.cc, db.cc).
    - Node.v: a node on its own: search, put, del, sizes, inlining, reading
      from and writing to a page (node.h, node.cc).
    - FileUtil.v: sizes of files, and the helpers that append to a C stream
      and read small files (file_util.h, file_util.cc); the engine calls
      [GetFileSize].
    - FileLock.v: the lock file (util.h) over a kernel given by its laws, and
      lock objects at work as a transition system.
    - ObjPool.v: the object pool (obj_pool.h).
    - World.v: the state of the process and the monad the rest is written in.
    - Disk.v: the file under [pwrite], [ftruncate] and [fsync], and what a crash
      may leave of it.
    - Pager.v: the lower half of [DB] and [Tx]: locks, mapping, allocation,
      growth, the page a transaction sees (db.cc, tx.cc).
    - Tree.v: nodes with their links: children, siblings, split, spill,
      rebalance, and [Bucket]'s cache of nodes (node.cc, bucket.cc).
    - Cursor.v: the element stack and its walks (cursor.h, cursor.cc).
    - Traversal.v: what cursors see: the interfaces [LeafView] and [BranchView],
      which nodes in memory and pages in the file both implement, and the tree
      they form.
    - Termination.v: cursors stop, on trees of any shape without cycles.
    - Image.v: pages as byte images, in memory or in the file.
    - Alloc.v: the type of the free list; the supply of pages of a writer.
    - Bucket.v: [Bucket] (bucket.h, bucket.cc) and [Tx::for_each_page].
    - BranchPages.v: what writing below a branch page does.
    - Tx.v: [Tx] (tx.h, tx.cc): init, commit, rollback, writing.
    - DB.v: [DB] (db.h, db.cc): opening, closing, transactions, [update],
      [view].
    - Stage.v: versions of a database of leaf pages, what work in a
      transaction leaves alone, and the pages a commit has allocated so far.
    - Spill.v, Commit.v, Update.v: [Tx::commit] and [DB::update] from their
      first line to their last, on a database of leaf pages.
    - Inline.v: a sub-bucket, stored inside its parent or on a page of its own,
      from the value that names it through the edits of a callback to the
      value that replaces it.
    - MapDB.v: the database as a map from bucket names to maps: which entries
      represent one, and what readers see of it.
    - Work.v: a write transaction between its begin and its commit: the root
      bucket and the sub-buckets its callback has opened, made and edited.
    - Gather.v: the part of the commit that brings every edited sub-bucket back
      into the root bucket's leaf.
    - Program.v: callbacks as programs over the map of maps.
    - Reopen.v, Session.v: what the file holds between processes, and runs of
      the program from an empty file on.
    - Crash.v: what the file holds when the machine stops during an update,
      and after any number of processes.
    - Handle.v: a database object with its lock file, from constructor to
      destructor.
    - Snapshot.v: views that stay open while updates commit.

    The files up to DB.v translate the source (Disk.v models what is under
    it); Stage.v to Snapshot.v compose it.  Their invariant is [leaf_version]:
    the leaves of the current version hold an [image], the entries of the root
    bucket and, by page, those of the sub-buckets that have a page of their
    own; no two of its pages overlap, and the free list spares them.
    [writes] is the contract of a callback of [update]: from the leaves [im] it
    leaves a transaction whose buckets, gathered, are leaves of which [Q]
    holds, in at most [k] pages; [update_ok] (Update.v) is proved for any
    callback that meets it.  [represents] relates an image to a map of maps: a bucket's
    pairs sit in an inline page in its entry or on the page the entry names,
    as its size decides, and no two entries name the same page.  [staged] is
    the invariant of the commit while it allocates: the runs of pages in
    memory have their place in the file, known to nobody yet.  Each edited
    bucket moves between its entry and a page of its own there, freeing the
    page it had; the dirty pages are written in the order of the hash table,
    whatever that is.  [working] relates a
    transaction under way to such a map: a bucket the callback has touched
    counts with the leaf it has in memory, any other with its entry.  A
    callback is a [db_prog], a tree of calls that branches on what they
    return; [prog_ok] says, on the map alone, that it stays within what the
    source handles, and [prog_writes] that it then meets [writes].

    Definitions keep the names of the source; an operation whose name two
    classes share carries its class ([Node_put], [Bucket_put], [Tx_write]).

    ** The model

    Memory, the file and the mapping are byte lists, so a page is what its
    bytes say, and an access outside them faults.  Integers are [Z] with the
    wrap-around of their type written where the source computes.  What ends
    the process or leaves the defined behaviour of C++ is a value of [fault]:
    a failed assert, LOG(FATAL), a null or dangling pointer, a store to the
    read-only mapping, a lock never released.  Operations on one component are
    functions into [res]; operations on linked objects run in [M], a state and
    fault monad over [World]: stores of nodes, buckets and transactions by
    key, heap blocks, the file, the mapping with its generation (a pointer
    into an older mapping dangles), and the [DB] record.

    Every system call leaves its mark in a trace: [pwrite] with its bytes,
    [ftruncate], [fsync], and the others without detail.  A disk is what the
    file was at each moment since the last sync; after a crash, each sector of
    512 bytes has the content of one of these moments ([crash_image]).

    What the source does not determine is the class [Env]: fresh memory,
    addresses, the order of a walk over an [unordered_map], the outcome of
    each system call.  Theorems hold for every environment; those that need
    system calls to succeed say so.

    ** Fuel

    Loops over lists recurse on the list.  Binary search, [split] and
    [freeList::free] compute a bound that is proved enough.  Walks over linked
    objects (cursor descents, rebalance, spill, bucket trees) take [env_fuel];
    running out is the fault [OutOfFuel].  The theorems on the order in which
    cursors visit a tree assume that the fuel exceeds its height and the number
    of its leaves; [cursor_terminates] shows for every bucket without cycles,
    whatever its pages hold, that rounds are bounded by the height and the
    fan-out alone.  The theorems on [update] assume a fuel of two.  In
    [sample_env], on which the witnesses run, it is 50.

    ** What the theorems show

    - Data: a bucket with one leaf is a map under put, remove and get, with
      the sub-buckets that they refuse ([leaf_bucket_refines_map]); a cursor visits every entry of a tree, once
      and in order, whether pages or nodes hold it ([cursor_walk_in_order]),
      and [for_each] its callbacks ([for_each_in_order]); [seek] finds a key
      that is there, and otherwise the next key of the leaf it reaches
      ([seek_ceiling_in_leaf]); splitting a node deals its entries out in
      order, in pieces of at least two, and changes no other field of it
      ([split_partitions]); put, del and search on a
      node are those of a sorted map; a leaf read back from its page is the
      leaf written.
    - Whole runs: [update] runs a callback that creates buckets, puts, removes
      and gets, any number of times and deciding on what each call returns:
      the calls return what the same program gets on a map of maps, error codes
      and its own writes included, and readers that begin then, in this
      process or the next, read the map it ends with ([update_refines_map]).
      A run of any number of such updates on a new database never waits for a
      lock and ends with the map they make ([session_progress]), and so does a
      run of any number of processes, each with updates of its own
      ([processes_durable]); views that
      begin, read and end between the updates read, each, the map the database
      had when the view began, however many updates commit meanwhile
      ([snapshot_isolation]); a crash at any moment leaves a file from which
      the map of before or of after the update under way is recovered
      ([updates_crash_safe]).  The record of a meta page lies within a sector;
      that the code needs this is the finding [torn_meta_accepted].
    - Termination: the operations of cursors stop ([cursor_terminates]); the
      other loops carry their bound in the theorems on them.
    - Space: the free list keeps its type under every operation
      ([freelist_typed]); allocation is first fit on a sorted list without duplicates;
      release frees what the older transactions gave up and nothing else;
      the list survives its page; rollback restores it; a page handed out is
      fresh and carries its id and overflow ([DB_allocate_page]); the file and
      the mapping grow as asked.
    - Transactions: no page of a snapshot is ever available while a reader
      holds it, along every sequence of begins, allocations, frees, commits,
      ends, and rollbacks to the last commit ([snapshots_isolated], with
      [beginRWTx_releases] for the code that starts a writer; other rollbacks
      of the code break this, [late_rollback_frees_current]); dirty pages reach their places in the
      file and nothing else changes ([Tx_write_pages]); writing the meta page
      makes the transaction the current one and leaves the page of the other
      untouched ([writeMeta_publishes]), even if only a prefix of it is written
      ([meta_commit_atomic]); [view] runs its callback on the current version
      and leaves nothing behind ([view_restores]); opening an empty file creates a database
      ([Open_creates]); the lock file excludes, among objects that do not
      close descriptors they never opened ([lock_exclusive],
      [unlocked_by_garbage]), and an open database holds it ([database_lock_lifecycle]).
    - Faults: the inputs on which the source stops, blocks or loses data:
      [rebalance_first_child_faults], [collapse_root_asserts],
      [branch_write_pos_wrong], [createBucket_page_dangles],
      [deleteBucket_refuses], [remove_fatal_on_bucket_successor],
      [put_below_branch_asserts], [update_failure_blocks],
      [Open_fstat_failure_wipes], [relock_leaks], [double_free_undetected],
      [torn_meta_accepted], [validate_checks_only_header].
    - The helpers: [ObjPool_safe]; what an [AppendFile] is given reaches the
      file in order and once ([append_prefix], [append_file_complete]);
      [readFile_prefix], [readToBuffer_bounds].

    ** Not modelled

    Threads: operations run one after another, and a lock is a field whose
    acquisition faults with [Blocked] when it could never succeed in this
    thread; [metaLock_] guards single operations and leaves no trace.  Logging
    and the texts of error messages, the counters of [TxStat] that nothing
    reads, the options nothing reads, the release of heap objects, commit
    handlers, and type.cc, which is commented out.  [Node::dereference] has an
    empty body.

    ** Limits of the theorems on [update], and what is left

    [fits_db] asks that every bucket fits a page.  The limit is the source's:
    a leaf of more than a page and four entries is split, and the branch page
    above the pieces is written with positions that are those of its keys for
    one element at most ([branch_write_pos_wrong]).  [usable] asks that a bucket is opened
    before the first one is created, since later the page it is read from is
    gone, and that no bucket is used in the transaction that creates it
    ([createBucket_page_dangles]); for a bucket with a page of its own
    this is more than the source needs.

    Left: leaves of more than a page with at most four entries; put and remove
    on trees with branches whose nodes are in memory, against the map of all
    leaves; rebalance against the same map on the paths that do not fault. *)
From stdpp Require Export base gmap sets list sorting strings.
From Stdlib Require Export ZArith Lia.
#[export] Set Default Proof Using "Type".

(** ** Notation scope of the development *)

Declare Scope bolt_scope.
Delimit Scope bolt_scope with bolt.
Open Scope bolt_scope.
Open Scope Z_scope.

(** ** Faults

    What stops the process or leaves the language's defined behaviour.
    [AssertFailed] is a failed [assert], [LogFatal] a [LOG(FATAL)],
    [NullDeref] a null pointer dereference, [OutOfBounds] an access outside a
    buffer, [UseAfterFree] an access to freed or unmapped storage,
    [ReadOnlyStore] a store to the [PROT_READ] mapping, [BadIterator] the use
    of an invalidated iterator, [Blocked] a lock that is never released,
    [LengthError] a [std::length_error] nobody catches, [LockInUse] the
    destruction of a lock that is held, [OutOfFuel] a loop that did not stop
    within the fuel. *)
Variant fault :=
  | AssertFailed | LogFatal | NullDeref | OutOfBounds | UseAfterFree
  | ReadOnlyStore | BadIterator | Blocked | LengthError | LockInUse | OutOfFuel.

(** The result of a computation that may fault. *)
Variant res (A : Type) :=
  | Ok (a : A)
  | Err (f : fault).
Arguments Ok {A} a.
Arguments Err {A} f.

#[export] Instance fault_eq_dec : EqDecision fault.
Proof. solve_decision. Defined.
#[export] Instance res_eq_dec `{EqDecision A} : EqDecision (res A).
Proof. solve_decision. Defined.
#[export] Instance res_ret : MRet res := fun _ a => Ok a.
#[export] Instance res_bind : MBind res := fun _ _ f m =>
  match m with Ok a => f a | Err e => Err e end.

(** [assert(b)] of the source. *)
Definition assert_ (b : bool) : res unit := if b then Ok tt else Err AssertFailed.

(** ** Machine integers

    An unsigned integer of width [w] is a [Z] with its wrap-around written
    where the source computes it. *)
Definition wrap (w : Z) (z : Z) : Z := z mod 2 ^ w.
Abbreviation wrap16 := (wrap 16).
Abbreviation wrap32 := (wrap 32).
Abbreviation wrap64 := (wrap 64).

Definition UINT64_MAX : Z := 2 ^ 64 - 1.

(** ** Automation *)

Create HintDb bolt.
Create Rewrite HintDb bolt.

(** [inv_res] decomposes a hypothesis that says a monadic computation in
    [res] returned. *)
Ltac inv_res :=
  repeat match goal with
  | H : Ok _ = Ok _ |- _ => injection H as H
  | H : Err _ = Ok _ |- _ => discriminate H
  | H : Ok _ = Err _ |- _ => discriminate H
  | H : mbind _ ?m = Ok _ |- _ =>
      let E := fresh "E" in destruct m eqn:E; cbn [mbind res_bind] in H; [|discriminate H]
  | H : assert_ ?b = Ok _ |- _ => unfold assert_ in H; destruct b eqn:?; [|discriminate H]
  end.

(** [zb] turns the boolean tests of [Z] in the context into propositions. *)
Ltac zb :=
  repeat match goal with
  | H : (_ <? _) = true |- _ => apply Z.ltb_lt in H
  | H : (_ <? _) = false |- _ => apply Z.ltb_ge in H
  | H : (_ <=? _) = true |- _ => apply Z.leb_le in H
  | H : (_ <=? _) = false |- _ => apply Z.leb_gt in H
  | H : (_ =? _) = true |- _ => apply Z.eqb_eq in H
  | H : (_ =? _) = false |- _ => apply Z.eqb_neq in H
  | H : _ && _ = true |- _ => apply andb_true_iff in H as [? ?]
  | H : _ || _ = false |- _ => apply orb_false_iff in H as [? ?]
  end.

(** [case_z] splits on the first boolean test of [Z] in the goal. *)
Ltac case_z :=
  match goal with
  | |- context [?a <? ?b] => destruct (Z.ltb_spec a b)
  | |- context [?a <=? ?b] => destruct (Z.leb_spec a b)
  | |- context [?a =? ?b] => destruct (Z.eqb_spec a b)
  end.

(** ** Lemmas on machine integers *)

Lemma wrap_id w z : 0 <= z < 2 ^ w -> wrap w z = z.
Proof. intros H. apply Z.mod_small, H. Qed.

Lemma wrap_range w z : 0 <= w -> 0 <= wrap w z < 2 ^ w.
Proof. intros H. apply Z.mod_pos_bound. lia. Qed.

Lemma wrap_nonneg w z : 0 <= w -> 0 <= wrap w z.
Proof. intros H. by apply wrap_range. Qed.

Lemma wrap_add_wrap_l w a b : wrap w (wrap w a + b) = wrap w (a + b).
Proof. unfold wrap. apply Zplus_mod_idemp_l. Qed.

Lemma wrap_add_wrap_r w a b : wrap w (a + wrap w b) = wrap w (a + b).
Proof. unfold wrap. apply Zplus_mod_idemp_r. Qed.

#[export] Hint Rewrite wrap_add_wrap_l wrap_add_wrap_r : bolt.
#[export] Hint Resolve wrap_range wrap_nonneg : bolt.

(** ** Lemmas on lists *)

Lemma lookup_nth_Z {A} (l : list A) (i : Z) :
  0 <= i < Z.of_nat (length l) -> exists x, l !! Z.to_nat i = Some x.
Proof. intros H. apply lookup_lt_is_Some. lia. Qed.

Lemma list_sum_app (l1 l2 : list Z) :
  foldr Z.add 0 (l1 ++ l2) = foldr Z.add 0 l1 + foldr Z.add 0 l2.
Proof. induction l1; simpl; lia. Qed.

Lemma list_sum_nonneg (l : list Z) : Forall (fun z => 0 <= z) l -> 0 <= foldr Z.add 0 l.
Proof. induction 1; simpl; lia. Qed.

Lemma take_drop_splice {A} (l : list A) (i : nat) x :
  l !! i = Some x -> l = take i l ++ x :: drop (S i) l.
Proof. intros. symmetry. by apply take_drop_middle. Qed.

Lemma filter_all {A} (P : A -> Prop) `{forall x, Decision (P x)} l :
  Forall P l -> filter P l = l.
Proof.
  induction 1 as [|x l Hx Hl IH]; [done|]. rewrite filter_cons, decide_True by done. by rewrite IH.
Qed.

Lemma filter_none {A} (P : A -> Prop) `{forall x, Decision (P x)} l :
  Forall (fun x => ~ P x) l -> filter P l = [].
Proof.
  induction 1 as [|x l Hx Hl IH]; [done|]. rewrite filter_cons, decide_False by done. done.
Qed.

Lemma lookup_head_drop {A} (l : list A) i : l !! i = head (drop i l).
Proof. rewrite head_lookup, lookup_drop. f_equal. lia. Qed.

Lemma elem_of_concat {A} (x : A) (ls : list (list A)) :
  x ∈ concat ls <-> exists l, l ∈ ls /\ x ∈ l.
Proof. rewrite list_elem_of_In, in_concat. by setoid_rewrite <-list_elem_of_In. Qed.

(** ** Sorted lists *)

Section strongly_sorted.
Context {A : Type} (R : relation A).

Lemma StronglySorted_lookup_lt l i j x y :
  StronglySorted R l -> l !! i = Some x -> l !! j = Some y -> (i < j)%nat -> R x y.
Proof.
  intros Hs Hi Hj Hij. rewrite (take_drop_splice l i x Hi) in Hs.
  apply StronglySorted_app in Hs as (_&_&Hs).
  apply StronglySorted_cons in Hs as [Hs _]. rewrite Forall_forall in Hs.
  apply Hs. apply list_elem_of_lookup. exists (j - S i)%nat.
  rewrite lookup_drop. rewrite <-Hj. f_equal. lia.
Qed.

Lemma StronglySorted_filter (P : A -> Prop) `{forall x, Decision (P x)} l :
  StronglySorted R l -> StronglySorted R (filter P l).
Proof.
  induction l as [|x l IH]; [done|]. intros [Hx Hl]%StronglySorted_cons.
  rewrite filter_cons. case_decide; [|by apply IH].
  apply StronglySorted_cons. split; [|by apply IH].
  rewrite Forall_forall in *. intros y [_ ?]%list_elem_of_filter. by apply Hx.
Qed.

Lemma StronglySorted_sublist l1 l2 :
  sublist l1 l2 -> StronglySorted R l2 -> StronglySorted R l1.
Proof.
  induction 1; [done| |]; intros [Hx Hl]%StronglySorted_cons; [|by auto].
  apply StronglySorted_cons. split; [|by auto].
  rewrite Forall_forall in *. intros y Hy. apply Hx. by eapply elem_of_sublist.
Qed.
End strongly_sorted.
