(* ===== verification/Bytes.v ===== *)
(** * Bytes.v: byte buffers, byte-string order and [Item] (src/src/Bolt/type.h)

    Buffers are [list byte]; an access outside the buffer faults.  Integers
    are stored little-endian, as the packed structs of the source are on the
    machines it runs on.  [std::string] is [list byte], ordered as
    [std::char_traits<char>::compare] orders it (unsigned bytes,
    lexicographically). *)
From S2P Require Export Prelude.
From coqutil Require Export Byte.
From coqutil Require Export Word.LittleEndianList.
From coqutil Require Z.BitOps.

(** ** Loads and stores *)

(** [n] bytes at offset [o]. *)
Definition slice (m : list byte) (o n : Z) : res (list byte) :=
  if (0 <=? o) && (0 <=? n) && (o + n <=? Z.of_nat (length m))
  then Ok (take (Z.to_nat n) (drop (Z.to_nat o) m))
  else Err OutOfBounds.

(** Overwrites the bytes at offset [o] with [bs] ([memcpy], [memmove]). *)
Definition splice (m : list byte) (o : Z) (bs : list byte) : res (list byte) :=
  if (0 <=? o) && (o + Z.of_nat (length bs) <=? Z.of_nat (length m))
  then Ok (take (Z.to_nat o) m ++ bs ++ drop (Z.to_nat o + length bs) m)
  else Err OutOfBounds.

(** An unsigned integer of [n] bytes at offset [o]. *)
Definition load (n : nat) (m : list byte) (o : Z) : res Z :=
  bs ← slice m o (Z.of_nat n); Ok (le_combine bs).
Definition store (n : nat) (m : list byte) (o : Z) (z : Z) : res (list byte) :=
  splice m o (le_split n z).

(** [lia] with the width of a [load] or [store] computed. *)
Ltac width_lia :=
  repeat match goal with
  | |- context [2 ^ (Z.of_nat ?n * 8)] =>
      let v := eval vm_compute in (2 ^ (Z.of_nat n * 8)) in
      change (2 ^ (Z.of_nat n * 8)) with v
  end; lia.

(** ** Order of [std::string] *)

Fixpoint bytes_compare (a b : list byte) : comparison :=
  match a, b with
  | [], [] => Eq
  | [], _ :: _ => Lt
  | _ :: _, [] => Gt
  | x :: a', y :: b' =>
      match byte.unsigned x ?= byte.unsigned y with
      | Eq => bytes_compare a' b'
      | c => c
      end
  end.

Definition bytes_ltb (a b : list byte) : bool :=
  match bytes_compare a b with Lt => true | _ => false end.
Definition bytes_eqb (a b : list byte) : bool :=
  match bytes_compare a b with Eq => true | _ => false end.

Definition bytes_lt (a b : list byte) : Prop := bytes_ltb a b = true.
Notation "a ≺ b" := (bytes_lt a b) (at level 70, no associativity) : bolt_scope.

(** ** [Item]: a string with its length kept in a [uint32_t] *)

Record Item := mkItem { data_ : list byte; length_ : Z }.

(** [Item()], [reset()] *)
Definition Item_empty : Item := {| data_ := []; length_ := 0 |}.
(** [Item(const string &str)] *)
Definition Item_of_string (s : list byte) : Item :=
  {| data_ := s; length_ := wrap32 (Z.of_nat (length s)) |}.
(** [Item(int size)]: [size] zero bytes *)
Definition Item_of_size (size : Z) : Item :=
  {| data_ := replicate (Z.to_nat size) Byte.x00; length_ := wrap32 size |}.
(** [Item(const char *buf, uint32_t len)], [buf] at offset [o] of [m] *)
Definition Item_of_buf (m : list byte) (o len : Z) : res Item :=
  bs ← slice m o len; Ok {| data_ := bs; length_ := len |}.

(** The comparison operators, on [data_] only. *)
Definition Item_eqb (a b : Item) : bool := bytes_eqb (data_ a) (data_ b).
Definition Item_ltb (a b : Item) : bool := bytes_ltb (data_ a) (data_ b).
Definition Item_gtb (a b : Item) : bool := bytes_ltb (data_ b) (data_ a).
(** [empty()], on [length_] only. *)
Definition Item_is_empty (a : Item) : bool := length_ a =? 0.

(** The items the constructors build: [length_] is the string's length. *)
Definition Item_wf (a : Item) : Prop :=
  length_ a = Z.of_nat (length (data_ a)) /\ length_ a < 2 ^ 32.

#[export] Instance byte_eq_dec : EqDecision byte := Byte.byte_eq_dec.
#[export] Instance byte_countable : Countable byte.
Proof. apply (inj_countable' byte.unsigned byte.of_Z), byte.of_Z_unsigned. Defined.
#[export] Instance Item_eq_dec : EqDecision Item.
Proof. solve_decision. Defined.

(** ** Order lemmas *)

Lemma bytes_compare_refl a : bytes_compare a a = Eq.
Proof. induction a as [|x a IH]; simpl; [done|]. by rewrite Z.compare_refl. Qed.

Lemma bytes_compare_eq a b : bytes_compare a b = Eq -> a = b.
Proof.
  revert b; induction a as [|x a IH]; intros [|y b]; simpl; try done.
  destruct (Z.compare_spec (byte.unsigned x) (byte.unsigned y)) as [Hxy| |]; try done.
  intros ->%IH. f_equal. by apply byte.unsigned_inj.
Qed.

Lemma bytes_compare_antisym a b : bytes_compare b a = CompOpp (bytes_compare a b).
Proof.
  revert b; induction a as [|x a IH]; intros [|y b]; simpl; try done.
  rewrite (Z.compare_antisym (byte.unsigned x) (byte.unsigned y)).
  destruct (byte.unsigned x ?= byte.unsigned y); simpl; auto.
Qed.

Lemma bytes_compare_lt_trans a b c :
  bytes_compare a b = Lt -> bytes_compare b c = Lt -> bytes_compare a c = Lt.
Proof.
  revert b c; induction a as [|x a IH]; intros [|y b] [|z c]; simpl; try done.
  destruct (Z.compare_spec (byte.unsigned x) (byte.unsigned y)) as [Hxy|Hxy|];
    destruct (Z.compare_spec (byte.unsigned y) (byte.unsigned z)) as [Hyz|Hyz|]; try done.
  - rewrite Hxy, Hyz, Z.compare_refl. apply IH.
  - rewrite Hxy. intros _ _. by rewrite (proj2 (Z.compare_lt_iff _ _) Hyz).
  - rewrite <-Hyz. intros _ _. by rewrite (proj2 (Z.compare_lt_iff _ _) Hxy).
  - intros _ _. by rewrite (proj2 (Z.compare_lt_iff _ _) (Z.lt_trans _ _ _ Hxy Hyz)).
Qed.

Lemma bytes_eqb_eq a b : bytes_eqb a b = true <-> a = b.
Proof.
  unfold bytes_eqb. split; [|intros ->; by rewrite bytes_compare_refl].
  destruct (bytes_compare a b) eqn:E; try done. intros _. by apply bytes_compare_eq.
Qed.

Lemma bytes_eqb_refl a : bytes_eqb a a = true.
Proof. by apply bytes_eqb_eq. Qed.

Lemma bytes_eqb_neq a b : bytes_eqb a b = false <-> a <> b.
Proof. rewrite <-not_true_iff_false. by rewrite bytes_eqb_eq. Qed.

#[export] Instance bytes_lt_dec a b : Decision (bytes_lt a b).
Proof. unfold bytes_lt. apply _. Defined.

#[export] Instance bytes_lt_trans : Transitive bytes_lt.
Proof.
  intros a b c. unfold bytes_lt, bytes_ltb.
  destruct (bytes_compare a b) eqn:E1; try done.
  destruct (bytes_compare b c) eqn:E2; try done.
  by rewrite (bytes_compare_lt_trans _ _ _ E1 E2).
Qed.

#[export] Instance bytes_lt_irrefl : Irreflexive bytes_lt.
Proof. intros a. unfold complement, bytes_lt, bytes_ltb. by rewrite bytes_compare_refl. Qed.

#[export] Instance bytes_lt_strict : StrictOrder bytes_lt.
Proof. split; apply _. Qed.

#[export] Instance bytes_lt_trichotomy : Trichotomy bytes_lt.
Proof.
  intros a b. unfold bytes_lt, bytes_ltb. rewrite (bytes_compare_antisym a b).
  destruct (bytes_compare a b) eqn:E; simpl; auto. right; left. by apply bytes_compare_eq.
Qed.

Lemma bytes_ltb_false a b : bytes_ltb a b = false <-> bytes_lt b a \/ a = b.
Proof.
  destruct (bytes_ltb a b) eqn:E.
  - split; [done|]. intros [H| ->]; exfalso; [|by apply (irreflexivity bytes_lt b)].
    apply (irreflexivity bytes_lt a). by transitivity b.
  - split; [|done]. intros _. destruct (trichotomy bytes_lt a b) as [H|[->|H]]; auto.
    unfold bytes_lt in H. congruence.
Qed.

Lemma bytes_lt_neq a b : bytes_lt a b -> a <> b.
Proof. intros H ->. by apply (irreflexivity bytes_lt b). Qed.

Lemma bytes_lt_asym a b : bytes_lt a b -> ~ bytes_lt b a.
Proof. intros H1 H2. apply (irreflexivity bytes_lt a). by transitivity b. Qed.

#[export] Hint Resolve bytes_lt_neq bytes_lt_asym : bolt.

(** ** Load and store lemmas *)

Lemma slice_ok m o n :
  0 <= o -> 0 <= n -> o + n <= Z.of_nat (length m) ->
  slice m o n = Ok (take (Z.to_nat n) (drop (Z.to_nat o) m)).
Proof.
  intros. unfold slice.
  rewrite !(proj2 (Z.leb_le _ _)) by lia. done.
Qed.

Lemma splice_ok m o bs :
  0 <= o -> o + Z.of_nat (length bs) <= Z.of_nat (length m) ->
  splice m o bs = Ok (take (Z.to_nat o) m ++ bs ++ drop (Z.to_nat o + length bs) m).
Proof. intros. unfold splice. rewrite !(proj2 (Z.leb_le _ _)) by lia. done. Qed.

Lemma splice_inv m o bs m' :
  splice m o bs = Ok m' ->
  0 <= o /\ o + Z.of_nat (length bs) <= Z.of_nat (length m) /\
  m' = take (Z.to_nat o) m ++ bs ++ drop (Z.to_nat o + length bs) m.
Proof. unfold splice. destruct (_ && _) eqn:E; [|done]. zb. intros. inv_res. auto. Qed.

Lemma splice_length m o bs m' : splice m o bs = Ok m' -> length m' = length m.
Proof.
  intros (?&?&->)%splice_inv. rewrite !length_app, length_take, length_drop. lia.
Qed.

Lemma slice_length m o n bs : slice m o n = Ok bs -> Z.of_nat (length bs) = n.
Proof.
  unfold slice. destruct (_ && _) eqn:E; [|done]. zb. intros; inv_res. subst.
  rewrite length_take, length_drop. lia.
Qed.

(** A slice of a buffer written by [app]: the workhorse of the codec proofs. *)
Lemma slice_app m1 bs m2 o n :
  o = Z.of_nat (length m1) -> n = Z.of_nat (length bs) ->
  slice (m1 ++ bs ++ m2) o n = Ok bs.
Proof.
  intros -> ->. rewrite slice_ok by (rewrite ?length_app; lia).
  by rewrite !Nat2Z.id, drop_app_length, take_app_length.
Qed.

Lemma load_app n m1 z m2 o :
  o = Z.of_nat (length m1) -> 0 <= z < 2 ^ (Z.of_nat n * 8) ->
  load n (m1 ++ le_split n z ++ m2) o = Ok z.
Proof.
  intros. unfold load. rewrite (slice_app m1 (le_split n z) m2) by (rewrite ?length_le_split; done).
  cbn. by rewrite le_combine_split, Z.mod_small.
Qed.

Lemma load_slice n m o z :
  slice m o (Z.of_nat n) = Ok (le_split n z) -> 0 <= z < 2 ^ (Z.of_nat n * 8) -> load n m o = Ok z.
Proof. intros H Hz. unfold load. rewrite H. cbn. by rewrite le_combine_split, Z.mod_small. Qed.

(** Loads inside a slice only depend on its bytes. *)
Lemma slice_slice m o L bs d n :
  slice m o L = Ok bs -> 0 <= d -> 0 <= n -> d + n <= L -> slice m (o + d) n = slice bs d n.
Proof.
  intros H Hd Hn HL. pose proof (slice_length _ _ _ _ H) as Hl.
  unfold slice in H. destruct (_ && _) eqn:E; [|done]. zb. injection H as <-.
  rewrite !slice_ok by lia. f_equal. rewrite skipn_firstn_comm, drop_drop, take_take.
  rewrite Nat.min_l by lia. do 2 f_equal. lia.
Qed.

Lemma load_of_slice m o L bs d n :
  slice m o L = Ok bs -> 0 <= d -> d + Z.of_nat n <= L -> load n m (o + d) = load n bs d.
Proof. intros. unfold load. by erewrite slice_slice by (done || lia). Qed.

(** Reading back what was written at the same place, and elsewhere. *)
Lemma slice_splice_same m o bs m' :
  splice m o bs = Ok m' -> slice m' o (Z.of_nat (length bs)) = Ok bs.
Proof.
  intros (?&?&->)%splice_inv. apply slice_app; [|done]. rewrite length_take. lia.
Qed.

Lemma slice_lookup m o n bs i :
  slice m o n = Ok bs -> (i < length bs)%nat -> bs !! i = m !! (Z.to_nat o + i)%nat.
Proof.
  unfold slice. destruct (_ && _) eqn:E; [|done]. zb. intros; inv_res. subst.
  rewrite length_take in *. rewrite lookup_take_lt by lia. by rewrite lookup_drop.
Qed.

Lemma splice_lookup m o bs m' i :
  splice m o bs = Ok m' ->
  m' !! i = if decide (Z.to_nat o <= i < Z.to_nat o + length bs)%nat
            then bs !! (i - Z.to_nat o)%nat else m !! i.
Proof.
  intros (?&?&->)%splice_inv.
  assert (length (take (Z.to_nat o) m) = Z.to_nat o) as Hl by (rewrite length_take; lia).
  case_decide.
  - rewrite lookup_app_r by lia. rewrite lookup_app_l by lia. by rewrite Hl.
  - destruct (decide (i < Z.to_nat o)%nat).
    + rewrite lookup_app_l by lia. by rewrite lookup_take_lt by lia.
    + rewrite lookup_app_r by lia. rewrite lookup_app_r by lia. rewrite lookup_drop, Hl.
      f_equal. lia.
Qed.

Lemma slice_splice_other m o bs m' o' n :
  splice m o bs = Ok m' ->
  o' + n <= o \/ o + Z.of_nat (length bs) <= o' ->
  slice m' o' n = slice m o' n.
Proof.
  intros Hs Hd. unfold slice. rewrite (splice_length _ _ _ _ Hs).
  destruct (_ && _) eqn:E; [|done]. f_equal. zb.
  pose proof (splice_length _ _ _ _ Hs). pose proof (splice_inv _ _ _ _ Hs) as (?&?&_).
  apply list_eq. intros i.
  destruct (decide (i < Z.to_nat n)%nat).
  - rewrite !lookup_take_lt, !lookup_drop by lia. rewrite (splice_lookup _ _ _ _ _ Hs).
    rewrite decide_False by lia. done.
  - rewrite !lookup_take_ge by lia. done.
Qed.

Lemma load_store_same n m o z m' :
  store n m o z = Ok m' -> load n m' o = Ok (z mod 2 ^ (Z.of_nat n * 8)).
Proof.
  intros H. unfold load. apply slice_splice_same in H. rewrite length_le_split in H.
  rewrite H. cbn. by rewrite le_combine_split.
Qed.

Lemma load_store_other n n' m o o' z m' :
  store n m o z = Ok m' ->
  o' + Z.of_nat n' <= o \/ o + Z.of_nat n <= o' ->
  load n' m' o' = load n' m o'.
Proof.
  intros H Hd. unfold load. erewrite slice_splice_other; [done|exact H|].
  rewrite length_le_split. lia.
Qed.

Lemma store_length n m o z m' : store n m o z = Ok m' -> length m' = length m.
Proof. apply splice_length. Qed.

Lemma load_range n m o z : load n m o = Ok z -> 0 <= z < 2 ^ (Z.of_nat n * 8).
Proof.
  unfold load. intros. inv_res. subst. apply slice_length in E.
  pose proof (le_combine_bound a). rewrite Z.mul_comm. rewrite <-E. done.
Qed.

(** A store inside the buffer succeeds. *)
Lemma splice_succeeds m o bs :
  0 <= o -> o + Z.of_nat (length bs) <= Z.of_nat (length m) -> exists m', splice m o bs = Ok m'.
Proof. intros. eexists. by apply splice_ok. Qed.

Lemma store_succeeds n m o z :
  0 <= o -> o + Z.of_nat n <= Z.of_nat (length m) -> exists m', store n m o z = Ok m'.
Proof. intros. apply splice_succeeds; [done|]. by rewrite length_le_split. Qed.

Lemma slice_inv m o n bs :
  slice m o n = Ok bs -> 0 <= o /\ 0 <= n /\ o + n <= Z.of_nat (length m).
Proof. unfold slice. destruct (_ && _) eqn:E; [|done]. zb. lia. Qed.

(** Slices of a prefix. *)
Lemma slice_take m n o k x : slice m o k = Ok x -> o + k <= Z.of_nat n -> slice (take n m) o k = Ok x.
Proof.
  intros Hs Hn. apply slice_inv in Hs as Hb. rewrite <-Hs. rewrite !slice_ok by (rewrite ?length_take; lia).
  f_equal. apply list_eq. intros i. destruct (decide (i < Z.to_nat k)%nat).
  - rewrite !lookup_take_lt, !lookup_drop, lookup_take_lt by lia. done.
  - by rewrite !lookup_take_ge by lia.
Qed.

(** ** Torn writes *)

Lemma le_combine_concat xs ys :
  le_combine (xs ++ ys) = le_combine xs + 2 ^ (8 * Z.of_nat (length xs)) * le_combine ys.
Proof.
  rewrite le_combine_app. pose proof (le_combine_bound xs) as Hb. revert Hb.
  generalize (le_combine xs) (le_combine ys). intros a b Ha.
  rewrite Z.BitOps.or_to_plus.
  - rewrite Z.shiftl_mul_pow2, (Z.mul_comm (Z.of_nat _)) by lia. ring.
  - apply Z.bits_inj'. intros n Hn. rewrite Z.land_spec, Z.bits_0, Z.shiftl_spec by lia.
    destruct (Z.ltb_spec n (8 * Z.of_nat (length xs))).
    + by rewrite (Z.testbit_neg_r _ (n - _)), andb_false_r by lia.
    + rewrite <-(Z.mod_small a (2 ^ (8 * Z.of_nat (length xs)))) by lia.
      by rewrite Z.mod_pow2_bits_high by lia.
Qed.

(** A field of [w] bytes at [s + a] after the first [n] bytes of [b] have
    been written at [s]: its low bytes come from [b], the others are old. *)
Lemma load_torn w b a x m s y n m' :
  load w b a = Ok x -> load w m (s + a) = Ok y -> 0 <= s ->
  splice m s (take n b) = Ok m' ->
  exists j, j = Z.max 0 (Z.min (Z.of_nat w) (Z.of_nat n - a)) /\
    load w m' (s + a) = Ok (x mod 2 ^ (8 * j) + 2 ^ (8 * j) * (y / 2 ^ (8 * j))).
Proof.
  unfold load. intros Hx Hy Hs0 Hs. eexists. split; [done|].
  destruct (slice b a _) as [xs|] eqn:Hxs; [|done]. destruct (slice m (s + a) _) as [ys|] eqn:Hys; [|done].
  injection Hx as <-. injection Hy as <-.
  pose proof (slice_length _ _ _ _ Hxs) as Hlx. pose proof (slice_length _ _ _ _ Hys) as Hly.
  pose proof (splice_length _ _ _ _ Hs) as Hlm.
  pose proof (slice_inv _ _ _ _ Hxs) as (?&?&?). pose proof (slice_inv _ _ _ _ Hys) as (?&?&?).
  set (k := Z.to_nat (Z.max 0 (Z.min (Z.of_nat w) (Z.of_nat n - a)))).
  assert (slice m' (s + a) (Z.of_nat w) = Ok (take k xs ++ drop k ys)) as ->.
  { rewrite slice_ok by lia. f_equal. apply list_eq. intros i.
    destruct (decide (i < w)%nat).
    2:{ rewrite lookup_take_ge by lia. symmetry. apply lookup_ge_None_2.
        rewrite length_app, length_take, length_drop. lia. }
    rewrite lookup_take_lt, lookup_drop, (splice_lookup _ _ _ _ _ Hs), length_take by lia.
    destruct (decide (i < k)%nat).
    - rewrite lookup_app_l by (rewrite length_take; lia). rewrite decide_True by lia.
      rewrite !lookup_take_lt, (slice_lookup _ _ _ _ _ Hxs) by lia. f_equal. lia.
    - rewrite lookup_app_r by (rewrite length_take; lia).
      rewrite length_take, lookup_drop, (slice_lookup _ _ _ _ _ Hys) by lia.
      rewrite decide_False by lia. f_equal. lia. }
  cbn. f_equal. rewrite le_combine_concat, length_take.
  replace (8 * Z.of_nat (k `min` length xs)) with (8 * Z.of_nat k) by lia.
  replace (Z.max 0 _) with (Z.of_nat k) by lia.
  rewrite le_combine_firstn. f_equal. f_equal.
  rewrite <-(take_drop k ys) at 2. rewrite le_combine_concat, length_take.
  replace (8 * Z.of_nat (k `min` length ys)) with (8 * Z.of_nat k) by lia.
  rewrite (Z.mul_comm (2 ^ _)), Z.div_add by lia. rewrite Z.div_small; [lia|].
  pose proof (le_combine_bound (take k ys)) as Hb. rewrite length_take in Hb.
  replace (Z.of_nat (k `min` length ys)) with (Z.of_nat k) in Hb by lia. lia.
Qed.

(** ** Frames: a store changes nothing outside its range *)

Definition same_outside (lo hi : Z) (m m' : list byte) : Prop :=
  length m' = length m /\
  forall i, Z.of_nat i < lo \/ hi <= Z.of_nat i -> m' !! i = m !! i.

#[export] Instance same_outside_refl lo hi : Reflexive (same_outside lo hi).
Proof. intros m. done. Qed.

#[export] Instance same_outside_trans lo hi : Transitive (same_outside lo hi).
Proof.
  intros m1 m2 m3 [Hl1 H1] [Hl2 H2]. split; [congruence|]. intros i Hi.
  by rewrite H2, H1 by done.
Qed.

Lemma splice_same_outside m o bs m' lo hi :
  splice m o bs = Ok m' -> lo <= o -> o + Z.of_nat (length bs) <= hi -> same_outside lo hi m m'.
Proof.
  intros Hs Hlo Hhi. split; [by eapply splice_length|]. intros i Hi.
  rewrite (splice_lookup _ _ _ _ _ Hs). apply splice_inv in Hs as (?&?&_).
  rewrite decide_False by lia. done.
Qed.

Lemma store_same_outside n m o z m' lo hi :
  store n m o z = Ok m' -> lo <= o -> o + Z.of_nat n <= hi -> same_outside lo hi m m'.
Proof. intros H ? ?. eapply splice_same_outside; [done|done|]. by rewrite length_le_split. Qed.

Lemma same_outside_slice lo hi m m' o n :
  same_outside lo hi m m' -> o + n <= lo \/ hi <= o -> slice m' o n = slice m o n.
Proof.
  intros [Hl Hs] Hd. unfold slice. rewrite Hl. destruct (_ && _) eqn:E; [|done]. zb. f_equal.
  apply list_eq. intros i. destruct (decide (i < Z.to_nat n)%nat).
  - rewrite !lookup_take_lt, !lookup_drop by lia. apply Hs. lia.
  - rewrite !lookup_take_ge by lia. done.
Qed.

Lemma same_outside_length lo hi m m' : same_outside lo hi m m' -> length m' = length m.
Proof. by intros [? _]. Qed.

(** ** A sequence of stores to disjoint fields *)

Fixpoint stores (m : list byte) (l : list (nat * Z * Z)) : res (list byte) :=
  match l with
  | [] => Ok m
  | (n, o, z) :: l => m ← store n m o z; stores m l
  end.

(** The fields [l] lie in [lo, hi) and do not overlap. *)
Fixpoint disjoint_fields (lo hi : Z) (l : list (nat * Z * Z)) : Prop :=
  match l with
  | [] => True
  | (n, o, _) :: l =>
      lo <= o /\ o + Z.of_nat n <= hi /\
      Forall (fun '(n', o', _) => o' + Z.of_nat n' <= o \/ o + Z.of_nat n <= o') l /\
      disjoint_fields lo hi l
  end.

Lemma stores_ok l lo hi m :
  0 <= lo -> hi <= Z.of_nat (length m) -> disjoint_fields lo hi l ->
  exists m', stores m l = Ok m' /\ same_outside lo hi m m' /\
    (forall n o, Forall (fun '(n', o', _) => o + Z.of_nat n <= o' \/ o' + Z.of_nat n' <= o) l ->
       load n m' o = load n m o) /\
    Forall (fun '(n, o, z) => load n m' o = Ok (z mod 2 ^ (Z.of_nat n * 8))) l.
Proof.
  intros Hlo Hhi. revert m Hhi. induction l as [|[[n o] z] l IH]; intros m Hhi Hd; cbn.
  { exists m. split_and!; done. }
  destruct Hd as (?&?&Hdis&Hd).
  destruct (store_succeeds n m o z) as [m1 H1]; [lia|lia|]. rewrite H1. cbn [mbind res_bind].
  destruct (IH m1) as (m2&->&Hso&Hother&Hl); [by rewrite (store_length _ _ _ _ _ H1)|done|].
  exists m2. split_and!; [done| | |].
  - transitivity m1; [by eapply store_same_outside|done].
  - intros n' o' [Hn Hf]%Forall_cons. rewrite Hother by done.
    eapply load_store_other; [exact H1|lia].
  - apply Forall_cons. split; [|done]. rewrite Hother; [by eapply load_store_same|].
    eapply Forall_impl; [exact Hdis|]. intros [[n' o'] z']. lia.
Qed.

(** ** [Item] lemmas *)

Lemma Item_eqb_eq a b : Item_eqb a b = true <-> data_ a = data_ b.
Proof. apply bytes_eqb_eq. Qed.

Lemma Item_of_string_wf s : Z.of_nat (length s) < 2 ^ 32 -> Item_wf (Item_of_string s).
Proof. intros H. split; cbn; rewrite wrap_id by lia; lia. Qed.

