(* ===== verification/FileUtil.v ===== *)
(** * FileUtil.v: appending to and reading small files (src/src/Bolt/file_util.h, file_util.cc)

    The queries of a file's size and the space around it; [AppendFile], over
    C streams known by their documented behaviour ([CStreamLaws]); and
    [ReadSmallFile].  What the system calls return is a parameter.  The texts
    of error messages are left out. *)
From S2P Require Import Bytes.

(** ** Sizes *)

(** A 64-bit unsigned value as a [long]. *)
Definition to_long (z : Z) : Z := if z <? 2 ^ 63 then z else z - 2 ^ 64.

(** [GetAvailableSpace(path)] and [GetAvailableSpace(fd)]: what [statvfs] or
    [fstatvfs] fills in, [f_bsize] and [f_bavail], or [None] when it fails *)
Definition GetAvailableSpace_path (statvfs : option (Z * Z)) : Z :=
  match statvfs with
  | None => -1
  | Some (f_bsize, f_bavail) => to_long (wrap64 (f_bsize * f_bavail))
  end.
Definition GetAvailableSpace_fd (fstatvfs : option (Z * Z)) : Z :=
  match fstatvfs with
  | None => -1
  | Some (f_bsize, f_bavail) => to_long (wrap64 (f_bsize * f_bavail))
  end.

(** [GetFileSize(fd)]: 0 also when [fstat] fails *)
Definition GetFileSize (fstat : option Z) : Z :=
  match fstat with None => 0 | Some st_size => st_size end.

(** ** [AppendFile] *)

(** A stream opened to append, with a buffer: [fwrite_unlocked] gives the
    number of bytes it took, [fflush] whether it succeeded, and [fclose] also
    what the file holds then. *)
Class CStream := {
  stream : Type;
  fwrite : stream -> list byte -> nat * stream;
  fflush : stream -> bool * stream;
  fclose : stream -> bool * list byte;
}.

(** What the C library documents: bytes are taken in order, from the front;
    those taken are in the file or in the buffer, and the file only grows; a
    flush or a close that succeeds leaves nothing in the buffer. *)
Class CStreamLaws `{CStream} := {
  on_file : stream -> list byte;
  buffered : stream -> list byte;
  fwrite_takes s bs : let '(n, s') := fwrite s bs in
    (n <= length bs)%nat /\ on_file s `prefix_of` on_file s' /\
    on_file s' ++ buffered s' = (on_file s ++ buffered s) ++ take n bs;
  fflush_writes s : let '(ok, s') := fflush s in
    on_file s `prefix_of` on_file s' /\ (ok = true -> on_file s' = on_file s ++ buffered s /\ buffered s' = []);
  fclose_writes s : let '(ok, f) := fclose s in
    on_file s `prefix_of` f /\ (ok = true -> f = on_file s ++ buffered s);
}.

(** What the stream has taken. *)
Definition taken `{CStreamLaws} (s : stream) : list byte := on_file s ++ buffered s.

Record AppendFile `{CStream} := mkAppendFile {
  fp_ : stream;
  writtenBytes_ : Z;  (* size_t *)
}.

Section append.
Context `{CStream}.

(** [AppendFile(filename)], given what [fopen] returns *)
Definition AppendFile_new (fopen : option stream) : res AppendFile :=
  match fopen with
  | None => Err AssertFailed
  | Some fp => Ok {| fp_ := fp; writtenBytes_ := 0 |}
  end.

(** [write(logline, len)]: the number of bytes taken *)
Definition write (f : AppendFile) (bs : list byte) : nat * AppendFile :=
  let '(n, fp) := fwrite (fp_ f) bs in (n, mkAppendFile _ fp (writtenBytes_ f)).

(** The loop of [append], [n] bytes of [logline] written. *)
Fixpoint append_loop (fuel : nat) (f : AppendFile) (logline : list byte) (n : nat) : res (nat * AppendFile) :=
  match fuel with
  | O => Err OutOfFuel
  | S fuel =>
      if decide (length logline - n = 0)%nat then Ok (n, f)
      else
        let '(x, f) := write f (drop n logline) in
        if decide (x = 0)%nat then Ok (n, f) else append_loop fuel f logline (n + x)
  end.

(** [append(logline, len)]; each round but the last writes a byte, so [len + 1]
    rounds are enough. *)
Definition append (f : AppendFile) (logline : list byte) : res AppendFile :=
  let '(n, f) := write f logline in
  '(_, f) ← append_loop (S (length logline)) f logline n;
  Ok (mkAppendFile _ (fp_ f) (wrap64 (writtenBytes_ f + wrap64 (Z.of_nat (length logline))))).

(** [DummyIncWrittenBytes(len)] *)
Definition DummyIncWrittenBytes (f : AppendFile) (len : Z) : AppendFile :=
  mkAppendFile _ (fp_ f) (wrap64 (writtenBytes_ f + len)).

(** [flush()] *)
Definition flush (f : AppendFile) : AppendFile := mkAppendFile _ (fflush (fp_ f)).2 (writtenBytes_ f).

(** The destructor: what the file holds then. *)
Definition AppendFile_delete (f : AppendFile) : list byte := (fclose (fp_ f)).2.

(** The uses of an object between its constructor and its destructor. *)
Variant use := Append (logline : list byte) | Flush | DummyInc (len : Z).

Fixpoint run_uses (us : list use) (f : AppendFile) : res AppendFile :=
  match us with
  | [] => Ok f
  | Append logline :: us => f ← append f logline; run_uses us f
  | Flush :: us => run_uses us (flush f)
  | DummyInc len :: us => run_uses us (DummyIncWrittenBytes f len)
  end.
End append.

(** The lines appended, and the bytes counted. *)
Definition appended (us : list use) : list byte :=
  flat_map (fun u => match u with Append logline => logline | _ => [] end) us.
Definition counted (us : list use) : Z :=
  foldr (fun u z => match u with Append logline => Z.of_nat (length logline) + z | DummyInc len => len + z | Flush => z end) 0 us.

(** ** [ReadSmallFile] *)

Definition kBufferSize : Z := 64 * 1024.
Definition EISDIR : Z := 21.

Record ReadSmallFile := mkReadSmallFile {
  fd_ : Z;
  err_ : Z;
  buf_ : list byte;
}.

(** [ReadSmallFile(filename)]: [open] gives a descriptor, or a negative number
    and [errno]; only the first byte of [buf_] is initialised. *)
Definition ReadSmallFile_new (open errno : Z) (garbage : list byte) : ReadSmallFile :=
  {| fd_ := open; err_ := if open <? 0 then errno else 0; buf_ := <[0%nat := Byte.x00]> garbage |}.

(** The open descriptors after [open], which fails with a negative number. *)
Definition opened (open : Z) (fds : gset Z) : gset Z := if open <? 0 then fds else {[open]} ∪ fds.

(** The destructor: the open descriptors without the file's own. *)
Definition ReadSmallFile_delete (f : ReadSmallFile) (fds : gset Z) : gset Z :=
  if 0 <=? fd_ f then fds ∖ {[fd_ f]} else fds.

(** [struct stat], as far as it is looked at *)
Variant file_mode := S_IFREG | S_IFDIR | S_IFOTHER.
Record stat := mkStat { st_mode : file_mode; st_size : Z; st_mtime : Z; st_ctime : Z }.

(** What the pointers [fileSize], [modifyTime] and [createTime] point to;
    [None] is a null pointer. *)
Record outputs := mkOutputs { fileSize : option Z; modifyTime : option Z; createTime : option Z }.
Definition store_out (p : option Z) (z : Z) : option Z := match p with None => None | Some _ => Some z end.

(** [content->reserve(static_cast<int>(n))]: a negative [int] is a length no
    string can have. *)
Definition reserve (n : Z) : res unit := if n <? 0 then Err LengthError else Ok tt.

(** The block of [readToString] under [if (fileSize)]: the outputs and [err];
    [fstat] gives a [stat] or an error number. *)
Definition stat_outputs (fstat : stat + Z) (maxSize err : Z) (o : outputs) : res (outputs * Z) :=
  match fileSize o with
  | None => Ok (o, err)
  | Some _ =>
      match fstat with
      | inr errno => Ok (o, errno)
      | inl st =>
          '(size, err) ← match st_mode st with
                         | S_IFREG => _ ← reserve (Z.min maxSize (st_size st)); Ok (Some (st_size st), err)
                         | S_IFDIR => Ok (fileSize o, EISDIR)
                         | S_IFOTHER => Ok (fileSize o, err)
                         end;
          Ok (mkOutputs size (store_out (modifyTime o) (st_mtime st)) (store_out (createTime o) (st_ctime st)), err)
      end
  end.

(** What [read] returns at file offset [pos] when [n] bytes are asked for:
    data, or an error number.  The descriptor is fresh, so the offset is the
    number of bytes read. *)
Variant read_result := ReadData (bs : list byte) | ReadError (errno : Z).

Section read.
Context (read : nat -> Z -> read_result).

(** The loop of [readToString]: the content and [err]. *)
Fixpoint read_loop (fuel : nat) (maxSize : Z) (content : list byte) (err : Z) : res (list byte * Z) :=
  match fuel with
  | O => Err OutOfFuel
  | S fuel =>
      if Z.of_nat (length content) <? wrap64 maxSize then
        match read (length content) (Z.min (wrap64 maxSize - Z.of_nat (length content)) kBufferSize) with
        | ReadData [] => Ok (content, err)
        | ReadData bs => read_loop fuel maxSize (content ++ bs) err
        | ReadError e => Ok (content, e)
        end
      else Ok (content, err)
  end.

(** [readToString(maxSize, &content, fileSize, modifyTime, createTime)]: a
    file that is not open leaves [content] as it is. *)
Definition readToString (fuel : nat) (f : ReadSmallFile) (fstat : stat + Z) (maxSize : Z) (content : list byte)
    (o : outputs) : res (list byte * outputs * Z) :=
  if 0 <=? fd_ f then
    '(o, err) ← stat_outputs fstat maxSize (err_ f) o;
    '(content, err) ← read_loop fuel maxSize [] err;
    Ok (content, o, err)
  else Ok (content, o, err_ f).

(** [readFile(filename, maxSize, content, fileSize, modifyTime, createTime)],
    the descriptors of the process before and after: the object closes its
    own when it goes out of scope. *)
Definition readFile (fuel : nat) (fds : gset Z) (open errno : Z) (garbage : list byte) (fstat : stat + Z) (maxSize : Z)
    (content : list byte) (o : outputs) : res (list byte * outputs * Z * gset Z) :=
  let file := ReadSmallFile_new open errno garbage in
  '(content, o, err) ← readToString fuel file fstat maxSize content o;
  Ok (content, o, err, ReadSmallFile_delete file (opened open fds)).
End read.

(** [buf_[i .. ] = bs] *)
Definition store_buf (i : nat) (bs buf : list byte) : res (list byte) :=
  if decide (i + length bs <= length buf)%nat then Ok (take i buf ++ bs ++ drop (i + length bs) buf) else Err OutOfBounds.

Lemma store_buf_ok i bs buf : (i + length bs <= length buf)%nat ->
  store_buf i bs buf = Ok (take i buf ++ bs ++ drop (i + length bs) buf).
Proof. intros ?. unfold store_buf. by rewrite decide_True. Qed.

(** [readToBuffer(size)], [pread] giving data or an error number: the error
    number, what [size] points to, and the file *)
Definition readToBuffer (pread : Z -> read_result) (f : ReadSmallFile) (size : option Z)
    : res (Z * option Z * ReadSmallFile) :=
  if 0 <=? fd_ f then
    match pread (kBufferSize - 1) with
    | ReadData bs =>
        buf ← store_buf 0 bs (buf_ f);
        buf ← store_buf (length bs) [Byte.x00] buf;
        Ok (err_ f, store_out size (Z.of_nat (length bs)), mkReadSmallFile (fd_ f) (err_ f) buf)
    | ReadError errno => Ok (errno, size, f)
    end
  else Ok (err_ f, size, f).

(** ** Lemmas *)

Section append_lemmas.
Context `{CStreamLaws}.
#[local] Set Default Proof Using "All".

(** The stream takes something of whatever it is given. *)
Definition never_full : Prop := forall s bs, bs <> [] -> (0 < (fwrite s bs).1)%nat.

Lemma write_taken f bs : let '(n, f') := write f bs in
  (n <= length bs)%nat /\ taken (fp_ f') = taken (fp_ f) ++ take n bs /\ on_file (fp_ f) `prefix_of` on_file (fp_ f') /\
  writtenBytes_ f' = writtenBytes_ f /\ (never_full -> bs <> [] -> (0 < n)%nat).
Proof.
  unfold write. pose proof (fwrite_takes (fp_ f) bs) as Hw. destruct (fwrite (fp_ f) bs) as [n fp] eqn:E.
  destruct Hw as (Hn&Hp&Ht). split_and!; try done. intros Hall Hbs. specialize (Hall (fp_ f) bs Hbs). by rewrite E in Hall.
Qed.

Lemma append_loop_ok fuel : forall f logline n,
  (n <= length logline)%nat -> (length logline - n < fuel)%nat ->
  exists m f', append_loop fuel f logline n = Ok (m, f') /\ (n <= m <= length logline)%nat /\
    taken (fp_ f') = taken (fp_ f) ++ take (m - n) (drop n logline) /\ on_file (fp_ f) `prefix_of` on_file (fp_ f') /\
    writtenBytes_ f' = writtenBytes_ f /\ (never_full -> m = length logline).
Proof.
  induction fuel as [|fuel IH]; intros f logline n Hn Hf; [lia|]. cbn [append_loop].
  destruct (decide (length logline - n = 0)%nat) as [Hz|Hz].
  { exists n, f. rewrite Nat.sub_diag, take_0, app_nil_r. split_and!; try done; lia. }
  pose proof (write_taken f (drop n logline)) as Hw. destruct (write f (drop n logline)) as [x f1].
  rewrite length_drop in Hw. destruct Hw as (Hx&Ht&Hp&Hw&Hall).
  assert (drop n logline <> []) as Hne by (intros He; apply (f_equal length) in He; rewrite length_drop in He; cbn in He; lia).
  destruct (decide (x = 0)%nat) as [->|Hx0].
  - exists n, f1. rewrite Nat.sub_diag, take_0. rewrite take_0 in Ht. split_and!; try done; [lia..|].
    intros Hfull. specialize (Hall Hfull Hne). lia.
  - destruct (IH f1 logline (n + x)%nat) as (m&f'&->&Hm&Ht'&Hp'&Hw'&Hall'); [lia..|].
    exists m, f'. split_and!; [done|lia|lia| |by transitivity (on_file (fp_ f1))|congruence|done].
    rewrite Ht', Ht, <-app_assoc. f_equal. rewrite <-drop_drop.
    replace (m - n)%nat with (x + (m - (n + x)))%nat by lia.
    rewrite <-(take_drop x (drop n logline)) at 3. by rewrite take_app_add' by (rewrite length_take, length_drop; lia).
Qed.
End append_lemmas.

(** A file with contents [bytes]: a read returns at least a byte before the
    end, and nothing there. *)
Definition reads_file (read : nat -> Z -> read_result) (bytes : list byte) : Prop :=
  forall pos n, 0 < n -> exists c, read pos n = ReadData (take c (drop pos bytes)) /\
    Z.of_nat c <= n /\ ((pos < length bytes)%nat -> (0 < c)%nat).

Lemma read_loop_ok read bytes maxSize err : reads_file read bytes -> 0 <= maxSize < 2 ^ 31 ->
  forall fuel pos, (pos <= length bytes)%nat -> Z.of_nat pos <= maxSize -> (length bytes - pos < fuel)%nat ->
  read_loop read fuel maxSize (take pos bytes) err = Ok (take (Z.to_nat maxSize) bytes, err).
Proof.
  intros Hread Hmax. induction fuel as [|fuel IH]; intros pos Hpos Hle Hfuel; [lia|]. cbn [read_loop].
  rewrite length_take, Nat.min_l by lia. rewrite wrap_id by lia.
  destruct (Z.ltb_spec (Z.of_nat pos) maxSize) as [Hlt|Hge]; [|do 2 f_equal; f_equal; lia].
  destruct (Hread pos (Z.min (maxSize - Z.of_nat pos) kBufferSize)) as (c&->&Hc&Hpos0); [unfold kBufferSize; lia|].
  destruct (take c (drop pos bytes)) as [|b bs] eqn:E.
  - assert (pos = length bytes) as ->.
    { apply (f_equal length) in E. rewrite length_take, length_drop in E. cbn in E.
      destruct (decide (pos < length bytes)%nat) as [Hin|]; [|lia]. specialize (Hpos0 Hin). lia. }
    rewrite !take_ge by lia. done.
  - assert (c <> 0)%nat as Hc0 by (intros ->; by rewrite take_0 in E).
    assert (take pos bytes ++ b :: bs = take (pos + Nat.min c (length bytes - pos)) bytes) as ->.
    { rewrite <-E, take_take_drop.
      destruct (Nat.min_spec c (length bytes - pos)) as [[_ ->]|[? ->]]; [done|].
      by rewrite !take_ge by lia. }
    apply IH; [lia| |].
    + unfold kBufferSize in Hc. lia.
    + destruct (decide (pos < length bytes)%nat); [lia|]. exfalso.
      rewrite drop_ge in E by lia. by rewrite take_nil in E.
Qed.

(** ** Properties *)

(** [append] always returns, having handed a prefix of the line to the
    stream in order, all of it when every call takes something; the count of
    written bytes grows by the whole length, also when the stream refused
    part of the line. *)
Lemma append_prefix `{CStreamLaws} f logline :
  exists m f', append f logline = Ok f' /\ (m <= length logline)%nat /\
    taken (fp_ f') = taken (fp_ f) ++ take m logline /\ on_file (fp_ f) `prefix_of` on_file (fp_ f') /\
    (never_full -> m = length logline) /\
    writtenBytes_ f' = wrap64 (writtenBytes_ f + Z.of_nat (length logline)).
Proof.
  unfold append. pose proof (write_taken f logline) as Hw. destruct (write f logline) as [n f1].
  destruct Hw as (Hn&Ht&Hp&Hw&_).
  destruct (append_loop_ok (S (length logline)) f1 logline n) as (m&f'&->&Hm&Ht'&Hp'&Hw'&Hall); [lia..|].
  exists m. eexists. split; [reflexivity|]. cbn [fp_ writtenBytes_]. split_and!; [lia| |by transitivity (on_file (fp_ f1))|done|].
  - rewrite Ht', Ht, <-app_assoc. f_equal. replace m with (n + (m - n))%nat at 2 by lia.
    rewrite <-(take_drop n logline) at 3. by rewrite take_app_add' by (rewrite length_take; lia).
  - by rewrite Hw', Hw, wrap_add_wrap_r.
Qed.

(** What is appended reaches the file, in order and once: over a stream that
    always takes something, and whose flushes succeed, the uses of an
    [AppendFile] never fail; after them the stream has taken the lines, a
    flush puts all of it in the file, and so does the destructor. *)
Lemma append_file_complete `{CStreamLaws} us : forall f,
  never_full -> (forall s, (fflush s).1 = true) -> (forall s, (fclose s).1 = true) -> 0 <= writtenBytes_ f < 2 ^ 64 ->
  exists f', run_uses us f = Ok f' /\ taken (fp_ f') = taken (fp_ f) ++ appended us /\
    on_file (fp_ f) `prefix_of` on_file (fp_ f') /\ on_file (fp_ (flush f')) = taken (fp_ f) ++ appended us /\
    AppendFile_delete f' = taken (fp_ f) ++ appended us /\
    writtenBytes_ f' = wrap64 (writtenBytes_ f + counted us).
Proof.
  intros f Hfull Hflush Hclose. revert f.
  assert (forall f, on_file (fp_ (flush f)) = taken (fp_ f) /\ buffered (fp_ (flush f)) = [] /\
    on_file (fp_ f) `prefix_of` on_file (fp_ (flush f))) as Hfl.
  { intros f. unfold flush. cbn [fp_]. pose proof (fflush_writes (fp_ f)) as Hw. pose proof (Hflush (fp_ f)) as Hok.
    destruct (fflush (fp_ f)) as [ok s']. cbn in *. destruct Hw as [Hp Hw]. by destruct (Hw Hok). }
  induction us as [|u us IH]; intros f Hw.
  - exists f. cbn [run_uses appended counted flat_map foldr]. rewrite app_nil_r, Z.add_0_r, wrap_id by done.
    split_and!; try done; [apply Hfl|]. unfold AppendFile_delete. pose proof (fclose_writes (fp_ f)) as Hc.
    pose proof (Hclose (fp_ f)) as Hok. destruct (fclose (fp_ f)) as [ok c]. cbn in *. by apply Hc.
  - destruct u as [logline| |len]; cbn [run_uses appended counted flat_map foldr]; fold (appended us); fold (counted us).
    + destruct (append_prefix f logline) as (m&f1&->&_&Ht&Hp&Hm&Hw1). rewrite (Hm Hfull), take_ge in Ht by done.
      destruct (IH f1) as (f'&Hrun&Ht'&Hp'&Hf'&Hd'&Hw'); [rewrite Hw1; by apply wrap_range|].
      exists f'. cbn [mbind res_bind]. rewrite Hrun. rewrite Ht, <-!app_assoc in *.
      split_and!; try done; [by transitivity (on_file (fp_ f1))|]. by rewrite Hw', Hw1, wrap_add_wrap_l, Z.add_assoc.
    + destruct (Hfl f) as (Hon&Hbuf&Hp). destruct (IH (flush f)) as (f'&Hrun&Ht'&Hp'&Hf'&Hd'&Hw'); [done|].
      assert (taken (fp_ (flush f)) = taken (fp_ f)) as Ht by (unfold taken at 1; by rewrite Hbuf, app_nil_r).
      rewrite Ht in *. exists f'. split_and!; try done. by transitivity (on_file (fp_ (flush f))).
    + destruct (IH (DummyIncWrittenBytes f len)) as (f'&Hrun&Ht'&Hp'&Hf'&Hd'&Hw'); [by apply wrap_range|].
      exists f'. split_and!; try done. rewrite Hw'. cbn [DummyIncWrittenBytes writtenBytes_].
      by rewrite wrap_add_wrap_l, Z.add_assoc.
Qed.

(** A stream with a buffer of four bytes that takes two at a time. *)
#[local] Instance two_byte_stream : CStream := {
  stream := list byte * list byte;
  fwrite := fun s bs => let n := Nat.min 2 (length bs) in
    (n, if decide (length s.2 + n <= 4)%nat then (s.1, s.2 ++ take n bs) else (s.1 ++ s.2, take n bs));
  fflush := fun s => (true, (s.1 ++ s.2, []));
  fclose := fun s => (true, s.1 ++ s.2);
}.

#[local] Instance two_byte_laws : CStreamLaws (H:=two_byte_stream).
Proof.
  refine {| on_file := fst : @stream two_byte_stream -> _; buffered := snd |}.
  - intros [f b] bs. cbn -[Nat.min]. split; [apply Nat.le_min_r|]. case_decide; cbn -[Nat.min]; [|split; [by apply prefix_app_r|by rewrite <-app_assoc]].
    split; [done|by rewrite app_assoc].
  - intros [f b]. cbn. split; [by apply prefix_app_r|done].
  - intros [f b]. cbn. split; [by apply prefix_app_r|done].
Defined.

Lemma append_file_complete_witness :
  exists f', run_uses (H:=two_byte_stream) [Append [Byte.x01; Byte.x02; Byte.x03]; Flush; Append [Byte.x04; Byte.x05]]
      (mkAppendFile two_byte_stream ([Byte.x00], []) 7) = Ok f' /\
    AppendFile_delete f' = [Byte.x00; Byte.x01; Byte.x02; Byte.x03; Byte.x04; Byte.x05] /\ writtenBytes_ f' = 12.
Proof.
  destruct (append_file_complete [Append [Byte.x01; Byte.x02; Byte.x03]; Flush; Append [Byte.x04; Byte.x05]]
    (mkAppendFile two_byte_stream ([Byte.x00], []) 7)) as (f'&Hrun&_&_&_&Hd&Hw).
  - intros s [|b bs] Hbs; [done|]. cbn. lia.
  - done.
  - done.
  - cbn. lia.
  - exists f'. split; [exact Hrun|]. split; [exact Hd|exact Hw].
Defined.

(** [readFile] of a file that opens reads its first [maxSize] bytes, in
    however many pieces [read] delivers them, and stops after at most a round
    per byte; asked for it, it reports the size and times [fstat] gives, and
    the error number of an [fstat] that fails, or of a directory, and 0
    otherwise.  The descriptors open afterwards are those open before. *)
Lemma readFile_prefix read bytes fuel fds fd errno garbage fstat maxSize content o :
  reads_file read bytes -> 0 <= fd -> fd ∉ fds -> 0 <= maxSize < 2 ^ 31 -> (length bytes < fuel)%nat ->
  (forall st, fstat = inl st -> 0 <= st_size st) ->
  exists o' err, readFile read fuel fds fd errno garbage fstat maxSize content o =
      Ok (take (Z.to_nat maxSize) bytes, o', err, fds) /\
    match fileSize o, fstat with
    | None, _ => o' = o /\ err = 0
    | Some _, inr e => o' = o /\ err = e
    | Some _, inl st =>
        modifyTime o' = store_out (modifyTime o) (st_mtime st) /\ createTime o' = store_out (createTime o) (st_ctime st) /\
        (st_mode st = S_IFREG -> fileSize o' = Some (st_size st) /\ err = 0) /\
        (st_mode st <> S_IFREG -> fileSize o' = fileSize o /\ err = if st_mode st is S_IFDIR then EISDIR else 0)
    end.
Proof.
  intros Hread Hfd Hnew Hmax Hfuel Hsize.
  unfold readFile, readToString, ReadSmallFile_new, ReadSmallFile_delete, opened. cbn [fd_ err_].
  rewrite (proj2 (Z.leb_le 0 fd)), (proj2 (Z.ltb_ge fd 0)) by done.
  replace (({[fd]} ∪ fds) ∖ {[fd]}) with fds by set_solver.
  assert (forall err, read_loop read fuel maxSize [] err = Ok (take (Z.to_nat maxSize) bytes, err)) as Hloop
    by (intros err; apply (read_loop_ok read bytes maxSize err Hread Hmax fuel 0); lia).
  unfold stat_outputs. destruct o as [[sz|] mt ct], fstat as [st|e]; cbn [fileSize mbind res_bind modifyTime createTime];
    [|rewrite Hloop; by eexists _, _..].
  pose proof (Hsize st eq_refl) as Hst. unfold reserve.
  destruct (st_mode st) eqn:E; [rewrite (proj2 (Z.ltb_ge _ _)) by lia|..]; cbn [mbind res_bind]; rewrite Hloop;
    (eexists _, _; split; [reflexivity|]); cbn; by split_and!.
Qed.

(** A file of three bytes delivered one at a time. *)
Lemma readFile_prefix_witness :
  exists o' err, readFile (fun pos _ => ReadData (take 1 (drop pos [Byte.x01; Byte.x02; Byte.x03]))) 4 {[0]} 5 0 (replicate 10 Byte.x2a)
      (inl (mkStat S_IFREG 3 100 90)) 2 [] (mkOutputs (Some 0) (Some 0) None) = Ok ([Byte.x01; Byte.x02], o', err, {[0]}) /\
    fileSize o' = Some 3 /\ modifyTime o' = Some 100.
Proof.
  destruct (readFile_prefix (fun pos _ => ReadData (take 1 (drop pos [Byte.x01; Byte.x02; Byte.x03])))
    [Byte.x01; Byte.x02; Byte.x03] 4 {[0]} 5 0 (replicate 10 Byte.x2a) (inl (mkStat S_IFREG 3 100 90)) 2 []
    (mkOutputs (Some 0) (Some 0) None)) as (o'&err&Hrun&Hmt&_&Hsz&_).
  - intros pos n Hn. exists 1%nat. split; [reflexivity|]. lia.
  - lia.
  - set_solver.
  - lia.
  - cbn. lia.
  - intros st [= <-]. cbn. lia.
  - exists o', err. split; [exact Hrun|]. split; [by apply Hsz|exact Hmt].
Defined.

(** [readToBuffer] stays within [buf_]: whatever number of bytes [pread]
    delivers, up to what it is asked for, they fit with the terminating zero;
    the buffer then starts with them and the zero. *)
Lemma readToBuffer_bounds pread f size bs :
  0 <= fd_ f -> Z.of_nat (length (buf_ f)) = kBufferSize ->
  pread (kBufferSize - 1) = ReadData bs -> Z.of_nat (length bs) <= kBufferSize - 1 ->
  exists f', readToBuffer pread f size = Ok (err_ f, store_out size (Z.of_nat (length bs)), f') /\
    length (buf_ f') = length (buf_ f) /\ take (S (length bs)) (buf_ f') = bs ++ [Byte.x00].
Proof.
  intros Hfd Hlen Hp Hbs. unfold readToBuffer. rewrite (proj2 (Z.leb_le 0 _)) by done. rewrite Hp.
  unfold kBufferSize in *. rewrite store_buf_ok by (cbn; lia). cbn [mbind res_bind].
  rewrite store_buf_ok by (rewrite !length_app, length_drop; cbn; lia). cbn [mbind res_bind].
  eexists. split; [reflexivity|]. cbn [buf_]. rewrite take_0. cbn [app Nat.add]. rewrite take_app_length, drop_app. split.
  - rewrite length_app. cbn [length]. rewrite length_app, !length_drop. cbn. lia.
  - rewrite cons_middle, app_assoc, take_app_le by (rewrite length_app; cbn; lia).
    rewrite take_ge; [done|]. rewrite length_app. cbn. lia.
Qed.

Lemma readToBuffer_bounds_witness :
  exists f', readToBuffer (fun _ => ReadData [Byte.x07]) (mkReadSmallFile 3 0 (replicate (Z.to_nat kBufferSize) Byte.x00)) (Some 0) =
      Ok (0, Some 1, f') /\ take 2 (buf_ f') = [Byte.x07; Byte.x00].
Proof.
  destruct (readToBuffer_bounds (fun _ => ReadData [Byte.x07]) (mkReadSmallFile 3 0 (replicate (Z.to_nat kBufferSize) Byte.x00))
    (Some 0) [Byte.x07]) as (f'&Hrun&_&Ht).
  - cbn. lia.
  - cbn [buf_]. rewrite length_replicate. unfold kBufferSize. lia.
  - reflexivity.
  - cbn. unfold kBufferSize. lia.
  - exists f'. split; [exact Hrun|exact Ht].
Defined.
