(* ===== verification/FileLock.v ===== *)
(** * FileLock.v: the lock file (src/src/Bolt/util.h)

    [FlockUtil] keeps two databases from opening the same file: it opens a
    lock file next to it and takes an exclusive [flock] on it.  The kernel is
    a parameter ([FlockOS]), known by its documented behaviour
    ([FlockLaws]). *)
From stdpp Require Import strings.
From S2P Require Import Bytes.
#[local] Open Scope Z_scope.

(** ** The system calls *)

(** [open(path, O_RDWR | O_CREAT, 0600)] gives a descriptor or a negative
    number; [flock] gives 0 or -1, and [errno]. *)
Class FlockOS := {
  os : Type;
  os_open : os -> string -> Z * os;
  os_flock_ex : os -> Z -> (Z * Z) * os;  (* flock(fd, LOCK_EX | LOCK_NB) *)
  os_flock_un : os -> Z -> os;  (* flock(fd, LOCK_UN) *)
  os_close : os -> Z -> os;
}.

Definition EAGAIN : Z := 11.

(** ** [FlockUtil] *)

Record FlockUtil := mkFlockUtil {
  lock_file_ : string;
  fd_ : Z;
}.
Definition set_fd (z : Z) (u : FlockUtil) : FlockUtil := {| lock_file_ := lock_file_ u; fd_ := z |}.

(** The constructor leaves [fd_] as it finds it: [garbage]. *)
Definition FlockUtil_new (garbage : Z) (lock_file : string) : FlockUtil :=
  {| lock_file_ := lock_file; fd_ := garbage |}.

Section flock.
Context `{FlockOS}.

(** [lock()] *)
Definition lock (u : FlockUtil) (s : os) : bool * FlockUtil * os :=
  let '(fd, s) := os_open s (lock_file_ u) in
  let u := set_fd fd u in
  (* a failed open is only logged *)
  let '((r, errno), s) := os_flock_ex s (fd_ u) in
  if 0 =? r then (true, u, s)
  else if errno =? EAGAIN then
    let s := os_close s (fd_ u) in (false, set_fd (-1) u, s)
  else
    let s := os_close s (fd_ u) in (false, set_fd (-1) u, s).

(** [unlock()] *)
Definition unlock (u : FlockUtil) (s : os) : FlockUtil * os :=
  let s := os_flock_un s (fd_ u) in
  let s := os_close s (fd_ u) in
  (set_fd (-1) u, s).

(** The destructor *)
Definition FlockUtil_delete (u : FlockUtil) (s : os) : os := os_close s (fd_ u).
End flock.

(** ** What the kernel documents *)

(** An open description: its file, and whether it holds the exclusive lock. *)
Abbreviation descriptions := (gmap Z (string * bool)).

(** No description but [fd] holds the lock of [p]. *)
Definition lock_free (d : descriptions) (fd : Z) (p : string) : Prop :=
  forall fd', d !! fd' = Some (p, true) -> fd' = fd.

(** open(2), flock(2), close(2): each [open] makes a description of its own;
    an exclusive lock is granted exactly when no other description of the file
    holds it; [flock] of a descriptor that is not open fails; closing or
    unlocking releases the lock. *)
Class FlockLaws `{FlockOS} := {
  view : os -> descriptions;
  view_open s p : let '(fd, s') := os_open s p in
    if 0 <=? fd then view s !! fd = None /\ view s' = <[fd := (p, false)]> (view s) else view s' = view s;
  view_open_nonneg s fd x : view s !! fd = Some x -> 0 <= fd;
  view_flock_granted s fd p b : view s !! fd = Some (p, b) -> lock_free (view s) fd p ->
    (os_flock_ex s fd).1.1 = 0 /\ view (os_flock_ex s fd).2 = <[fd := (p, true)]> (view s);
  view_flock_refused s fd p b fd' : view s !! fd = Some (p, b) -> view s !! fd' = Some (p, true) -> fd' <> fd ->
    (os_flock_ex s fd).1.1 <> 0 /\ view (os_flock_ex s fd).2 = view s;
  view_flock_closed s fd : view s !! fd = None ->
    (os_flock_ex s fd).1.1 <> 0 /\ view (os_flock_ex s fd).2 = view s;
  view_un s fd : view (os_flock_un s fd) = alter (fun x => (x.1, false)) fd (view s);
  view_close s fd : view (os_close s fd) = delete fd (view s);
}.

(** ** What the operations do *)

Section lemmas.
Context `{FlockLaws}.
#[local] Set Default Proof Using "All".

(** The lock of [p] is held. *)
Definition held (d : descriptions) (p : string) : Prop := exists fd, d !! fd = Some (p, true).

Lemma view_negative s fd : fd < 0 -> view s !! fd = None.
Proof. intros Hfd. destruct (view s !! fd) eqn:E; [|done]. apply view_open_nonneg in E. lia. Qed.

(** [lock] takes the lock exactly when it is free and the file opens; else it
    leaves the kernel as it was, and no descriptor. *)
Lemma lock_spec u s :
  exists ok u' s', lock u s = (ok, u', s') /\ lock_file_ u' = lock_file_ u /\
    (ok = true -> 0 <= fd_ u' /\ view s !! fd_ u' = None /\ ~ held (view s) (lock_file_ u) /\
       view s' = <[fd_ u' := (lock_file_ u, true)]> (view s)) /\
    (ok = false -> fd_ u' = -1 /\ view s' = view s) /\
    ((os_open s (lock_file_ u)).1 < 0 \/ held (view s) (lock_file_ u) -> ok = false) /\
    (0 <= (os_open s (lock_file_ u)).1 -> ~ held (view s) (lock_file_ u) -> ok = true).
Proof.
  unfold lock. pose proof (view_open s (lock_file_ u)) as Hopen. destruct (os_open s (lock_file_ u)) as [fd s1] eqn:Eo.
  cbn [fst fd_ set_fd]. destruct (Z.leb_spec 0 fd) as [Hfd|Hfd].
  - destruct Hopen as [Hnew Hv1]. assert (view s1 !! fd = Some (lock_file_ u, false)) as Hl by (rewrite Hv1; apply lookup_insert_eq).
    assert (held (view s) (lock_file_ u) \/ ~ held (view s) (lock_file_ u)) as [Hh|Hh].
    { destruct (decide (map_Exists (fun _ x => x = (lock_file_ u, true)) (view s))) as [(fd'&x&Hx&->)|Hn].
      - left. by exists fd'.
      - right. intros (fd'&Hx). apply Hn. by exists fd', (lock_file_ u, true). }
    + destruct Hh as (fd'&Hx). assert (fd' <> fd) as Hne by (intros ->; congruence).
      assert (view s1 !! fd' = Some (lock_file_ u, true)) as Hx1 by (by rewrite Hv1, lookup_insert_ne).
      destruct (view_flock_refused s1 fd _ _ fd' Hl Hx1 Hne) as [Hr Hv2].
      destruct (os_flock_ex s1 fd) as [[r e] s2] eqn:Ef. cbn in Hr, Hv2. rewrite (proj2 (Z.eqb_neq 0 r)) by congruence.
      assert (view (os_close s2 fd) = view s) as Hclose by (by rewrite view_close, Hv2, Hv1, delete_insert_id).
      destruct (e =? EAGAIN); eexists false, _, _; (split; [reflexivity|]); cbn; split_and!; try done;
        intros _ Hn; destruct Hn; by exists fd'.
    + assert (lock_free (view s1) fd (lock_file_ u)) as Hfree.
      { intros fd' Hx. rewrite Hv1, lookup_insert_Some in Hx. destruct Hx as [[-> _]|[_ Hx]]; [done|]. destruct Hh. by exists fd'. }
      destruct (view_flock_granted s1 fd _ _ Hl Hfree) as [Hr Hv2].
      destruct (os_flock_ex s1 fd) as [[r e] s2] eqn:Ef. cbn in Hr, Hv2. rewrite Hr. cbn [Z.eqb].
      eexists true, _, _. split; [reflexivity|]. cbn. split_and!; try done; [|intros [?|?]; [lia|done]].
      intros _. split_and!; try done. by rewrite Hv2, Hv1, insert_insert_eq.
  - destruct (view_flock_closed s1 fd) as [Hr Hv2]; [by rewrite Hopen; apply view_negative|].
    destruct (os_flock_ex s1 fd) as [[r e] s2] eqn:Ef. cbn in Hr, Hv2. rewrite (proj2 (Z.eqb_neq 0 r)) by congruence.
    assert (view (os_close s2 fd) = view s) as Hclose.
    { rewrite view_close, Hv2, Hopen, delete_id; [done|]. by apply view_negative. }
    destruct (e =? EAGAIN); eexists false, _, _; (split; [reflexivity|]); cbn; split_and!; try done; intros; lia.
Qed.

Lemma unlock_spec u s : exists s', unlock u s = (set_fd (-1) u, s') /\ view s' = delete (fd_ u) (view s).
Proof.
  eexists. split; [reflexivity|]. rewrite view_close, view_un. by rewrite delete_alter_eq.
Qed.

(** ** Lock objects at work *)

(** The life of a [FlockUtil]: constructed; holding the lock; without it. *)
Variant phase := New | Locked | Released.

Record locks := mkLocks {
  objects : gmap nat (FlockUtil * phase);
  kernel : os;
}.

(** No object that holds its lock has the descriptor of object [i]. *)
Definition not_a_holders (o : gmap nat (FlockUtil * phase)) (i : nat) (u : FlockUtil) : Prop :=
  forall j v, j <> i -> o !! j = Some (v, Locked) -> fd_ v <> fd_ u.

(** What its owners do with it: any of the calls at any time, [lock] while it
    holds the lock and [unlock] while it does not included.  [unlock] and the
    destructor of an object that never called [lock] close whatever descriptor
    the uninitialised [fd_] is: those steps are taken here only when it is not
    the descriptor of another object that holds its lock. *)
Inductive lock_step : locks -> locks -> Prop :=
  | step_new o k i garbage p : o !! i = None ->
      lock_step (mkLocks o k) (mkLocks (<[i := (FlockUtil_new garbage p, New)]> o) k)
  | step_lock o k i u ph ok u' k' : o !! i = Some (u, ph) -> lock u k = (ok, u', k') ->
      lock_step (mkLocks o k) (mkLocks (<[i := (u', if ok : bool then Locked else Released)]> o) k')
  | step_unlock o k i u ph u' k' : o !! i = Some (u, ph) -> (ph = New -> not_a_holders o i u) ->
      unlock u k = (u', k') ->
      lock_step (mkLocks o k) (mkLocks (<[i := (u', Released)]> o) k')
  | step_delete o k i u ph : o !! i = Some (u, ph) -> (ph = New -> not_a_holders o i u) ->
      lock_step (mkLocks o k) (mkLocks (delete i o) (FlockUtil_delete u k)).

(** Each lock has one holder, and the descriptors are where the objects say. *)
Record locks_ok (s : locks) : Prop := {
  lo_one : forall p fd1 fd2, view (kernel s) !! fd1 = Some (p, true) -> view (kernel s) !! fd2 = Some (p, true) -> fd1 = fd2;
  lo_held : forall i u, objects s !! i = Some (u, Locked) -> view (kernel s) !! fd_ u = Some (lock_file_ u, true);
  lo_none : forall i u, objects s !! i = Some (u, Released) -> fd_ u = -1;
  lo_apart : forall i j u v, objects s !! i = Some (u, Locked) -> objects s !! j = Some (v, Locked) ->
    fd_ u = fd_ v -> i = j;
}.

(** An object that changes into another that holds nothing, its description
    taken away. *)
Lemma locks_ok_close o k i u k' x :
  locks_ok (mkLocks o k) -> not_a_holders o i u -> view k' = delete (fd_ u) (view k) ->
  (forall v, x = Some (v, Locked) -> False) -> (forall v, x = Some (v, Released) -> fd_ v = -1) ->
  locks_ok (mkLocks (partial_alter (fun _ => x) i o) k').
Proof.
  intros [H1 H2 H3 H4] Hi Hk Hnl Hr. cbn in *. split; cbn.
  - intros p fd1 fd2. rewrite Hk. intros [_ ?]%lookup_delete_Some [_ ?]%lookup_delete_Some. eauto.
  - intros j v. rewrite Hk. destruct (decide (i = j)) as [<-|Hne].
    + rewrite lookup_partial_alter_eq. intros Hv. by destruct (Hnl v).
    + rewrite lookup_partial_alter_ne by done. intros Hv. rewrite lookup_delete_ne; [by apply (H2 j)|].
      apply not_eq_sym. by apply (Hi j).
  - intros j v. destruct (decide (i = j)) as [<-|Hne]; [rewrite lookup_partial_alter_eq; apply Hr|].
    rewrite lookup_partial_alter_ne by done. eauto.
  - intros j1 j2 v1 v2. destruct (decide (i = j1)) as [<-|Hne1].
    { rewrite lookup_partial_alter_eq. intros Hv. by destruct (Hnl v1). }
    destruct (decide (i = j2)) as [<-|Hne2].
    { rewrite lookup_partial_alter_eq. intros _ Hv. by destruct (Hnl v2). }
    rewrite !lookup_partial_alter_ne by done. eauto.
Qed.

(** The same with the kernel as it was: -1 is no description. *)
Lemma locks_ok_idle o k i x k' :
  locks_ok (mkLocks o k) -> view k' = view k ->
  (forall v, x = Some (v, Locked) -> False) -> (forall v, x = Some (v, Released) -> fd_ v = -1) ->
  locks_ok (mkLocks (partial_alter (fun _ => x) i o) k').
Proof.
  intros Hok Hk. apply (locks_ok_close o k i (mkFlockUtil EmptyString (-1))); [done| |].
  - intros j v _ Hv Hfd. pose proof (lo_held _ Hok j v Hv) as Hl. cbn in Hl, Hfd.
    apply view_open_nonneg in Hl. lia.
  - rewrite Hk. symmetry. by apply delete_id, view_negative.
Qed.

(** An object that takes a free lock. *)
Lemma locks_ok_take o k i u' k' :
  locks_ok (mkLocks o k) -> view k !! fd_ u' = None ->
  ~ held (view k) (lock_file_ u') -> view k' = <[fd_ u' := (lock_file_ u', true)]> (view k) ->
  locks_ok (mkLocks (<[i := (u', Locked)]> o) k').
Proof.
  intros [H1 H2 H3 H4] Hnew Hfree Hk. cbn in *.
  assert (forall j v, o !! j = Some (v, Locked) -> fd_ v <> fd_ u') as Hfd.
  { intros j v Hv He. specialize (H2 j v Hv). rewrite He in H2. congruence. }
  split; cbn; rewrite ?Hk.
  - intros p fd1 fd2. rewrite !lookup_insert_Some. intros [[<- E1]|[? E1]] [[<- E2]|[? E2]]; try done; [..|by eauto].
    + injection E1 as <-. destruct Hfree. by exists fd2.
    + injection E2 as <-. destruct Hfree. by exists fd1.
  - intros j v. rewrite lookup_insert_Some. intros [[<- [= <-]]|[Hne Hv]]; [apply lookup_insert_eq|].
    rewrite lookup_insert_ne; [by eapply H2|]. apply not_eq_sym. by eapply Hfd.
  - intros j v. rewrite lookup_insert_Some. intros [[_ ?]|[_ Hv]]; [done|by eauto].
  - intros j1 j2 v1 v2. rewrite !lookup_insert_Some.
    intros [[<- [= <-]]|[_ Hv1]] [[<- [= <-]]|[_ Hv2]] He; [done| | |by eauto].
    + by destruct (Hfd j2 v2 Hv2).
    + by destruct (Hfd j1 v1 Hv1).
Qed.

(** Once [lock] has been called, the descriptor is the object's own or -1. *)
Lemma own_descriptor o k i u ph :
  locks_ok (mkLocks o k) -> o !! i = Some (u, ph) -> (ph = New -> not_a_holders o i u) ->
  not_a_holders o i u.
Proof.
  intros [H1 H2 H3 H4] Hi Hnew. cbn in *. destruct ph; [by apply Hnew|..]; intros j v Hne Hv He.
  - apply Hne. by apply (H4 j i v u).
  - specialize (H2 j v Hv). apply view_open_nonneg in H2. rewrite He, (H3 i u Hi) in H2. lia.
Qed.

Lemma lock_step_ok s s' : lock_step s s' -> locks_ok s -> locks_ok s'.
Proof.
  intros Hstep Hok. destruct Hstep as [o k i g p Hi|o k i u ph ok u' k' Hi Hl|o k i u ph u' k' Hi Hg Hu|o k i u ph Hi Hg].
  - by apply (locks_ok_idle o k i (Some (FlockUtil_new g p, New))).
  - destruct (lock_spec u k) as (ok2&u2&k2&Hl2&Hfile&Hyes&Hno&_&_). rewrite Hl in Hl2. injection Hl2 as <- <- <-.
    destruct ok.
    + destruct Hyes as (_&Hnew&Hfree&Hv); [done|]. rewrite <-Hfile in Hfree, Hv. by apply (locks_ok_take o k).
    + destruct Hno as [Hfd Hv]; [done|]. apply (locks_ok_idle o k i (Some (u', Released))); try done. by intros v [= <-].
  - destruct (unlock_spec u k) as (k2&Hu2&Hv). rewrite Hu in Hu2. injection Hu2 as -> ->.
    apply (locks_ok_close o k i u k2 (Some (set_fd (-1) u, Released))); try done; [|by intros v [= <-]].
    by eapply own_descriptor.
  - apply (locks_ok_close o k i u _ None); try done; [by eapply own_descriptor|apply view_close].
Qed.
End lemmas.

(** ** Properties *)

Section properties.
Context `{FlockLaws}.

(** C20. The lock file excludes.  Objects are constructed, call [lock] (also
    while they hold the lock) and [unlock] (also while they do not) and are
    destroyed in any order, with one proviso: an object that has never called
    [lock] is not unlocked or destroyed while its uninitialised [fd_] happens
    to be the descriptor of another object that holds its lock.  Then two
    objects whose [lock] succeeded and that have neither unlocked nor locked
    again since, on the same file, are the same object; and a further attempt
    on that file fails, and leaves the holder's lock in place.  Without the
    proviso it fails ([unlocked_by_garbage]). *)
Theorem lock_exclusive s0 s :
  objects s0 = ∅ ->
  (forall p fd1 fd2, view (kernel s0) !! fd1 = Some (p, true) -> view (kernel s0) !! fd2 = Some (p, true) -> fd1 = fd2) ->
  rtc lock_step s0 s ->
  (forall i j u v, objects s !! i = Some (u, Locked) -> objects s !! j = Some (v, Locked) ->
     lock_file_ u = lock_file_ v -> i = j) /\
  (forall i u v, objects s !! i = Some (u, Locked) -> lock_file_ v = lock_file_ u ->
     exists v' k', lock v (kernel s) = (false, v', k') /\ view k' = view (kernel s)).
Proof.
  intros Hobj Hone Hrun. assert (locks_ok s) as [H1 H2 H3 H4].
  { assert (locks_ok s0) as Hok0 by (split; rewrite ?Hobj; done).
    clear Hobj Hone. induction Hrun as [|x y z Hxy _ IH]; [done|]. by eapply IH, lock_step_ok. }
  split.
  - intros i j u v Hi Hj Hf. apply (H4 i j u v Hi Hj). apply (H1 (lock_file_ u)); [by eapply H2|]. rewrite Hf. by eapply H2.
  - intros i u v Hi Hf. destruct (lock_spec v (kernel s)) as (ok&v'&k'&Hl&_&_&Hno&Hheld&_).
    rewrite Hheld in Hl, Hno by (right; exists (fd_ u); rewrite Hf; by eapply H2). destruct Hno as [_ Hk]; [done|].
    by exists v', k'.
Qed.

(** Locking again loses the lock for good: an object that holds the lock
    and calls [lock] once more fails, and forgets its descriptor without
    closing it.  From then on neither [unlock] nor the destructor releases
    the file, and no object can lock it.  [DB::Open] does this when it is
    tried again after the database file could not be opened. *)
Lemma relock_leaks u s :
  view s !! fd_ u = Some (lock_file_ u, true) ->
  exists u1 s1 u2 s2, lock u s = (false, u1, s1) /\ fd_ u1 = -1 /\ unlock u1 s1 = (u2, s2) /\
    let s3 := FlockUtil_delete u2 s2 in view s3 = view s /\
    forall v, lock_file_ v = lock_file_ u -> (lock v s3).1.1 = false.
Proof.
  intros Hu. destruct (lock_spec u s) as (ok&u1&s1&Hl&_&_&Hno&Hheld&_).
  rewrite Hheld in Hl, Hno by (right; by exists (fd_ u)). destruct Hno as [Hfd Hv1]; [done|].
  destruct (unlock_spec u1 s1) as (s2&Hun&Hv2). exists u1, s1, (set_fd (-1) u1), s2.
  assert (view s2 = view s) as Hv by (rewrite Hv2, Hv1, Hfd; by apply delete_id, view_negative).
  do 3 (split; [done|]). intros s3. assert (view s3 = view s) as Hs3.
  { unfold s3, FlockUtil_delete. rewrite view_close, Hv. by apply delete_id, view_negative. }
  split; [exact Hs3|]. intros v Hf. destruct (lock_spec v s3) as (ok2&v'&k'&->&_&_&_&Hheld2&_).
  apply Hheld2. right. exists (fd_ u). by rewrite Hs3, Hf.
Qed.
End properties.

(** ** Witnesses: a kernel with one table of descriptions *)

Abbreviation table := (gmap nat (string * bool)).

(** Some other description of [p] is locked. *)
Definition locked_elsewhere (t : table) (fd : nat) (p : string) : bool :=
  bool_decide (map_Exists (fun fd' x => x = (p, true) /\ fd' <> fd) t).

#[export] Instance sample_os : FlockOS := {|
  os := table;
  os_open t p := let fd := fresh (dom t) in (Z.of_nat fd, <[fd := (p, false)]> t);
  os_flock_ex t fd :=
    match t !! Z.to_nat fd with
    | Some (p, _) =>
        if (fd <? 0) || locked_elsewhere t (Z.to_nat fd) p then ((-1, EAGAIN), t)
        else ((0, 0), <[Z.to_nat fd := (p, true)]> t)
    | None => ((-1, 9), t)
    end;
  os_flock_un t fd := if fd <? 0 then t else alter (fun x => (x.1, false)) (Z.to_nat fd) t;
  os_close t fd := if fd <? 0 then t else delete (Z.to_nat fd) t;
|}.

Lemma view_lookup (t : table) fd : (kmap Z.of_nat t : descriptions) !! fd = if fd <? 0 then None else t !! Z.to_nat fd.
Proof.
  destruct (Z.ltb_spec fd 0).
  - apply lookup_kmap_None; [apply _|]. intros i ->. lia.
  - rewrite <-(Z2Nat.id fd) at 1 by lia. by rewrite lookup_kmap by apply _.
Qed.

#[export] Instance sample_flock : FlockLaws (H:=sample_os).
Proof.
  refine (Build_FlockLaws sample_os (fun t : table => kmap Z.of_nat t : descriptions) _ _ _ _ _ _ _).
  - intros s p. change table in s. cbn. rewrite (proj2 (Z.leb_le _ _)) by lia. split.
    + rewrite lookup_kmap by apply _. apply not_elem_of_dom, is_fresh.
    + by rewrite kmap_insert by apply _.
  - intros s fd x. change table in s. rewrite view_lookup. destruct (Z.ltb_spec fd 0); [done|lia].
  - intros s fd p b. change table in s. rewrite view_lookup. cbn. destruct (Z.ltb_spec fd 0) as [|Hfd]; [done|]. intros -> Hfree.
    assert (locked_elsewhere s (Z.to_nat fd) p = false) as ->.
    { apply bool_decide_eq_false. intros (fd'&x&Hx&->&Hne). apply Hne. apply Nat2Z.inj.
      rewrite (Hfree (Z.of_nat fd')); [lia|]. rewrite view_lookup, (proj2 (Z.ltb_ge _ _)), Nat2Z.id by lia. done. }
    cbn. split; [done|]. rewrite kmap_insert by apply _. by rewrite Z2Nat.id by lia.
  - intros s fd p b fd'. change table in s. rewrite !view_lookup. cbn. destruct (Z.ltb_spec fd 0), (Z.ltb_spec fd' 0); try done. intros -> Hx Hne.
    assert (locked_elsewhere s (Z.to_nat fd) p = true) as ->.
    { apply bool_decide_eq_true. exists (Z.to_nat fd'), (p, true). split_and!; [done|done|lia]. }
    done.
  - intros s fd. change table in s. rewrite view_lookup. cbn. destruct (Z.ltb_spec fd 0) as [Hfd|Hfd].
    + intros _. by destruct (s !! Z.to_nat fd) as [[p b]|].
    + by intros ->.
  - intros s fd. change table in s. cbn. apply map_eq. intros j. destruct (Z.ltb_spec fd 0) as [Hfd|Hfd].
    + rewrite lookup_alter. case_decide as Hj; [|done]. subst j. rewrite view_lookup. by rewrite (proj2 (Z.ltb_lt fd 0)).
    + rewrite kmap_alter by apply _. by rewrite Z2Nat.id by lia.
  - intros s fd. change table in s. cbn. destruct (Z.ltb_spec fd 0) as [Hfd|Hfd].
    + rewrite delete_id; [done|]. rewrite view_lookup. by rewrite (proj2 (Z.ltb_lt fd 0)).
    + rewrite kmap_delete by apply _. by rewrite Z2Nat.id by lia.
Defined.

(** Two objects on one file: the first locks, the second does not. *)
Lemma lock_exclusive_witness :
  exists s, rtc lock_step (mkLocks (H:=sample_os) ∅ (∅ : table)) s /\
    exists u, objects s !! 0%nat = Some (u, Locked) /\
      exists v' k', lock (FlockUtil_new 7 "db_lock") (kernel s) = (false, v', k').
Proof.
  set (u := FlockUtil_new 7 "db_lock").
  set (k1 := (<[0%nat := ("db_lock"%string, true)]> ∅ : table)).
  set (s := mkLocks (H:=sample_os) (<[0%nat := (set_fd 0 u, Locked)]> (<[0%nat := (u, New)]> ∅)) k1).
  assert (rtc lock_step (mkLocks (H:=sample_os) ∅ (∅ : table)) s) as Hrun.
  { eapply rtc_l; [apply (step_new (H:=sample_os) ∅ (∅ : table) 0 7 "db_lock"); reflexivity|].
    eapply rtc_l; [|apply rtc_refl].
    apply (step_lock (H:=sample_os) _ (∅ : table) 0 u New true (set_fd 0 u) k1); [reflexivity|vm_compute; reflexivity]. }
  exists s. split; [exact Hrun|]. exists (set_fd 0 u). split; [reflexivity|].
  destruct (lock_exclusive (H0:=sample_flock) (mkLocks (H:=sample_os) ∅ (∅ : table)) s) as [_ Hno].
  - reflexivity.
  - intros p fd1 fd2 Hx. cbn in Hx. rewrite view_lookup in Hx. by destruct (fd1 <? 0).
  - exact Hrun.
  - destruct (Hno 0%nat (set_fd 0 u) (FlockUtil_new 7 "db_lock")) as (v'&k'&Hl&_); [reflexivity|reflexivity|].
    by exists v', k'.
Defined.

(** The proviso of [lock_exclusive] is needed: an object that holds the lock
    of a file, and one that never called [lock] and whose [fd_] is by chance the
    same number.  When the latter is destroyed the file is free for a third
    object, and the first still takes itself for the holder. *)
Lemma unlocked_by_garbage :
  let holder := mkFlockUtil "db_lock" 0 in
  exists k1 third k2,
    lock (FlockUtil_new 7 "db_lock") (∅ : table) = (true, holder, k1) /\
    lock (FlockUtil_new 9 "db_lock") (FlockUtil_delete (FlockUtil_new 0 "db_lock") k1) = (true, third, k2).
Proof. eexists _, _, _. split; vm_compute; reflexivity. Qed.

Lemma relock_leaks_witness :
  exists u1 s1, lock (mkFlockUtil "db_lock" 0) ({[0%nat := ("db_lock"%string, true)]} : table) = (false, u1, s1) /\ fd_ u1 = -1.
Proof.
  destruct (relock_leaks (H0:=sample_flock) (mkFlockUtil "db_lock" 0) ({[0%nat := ("db_lock"%string, true)]} : table))
    as (u1&s1&u2&s2&Hl&Hfd&_).
  - cbn. rewrite view_lookup. reflexivity.
  - exists u1, s1. split; [exact Hl|exact Hfd].
Defined.
