(* ===== verification/BinSearch.v ===== *)
(** * BinSearch.v: the binary search of nodes and pages

    [Node::binarySearch] (node.cc), [Cursor::binarySearchLeaf] and
    [Cursor::binarySearchBranch] (cursor.cc) are the same loop over three
    ways to read the key at an index.  The loop is written once, over the
    accessor [key_at]; Node.v and Page.v instantiate it. *)
From S2P Require Import Bytes.

Section bsearch.
Context (key_at : Z -> res (list byte)).

(** The [while (begin < end)] loop; [begin], [end] and [mid] are [uint32_t]. *)
Fixpoint bsearch_loop (fuel : nat) (key : list byte) (begin_ end_ : Z) : res (Z * bool) :=
  match fuel with
  | O => Err OutOfFuel
  | S fuel =>
      if begin_ <? end_ then
        let mid := wrap32 (begin_ + end_) / 2 in
        k ← key_at mid;
        if bytes_ltb key k then bsearch_loop fuel key begin_ mid
        else if bytes_eqb k key then Ok (mid, true)
        else bsearch_loop fuel key (wrap32 (mid + 1)) end_
      else Ok (end_, false)
  end.

(** The search over the first [n] keys: the index and [found]. *)
Definition bsearch (n : Z) (key : list byte) : res (Z * bool) :=
  bsearch_loop (S (Z.to_nat n)) key 0 n.
End bsearch.

(** What a search promises over the sorted keys [ks]: the index of the key
    when it is there, else the index of the first greater key. *)
Definition search_spec (ks : list (list byte)) (key : list byte) (r : Z * bool) : Prop :=
  let '(i, found) := r in
  0 <= i <= Z.of_nat (length ks) /\
  (forall j k, ks !! j = Some k -> Z.of_nat j < i -> bytes_lt k key) /\
  (if found : bool then ks !! Z.to_nat i = Some key
   else forall j k, ks !! j = Some k -> i <= Z.of_nat j -> bytes_lt key k).

Section bsearch_correct.
Context (key_at : Z -> res (list byte)) (ks : list (list byte)).
Hypothesis key_at_ok : forall i k, ks !! Z.to_nat i = Some k -> 0 <= i -> key_at i = Ok k.
Hypothesis ks_sorted : StronglySorted bytes_lt ks.
Hypothesis ks_small : Z.of_nat (length ks) < 2 ^ 31.

Lemma bsearch_loop_spec fuel key b e :
  0 <= b <= e -> e <= Z.of_nat (length ks) -> (Z.to_nat (e - b) < fuel)%nat ->
  (forall j k, ks !! j = Some k -> Z.of_nat j < b -> bytes_lt k key) ->
  (forall j k, ks !! j = Some k -> e <= Z.of_nat j -> bytes_lt key k) ->
  exists r, bsearch_loop key_at fuel key b e = Ok r /\ search_spec ks key r.
Proof using All.
  revert b e; induction fuel as [|fuel IH]; intros b e Hb He Hf Hlo Hhi; [lia|].
  cbn [bsearch_loop]. destruct (Z.ltb_spec b e).
  2:{ exists (e, false). split; [done|]. replace e with b in * by lia. cbn. split_and!; try done; lia. }
  rewrite (wrap_id 32) by lia.
  pose proof (Z.div_mod (b + e) 2). pose proof (Z.mod_pos_bound (b + e) 2).
  set (mid := (b + e) / 2) in *.
  destruct (lookup_nth_Z ks mid) as [k Hk]; [lia|].
  rewrite (key_at_ok mid k Hk) by lia. cbn.
  destruct (bytes_ltb key k) eqn:Elt.
  - apply IH; try lia; [done|]. intros j k' Hj Hm.
    destruct (decide (j = Z.to_nat mid)) as [->|]; [by simplify_eq|].
    trans k; [done|]. eapply (StronglySorted_lookup_lt _ _ (Z.to_nat mid) j); eauto. lia.
  - apply bytes_ltb_false in Elt. destruct (bytes_eqb k key) eqn:Eeq.
    + apply bytes_eqb_eq in Eeq as ->. exists (mid, true). split; [done|]. cbn.
      split_and!; [lia|lia| |done]. intros j k' Hj Hm.
      eapply (StronglySorted_lookup_lt _ _ j (Z.to_nat mid)); eauto. lia.
    + apply bytes_eqb_neq in Eeq. rewrite (wrap_id 32) by lia.
      apply IH; try lia; [|done]. intros j k' Hj Hm.
      assert (bytes_lt k key) as Hkk by (destruct Elt; [done|congruence]).
      destruct (decide (j = Z.to_nat mid)) as [->|]; [by simplify_eq|].
      trans k; [|done]. eapply (StronglySorted_lookup_lt _ _ j (Z.to_nat mid)); eauto. lia.
Qed.

(** The search terminates within its fuel and meets its specification. *)
Lemma bsearch_correct key :
  exists r, bsearch key_at (Z.of_nat (length ks)) key = Ok r /\ search_spec ks key r.
Proof using All.
  apply bsearch_loop_spec; try lia.
  intros j k Hj%lookup_lt_Some. lia.
Qed.
End bsearch_correct.

Section bsearch_total.
Context (key_at : Z -> res (list byte)) (n : Z).
Hypothesis key_at_total : forall i, 0 <= i < n -> exists k, key_at i = Ok k.
Hypothesis n_small : 0 <= n <= 2 ^ 31.

(** The loop stops on any keys, sorted or not, with an index in range. *)
Lemma bsearch_loop_total fuel key b e :
  0 <= b <= e -> e <= n -> (Z.to_nat (e - b) < fuel)%nat ->
  exists i found, bsearch_loop key_at fuel key b e = Ok (i, found) /\ b <= i <= e /\
    (found = true -> i < e /\ key_at i = Ok key).
Proof using All.
  revert b e; induction fuel as [|fuel IH]; intros b e Hb He Hf; [lia|].
  cbn [bsearch_loop]. destruct (Z.ltb_spec b e).
  2:{ exists e, false. split_and!; done || lia. }
  pose proof (Z.div_mod (b + e) 2). pose proof (Z.mod_pos_bound (b + e) 2).
  rewrite (wrap_id 32) by lia. set (mid := (b + e) / 2) in *.
  destruct (key_at_total mid) as [k Hk]; [lia|]. rewrite Hk. cbn.
  destruct (bytes_ltb key k); [|destruct (bytes_eqb k key) eqn:Eeq].
  - destruct (IH b mid) as (i&f&->&?&Hf'); try lia. exists i, f. split_and!; try lia; [done|].
    intros [? ?]%Hf'. split; [lia|done].
  - apply bytes_eqb_eq in Eeq as ->. exists mid, true. split_and!; try lia; [done|]. intros _. split; [lia|done].
  - rewrite (wrap_id 32) by lia.
    destruct (IH (mid + 1) e) as (i&f&->&?&Hf'); try lia. exists i, f. split_and!; try lia; done.
Qed.

Lemma bsearch_total key :
  exists i found, bsearch key_at n key = Ok (i, found) /\ 0 <= i <= n /\
    (found = true -> i < n /\ key_at i = Ok key).
Proof using All. apply bsearch_loop_total; lia. Qed.
End bsearch_total.

(** ** Consequences of [search_spec] *)

Lemma search_spec_found ks key i :
  search_spec ks key (i, true) -> ks !! Z.to_nat i = Some key /\ 0 <= i < Z.of_nat (length ks).
Proof. intros (?&_&H). split; [done|]. apply lookup_lt_Some in H. lia. Qed.

Lemma search_spec_not_found ks key i :
  search_spec ks key (i, false) -> key ∉ ks.
Proof.
  intros (?&Hlo&Hhi) [j Hj]%list_elem_of_lookup.
  destruct (decide (Z.of_nat j < i)).
  - by apply (irreflexivity bytes_lt key), (Hlo j).
  - apply (irreflexivity bytes_lt key), (Hhi j); [done|lia].
Qed.

(** The result is determined by the keys. *)
Lemma search_spec_functional ks key i1 f1 i2 f2 :
  StronglySorted bytes_lt ks ->
  search_spec ks key (i1, f1) -> search_spec ks key (i2, f2) -> i1 = i2 /\ f1 = f2.
Proof.
  intros Hs H1 H2.
  assert (forall i j f1 f2, search_spec ks key (i, f1) -> search_spec ks key (j, f2) ->
    i < j -> False) as Haux.
  { intros i j g1 g2 (?&_&Hi) (?&Hj&_) Hlt.
    destruct (lookup_nth_Z ks i) as [k Hk]; [lia|].
    assert (bytes_lt k key) by (apply (Hj (Z.to_nat i)); [done|lia]).
    destruct g1; [simplify_eq; by apply (irreflexivity bytes_lt key)|].
    apply (bytes_lt_asym k key); [done|]. apply (Hi (Z.to_nat i)); [done|lia]. }
  assert (i1 = i2) as <-.
  { destruct (Z.lt_total i1 i2) as [Hl|[Hl|Hl]]; [by destruct (Haux _ _ _ _ H1 H2 Hl)|done|by destruct (Haux _ _ _ _ H2 H1 Hl)]. }
  split; [done|]. destruct f1, f2; try done; exfalso.
  - apply (search_spec_not_found _ _ _ H2). apply search_spec_found in H1 as [? _].
    by eapply list_elem_of_lookup_2.
  - apply (search_spec_not_found _ _ _ H1). apply search_spec_found in H2 as [? _].
    by eapply list_elem_of_lookup_2.
Qed.
