(* ===== verification/Page.v ===== *)
(** * Page.v: pages and page elements in memory (src/src/Bolt/page.h, type.h)

    A page is a 16-byte packed header ([id], [flag], [count], [overflow])
    followed by its elements: 16-byte packed [leafPageElement]s or
    [branchPageElement]s and then the bytes of their keys and values, found
    through each element's [pos], an offset from the element itself.  A page
    pointer is an offset [p] into a memory [m : list byte]. *)
From S2P Require Import Bytes.
From S2P Require Import BinSearch.

(** ** Constants *)

(** [enum pageFlags] *)
Definition branchPageFlag : Z := 0x01.
Definition leafPageFlag : Z := 0x02.
Definition metaPageFlag : Z := 0x04.
Definition freelistPageFlag : Z := 0x10.

Definition valueLeafFlag : Z := 0x00.
Definition bucketLeafFlag : Z := 0x01.

(** [offsetof(Page, ptr)] *)
Definition PAGEHEADERSIZE : Z := 16.
Definition MINKEYSPERPAGE : Z := 2.

(** [sizeof(leafPageElement)], [sizeof(branchPageElement)] *)
Definition LEAFELEMSIZE : Z := 16.
Definition BRANCHELEMSIZE : Z := 16.

(** [x & f] as a condition *)
Definition has_flag (x f : Z) : bool := negb (Z.land x f =? 0).

(** ** struct Page *)

Definition Page_id (m : list byte) (p : Z) : res Z := load 8 m p.
Definition Page_flag (m : list byte) (p : Z) : res Z := load 2 m (p + 8).
Definition Page_count (m : list byte) (p : Z) : res Z := load 2 m (p + 10).
Definition Page_overflow (m : list byte) (p : Z) : res Z := load 4 m (p + 12).
Definition Page_set_id (m : list byte) (p z : Z) : res (list byte) := store 8 m p z.
Definition Page_set_flag (m : list byte) (p z : Z) : res (list byte) := store 2 m (p + 8) z.
Definition Page_set_count (m : list byte) (p z : Z) : res (list byte) := store 2 m (p + 10) z.
Definition Page_set_overflow (m : list byte) (p z : Z) : res (list byte) := store 4 m (p + 12) z.
(** [ptr], where the data start *)
Definition Page_ptr (p : Z) : Z := p + PAGEHEADERSIZE.

(** [getLeafPageElement(index)], [getLeafPageKeyElementPtr(index)] *)
Definition getLeafPageElement (p index : Z) : Z := Page_ptr p + index * LEAFELEMSIZE.
(** [getBranchPageElement(index)] *)
Definition getBranchPageElement (p index : Z) : Z := Page_ptr p + index * BRANCHELEMSIZE.

(** ** struct leafPageElement, at offset [e] *)

Definition leaf_flag (m : list byte) (e : Z) : res Z := load 4 m e.
Definition leaf_pos (m : list byte) (e : Z) : res Z := load 4 m (e + 4).
Definition leaf_ksize (m : list byte) (e : Z) : res Z := load 4 m (e + 8).
Definition leaf_vsize (m : list byte) (e : Z) : res Z := load 4 m (e + 12).

(** [read(p, s)]: [s] bytes at [p] from the element *)
Definition leaf_read (m : list byte) (e p s : Z) : res Item := Item_of_buf m (e + p) s.
Definition leaf_key (m : list byte) (e : Z) : res Item :=
  pos ← leaf_pos m e; ksize ← leaf_ksize m e; leaf_read m e pos ksize.
Definition leaf_value (m : list byte) (e : Z) : res Item :=
  pos ← leaf_pos m e; ksize ← leaf_ksize m e; vsize ← leaf_vsize m e;
  leaf_read m e (wrap32 (pos + ksize)) vsize.
(** [valuePtr()]: the offset of the value *)
Definition leaf_valuePtr (m : list byte) (e : Z) : res Z :=
  pos ← leaf_pos m e; ksize ← leaf_ksize m e; Ok (e + wrap32 (pos + ksize)).

(** ** struct branchPageElement, at offset [e] *)

Definition branch_pos (m : list byte) (e : Z) : res Z := load 4 m e.
Definition branch_ksize (m : list byte) (e : Z) : res Z := load 4 m (e + 4).
Definition branch_pageId (m : list byte) (e : Z) : res Z := load 8 m (e + 8).
Definition branch_key (m : list byte) (e : Z) : res Item :=
  pos ← branch_pos m e; ksize ← branch_ksize m e; Item_of_buf m (e + pos) ksize.

(** ** Searches over the elements of a page (cursor.cc) *)

(** [Cursor::binarySearchLeaf(arr, key, count, found)], [arr] at offset [e0] *)
Definition binarySearchLeaf (m : list byte) (e0 : Z) (key : Item) (count : Z) : res (Z * bool) :=
  bsearch (fun mid => k ← leaf_key m (e0 + mid * LEAFELEMSIZE); Ok (data_ k)) count (data_ key).

(** [Cursor::binarySearchBranch(arr, key, count, found)] *)
Definition binarySearchBranch (m : list byte) (e0 : Z) (key : Item) (count : Z) : res (Z * bool) :=
  bsearch (fun mid => k ← branch_key m (e0 + mid * BRANCHELEMSIZE); Ok (data_ k)) count (data_ key).
