(* ===== verification/FreeList.v ===== *)
(** * FreeList.v: the page free list (src/src/Bolt/freeList.h, freeList.cc)

    [freeList] keeps the allocatable pages [ids_], the pages freed by each
    write transaction [pending_] and the lookup table [cache_].  The maps are
    [std::unordered_map]s: they are [gmap]s here, and where the source walks
    one, the order of the walk does not reach the result (the pages collected
    are sorted afterwards, or only set in another map).  Logging is left out.
    A page argument is the memory it lies in and its offset. *)
From S2P Require Import Bytes.
From S2P Require Import Page.

Record freeList := mkFreeList {
  ids_ : list Z;
  pending_ : gmap Z (list Z);
  cache_ : gmap Z bool;
}.

(** [freeList::freeList()] *)
Definition freeList_new : freeList :=
  {| ids_ := []; pending_ := ∅; cache_ := ∅ |}.

(** [std::sort] on page ids *)
Definition sort_pgids (l : list Z) : list Z := merge_sort Z.le l.

(** The page ids of [pending_], in the order of a walk over it. *)
Definition pending_pages (p : gmap Z (list Z)) : list Z :=
  concat ((map_to_list p).*2).

(** [cache_[e] = true] for each [e] *)
Definition cache_mark (l : list Z) (c : gmap Z bool) : gmap Z bool :=
  foldl (fun c e => <[e := true]> c) c l.
(** [cache_.erase(e)] for each [e] *)
Definition cache_erase (l : list Z) (c : gmap Z bool) : gmap Z bool :=
  foldl (fun c e => delete e c) c l.

Definition reindex (f : freeList) : freeList :=
  {| ids_ := ids_ f; pending_ := pending_ f;
     cache_ := cache_mark (pending_pages (pending_ f)) (cache_mark (ids_ f) ∅) |}.

(** The merge loop of [mergeids_]: an element of [src] goes first only when it
    is smaller. *)
Fixpoint merge_loop (src : list Z) : list Z -> list Z :=
  fix go (ids : list Z) :=
    match src, ids with
    | x :: src', y :: ids' => if x <? y then x :: merge_loop src' ids else y :: go ids'
    | _, [] => src
    | [], _ => ids
    end.

(** [mergeids_(dest, src)]: what [dest] holds afterwards. *)
Definition mergeids_ (f : freeList) (dest src : list Z) : list Z :=
  dest ++ merge_loop src (ids_ f).

Definition copyall (f : freeList) (dest : list Z) : list Z :=
  let tmp := pending_pages (pending_ f) in
  mergeids_ f dest (sort_pgids tmp).

Definition freeCount (f : freeList) : Z := wrap32 (Z.of_nat (length (ids_ f))).

Definition pendingCount (f : freeList) : Z :=
  foldl (fun result l => wrap32 (result + Z.of_nat (length l))) 0 ((map_to_list (pending_ f)).*2).

Definition count (f : freeList) : Z := wrap32 (freeCount f + pendingCount f).

(** Bytes the serialised list takes. *)
Definition size (f : freeList) : Z :=
  let ret := count f in
  let ret := if 0xffff <=? ret then wrap32 (ret + 1) else ret in
  wrap32 (PAGEHEADERSIZE + ret * 8).

(** [v.erase(v.begin() + a, v.begin() + b)] *)
Definition vec_erase {A} (v : list A) (a b : Z) : res (list A) :=
  if (0 <=? a) && (a <=? b) && (b <=? Z.of_nat (length v))
  then Ok (take (Z.to_nat a) v ++ drop (Z.to_nat b) v)
  else Err OutOfBounds.

(** The loop of [allocate] from index [i] on: the index and [init] where the
    run of [numPages] pages is complete. *)
Fixpoint allocate_loop (ids : list Z) (numPages i init prev : Z) : res (option (Z * Z)) :=
  match ids with
  | [] => Ok None
  | id :: rest =>
      if id <? 2 then Err LogFatal
      else
        let init := if (prev =? 0) || negb (wrap64 (id - prev) =? 1) then id else init in
        if wrap64 (id - init + 1) =? numPages then Ok (Some (i, init))
        else allocate_loop rest numPages (i + 1) init id
  end.

(** [allocate(numPages)]: the first page of a contiguous run, 0 if none. *)
Definition allocate (f : freeList) (numPages : Z) : res (Z * freeList) :=
  match ids_ f with
  | [] => Ok (0, f)
  | _ =>
      r ← allocate_loop (ids_ f) numPages 0 0 0;
      match r with
      | None => Ok (0, f)
      | Some (i, init) =>
          ids ← vec_erase (ids_ f) (i - numPages + 1) (i + 1);
          Ok (init, {| ids_ := ids; pending_ := pending_ f;
                       cache_ := cache_erase ((fun j => wrap64 (init + j)) <$> seqZ 0 numPages)
                                   (cache_ f) |})
      end
  end.

(** [release(txid)]: what transactions up to [txid] freed becomes available. *)
Definition release (f : freeList) (txid : Z) : freeList :=
  let released := filter (fun kv => kv.1 <= txid) (pending_ f) in
  let tmp := pending_pages released in
  {| ids_ := mergeids_ f [] (sort_pgids tmp);
     pending_ := filter (fun kv => ~ kv.1 <= txid) (pending_ f);
     cache_ := cache_ f |}.

Definition rollback (f : freeList) (txid : Z) : freeList :=
  {| ids_ := ids_ f;
     pending_ := delete txid (pending_ f);
     cache_ := cache_erase (default [] (pending_ f !! txid)) (cache_ f) |}.

(** The loop of [free]: [cache_[id]] inserts [false] for a missing key. *)
Fixpoint free_loop (fuel : nat) (id last : Z) (ids : list Z) (cache : gmap Z bool)
    : res (list Z * gmap Z bool) :=
  match fuel with
  | O => Err OutOfFuel
  | S fuel =>
      if id <=? last then
        if default false (cache !! id) then Err AssertFailed
        else free_loop fuel (wrap64 (id + 1)) last (ids ++ [id])
               (match cache !! id with None => <[id := false]> cache | Some _ => cache end)
      else Ok (ids, cache)
  end.

(** [free(txid, p)], [p] with the given id and overflow. *)
Definition free (f : freeList) (txid id overflow : Z) : res freeList :=
  '(ids, cache) ← free_loop (Z.to_nat overflow + 2) id (wrap64 (id + overflow))
                    (default [] (pending_ f !! txid)) (cache_ f);
  Ok {| ids_ := ids_ f; pending_ := <[txid := ids]> (pending_ f); cache_ := cache |}.

Definition reset (f : freeList) : freeList := freeList_new.

(** [n] page ids from offset [o] on *)
Fixpoint load_pgids (m : list byte) (o : Z) (n : nat) : res (list Z) :=
  match n with
  | O => Ok []
  | S n => id ← load 8 m o; ids ← load_pgids m (o + 8) n; Ok (id :: ids)
  end.

Fixpoint store_pgids (m : list byte) (o : Z) (ids : list Z) : res (list byte) :=
  match ids with
  | [] => Ok m
  | id :: ids => m ← store 8 m o id; store_pgids m (o + 8) ids
  end.

(** [read(page)], the page at offset [p] of [m] *)
Definition read (f : freeList) (m : list byte) (p : Z) : res freeList :=
  cnt ← Page_count m p;
  '(index, cnt) ← (if cnt =? 0xffff
                   then c ← load 8 m (Page_ptr p); Ok (1, c)
                   else Ok (0, cnt));
  ids ← (if cnt =? 0 then Ok []
         else l ← load_pgids m (Page_ptr p + index * 8) (Z.to_nat cnt); Ok (sort_pgids l));
  Ok (reindex {| ids_ := ids; pending_ := pending_ f; cache_ := cache_ f |}).

(** [write(page)]: the memory afterwards *)
Definition write (f : freeList) (m : list byte) (p : Z) : res (list byte) :=
  fl ← Page_flag m p;
  m ← Page_set_flag m p (Z.lor fl freelistPageFlag);
  let cnt := count f in
  if cnt =? 0 then Page_set_count m p 0
  else if cnt <? 0xffff then
    m ← Page_set_count m p cnt;
    store_pgids m (Page_ptr p) (copyall f [])
  else
    m ← Page_set_count m p 0xffff;
    m ← store 8 m (Page_ptr p) cnt;
    store_pgids m (Page_ptr p + 8) (copyall f []).

(** [reload(pg)]: the pages of [pg] less those still pending *)
Definition reload (f : freeList) (m : list byte) (p : Z) : res freeList :=
  f ← read f m p;
  let curPending := cache_mark (pending_pages (pending_ f)) ∅ in
  Ok (reindex {| ids_ := filter (fun item => curPending !! item = None) (ids_ f);
                 pending_ := pending_ f; cache_ := cache_ f |}).

(** ** Well-formed free lists

    The available pages are strictly increasing and no page is listed twice,
    neither among the available pages nor among the pending ones. *)
Definition all_pages (f : freeList) : list Z := ids_ f ++ pending_pages (pending_ f).

Definition pgid_ok (id : Z) : Prop := 2 <= id < 2 ^ 64.

Record fl_wf (f : freeList) : Prop := {
  fl_sorted : StronglySorted Z.lt (ids_ f);
  fl_range : Forall pgid_ok (all_pages f);
  fl_nodup : NoDup (all_pages f);
}.

(** What one write transaction [t] does to the list: it allocates and frees. *)
Inductive writer_step (t : Z) : freeList -> freeList -> Prop :=
  | writer_allocate f n r f' : allocate f n = Ok (r, f') -> writer_step t f f'
  | writer_free f id overflow f' : free f t id overflow = Ok f' -> writer_step t f f'.

(** ** Merging and sorting *)

Lemma merge_loop_nil_l ids : merge_loop [] ids = ids.
Proof. by destruct ids. Qed.

Lemma merge_loop_nil_r src : merge_loop src [] = src.
Proof. by destruct src. Qed.

Lemma merge_loop_cons x src y ids :
  merge_loop (x :: src) (y :: ids) =
  if x <? y then x :: merge_loop src (y :: ids) else y :: merge_loop (x :: src) ids.
Proof. done. Qed.

Lemma merge_loop_perm src ids : merge_loop src ids ≡ₚ src ++ ids.
Proof.
  revert ids; induction src as [|x src IH]; intros ids; [by rewrite merge_loop_nil_l|].
  induction ids as [|y ids IHi]; [by rewrite merge_loop_nil_r, app_nil_r|].
  rewrite merge_loop_cons. destruct (x <? y); [by rewrite IH|].
  rewrite IHi. by rewrite (Permutation_middle (x :: src) ids y).
Qed.

Lemma merge_loop_sorted src ids :
  StronglySorted Z.le src -> StronglySorted Z.le ids -> StronglySorted Z.le (merge_loop src ids).
Proof.
  revert ids; induction src as [|x src IH]; intros ids Hs Hi; [by rewrite merge_loop_nil_l|].
  induction ids as [|y ids IHi]; [by rewrite merge_loop_nil_r|].
  rewrite merge_loop_cons. pose proof Hs as Hs'. pose proof Hi as Hi'.
  apply StronglySorted_cons in Hs' as [Hx Hs']. apply StronglySorted_cons in Hi' as [Hy Hi'].
  rewrite Forall_forall in Hx, Hy.
  destruct (Z.ltb_spec x y); apply StronglySorted_cons; (split; [|by auto]);
    rewrite Forall_forall; intros z; rewrite merge_loop_perm, elem_of_app, !elem_of_cons.
  - intros [Hz|[->|Hz]]; [by apply Hx|lia|]. apply Hy in Hz. lia.
  - intros [[->|Hz]|Hz]; [lia| |by apply Hy]. apply Hx in Hz. lia.
Qed.

Lemma sort_pgids_perm l : sort_pgids l ≡ₚ l.
Proof. apply merge_sort_Permutation. Qed.

Lemma sort_pgids_sorted l : StronglySorted Z.le (sort_pgids l).
Proof. apply StronglySorted_merge_sort; [apply _|]. intros x y. lia. Qed.

Lemma sorted_le_unique l1 l2 :
  StronglySorted Z.le l1 -> StronglySorted Z.le l2 -> l1 ≡ₚ l2 -> l1 = l2.
Proof. apply StronglySorted_unique. intros x y ? ?. lia. Qed.

Lemma sorted_lt_le l : StronglySorted Z.lt l -> StronglySorted Z.le l.
Proof. induction 1; constructor; [done|]. eapply Forall_impl; [done|]. simpl. lia. Qed.

Lemma sorted_le_lt l : StronglySorted Z.le l -> NoDup l -> StronglySorted Z.lt l.
Proof.
  induction 1 as [|x l Hs IH Hx]; [constructor|]. intros [Hn Hd]%NoDup_cons.
  constructor; [by auto|]. rewrite Forall_forall in *. intros y Hy.
  specialize (Hx y Hy). assert (x <> y) by (intros ->; done). lia.
Qed.

(** Sorting a merge of sorted lists is the merge: the walk order over an
    [unordered_map] is lost. *)
Lemma merge_sorted_eq src ids :
  StronglySorted Z.le ids -> merge_loop (sort_pgids src) ids = sort_pgids (src ++ ids).
Proof.
  intros Hi. apply sorted_le_unique; [|apply sort_pgids_sorted|].
  - apply merge_loop_sorted; [apply sort_pgids_sorted|done].
  - by rewrite merge_loop_perm, !sort_pgids_perm.
Qed.

Lemma sort_pgids_sorted_id l : StronglySorted Z.le l -> sort_pgids l = l.
Proof. intros. apply sorted_le_unique; [apply sort_pgids_sorted|done|apply sort_pgids_perm]. Qed.

Lemma sort_pgids_proper l1 l2 : l1 ≡ₚ l2 -> sort_pgids l1 = sort_pgids l2.
Proof.
  intros Hp. apply sorted_le_unique; [apply sort_pgids_sorted..|].
  by rewrite !sort_pgids_perm.
Qed.

#[export] Instance sort_pgids_Proper : Proper (Permutation ==> eq) sort_pgids.
Proof. intros l1 l2. apply sort_pgids_proper. Qed.

Lemma copyall_sorted f :
  StronglySorted Z.lt (ids_ f) -> copyall f [] = sort_pgids (all_pages f).
Proof.
  intros Hs. unfold copyall, mergeids_. simpl. rewrite merge_sorted_eq by by apply sorted_lt_le.
  apply sort_pgids_proper. unfold all_pages. by rewrite Permutation_app_comm.
Qed.

(** ** Pending pages as a map of lists *)

Lemma pending_pages_insert (p : gmap Z (list Z)) t l :
  p !! t = None -> pending_pages (<[t := l]> p) ≡ₚ l ++ pending_pages p.
Proof.
  intros Hp. unfold pending_pages. rewrite (map_to_list_insert p t l Hp). done.
Qed.

Lemma pending_pages_delete (p : gmap Z (list Z)) t l :
  p !! t = Some l -> pending_pages p ≡ₚ l ++ pending_pages (delete t p).
Proof.
  intros Hp. rewrite <-(insert_delete_id p t l Hp) at 1.
  apply pending_pages_insert, lookup_delete_eq.
Qed.

Lemma elem_of_pending_pages (p : gmap Z (list Z)) id :
  id ∈ pending_pages p <-> exists t l, p !! t = Some l /\ id ∈ l.
Proof.
  unfold pending_pages. rewrite list_elem_of_In, in_concat.
  setoid_rewrite <-list_elem_of_In. setoid_rewrite list_elem_of_fmap. split.
  - intros (l&([t l']&->&H)&Hid). apply elem_of_map_to_list in H. eauto.
  - intros (t&l&H&Hid). exists l. split; [|done]. exists (t, l). split; [done|].
    by apply elem_of_map_to_list.
Qed.

Lemma pending_pages_filter_perm (p : gmap Z (list Z)) (P : Z * list Z -> Prop)
    `{forall x, Decision (P x)} :
  pending_pages p ≡ₚ pending_pages (filter P p) ++ pending_pages (filter (fun kv => ~ P kv) p).
Proof.
  induction p as [|t l p Hp IH] using map_ind; [done|].
  destruct (decide (P (t, l))).
  - rewrite map_filter_insert_True by done. rewrite map_filter_insert_False by naive_solver.
    rewrite delete_id by done. rewrite !pending_pages_insert; [|by apply map_lookup_filter_None_2; left|done].
    by rewrite IH, app_assoc.
  - rewrite map_filter_insert_False by done. rewrite map_filter_insert_True by done.
    rewrite delete_id by done. rewrite !pending_pages_insert; [|by apply map_lookup_filter_None_2; left|done].
    rewrite IH. by rewrite !app_assoc, (Permutation_app_comm l).
Qed.

(** ** Contiguous allocation *)

(** The pages [s .. s + n - 1] are all in [l]. *)
Definition has_run (l : list Z) (s n : Z) : Prop := forall j, 0 <= j < n -> s + j ∈ l.

Lemma seqZ_snoc m n : 0 <= n -> seqZ m n ++ [m + n] = seqZ m (n + 1).
Proof. intros. rewrite seqZ_app by lia. done. Qed.

(** The state of the loop of [allocate] after the prefix [pre]: a maximal run
    [init .. prev] that is still too short, and no complete run before. *)
Definition alloc_inv (n : Z) (pre : list Z) (init prev : Z) : Prop :=
  (pre = [] /\ prev = 0) \/
  (2 <= init <= prev /\ prev - init + 1 < n /\ (forall s, ~ has_run pre s n) /\
   exists pre0, pre = pre0 ++ seqZ init (prev - init + 1) /\ init - 1 ∉ pre0).

Section allocate_loop.
Context (n : Z).
Hypothesis n_pos : 1 <= n < 2 ^ 32.

(** One iteration extends the run or starts a new one. *)
Lemma alloc_inv_step pre id init prev :
  StronglySorted Z.lt (pre ++ [id]) -> Forall pgid_ok (pre ++ [id]) ->
  alloc_inv n pre init prev ->
  let init' := if (prev =? 0) || negb (wrap64 (id - prev) =? 1) then id else init in
  2 <= init' <= id /\ id - init' + 1 <= n /\ (forall s, ~ has_run pre s n) /\
  exists pre0, pre ++ [id] = pre0 ++ seqZ init' (id - init' + 1) /\ init' - 1 ∉ pre0.
Proof using n_pos.
  intros (Hlt&Hs&_)%StronglySorted_app [_ Hid]%Forall_app Hinv. cbn zeta.
  rewrite Forall_singleton in Hid. unfold pgid_ok in Hid.
  assert (pre ++ [id] = pre ++ seqZ id (id - id + 1)) as Hone
    by by replace (id - id + 1) with 1 by lia.
  destruct Hinv as [[-> ->]|(Hi&Hn&Hno&pre0&Hpre&Hmax)].
  - rewrite Z.eqb_refl. cbn [orb]. split_and!; try lia.
    + intros s Hrun. specialize (Hrun 0 ltac:(lia)). set_solver.
    + exists []. split; [done|set_solver].
  - assert (prev ∈ seqZ init (prev - init + 1)) as Hin by (rewrite elem_of_seqZ; lia).
    assert (prev < id) as Hp by (apply Hlt; [rewrite Hpre; set_solver|set_solver]).
    rewrite (proj2 (Z.eqb_neq prev 0)) by lia. rewrite wrap_id by lia.
    destruct (Z.eqb_spec (id - prev) 1); cbn [orb negb]; (split_and!; [lia..|done|]).
    + exists pre0. split; [|done]. rewrite Hpre, <-app_assoc.
      replace id with (init + (prev - init + 1)) at 1 by lia.
      rewrite seqZ_snoc by lia. do 2 f_equal. lia.
    + exists pre. split; [done|]. intros Hid1. rewrite Hpre in Hid1, Hs.
      apply StronglySorted_app in Hs as (Hord&_&_).
      apply elem_of_app in Hid1 as [Hid1|Hid1%elem_of_seqZ]; [|lia].
      specialize (Hord _ _ Hid1 Hin). lia.
Qed.

(** A run that ends at the page just scanned starts at [init]. *)
Lemma no_run_before pre id init pre0 s :
  (forall x, x ∈ pre -> x < id) ->
  pre ++ [id] = pre0 ++ seqZ init (id - init + 1) -> init <= id -> init - 1 ∉ pre0 ->
  (forall s, ~ has_run pre s n) -> has_run (pre ++ [id]) s n -> init <= s /\ s + n - 1 = id.
Proof using n_pos.
  intros Hlt Heq Hid Hmax Hno Hrun.
  assert (s + n - 1 = id) as He.
  { destruct (Z.eq_dec (s + n - 1) id) as [|Hne]; [done|exfalso]. apply (Hno s). intros j Hj.
    pose proof (Hrun (n - 1) ltac:(lia)) as Hl. pose proof (Hrun j Hj) as Hjm.
    apply elem_of_app in Hl as [Hl%Hlt|Hl]; [|apply list_elem_of_singleton in Hl; lia].
    apply elem_of_app in Hjm as [|Hjm]; [done|]. apply list_elem_of_singleton in Hjm. lia. }
  split; [|done]. destruct (Z.le_gt_cases init s) as [|Hs]; [done|exfalso].
  pose proof (Hrun (init - 1 - s) ltac:(lia)) as Hm. replace (s + _) with (init - 1) in Hm by lia.
  rewrite Heq, elem_of_app, elem_of_seqZ in Hm. destruct Hm as [Hm|]; [done|lia].
Qed.

Lemma allocate_loop_spec rest pre init prev :
  StronglySorted Z.lt (pre ++ rest) -> Forall pgid_ok (pre ++ rest) ->
  alloc_inv n pre init prev ->
  exists o, allocate_loop rest n (Z.of_nat (length pre)) init prev = Ok o /\
  match o with
  | None => forall s, ~ has_run (pre ++ rest) s n
  | Some (i, r) => exists l1 l2, pre ++ rest = l1 ++ seqZ r n ++ l2 /\
      i = Z.of_nat (length l1) + n - 1 /\ 2 <= r /\ r - 1 ∉ l1 /\
      (forall s, has_run (pre ++ rest) s n -> r <= s)
  end.
Proof using n_pos.
  revert pre init prev; induction rest as [|id rest IH]; intros pre init prev Hs Hr Hinv.
  { exists None. split; [done|]. rewrite app_nil_r. intros s Hrun.
    destruct Hinv as [[-> _]|(_&_&Hno&_)]; [|by apply (Hno s)].
    specialize (Hrun 0 ltac:(lia)). set_solver. }
  rewrite cons_middle, app_assoc in Hs, Hr |- *.
  apply StronglySorted_app in Hs as Hs'. destruct Hs' as (Hafter&Hs1&_).
  apply Forall_app in Hr as Hr'. destruct Hr' as [Hr1 _].
  pose proof (alloc_inv_step pre id init prev Hs1 Hr1 Hinv) as Hstep. cbn zeta in Hstep.
  apply Forall_app in Hr1 as [_ Hid]. rewrite Forall_singleton in Hid. unfold pgid_ok in Hid.
  apply StronglySorted_app in Hs1 as (Hlt&_&_).
  cbn [allocate_loop]. rewrite (proj2 (Z.ltb_ge id 2)) by lia.
  set (init' := if _ || _ then id else init) in *.
  destruct Hstep as (Hi&Hn&Hno&pre0&Heq&Hmax). rewrite wrap_id by lia.
  assert (forall x, x ∈ pre -> x < id) as Hlt' by (intros x Hx; apply Hlt; set_solver).
  pose proof (fun s => no_run_before pre id init' pre0 s Hlt' Heq ltac:(lia) Hmax Hno) as Hbefore.
  destruct (Z.eqb_spec (id - init' + 1) n) as [Hfull|Hshort].
  - eexists. split; [done|]. exists pre0, rest. rewrite Heq, Hfull, app_assoc. split_and!; try done.
    + apply (f_equal length) in Heq. rewrite !length_app, length_seqZ in Heq. simpl in Heq. lia.
    + lia.
    + intros s Hrun. destruct (Z.le_gt_cases init' s) as [|Hsl]; [done|exfalso].
      assert (s + n - 1 <= id) as Hse by lia.
      destruct (Hbefore s); [|lia]. intros j Hj. specialize (Hrun j Hj).
      rewrite <-Hfull, <-Heq, elem_of_app in Hrun. destruct Hrun as [|Hrun]; [done|].
      specialize (Hafter id _ ltac:(set_solver) Hrun). lia.
  - replace (Z.of_nat (length pre) + 1) with (Z.of_nat (length (pre ++ [id])))
      by (rewrite length_app; simpl; lia).
    apply IH; [done..|]. right. split_and!; try lia; [|by eauto].
    intros s [? ?]%Hbefore. lia.
Qed.
End allocate_loop.

(** What [allocate] returns and leaves. *)
Definition allocate_spec (f : freeList) (n r : Z) (f' : freeList) : Prop :=
  (r = 0 /\ f' = f /\ forall s, ~ has_run (ids_ f) s n) \/
  (2 <= r /\ (forall s, has_run (ids_ f) s n -> r <= s) /\
   cache_ f' = cache_erase (seqZ r n) (cache_ f) /\ pending_ f' = pending_ f /\
   exists l1 l2, ids_ f = l1 ++ seqZ r n ++ l2 /\ ids_ f' = l1 ++ l2).

Lemma vec_erase_app {A} (l1 l l2 : list A) a b :
  a = Z.of_nat (length l1) -> b = a + Z.of_nat (length l) ->
  vec_erase (l1 ++ l ++ l2) a b = Ok (l1 ++ l2).
Proof.
  intros -> ->. unfold vec_erase. rewrite !length_app.
  rewrite !(proj2 (Z.leb_le _ _)) by lia. cbn [andb]. rewrite Nat2Z.id, take_app_length.
  do 2 f_equal. rewrite app_assoc. apply drop_app_length'. rewrite length_app. lia.
Qed.

Lemma allocate_correct f n :
  StronglySorted Z.lt (ids_ f) -> Forall pgid_ok (ids_ f) -> 1 <= n < 2 ^ 32 ->
  exists r f', allocate f n = Ok (r, f') /\ allocate_spec f n r f'.
Proof.
  intros Hs Hr Hn. unfold allocate. destruct (ids_ f) as [|x l] eqn:Hids.
  { exists 0, f. split; [done|]. left. split_and!; [done..|]. rewrite Hids. intros s Hrun.
    specialize (Hrun 0 ltac:(lia)). set_solver. }
  rewrite <-Hids in *. clear x l Hids.
  pose proof (allocate_loop_spec n Hn (ids_ f) [] 0 0 Hs Hr (or_introl (conj eq_refl eq_refl))) as Ho.
  cbn in Ho. change (Z.of_nat 0) with 0 in Ho. destruct Ho as ([[i r]|]&->&Ho); cbn.
  2:{ exists 0, f. split; [done|]. by left. }
  destruct Ho as (l1&l2&Heq&->&Hr2&_&Hfirst).
  assert (r + n - 1 < 2 ^ 64) as Hlast.
  { rewrite Forall_forall in Hr. destruct (Hr (r + n - 1)); [|done].
    rewrite Heq, !elem_of_app, elem_of_seqZ. lia. }
  rewrite Heq. rewrite vec_erase_app by (rewrite ?length_seqZ; lia). cbn.
  exists r. eexists. split; [done|]. right. cbn. split_and!; try done; [|by eauto].
  f_equal. transitivity (Z.add r <$> seqZ 0 n); [|by rewrite fmap_add_seqZ, Z.add_0_r].
  apply list_fmap_ext. intros k j Hj%list_elem_of_lookup_2%elem_of_seqZ. apply wrap_id. lia.
Qed.

Lemma fl_wf_ids f : fl_wf f -> Forall pgid_ok (ids_ f).
Proof. intros [_ H _]. by apply Forall_app in H as [? _]. Qed.

Lemma StronglySorted_remove_middle {A} (R : relation A) l1 l l2 :
  StronglySorted R (l1 ++ l ++ l2) -> StronglySorted R (l1 ++ l2).
Proof. apply StronglySorted_sublist. apply sublist_app; [done|]. by apply sublist_inserts_l. Qed.

Lemma allocate_wf f n r f' : fl_wf f -> allocate_spec f n r f' -> fl_wf f'.
Proof.
  intros Hwf [(_&->&_)|(_&_&_&Hp&l1&l2&Heq&Heq')]; [done|].
  destruct Hwf as [Hs Hr Hd]. unfold all_pages in *. rewrite Heq in *. unfold pgid_ok.
  assert (sublist ((l1 ++ l2) ++ pending_pages (pending_ f))
    ((l1 ++ seqZ r n ++ l2) ++ pending_pages (pending_ f))) as Hsub.
  { apply sublist_app; [|done]. apply sublist_app; [done|]. by apply sublist_inserts_l. }
  split; unfold all_pages; rewrite ?Heq', ?Hp.
  - by eapply StronglySorted_remove_middle.
  - rewrite Forall_forall in *. intros x Hx. by eapply Hr, elem_of_sublist.
  - by eapply sublist_NoDup.
Qed.

(** ** Release and rollback *)

Lemma all_pages_release f t :
  all_pages (release f t) ≡ₚ all_pages f.
Proof.
  unfold all_pages, release, mergeids_; cbn. rewrite merge_loop_perm, sort_pgids_perm.
  rewrite (pending_pages_filter_perm (pending_ f) (fun kv => kv.1 <= t)).
  rewrite !app_assoc. by rewrite (Permutation_app_comm (ids_ f)).
Qed.

Lemma release_wf f t : fl_wf f -> fl_wf (release f t).
Proof.
  intros [Hs Hr Hd].
  assert (NoDup (all_pages (release f t))) as Hd' by by rewrite all_pages_release.
  split; [|by rewrite all_pages_release|done]. apply sorted_le_lt.
  - cbn. apply merge_loop_sorted; [apply sort_pgids_sorted|by apply sorted_lt_le].
  - by apply NoDup_app in Hd' as [? _].
Qed.

Lemma release_pending f t u :
  pending_ (release f t) !! u = if decide (u <= t) then None else pending_ f !! u.
Proof.
  cbn. case_decide.
  - apply map_lookup_filter_None_2. right. intros ? _ Hn. by apply Hn.
  - destruct (pending_ f !! u) eqn:E.
    + by apply map_lookup_filter_Some_2.
    + apply map_lookup_filter_None_2. by left.
Qed.

(** What [release] makes available is what the transactions up to [t] freed. *)
Lemma release_ids f t id :
  id ∈ ids_ (release f t) <->
  id ∈ ids_ f \/ exists u l, u <= t /\ pending_ f !! u = Some l /\ id ∈ l.
Proof.
  cbn. rewrite merge_loop_perm, sort_pgids_perm, elem_of_app, elem_of_pending_pages.
  setoid_rewrite map_lookup_filter_Some. cbn. naive_solver.
Qed.

Lemma rollback_wf f t : fl_wf f -> fl_wf (rollback f t).
Proof.
  intros [Hs Hr Hd]. destruct (pending_ f !! t) as [l|] eqn:E.
  2:{ unfold rollback. rewrite delete_id by done. done. }
  unfold all_pages in *. rewrite (pending_pages_delete _ _ _ E) in Hr, Hd.
  rewrite (Permutation_app_comm l), app_assoc in Hr, Hd.
  split; cbn; [done|by apply Forall_app in Hr as [? _]|by apply NoDup_app in Hd as [? _]].
Qed.

(** ** Freeing *)

Definition cached (f : freeList) (id : Z) : bool := default false (cache_ f !! id).

Lemma free_loop_spec fuel id n ids cache :
  0 <= id -> 0 <= n -> id + n < 2 ^ 64 -> (Z.to_nat n < fuel)%nat ->
  (forall j, 0 <= j < n -> default false (cache !! (id + j)) = false) ->
  exists cache', free_loop fuel id (id + n - 1) ids cache = Ok (ids ++ seqZ id n, cache') /\
    forall k, default false (cache' !! k) = default false (cache !! k).
Proof.
  revert id n ids cache; induction fuel as [|fuel IH]; intros id n ids cache Hid Hn Hmax Hf Hc; [lia|].
  cbn [free_loop]. destruct (decide (n = 0)) as [->|].
  { rewrite (proj2 (Z.leb_gt _ _)) by lia. rewrite seqZ_nil, app_nil_r by lia. by eexists. }
  rewrite (proj2 (Z.leb_le _ _)) by lia.
  pose proof (Hc 0 ltac:(lia)) as Hc0. rewrite Z.add_0_r in Hc0. rewrite Hc0. rewrite wrap_id by lia.
  set (cache1 := match cache !! id with None => _ | Some _ => _ end).
  assert (forall k, default false (cache1 !! k) = default false (cache !! k)) as Hc1.
  { intros k. subst cache1. destruct (cache !! id) eqn:E; [done|].
    rewrite lookup_insert. case_decide as Hk; [|done]. by rewrite <-Hk, E. }
  destruct (IH (id + 1) (n - 1) (ids ++ [id]) cache1) as (cache'&He&Hk); try lia.
  { intros j Hj. rewrite Hc1. rewrite <-Z.add_assoc. apply Hc. lia. }
  replace (id + 1 + (n - 1) - 1) with (id + n - 1) in He by lia.
  exists cache'. split; [|by intros; rewrite Hk].
  rewrite He, <-app_assoc. cbn. by rewrite (seqZ_cons id n) by lia.
Qed.

Lemma free_loop_assert fuel id n ids cache j :
  0 <= id -> id + n < 2 ^ 64 -> (Z.to_nat n < fuel)%nat -> 0 <= j < n ->
  default false (cache !! (id + j)) = true ->
  free_loop fuel id (id + n - 1) ids cache = Err AssertFailed.
Proof.
  revert id n ids cache j;
    induction fuel as [|fuel IH]; intros id n ids cache j Hid Hmax Hf Hj Hc; [lia|].
  cbn [free_loop]. rewrite (proj2 (Z.leb_le _ _)) by lia.
  destruct (default false (cache !! id)) eqn:E0; [done|]. rewrite wrap_id by lia.
  destruct (decide (j = 0)) as [->|]; [by rewrite Z.add_0_r, E0 in Hc|].
  replace (id + n - 1) with (id + 1 + (n - 1) - 1) by lia.
  apply (IH _ _ _ _ (j - 1)); try lia.
  destruct (cache !! id); [|rewrite lookup_insert_ne by lia];
    by replace (id + 1 + (j - 1)) with (id + j) by lia.
Qed.

Section free.
Context (f : freeList) (t id overflow : Z).
Hypothesis id_ok : 0 <= id.
Hypothesis overflow_ok : 0 <= overflow.
Hypothesis last_ok : id + overflow < 2 ^ 64 - 1.

Lemma free_ok :
  (forall x, id <= x <= id + overflow -> cached f x = false) ->
  exists f', free f t id overflow = Ok f' /\ ids_ f' = ids_ f /\
    pending_ f' = <[t := default [] (pending_ f !! t) ++ seqZ id (overflow + 1)]> (pending_ f) /\
    (forall x, cached f' x = cached f x).
Proof using All.
  intros Hc. unfold free. rewrite wrap_id by lia.
  destruct (free_loop_spec (Z.to_nat overflow + 2) id (overflow + 1)
    (default [] (pending_ f !! t)) (cache_ f)) as (cache'&He&Hk); try lia.
  { intros j Hj. apply Hc. lia. }
  replace (id + (overflow + 1) - 1) with (id + overflow) in He by lia. rewrite He. cbn.
  eexists. split; [done|]. done.
Qed.

Lemma free_asserts x :
  id <= x <= id + overflow -> cached f x = true -> free f t id overflow = Err AssertFailed.
Proof using All.
  intros Hx Hc. unfold free. rewrite wrap_id by lia.
  replace (id + overflow) with (id + (overflow + 1) - 1) by lia.
  rewrite (free_loop_assert _ _ _ _ _ (x - id)); try lia; [done|].
  by replace (id + (x - id)) with x by lia.
Qed.
End free.

Lemma pending_pages_add f t l :
  pending_pages (<[t := default [] (pending_ f !! t) ++ l]> (pending_ f)) ≡ₚ
  l ++ pending_pages (pending_ f).
Proof.
  destruct (pending_ f !! t) as [l0|] eqn:E; cbn.
  - rewrite <-insert_delete_eq, pending_pages_insert by apply lookup_delete_eq.
    rewrite (pending_pages_delete _ _ _ E). by rewrite !app_assoc, (Permutation_app_comm l0).
  - by rewrite pending_pages_insert.
Qed.

Lemma free_inv f t id overflow f' :
  0 <= id -> 0 <= overflow -> id + overflow < 2 ^ 64 - 1 ->
  free f t id overflow = Ok f' ->
  ids_ f' = ids_ f /\
  pending_ f' = <[t := default [] (pending_ f !! t) ++ seqZ id (overflow + 1)]> (pending_ f) /\
  (forall x, cached f' x = cached f x).
Proof.
  intros Hid Ho Hlast Hf.
  destruct (decide (Forall (fun x => cached f x = false) (seqZ id (overflow + 1)))) as [Hc|Hc].
  - rewrite Forall_forall in Hc. setoid_rewrite elem_of_seqZ in Hc.
    destruct (free_ok f t id overflow Hid Ho Hlast) as (f1&Hf1&?); [intros; apply Hc; lia|].
    rewrite Hf1 in Hf. by injection Hf as <-.
  - apply not_Forall_Exists, Exists_exists in Hc as (x&Hx%elem_of_seqZ&Hc); [|apply _].
    rewrite (free_asserts f t id overflow Hid Ho Hlast x) in Hf; [done|lia|].
    by apply not_false_is_true, Hc.
Qed.

Lemma free_wf f t id overflow f' :
  fl_wf f -> 2 <= id -> 0 <= overflow -> id + overflow < 2 ^ 64 - 1 ->
  (forall x, id <= x <= id + overflow -> x ∉ all_pages f) ->
  free f t id overflow = Ok f' -> fl_wf f'.
Proof.
  intros [Hs Hr Hd] Hid Ho Hlast Hnew Hf.
  apply free_inv in Hf as (Hi&Hp&_); try lia.
  assert (all_pages f' ≡ₚ seqZ id (overflow + 1) ++ all_pages f) as Hall.
  { unfold all_pages. rewrite Hi, Hp, pending_pages_add.
    by rewrite !app_assoc, (Permutation_app_comm (ids_ f)). }
  split; [by rewrite Hi| |]; rewrite Hall.
  - apply Forall_app. split; [|done]. apply Forall_forall. intros x Hx%elem_of_seqZ.
    unfold pgid_ok. lia.
  - apply NoDup_app. split_and!; [apply NoDup_seqZ| |done].
    intros x Hx%elem_of_seqZ. apply Hnew. lia.
Qed.

(** ** Serialisation *)

Lemma store_pgids_length m o ids m' : store_pgids m o ids = Ok m' -> length m' = length m.
Proof.
  revert m o; induction ids as [|id ids IH]; intros m o H; cbn in H; inv_res; [by subst|].
  apply IH in H. apply store_length in E. congruence.
Qed.

Lemma store_pgids_succeeds m o ids :
  0 <= o -> o + 8 * Z.of_nat (length ids) <= Z.of_nat (length m) ->
  exists m', store_pgids m o ids = Ok m'.
Proof.
  revert m o; induction ids as [|id ids IH]; intros m o Ho Hm; cbn in *; [by eexists|].
  destruct (store_succeeds 8 m o id) as [m1 Hm1]; [lia..|]. rewrite Hm1. cbn.
  apply IH; [lia|]. rewrite (store_length _ _ _ _ _ Hm1). lia.
Qed.

Lemma store_pgids_other m o ids m' o' n :
  store_pgids m o ids = Ok m' -> o' + Z.of_nat n <= o -> load n m' o' = load n m o'.
Proof.
  revert m o; induction ids as [|id ids IH]; intros m o H Ho; cbn in H; inv_res; [by subst|].
  apply IH in H; [|lia]. rewrite H. eapply load_store_other; [done|]. by left.
Qed.

Lemma store_load_pgids m o ids m' :
  store_pgids m o ids = Ok m' -> Forall (fun id => 0 <= id < 2 ^ 64) ids ->
  load_pgids m' o (length ids) = Ok ids.
Proof.
  revert m o; induction ids as [|id ids IH]; intros m o H Hr; cbn in H |- *; inv_res; [done|].
  apply Forall_cons in Hr as [Hid Hr].
  rewrite (store_pgids_other _ _ _ _ o 8 H) by lia.
  rewrite (load_store_same _ _ _ _ _ E). cbn. rewrite Z.mod_small by done.
  by rewrite (IH _ _ H Hr).
Qed.

Lemma pendingCount_spec f :
  pendingCount f = wrap32 (Z.of_nat (length (pending_pages (pending_ f)))).
Proof.
  unfold pendingCount, pending_pages. generalize ((map_to_list (pending_ f)).*2). intros L.
  enough (forall a, foldl (fun result l => wrap32 (result + Z.of_nat (length l))) (wrap32 a) L =
    wrap32 (a + Z.of_nat (length (concat L)))) as H by apply (H 0).
  induction L as [|l L IH]; intros a; cbn; [by rewrite Z.add_0_r|].
  rewrite wrap_add_wrap_l, IH, length_app. f_equal. lia.
Qed.

Lemma count_spec f : count f = wrap32 (Z.of_nat (length (all_pages f))).
Proof.
  unfold count, freeCount. rewrite pendingCount_spec.
  rewrite wrap_add_wrap_l, wrap_add_wrap_r. unfold all_pages. rewrite length_app. f_equal. lia.
Qed.

Section serialise.
Context (f : freeList).
Hypothesis wf : fl_wf f.
Hypothesis few : Z.of_nat (length (all_pages f)) < 2 ^ 28.

Lemma count_eq : count f = Z.of_nat (length (all_pages f)).
Proof using few. rewrite count_spec. apply wrap_id. lia. Qed.

Lemma size_eq :
  size f = PAGEHEADERSIZE +
    8 * (Z.of_nat (length (all_pages f)) +
         if 0xffff <=? Z.of_nat (length (all_pages f)) then 1 else 0).
Proof using few.
  unfold size. rewrite count_eq. unfold PAGEHEADERSIZE.
  case_z; rewrite ?(wrap_id 32) by (rewrite ?(wrap_id 32) by lia; lia); lia.
Qed.

Lemma copyall_length : length (copyall f []) = length (all_pages f).
Proof using wf. rewrite copyall_sorted by apply wf. by rewrite sort_pgids_perm. Qed.

Lemma copyall_range : Forall (fun id => 0 <= id < 2 ^ 64) (copyall f []).
Proof using wf.
  rewrite copyall_sorted by apply wf. rewrite sort_pgids_perm.
  eapply Forall_impl; [apply wf|]. unfold pgid_ok. lia.
Qed.

(** [write] stays inside [size()] bytes of the page. *)
Lemma write_succeeds m p :
  0 <= p -> p + size f <= Z.of_nat (length m) -> exists m', write f m p = Ok m'.
Proof using wf few.
  intros Hp Hm. rewrite size_eq in Hm. unfold PAGEHEADERSIZE in Hm.
  pose proof copyall_length as Hc. unfold write, Page_flag, Page_set_flag, Page_set_count.
  rewrite count_eq. unfold Page_ptr, PAGEHEADERSIZE.
  set (n := Z.of_nat (length (all_pages f))) in *.
  assert (p + 16 + 8 * n <= Z.of_nat (length m)) as Hm' by (destruct (0xffff <=? n); lia).
  assert (exists fl, load 2 m (p + 8) = Ok fl) as [fl Hfl].
  { unfold load. rewrite slice_ok by lia. by eexists. }
  rewrite Hfl. cbn [mbind res_bind].
  destruct (store_succeeds 2 m (p + 8) (Z.lor fl freelistPageFlag)) as [m1 Hm1]; [lia..|].
  rewrite Hm1. cbn [mbind res_bind]. apply store_length in Hm1.
  destruct (Z.eqb_spec n 0); [apply store_succeeds; lia|].
  destruct (Z.ltb_spec n 0xffff).
  - destruct (store_succeeds 2 m1 (p + 10) n) as [m2 Hm2]; [lia..|].
    rewrite Hm2. cbn [mbind res_bind]. apply store_length in Hm2. apply store_pgids_succeeds; lia.
  - rewrite (proj2 (Z.leb_le _ _)) in Hm by lia.
    destruct (store_succeeds 2 m1 (p + 10) 0xffff) as [m2 Hm2]; [lia..|].
    rewrite Hm2. cbn [mbind res_bind]. apply store_length in Hm2.
    destruct (store_succeeds 8 m2 (p + 16) n) as [m3 Hm3]; [lia..|].
    rewrite Hm3. cbn [mbind res_bind]. apply store_length in Hm3. apply store_pgids_succeeds; lia.
Qed.

Lemma write_read_pgids m p m' g :
  0 <= p -> write f m p = Ok m' ->
  read g m' p = Ok (reindex {| ids_ := sort_pgids (all_pages f); pending_ := pending_ g;
                               cache_ := cache_ g |}).
Proof using wf few.
  intros Hp Hw. pose proof copyall_length as Hc. pose proof copyall_range as Hr.
  assert (sort_pgids (copyall f []) = sort_pgids (all_pages f)) as Hsort.
  { rewrite copyall_sorted by apply wf. apply sort_pgids_proper, sort_pgids_perm. }
  unfold write in Hw. rewrite count_eq in Hw. inv_res. clear E E0.
  unfold read, Page_count, Page_set_count, Page_ptr, PAGEHEADERSIZE in *.
  set (n := Z.of_nat (length (all_pages f))) in *.
  assert (Z.to_nat n = length (copyall f [])) as Hn by (subst n; lia).
  destruct (Z.eqb_spec n 0) as [Hn0|].
  { rewrite (load_store_same _ _ _ _ _ Hw). cbn. repeat f_equal.
    destruct (all_pages f); [done|]. subst n. cbn in Hn0. lia. }
  destruct (Z.ltb_spec n 0xffff); inv_res.
  - rewrite (store_pgids_other _ _ _ _ (p + 10) 2 Hw) by lia. rewrite (load_store_same _ _ _ _ _ E).
    rewrite Z.mod_small by lia. cbn [mbind res_bind].
    rewrite (proj2 (Z.eqb_neq n 0xffff)) by lia. cbn [mbind res_bind].
    rewrite (proj2 (Z.eqb_neq n 0)) by lia.
    rewrite Hn, Z.add_0_r, (store_load_pgids _ _ _ _ Hw Hr). cbn [mbind res_bind]. by rewrite Hsort.
  - rewrite (store_pgids_other _ _ _ _ (p + 10) 2 Hw) by lia.
    rewrite (load_store_other 8 2 _ _ (p + 10) _ _ E0) by lia.
    rewrite (load_store_same _ _ _ _ _ E). cbn [mbind res_bind].
    change (0xffff mod _ =? 0xffff) with true. cbn iota.
    rewrite (store_pgids_other _ _ _ _ (p + 16) 8 Hw) by lia.
    rewrite (load_store_same _ _ _ _ _ E0), Z.mod_small by lia. cbn [mbind res_bind].
    rewrite (proj2 (Z.eqb_neq n 0)) by lia. rewrite Z.mul_1_l, Hn.
    rewrite (store_load_pgids _ _ _ _ Hw Hr). cbn [mbind res_bind]. by rewrite Hsort.
Qed.
End serialise.

(** ** Rollback of a write transaction *)

Lemma allocate_pending f n r f' : allocate f n = Ok (r, f') -> pending_ f' = pending_ f.
Proof.
  unfold allocate. destruct (ids_ f); intros; inv_res; simplify_eq; [done|].
  destruct a as [[i init]|]; inv_res; simplify_eq; done.
Qed.

Lemma free_pending f t id overflow f' u :
  free f t id overflow = Ok f' -> u <> t -> pending_ f' !! u = pending_ f !! u.
Proof.
  unfold free. intros H Hu. inv_res. destruct a as [ids cache]. cbn in H. inv_res. subst. cbn.
  by rewrite lookup_insert_ne.
Qed.

(** A transaction's frees are all under its own id. *)
Lemma writer_steps_pending t f f' :
  rtc (writer_step t) f f' -> delete t (pending_ f') = delete t (pending_ f).
Proof.
  induction 1 as [|f f1 f' Hstep _ IH]; [done|]. rewrite IH. apply map_eq. intros u.
  destruct (decide (u = t)) as [->|]; [by rewrite !lookup_delete_eq|].
  rewrite !lookup_delete_ne by done. destruct Hstep as [???? Ha|???? Hf].
  - by rewrite (allocate_pending _ _ _ _ Ha).
  - by apply (free_pending _ _ _ _ _ _ Hf).
Qed.

(** It makes no page available. *)
Lemma writer_steps_ids t f f' : rtc (writer_step t) f f' -> forall x, x ∈ ids_ f' -> x ∈ ids_ f.
Proof.
  induction 1 as [|f f1 f' Hstep _ IH]; [done|]. intros x Hx%IH. destruct Hstep as [f n r f1 Ha|f id overflow f1 Hf].
  - unfold allocate in Ha. destruct (ids_ f) as [|y l] eqn:Hids; [injection Ha as _ <-; by rewrite Hids in Hx|].
    rewrite <-Hids in *. inv_res. destruct a as [[i init]|]; [|by injection Ha as _ <-]. inv_res. subst.
    unfold vec_erase in *. destruct (_ && _); inv_res. subst. cbn in Hx. rewrite elem_of_app in Hx.
    destruct Hx as [Hx|Hx]; [by eapply subseteq_take|by eapply subseteq_drop].
  - unfold free in Hf. inv_res. destruct a as [ids cache]. inv_res. by subst.
Qed.

Lemma lookup_cache_mark l c x :
  cache_mark l c !! x = if decide (x ∈ l) then Some true else c !! x.
Proof.
  revert c; induction l as [|y l IH]; intros c; [by rewrite decide_False by set_solver|].
  change (cache_mark (y :: l) c) with (cache_mark l (<[y := true]> c)). rewrite IH, lookup_insert. repeat case_decide; set_solver.
Qed.

Lemma reload_eq f m p f1 :
  read f m p = Ok f1 ->
  reload f m p = Ok (reindex {| ids_ := filter (fun x => x ∉ pending_pages (pending_ f)) (ids_ f1);
                                pending_ := pending_ f; cache_ := cache_ f1 |}).
Proof.
  intros Hr. unfold reload. rewrite Hr. cbn.
  assert (pending_ f1 = pending_ f) as Hp.
  { unfold read in Hr. inv_res. destruct a0 as [i c]. cbn in Hr. inv_res. by subst. }
  rewrite Hp. do 3 f_equal. apply list_filter_iff. intros x. rewrite lookup_cache_mark.
  case_decide; [|by rewrite lookup_empty]. naive_solver.
Qed.

Lemma filter_sorted_pending (ids pend : list Z) :
  StronglySorted Z.lt ids -> NoDup (ids ++ pend) ->
  filter (fun x => x ∉ pend) (sort_pgids (ids ++ pend)) = ids.
Proof.
  intros Hs (_&Hd&_)%NoDup_app. apply sorted_le_unique; [|by apply sorted_lt_le|].
  - apply StronglySorted_filter, sort_pgids_sorted.
  - rewrite sort_pgids_perm, filter_app.
    rewrite (filter_all _ ids), (filter_none _ pend); [by rewrite app_nil_r|..];
      apply Forall_forall; intros x; [|naive_solver]. auto.
Qed.

(** Cache agreement: [cache_] is the set of free and pending pages. *)
Definition cache_exact (f : freeList) : Prop := forall x, cached f x = true <-> x ∈ all_pages f.

Lemma reindex_cache_exact f : cache_exact (reindex f).
Proof.
  intros x. unfold cached, all_pages. cbn. rewrite !lookup_cache_mark, lookup_empty, elem_of_app.
  repeat case_decide; cbn; naive_solver.
Qed.

Lemma store_pgids_same_outside m o ids m' lo hi :
  store_pgids m o ids = Ok m' -> lo <= o -> o + 8 * Z.of_nat (length ids) <= hi ->
  same_outside lo hi m m'.
Proof.
  revert m o; induction ids as [|id ids IH]; intros m o H Hlo Hhi; cbn in H, Hhi; inv_res; [by subst|].
  transitivity a; [eapply store_same_outside; [done|lia..]|]. eapply IH; [done|lia..].
Qed.

Lemma write_same_outside f m p m' :
  fl_wf f -> Z.of_nat (length (all_pages f)) < 2 ^ 28 ->
  write f m p = Ok m' -> same_outside p (p + size f) m m'.
Proof.
  intros wf few Hw. rewrite (size_eq f few). pose proof (copyall_length f wf) as Hc.
  unfold write in Hw. rewrite (count_eq f few) in Hw. inv_res.
  unfold Page_set_flag, Page_set_count, Page_ptr, PAGEHEADERSIZE in *.
  set (n := Z.of_nat (length (all_pages f))) in *.
  assert (0 <= if 0xffff <=? n then 1 else 0) by (case_z; lia).
  transitivity a0; [eapply store_same_outside; [done|lia..]|].
  destruct (n =? 0); [eapply store_same_outside; [done|lia..]|].
  destruct (Z.ltb_spec n 0xffff); inv_res;
    (transitivity a1; [eapply store_same_outside; [done|lia..]|]).
  - eapply store_pgids_same_outside; [done|lia..].
  - rewrite (proj2 (Z.leb_le _ _)) by lia.
    transitivity a2; [eapply store_same_outside; [done|lia..]|].
    eapply store_pgids_same_outside; [done|lia..].
Qed.

Lemma size_mono f g :
  Z.of_nat (length (all_pages g)) < 2 ^ 28 -> (length (all_pages f) <= length (all_pages g))%nat -> size f <= size g.
Proof. intros Hg Hle. rewrite !size_eq by lia. repeat case_z; lia. Qed.

(** [write] leaves the id and the overflow of the page. *)
Lemma write_header f m p m' :
  write f m p = Ok m' ->
  length m' = length m /\ Page_id m' p = Page_id m p /\ Page_overflow m' p = Page_overflow m p.
Proof.
  unfold write, Page_id, Page_overflow, Page_set_flag, Page_set_count, Page_ptr, PAGEHEADERSIZE.
  intros Hw. inv_res.
  pose proof (store_length _ _ _ _ _ E0) as Hl0.
  assert (forall n o, o + Z.of_nat n <= p + 8 \/ p + 12 <= o -> load n a0 o = load n m o) as H0.
  { intros n o Ho. eapply load_store_other; [exact E0|lia]. }
  assert (forall n o z m1, store 2 a0 (p + 10) z = Ok m1 ->
    o + Z.of_nat n <= p + 8 \/ p + 12 <= o -> load n m1 o = load n m o) as H1.
  { intros n o z m1 Hm1 Ho. rewrite <-H0 by done. eapply load_store_other; [exact Hm1|lia]. }
  destruct (count f =? 0).
  { rewrite (store_length _ _ _ _ _ Hw), !(H1 _ _ _ _ Hw) by lia. done. }
  destruct (count f <? 0xffff); inv_res.
  - rewrite (store_pgids_length _ _ _ _ Hw), (store_length _ _ _ _ _ E1).
    rewrite !(store_pgids_other _ _ _ _ _ _ Hw) by lia. by rewrite !(H1 _ _ _ _ E1) by lia.
  - rewrite (store_pgids_length _ _ _ _ Hw), (store_length _ _ _ _ _ E2), (store_length _ _ _ _ _ E1).
    rewrite !(store_pgids_other _ _ _ _ _ _ Hw) by lia.
    rewrite !(load_store_other _ _ _ _ _ _ _ E2) by lia. by rewrite !(H1 _ _ _ _ E1) by lia.
Qed.

Lemma rollback_reload t f0 f fw m0 m p :
  fl_wf f0 -> pending_ f0 !! t = None ->
  fl_wf fw -> Z.of_nat (length (all_pages fw)) < 2 ^ 28 -> 0 <= p ->
  write fw m0 p = Ok m -> all_pages fw ≡ₚ all_pages f0 ->
  rtc (writer_step t) f0 f ->
  exists f', reload (rollback f t) m p = Ok f' /\ ids_ f' = ids_ f0 /\
    pending_ f' = pending_ f0 /\ cache_exact f'.
Proof.
  intros Hwf Ht Hwfw Hfew Hp Hw Hperm Hsteps.
  assert (pending_ (rollback f t) = pending_ f0) as Hpend.
  { cbn. rewrite (writer_steps_pending _ _ _ Hsteps). by apply delete_id. }
  eexists. split; [by apply reload_eq, (write_read_pgids fw Hwfw Hfew m0 p m)|]. cbn [reindex ids_ pending_].
  rewrite Hpend, Hperm. split_and!; [|done|apply reindex_cache_exact].
  apply filter_sorted_pending; apply Hwf.
Qed.

(** ** Properties *)

(** C16. [allocate(n)] on a well-formed list always returns: either the first
    page of the lowest run of [n] consecutive available pages, which leaves
    [ids_] and the cache while everything else stays, or 0, with the list
    untouched, and then no such run exists.  The list stays well formed. *)
Theorem allocate_first_fit f n :
  fl_wf f -> 1 <= n < 2 ^ 32 ->
  exists r f', allocate f n = Ok (r, f') /\ allocate_spec f n r f' /\ fl_wf f'.
Proof.
  intros Hwf Hn. destruct (allocate_correct f n) as (r&f'&Ha&Hspec); [apply Hwf|by apply fl_wf_ids|done|].
  exists r, f'. split_and!; [done..|]. by eapply allocate_wf.
Qed.

(** C15. [release(t)] moves to the available pages exactly the pages freed by
    the transactions up to [t]: the pages of later transactions stay pending,
    no page is lost or duplicated, and the available pages stay sorted. *)
Theorem release_exact f t :
  fl_wf f ->
  fl_wf (release f t) /\ all_pages (release f t) ≡ₚ all_pages f /\
  (forall u, pending_ (release f t) !! u = if decide (u <= t) then None else pending_ f !! u) /\
  (forall id, id ∈ ids_ (release f t) <->
     id ∈ ids_ f \/ exists u l, u <= t /\ pending_ f !! u = Some l /\ id ∈ l).
Proof.
  intros Hwf. split_and!; [by apply release_wf|apply all_pages_release|apply release_pending|].
  intros id. apply release_ids.
Qed.

(** C30. Serialising a well-formed list and reading the page back gives every
    free and pending page, sorted and without duplicates, as available pages,
    in both encodings of the count; nothing outside [size()] bytes of the page
    is changed. *)
Theorem write_read_roundtrip f g m p :
  fl_wf f -> Z.of_nat (length (all_pages f)) < 2 ^ 28 ->
  0 <= p -> p + size f <= Z.of_nat (length m) ->
  exists m' g', write f m p = Ok m' /\ same_outside p (p + size f) m m' /\
    read g m' p = Ok g' /\ ids_ g' ≡ₚ all_pages f /\ StronglySorted Z.lt (ids_ g') /\
    pending_ g' = pending_ g /\ cache_exact g'.
Proof.
  intros Hwf Hfew Hp Hm. destruct (write_succeeds f Hwf Hfew m p Hp Hm) as [m' Hw].
  exists m'. eexists. split_and!; [done|by apply write_same_outside
    |by apply (write_read_pgids f Hwf Hfew m p m' g)|..];
    cbn; [apply sort_pgids_perm| |done|apply reindex_cache_exact].
  apply sorted_le_lt; [apply sort_pgids_sorted|]. rewrite sort_pgids_perm. apply Hwf.
Qed.

(** C19. A failed write transaction leaves no trace: after any allocations and
    frees of transaction [t], [rollback(t)] followed by [reload] of the page
    written at the last commit restores the available and the pending pages,
    and rebuilds the cache exactly. *)
Theorem rollback_restores t f0 f fw m0 m p :
  fl_wf f0 -> pending_ f0 !! t = None ->
  fl_wf fw -> Z.of_nat (length (all_pages fw)) < 2 ^ 28 -> 0 <= p ->
  write fw m0 p = Ok m -> all_pages fw ≡ₚ all_pages f0 ->
  rtc (writer_step t) f0 f ->
  exists f', reload (rollback f t) m p = Ok f' /\ ids_ f' = ids_ f0 /\
    pending_ f' = pending_ f0 /\ cache_exact f'.
Proof. apply rollback_reload. Qed.

(** [free] stops the process when the cache marks one of the pages, and
    otherwise appends exactly the pages [id .. id + overflow] to the pages
    pending for the transaction. *)
Lemma free_checks_cache f t id overflow :
  0 <= id -> 0 <= overflow -> id + overflow < 2 ^ 64 - 1 ->
  (forall x, id <= x <= id + overflow -> cached f x = true ->
     free f t id overflow = Err AssertFailed) /\
  ((forall x, id <= x <= id + overflow -> cached f x = false) ->
   exists f', free f t id overflow = Ok f' /\ ids_ f' = ids_ f /\
     pending_ f' = <[t := default [] (pending_ f !! t) ++ seqZ id (overflow + 1)]> (pending_ f)).
Proof.
  intros Hid Ho Hl. split; [intros x; by apply free_asserts|].
  intros Hc. destruct (free_ok f t id overflow Hid Ho Hl Hc) as (f'&?&?&?&_). eauto.
Qed.

(** The check against freeing a page twice does not see the frees made
    since the last [reindex], because [free] does not mark the pages it frees:
    from an empty list, page [id] can be freed twice by one transaction, and
    after its release two allocations return the same page. *)
Lemma double_free_undetected t id :
  2 <= id < 2 ^ 64 - 1 ->
  exists f1 f2 f3 f4,
    free freeList_new t id 0 = Ok f1 /\ free f1 t id 0 = Ok f2 /\
    allocate (release f2 t) 1 = Ok (id, f3) /\ allocate f3 1 = Ok (id, f4).
Proof.
  intros Hid.
  destruct (free_ok freeList_new t id 0) as (f1&Hf1&Hi1&Hp1&Hc1); [lia..|done|].
  destruct (free_ok f1 t id 0) as (f2&Hf2&Hi2&Hp2&Hc2); [lia..|by intros; rewrite Hc1|].
  assert (seqZ id (0 + 1) = [id]) as Hseq by done. rewrite Hseq in *.
  assert (ids_ (release f2 t) = [id; id]) as Hids.
  { cbn. rewrite Hi2, Hi1, Hp2, Hp1, lookup_insert_eq, insert_insert_eq. cbn.
    rewrite merge_loop_nil_r, map_filter_insert_True by (cbn; lia).
    rewrite lookup_empty, map_filter_empty, (pending_pages_insert ∅ t) by done.
    apply sort_pgids_sorted_id. repeat constructor; lia. }
  assert (forall f l, ids_ f = id :: l -> exists f', allocate f 1 = Ok (id, f') /\ ids_ f' = l)
    as Halloc.
  { intros f l Hl. unfold allocate. rewrite Hl. cbn [allocate_loop].
    rewrite (proj2 (Z.ltb_ge id 2)) by lia. cbn [orb]. change (0 =? 0) with true. cbn [orb].
    rewrite Z.sub_diag. change (wrap64 (0 + 1) =? 1) with true. cbn [mbind res_bind].
    rewrite (vec_erase_app [] [id] l) by done. by eexists. }
  destruct (Halloc _ _ Hids) as (f3&Hf3&Hi3). destruct (Halloc _ _ Hi3) as (f4&Hf4&_).
  by exists f1, f2, f3, f4.
Qed.

(** C32. The page [Tx::commit] allocates for the free list holds it: the list
    left by allocating [size()/4096 + 1] pages can be written to a fresh
    buffer of that many pages. *)
Theorem commit_freelist_fits f r f' m :
  fl_wf f -> Z.of_nat (length (all_pages f)) < 2 ^ 28 ->
  allocate f (size f / 4096 + 1) = Ok (r, f') ->
  Z.of_nat (length m) = (size f / 4096 + 1) * 4096 ->
  exists m', write f' m 0 = Ok m'.
Proof.
  intros Hwf Hfew Ha Hm. pose proof (size_eq f Hfew) as Hsize.
  assert (PAGEHEADERSIZE <= size f < 2 ^ 32) as Hsz.
  { unfold PAGEHEADERSIZE in *. rewrite Hsize. case_z; lia. }
  unfold PAGEHEADERSIZE in Hsz. pose proof (Z.div_mod (size f) 4096) as Hdiv.
  pose proof (Z.mod_pos_bound (size f) 4096) as Hmod.
  destruct (allocate_correct f (size f / 4096 + 1)) as (r1&f1&Ha1&Hspec);
    [apply Hwf|by apply fl_wf_ids|lia|].
  rewrite Ha in Ha1. injection Ha1 as <- <-.
  assert (length (all_pages f') <= length (all_pages f))%nat as Hle.
  { destruct Hspec as [(_&->&_)|(_&_&_&Hp&l1&l2&Heq&Heq')]; [done|].
    unfold all_pages. rewrite Hp, Heq, Heq', !length_app. lia. }
  apply write_succeeds; [by eapply allocate_wf|lia|done|].
  rewrite (size_eq f') by lia. rewrite Hsize in Hdiv, Hmod, Hm. cbn [Z.add].
  revert Hdiv Hmod Hm. repeat case_z; lia.
Qed.

(** ** Witnesses *)

(** Pages 2, 3, 5, 6 available, page 4 freed by transaction 7. *)
Definition fl_sample : freeList :=
  reindex {| ids_ := [2; 3; 5; 6]; pending_ := {[7 := [4]]}; cache_ := ∅ |}.

Definition mem_sample : list byte := replicate 200 Byte.x00.

Lemma fl_sample_wf : fl_wf fl_sample.
Proof.
  split.
  - repeat constructor; done.
  - apply Forall_forall. unfold pgid_ok. intros x Hx.
    change (x ∈ [2; 3; 5; 6; 4]) in Hx. rewrite !elem_of_cons, elem_of_nil in Hx. lia.
  - change (NoDup [2; 3; 5; 6; 4]). by apply (bool_decide_unpack _).
Qed.

Lemma allocate_first_fit_witness :
  exists r f', allocate fl_sample 2 = Ok (r, f') /\ allocate_spec fl_sample 2 r f' /\ fl_wf f'.
Proof. apply (allocate_first_fit fl_sample 2); [apply fl_sample_wf|lia]. Defined.

Lemma release_exact_witness :
  fl_wf (release fl_sample 7) /\ all_pages (release fl_sample 7) ≡ₚ all_pages fl_sample.
Proof. destruct (release_exact fl_sample 7 fl_sample_wf) as (H1&H2&_). exact (conj H1 H2). Defined.

Lemma write_read_roundtrip_witness :
  exists m' g', write fl_sample mem_sample 8 = Ok m' /\ read freeList_new m' 8 = Ok g' /\
    ids_ g' ≡ₚ all_pages fl_sample.
Proof.
  destruct (write_read_roundtrip fl_sample freeList_new mem_sample 8) as (m'&g'&Hw&_&Hr&Hp&_);
    [apply fl_sample_wf|vm_compute; reflexivity|lia|vm_compute; discriminate|].
  exists m', g'. exact (conj Hw (conj Hr Hp)).
Defined.

(** Transaction 8 takes pages 2, 3 and frees page 9. *)
Lemma rollback_restores_witness :
  exists m f f', write fl_sample mem_sample 0 = Ok m /\ rtc (writer_step 8) fl_sample f /\
    f <> fl_sample /\ reload (rollback f 8) m 0 = Ok f' /\ ids_ f' = ids_ fl_sample.
Proof.
  destruct (write_succeeds fl_sample fl_sample_wf ltac:(vm_compute; reflexivity) mem_sample 0)
    as [m Hm]; [lia|vm_compute; discriminate|].
  destruct (allocate fl_sample 2) as [[r f1]|] eqn:E1; [|by vm_compute in E1].
  destruct (free f1 8 9 0) as [f2|] eqn:E2.
  2:{ vm_compute in E1. injection E1 as <- <-. by vm_compute in E2. }
  assert (rtc (writer_step 8) fl_sample f2) as Hs.
  { eapply rtc_l; [eapply writer_allocate, E1|]. apply rtc_once. eapply writer_free, E2. }
  destruct (rollback_restores 8 fl_sample f2 fl_sample mem_sample m 0)
    as (f'&Hf'&Hi&_); [apply fl_sample_wf|reflexivity|apply fl_sample_wf|vm_compute; reflexivity
    |lia|exact Hm|reflexivity|exact Hs|].
  exists m, f2, f'. split_and!; [exact Hm|exact Hs| |exact Hf'|exact Hi].
  intros ->. vm_compute in E1. injection E1 as <- <-. by vm_compute in E2.
Defined.

Lemma free_checks_cache_witness :
  free fl_sample 8 4 1 = Err AssertFailed /\
  exists f', free fl_sample 8 9 1 = Ok f' /\ pending_ f' = <[8 := [9; 10]]> (pending_ fl_sample).
Proof.
  split.
  - apply (free_checks_cache fl_sample 8 4 1 ltac:(lia) ltac:(lia) ltac:(lia)) with 4; [lia|reflexivity].
  - destruct (proj2 (free_checks_cache fl_sample 8 9 1 ltac:(lia) ltac:(lia) ltac:(lia)))
      as (f'&Hf&_&Hp); [|by exists f'].
    intros x Hx. assert (x = 9 \/ x = 10) as [->| ->] by lia; reflexivity.
Defined.

Lemma double_free_undetected_witness :
  exists f1 f2 f3 f4,
    free freeList_new 5 12 0 = Ok f1 /\ free f1 5 12 0 = Ok f2 /\
    allocate (release f2 5) 1 = Ok (12, f3) /\ allocate f3 1 = Ok (12, f4).
Proof. apply (double_free_undetected 5 12). lia. Defined.

Lemma commit_freelist_fits_witness :
  exists r f' m', allocate fl_sample (size fl_sample / 4096 + 1) = Ok (r, f') /\
    write f' (replicate 4096 Byte.x00) 0 = Ok m'.
Proof.
  destruct (allocate fl_sample (size fl_sample / 4096 + 1)) as [[r f']|] eqn:E; [|by vm_compute in E].
  destruct (commit_freelist_fits fl_sample r f' (replicate 4096 Byte.x00)) as [m' Hm];
    [apply fl_sample_wf|vm_compute; reflexivity|exact E|vm_compute; reflexivity|].
  exists r, f', m'. exact (conj eq_refl Hm).
Defined.
