(* ===== verification/Mvcc.v ===== *)
(** * Mvcc.v: snapshots and the free list (freeList.cc with db.cc, tx.cc)

    The contract between transactions and the free list, as a transition
    system.  A version is what a meta record describes: its transaction id,
    its total number of pages and the pages its trees and its free list
    occupy.  Readers hold the version that was current when they began; one
    writer works on the next version, allocating and freeing pages through
    the operations of [FreeList]; its end publishes the version or rolls it
    back.  [begin_freelist] is what [DB::beginRWTx] does to the free list
    ([DB.v] proves that it does). *)
From S2P Require Import Bytes.
From S2P Require Import FreeList.

(** The free list a write transaction begins with: what transactions older
    than [minId], the oldest reader's, freed is released. *)
Definition begin_freelist (minId : Z) (f : freeList) : freeList :=
  if 0 <? minId then release f (minId - 1) else f.

Record version := mkVersion {
  v_txid : Z;
  v_total : Z;
  v_pages : gset Z;
}.

Record system := mkSystem {
  s_free : freeList;  (* DB::freeList_ *)
  s_disk : freeList;  (* the free list the last commit wrote *)
  s_cur : version;  (* what DB::getMeta() describes *)
  s_readers : list version;  (* DB::txs_ *)
  s_writer : option version;  (* DB::rwtx_ *)
}.

(** The least transaction id of the readers, as [beginRWTx] computes it. *)
Definition oldest (vs : list version) : Z := foldl (fun a v => Z.min a (v_txid v)) UINT64_MAX vs.

(** The pages [p .. p + n - 1]. *)
Definition page_run (p n : Z) : gset Z := list_to_set (seqZ p n).

Inductive step : system -> system -> Prop :=
  (* beginTx: a copy of the current meta record *)
  | step_begin_read f d c rs w : step (mkSystem f d c rs w) (mkSystem f d c (rs ++ [c]) w)
  (* removeTx *)
  | step_end_read f d c rs1 v rs2 w :
      step (mkSystem f d c (rs1 ++ v :: rs2) w) (mkSystem f d c (rs1 ++ rs2) w)
  (* beginRWTx *)
  | step_begin_write f d c rs :
      v_txid c + 1 < UINT64_MAX ->
      step (mkSystem f d c rs None)
        (mkSystem (begin_freelist (oldest rs) f) d c rs
           (Some (mkVersion (v_txid c + 1) (v_total c) (v_pages c))))
  (* DB::allocate: a run of the free list, or pages past the end *)
  | step_allocate f d c rs t total ps n r f' :
      1 <= n < 2 ^ 32 -> allocate f n = Ok (r, f') -> total + n < 2 ^ 64 ->
      step (mkSystem f d c rs (Some (mkVersion t total ps)))
        (mkSystem f' d c rs (Some
           (if r =? 0 then mkVersion t (total + n) (ps ∪ page_run total n)
            else mkVersion t total (ps ∪ page_run r n))))
  (* Tx::free: pages the writer's version no longer uses *)
  | step_free f d c rs t total ps id overflow f' :
      0 <= overflow -> page_run id (overflow + 1) ⊆ ps -> free f t id overflow = Ok f' ->
      step (mkSystem f d c rs (Some (mkVersion t total ps)))
        (mkSystem f' d c rs (Some (mkVersion t total (ps ∖ page_run id (overflow + 1)))))
  (* Tx::commit: free list and meta page written, the version is current *)
  | step_commit f d c rs w : step (mkSystem f d c rs (Some w)) (mkSystem f f w rs None)
  (* Tx::rollback: the pages freed are forgotten and the free list of the
     last commit is read back from its page, as long as the meta record of
     the transaction still names that page (a commit that fails after
     tx.cc:88 reads its own page instead) *)
  | step_rollback f d c rs w m0 m p f' :
      Z.of_nat (length (all_pages d)) < 2 ^ 28 -> 0 <= p -> write d m0 p = Ok m ->
      reload (rollback f (v_txid w)) m p = Ok f' ->
      step (mkSystem f d c rs (Some w)) (mkSystem f' d c rs None).

(** What [DB::Init] writes and [DB::Open] reads: an empty free list in page 2
    and an empty leaf in page 3. *)
Definition initial : system :=
  mkSystem freeList_new freeList_new (mkVersion 1 4 {[2; 3]}) [] None.

(** ** The free list at the beginning of a write transaction *)

Lemma begin_freelist_ids f minId id :
  (forall u l, pending_ f !! u = Some l -> 0 <= u) ->
  id ∈ ids_ (begin_freelist minId f) <->
  id ∈ ids_ f \/ exists u l, pending_ f !! u = Some l /\ id ∈ l /\ u < minId.
Proof.
  intros Hnn. unfold begin_freelist. destruct (Z.ltb_spec 0 minId) as [Hm|Hm].
  - rewrite release_ids. split; (intros [?|(u&l&?&?&?)]; [by left|right]); exists u, l; split_and!; (done || lia).
  - split; [by left|]. intros [?|(u&l&Hu&_&?)]; [done|]. apply Hnn in Hu. lia.
Qed.

Lemma begin_freelist_pending f minId u l :
  pending_ (begin_freelist minId f) !! u = Some l <->
  pending_ f !! u = Some l /\ (minId <= u \/ minId <= 0).
Proof.
  unfold begin_freelist. destruct (Z.ltb_spec 0 minId) as [Hm|Hm]; [|naive_solver].
  rewrite release_pending. case_decide; split; naive_solver lia.
Qed.

Lemma begin_freelist_pages f minId : all_pages (begin_freelist minId f) ≡ₚ all_pages f.
Proof. unfold begin_freelist. destruct (_ <? _); [apply all_pages_release|done]. Qed.

Lemma begin_freelist_wf f minId : fl_wf f -> fl_wf (begin_freelist minId f).
Proof. intros Hf. unfold begin_freelist. destruct (_ <? _); [by apply release_wf|done]. Qed.

(** ** The invariant *)

(** No page of [v] is available, and those that are pending were freed after
    [v]. *)
Record kept (f : freeList) (v : version) : Prop := {
  kept_range : forall p, p ∈ v_pages v -> 2 <= p < v_total v;
  kept_ids : forall p, p ∈ v_pages v -> p ∉ ids_ f;
  kept_pending : forall p u l, p ∈ v_pages v -> pending_ f !! u = Some l -> p ∈ l -> v_txid v < u;
}.

(** [f] serves the current version [c] and the snapshots [rs], pages being
    below [total] and freed by transactions up to [last]. *)
Record serves (f : freeList) (c : version) (rs : list version) (total last : Z) : Prop := {
  sv_wf : fl_wf f;
  sv_kept : forall v, v ∈ c :: rs -> kept f v;
  sv_old : forall v, v ∈ rs -> v_txid v <= v_txid c /\ v_total v <= v_total c;
  sv_total : 2 <= v_total c <= total /\ total < 2 ^ 64;
  sv_pages : forall p, p ∈ all_pages f -> p < total;
  sv_keys : forall u l, pending_ f !! u = Some l -> 0 <= u <= last;
  sv_txid : 0 <= v_txid c < UINT64_MAX;
}.

(** The writer's version [w]: the next one, its pages neither available nor
    pending. *)
Record writes (f : freeList) (c w : version) : Prop := {
  wr_txid : v_txid w = v_txid c + 1 /\ v_txid w < UINT64_MAX;
  wr_range : forall p, p ∈ v_pages w -> 2 <= p < v_total w;
  wr_fresh : forall p, p ∈ v_pages w -> p ∉ all_pages f;
}.

Definition inv (s : system) : Prop :=
  let '(mkSystem f d c rs w) := s in
  fl_wf d /\
  match w with
  | None => serves f c rs (v_total c) (v_txid c) /\ all_pages d ≡ₚ all_pages f
  | Some w =>
      serves f c rs (v_total w) (v_txid w) /\ writes f c w /\
      exists f0, serves f0 c rs (v_total c) (v_txid c) /\ all_pages d ≡ₚ all_pages f0 /\
        rtc (writer_step (v_txid w)) f0 f
  end.

(** ** Helper lemmas *)

Lemma elem_of_page_run x p n : x ∈ page_run p n <-> p <= x < p + n.
Proof. unfold page_run. rewrite elem_of_list_to_set, elem_of_seqZ. lia. Qed.

Lemma elem_of_all_pages f p :
  p ∈ all_pages f <-> p ∈ ids_ f \/ exists u l, pending_ f !! u = Some l /\ p ∈ l.
Proof. unfold all_pages. by rewrite elem_of_app, elem_of_pending_pages. Qed.

Lemma oldest_le vs : forall v, v ∈ vs -> oldest vs <= v_txid v.
Proof.
  unfold oldest. generalize UINT64_MAX. induction vs as [|x vs IH]; intros a v Hv; cbn.
  { by apply not_elem_of_nil in Hv. }
  apply elem_of_cons in Hv as [->|Hv]; [|by apply IH].
  clear IH. assert (forall l b, foldl (fun a v => Z.min a (v_txid v)) b l <= b) as Hle.
  { induction l as [|y l IH]; intros b; cbn; [lia|]. specialize (IH (Z.min b (v_txid y))). lia. }
  specialize (Hle vs (Z.min a (v_txid x))). lia.
Qed.

(** Only the available and the pending pages matter. *)
Lemma kept_incl f f' v :
  (forall p, p ∈ v_pages v -> p ∈ ids_ f' -> p ∈ ids_ f) ->
  (forall p u l, p ∈ v_pages v -> pending_ f' !! u = Some l -> p ∈ l ->
     v_txid v < u \/ exists l', pending_ f !! u = Some l' /\ p ∈ l') ->
  kept f v -> kept f' v.
Proof.
  intros Hi Hp [Hr Hk Hl]. split; [done|intros p Hpv Hin; by apply (Hk p), Hi|].
  intros p u l Hpv Hu Hin. destruct (Hp p u l Hpv Hu Hin) as [?|(l'&?&?)]; eauto.
Qed.

Lemma fl_wf_ext f f' : ids_ f' = ids_ f -> pending_ f' = pending_ f -> fl_wf f -> fl_wf f'.
Proof. intros Hi Hp [Hs Hr Hd]. split; unfold all_pages in *; by rewrite ?Hi, ?Hp. Qed.

Lemma serves_ext f f' c rs total last :
  ids_ f' = ids_ f -> pending_ f' = pending_ f -> serves f c rs total last -> serves f' c rs total last.
Proof.
  intros Hi Hp [Hwf Hk Ho Ht Hpg Hu Hx]. split; try done.
  - by eapply fl_wf_ext.
  - intros v Hv. eapply kept_incl; [..|by apply Hk]; rewrite ?Hi, ?Hp; eauto.
  - unfold all_pages in *. by rewrite Hi, Hp.
  - by rewrite Hp.
Qed.

(** Readers come and go. *)
Lemma serves_readers f c rs rs' total last :
  (forall v, v ∈ rs' -> v ∈ c :: rs) -> serves f c rs total last -> serves f c rs' total last.
Proof.
  intros Hsub [Hwf Hk Ho Ht Hpg Hu Hx]. split; try done.
  - intros v [->|Hv]%elem_of_cons; apply Hk; [by left|by apply Hsub].
  - intros v [->|Hv]%Hsub%elem_of_cons; [lia|by apply Ho].
Qed.

Lemma inv_readers f d c rs rs' w :
  (forall v, v ∈ rs' -> v ∈ c :: rs) -> inv (mkSystem f d c rs w) -> inv (mkSystem f d c rs' w).
Proof.
  intros Hsub [Hd Hinv]. split; [done|]. destruct w as [w|].
  - destruct Hinv as (Hs&Hw&f0&H0&Hperm&Hsteps).
    split_and!; [by eapply serves_readers|done|]. exists f0.
    split_and!; [by eapply serves_readers|done|done].
  - destruct Hinv as [Hs ?]. split; [by eapply serves_readers|done].
Qed.

(** A version whose transaction id bounds the pending ids has no page
    pending. *)
Lemma serves_cur_fresh f c rs total p :
  serves f c rs total (v_txid c) -> p ∈ v_pages c -> p ∉ all_pages f.
Proof.
  intros Hs Hp [Hi|(u&l&Hu&Hl)]%elem_of_all_pages.
  - by apply (kept_ids _ _ (sv_kept _ _ _ _ _ Hs c ltac:(by left)) p).
  - pose proof (kept_pending _ _ (sv_kept _ _ _ _ _ Hs c ltac:(by left)) p u l Hp Hu Hl).
    pose proof (sv_keys _ _ _ _ _ Hs u l Hu). lia.
Qed.

(** ** Each step keeps the invariant *)

(** A version keeps its pages when a writer begins, unless an older
    transaction than all readers freed some. *)
Lemma kept_begin f minId v :
  (forall u l, pending_ f !! u = Some l -> 0 <= u) ->
  (forall p u l, p ∈ v_pages v -> pending_ f !! u = Some l -> p ∈ l -> minId <= u) ->
  kept f v -> kept (begin_freelist minId f) v.
Proof.
  intros Hnn Hmin [Hr Hi Hp]. split; [done| |].
  - intros p Hpv [Hin|(u&l&Hul&Hl&Hlt)]%begin_freelist_ids; [by apply (Hi p)| |done].
    specialize (Hmin p u l Hpv Hul Hl). lia.
  - intros p u l Hpv [Hul _]%begin_freelist_pending Hl. by eapply Hp.
Qed.

(** And through everything a later transaction does. *)
Lemma kept_steps t f f' v : rtc (writer_step t) f f' -> v_txid v < t -> kept f v -> kept f' v.
Proof.
  intros Hs Ht. apply kept_incl; [by intros p _; apply writer_steps_ids with t|].
  intros p u l _ Hu Hl. destruct (decide (u = t)) as [->|Hne]; [by left|]. right. exists l. split; [|done].
  pose proof (writer_steps_pending _ _ _ Hs) as Hd. apply (f_equal (lookup u)) in Hd.
  by rewrite !lookup_delete_ne, Hu in Hd.
Qed.

Lemma serves_begin f c rs total :
  serves f c rs total (v_txid c) -> serves (begin_freelist (oldest rs) f) c rs total (v_txid c).
Proof.
  intros [Hwf Hk Ho Ht Hpg Hu Hx]. split; try done.
  - by apply begin_freelist_wf.
  - intros v Hv. apply kept_begin; [by intros u l ?%Hu; lia| |by apply Hk]. intros p u l Hpv Hul Hl.
    pose proof (kept_pending _ _ (Hk v Hv) p u l Hpv Hul Hl). specialize (Hu u l Hul).
    apply elem_of_cons in Hv as [->|Hv]; [lia|]. pose proof (oldest_le rs v Hv). lia.
  - intros p. rewrite begin_freelist_pages. apply Hpg.
  - intros u l [Hul _]%begin_freelist_pending. by eapply Hu.
Qed.

Lemma serves_weaken f c rs total last total' last' :
  total <= total' < 2 ^ 64 -> last <= last' ->
  serves f c rs total last -> serves f c rs total' last'.
Proof.
  intros Ht' Hl' [Hwf Hk Ho Ht Hpg Hu Hx]. split; try done; [lia|..].
  - intros p Hp%Hpg. lia.
  - intros u l Hul%Hu. lia.
Qed.

Lemma allocate_pages f n r f' :
  fl_wf f -> allocate_spec f n r f' ->
  pending_ f' = pending_ f /\ (forall p, p ∈ ids_ f' -> p ∈ ids_ f) /\
  (r <> 0 -> forall p, r <= p < r + n -> p ∈ ids_ f /\ p ∉ all_pages f').
Proof.
  intros [_ _ Hnd] [(->&->&_)|(Hr&_&_&Hp&l1&l2&He&He')]; [done|].
  unfold all_pages in *. rewrite He in Hnd. rewrite He, He', Hp. split_and!; [done|set_solver|].
  intros _ p Hpr. assert (p ∈ seqZ r n) as Hin by (apply elem_of_seqZ; lia). split; [set_solver|].
  apply NoDup_app in Hnd as (Hl&Hdis&_). apply NoDup_app in Hl as (_&H1&Hl). apply NoDup_app in Hl as (_&H2&_).
  rewrite !elem_of_app. intros [[Hx|Hx]|Hx]; [by apply (H1 p Hx), elem_of_app; left|by apply (H2 p Hin)|].
  apply (Hdis p); [|done]. set_solver.
Qed.

(** Allocation takes available pages only. *)
Lemma serves_allocate f c rs total last f' total' :
  fl_wf f' -> pending_ f' = pending_ f -> (forall p, p ∈ ids_ f' -> p ∈ ids_ f) ->
  total <= total' < 2 ^ 64 -> serves f c rs total last -> serves f' c rs total' last.
Proof.
  intros Hwf' Hp Hi Ht Hs. apply (serves_weaken _ _ _ total last); [done|done|].
  destruct Hs as [Hwf Hk Ho Ht0 Hpg Hu Hx]. split; try done.
  - intros v Hv. eapply kept_incl; [..|by apply Hk]; [by eauto|].
    intros p u l Hpv Hul Hl. right. rewrite Hp in Hul. eauto.
  - intros p Hin. apply Hpg. revert Hin. unfold all_pages. rewrite Hp, !elem_of_app. naive_solver.
  - by rewrite Hp.
Qed.

Lemma writes_allocate f c t total ps n r f' :
  1 <= n < 2 ^ 32 -> fl_wf f -> allocate_spec f n r f' -> (forall p, p ∈ all_pages f -> p < total) ->
  2 <= total ->
  writes f c (mkVersion t total ps) ->
  writes f' c (if r =? 0 then mkVersion t (total + n) (ps ∪ page_run total n)
               else mkVersion t total (ps ∪ page_run r n)).
Proof.
  intros Hn Hwf Hspec Hpg Ht2 [[Ht Hmax] Hr Hf]. cbn in *.
  destruct (allocate_pages f n r f' Hwf Hspec) as (Hp&Hi&Hrun).
  assert (forall p, p ∈ all_pages f' -> p ∈ all_pages f) as Hsub.
  { intros p. unfold all_pages. rewrite Hp, !elem_of_app. naive_solver. }
  destruct (Z.eqb_spec r 0) as [->|Hr0]; split; cbn; try done.
  - intros p [Hin|Hin%elem_of_page_run]%elem_of_union; [apply Hr in Hin|]; lia.
  - intros p [Hin|Hin%elem_of_page_run]%elem_of_union Hp'%Hsub; [by apply (Hf p)|].
    apply Hpg in Hp'. lia.
  - intros p [Hin|Hin%elem_of_page_run]%elem_of_union; [by apply Hr|].
    destruct (Hrun Hr0 p Hin) as [Hids _]. split.
    + assert (pgid_ok p) as [? _]; [|done]. apply fl_wf_ids in Hwf. rewrite Forall_forall in Hwf. by apply Hwf.
    + apply Hpg, elem_of_all_pages. by left.
  - intros p [Hin|Hin%elem_of_page_run]%elem_of_union Hp'; [by apply (Hf p), Hsub|].
    by apply (Hrun Hr0 p Hin).
Qed.

(** Freeing puts the writer's pages under the writer's id. *)
Lemma free_step f c rs t total ps id overflow f' :
  0 <= overflow -> page_run id (overflow + 1) ⊆ ps -> free f t id overflow = Ok f' ->
  serves f c rs total t -> writes f c (mkVersion t total ps) ->
  serves f' c rs total t /\
  writes f' c (mkVersion t total (ps ∖ page_run id (overflow + 1))).
Proof.
  intros Hov Hsub Hfree Hs [[Ht Hmax] Hr Hf]. cbn in *.
  assert (forall x, id <= x <= id + overflow -> x ∈ ps) as Hps
    by (intros x Hx; apply Hsub, elem_of_page_run; lia).
  pose proof (Hr id ltac:(apply Hps; lia)) as Hid.
  pose proof (Hr (id + overflow) ltac:(apply Hps; lia)) as Hlast.
  pose proof (sv_total _ _ _ _ _ Hs) as Htot. pose proof (sv_txid _ _ _ _ _ Hs) as Hc.
  assert (fl_wf f') as Hwf'.
  { eapply (free_wf f t id overflow); [apply Hs|lia..| |done]. intros x Hx. by apply Hf, Hps. }
  apply free_inv in Hfree as (Hi&Hp&_); [|lia..].
  assert (all_pages f' ≡ₚ seqZ id (overflow + 1) ++ all_pages f) as Hall.
  { unfold all_pages. rewrite Hi, Hp, pending_pages_add.
    by rewrite !app_assoc, (Permutation_app_comm (ids_ f)). }
  destruct Hs as [Hwf Hk Ho _ Hpg Hu Hx]. split; split; cbn; try done.
  - intros v Hv. eapply kept_incl; [..|by apply Hk]; rewrite ?Hi, ?Hp; [done|].
    intros p u l Hpv Hul Hl. destruct (decide (u = t)) as [->|Hne].
    + left. apply elem_of_cons in Hv as [->|Hv]; [lia|]. apply Ho in Hv. lia.
    + right. rewrite lookup_insert_ne in Hul by done. eauto.
  - intros p. rewrite Hall, elem_of_app, elem_of_seqZ. intros [Hin|Hin]; [|by apply Hpg].
    assert (p ∈ ps) as Hin' by (apply Hps; lia). apply Hr in Hin'. lia.
  - intros u l. rewrite Hp. destruct (decide (u = t)) as [->|Hne]; [lia|].
    rewrite lookup_insert_ne by done. apply Hu.
  - intros p [Hin _]%elem_of_difference. by apply Hr.
  - intros p [Hin Hno]%elem_of_difference. rewrite Hall, elem_of_app, elem_of_seqZ.
    intros [Hx'|Hx']; [|by apply (Hf p)]. apply Hno, elem_of_page_run. lia.
Qed.

(** The writer's version serves as the current one. *)
Lemma commit_step f c rs w :
  serves f c rs (v_total w) (v_txid w) -> writes f c w -> v_total c <= v_total w ->
  serves f w rs (v_total w) (v_txid w).
Proof.
  intros [Hwf Hk Ho Ht Hpg Hu Hx] [[Htx Hmax] Hr Hf] Htot. split; try done; [..|lia|lia].
  - intros v [->|Hv]%elem_of_cons; [|by apply Hk; right]. split; [done| |].
    + intros p Hp Hin. apply (Hf p Hp), elem_of_all_pages. by left.
    + intros p u l Hp Hul Hl. exfalso. apply (Hf p Hp), elem_of_all_pages. eauto.
  - intros v Hv. apply Ho in Hv. lia.
Qed.

(** The writer's version when it begins. *)
Lemma begin_step f c rs :
  v_txid c + 1 < UINT64_MAX -> serves f c rs (v_total c) (v_txid c) ->
  let f0 := begin_freelist (oldest rs) f in
  let w := mkVersion (v_txid c + 1) (v_total c) (v_pages c) in
  serves f0 c rs (v_total c) (v_txid c) /\ serves f0 c rs (v_total w) (v_txid w) /\ writes f0 c w.
Proof.
  intros Hmax Hs f0 w. pose proof (serves_begin _ _ _ _ Hs) as H0. fold f0 in H0.
  split_and!; [done|apply (serves_weaken _ _ _ (v_total c) (v_txid c)); cbn; [|lia|done]|].
  - pose proof (sv_total _ _ _ _ _ Hs). lia.
  - split; cbn; [lia|apply (sv_kept _ _ _ _ _ Hs c); by left|].
    intros p Hp. by apply (serves_cur_fresh _ _ _ _ _ H0).
Qed.

Lemma pending_none f c rs total t : serves f c rs total (v_txid c) -> v_txid c < t -> pending_ f !! t = None.
Proof.
  intros Hs Ht. destruct (pending_ f !! t) eqn:E; [|done]. apply (sv_keys _ _ _ _ _ Hs) in E. lia.
Qed.

Lemma initial_inv : inv initial.
Proof.
  assert (all_pages freeList_new = []) as Hnil by done.
  assert (fl_wf freeList_new) as Hwf by (split; rewrite ?Hnil; constructor).
  split; [done|]. split; [|done]. split; cbn; try done.
  - intros v [->|Hv]%elem_of_cons; [|by apply not_elem_of_nil in Hv]. split; cbn; [set_solver by lia|set_solver|].
    intros p u l _ Hu. by rewrite lookup_empty in Hu.
  - intros v Hv. by apply not_elem_of_nil in Hv.
  - intros p Hp. by apply not_elem_of_nil in Hp.
Qed.

Lemma step_inv s s' : step s s' -> inv s -> inv s'.
Proof.
  destruct 1 as [f d c rs w|f d c rs1 v rs2 w|f d c rs Hmax|f d c rs t total ps n r f' Hn Ha Ht
    |f d c rs t total ps id overflow f' Hov Hsub Hfree|f d c rs w|f d c rs w m0 m p f' Hfew Hp Hdisk Hrel].
  - apply inv_readers. set_solver.
  - apply inv_readers. set_solver.
  - intros [Hd [Hs Hperm]]. destruct (begin_step f c rs Hmax Hs) as (H0&H1&H2).
    split; [done|]. split_and!; [done..|]. eexists. split_and!; [exact H0| |apply rtc_refl].
    by rewrite begin_freelist_pages.
  - intros [Hd (Hs&Hw&f0&H0&Hperm&Hsteps)]. cbn in *.
    destruct (allocate_correct f n) as (r1&f1&Ha1&Hspec); [apply Hs|apply fl_wf_ids, Hs|done|].
    rewrite Ha in Ha1. injection Ha1 as <- <-.
    assert (fl_wf f') as Hwf' by (eapply allocate_wf; [apply Hs|done]).
    destruct (allocate_pages f n r f' (sv_wf _ _ _ _ _ Hs) Hspec) as (Hp&Hi&_).
    assert (2 <= total) as H2 by (pose proof (sv_total _ _ _ _ _ Hs); lia).
    assert (rtc (writer_step t) f0 f') as Hsteps' by (eapply rtc_r; [done|by econstructor]).
    pose proof (writes_allocate f c t total ps n r f' Hn (sv_wf _ _ _ _ _ Hs) Hspec
      (sv_pages _ _ _ _ _ Hs) H2 Hw) as Hw'.
    split; [done|]. pose proof (sv_total _ _ _ _ _ Hs).
    destruct (r =? 0); cbn; (split_and!; [eapply serves_allocate; [done..| |done]; lia|done|by exists f0]).
  - intros [Hd (Hs&Hw&f0&H0&Hperm&Hsteps)]. cbn in *.
    destruct (free_step f c rs t total ps id overflow f' Hov Hsub Hfree Hs Hw) as [Hs' Hw'].
    split; [done|]. split_and!; [done..|]. exists f0. split_and!; [done..|].
    eapply rtc_r; [done|by econstructor].
  - intros [Hd (Hs&Hw&f0&H0&Hperm&Hsteps)]. split; [apply Hs|]. split; [|done].
    eapply commit_step; [done|done|apply Hs].
  - intros [Hd (Hs&Hw&f0&H0&Hperm&Hsteps)].
    destruct (rollback_reload (v_txid w) f0 f d m0 m p) as (f1&Hrel'&Hi&Hpd&_); [apply H0| |done..|].
    { eapply pending_none; [done|]. destruct (wr_txid _ _ _ Hw). lia. }
    rewrite Hrel in Hrel'. injection Hrel' as <-. split; [done|].
    split; [by eapply serves_ext|]. unfold all_pages at 2. by rewrite Hi, Hpd.
Qed.

(** ** Properties *)

(** C8. Snapshots are isolated.  In any interleaving of readers that begin and
    end with one writer at a time that begins, allocates, frees pages of its
    own version, and commits or rolls back, no page of the current version or
    of an open reader's version is ever available, so no allocation hands one
    out; the writer's version has the next transaction id, and none of its
    pages is available or waiting to become so.  Two things are left out: a
    writer that frees pages it does not have, and a rollback that does not
    read back the free list of the last commit.  The code has such rollbacks:
    those of a commit that fails once [freeListPageNumber_] is set (tx.cc:88),
    and they break the property ([late_rollback_frees_current]). *)
Theorem snapshots_isolated s :
  rtc step initial s ->
  fl_wf (s_free s) /\
  (forall v p, v ∈ s_cur s :: s_readers s -> p ∈ v_pages v -> p ∉ ids_ (s_free s)) /\
  (forall v n r f' p, v ∈ s_cur s :: s_readers s -> 1 <= n < 2 ^ 32 ->
     allocate (s_free s) n = Ok (r, f') -> r <> 0 -> r <= p < r + n -> p ∉ v_pages v) /\
  (forall w, s_writer s = Some w ->
     v_txid w = v_txid (s_cur s) + 1 /\ forall p, p ∈ v_pages w -> p ∉ all_pages (s_free s)).
Proof.
  intros Hsteps. assert (inv s) as Hinv.
  { generalize initial_inv. revert Hsteps. generalize initial. intros s0 Hsteps.
    induction Hsteps as [|s1 s2 s Hstep _ IH]; [done|]. intros H1. by eapply IH, step_inv. }
  destruct s as [f d c rs w]. cbn in *.
  assert (exists total last, serves f c rs total last) as (total&last&Hs).
  { destruct Hinv as [_ Hinv]. destruct w; destruct Hinv as [Hs _]; eauto. }
  pose proof (fun v Hv => kept_ids _ _ (sv_kept _ _ _ _ _ Hs v Hv)) as Hids.
  split_and!; [apply Hs|eauto| |].
  - intros v n r f' p Hv Hn Ha Hr Hp Hin. apply (Hids v Hv p Hin).
    destruct (allocate_correct f n) as (r1&f1&Ha1&Hspec); [apply Hs|apply fl_wf_ids, Hs|done|].
    rewrite Ha in Ha1. injection Ha1 as <- <-.
    by apply (allocate_pages f n r f' (sv_wf _ _ _ _ _ Hs) Hspec).
  - intros w' ->. destruct Hinv as (_&_&Hw&_). destruct Hw as [[Ht _] _ Hf]. done.
Qed.

(** A reader keeps pages 2 and 3 while a writer moves to pages 4 and 5. *)
Definition ex_version : version := mkVersion 1 4 {[2; 3]}.
Definition ex_after : system :=
  mkSystem (mkFreeList [] {[2 := [3]]} {[3 := false]}) freeList_new ex_version [ex_version]
    (Some (mkVersion 2 5 (({[2; 3]} ∪ page_run 4 1) ∖ page_run 3 1))).

Lemma ex_run : rtc step initial ex_after.
Proof.
  eapply rtc_l; [apply step_begin_read|]. eapply rtc_l; [apply step_begin_write; done|].
  eapply rtc_l; [apply (step_allocate _ _ _ _ _ _ _ 1 0 freeList_new); [lia|reflexivity|done]|].
  eapply rtc_l; [|apply rtc_refl].
  apply (step_free freeList_new freeList_new ex_version [ex_version] 2 5 ({[2; 3]} ∪ page_run 4 1) 3 0);
    [done| |reflexivity].
  intros x Hx%elem_of_page_run. assert (x = 3) as -> by lia. set_solver.
Qed.

Lemma snapshots_isolated_witness :
  fl_wf (s_free ex_after) /\ 3 ∉ ids_ (s_free ex_after).
Proof.
  destruct (snapshots_isolated ex_after ex_run) as (Hwf&Hids&_). split; [exact Hwf|].
  apply (Hids ex_version); [left|]. cbn. set_solver.
Defined.

(** A writer that has copied page 3 to page 4 and freed page 3. *)
Definition ex_writing : system :=
  mkSystem (mkFreeList [] {[2 := [3]]} {[3 := false]}) freeList_new ex_version []
    (Some (mkVersion 2 5 (({[2; 3]} ∪ page_run 4 1) ∖ page_run 3 1))).

(** The restriction of [step_rollback] is needed.  The commit of this writer
    has written its free list to its new page and fails afterwards:
    [Tx::rollback] forgets what the writer freed, and then reads that very
    page, which lists it.  Page 3, the root of the current version, is
    available, and the next writer is handed it. *)
Lemma late_rollback_frees_current :
  rtc step initial ex_writing /\
  exists w m f' f2,
    s_writer ex_writing = Some w /\
    write (s_free ex_writing) (replicate 64 Byte.x00) 0 = Ok m /\
    reload (rollback (s_free ex_writing) (v_txid w)) m 0 = Ok f' /\
    3 ∈ v_pages (s_cur ex_writing) /\ 3 ∈ ids_ f' /\ allocate f' 1 = Ok (3, f2).
Proof.
  split.
  - eapply rtc_l; [apply step_begin_write; done|].
    eapply rtc_l; [apply (step_allocate _ _ _ _ _ _ _ 1 0 freeList_new); [lia|reflexivity|done]|].
    eapply rtc_l; [|apply rtc_refl].
    apply (step_free freeList_new freeList_new ex_version [] 2 5 ({[2; 3]} ∪ page_run 4 1) 3 0);
      [done| |reflexivity].
    intros x Hx%elem_of_page_run. assert (x = 3) as -> by lia. set_solver.
  - do 4 eexists. split; [reflexivity|]. split; [vm_compute; reflexivity|].
    split; [vm_compute; reflexivity|]. split; [cbn; set_solver|].
    split; [cbn; set_solver|vm_compute; reflexivity].
Qed.
