(* ===== verification/Meta.v ===== *)
(** * Meta.v: the meta pages (src/src/Bolt/meta.h, meta.cc, db.cc)

    [struct meta] is a 64-byte packed record kept in pages 0 and 1.  A commit
    writes the page [txid % 2], so that the page of the previous transaction
    survives, and [DB::getMeta] picks the valid page with the greater
    transaction id. *)
From S2P Require Import Bytes.
From S2P Require Import Page.

(** [struct bucketHeader] (bucket.h) *)
Record bucketHeader := mkBucketHeader { root : Z; sequence : Z }.

(** [sizeof(bucketHeader)] *)
Definition BUCKETHEADERSIZE : Z := 16.

(** [bucketHeader::reset()] *)
Definition bucketHeader_reset : bucketHeader := {| root := 0; sequence := 0 |}.

Definition bucketHeader_read (m : list byte) (o : Z) : res bucketHeader :=
  r ← load 8 m o; s ← load 8 m (o + 8); Ok {| root := r; sequence := s |}.
Definition bucketHeader_bytes (h : bucketHeader) : list byte :=
  le_split 8 (root h) ++ le_split 8 (sequence h).

Record meta := mkMeta {
  magic_ : Z;
  version_ : Z;
  pageSize_ : Z;
  flags_ : Z;
  root_ : bucketHeader;
  freeListPageNumber_ : Z;
  totalPageNumber_ : Z;
  txid_ : Z;
  checksum_ : Z;
}.

Definition MAGIC : Z := 0xED0CDAED.
Definition VERSION : Z := 1.
(** [sizeof(meta)] *)
Definition METASIZE : Z := 64.

(** The record at offset [o] of [m], read through [Page::metaPtr()]. *)
Definition meta_read (m : list byte) (o : Z) : res meta :=
  magic ← load 4 m o; version ← load 4 m (o + 4);
  pageSize ← load 4 m (o + 8); flags ← load 4 m (o + 12);
  h ← bucketHeader_read m (o + 16);
  fl ← load 8 m (o + 32); total ← load 8 m (o + 40);
  tx ← load 8 m (o + 48); sum ← load 8 m (o + 56);
  Ok {| magic_ := magic; version_ := version; pageSize_ := pageSize; flags_ := flags;
        root_ := h; freeListPageNumber_ := fl; totalPageNumber_ := total; txid_ := tx;
        checksum_ := sum |}.

(** The record's bytes, as [memmove(dst, this, sizeof(meta))] copies them. *)
Definition meta_bytes (mt : meta) : list byte :=
  le_split 4 (magic_ mt) ++ le_split 4 (version_ mt) ++ le_split 4 (pageSize_ mt) ++
  le_split 4 (flags_ mt) ++ bucketHeader_bytes (root_ mt) ++
  le_split 8 (freeListPageNumber_ mt) ++ le_split 8 (totalPageNumber_ mt) ++
  le_split 8 (txid_ mt) ++ le_split 8 (checksum_ mt).

(** [sum64()] *)
Definition sum64 (mt : meta) : Z := 0.

(** [validate()] *)
Definition validate (mt : meta) : bool :=
  if negb (magic_ mt =? MAGIC) || negb (version_ mt =? VERSION) then false
  else if negb (checksum_ mt =? 0) then checksum_ mt =? sum64 mt else true.

(** [clone()] *)
Definition clone (mt : meta) : meta := mt.

Definition meta_set_checksum (mt : meta) (z : Z) : meta :=
  {| magic_ := magic_ mt; version_ := version_ mt; pageSize_ := pageSize_ mt;
     flags_ := flags_ mt; root_ := root_ mt; freeListPageNumber_ := freeListPageNumber_ mt;
     totalPageNumber_ := totalPageNumber_ mt; txid_ := txid_ mt; checksum_ := z |}.

(** [meta::write(page)], the page at offset [p] of [m]: the record and the
    memory afterwards *)
Definition meta_write (mt : meta) (m : list byte) (p : Z) : res (meta * list byte) :=
  _ ← assert_ (negb (totalPageNumber_ mt <=? root (root_ mt)));
  _ ← assert_ (negb (totalPageNumber_ mt <=? freeListPageNumber_ mt));
  m ← Page_set_id m p (txid_ mt mod 2);
  fl ← Page_flag m p;
  m ← Page_set_flag m p (Z.lor fl metaPageFlag);
  let mt := meta_set_checksum mt 0 in
  m ← splice m (Page_ptr p) (meta_bytes mt);
  Ok (mt, m).

(** [DB::getMeta()], [meta0_] and [meta1_] holding the two records *)
Definition getMeta (meta0 meta1 : meta) : res meta :=
  let '(m0, m1) := if txid_ meta0 <? txid_ meta1 then (meta1, meta0) else (meta0, meta1) in
  if validate m0 then Ok m0
  else if validate m1 then Ok m1
  else Err AssertFailed.

(** The fields fit their widths. *)
Definition meta_ok (mt : meta) : Prop :=
  0 <= magic_ mt < 2 ^ 32 /\ 0 <= version_ mt < 2 ^ 32 /\ 0 <= pageSize_ mt < 2 ^ 32 /\
  0 <= flags_ mt < 2 ^ 32 /\ 0 <= root (root_ mt) < 2 ^ 64 /\
  0 <= sequence (root_ mt) < 2 ^ 64 /\ 0 <= freeListPageNumber_ mt < 2 ^ 64 /\
  0 <= totalPageNumber_ mt < 2 ^ 64 /\ 0 <= txid_ mt < 2 ^ 64 /\ 0 <= checksum_ mt < 2 ^ 64.

(** ** Lemmas *)

Lemma meta_bytes_length mt : length (meta_bytes mt) = 64%nat.
Proof. unfold meta_bytes, bucketHeader_bytes. by rewrite !length_app, !length_le_split. Qed.

(** Reading the record only depends on its 64 bytes. *)
Lemma meta_read_slice m o bs : slice m o METASIZE = Ok bs -> meta_read m o = meta_read bs 0.
Proof.
  intros H. unfold meta_read, bucketHeader_read. rewrite <-!Z.add_assoc, !Z.add_0_l.
  rewrite <-(Z.add_0_r o) at 1. unfold METASIZE in H.
  by rewrite !(load_of_slice m o 64 bs) by (done || lia).
Qed.

(** Decoding the bytes of a record gives the record back. *)
Lemma meta_read_bytes mt : meta_ok mt -> meta_read (meta_bytes mt) 0 = Ok mt.
Proof.
  intros (?&?&?&?&?&?&?&?&?&?). unfold meta_read, bucketHeader_read.
  rewrite (load_slice 4 _ 0 (magic_ mt)), (load_slice 4 _ (0 + 4) (version_ mt)),
    (load_slice 4 _ (0 + 8) (pageSize_ mt)), (load_slice 4 _ (0 + 12) (flags_ mt)),
    (load_slice 8 _ (0 + 16) (root (root_ mt))), (load_slice 8 _ (0 + 16 + 8) (sequence (root_ mt))),
    (load_slice 8 _ (0 + 32) (freeListPageNumber_ mt)), (load_slice 8 _ (0 + 40) (totalPageNumber_ mt)),
    (load_slice 8 _ (0 + 48) (txid_ mt)), (load_slice 8 _ (0 + 56) (checksum_ mt)) by first [reflexivity|width_lia].
  cbn. by destruct mt as [? ? ? ? [] ? ? ? ?].
Qed.

Lemma meta_read_splice m o mt m' :
  meta_ok mt -> splice m o (meta_bytes mt) = Ok m' -> meta_read m' o = Ok mt.
Proof.
  intros Hok Hs. apply slice_splice_same in Hs. rewrite meta_bytes_length in Hs.
  by rewrite (meta_read_slice _ _ _ Hs), meta_read_bytes.
Qed.

Lemma validate_iff mt :
  validate mt = true <-> magic_ mt = MAGIC /\ version_ mt = VERSION /\ checksum_ mt = 0.
Proof.
  unfold validate, sum64. repeat case_z; cbn; naive_solver.
Qed.

Lemma meta_write_ok mt m p :
  meta_ok mt -> root (root_ mt) < totalPageNumber_ mt ->
  freeListPageNumber_ mt < totalPageNumber_ mt ->
  0 <= p -> p + PAGEHEADERSIZE + METASIZE <= Z.of_nat (length m) ->
  exists m', meta_write mt m p = Ok (meta_set_checksum mt 0, m') /\
    same_outside p (p + PAGEHEADERSIZE + METASIZE) m m' /\
    meta_read m' (Page_ptr p) = Ok (meta_set_checksum mt 0) /\
    Page_id m' p = Ok (txid_ mt mod 2).
Proof.
  intros Hok Hr Hf Hp Hm. unfold PAGEHEADERSIZE, METASIZE in *. unfold meta_write.
  rewrite !(proj2 (Z.leb_gt _ _)) by done. cbn [assert_ negb mbind res_bind].
  unfold Page_set_id, Page_flag, Page_set_flag, Page_ptr, Page_id, PAGEHEADERSIZE.
  destruct (store_succeeds 8 m p (txid_ mt mod 2)) as [m1 Hm1]; [lia..|].
  rewrite Hm1. cbn [mbind res_bind]. pose proof (store_length _ _ _ _ _ Hm1) as Hl1.
  assert (exists fl, load 2 m1 (p + 8) = Ok fl) as [fl Hfl].
  { unfold load. rewrite slice_ok by lia. by eexists. }
  rewrite Hfl. cbn [mbind res_bind].
  destruct (store_succeeds 2 m1 (p + 8) (Z.lor fl metaPageFlag)) as [m2 Hm2]; [lia..|].
  rewrite Hm2. cbn [mbind res_bind]. pose proof (store_length _ _ _ _ _ Hm2) as Hl2.
  set (mt' := meta_set_checksum mt 0). pose proof (meta_bytes_length mt') as Hb.
  destruct (splice_succeeds m2 (p + 16) (meta_bytes mt')) as [m3 Hm3]; [lia..|].
  rewrite Hm3. cbn [mbind res_bind]. exists m3. split_and!; [done| | |].
  - transitivity m1; [eapply store_same_outside; [done|lia..]|].
    transitivity m2; [eapply store_same_outside; [done|lia..]|].
    eapply splice_same_outside; [done|lia..].
  - eapply meta_read_splice; [|done]. unfold meta_ok in *. cbn. lia.
  - pose proof (Z.mod_pos_bound (txid_ mt) 2).
    transitivity (load 8 m1 p); [|rewrite (load_store_same _ _ _ _ _ Hm1), Z.mod_small by lia; done].
    transitivity (load 8 m2 p); [|eapply load_store_other; [done|lia]].
    unfold load. erewrite slice_splice_other; [done|done|lia].
Qed.

(** ** Properties *)

(** [validate] accepts exactly the records with the right magic number and
    version whose checksum field is 0: as [sum64()] is 0, no other field is
    checked. *)
Lemma validate_checks_only_header mt :
  validate mt = true <-> magic_ mt = MAGIC /\ version_ mt = VERSION /\ checksum_ mt = 0.
Proof. apply validate_iff. Qed.

(** Writing a meta record to a page and reading it back gives the record
    with its checksum cleared, which is valid when magic and version are; the
    page id is [txid % 2], so transactions [t] and [t + 1] use different pages;
    nothing outside the header and the record changes. *)
Lemma meta_write_roundtrip mt m p :
  meta_ok mt -> root (root_ mt) < totalPageNumber_ mt ->
  freeListPageNumber_ mt < totalPageNumber_ mt ->
  0 <= p -> p + PAGEHEADERSIZE + METASIZE <= Z.of_nat (length m) ->
  exists m', meta_write mt m p = Ok (meta_set_checksum mt 0, m') /\
    same_outside p (p + PAGEHEADERSIZE + METASIZE) m m' /\
    meta_read m' (Page_ptr p) = Ok (meta_set_checksum mt 0) /\
    Page_id m' p = Ok (txid_ mt mod 2).
Proof. apply meta_write_ok. Qed.

(** [meta::write] stops the process on a record whose root or free-list
    page is not below the number of pages. *)
Lemma meta_write_asserts mt m p :
  totalPageNumber_ mt <= root (root_ mt) \/ totalPageNumber_ mt <= freeListPageNumber_ mt ->
  meta_write mt m p = Err AssertFailed.
Proof.
  intros H. unfold meta_write. destruct (Z.leb_spec (totalPageNumber_ mt) (root (root_ mt))); [done|].
  rewrite (proj2 (Z.leb_le _ _)) by lia. done.
Qed.

Lemma meta_read_txid m o mt : meta_read m o = Ok mt -> 0 <= txid_ mt.
Proof.
  unfold meta_read. intros H. inv_res. subst. cbn.
  match goal with Hl : load 8 m _ = Ok ?z |- 0 <= ?z => apply load_range in Hl; tauto end.
Qed.

(** The offset of the record in the meta page [i], pages being 4096 bytes
    long as [Tx::writeMeta] has them. *)
Definition meta_slot (i : Z) : Z := Page_ptr (i * 4096).

Lemma meta_read_untouched f f' s :
  slice f' s 4096 = slice f s 4096 -> 0 <= s -> s + 4096 <= Z.of_nat (length f) ->
  meta_read f' (Page_ptr s) = meta_read f (Page_ptr s).
Proof.
  intros H Hs Hf.
  destruct (slice f s 4096) as [bs|] eqn:Hbs; [|rewrite slice_ok in Hbs by lia; done].
  unfold Page_ptr, PAGEHEADERSIZE. destruct (slice bs 16 METASIZE) as [rs|] eqn:Hrs.
  2:{ apply slice_length in Hbs. rewrite slice_ok in Hrs by (unfold METASIZE; lia). done. }
  rewrite (meta_read_slice f' _ rs), (meta_read_slice f _ rs); [done|..];
    (erewrite slice_slice; [exact Hrs|eassumption|unfold METASIZE; lia..]).
Qed.

Lemma succ_mod_2 t : (t + 1) mod 2 = 1 - t mod 2.
Proof.
  pose proof (Z.mod_pos_bound t 2 ltac:(lia)). rewrite Z.add_mod by done.
  assert (t mod 2 = 0 \/ t mod 2 = 1) as [->| ->] by lia; done.
Qed.

(** What [DB::getMeta] answers when one of the two records is the last
    committed one: the other is ignored unless it is valid and newer. *)
Lemma getMeta_either cur x :
  validate cur = true -> txid_ x <> txid_ cur ->
  let r := if (txid_ cur <? txid_ x) && validate x then x else cur in
  getMeta cur x = Ok r /\ getMeta x cur = Ok r.
Proof.
  intros Hv Hne. unfold getMeta. destruct (Z.ltb_spec (txid_ cur) (txid_ x)); cbn [andb].
  - rewrite (proj2 (Z.ltb_ge (txid_ x) _)) by lia. rewrite Hv. by destruct (validate x).
  - rewrite (proj2 (Z.ltb_lt (txid_ x) _)) by lia. by rewrite Hv.
Qed.

(** A transaction id whose low bytes are those of [t + 1] and whose high
    bytes are those of an older id is [t + 1] or is still older than [t]. *)
Lemma torn_txid t o j :
  0 <= o < t -> 0 <= j ->
  let v := (t + 1) mod 2 ^ (8 * j) + 2 ^ (8 * j) * (o / 2 ^ (8 * j)) in v < t \/ v = t + 1.
Proof.
  intros Ho Hj v. subst v. destruct (Z.eq_dec j 0) as [->|].
  { change (2 ^ (8 * 0)) with 1. rewrite Z.mod_1_r, Z.div_1_r. lia. }
  assert (2 <= 2 ^ (8 * j)) as HB by (change 2 with (2 ^ 1) at 1; apply Z.pow_le_mono_r; lia).
  revert HB. generalize (2 ^ (8 * j)). intros B HB.
  pose proof (Z.div_mod (t + 1) B ltac:(lia)). pose proof (Z.div_le_mono o (t + 1) B ltac:(lia) ltac:(lia)).
  destruct (Z.eq_dec (o / B) ((t + 1) / B)) as [->|]; [lia|].
  assert (o / B <= (t + 1) / B - 1) by lia. nia.
Qed.

(** A field none of whose bytes, or all of whose bytes, have been written. *)
Lemma torn_full w x y : 0 <= x < 2 ^ w -> 0 <= y < 2 ^ w -> x mod 2 ^ w + 2 ^ w * (y / 2 ^ w) = x.
Proof. intros. rewrite Z.mod_small, (Z.div_small y) by done. lia. Qed.
Lemma torn_none x y : x mod 2 ^ (8 * 0) + 2 ^ (8 * 0) * (y / 2 ^ (8 * 0)) = y.
Proof. change (2 ^ (8 * 0)) with 1. rewrite Z.mod_1_r, Z.div_1_r. lia. Qed.

(** Sets to [k] each number of written bytes that the context says is [k]. *)
Ltac torn_at k :=
  repeat match goal with
  | Hj : ?j = Z.max 0 _, Hn : _ <= _ |- context [8 * ?j] =>
      is_var j; let E := fresh in assert (j = k) as E by (clear -Hj Hn; lia);
      clear Hj; subst j
  end.

(** The record read from a page of which the first [n] bytes have been
    overwritten: the old transaction id while [n] does not reach it, the new
    record once [n] covers it, and in between the new record but for the
    bytes of the transaction id and of the checksum. *)
Lemma meta_read_torn b m s n m' mt old :
  meta_read b (Page_ptr 0) = Ok mt -> meta_read m (Page_ptr s) = Ok old -> 0 <= s ->
  splice m s (take n b) = Ok m' ->
  exists x, meta_read m' (Page_ptr s) = Ok x /\
    (Z.of_nat n <= 64 -> txid_ x = txid_ old) /\ (80 <= Z.of_nat n -> x = mt) /\
    (64 <= Z.of_nat n ->
       x = mkMeta (magic_ mt) (version_ mt) (pageSize_ mt) (flags_ mt) (root_ mt)
             (freeListPageNumber_ mt) (totalPageNumber_ mt) (txid_ x) (checksum_ x) /\
       exists j, 0 <= j /\
         txid_ x = txid_ mt mod 2 ^ (8 * j) + 2 ^ (8 * j) * (txid_ old / 2 ^ (8 * j))).
Proof.
  unfold meta_read, bucketHeader_read, Page_ptr, PAGEHEADERSIZE. intros Hb Hm Hs0 Hs.
  rewrite <-?Z.add_assoc in Hb, Hm. rewrite <-?Z.add_assoc.
  cbn [Z.add Pos.add Pos.succ Pos.add_carry] in *.
  inv_res. subst.
  do 10 match goal with
  | Hx : load ?w b (0 + ?d) = Ok ?x, Hy : load ?w m (s + ?d) = Ok ?y |- _ =>
      let j := fresh "j" in let Hj := fresh "Hj" in let Hl := fresh "Hl" in
      rewrite Z.add_0_l in Hx;
      destruct (load_torn w b d x m s y n m' Hx Hy Hs0 Hs) as (j&Hj&Hl);
      rewrite Hl; clear Hl; apply load_range in Hx, Hy
  end.
  cbn [mbind res_bind]. eexists. split; [done|]. cbn [txid_ magic_ version_ pageSize_ flags_ root_
    freeListPageNumber_ totalPageNumber_ checksum_].
  split_and!.
  - intros Hn. torn_at 0. apply torn_none.
  - intros Hn. torn_at 4. torn_at 8. change (8 * 4) with (Z.of_nat 4 * 8) in *.
    change (8 * 8) with (Z.of_nat 8 * 8) in *. by rewrite !torn_full by done.
  - intros Hn. split; [|by eexists; split; [|reflexivity]; lia].
    torn_at 4. torn_at 8. change (8 * 4) with (Z.of_nat 4 * 8).
    change (8 * 8) with (Z.of_nat 8 * 8). by rewrite !torn_full by done.
Qed.


(** C17. The commit of a transaction is atomic at the level of the meta
    pages, however much of its meta page reaches the file.  Let the meta page
    [t mod 2] of the file hold the valid record of the last transaction [t]
    and the other one an older record.  [meta::write] fills the zeroed buffer
    of [Tx::writeMeta] with the record of transaction [t + 1]; when any first
    [n] of its 4096 bytes have been written at the page id that it put in the
    header, [getMeta] answers, from the two pages of the file, the record of
    [t] or the record of [t + 1] and nothing else: the old one while [n] does
    not go beyond the record's transaction id, the new one once [n] covers
    the record, which is the case of the whole page; and the page of the
    record of [t] has not changed. *)
Theorem meta_commit_atomic f m0 m1 t mt :
  8192 <= Z.of_nat (length f) ->
  meta_read f (meta_slot 0) = Ok m0 -> meta_read f (meta_slot 1) = Ok m1 ->
  let '(cur, old) := if t mod 2 =? 0 then (m0, m1) else (m1, m0) in
  txid_ cur = t -> validate cur = true -> txid_ old < t ->
  meta_ok mt -> txid_ mt = t + 1 -> magic_ mt = MAGIC -> version_ mt = VERSION ->
  root (root_ mt) < totalPageNumber_ mt -> freeListPageNumber_ mt < totalPageNumber_ mt ->
  exists mt' page id,
    meta_write mt (replicate 4096 Byte.x00) 0 = Ok (mt', page) /\ length page = 4096%nat /\
    mt' = meta_set_checksum mt 0 /\ Page_id page 0 = Ok id /\
    forall n, (n <= 4096)%nat ->
    exists f' m0' m1',
      splice f (id * 4096) (take n page) = Ok f' /\
      meta_read f' (meta_slot 0) = Ok m0' /\ meta_read f' (meta_slot 1) = Ok m1' /\
      (getMeta m0' m1' = Ok cur \/ getMeta m0' m1' = Ok mt') /\
      (Z.of_nat n <= 64 -> getMeta m0' m1' = Ok cur) /\
      (80 <= Z.of_nat n -> getMeta m0' m1' = Ok mt') /\
      slice f' (t mod 2 * 4096) 4096 = slice f (t mod 2 * 4096) 4096.
Proof.
  intros Hf H0 H1. pose proof (Z.mod_pos_bound t 2 ltac:(lia)).
  destruct (if t mod 2 =? 0 then (m0, m1) else (m1, m0)) as [cur old] eqn:Eco.
  intros Hcur Hv Hold Hok Ht Hm Hve Hr Hfl.
  destruct (meta_write_ok mt (replicate 4096 Byte.x00) 0) as (page&Hw&Hlen%same_outside_length&Hrd&Hid);
    [done..|by vm_compute|].
  rewrite length_replicate in Hlen. exists (meta_set_checksum mt 0), page, ((t + 1) mod 2).
  rewrite Ht in Hid. split_and!; [done..|]. intros n Hn.
  rewrite succ_mod_2.
  destruct (splice_succeeds f ((1 - t mod 2) * 4096) (take n page)) as [f' Hf'];
    [lia|rewrite length_take; lia|].
  destruct (meta_read_torn page f ((1 - t mod 2) * 4096) n f' (meta_set_checksum mt 0) old)
    as (x&Hx&Hx1&Hx2&Hx3); [done| |lia|done|].
  { destruct (Z.eqb_spec (t mod 2) 0); injection Eco as <- <-; unfold meta_slot in *.
    - by replace (1 - t mod 2) with 1 by lia.
    - by replace (1 - t mod 2) with 0 by lia. }
  assert (slice f' (t mod 2 * 4096) 4096 = slice f (t mod 2 * 4096) 4096) as Hother.
  { eapply slice_splice_other; [done|]. rewrite length_take. lia. }
  assert (meta_read f' (meta_slot (t mod 2)) = Ok cur) as Hc.
  { unfold meta_slot. rewrite (meta_read_untouched f) by (done || lia).
    destruct (Z.eqb_spec (t mod 2) 0) as [E|]; injection Eco as <- <-; [by rewrite E|].
    by replace (t mod 2) with 1 by lia. }
  assert (Hg : let r := if (txid_ cur <? txid_ x) && validate x then x else cur in
    txid_ x <> txid_ cur ->
    exists m0' m1', meta_read f' (meta_slot 0) = Ok m0' /\ meta_read f' (meta_slot 1) = Ok m1' /\
      getMeta m0' m1' = Ok r).
  { intros r Hne. destruct (getMeta_either cur x Hv Hne) as [G1 G2]. unfold meta_slot in *.
    destruct (Z.eqb_spec (t mod 2) 0) as [E|].
    - rewrite E in *. exists cur, x. by split_and!.
    - replace (t mod 2) with 1 in * by lia. exists x, cur. by split_and!. }
  assert (txid_ x < t \/ txid_ x = t + 1) as Hxt.
  { destruct (Z.le_gt_cases (Z.of_nat n) 64) as [|Hn64]; [left; rewrite Hx1 by done; lia|].
    destruct (Hx3 ltac:(lia)) as (_&j&Hj&->). cbn [txid_ meta_set_checksum]. rewrite Ht.
    apply torn_txid; [|done]. split; [|done].
    destruct (Z.eqb_spec (t mod 2) 0); injection Eco as <- <-; by eapply meta_read_txid. }
  destruct (Hg ltac:(lia)) as (m0'&m1'&G0&G1&G). exists f', m0', m1'. rewrite G.
  split_and!; try done.
  - destruct ((txid_ cur <? txid_ x) && validate x) eqn:E; [right|by left].
    apply andb_true_iff in E as [Hlt%Z.ltb_lt Hvx].
    assert (64 <= Z.of_nat n) as H64.
    { destruct (Z.le_gt_cases 64 (Z.of_nat n)); [done|]. rewrite Hx1 in Hlt by lia. lia. }
    destruct (Hx3 H64) as [Hxe _]. apply validate_iff in Hvx as (_&_&Hc0).
    destruct Hxt as [|Hxt]; [lia|]. rewrite Hxe, Hc0, Hxt, <-Ht. done.
  - intros Hn64. specialize (Hx1 Hn64). by rewrite (proj2 (Z.ltb_ge _ _)) by lia.
  - intros Hn80. rewrite (Hx2 Hn80). cbn [txid_ meta_set_checksum].
    rewrite (proj2 (Z.ltb_lt _ _)) by lia. cbn [andb].
    by rewrite (proj2 (validate_iff _)).
Qed.

(** A torn meta page can be accepted: every record with the right magic
    number, version and a zero checksum and a greater transaction id is taken
    as the database's state, whatever its root, free list and page count. *)
Lemma torn_meta_accepted cur new :
  magic_ new = MAGIC -> version_ new = VERSION -> checksum_ new = 0 ->
  txid_ cur < txid_ new -> getMeta cur new = Ok new /\ getMeta new cur = Ok new.
Proof.
  intros Hm Hve Hc Ht. assert (validate new = true) as Hv by by apply validate_iff.
  unfold getMeta. rewrite (proj2 (Z.ltb_lt _ _)) by done.
  rewrite (proj2 (Z.ltb_ge _ _)) by lia. by rewrite Hv.
Qed.

(** ** Witnesses *)

Definition meta_sample (t : Z) : meta :=
  {| magic_ := MAGIC; version_ := VERSION; pageSize_ := 4096; flags_ := 0;
     root_ := {| root := 3; sequence := 0 |}; freeListPageNumber_ := 2;
     totalPageNumber_ := 4; txid_ := t; checksum_ := 0 |}.

Lemma meta_write_roundtrip_witness :
  exists m', meta_write (meta_sample 7) (replicate 100 Byte.x00) 4 = Ok (meta_sample 7, m') /\
    meta_read m' 20 = Ok (meta_sample 7) /\ Page_id m' 4 = Ok 1.
Proof.
  destruct (meta_write_roundtrip (meta_sample 7) (replicate 100 Byte.x00) 4)
    as (m'&Hw&_&Hr&Hi); [vm_compute; intuition discriminate|reflexivity..|discriminate|vm_compute; discriminate|].
  exists m'. exact (conj Hw (conj Hr Hi)).
Defined.

Lemma meta_write_asserts_witness :
  meta_write (mkMeta MAGIC VERSION 4096 0 (mkBucketHeader 9 0) 2 4 1 0) [] 0 = Err AssertFailed.
Proof. apply meta_write_asserts. left. cbn. lia. Defined.


(** A file whose page 0 holds the record of transaction 6 and page 1 that of
    transaction 5; 70 bytes of the page of transaction 7 are written. *)
Definition meta_page_sample (t : Z) : list byte :=
  replicate 16 Byte.x00 ++ meta_bytes (meta_sample t) ++ replicate 4016 Byte.x00.
Definition meta_file_sample : list byte := meta_page_sample 6 ++ meta_page_sample 5.

Lemma meta_commit_atomic_witness :
  exists page id f' m0' m1',
    meta_write (meta_sample 7) (replicate 4096 Byte.x00) 0 = Ok (meta_sample 7, page) /\
    Page_id page 0 = Ok id /\ splice meta_file_sample (id * 4096) (take 70 page) = Ok f' /\
    meta_read f' (meta_slot 0) = Ok m0' /\ meta_read f' (meta_slot 1) = Ok m1' /\
    (getMeta m0' m1' = Ok (meta_sample 6) \/ getMeta m0' m1' = Ok (meta_sample 7)).
Proof.
  assert (8192 <= Z.of_nat (length meta_file_sample)) as Hl by by vm_compute.
  assert (meta_read meta_file_sample (meta_slot 0) = Ok (meta_sample 6)) as R0 by by vm_compute.
  assert (meta_read meta_file_sample (meta_slot 1) = Ok (meta_sample 5)) as R1 by by vm_compute.
  assert (meta_ok (meta_sample 7)) as Hok by (vm_compute; intuition discriminate).
  destruct (meta_commit_atomic _ _ _ 6 (meta_sample 7) Hl R0 R1 eq_refl eq_refl eq_refl Hok
    eq_refl eq_refl eq_refl eq_refl eq_refl) as (mt'&page&id&Hw&_&->&Hid&H).
  destruct (H 70%nat) as (f'&m0'&m1'&Hs&H0&H1&Hg&_); [lia|]. exists page, id, f', m0', m1'.
  exact (conj Hw (conj Hid (conj Hs (conj H0 (conj H1 Hg))))).
Defined.

(** Garbage in the root and free-list fields. *)
Lemma torn_meta_accepted_witness :
  let torn := mkMeta MAGIC VERSION 0 0 (mkBucketHeader 99 0) 88 0 8 0 in
  getMeta (meta_sample 7) torn = Ok torn /\ getMeta torn (meta_sample 7) = Ok torn.
Proof. apply torn_meta_accepted; reflexivity. Defined.
