(* ===== verification/Node.v ===== *)
(** * Node.v: one node of the tree (src/src/Bolt/node.h, node.cc)

    A [Node] is a page in memory: its [inodeList_] and its links.  This file
    holds the operations that touch one node only, and the codec between a
    node and its page; the operations that walk the links are in Tree.v.
    Pointers to nodes and buckets are keys of the stores of World.v. *)
From S2P Require Import Bytes.
From S2P Require Import BinSearch.
From S2P Require Import Page.

Definition nptr : Type := nat.
Definition bptr : Type := nat.

(** [struct Inode] *)
Record Inode := mkInode {
  i_flag : Z;
  i_pageId : Z;
  i_key : Item;
  i_value : Item;
}.

(** [Inode()] *)
Definition Inode_new : Inode :=
  {| i_flag := 0; i_pageId := 0; i_key := Item_empty; i_value := Item_empty |}.

Abbreviation InodeList := (list Inode).

(** [class Node] *)
Record Node := mkNode {
  bucket_ : bptr;
  isLeaf_ : bool;
  unbalanced_ : bool;
  spilled_ : bool;
  key_ : Item;
  pageId_ : Z;
  parentNode_ : option nptr;
  children_ : list nptr;
  inodeList_ : InodeList;
}.

#[export] Instance Inode_eq_dec : EqDecision Inode.
Proof. solve_decision. Defined.
#[export] Instance Node_eq_dec : EqDecision Node.
Proof. solve_decision. Defined.

(** [Node::Node(b, parentNode)] *)
Definition Node_new (b : bptr) (parent : option nptr) : Node :=
  {| bucket_ := b; isLeaf_ := false; unbalanced_ := false; spilled_ := false;
     key_ := Item_empty; pageId_ := 0; parentNode_ := parent; children_ := [];
     inodeList_ := [] |}.

(** ** Field updates *)

Definition set_isLeaf (v : bool) (n : Node) : Node :=
  mkNode (bucket_ n) v (unbalanced_ n) (spilled_ n) (key_ n) (pageId_ n) (parentNode_ n)
    (children_ n) (inodeList_ n).
Definition set_unbalanced (v : bool) (n : Node) : Node :=
  mkNode (bucket_ n) (isLeaf_ n) v (spilled_ n) (key_ n) (pageId_ n) (parentNode_ n)
    (children_ n) (inodeList_ n).
Definition set_spilled (v : bool) (n : Node) : Node :=
  mkNode (bucket_ n) (isLeaf_ n) (unbalanced_ n) v (key_ n) (pageId_ n) (parentNode_ n)
    (children_ n) (inodeList_ n).
Definition set_key (v : Item) (n : Node) : Node :=
  mkNode (bucket_ n) (isLeaf_ n) (unbalanced_ n) (spilled_ n) v (pageId_ n) (parentNode_ n)
    (children_ n) (inodeList_ n).
Definition set_pageId (v : Z) (n : Node) : Node :=
  mkNode (bucket_ n) (isLeaf_ n) (unbalanced_ n) (spilled_ n) (key_ n) v (parentNode_ n)
    (children_ n) (inodeList_ n).
(** [setParentNode(p)] *)
Definition setParentNode (v : option nptr) (n : Node) : Node :=
  mkNode (bucket_ n) (isLeaf_ n) (unbalanced_ n) (spilled_ n) (key_ n) (pageId_ n) v
    (children_ n) (inodeList_ n).
Definition set_children (v : list nptr) (n : Node) : Node :=
  mkNode (bucket_ n) (isLeaf_ n) (unbalanced_ n) (spilled_ n) (key_ n) (pageId_ n) (parentNode_ n)
    v (inodeList_ n).
Definition set_inodeList (v : InodeList) (n : Node) : Node :=
  mkNode (bucket_ n) (isLeaf_ n) (unbalanced_ n) (spilled_ n) (key_ n) (pageId_ n) (parentNode_ n)
    (children_ n) v.

(** [markLeaf()], [addChild(c)] *)
Definition markLeaf (n : Node) : Node := set_isLeaf true n.
Definition addChild (c : nptr) (n : Node) : Node := set_children (children_ n ++ [c]) n.

(** ** Searching *)

(** The key bytes of the inodes. *)
Definition ikeys (l : InodeList) : list (list byte) := (fun x => data_ (i_key x)) <$> l.

(** [arr[mid].key.data_] *)
Definition ikey_at (arr : InodeList) (i : Z) : res (list byte) :=
  match arr !! Z.to_nat i with Some x => Ok (data_ (i_key x)) | None => Err OutOfBounds end.

(** [binarySearch(arr, key, found)] *)
Definition binarySearch (arr : InodeList) (key : Item) : res (Z * bool) :=
  bsearch (ikey_at arr) (wrap32 (Z.of_nat (length arr))) (data_ key).

(** [search(key, found)] *)
Definition search (n : Node) (key : Item) : res (Z * bool) := binarySearch (inodeList_ n) key.

(** [childIndex(child)], [child]'s [key_] given *)
Definition childIndex (n : Node) (child_key : Item) : res Z :=
  '(index, found) ← binarySearch (inodeList_ n) child_key;
  _ ← assert_ found;
  Ok index.

(** ** Sizes *)

Definition minKeys (n : Node) : Z := if isLeaf_ n then 1 else 2.

Definition pageElementSize (n : Node) : Z := if isLeaf_ n then LEAFELEMSIZE else BRANCHELEMSIZE.

(** Bytes an inode takes in a page, in [uint32_t]. *)
Definition elementSize (n : Node) (x : Inode) : Z :=
  wrap32 (pageElementSize n + length_ (i_key x) + length_ (i_value x)).

(** [size()] *)
Definition size (n : Node) : Z :=
  foldl (fun size x => wrap32 (size + elementSize n x)) PAGEHEADERSIZE (inodeList_ n).

(** The loop of [sizeLessThan]. *)
Fixpoint sizeLessThan_loop (n : Node) (sz s : Z) (l : InodeList) : bool :=
  match l with
  | [] => true
  | x :: l =>
      let sz := wrap32 (sz + elementSize n x) in
      if s <=? sz then false else sizeLessThan_loop n sz s l
  end.

(** [sizeLessThan(s)] *)
Definition sizeLessThan (n : Node) (s : Z) : bool :=
  sizeLessThan_loop n PAGEHEADERSIZE s (inodeList_ n).

(** [numChildren()] *)
Definition numChildren (n : Node) : Z := wrap32 (Z.of_nat (length (inodeList_ n))).

(** The loop of [splitIndex] over the inodes from [i] on; [bound] is
    [inodeList_.size() - MINKEYSPERPAGE]. *)
Fixpoint splitIndex_loop (n : Node) (threshold bound i index sz : Z) (l : InodeList) : res Z :=
  if i <? bound then
    match l with
    | [] => Err OutOfBounds
    | ref :: l =>
        let es := elementSize n ref in
        if (MINKEYSPERPAGE <=? i) && (threshold <? wrap32 (sz + es)) then Ok i
        else splitIndex_loop n threshold bound (i + 1) i (wrap32 (sz + es)) l
    end
  else Ok index.

(** [splitIndex(threshold)]; [size() - MINKEYSPERPAGE] is a [size_t]. *)
Definition splitIndex (n : Node) (threshold : Z) : res Z :=
  splitIndex_loop n threshold (wrap64 (Z.of_nat (length (inodeList_ n)) - MINKEYSPERPAGE))
    0 0 PAGEHEADERSIZE (inodeList_ n).

(** The loop of [isinlineable]. *)
Fixpoint isinlineable_loop (maxInlineBucketSize s : Z) (l : InodeList) : bool :=
  match l with
  | [] => true
  | item :: l =>
      let s := wrap32 (s + wrap32 (LEAFELEMSIZE + length_ (i_key item) + length_ (i_value item))) in
      if has_flag (i_flag item) bucketLeafFlag then false
      else if maxInlineBucketSize <? s then false
      else isinlineable_loop maxInlineBucketSize s l
  end.

(** [isinlineable(maxInlineBucketSize)] *)
Definition isinlineable (n : Node) (maxInlineBucketSize : Z) : bool :=
  isinlineable_loop maxInlineBucketSize PAGEHEADERSIZE (inodeList_ n).

(** [branchPageIds()] *)
Definition branchPageIds (n : Node) : list Z := i_pageId <$> inodeList_ n.

(** ** Updates *)

(** [put(oldKey, newKey, value, pageId, flag)], [total] being the bucket's
    [getTotalPageNumber()]: the result and the node *)
Definition put (total : Z) (n : Node) (oldKey newKey value : Item) (pageId flag : Z)
    : res (bool * Node) :=
  if total <=? pageId then Ok (false, n)
  else if (length_ oldKey <=? 0) || (length_ newKey <=? 0) then Ok (false, n)
  else
    '(index, found) ← binarySearch (inodeList_ n) oldKey;
    let new := {| i_flag := flag; i_pageId := pageId; i_key := newKey; i_value := value |} in
    let i := Z.to_nat index in
    let l := inodeList_ n in
    let rest := if found : bool then drop (S i) l else drop i l in
    Ok (true, set_inodeList (take i l ++ new :: rest) n).

(** [del(key)] *)
Definition del (n : Node) (key : Item) : res (bool * Node) :=
  '(it, found) ← binarySearch (inodeList_ n) key;
  if negb found then Ok (true, n)
  else
    let i := Z.to_nat it in
    Ok (true, set_unbalanced true
                (set_inodeList (take i (inodeList_ n) ++ drop (S i) (inodeList_ n)) n)).

(** [do_remove(key)] *)
Definition do_remove (n : Node) (key : Item) : res Node :=
  '(index, found) ← binarySearch (inodeList_ n) key;
  if negb found then Ok n
  else
    let i := Z.to_nat index in
    Ok (set_unbalanced true
          (set_inodeList (take i (inodeList_ n) ++ drop (S i) (inodeList_ n)) n)).

(** The list without its first [x], as the loop of [removeChild] erases it. *)
Fixpoint erase_first (x : nptr) (l : list nptr) : list nptr :=
  match l with
  | [] => []
  | y :: l => if decide (y = x) then l else y :: erase_first x l
  end.

(** [removeChild(target)] *)
Definition removeChild (n : Node) (target : nptr) : Node :=
  set_children (erase_first target (children_ n)) n.

(** ** The page codec *)

(** [std::vector::resize(n)] *)
Definition resize (n : Z) (l : InodeList) : InodeList :=
  take (Z.to_nat n) l ++ replicate (Z.to_nat n - length l) Inode_new.

(** The element of index [i] of the page at [p], read over the inode [it]. *)
Definition read_inode (m : list byte) (p i : Z) (leaf : bool) (it : Inode) : res Inode :=
  if leaf then
    let e := getLeafPageElement p i in
    fl ← leaf_flag m e; k ← leaf_key m e; v ← leaf_value m e;
    Ok {| i_flag := fl; i_pageId := i_pageId it; i_key := k; i_value := v |}
  else
    let e := getBranchPageElement p i in
    pg ← branch_pageId m e; k ← branch_key m e;
    Ok {| i_flag := i_flag it; i_pageId := pg; i_key := k; i_value := i_value it |}.

Fixpoint read_inodes (m : list byte) (p i : Z) (leaf : bool) (l : InodeList) : res InodeList :=
  match l with
  | [] => Ok []
  | it :: l => x ← read_inode m p i leaf it; xs ← read_inodes m p (i + 1) leaf l; Ok (x :: xs)
  end.

(** [read(page)] *)
Definition read (n : Node) (m : list byte) (p : Z) : res Node :=
  id ← Page_id m p;
  fl ← Page_flag m p;
  cnt ← Page_count m p;
  let leaf := has_flag fl leafPageFlag in
  l ← read_inodes m p 0 leaf (resize cnt (inodeList_ n));
  k ← match l with
      | [] => Ok Item_empty
      | x :: _ => _ ← assert_ (negb (Item_is_empty (i_key x))); Ok (i_key x)
      end;
  Ok (set_inodeList l (set_key k (set_isLeaf leaf (set_pageId id n)))).

(** [memcpy(content, it.c_str(), it.length_)] *)
Definition copy_item (m : list byte) (content : Z) (it : Item) : res (list byte) :=
  bs ← slice (data_ it) 0 (length_ it); splice m content bs.

Section write.
(** The address of the buffer [m], and that of the local variable [item] of
    [Node::write] in its branch case. *)
Context (base stk : Z).

(** The loop of [write]: element [i] and its key and value at [content]. *)
Fixpoint write_inodes (m : list byte) (p : Z) (leaf : bool) (i content : Z) (l : InodeList)
    : res (list byte) :=
  match l with
  | [] => Ok m
  | x :: l =>
      m ← (if leaf then
             let e := getLeafPageElement p i in
             m ← store 4 m (e + 4) (content - e);
             m ← store 4 m e (i_flag x);
             m ← store 4 m (e + 8) (length_ (i_key x));
             store 4 m (e + 12) (length_ (i_value x))
           else
             let e := getBranchPageElement p i in
             (* the difference to the address of the variable [item], not to the element *)
             m ← store 4 m e (base + content - stk);
             m ← store 4 m (e + 4) (length_ (i_key x));
             store 8 m (e + 8) (i_pageId x));
      m ← copy_item m content (i_key x);
      let content := content + length_ (i_key x) in
      m ← copy_item m content (i_value x);
      write_inodes m p leaf (i + 1) (content + length_ (i_value x)) l
  end.

(** [write(page)], the page at offset [p] of [m] *)
Definition write (n : Node) (m : list byte) (p : Z) : res (list byte) :=
  fl ← Page_flag m p;
  m ← Page_set_flag m p (Z.lor fl (if isLeaf_ n then leafPageFlag else branchPageFlag));
  if 0xffff <? Z.of_nat (length (inodeList_ n)) then Err LogFatal
  else
    m ← Page_set_count m p (Z.of_nat (length (inodeList_ n)));
    match inodeList_ n with
    | [] => Ok m
    | l => write_inodes m p (isLeaf_ n) 0
             (Page_ptr p + Z.of_nat (length l) * pageElementSize n) l
    end.
End write.

(** ** Well-formed inode lists *)

(** Keys strictly increasing: the order the binary search needs. *)
Definition keys_sorted (l : InodeList) : Prop := StronglySorted bytes_lt (ikeys l).

Lemma keys_sorted_NoDup l : keys_sorted l -> NoDup (ikeys l).
Proof.
  unfold keys_sorted. induction 1 as [|k ks _ IH Hk]; [constructor|]. constructor; [|done].
  intros Hin. rewrite Forall_forall in Hk. by apply (irreflexivity bytes_lt k), Hk.
Qed.

(** Exact size of an inode in a page, and of a page. *)
Definition inode_bytes (x : Inode) : Z := 16 + length_ (i_key x) + length_ (i_value x).
Definition page_bytes (l : InodeList) : Z := 16 + foldr Z.add 0 (inode_bytes <$> l).

Definition inode_wf (x : Inode) : Prop :=
  Item_wf (i_key x) /\ Item_wf (i_value x) /\ 0 <= i_flag x < 2 ^ 32 /\ 0 <= i_pageId x < 2 ^ 64.

(** The map an inode list stands for. *)
Definition inode_map (l : InodeList) : gmap (list byte) Inode :=
  list_to_map ((fun x => (data_ (i_key x), x)) <$> l).

(** ** Lemmas on keys *)

Lemma ikeys_app l1 l2 : ikeys (l1 ++ l2) = ikeys l1 ++ ikeys l2.
Proof. apply fmap_app. Qed.

Lemma length_ikeys l : length (ikeys l) = length l.
Proof. apply length_fmap. Qed.

Lemma ikey_at_ok l i k : ikeys l !! Z.to_nat i = Some k -> 0 <= i -> ikey_at l i = Ok k.
Proof.
  unfold ikeys, ikey_at. rewrite list_lookup_fmap. intros H _.
  by apply fmap_Some in H as (x&->&->).
Qed.

Lemma ikey_at_total l i :
  0 <= i < Z.of_nat (length l) -> exists k, ikey_at l i = Ok k.
Proof.
  intros Hi. destruct (lookup_nth_Z l i Hi) as [x Hx]. unfold ikey_at. rewrite Hx. by eexists.
Qed.

(** The node's search terminates and meets the specification of BinSearch.v. *)
Lemma binarySearch_correct l key :
  keys_sorted l -> Z.of_nat (length l) < 2 ^ 31 ->
  exists r, binarySearch l key = Ok r /\ search_spec (ikeys l) (data_ key) r.
Proof.
  intros Hs Hl. unfold binarySearch. rewrite wrap_id by lia. rewrite <-(length_ikeys l).
  apply bsearch_correct; [apply ikey_at_ok|done|by rewrite length_ikeys].
Qed.

(** On unsorted keys the search still stops, with an index in range. *)
Lemma binarySearch_total l key :
  Z.of_nat (length l) <= 2 ^ 31 ->
  exists i found, binarySearch l key = Ok (i, found) /\ 0 <= i <= Z.of_nat (length l) /\
    (found = true -> i < Z.of_nat (length l) /\ ikey_at l i = Ok (data_ key)).
Proof.
  intros Hl. unfold binarySearch. rewrite wrap_id by lia.
  apply bsearch_total; [apply ikey_at_total|lia].
Qed.

(** A search splits a sorted list around the key. *)
Lemma search_split l key i found :
  search_spec (ikeys l) key (i, found) ->
  exists l1 l2, l1 = take (Z.to_nat i) l /\
    (if found : bool then exists x, l = l1 ++ x :: l2 /\ data_ (i_key x) = key /\ l2 = drop (S (Z.to_nat i)) l
     else l = l1 ++ l2 /\ l2 = drop (Z.to_nat i) l) /\
    Forall (fun k => bytes_lt k key) (ikeys l1) /\
    (keys_sorted l -> Forall (fun k => bytes_lt key k) (ikeys l2)).
Proof.
  intros (Hi&Hlo&Hhi). rewrite length_ikeys in Hi.
  assert (Forall (fun k => bytes_lt k key) (ikeys (take (Z.to_nat i) l))) as Hlt.
  { apply Forall_forall. intros k [j Hj]%list_elem_of_lookup. unfold ikeys in Hj.
    rewrite list_lookup_fmap in Hj. destruct (decide (j < Z.to_nat i)%nat).
    - rewrite lookup_take_lt in Hj by lia. apply (Hlo j); [|lia]. unfold ikeys. by rewrite list_lookup_fmap.
    - by rewrite lookup_take_ge in Hj by lia. }
  destruct found.
  - unfold ikeys in Hhi. rewrite list_lookup_fmap in Hhi.
    destruct (l !! Z.to_nat i) as [x|] eqn:Hx; [|done]. injection Hhi as Hk.
    exists (take (Z.to_nat i) l), (drop (S (Z.to_nat i)) l). split_and!; [done| |done|].
    + exists x. split_and!; [by apply take_drop_splice|done|done].
    + intros Hs. rewrite (take_drop_splice l _ _ Hx) in Hs. unfold keys_sorted in Hs.
      rewrite ikeys_app in Hs. apply StronglySorted_app in Hs as (_&_&Hs).
      apply StronglySorted_cons in Hs as [Hs _]. by rewrite Hk in Hs.
  - exists (take (Z.to_nat i) l), (drop (Z.to_nat i) l).
    split_and!; [done|by rewrite take_drop|done|done|].
    intros _. apply Forall_forall. intros k [j Hj]%list_elem_of_lookup. unfold ikeys in Hj.
    rewrite list_lookup_fmap, lookup_drop in Hj. apply (Hhi (Z.to_nat i + j)%nat); [|lia].
    unfold ikeys. by rewrite list_lookup_fmap.
Qed.

(** ** Lemmas on sizes *)

Lemma elementSize_wf n x :
  inode_bytes x < 2 ^ 32 -> Item_wf (i_key x) -> Item_wf (i_value x) ->
  elementSize n x = inode_bytes x.
Proof.
  intros H [? _] [? _]. unfold elementSize, pageElementSize, inode_bytes in *.
  destruct (isLeaf_ n); apply wrap_id; unfold LEAFELEMSIZE, BRANCHELEMSIZE; lia.
Qed.

Lemma inode_bytes_pos x : inode_wf x -> 16 <= inode_bytes x.
Proof. intros ([? _]&[? _]&_). unfold inode_bytes. lia. Qed.

Lemma inode_bytes_sum_nonneg l : Forall inode_wf l -> 0 <= foldr Z.add 0 (inode_bytes <$> l).
Proof.
  intros H. apply list_sum_nonneg, Forall_fmap. eapply Forall_impl; [exact H|].
  intros x Hx%inode_bytes_pos. cbn. lia.
Qed.

Lemma inode_bytes_sum_le l :
  Forall inode_wf l -> 16 * Z.of_nat (length l) <= foldr Z.add 0 (inode_bytes <$> l).
Proof.
  induction 1 as [|x l Hx%inode_bytes_pos Hl IH]; [done|]. cbn [length fmap list_fmap foldr] in *. lia.
Qed.

Lemma page_bytes_app l1 l2 :
  page_bytes (l1 ++ l2) = page_bytes l1 + foldr Z.add 0 (inode_bytes <$> l2).
Proof. unfold page_bytes. rewrite fmap_app, list_sum_app. lia. Qed.

(** [size()] is the exact size of the page when it fits the integer. *)
Lemma size_exact n :
  Forall inode_wf (inodeList_ n) -> page_bytes (inodeList_ n) < 2 ^ 32 ->
  size n = page_bytes (inodeList_ n).
Proof.
  unfold size, page_bytes, PAGEHEADERSIZE. generalize (inodeList_ n) as l.
  assert (forall l a, 0 <= a -> Forall inode_wf l ->
    a + foldr Z.add 0 (inode_bytes <$> l) < 2 ^ 32 ->
    foldl (fun s x => wrap32 (s + elementSize n x)) a l
      = a + foldr Z.add 0 (inode_bytes <$> l)) as Haux.
  { induction l as [|x l IH]; intros a Ha Hw Hb; cbn; [lia|].
    apply Forall_cons in Hw as [Hx Hl]. pose proof (inode_bytes_pos _ Hx).
    pose proof (inode_bytes_sum_nonneg _ Hl). cbn in Hb. destruct Hx as (?&?&_).
    rewrite elementSize_wf, wrap_id by (done || lia). rewrite IH by (done || lia). lia. }
  intros l Hw Hb. apply Haux; done || lia.
Qed.

Lemma sizeLessThan_loop_spec n l a s :
  0 <= a < s -> s < 2 ^ 32 -> Forall inode_wf l ->
  a + foldr Z.add 0 (inode_bytes <$> l) < 2 ^ 32 ->
  sizeLessThan_loop n a s l = (a + foldr Z.add 0 (inode_bytes <$> l) <? s).
Proof.
  intros Ha Hs. revert a Ha. induction l as [|x l IH]; intros a Ha Hw Hb; cbn.
  { symmetry. apply Z.ltb_lt. lia. }
  apply Forall_cons in Hw as [Hx Hl]. pose proof (inode_bytes_pos _ Hx).
  pose proof (inode_bytes_sum_nonneg _ Hl). cbn in Hb. destruct Hx as (?&?&_).
  rewrite elementSize_wf, wrap_id by (done || lia). destruct (Z.leb_spec s (a + inode_bytes x)).
  - symmetry. apply Z.ltb_ge. lia.
  - rewrite IH by (done || lia). f_equal. lia.
Qed.

Lemma page_bytes_take_mono l i j :
  Forall inode_wf l -> (i <= j)%nat -> page_bytes (take i l) <= page_bytes (take j l).
Proof.
  intros Hw Hij. rewrite <-(take_drop i (take j l)), take_take, Nat.min_l by lia.
  rewrite page_bytes_app. enough (0 <= foldr Z.add 0 (inode_bytes <$> drop i (take j l))) by lia.
  apply inode_bytes_sum_nonneg, Forall_drop, Forall_take, Hw.
Qed.

Lemma page_bytes_take_S l i x :
  l !! i = Some x -> page_bytes (take (S i) l) = page_bytes (take i l) + inode_bytes x.
Proof. intros H. rewrite (take_S_r _ _ _ H), page_bytes_app. cbn. lia. Qed.

Lemma page_bytes_take_all l i : Forall inode_wf l -> page_bytes (take i l) <= page_bytes l.
Proof.
  intros Hw. rewrite <-(take_drop i l) at 2. rewrite page_bytes_app.
  pose proof (inode_bytes_sum_nonneg _ (Forall_drop _ i _ Hw)). lia.
Qed.

(** [splitIndex]'s loop: the first index past the minimum whose element
    passes the threshold, or the last one it may try. *)
Lemma splitIndex_loop_spec n threshold all l i index :
  Forall inode_wf all -> page_bytes all < 2 ^ 32 ->
  l = drop i all -> (i + 2 <= length all)%nat ->
  (Z.of_nat i = 0 \/ index = Z.of_nat i - 1) -> (3 <= length all)%nat ->
  ((2 < i)%nat -> page_bytes (take i all) <= threshold) ->
  exists r, splitIndex_loop n threshold (Z.of_nat (length all) - 2) (Z.of_nat i) index
              (page_bytes (take i all)) l = Ok (Z.of_nat r) /\
    (r + 3 <= length all)%nat /\ (Nat.min 2 (length all - 3) <= r)%nat /\
    ((2 < r)%nat -> page_bytes (take r all) <= threshold) /\
    ((r + 3 < length all)%nat -> threshold < page_bytes (take (S r) all)).
Proof.
  intros Hw Hb. revert i index. induction l as [|x l IH]; intros i index Hl Hlen Hidx H3 Hth.
  { apply (f_equal length) in Hl. rewrite length_drop in Hl. cbn in Hl. lia. }
  assert (all !! i = Some x) as Hxi.
  { rewrite <-(Nat.add_0_r i), <-lookup_drop, <-Hl. done. }
  assert (inode_wf x) as Hx by (by eapply Forall_lookup_1).
  pose proof (inode_bytes_pos _ Hx). pose proof (page_bytes_take_S _ _ _ Hxi) as Hnext.
  pose proof (page_bytes_take_all all (S i) Hw).
  assert (16 <= page_bytes (take i all)).
  { change 16 with (page_bytes (take 0 all)). apply page_bytes_take_mono; [done|lia]. }
  cbn [splitIndex_loop]. unfold MINKEYSPERPAGE. destruct (Z.ltb_spec (Z.of_nat i) (Z.of_nat (length all) - 2)).
  - destruct Hx as (?&?&_). rewrite elementSize_wf, wrap_id by (done || lia). rewrite <-Hnext.
    destruct ((2 <=? Z.of_nat i) && _) eqn:E.
    + zb. exists i. split_and!; try done; lia.
    + replace (Z.of_nat i + 1) with (Z.of_nat (S i)) by lia.
      apply IH; try lia.
      rewrite (drop_S all x i Hxi) in Hl. by injection Hl.
  - exists (i - 1)%nat. destruct Hidx as [Hi| ->]; [lia|].
    split_and!; [f_equal; lia|lia|lia| |lia].
    intros ?. etransitivity; [apply (page_bytes_take_mono _ _ i); [done|lia]|apply Hth; lia].
Qed.

Lemma isinlineable_loop_spec mx s l :
  0 <= s -> Forall inode_wf l -> s + foldr Z.add 0 (inode_bytes <$> l) < 2 ^ 32 ->
  isinlineable_loop mx s l = true <->
    Forall (fun x => has_flag (i_flag x) bucketLeafFlag = false) l /\
    (l = [] \/ s + foldr Z.add 0 (inode_bytes <$> l) <= mx).
Proof.
  revert s. induction l as [|x l IH]; intros s Hs Hw Hb; cbn.
  { split; [by auto|done]. }
  apply Forall_cons in Hw as [Hx Hl]. pose proof (inode_bytes_pos _ Hx).
  pose proof (inode_bytes_sum_nonneg _ Hl). cbn in Hb. destruct Hx as ([? _]&[? _]&_).
  assert (wrap32 (s + wrap32 (LEAFELEMSIZE + length_ (i_key x) + length_ (i_value x)))
          = s + inode_bytes x) as ->.
  { unfold inode_bytes, LEAFELEMSIZE in *. by rewrite !wrap_id by (rewrite ?wrap_id; lia). }
  destruct (has_flag (i_flag x) bucketLeafFlag) eqn:Ef.
  { split; [done|]. rewrite Forall_cons. intros [[? _] _]. congruence. }
  rewrite Forall_cons. destruct (Z.ltb_spec mx (s + inode_bytes x)) as [Hm|Hm].
  { split; [done|]. intros [_ [?|?]]; [done|lia]. }
  rewrite IH by (done || lia). rewrite Z.add_assoc. split.
  - intros [? [->|?]]; split_and!; auto. right. cbn. lia.
  - intros [[_ ?] [?|?]]; [done|]. auto.
Qed.

(** ** Lemmas on updates *)

Lemma inode_map_app l1 l2 : inode_map (l1 ++ l2) = inode_map l1 ∪ inode_map l2.
Proof. unfold inode_map. by rewrite fmap_app, list_to_map_app. Qed.

Lemma inode_map_cons x l : inode_map (x :: l) = <[data_ (i_key x) := x]> (inode_map l).
Proof. done. Qed.

Lemma inode_map_none l k : k ∉ ikeys l -> inode_map l !! k = None.
Proof.
  intros H. apply not_elem_of_list_to_map_1. contradict H.
  unfold ikeys. rewrite <-list_fmap_compose in H. exact H.
Qed.

Lemma Forall_lt_notin k ks : Forall (fun k' => bytes_lt k' k) ks -> k ∉ ks.
Proof. intros H Hk. rewrite Forall_forall in H. by apply (irreflexivity bytes_lt k), H. Qed.

Lemma Forall_gt_notin k ks : Forall (fun k' => bytes_lt k k') ks -> k ∉ ks.
Proof. intros H Hk. rewrite Forall_forall in H. by apply (irreflexivity bytes_lt k), H. Qed.

(** A sorted list around a key, and what it stands for. *)
Lemma keys_sorted_insert l1 x l2 :
  keys_sorted (l1 ++ l2) ->
  Forall (fun k => bytes_lt k (data_ (i_key x))) (ikeys l1) ->
  Forall (fun k => bytes_lt (data_ (i_key x)) k) (ikeys l2) ->
  keys_sorted (l1 ++ x :: l2).
Proof.
  unfold keys_sorted. rewrite !ikeys_app. change (ikeys (x :: l2)) with (data_ (i_key x) :: ikeys l2).
  intros (Hc&Hs1&Hs2)%StronglySorted_app H1 H2.
  apply StronglySorted_app. split_and!; [|done|].
  - intros k1 k2 Hk1 [->|Hk2]%elem_of_cons; [|by apply Hc].
    rewrite Forall_forall in H1. by apply H1.
  - by apply StronglySorted_cons.
Qed.

Lemma inode_map_middle l1 x l2 :
  data_ (i_key x) ∉ ikeys l1 ->
  inode_map (l1 ++ x :: l2) = <[data_ (i_key x) := x]> (inode_map (l1 ++ l2)).
Proof.
  intros H. rewrite !inode_map_app, inode_map_cons.
  symmetry. apply insert_union_r. by apply inode_map_none.
Qed.

Lemma inode_map_remove l1 x l2 :
  data_ (i_key x) ∉ ikeys l1 -> data_ (i_key x) ∉ ikeys l2 ->
  inode_map (l1 ++ l2) = delete (data_ (i_key x)) (inode_map (l1 ++ x :: l2)).
Proof.
  intros H1 H2. rewrite inode_map_middle by done. rewrite delete_insert_eq.
  symmetry. apply delete_id. apply inode_map_none. rewrite ikeys_app, elem_of_app. by intros [?|?].
Qed.

(** ** Properties: the inode list as a sorted map *)

(** The index of a search is the number of smaller keys. *)
Lemma search_rank l key :
  keys_sorted l -> forall i found, search_spec (ikeys l) key (i, found) ->
  i = Z.of_nat (length (filter (fun k => bytes_lt k key) (ikeys l))).
Proof.
  intros Hs i found Hspec. pose proof Hspec as (Hi&_). rewrite length_ikeys in Hi.
  destruct (search_split _ _ _ _ Hspec) as (l1&l2&Hl1&Hf&Hlo&Hhi). specialize (Hhi Hs).
  assert (length l1 = Z.to_nat i) as Hlen by (subst l1; rewrite length_take; lia).
  assert (forall ks, Forall (fun k => bytes_lt key k) ks ->
    filter (fun k => bytes_lt k key) ks = []) as Hnone.
  { intros ks Hlt. apply filter_none. eapply Forall_impl; [exact Hlt|]. cbn. intros. by apply bytes_lt_asym. }
  destruct found.
  - destruct Hf as (x&Hx&Hk&_). rewrite Hx. rewrite ikeys_app, filter_app, filter_all by done.
    change (ikeys (x :: l2)) with (data_ (i_key x) :: ikeys l2). rewrite Hk.
    rewrite filter_cons, decide_False by (apply (irreflexivity bytes_lt)).
    rewrite Hnone, app_nil_r, length_ikeys by done. lia.
  - destruct Hf as (Hx&_). rewrite Hx. rewrite ikeys_app, filter_app, filter_all by done.
    rewrite Hnone, app_nil_r, length_ikeys by done. lia.
Qed.

(** C29. On a node whose keys are strictly increasing, [Node::search] stops and
    returns the number of keys below the searched one, with [found] true
    exactly when the key is there: the binary search is the linear rank. *)
Theorem node_search_rank n key :
  keys_sorted (inodeList_ n) -> Z.of_nat (length (inodeList_ n)) < 2 ^ 31 ->
  search n key =
    Ok (Z.of_nat (length (filter (fun k => bytes_lt k (data_ key)) (ikeys (inodeList_ n)))),
        bool_decide (data_ key ∈ ikeys (inodeList_ n))).
Proof.
  intros Hs Hl. destruct (binarySearch_correct _ key Hs Hl) as ([i found]&Hb&Hspec).
  unfold search. rewrite Hb. do 2 f_equal; [by eapply search_rank|].
  destruct found; symmetry.
  - apply bool_decide_eq_true. apply search_spec_found in Hspec as [? _].
    by eapply list_elem_of_lookup_2.
  - apply bool_decide_eq_false. by eapply search_spec_not_found.
Qed.

(** The effect of [put] on the map of a sorted node. *)
Lemma put_inserts total n oldKey newKey value pageId flag :
  keys_sorted (inodeList_ n) -> Z.of_nat (length (inodeList_ n)) < 2 ^ 31 ->
  pageId < total -> 0 < length_ oldKey -> 0 < length_ newKey ->
  (forall k, k ∈ ikeys (inodeList_ n) -> k <> data_ oldKey ->
    (bytes_lt k (data_ oldKey) -> bytes_lt k (data_ newKey)) /\
    (bytes_lt (data_ oldKey) k -> bytes_lt (data_ newKey) k)) ->
  exists l, put total n oldKey newKey value pageId flag = Ok (true, set_inodeList l n) /\
    keys_sorted l /\
    inode_map l = <[data_ newKey := mkInode flag pageId newKey value]>
                    (delete (data_ oldKey) (inode_map (inodeList_ n))).
Proof.
  intros Hs Hl Hpg Ho Hn Hpos. unfold put.
  destruct (Z.leb_spec total pageId) as [?|_]; [lia|].
  destruct (Z.leb_spec (length_ oldKey) 0) as [?|_]; [lia|].
  destruct (Z.leb_spec (length_ newKey) 0) as [?|_]; [lia|]. cbn [orb].
  destruct (binarySearch_correct _ oldKey Hs Hl) as ([i found]&Hb&Hspec). rewrite Hb.
  cbn [mbind res_bind]. eexists. split; [done|].
  destruct (search_split _ _ _ _ Hspec) as (l1&l2&Hl1&Hf&Hlo&Hhi). specialize (Hhi Hs).
  set (new := mkInode _ _ _ _). set (l := inodeList_ n) in *. rewrite <-Hl1.
  assert (exists rest, l = l1 ++ rest /\ (if found then drop (S (Z.to_nat i)) l else drop (Z.to_nat i) l) = l2 /\
    keys_sorted (l1 ++ l2) /\
    inode_map (l1 ++ l2) = delete (data_ oldKey) (inode_map l)) as (rest&Hr&->&Hs'&Hm).
  { destruct found.
    - destruct Hf as (x&Hx&Hk&Hl2). exists (x :: l2).
      split_and!; [done|done| |].
      + eapply StronglySorted_sublist; [|exact Hs]. rewrite Hx. rewrite !ikeys_app.
        apply sublist_app; [done|]. by apply sublist_cons.
      + rewrite Hx. rewrite <-Hk. apply inode_map_remove; rewrite Hk;
          [by apply Forall_lt_notin|by apply Forall_gt_notin].
    - destruct Hf as (Hx&Hl2). exists l2. split_and!; [done|done|by rewrite <-Hx|].
      rewrite <-Hx. symmetry. apply delete_id, inode_map_none. rewrite Hx, ikeys_app, elem_of_app.
      intros [?|?]; [by eapply Forall_lt_notin|by eapply Forall_gt_notin]. }
  assert (Forall (fun k => bytes_lt k (data_ newKey)) (ikeys l1)) as Hlo'.
  { rewrite Forall_forall in *. intros k Hk. apply Hpos; [|by apply bytes_lt_neq, Hlo|by apply Hlo].
    rewrite Hr, ikeys_app. set_solver. }
  assert (Forall (fun k => bytes_lt (data_ newKey) k) (ikeys l2)) as Hhi'.
  { rewrite Forall_forall in *. intros k Hk. apply Hpos; [|apply not_eq_sym, bytes_lt_neq, Hhi, Hk|by apply Hhi].
    unfold ikeys in *. destruct found.
    - destruct Hf as (x&Hx&_&_). rewrite Hx. set_solver.
    - destruct Hf as (Hx&_). rewrite Hx. set_solver. }
  split; [by apply keys_sorted_insert|]. rewrite <-Hm.
  by apply inode_map_middle, Forall_lt_notin.
Qed.

(** The list with the inode [x] at its key's rank: what [put] of a new key
    makes. *)
Definition insert_inode (x : Inode) (l : InodeList) : InodeList :=
  let i := length (filter (fun k => bytes_lt k (data_ (i_key x))) (ikeys l)) in
  take i l ++ x :: drop i l.

Lemma insert_inode_perm x l : insert_inode x l ≡ₚ x :: l.
Proof. unfold insert_inode. by rewrite <-Permutation_middle, take_drop. Qed.

Lemma put_absent total n key value pageId flag :
  keys_sorted (inodeList_ n) -> Z.of_nat (length (inodeList_ n)) < 2 ^ 31 ->
  pageId < total -> 0 < length_ key -> data_ key ∉ ikeys (inodeList_ n) ->
  let l := insert_inode (mkInode flag pageId key value) (inodeList_ n) in
  put total n key key value pageId flag = Ok (true, set_inodeList l n) /\ keys_sorted l.
Proof.
  intros Hs Hl Hpg Hk Habs.
  destruct (put_inserts total n key key value pageId flag) as (l&Hput&Hsort&_); [done..|].
  enough (set_inodeList l n = set_inodeList (insert_inode (mkInode flag pageId key value) (inodeList_ n)) n) as He.
  { assert (l = insert_inode (mkInode flag pageId key value) (inodeList_ n)) as <- by (by injection He). done. }
  revert Hput. unfold put. rewrite (proj2 (Z.leb_gt _ _)), (proj2 (Z.leb_gt _ _)) by done. cbn [orb].
  destruct (binarySearch_correct _ key Hs Hl) as ([i found]&Hb&Hspec). rewrite Hb. cbn [mbind res_bind].
  assert (found = false) as ->.
  { destruct found; [|done]. apply search_spec_found in Hspec as [Hlk _]. by apply list_elem_of_lookup_2 in Hlk. }
  pose proof (search_rank _ _ Hs _ _ Hspec) as Hi. intros [= <-]. unfold insert_inode. cbn [i_key].
  by rewrite Hi, Nat2Z.id.
Qed.

(** The effect of [del] on the map of a sorted node. *)
Lemma del_deletes n key :
  keys_sorted (inodeList_ n) -> Z.of_nat (length (inodeList_ n)) < 2 ^ 31 ->
  exists n', del n key = Ok (true, n') /\ keys_sorted (inodeList_ n') /\
    inode_map (inodeList_ n') = delete (data_ key) (inode_map (inodeList_ n)) /\
    unbalanced_ n' = bool_decide (data_ key ∈ ikeys (inodeList_ n)) || unbalanced_ n /\
    set_unbalanced (unbalanced_ n) (set_inodeList (inodeList_ n) n') = n.
Proof.
  intros Hs Hl. unfold del.
  destruct (binarySearch_correct _ key Hs Hl) as ([i found]&Hb&Hspec). rewrite Hb.
  cbn [mbind res_bind].
  destruct (search_split _ _ _ _ Hspec) as (l1&l2&Hl1&Hf&Hlo&Hhi). specialize (Hhi Hs).
  apply Forall_lt_notin in Hlo. apply Forall_gt_notin in Hhi. destruct found; cbn [negb].
  - destruct Hf as (x&Hx&Hk&Hl2). eexists. split; [done|]. cbn. rewrite <-Hl1, <-Hl2.
    split_and!.
    + eapply StronglySorted_sublist; [|exact Hs]. rewrite Hx. rewrite !ikeys_app.
      apply sublist_app; [done|]. by apply sublist_cons.
    + rewrite Hx. rewrite <-Hk in *. by apply inode_map_remove.
    + rewrite bool_decide_eq_true_2; [done|]. rewrite Hx, ikeys_app. set_solver.
    + by destruct n.
  - destruct Hf as (Hx&Hl2). exists n.
    assert (data_ key ∉ ikeys (inodeList_ n)) as Hni.
    { rewrite Hx, ikeys_app, elem_of_app. by intros [?|?]. }
    split_and!; [done|done| | |by destruct n].
    + symmetry. apply delete_id. by apply inode_map_none.
    + by rewrite bool_decide_eq_false_2.
Qed.

(** C27. [Node::put] with its guards satisfied is map insertion: the entry of
    [oldKey] is replaced by the new inode under [newKey], every other entry is
    kept, the keys stay strictly increasing and only [inodeList_] changes,
    provided [newKey] sits where [oldKey] sat among the other keys (trivially
    when they are equal, the use of [Bucket::put]). *)
Theorem node_put_map total n oldKey newKey value pageId flag :
  keys_sorted (inodeList_ n) -> Z.of_nat (length (inodeList_ n)) < 2 ^ 31 ->
  pageId < total -> 0 < length_ oldKey -> 0 < length_ newKey ->
  (forall k, k ∈ ikeys (inodeList_ n) -> k <> data_ oldKey ->
    (bytes_lt k (data_ oldKey) -> bytes_lt k (data_ newKey)) /\
    (bytes_lt (data_ oldKey) k -> bytes_lt (data_ newKey) k)) ->
  exists l, put total n oldKey newKey value pageId flag = Ok (true, set_inodeList l n) /\
    keys_sorted l /\
    inode_map l = <[data_ newKey := mkInode flag pageId newKey value]>
                    (delete (data_ oldKey) (inode_map (inodeList_ n))).
Proof. apply put_inserts. Qed.

(** C28. [Node::del] is map deletion: it always reports success, removes
    exactly the entry of [key], keeps the keys strictly increasing, and marks
    the node unbalanced exactly when the key was there. *)
Theorem node_del_map n key :
  keys_sorted (inodeList_ n) -> Z.of_nat (length (inodeList_ n)) < 2 ^ 31 ->
  exists n', del n key = Ok (true, n') /\ keys_sorted (inodeList_ n') /\
    inode_map (inodeList_ n') = delete (data_ key) (inode_map (inodeList_ n)) /\
    unbalanced_ n' = bool_decide (data_ key ∈ ikeys (inodeList_ n)) || unbalanced_ n /\
    set_unbalanced (unbalanced_ n) (set_inodeList (inodeList_ n) n') = n.
Proof. apply del_deletes. Qed.

(** ** Properties: sizes and splitting *)

(** [Node::sizeLessThan(s)] is the comparison [size() < s] it is an early
    exit of, whenever the size of the node fits 32 bits. *)
Lemma sizeLessThan_size n s :
  Forall inode_wf (inodeList_ n) -> page_bytes (inodeList_ n) < 2 ^ 32 -> 16 < s < 2 ^ 32 ->
  sizeLessThan n s = (size n <? s).
Proof.
  intros Hw Hb Hs. rewrite size_exact by done. unfold sizeLessThan, page_bytes in *.
  apply sizeLessThan_loop_spec; done || (unfold PAGEHEADERSIZE; lia).
Qed.

(** [Node::splitIndex] on a node that may be split (more than four
    inodes) leaves at least two inodes on the left and three on the right; the
    left page stays under the threshold unless it has the minimum of two
    inodes, and takes as many inodes as the threshold allows. *)
Lemma splitIndex_bounds n threshold :
  Forall inode_wf (inodeList_ n) -> page_bytes (inodeList_ n) < 2 ^ 32 ->
  (4 < length (inodeList_ n))%nat ->
  exists i, splitIndex n threshold = Ok (Z.of_nat i) /\
    (2 <= i <= length (inodeList_ n) - 3)%nat /\
    ((2 < i)%nat -> page_bytes (take i (inodeList_ n)) <= threshold) /\
    ((i < length (inodeList_ n) - 3)%nat -> threshold < page_bytes (take (S i) (inodeList_ n))).
Proof.
  intros Hw Hb Hl. unfold splitIndex.
  pose proof (inode_bytes_sum_le _ Hw). unfold page_bytes in Hb.
  rewrite wrap_id by (unfold MINKEYSPERPAGE; lia).
  destruct (splitIndex_loop_spec n threshold (inodeList_ n) (inodeList_ n) 0 0)
    as (r&Hr&?&?&?&Hnext); try done; try lia.
  exists r. split_and!; [exact Hr|lia|lia|done|intros ?; apply Hnext; lia].
Qed.

(** [Node::splitIndex] is not defined on short nodes: with fewer than two
    inodes [size() - MINKEYSPERPAGE] wraps and the loop reads past the list. *)
Lemma splitIndex_short n threshold :
  Forall inode_wf (inodeList_ n) -> (length (inodeList_ n) < 2)%nat ->
  splitIndex n threshold = Err OutOfBounds.
Proof.
  intros Hw Hl. unfold splitIndex. destruct (inodeList_ n) as [|x [|y l]]; [done| |cbn in Hl; lia].
  done.
Qed.

(** [Node::isinlineable(max)] is true exactly when no inode is a
    sub-bucket and the node serialised as a leaf is at most [max] bytes (an
    empty node is inlineable whatever [max]). *)
Lemma isinlineable_spec n mx :
  Forall inode_wf (inodeList_ n) -> page_bytes (inodeList_ n) < 2 ^ 32 ->
  isinlineable n mx = true <->
    Forall (fun x => has_flag (i_flag x) bucketLeafFlag = false) (inodeList_ n) /\
    (inodeList_ n = [] \/ page_bytes (inodeList_ n) <= mx).
Proof. intros Hw Hb. apply isinlineable_loop_spec; done || (unfold page_bytes in Hb; lia). Qed.

(** ** Lemmas on the page codec *)

(** The [pos] field [write] computes, in full width: an offset from the
    element in a leaf, from the variable [item] in a branch. *)
Definition pos_written (base stk p : Z) (leaf : bool) (i content : Z) : Z :=
  if leaf then content - getLeafPageElement p i else base + content - stk.

(** Element [i] of the page at [p] holds [x], its key and value at [content]. *)
Definition elem_written (base stk : Z) (m : list byte) (p : Z) (leaf : bool) (i content : Z)
    (x : Inode) : Prop :=
  let e := getLeafPageElement p i in
  let pos := pos_written base stk p leaf i content in
  (if leaf then load 4 m (e + 4) = Ok (wrap32 pos) /\ load 4 m e = Ok (i_flag x) /\
     load 4 m (e + 8) = Ok (length_ (i_key x)) /\ load 4 m (e + 12) = Ok (length_ (i_value x))
   else load 4 m e = Ok (wrap32 pos) /\ load 4 m (e + 4) = Ok (length_ (i_key x)) /\
     load 8 m (e + 8) = Ok (i_pageId x)) /\
  slice m content (length_ (i_key x)) = Ok (data_ (i_key x)) /\
  slice m (content + length_ (i_key x)) (length_ (i_value x)) = Ok (data_ (i_value x)).

Fixpoint elems_written (base stk : Z) (m : list byte) (p : Z) (leaf : bool) (i content : Z)
    (l : InodeList) : Prop :=
  match l with
  | [] => True
  | x :: l => elem_written base stk m p leaf i content x /\
      elems_written base stk m p leaf (i + 1)
        (content + length_ (i_key x) + length_ (i_value x)) l
  end.

(** [m'] is [m] outside the elements [lo, hi) and the contents [c, ce). *)
Definition frame2 (lo hi c ce : Z) (m m' : list byte) : Prop :=
  length m' = length m /\
  forall o n, o + n <= lo \/ (hi <= o /\ o + n <= c) \/ ce <= o -> slice m' o n = slice m o n.

Lemma load_frame n m m' o : slice m' o (Z.of_nat n) = slice m o (Z.of_nat n) -> load n m' o = load n m o.
Proof. intros H. unfold load. by rewrite H. Qed.

Lemma copy_item_ok m c it :
  Item_wf it -> 0 <= c -> c + length_ it <= Z.of_nat (length m) ->
  exists m', copy_item m c it = Ok m' /\ length m' = length m /\
    slice m' c (length_ it) = Ok (data_ it) /\
    (forall o n, o + n <= c \/ c + length_ it <= o -> slice m' o n = slice m o n).
Proof.
  intros [Hl Hb] Hc Hlen. unfold copy_item.
  rewrite slice_ok by lia. cbn [mbind res_bind]. rewrite Hl, Nat2Z.id. cbn. rewrite firstn_all.
  destruct (splice_succeeds m c (data_ it)) as [m' Hm']; [lia|lia|].
  exists m'. split_and!; [done|by eapply splice_length|by eapply slice_splice_same|].
  intros o n Ho. eapply slice_splice_other; [done|lia].
Qed.

(** The stores of one element's header. *)
Definition elem_fields (base stk : Z) (p : Z) (leaf : bool) (i content : Z) (x : Inode)
    : list (nat * Z * Z) :=
  let e := getLeafPageElement p i in
  let pos := pos_written base stk p leaf i content in
  if leaf then [(4%nat, e + 4, pos); (4%nat, e, i_flag x); (4%nat, e + 8, length_ (i_key x));
                (4%nat, e + 12, length_ (i_value x))]
  else [(4%nat, e, pos); (4%nat, e + 4, length_ (i_key x)); (8%nat, e + 8, i_pageId x)].

Lemma write_inodes_cons base stk m p leaf i content x l :
  write_inodes base stk m p leaf i content (x :: l) =
    (m ← stores m (elem_fields base stk p leaf i content x);
     m ← copy_item m content (i_key x);
     m ← copy_item m (content + length_ (i_key x)) (i_value x);
     write_inodes base stk m p leaf (i + 1) (content + length_ (i_key x) + length_ (i_value x)) l).
Proof.
  destruct leaf; cbn [write_inodes];
    change (getBranchPageElement p i) with (getLeafPageElement p i);
    cbn -[store copy_item write_inodes getLeafPageElement];
    repeat (match goal with |- context [store ?n ?m ?o ?z] =>
      destruct (store n m o z); cbn -[store copy_item write_inodes getLeafPageElement]; [|reflexivity] end);
    reflexivity.
Qed.

(** The fields read back. *)
Lemma elem_fields_load base stk p leaf i content x m :
  inode_wf x ->
  Forall (fun '(n, o, z) => load n m o = Ok (z mod 2 ^ (Z.of_nat n * 8)))
    (elem_fields base stk p leaf i content x) ->
  let e := getLeafPageElement p i in
  let pos := pos_written base stk p leaf i content in
  if leaf then load 4 m (e + 4) = Ok (wrap32 pos) /\ load 4 m e = Ok (i_flag x) /\
     load 4 m (e + 8) = Ok (length_ (i_key x)) /\ load 4 m (e + 12) = Ok (length_ (i_value x))
  else load 4 m e = Ok (wrap32 pos) /\ load 4 m (e + 4) = Ok (length_ (i_key x)) /\
     load 8 m (e + 8) = Ok (i_pageId x).
Proof.
  intros ([Hk Hk']&[Hv Hv']&Hf&Hp) H. change (Z.of_nat 4 * 8) with 32 in *.
  destruct leaf; cbn [elem_fields] in H; repeat rewrite Forall_cons in H;
    decompose [and] H; split_and!; try done;
    match goal with Hl : load ?n ?m ?o = Ok (?z mod _) |- load ?n ?m ?o = Ok ?z =>
      rewrite Hl; f_equal; apply Z.mod_small; width_lia end.
Qed.

(** One element: its header, key and value. *)
Lemma write_elem_ok base stk m p leaf i content x :
  inode_wf x -> 0 <= getLeafPageElement p i -> getLeafPageElement p i + 16 <= content ->
  let ce := content + length_ (i_key x) + length_ (i_value x) in
  ce <= Z.of_nat (length m) ->
  exists m', (m ← stores m (elem_fields base stk p leaf i content x);
     m ← copy_item m content (i_key x); copy_item m (content + length_ (i_key x)) (i_value x)) = Ok m' /\
    frame2 (getLeafPageElement p i) (getLeafPageElement p i + 16) content ce m m' /\
    elem_written base stk m' p leaf i content x.
Proof.
  intros Hx He Hc ce Hce. pose proof Hx as (Hk&Hv&_).
  pose proof Hk as [Hkl _]. pose proof Hv as [Hvl _].
  set (e := getLeafPageElement p i) in *.
  destruct (stores_ok (elem_fields base stk p leaf i content x) e (e + 16) m)
    as (m1&->&Hso&_&Hf); [done|lia| |].
  { destruct leaf; cbn; fold e; repeat constructor; lia. }
  apply elem_fields_load in Hf; [|done]. cbn [mbind res_bind].
  pose proof (same_outside_length _ _ _ _ Hso) as Hl1.
  destruct (copy_item_ok m1 content (i_key x) Hk) as (m2&->&Hl2&Hs2&Hf2); [lia|lia|].
  cbn [mbind res_bind].
  destruct (copy_item_ok m2 (content + length_ (i_key x)) (i_value x) Hv) as (m3&->&Hl3&Hs3&Hf3); [lia|lia|].
  exists m3. split_and!; [done| |].
  - split; [congruence|]. intros o n Ho. unfold ce in *.
    rewrite Hf3, Hf2 by lia. eapply same_outside_slice; [exact Hso|lia].
  - assert (forall n o, e <= o -> o + Z.of_nat n <= e + 16 -> load n m3 o = load n m1 o) as Hld.
    { intros n o ? ?. apply load_frame. by rewrite Hf3, Hf2 by lia. }
    split; [|split; [by rewrite Hf3 by lia|done]].
    destruct leaf; fold e in Hf |- *; rewrite !Hld by lia; exact Hf.
Qed.

(** What an element holds only depends on its own bytes. *)
Lemma elem_written_frame base stk m m' p leaf i content x :
  inode_wf x -> length m' = length m ->
  (forall o n, (getLeafPageElement p i <= o /\ o + n <= getLeafPageElement p i + 16) \/
     (content <= o /\ o + n <= content + length_ (i_key x) + length_ (i_value x)) ->
     slice m' o n = slice m o n) ->
  elem_written base stk m p leaf i content x -> elem_written base stk m' p leaf i content x.
Proof.
  intros ([? _]&[? _]&_) Hl Hf (Hh&Hk&Hv). split; [|split; [rewrite Hf by lia; done|rewrite Hf by lia; done]].
  destruct leaf; rewrite !(load_frame _ m m') by (apply Hf; lia); exact Hh.
Qed.

Lemma write_inodes_ok base stk p leaf l m i content :
  Forall inode_wf l -> 0 <= p -> 0 <= i ->
  getLeafPageElement p (i + Z.of_nat (length l)) <= content ->
  let ce := content + foldr Z.add 0 ((fun x => length_ (i_key x) + length_ (i_value x)) <$> l) in
  ce <= Z.of_nat (length m) ->
  exists m', write_inodes base stk m p leaf i content l = Ok m' /\
    frame2 (getLeafPageElement p i) (getLeafPageElement p (i + Z.of_nat (length l))) content ce m m' /\
    elems_written base stk m' p leaf i content l.
Proof.
  intros Hw Hp. revert m i content. induction Hw as [|x l Hx Hl IH]; intros m i content Hi Hc ce Hce.
  { exists m. split_and!; [done| |done]. by split. }
  assert (0 <= foldr Z.add 0 ((fun x => length_ (i_key x) + length_ (i_value x)) <$> l)) as Hpos.
  { apply list_sum_nonneg, Forall_fmap. eapply Forall_impl; [exact Hl|].
    intros y ([? _]&[? _]&_). cbn. lia. }
  unfold getLeafPageElement, Page_ptr, PAGEHEADERSIZE, LEAFELEMSIZE in *.
  subst ce. cbn [length fmap list_fmap foldr] in *. rewrite write_inodes_cons.
  destruct (write_elem_ok base stk m p leaf i content x Hx) as (m1&H1&[Hl1 Hf1]&He1);
    unfold getLeafPageElement, Page_ptr, PAGEHEADERSIZE, LEAFELEMSIZE in *; [lia|lia|lia|].
  destruct (stores m (elem_fields base stk p leaf i content x)) as [ma|]; [|done].
  cbn [mbind res_bind] in H1 |- *.
  destruct (copy_item ma content (i_key x)) as [mb|]; [|done].
  cbn [mbind res_bind] in H1 |- *. rewrite H1. cbn [mbind res_bind].
  pose proof Hx as ([? _]&[? _]&_).
  destruct (IH m1 (i + 1) (content + length_ (i_key x) + length_ (i_value x)))
    as (m2&->&[Hl2 Hf2]&He2); [lia|lia|lia|].
  exists m2. split_and!; [done| |].
  - split; [congruence|]. intros o n Ho. rewrite Hf2, Hf1 by lia. done.
  - split; [|done]. eapply elem_written_frame; [done|exact Hl2| |exact He1].
    unfold getLeafPageElement, Page_ptr, PAGEHEADERSIZE, LEAFELEMSIZE. intros o n Ho. apply Hf2. lia.
Qed.

Lemma content_sum l :
  foldr Z.add 0 (inode_bytes <$> l) =
  16 * Z.of_nat (length l) + foldr Z.add 0 ((fun x => length_ (i_key x) + length_ (i_value x)) <$> l).
Proof. unfold inode_bytes. induction l as [|x l IH]; [done|]. cbn [length fmap list_fmap foldr] in *. lia. Qed.

(** [write] on a page with room: the header and every element. *)
Lemma write_ok base stk n m p fl :
  Forall inode_wf (inodeList_ n) -> Z.of_nat (length (inodeList_ n)) <= 65535 ->
  0 <= p -> p + page_bytes (inodeList_ n) <= Z.of_nat (length m) -> Page_flag m p = Ok fl ->
  let pf := if isLeaf_ n then leafPageFlag else branchPageFlag in
  exists m', write base stk n m p = Ok m' /\ length m' = length m /\
    (forall o k, o + k <= p + 8 \/ (p + 12 <= o /\ o + k <= p + 16) \/ p + page_bytes (inodeList_ n) <= o ->
       slice m' o k = slice m o k) /\
    Page_flag m' p = Ok (wrap16 (Z.lor fl pf)) /\
    Page_count m' p = Ok (Z.of_nat (length (inodeList_ n))) /\
    elems_written base stk m' p (isLeaf_ n) 0
      (Page_ptr p + 16 * Z.of_nat (length (inodeList_ n))) (inodeList_ n).
Proof.
  intros Hw Hlen Hp Hroom Hfl pf. unfold write. rewrite Hfl. cbn [mbind res_bind]. fold pf.
  pose proof (inode_bytes_sum_nonneg _ Hw). unfold page_bytes in *.
  unfold Page_set_flag, Page_set_count, Page_flag, Page_count in *.
  destruct (store_succeeds 2 m (p + 8) (Z.lor fl pf)) as [m1 H1]; [lia|lia|]. rewrite H1. cbn [mbind res_bind].
  destruct (Z.ltb_spec 65535 (Z.of_nat (length (inodeList_ n)))) as [?|_]; [lia|].
  pose proof (store_length _ _ _ _ _ H1) as Hl1.
  destruct (store_succeeds 2 m1 (p + 10) (Z.of_nat (length (inodeList_ n)))) as [m2 H2]; [lia|lia|].
  rewrite H2. cbn [mbind res_bind]. pose proof (store_length _ _ _ _ _ H2) as Hl2.
  assert (forall o k, o + k <= p + 8 \/ p + 12 <= o -> slice m2 o k = slice m o k) as Hf2.
  { intros o k Ho. eapply same_outside_slice; [transitivity m1|exact Ho];
      [eapply store_same_outside; [exact H1|lia|lia]|eapply store_same_outside; [exact H2|lia|lia]]. }
  assert (load 2 m2 (p + 8) = Ok (wrap16 (Z.lor fl pf))) as Hflag.
  { rewrite (load_store_other 2 2 _ _ _ _ _ H2) by lia. by erewrite load_store_same. }
  assert (load 2 m2 (p + 10) = Ok (Z.of_nat (length (inodeList_ n)))) as Hcnt.
  { erewrite load_store_same by exact H2. f_equal. apply Z.mod_small. width_lia. }
  destruct (inodeList_ n) as [|x l] eqn:El.
  { exists m2. split_and!; [done|congruence| |done|done|done]. intros o k Ho. apply Hf2. lia. }
  rewrite <-El in *. rewrite content_sum in Hroom, H.
  destruct (write_inodes_ok base stk p (isLeaf_ n) (inodeList_ n) m2 0
    (Page_ptr p + 16 * Z.of_nat (length (inodeList_ n)))) as (m3&H3&[Hl3 Hf3]&He3);
    unfold getLeafPageElement, Page_ptr, PAGEHEADERSIZE, LEAFELEMSIZE in *; try done; try lia.
  exists m3. split_and!; [|congruence| | | |done].
  - rewrite <-H3. f_equal. unfold pageElementSize, LEAFELEMSIZE, BRANCHELEMSIZE. destruct (isLeaf_ n); lia.
  - intros o k Ho. rewrite content_sum in Ho. rewrite Hf3, Hf2 by lia. done.
  - rewrite <-Hflag. apply load_frame, Hf3. lia.
  - rewrite <-Hcnt. apply load_frame, Hf3. lia.
Qed.

(** Reading the elements of a leaf back. *)
Lemma read_inodes_leaf base stk m p l its i content :
  Forall inode_wf l -> length its = length l -> 0 <= p -> 0 <= i ->
  getLeafPageElement p (i + Z.of_nat (length l)) <= content ->
  content + foldr Z.add 0 ((fun x => length_ (i_key x) + length_ (i_value x)) <$> l)
    - getLeafPageElement p i < 2 ^ 32 ->
  elems_written base stk m p true i content l ->
  read_inodes m p i true its =
    Ok (zip_with (fun it x => mkInode (i_flag x) (i_pageId it) (i_key x) (i_value x)) its l).
Proof.
  intros Hw Hits Hp. revert its Hits i content.
  induction Hw as [|x l Hx Hl IH]; intros [|it its] Hits i content Hi Hc Hb He; try done.
  destruct He as [((Hpos&Hfl&Hks&Hvs)&Hk&Hv) He].
  assert (0 <= foldr Z.add 0 ((fun x => length_ (i_key x) + length_ (i_value x)) <$> l)) as Hnn.
  { apply list_sum_nonneg, Forall_fmap. eapply Forall_impl; [exact Hl|].
    intros y ([? _]&[? _]&_). cbn. lia. }
  pose proof Hx as ([? _]&[? _]&_).
  cbn [length fmap list_fmap foldr] in *. cbn [read_inodes read_inode].
  unfold leaf_flag, leaf_key, leaf_value, leaf_pos, leaf_ksize, leaf_vsize, leaf_read, Item_of_buf.
  unfold pos_written in Hpos.
  assert (getLeafPageElement p (i + 1) = getLeafPageElement p i + 16) as He1
    by (unfold getLeafPageElement, LEAFELEMSIZE; lia).
  assert (getLeafPageElement p i + 16 * (1 + Z.of_nat (length l)) <= content) as Hc'
    by (unfold getLeafPageElement, LEAFELEMSIZE in *; lia).
  set (e := getLeafPageElement p i) in *.
  rewrite wrap_id in Hpos by lia.
  rewrite Hfl, Hpos, Hks, Hvs. cbn [mbind res_bind].
  rewrite wrap_id by lia.
  replace (e + (content - e)) with content by lia.
  replace (e + (content - e + length_ (i_key x))) with (content + length_ (i_key x)) by lia.
  rewrite Hk, Hv. cbn [mbind res_bind].
  rewrite (IH its ltac:(by injection Hits) (i + 1) (content + length_ (i_key x) + length_ (i_value x))).
  - cbn. by destruct (i_key x), (i_value x).
  - lia.
  - unfold getLeafPageElement, LEAFELEMSIZE in *. lia.
  - rewrite He1. lia.
  - exact He.
Qed.

(** ** Properties: the page codec *)

(** C26. A leaf written by [Node::write] with room for it in the page comes
    back from [Node::read] with the same inodes, in order, with flags, keys and
    values (leaf inodes carry no page id), as a leaf, under the page's own id
    and with its first key as [key_]; the write changes no byte of the id, of
    the overflow, or outside the page, whatever the flag field held before. *)
Theorem leaf_write_read_roundtrip base stk n m p fl id b parent :
  isLeaf_ n = true -> Forall inode_wf (inodeList_ n) ->
  Forall (fun x => i_pageId x = 0 /\ 0 < length_ (i_key x)) (inodeList_ n) ->
  Z.of_nat (length (inodeList_ n)) <= 65535 -> page_bytes (inodeList_ n) < 2 ^ 32 ->
  0 <= p -> p + page_bytes (inodeList_ n) <= Z.of_nat (length m) ->
  Page_flag m p = Ok fl -> Page_id m p = Ok id ->
  exists m', write base stk n m p = Ok m' /\
    read (Node_new b parent) m' p =
      Ok (mkNode b true false false (default Item_empty (i_key <$> head (inodeList_ n))) id parent []
            (inodeList_ n)) /\
    (forall o k, o + k <= p + 8 \/ (p + 12 <= o /\ o + k <= p + 16) \/ p + page_bytes (inodeList_ n) <= o ->
       slice m' o k = slice m o k).
Proof.
  intros Hleaf Hw Hz Hlen Hb Hp Hroom Hfl Hid.
  destruct (write_ok base stk n m p fl Hw Hlen Hp Hroom Hfl) as (m'&Hm'&Hl'&Hf&Hflag&Hcnt&He).
  exists m'. split_and!; [done| |done]. unfold read.
  assert (Page_id m' p = Ok id) as ->.
  { rewrite <-Hid. apply load_frame, Hf. lia. }
  rewrite Hflag, Hcnt, Hleaf in *. cbn [mbind res_bind].
  assert (has_flag (wrap16 (Z.lor fl leafPageFlag)) leafPageFlag = true) as ->.
  { unfold has_flag, wrap, leafPageFlag. rewrite <-Z.land_ones by lia.
    apply negb_true_iff, Z.eqb_neq. intros Hc.
    assert (Z.testbit (Z.land (Z.land (Z.lor fl 2) (Z.ones 16)) 2) 1 = true) as Ht.
    { rewrite !Z.land_spec, Z.lor_spec, orb_true_r. done. }
    by rewrite Hc in Ht. }
  unfold resize. cbn [inodeList_ Node_new]. rewrite take_nil, Nat2Z.id, Nat.sub_0_r. cbn [app].
  erewrite (read_inodes_leaf base stk m' p (inodeList_ n) (replicate _ _) 0
             (Page_ptr p + 16 * Z.of_nat (length (inodeList_ n))));
    [|done|by rewrite length_replicate|done|lia
     |unfold getLeafPageElement, LEAFELEMSIZE; lia
     |unfold page_bytes in Hb; rewrite content_sum in Hb; unfold getLeafPageElement; lia
     |exact He].
  assert (forall l, Forall (fun x => i_pageId x = 0 /\ 0 < length_ (i_key x)) l ->
    zip_with (fun it x => mkInode (i_flag x) (i_pageId it) (i_key x) (i_value x))
      (replicate (length l) Inode_new) l = l) as ->; [| |done].
  { induction 1 as [|x l [Hx _] Hl IH]; [done|]. cbn. rewrite IH. f_equal. destruct x; cbn in *. by subst. }
  cbn [mbind res_bind]. destruct (inodeList_ n) as [|x l] eqn:El; [done|].
  apply Forall_cons in Hz as [[_ Hx] _]. unfold Item_is_empty.
  rewrite (proj2 (Z.eqb_neq _ _)) by lia. done.
Qed.

(** Where [write] puts the key of inode [i]: after the elements and the keys and
    values of the inodes before it. *)
Definition content_size (l : InodeList) : Z :=
  foldr Z.add 0 ((fun x => length_ (i_key x) + length_ (i_value x)) <$> l).
Definition key_offset (p : Z) (l : InodeList) (i : nat) : Z :=
  Page_ptr p + 16 * Z.of_nat (length l) + content_size (take i l).

Lemma elems_written_lookup base stk m p leaf l : forall i content k x,
  elems_written base stk m p leaf i content l -> l !! k = Some x ->
  elem_written base stk m p leaf (i + Z.of_nat k) (content + content_size (take k l)) x.
Proof.
  induction l as [|y l IH]; intros i content k x He Hk; [done|]. destruct He as [Hy Hl].
  destruct k as [|k]; cbn in Hk.
  - injection Hk as <-. replace (i + Z.of_nat 0) with i by lia.
    replace (content + content_size (take 0 (y :: l))) with content by (cbn; lia). exact Hy.
  - specialize (IH _ _ k x Hl Hk). cbn. unfold content_size in *.
    replace (i + Z.of_nat (S k)) with (i + 1 + Z.of_nat k) by lia.
    replace (content + _) with (content + length_ (i_key y) + length_ (i_value y) +
      foldr Z.add 0 ((fun x => length_ (i_key x) + length_ (i_value x)) <$> take k l)); [exact IH|].
    cbn [fmap list_fmap foldr]. lia.
Qed.

(** C35. In a branch page [Node::write] stores as an element's [pos] the
    distance from the local variable [item] to the key, not from the element.
    Everything else of the page is right: each key is where it belongs, with
    its size and page id in its element.  But the position is
    [base + offset - stk] cut to 32 bits, where [base] is the address of the
    page's memory and [stk] that of the variable; so at most one element of
    the page has its key's position, and [key()] of each other element reads
    the bytes at some other place, inside or outside the page. *)
Theorem branch_write_pos_wrong base stk n m p fl :
  isLeaf_ n = false -> Forall inode_wf (inodeList_ n) ->
  Z.of_nat (length (inodeList_ n)) <= 65535 ->
  0 <= p -> p + page_bytes (inodeList_ n) <= Z.of_nat (length m) -> Page_flag m p = Ok fl ->
  let elem i := getBranchPageElement p (Z.of_nat i) in
  let key_at i := key_offset p (inodeList_ n) i in
  exists m', write base stk n m p = Ok m' /\
    (forall i x, inodeList_ n !! i = Some x ->
       slice m' (key_at i) (length_ (i_key x)) = Ok (data_ (i_key x)) /\
       branch_pageId m' (elem i) = Ok (i_pageId x) /\
       branch_ksize m' (elem i) = Ok (length_ (i_key x)) /\
       branch_pos m' (elem i) = Ok (wrap32 (base + key_at i - stk)) /\
       branch_key m' (elem i) =
         Item_of_buf m' (elem i + wrap32 (base + key_at i - stk)) (length_ (i_key x))) /\
    (forall i j, (i < j < length (inodeList_ n))%nat ->
       ~ (branch_pos m' (elem i) = Ok (key_at i - elem i) /\
          branch_pos m' (elem j) = Ok (key_at j - elem j))).
Proof.
  intros Hleaf Hw Hlen Hp Hroom Hfl elem key_at.
  destruct (write_ok base stk n m p fl Hw Hlen Hp Hroom Hfl) as (m'&Hm'&_&_&_&_&He).
  rewrite Hleaf in He. exists m'. split; [done|].
  assert (forall i x, inodeList_ n !! i = Some x ->
    elem_written base stk m' p false (Z.of_nat i) (key_at i) x) as Helem.
  { intros i x Hx. by apply (elems_written_lookup _ _ _ _ _ _ _ _ _ _ He Hx). }
  assert (forall i x, inodeList_ n !! i = Some x ->
    branch_pos m' (elem i) = Ok (wrap32 (base + key_at i - stk))) as Hpos.
  { intros i x Hx. by destruct (Helem i x Hx) as ((Hpos&_)&_). }
  split.
  - intros i x Hx. destruct (Helem i x Hx) as ((_&Hks&Hid)&Hk&_).
    specialize (Hpos i x Hx). change (getLeafPageElement p (Z.of_nat i)) with (elem i) in *.
    split_and!; try done. unfold branch_key, branch_ksize. rewrite Hpos. cbn [mbind res_bind]. by rewrite Hks.
  - intros i j Hij [Hi Hj].
    destruct (lookup_lt_is_Some_2 (inodeList_ n) i ltac:(lia)) as [x Hx].
    destruct (lookup_lt_is_Some_2 (inodeList_ n) j ltac:(lia)) as [y Hy].
    rewrite (Hpos i x Hx) in Hi. rewrite (Hpos j y Hy) in Hj. injection Hi as Hi. injection Hj as Hj.
    assert (elem j = elem i + 16 * Z.of_nat (j - i)) as Hd
      by (unfold elem, getBranchPageElement, BRANCHELEMSIZE; lia).
    unfold wrap in *. pose proof (Z.div_mod (base + key_at i - stk) (2 ^ 32) ltac:(lia)).
    pose proof (Z.div_mod (base + key_at j - stk) (2 ^ 32) ltac:(lia)). lia.
Qed.

(** ** Witnesses *)

(** A leaf with the keys 1, 3, ..., each of two bytes. *)
Definition ex_inode (b : byte) : Inode :=
  mkInode 0 0 (Item_of_string [b; Byte.x61]) (Item_of_string [Byte.x62]).
Definition ex_leaf (bs : list byte) : Node :=
  markLeaf (set_inodeList (ex_inode <$> bs) (Node_new 0%nat None)).
Definition ex_keys : list byte := [Byte.x01; Byte.x03; Byte.x05; Byte.x07; Byte.x09; Byte.x0b].
Definition ex_page : list byte := replicate 160 Byte.x00.

Ltac ex_sorted := unfold keys_sorted; repeat constructor.
Ltac ex_wf := repeat constructor; vm_compute; by intros.

Lemma node_search_rank_witness :
  search (ex_leaf ex_keys) (Item_of_string [Byte.x05; Byte.x61]) = Ok (2, true).
Proof. apply (node_search_rank (ex_leaf ex_keys)); [by ex_sorted|done]. Defined.

Lemma node_put_map_witness :
  exists l, put 10 (ex_leaf ex_keys) (Item_of_string [Byte.x04]) (Item_of_string [Byte.x04])
              (Item_of_string [Byte.x63]) 0 0 = Ok (true, set_inodeList l (ex_leaf ex_keys)) /\
    keys_sorted l /\
    inode_map l = <[[Byte.x04] := mkInode 0 0 (Item_of_string [Byte.x04]) (Item_of_string [Byte.x63])]>
                    (delete [Byte.x04] (inode_map (ex_inode <$> ex_keys))).
Proof.
  apply (node_put_map 10 (ex_leaf ex_keys) (Item_of_string [Byte.x04]) (Item_of_string [Byte.x04]) (Item_of_string [Byte.x63]) 0 0).
  1: by ex_sorted. 1-4: done. by intros k _ _.
Defined.

Lemma node_del_map_witness :
  exists n', del (ex_leaf ex_keys) (Item_of_string [Byte.x05; Byte.x61]) = Ok (true, n') /\
    keys_sorted (inodeList_ n') /\
    inode_map (inodeList_ n') = delete [Byte.x05; Byte.x61] (inode_map (ex_inode <$> ex_keys)) /\
    unbalanced_ n' = bool_decide ([Byte.x05; Byte.x61] ∈ ikeys (ex_inode <$> ex_keys)) || false /\
    set_unbalanced false (set_inodeList (ex_inode <$> ex_keys) n') = ex_leaf ex_keys.
Proof.
  apply (node_del_map (ex_leaf ex_keys) (Item_of_string [Byte.x05; Byte.x61])); [by ex_sorted|done].
Defined.

Lemma isinlineable_spec_witness :
  isinlineable (ex_leaf ex_keys) 1024 = true <->
    Forall (fun x => has_flag (i_flag x) bucketLeafFlag = false) (ex_inode <$> ex_keys) /\
    (ex_inode <$> ex_keys = [] \/ page_bytes (ex_inode <$> ex_keys) <= 1024).
Proof. apply (isinlineable_spec (ex_leaf ex_keys)); [ex_wf|done]. Defined.

Lemma leaf_write_read_roundtrip_witness :
  exists m', write 4096 8192 (ex_leaf ex_keys) ex_page 0 = Ok m' /\
    read (Node_new 0%nat None) m' 0 = Ok (set_key (i_key (ex_inode Byte.x01)) (ex_leaf ex_keys)) /\
    (forall o k, o + k <= 0 + 8 \/ (0 + 12 <= o /\ o + k <= 0 + 16) \/
        0 + page_bytes (ex_inode <$> ex_keys) <= o -> slice m' o k = slice ex_page o k).
Proof.
  apply (leaf_write_read_roundtrip 4096 8192 (ex_leaf ex_keys) ex_page 0 0 0 0%nat None);
    [done|ex_wf|ex_wf|done|done|done|done|reflexivity|reflexivity].
Defined.

Lemma branch_write_pos_wrong_witness :
  exists m', write 4096 8192 (set_isLeaf false (ex_leaf ex_keys)) ex_page 0 = Ok m' /\
    branch_pos m' (getBranchPageElement 0 1) = Ok (wrap32 (4096 + 115 - 8192)).
Proof.
  destruct (branch_write_pos_wrong 4096 8192 (set_isLeaf false (ex_leaf ex_keys)) ex_page 0 0) as (m'&Hm'&Hkeys&_);
    [done|ex_wf|done|done|done|reflexivity|].
  exists m'. split; [exact Hm'|].
  destruct (Hkeys 1%nat (ex_inode Byte.x03) eq_refl) as (_&_&_&Hpos&_). exact Hpos.
Defined.
