(* ===== verification/ObjPool.v ===== *)
(** * ObjPool.v: the object pool (src/src/Bolt/obj_pool.h)

    [ObjPool<T>] hands out the slots of one block of memory.  A pointer is an
    address; the stack [free_list_] is a list whose end is the top.  The
    construction and destruction of the objects is [T]'s business and not
    modelled; the calls inside [assert] run, as in a build without NDEBUG. *)
From S2P Require Import Prelude.

Record ObjPool := mkObjPool {
  free_list_ : list Z;
  mem_ptr_ : Z;
  obj_cnt_ : Z;  (* int *)
  obj_size_ : Z;  (* size_t *)
  real_size_ : Z;
  malloc_succeed_cnt_ : Z;
  malloc_failed_cnt_ : Z;
  free_cnt_ : Z;
  lowest_free_cnt_ : Z;  (* int32_t *)
  bitmap_ : list Z;  (* uint8_t *)
  account_malloc_cnt_ : list Z;
  account_free_cnt_ : list Z;
}.

(** [ObjPool(obj_cnt, obj_size, alignment)], the memory obtained at [mem] *)
Definition ObjPool_new (mem obj_cnt obj_size alignment : Z) : ObjPool :=
  {| free_list_ := (fun i => mem + i * obj_size) <$> seqZ 0 obj_cnt;
     mem_ptr_ := mem; obj_cnt_ := obj_cnt; obj_size_ := obj_size;
     real_size_ := wrap64 (wrap64 (wrap64 (wrap64 (obj_size * obj_cnt) - 1) / alignment + 1) * alignment);
     malloc_succeed_cnt_ := 0; malloc_failed_cnt_ := 0; free_cnt_ := 0;
     lowest_free_cnt_ := 2 ^ 31 - 1; bitmap_ := replicate (Z.to_nat obj_cnt) 0;
     account_malloc_cnt_ := replicate (Z.to_nat obj_cnt) 0;
     account_free_cnt_ := replicate (Z.to_nat obj_cnt) 0 |}.

(** [GetIndex(p)]: -1 when [p] is no slot *)
Definition GetIndex (o : ObjPool) (p : Z) : Z :=
  let offset := wrap64 (p - mem_ptr_ o) in
  if wrap64 (obj_size_ o * obj_cnt_ o) <=? offset then -1
  else if negb (offset mod obj_size_ o =? 0) then -1
  else offset / obj_size_ o.

(** [bitmap_[idx] = v], counting in [account] *)
Definition set_slot (idx v : Z) (l : list Z) : list Z := <[Z.to_nat idx := v]> l.
Definition incr_slot (idx : Z) (l : list Z) : list Z := alter (fun c => wrap64 (c + 1)) (Z.to_nat idx) l.

(** [MallocCheckAndSet(p)] *)
Definition MallocCheckAndSet (o : ObjPool) (p : Z) : bool * ObjPool :=
  let size := Z.of_nat (length (free_list_ o)) in
  let o := mkObjPool (free_list_ o) (mem_ptr_ o) (obj_cnt_ o) (obj_size_ o) (real_size_ o)
    (wrap64 (malloc_succeed_cnt_ o + 1)) (malloc_failed_cnt_ o) (free_cnt_ o)
    (if size <? lowest_free_cnt_ o then size else lowest_free_cnt_ o)
    (bitmap_ o) (account_malloc_cnt_ o) (account_free_cnt_ o) in
  let idx := GetIndex o p in
  if idx <? 0 then (false, o)
  else if negb (default 0 (bitmap_ o !! Z.to_nat idx) =? 0) then (false, o)
  else (true, mkObjPool (free_list_ o) (mem_ptr_ o) (obj_cnt_ o) (obj_size_ o) (real_size_ o)
    (malloc_succeed_cnt_ o) (malloc_failed_cnt_ o) (free_cnt_ o) (lowest_free_cnt_ o)
    (set_slot idx 1 (bitmap_ o)) (incr_slot idx (account_malloc_cnt_ o)) (account_free_cnt_ o)).

(** [FreeCheckAndSet(p)]; the [sleep(3)] before a failure is left out. *)
Definition FreeCheckAndSet (o : ObjPool) (p : Z) : bool * ObjPool :=
  let o := mkObjPool (free_list_ o) (mem_ptr_ o) (obj_cnt_ o) (obj_size_ o) (real_size_ o)
    (malloc_succeed_cnt_ o) (malloc_failed_cnt_ o) (wrap64 (free_cnt_ o + 1)) (lowest_free_cnt_ o)
    (bitmap_ o) (account_malloc_cnt_ o) (account_free_cnt_ o) in
  let idx := GetIndex o p in
  if idx <? 0 then (false, o)
  else if default 0 (bitmap_ o !! Z.to_nat idx) =? 0 then (false, o)
  else (true, mkObjPool (free_list_ o) (mem_ptr_ o) (obj_cnt_ o) (obj_size_ o) (real_size_ o)
    (malloc_succeed_cnt_ o) (malloc_failed_cnt_ o) (free_cnt_ o) (lowest_free_cnt_ o)
    (set_slot idx 0 (bitmap_ o)) (account_malloc_cnt_ o) (incr_slot idx (account_free_cnt_ o))).

Definition set_free_list (l : list Z) (o : ObjPool) : ObjPool :=
  mkObjPool l (mem_ptr_ o) (obj_cnt_ o) (obj_size_ o) (real_size_ o)
    (malloc_succeed_cnt_ o) (malloc_failed_cnt_ o) (free_cnt_ o) (lowest_free_cnt_ o)
    (bitmap_ o) (account_malloc_cnt_ o) (account_free_cnt_ o).
Definition count_failure (o : ObjPool) : ObjPool :=
  mkObjPool (free_list_ o) (mem_ptr_ o) (obj_cnt_ o) (obj_size_ o) (real_size_ o)
    (malloc_succeed_cnt_ o) (wrap64 (malloc_failed_cnt_ o + 1)) (free_cnt_ o) (lowest_free_cnt_ o)
    (bitmap_ o) (account_malloc_cnt_ o) (account_free_cnt_ o).

(** [Malloc(...)]: null when no slot is left *)
Definition Malloc (o : ObjPool) : res (option Z * ObjPool) :=
  match last (free_list_ o) with
  | None => Ok (None, count_failure o)
  | Some ele =>
      let o := set_free_list (removelast (free_list_ o)) o in
      let '(ok, o) := MallocCheckAndSet o ele in
      _ ← assert_ ok;
      Ok (Some ele, o)
  end.

(** [Free(p)] *)
Definition Free (o : ObjPool) (p : Z) : res ObjPool :=
  let '(ok, o) := FreeCheckAndSet o p in
  _ ← assert_ ok;
  Ok (set_free_list (free_list_ o ++ [p]) o).

(** ** The slots *)

(** The address of slot [i]. *)
Definition slot (o : ObjPool) (i : Z) : Z := mem_ptr_ o + i * obj_size_ o.

(** Slot [i] is handed out. *)
Definition taken (o : ObjPool) (i : Z) : Prop := 0 <= i /\ bitmap_ o !! Z.to_nat i = Some 1.

(** Every slot is either in the stack, once, or handed out. *)
Record pool_wf (o : ObjPool) : Prop := {
  pw_size : 1 <= obj_size_ o;
  pw_room : 0 <= mem_ptr_ o /\ mem_ptr_ o + obj_size_ o * obj_cnt_ o < 2 ^ 64 /\ 0 <= obj_cnt_ o < 2 ^ 31;
  pw_bitmap : Z.of_nat (length (bitmap_ o)) = obj_cnt_ o;
  pw_nodup : NoDup (free_list_ o);
  pw_free : forall p, p ∈ free_list_ o <-> exists i, 0 <= i /\ p = slot o i /\ bitmap_ o !! Z.to_nat i = Some 0;
  pw_bits : Forall (fun b => b = 0 \/ b = 1) (bitmap_ o);
}.

(** ** Lemmas *)

Section pool.
Context (o : ObjPool).
Hypothesis wf : pool_wf o.
#[local] Set Default Proof Using "All".

Lemma slot_inj i j : slot o i = slot o j -> i = j.
Proof. pose proof (pw_size o wf). unfold slot. nia. Qed.

Lemma GetIndex_slot i : 0 <= i < obj_cnt_ o -> GetIndex o (slot o i) = i.
Proof.
  intros Hi. pose proof (pw_size o wf). pose proof (pw_room o wf) as (Hm&Hr&Hc).
  unfold GetIndex, slot. replace (mem_ptr_ o + i * obj_size_ o - mem_ptr_ o) with (i * obj_size_ o) by lia.
  rewrite !wrap_id by nia. rewrite (proj2 (Z.leb_gt _ _)) by nia.
  rewrite Z.mod_mul, Z.div_mul by lia. done.
Qed.

(** An index that is not -1 is the slot's. *)
Lemma GetIndex_inv p i :
  0 <= p < 2 ^ 64 -> GetIndex o p = i -> 0 <= i -> p = slot o i /\ i < obj_cnt_ o.
Proof.
  intros Hp Hi Hi0. pose proof (pw_size o wf). pose proof (pw_room o wf) as (Hm&Hr&Hc).
  unfold GetIndex in Hi. destruct (Z.leb_spec (wrap64 (obj_size_ o * obj_cnt_ o)) (wrap64 (p - mem_ptr_ o))); [lia|].
  destruct (Z.eqb_spec (wrap64 (p - mem_ptr_ o) mod obj_size_ o) 0) as [Hmod|]; cbn [negb] in Hi; [|lia].
  rewrite (wrap_id 64 (obj_size_ o * obj_cnt_ o)) in * by nia.
  pose proof (Z.div_mod (wrap64 (p - mem_ptr_ o)) (obj_size_ o) ltac:(lia)) as Hdm.
  assert (wrap64 (p - mem_ptr_ o) = p - mem_ptr_ o) as Hw.
  { destruct (Z.le_gt_cases (mem_ptr_ o) p); [apply wrap_id; lia|].
    unfold wrap in *. rewrite <-(Z.mod_add _ 1), (Z.mod_small (p - mem_ptr_ o + 1 * 2 ^ 64)) in * by lia. lia. }
  rewrite Hw in *. unfold slot. subst i. rewrite Hmod in Hdm. split; nia.
Qed.

Lemma bit_lookup i : 0 <= i < obj_cnt_ o -> bitmap_ o !! Z.to_nat i = Some 0 \/ bitmap_ o !! Z.to_nat i = Some 1.
Proof.
  intros Hi. pose proof (pw_bitmap o wf).
  destruct (lookup_lt_is_Some_2 (bitmap_ o) (Z.to_nat i)) as [b Hb]; [lia|]. rewrite Hb.
  pose proof (pw_bits o wf) as Hall. rewrite Forall_lookup in Hall. destruct (Hall _ _ Hb) as [-> | ->]; auto.
Qed.

Lemma taken_lt i : taken o i -> 0 <= i < obj_cnt_ o.
Proof. intros [? Hi]. apply lookup_lt_Some in Hi. pose proof (pw_bitmap o wf). lia. Qed.

(** [o] with the stack and the bitmap of a slot changed. *)
Lemma pool_update o' i l b :
  0 <= i < obj_cnt_ o -> (b = 0 \/ b = 1) ->
  mem_ptr_ o' = mem_ptr_ o -> obj_cnt_ o' = obj_cnt_ o -> obj_size_ o' = obj_size_ o ->
  free_list_ o' = l -> bitmap_ o' = <[Z.to_nat i := b]> (bitmap_ o) -> NoDup l ->
  (forall p, p ∈ l <-> (p = slot o i /\ b = 0) \/ (p ∈ free_list_ o /\ p <> slot o i)) ->
  pool_wf o' /\ (taken o' i <-> b = 1) /\ forall j, j <> i -> (taken o' j <-> taken o j).
Proof.
  intros Hi Hb Hm Hc Hs Hl Hbm Hnd Hin.
  assert (forall j, 0 <= j -> j <> i -> bitmap_ o' !! Z.to_nat j = bitmap_ o !! Z.to_nat j) as Hne.
  { intros j Hj Hji. rewrite Hbm, list_lookup_insert_ne; [done|lia]. }
  assert (bitmap_ o' !! Z.to_nat i = Some b) as Heq.
  { rewrite Hbm, list_lookup_insert_eq; [done|]. pose proof (pw_bitmap o wf). lia. }
  split; [split|split].
  - rewrite Hs. apply wf.
  - rewrite Hs, Hm, Hc. apply wf.
  - rewrite Hbm, length_insert, Hc. apply wf.
  - by rewrite Hl.
  - intros p. rewrite Hl, Hin, (pw_free o wf). unfold slot. rewrite Hm, Hs. fold (slot o i). split.
    + intros [[-> ->]|[(j&Hj&->&Hbit) Hp]]; [exists i; split_and!; (done || lia)|]. exists j. split_and!; [done..|].
      rewrite Hne; [done|done|]. by intros ->.
    + intros (j&Hj&->&Hbit). destruct (decide (j = i)) as [->|Hji].
      * left. rewrite Heq in Hbit. by injection Hbit as ->.
      * right. rewrite Hne in Hbit by done. split; [by exists j|]. by intros ?%slot_inj.
  - rewrite Hbm. apply Forall_insert; [apply wf|]. done.
  - unfold taken. rewrite Heq. split; [intros [_ [= ->]]; done|intros ->; split; [lia|done]].
  - intros j Hji. unfold taken. split; intros [Hj Hbit]; (split; [done|]); [rewrite Hne in Hbit|rewrite Hne]; done.
Qed.
End pool.

Lemma last_removelast {A} (l : list A) x : last l = Some x -> l = removelast l ++ [x].
Proof.
  destruct l as [|a l] using rev_ind; [done|]. rewrite last_snoc, removelast_last. by intros [= ->].
Qed.

Section operations.
Context (o : ObjPool).
Hypothesis wf : pool_wf o.
#[local] Set Default Proof Using "All".

Lemma Malloc_ok : free_list_ o <> [] ->
  exists i o', Malloc o = Ok (Some (slot o i), o') /\ 0 <= i < obj_cnt_ o /\ ~ taken o i /\
    pool_wf o' /\ taken o' i /\ forall j, j <> i -> (taken o' j <-> taken o j).
Proof.
  intros Hne. destruct (last (free_list_ o)) as [p|] eqn:Hlast; [|by apply last_None in Hlast].
  pose proof (last_removelast _ _ Hlast) as Hl. set (l := removelast (free_list_ o)) in *.
  assert (p ∈ free_list_ o) as (i&Hi0&->&Hbit)%(pw_free o wf) by (rewrite Hl; set_solver).
  assert (0 <= i < obj_cnt_ o) as Hi.
  { apply lookup_lt_Some in Hbit as Hlt. pose proof (pw_bitmap o wf). lia. }
  pose proof (pw_nodup o wf) as Hnd. rewrite Hl in Hnd. apply NoDup_app in Hnd as (Hnd&Hdis&_).
  unfold Malloc. rewrite Hlast. fold l. cbv zeta. unfold MallocCheckAndSet. cbv zeta.
  match goal with |- context [GetIndex ?x _] => change (GetIndex x (slot o i)) with (GetIndex o (slot o i)) end.
  rewrite (GetIndex_slot o wf i Hi). rewrite (proj2 (Z.ltb_ge _ _)) by lia.
  cbn [bitmap_ set_free_list]. rewrite Hbit. cbn [default Z.eqb negb assert_ mbind res_bind].
  eexists i, _. split; [reflexivity|]. split; [done|].
  split; [intros [_ Hb]; by rewrite Hbit in Hb|].
  edestruct (pool_update o wf) as (Hwf'&Ht&Hrest); [exact Hi|right; reflexivity|..]; cycle -1.
  { split; [exact Hwf'|]. split; [by apply Ht|exact Hrest]. }
  1-5: reflexivity.
  - exact Hnd.
  - intros p. rewrite Hl, elem_of_app, list_elem_of_singleton. split.
    + intros Hp. right. split; [by left|]. intros ->. apply (Hdis _ Hp). by left.
    + intros [[_ ?]|[[?| ->] ?]]; done.
Qed.

Lemma Free_ok i : taken o i ->
  exists o', Free o (slot o i) = Ok o' /\ pool_wf o' /\ ~ taken o' i /\
    forall j, j <> i -> (taken o' j <-> taken o j).
Proof.
  intros Ht. pose proof (taken_lt o wf i Ht) as Hi. destruct Ht as [_ Hbit].
  unfold Free, FreeCheckAndSet. cbv zeta.
  match goal with |- context [GetIndex ?x _] => change (GetIndex x (slot o i)) with (GetIndex o (slot o i)) end.
  rewrite (GetIndex_slot o wf i Hi). rewrite (proj2 (Z.ltb_ge _ _)) by lia.
  cbn [bitmap_]. rewrite Hbit. cbn [default Z.eqb assert_ mbind res_bind].
  assert (slot o i ∉ free_list_ o) as Hnot.
  { intros (j&Hj&Heq&Hb)%(pw_free o wf). apply (slot_inj o wf) in Heq as <-. by rewrite Hbit in Hb. }
  eexists. split; [reflexivity|].
  edestruct (pool_update o wf) as (Hwf'&Ht&Hrest); [exact Hi|left; reflexivity|..]; cycle -1.
  { split; [exact Hwf'|]. split; [by rewrite Ht|exact Hrest]. }
  1-5: reflexivity.
  - apply NoDup_app. split_and!; [apply wf| |apply NoDup_singleton].
    intros p Hp ->%list_elem_of_singleton. done.
  - intros p. cbn [free_list_ set_free_list]. rewrite elem_of_app, list_elem_of_singleton. split.
    + intros [Hp| ->]; [right|by left]. split; [done|]. by intros ->.
    + intros [[-> _]|[? _]]; [by right|by left].
Qed.

Lemma Free_asserts p : 0 <= p < 2 ^ 64 -> (forall i, taken o i -> p <> slot o i) -> Free o p = Err AssertFailed.
Proof.
  intros Hp Hno. unfold Free, FreeCheckAndSet. cbv zeta.
  match goal with |- context [GetIndex ?x _] => change (GetIndex x p) with (GetIndex o p) end.
  destruct (Z.ltb_spec (GetIndex o p) 0) as [Hneg|Hi]; [done|].
  destruct (GetIndex_inv o wf p _ Hp eq_refl Hi) as [Heq Hlt]. cbn [bitmap_].
  destruct (bit_lookup o wf (GetIndex o p)) as [Hb|Hb]; [lia|by rewrite Hb|].
  exfalso. by apply (Hno (GetIndex o p)).
Qed.
End operations.

Lemma ObjPool_new_wf mem cnt size al :
  1 <= size -> 0 <= mem -> mem + size * cnt < 2 ^ 64 -> 0 <= cnt < 2 ^ 31 ->
  pool_wf (ObjPool_new mem cnt size al) /\ forall i, ~ taken (ObjPool_new mem cnt size al) i.
Proof.
  intros Hs Hm Hr Hc. split; [split; cbn; try done|].
  - by rewrite length_replicate, Z2Nat.id by lia.
  - apply NoDup_fmap_2_strong; [|apply NoDup_seqZ]. intros i j _ _ Hij. nia.
  - intros p. rewrite list_elem_of_fmap. unfold slot. cbn. setoid_rewrite elem_of_seqZ. split.
    + intros (i&->&Hi). exists i. split_and!; [lia|done|]. apply lookup_replicate. split; [done|lia].
    + intros (i&Hi&->&[_ Hl]%lookup_replicate). exists i. split; [done|lia].
  - apply Forall_replicate. by left.
  - intros i [_ [Hb _]%lookup_replicate]. done.
Qed.

(** ** Properties *)

(** C40. The pool keeps its slots apart: a well-formed pool (a new one is) that
    has a slot left hands out one that is not in use, and otherwise returns
    null and counts the failure; giving a slot in use back makes it available
    again; giving back anything else, a slot twice or a pointer that is no
    slot, stops the process; no other slot changes hands. *)
Theorem ObjPool_safe o :
  pool_wf o ->
  (free_list_ o = [] -> Malloc o = Ok (None, count_failure o)) /\
  (free_list_ o <> [] -> exists i o', Malloc o = Ok (Some (slot o i), o') /\ 0 <= i < obj_cnt_ o /\
     ~ taken o i /\ pool_wf o' /\ taken o' i /\ forall j, j <> i -> (taken o' j <-> taken o j)) /\
  (forall i, taken o i -> exists o', Free o (slot o i) = Ok o' /\ pool_wf o' /\ ~ taken o' i /\
     forall j, j <> i -> (taken o' j <-> taken o j)) /\
  (forall p, 0 <= p < 2 ^ 64 -> (forall i, taken o i -> p <> slot o i) -> Free o p = Err AssertFailed).
Proof.
  intros wf. split_and!; [|by apply Malloc_ok|by apply Free_ok|by apply Free_asserts].
  intros Hnil. unfold Malloc. by rewrite Hnil.
Qed.

Lemma ObjPool_safe_witness :
  exists i o', Malloc (ObjPool_new 4096 3 24 8) = Ok (Some (4096 + i * 24), o') /\ pool_wf o'.
Proof.
  destruct (ObjPool_safe (ObjPool_new 4096 3 24 8)) as (_&Hm&_).
  - apply ObjPool_new_wf; lia.
  - destruct Hm as (i&o'&Hrun&_&_&Hwf&_); [done|]. exists i, o'. split; [exact Hrun|exact Hwf].
Defined.
