(* ===== verification/World.v ===== *)
(** * World.v: the state of the program, and the monad its code runs in

    The objects the source allocates and links with pointers are kept in
    stores: nodes ([std::shared_ptr<Node>]), buckets and transactions by key,
    memory blocks obtained with [new char[]] by block number.  The database
    file is a byte list; the read-only mapping shows the file itself
    ([MAP_SHARED]), and a pointer into it carries the generation of the
    mapping it was taken from, so that its use after a remap faults.

    What the source does not determine is a parameter, the class [Env]: the
    contents of fresh memory, addresses, the order a walk over an
    [std::unordered_map] takes, and the outcome of system calls. *)
From Stdlib Require Export QArith Qround.
From S2P Require Import Bytes.
From S2P Require Import Page.
From S2P Require Import FreeList.
From S2P Require Import Meta.
From S2P Require Import Node.
Open Scope Z_scope.

Definition txptr : Type := nat.

(** ** Pointers to pages *)

(** A [Page *]: at an offset of the mapping of generation [gen], at an offset
    of a block, or into storage that was released. *)
Variant PagePtr :=
  | PMap (gen : nat) (off : Z)
  | PHeap (blk : nat) (off : Z)
  | PDead.

#[export] Instance PagePtr_eq_dec : EqDecision PagePtr.
Proof. solve_decision. Defined.

(** [p + n] in bytes *)
Definition ptr_add (p : PagePtr) (n : Z) : PagePtr :=
  match p with
  | PMap g o => PMap g (o + n)
  | PHeap b o => PHeap b (o + n)
  | PDead => PDead
  end.

(** ** The environment *)

Class Env := {
  (** byte [i] of block [blk] when it is allocated *)
  env_garbage : nat -> nat -> byte;
  (** the address of a page, of a node, and of the variable [item] while
      [Node::write] runs on a node *)
  env_page_addr : PagePtr -> Z;
  env_node_addr : nptr -> Z;
  env_item_addr : nptr -> Z;
  (** the order of an [unordered_map]'s elements *)
  env_order_pgid : list Z -> list Z;
  env_order_name : list (list byte) -> list (list byte);
  (** whether system call [k] succeeds, and how many of [len] bytes a
      [pwrite] that succeeds writes *)
  env_syscall : nat -> bool;
  env_pwrite : nat -> Z -> Z;
  (** [getpagesize()] *)
  env_getpagesize : Z;
  (** the value of a [uint32_t flag;] that is not initialised *)
  env_uninit_flag : Z;
  (** the bound on the depth of recursions and the length of loops *)
  env_fuel : nat;
}.

(** ** System calls *)

(** What a system call that succeeded did: write to the file, resize it, wait
    until it is on the disk, or nothing to it.  A call that failed counts as
    the last. *)
Variant call :=
  | Pwrite (off : Z) (bs : list byte)
  | Ftruncate (sz : Z)
  | Fsync
  | OtherCall.

(** ** The objects *)

(** [class Bucket] (bucket.h) *)
Record Bucket := mkBucket {
  bucketHeader_ : bucketHeader;
  tx_ : txptr;
  buckets_ : gmap (list byte) bptr;  (* sub-buckets opened in this transaction *)
  page_ : option PagePtr;  (* the inline page *)
  rootNode_ : option nptr;
  nodes_ : gmap Z nptr;  (* nodes by page id *)
  fillPercent_ : Q;
  Bucket_parentNode_ : option nptr;  (* never assigned *)
}.

(** [class Tx] (tx.h); [stats_] without the counters no code reads or writes. *)
Record Tx := mkTx {
  writable_ : bool;
  managed_ : bool;
  db_ : bool;  (* whether the pointer is set *)
  metaData_ : option meta;
  rootBucket_ : bptr;
  dirtyPageTable_ : gmap Z PagePtr;
  pageCount : Z;  (* stats_ *)
  pageAlloc : Z;
  cursorCount : Z;
}.

(** [class DB] (db.h): the fields the code uses.  [data_] and [dataref_] are
    [w_map]. *)
Record DB := mkDB {
  file_ : Z;  (* descriptor *)
  opened_ : bool;
  NoSync_ : bool;
  NoGrowSync_ : bool;
  readOnly_ : bool;
  AllocSize_ : Z;  (* int *)
  datasz_ : Z;  (* int *)
  filesz_ : Z;  (* uint32_t *)
  DB_pageSize_ : Z;  (* pageSize_ *)
  meta0_ : option PagePtr;
  meta1_ : option PagePtr;
  rwtx_ : option txptr;
  txs_ : list txptr;
  freeList_ : FreeList.freeList;
  rwLock_ : bool;  (* held *)
  mmapReaders_ : nat;  (* mmapLock_: readers *)
  mmapWriter_ : bool;  (* mmapLock_: a writer *)
}.

(** Everything the program can reach. *)
Record World := mkWorld {
  w_nodes : gmap nptr Node;
  w_buckets : gmap bptr Bucket;
  w_txs : gmap txptr Tx;
  w_db : DB;
  w_blocks : gmap nat (list byte);  (* memory obtained with new *)
  w_file : list byte;  (* the file's contents *)
  w_map : option Z;  (* size of the mapping, None when nothing is mapped *)
  w_gen : nat;  (* mappings made so far *)
  w_calls : list call;  (* system calls made so far, the last one first *)
}.

(** ** Field updates *)

Definition bset_bucketHeader_ (v : bucketHeader) (b : Bucket) : Bucket :=
  mkBucket v (tx_ b) (buckets_ b) (page_ b) (rootNode_ b) (nodes_ b) (fillPercent_ b)
    (Bucket_parentNode_ b).
Definition bset_tx_ (v : txptr) (b : Bucket) : Bucket :=
  mkBucket (bucketHeader_ b) v (buckets_ b) (page_ b) (rootNode_ b) (nodes_ b) (fillPercent_ b)
    (Bucket_parentNode_ b).
Definition bset_buckets_ (v : gmap (list byte) bptr) (b : Bucket) : Bucket :=
  mkBucket (bucketHeader_ b) (tx_ b) v (page_ b) (rootNode_ b) (nodes_ b) (fillPercent_ b)
    (Bucket_parentNode_ b).
Definition bset_page_ (v : option PagePtr) (b : Bucket) : Bucket :=
  mkBucket (bucketHeader_ b) (tx_ b) (buckets_ b) v (rootNode_ b) (nodes_ b) (fillPercent_ b)
    (Bucket_parentNode_ b).
Definition bset_rootNode_ (v : option nptr) (b : Bucket) : Bucket :=
  mkBucket (bucketHeader_ b) (tx_ b) (buckets_ b) (page_ b) v (nodes_ b) (fillPercent_ b)
    (Bucket_parentNode_ b).
Definition bset_nodes_ (v : gmap Z nptr) (b : Bucket) : Bucket :=
  mkBucket (bucketHeader_ b) (tx_ b) (buckets_ b) (page_ b) (rootNode_ b) v (fillPercent_ b)
    (Bucket_parentNode_ b).
Definition bset_fillPercent_ (v : Q) (b : Bucket) : Bucket :=
  mkBucket (bucketHeader_ b) (tx_ b) (buckets_ b) (page_ b) (rootNode_ b) (nodes_ b) v
    (Bucket_parentNode_ b).
Definition bset_Bucket_parentNode_ (v : option nptr) (b : Bucket) : Bucket :=
  mkBucket (bucketHeader_ b) (tx_ b) (buckets_ b) (page_ b) (rootNode_ b) (nodes_ b) (fillPercent_
    b) v.

Definition tset_writable_ (v : bool) (t : Tx) : Tx :=
  mkTx v (managed_ t) (db_ t) (metaData_ t) (rootBucket_ t) (dirtyPageTable_ t) (pageCount t)
    (pageAlloc t) (cursorCount t).
Definition tset_managed_ (v : bool) (t : Tx) : Tx :=
  mkTx (writable_ t) v (db_ t) (metaData_ t) (rootBucket_ t) (dirtyPageTable_ t) (pageCount t)
    (pageAlloc t) (cursorCount t).
Definition tset_db_ (v : bool) (t : Tx) : Tx :=
  mkTx (writable_ t) (managed_ t) v (metaData_ t) (rootBucket_ t) (dirtyPageTable_ t) (pageCount
    t) (pageAlloc t) (cursorCount t).
Definition tset_metaData_ (v : option meta) (t : Tx) : Tx :=
  mkTx (writable_ t) (managed_ t) (db_ t) v (rootBucket_ t) (dirtyPageTable_ t) (pageCount t)
    (pageAlloc t) (cursorCount t).
Definition tset_rootBucket_ (v : bptr) (t : Tx) : Tx :=
  mkTx (writable_ t) (managed_ t) (db_ t) (metaData_ t) v (dirtyPageTable_ t) (pageCount t)
    (pageAlloc t) (cursorCount t).
Definition tset_dirtyPageTable_ (v : gmap Z PagePtr) (t : Tx) : Tx :=
  mkTx (writable_ t) (managed_ t) (db_ t) (metaData_ t) (rootBucket_ t) v (pageCount t) (pageAlloc
    t) (cursorCount t).
Definition tset_pageCount (v : Z) (t : Tx) : Tx :=
  mkTx (writable_ t) (managed_ t) (db_ t) (metaData_ t) (rootBucket_ t) (dirtyPageTable_ t) v
    (pageAlloc t) (cursorCount t).
Definition tset_pageAlloc (v : Z) (t : Tx) : Tx :=
  mkTx (writable_ t) (managed_ t) (db_ t) (metaData_ t) (rootBucket_ t) (dirtyPageTable_ t)
    (pageCount t) v (cursorCount t).
Definition tset_cursorCount (v : Z) (t : Tx) : Tx :=
  mkTx (writable_ t) (managed_ t) (db_ t) (metaData_ t) (rootBucket_ t) (dirtyPageTable_ t)
    (pageCount t) (pageAlloc t) v.

Definition dset_file_ (v : Z) (d : DB) : DB :=
  mkDB v (opened_ d) (NoSync_ d) (NoGrowSync_ d) (readOnly_ d) (AllocSize_ d) (datasz_ d) (filesz_
    d) (DB_pageSize_ d) (meta0_ d) (meta1_ d) (rwtx_ d) (txs_ d) (freeList_ d) (rwLock_ d)
    (mmapReaders_ d) (mmapWriter_ d).
Definition dset_opened_ (v : bool) (d : DB) : DB :=
  mkDB (file_ d) v (NoSync_ d) (NoGrowSync_ d) (readOnly_ d) (AllocSize_ d) (datasz_ d) (filesz_
    d) (DB_pageSize_ d) (meta0_ d) (meta1_ d) (rwtx_ d) (txs_ d) (freeList_ d) (rwLock_ d)
    (mmapReaders_ d) (mmapWriter_ d).
Definition dset_NoSync_ (v : bool) (d : DB) : DB :=
  mkDB (file_ d) (opened_ d) v (NoGrowSync_ d) (readOnly_ d) (AllocSize_ d) (datasz_ d) (filesz_
    d) (DB_pageSize_ d) (meta0_ d) (meta1_ d) (rwtx_ d) (txs_ d) (freeList_ d) (rwLock_ d)
    (mmapReaders_ d) (mmapWriter_ d).
Definition dset_NoGrowSync_ (v : bool) (d : DB) : DB :=
  mkDB (file_ d) (opened_ d) (NoSync_ d) v (readOnly_ d) (AllocSize_ d) (datasz_ d) (filesz_ d)
    (DB_pageSize_ d) (meta0_ d) (meta1_ d) (rwtx_ d) (txs_ d) (freeList_ d) (rwLock_ d)
    (mmapReaders_ d) (mmapWriter_ d).
Definition dset_readOnly_ (v : bool) (d : DB) : DB :=
  mkDB (file_ d) (opened_ d) (NoSync_ d) (NoGrowSync_ d) v (AllocSize_ d) (datasz_ d) (filesz_ d)
    (DB_pageSize_ d) (meta0_ d) (meta1_ d) (rwtx_ d) (txs_ d) (freeList_ d) (rwLock_ d)
    (mmapReaders_ d) (mmapWriter_ d).
Definition dset_AllocSize_ (v : Z) (d : DB) : DB :=
  mkDB (file_ d) (opened_ d) (NoSync_ d) (NoGrowSync_ d) (readOnly_ d) v (datasz_ d) (filesz_ d)
    (DB_pageSize_ d) (meta0_ d) (meta1_ d) (rwtx_ d) (txs_ d) (freeList_ d) (rwLock_ d)
    (mmapReaders_ d) (mmapWriter_ d).
Definition dset_datasz_ (v : Z) (d : DB) : DB :=
  mkDB (file_ d) (opened_ d) (NoSync_ d) (NoGrowSync_ d) (readOnly_ d) (AllocSize_ d) v (filesz_
    d) (DB_pageSize_ d) (meta0_ d) (meta1_ d) (rwtx_ d) (txs_ d) (freeList_ d) (rwLock_ d)
    (mmapReaders_ d) (mmapWriter_ d).
Definition dset_filesz_ (v : Z) (d : DB) : DB :=
  mkDB (file_ d) (opened_ d) (NoSync_ d) (NoGrowSync_ d) (readOnly_ d) (AllocSize_ d) (datasz_ d)
    v (DB_pageSize_ d) (meta0_ d) (meta1_ d) (rwtx_ d) (txs_ d) (freeList_ d) (rwLock_ d)
    (mmapReaders_ d) (mmapWriter_ d).
Definition dset_DB_pageSize_ (v : Z) (d : DB) : DB :=
  mkDB (file_ d) (opened_ d) (NoSync_ d) (NoGrowSync_ d) (readOnly_ d) (AllocSize_ d) (datasz_ d)
    (filesz_ d) v (meta0_ d) (meta1_ d) (rwtx_ d) (txs_ d) (freeList_ d) (rwLock_ d) (mmapReaders_
    d) (mmapWriter_ d).
Definition dset_meta0_ (v : option PagePtr) (d : DB) : DB :=
  mkDB (file_ d) (opened_ d) (NoSync_ d) (NoGrowSync_ d) (readOnly_ d) (AllocSize_ d) (datasz_ d)
    (filesz_ d) (DB_pageSize_ d) v (meta1_ d) (rwtx_ d) (txs_ d) (freeList_ d) (rwLock_ d)
    (mmapReaders_ d) (mmapWriter_ d).
Definition dset_meta1_ (v : option PagePtr) (d : DB) : DB :=
  mkDB (file_ d) (opened_ d) (NoSync_ d) (NoGrowSync_ d) (readOnly_ d) (AllocSize_ d) (datasz_ d)
    (filesz_ d) (DB_pageSize_ d) (meta0_ d) v (rwtx_ d) (txs_ d) (freeList_ d) (rwLock_ d)
    (mmapReaders_ d) (mmapWriter_ d).
Definition dset_rwtx_ (v : option txptr) (d : DB) : DB :=
  mkDB (file_ d) (opened_ d) (NoSync_ d) (NoGrowSync_ d) (readOnly_ d) (AllocSize_ d) (datasz_ d)
    (filesz_ d) (DB_pageSize_ d) (meta0_ d) (meta1_ d) v (txs_ d) (freeList_ d) (rwLock_ d)
    (mmapReaders_ d) (mmapWriter_ d).
Definition dset_txs_ (v : list txptr) (d : DB) : DB :=
  mkDB (file_ d) (opened_ d) (NoSync_ d) (NoGrowSync_ d) (readOnly_ d) (AllocSize_ d) (datasz_ d)
    (filesz_ d) (DB_pageSize_ d) (meta0_ d) (meta1_ d) (rwtx_ d) v (freeList_ d) (rwLock_ d)
    (mmapReaders_ d) (mmapWriter_ d).
Definition dset_freeList_ (v : FreeList.freeList) (d : DB) : DB :=
  mkDB (file_ d) (opened_ d) (NoSync_ d) (NoGrowSync_ d) (readOnly_ d) (AllocSize_ d) (datasz_ d)
    (filesz_ d) (DB_pageSize_ d) (meta0_ d) (meta1_ d) (rwtx_ d) (txs_ d) v (rwLock_ d)
    (mmapReaders_ d) (mmapWriter_ d).
Definition dset_rwLock_ (v : bool) (d : DB) : DB :=
  mkDB (file_ d) (opened_ d) (NoSync_ d) (NoGrowSync_ d) (readOnly_ d) (AllocSize_ d) (datasz_ d)
    (filesz_ d) (DB_pageSize_ d) (meta0_ d) (meta1_ d) (rwtx_ d) (txs_ d) (freeList_ d) v
    (mmapReaders_ d) (mmapWriter_ d).
Definition dset_mmapReaders_ (v : nat) (d : DB) : DB :=
  mkDB (file_ d) (opened_ d) (NoSync_ d) (NoGrowSync_ d) (readOnly_ d) (AllocSize_ d) (datasz_ d)
    (filesz_ d) (DB_pageSize_ d) (meta0_ d) (meta1_ d) (rwtx_ d) (txs_ d) (freeList_ d) (rwLock_
    d) v (mmapWriter_ d).
Definition dset_mmapWriter_ (v : bool) (d : DB) : DB :=
  mkDB (file_ d) (opened_ d) (NoSync_ d) (NoGrowSync_ d) (readOnly_ d) (AllocSize_ d) (datasz_ d)
    (filesz_ d) (DB_pageSize_ d) (meta0_ d) (meta1_ d) (rwtx_ d) (txs_ d) (freeList_ d) (rwLock_
    d) (mmapReaders_ d) v.

Definition wset_w_nodes (v : gmap nptr Node) (w : World) : World :=
  mkWorld v (w_buckets w) (w_txs w) (w_db w) (w_blocks w) (w_file w) (w_map w) (w_gen w) (w_calls
    w).
Definition wset_w_buckets (v : gmap bptr Bucket) (w : World) : World :=
  mkWorld (w_nodes w) v (w_txs w) (w_db w) (w_blocks w) (w_file w) (w_map w) (w_gen w) (w_calls w).
Definition wset_w_txs (v : gmap txptr Tx) (w : World) : World :=
  mkWorld (w_nodes w) (w_buckets w) v (w_db w) (w_blocks w) (w_file w) (w_map w) (w_gen w)
    (w_calls w).
Definition wset_w_db (v : DB) (w : World) : World :=
  mkWorld (w_nodes w) (w_buckets w) (w_txs w) v (w_blocks w) (w_file w) (w_map w) (w_gen w)
    (w_calls w).
Definition wset_w_blocks (v : gmap nat (list byte)) (w : World) : World :=
  mkWorld (w_nodes w) (w_buckets w) (w_txs w) (w_db w) v (w_file w) (w_map w) (w_gen w) (w_calls w).
Definition wset_w_file (v : list byte) (w : World) : World :=
  mkWorld (w_nodes w) (w_buckets w) (w_txs w) (w_db w) (w_blocks w) v (w_map w) (w_gen w) (w_calls
    w).
Definition wset_w_map (v : option Z) (w : World) : World :=
  mkWorld (w_nodes w) (w_buckets w) (w_txs w) (w_db w) (w_blocks w) (w_file w) v (w_gen w)
    (w_calls w).
Definition wset_w_gen (v : nat) (w : World) : World :=
  mkWorld (w_nodes w) (w_buckets w) (w_txs w) (w_db w) (w_blocks w) (w_file w) (w_map w) v
    (w_calls w).
Definition wset_w_calls (v : list call) (w : World) : World :=
  mkWorld (w_nodes w) (w_buckets w) (w_txs w) (w_db w) (w_blocks w) (w_file w) (w_map w) (w_gen w)
    v.

(** ** The monad: state and faults *)

Definition M (A : Type) : Type := World -> res (A * World).
#[export] Instance M_ret : MRet M := fun _ a w => Ok (a, w).
#[export] Instance M_bind : MBind M := fun _ _ f m w =>
  match m w with Ok (a, w') => f a w' | Err e => Err e end.

Definition ret {A} (a : A) : M A := mret a.
Definition fail {A} (e : fault) : M A := fun _ => Err e.
(** A computation that reads the state. *)
Definition reads {A} (f : World -> res A) : M A := fun w => a ← f w; Ok (a, w).
Definition lift {A} (r : res A) : M A := reads (fun _ => r).
Definition gets {A} (f : World -> A) : M A := reads (fun w => Ok (f w)).
Definition modify (f : World -> World) : M unit := fun w => Ok (tt, f w).
Definition massert (b : bool) : M unit := lift (assert_ b).

(** Dereferencing a pointer that may be null. *)
Definition deref {A} (o : option A) : res A :=
  match o with Some a => Ok a | None => Err NullDeref end.

(** Looking an object up in its store: raw pointers may dangle. *)
Definition the {A} (o : option A) : res A :=
  match o with Some a => Ok a | None => Err UseAfterFree end.

(** ** Access to the objects *)

Definition node_of (w : World) (n : nptr) : res Node := the (w_nodes w !! n).
Definition bucket_of (w : World) (b : bptr) : res Bucket := the (w_buckets w !! b).
Definition tx_of (w : World) (t : txptr) : res Tx := the (w_txs w !! t).

Definition get_node (n : nptr) : M Node := reads (fun w => node_of w n).
Definition get_bucket (b : bptr) : M Bucket := reads (fun w => bucket_of w b).
Definition get_tx (t : txptr) : M Tx := reads (fun w => tx_of w t).
Definition get_db : M DB := gets w_db.

Definition put_node (n : nptr) (v : Node) : M unit :=
  modify (fun w => wset_w_nodes (<[n := v]> (w_nodes w)) w).
Definition put_bucket (b : bptr) (v : Bucket) : M unit :=
  modify (fun w => wset_w_buckets (<[b := v]> (w_buckets w)) w).
Definition put_tx (t : txptr) (v : Tx) : M unit :=
  modify (fun w => wset_w_txs (<[t := v]> (w_txs w)) w).

Definition upd_node (n : nptr) (f : Node -> Node) : M unit := v ← get_node n; put_node n (f v).
Definition upd_bucket (b : bptr) (f : Bucket -> Bucket) : M unit :=
  v ← get_bucket b; put_bucket b (f v).
Definition upd_tx (t : txptr) (f : Tx -> Tx) : M unit := v ← get_tx t; put_tx t (f v).
Definition upd_db (f : DB -> DB) : M unit := modify (fun w => wset_w_db (f (w_db w)) w).

(** A key no object has. *)
Definition fresh_key {A} (m : gmap nat A) : nat := fresh (dom m).

(** [make_shared<Node>(b, parent)], [new Bucket(tx)], [new Tx()] *)
Definition new_node (v : Node) : M nptr :=
  n ← gets (fun w => fresh_key (w_nodes w)); _ ← put_node n v; ret n.
Definition new_bucket (v : Bucket) : M bptr :=
  b ← gets (fun w => fresh_key (w_buckets w)); _ ← put_bucket b v; ret b.
Definition new_tx (v : Tx) : M txptr :=
  t ← gets (fun w => fresh_key (w_txs w)); _ ← put_tx t v; ret t.
(** The end of the life of a bucket on the stack. *)
Definition drop_bucket (b : bptr) : M unit :=
  modify (fun w => wset_w_buckets (delete b (w_buckets w)) w).

(** ** Memory *)

(** The memory a pointer points into, and the offset. *)
Definition mem_of (w : World) (p : PagePtr) : res (list byte * Z) :=
  match p with
  | PMap g o =>
      match w_map w with
      | Some sz => if decide (g = w_gen w) then Ok (take (Z.to_nat sz) (w_file w), o)
                   else Err UseAfterFree
      | None => Err UseAfterFree
      end
  | PHeap b o => m ← the (w_blocks w !! b); Ok (m, o)
  | PDead => Err UseAfterFree
  end.

(** Reads through a pointer. *)
Definition on_page {A} (w : World) (p : PagePtr) (f : list byte -> Z -> res A) : res A :=
  '(m, o) ← mem_of w p; f m o.
Definition page_read {A} (p : PagePtr) (f : list byte -> Z -> res A) : M A :=
  reads (fun w => on_page w p f).

(** Stores through a pointer: the mapping is [PROT_READ]. *)
Definition page_write (p : PagePtr) (f : list byte -> Z -> res (list byte)) : M unit :=
  match p with
  | PHeap b o =>
      m ← reads (fun w => the (w_blocks w !! b));
      m' ← lift (f m o);
      modify (fun w => wset_w_blocks (<[b := m']> (w_blocks w)) w)
  | PMap _ _ => _ ← page_read p (fun _ _ => Ok tt); fail ReadOnlyStore
  | PDead => fail UseAfterFree
  end.

Section env.
Context `{Env}.

(** [new char[len]] *)
Definition new_block (len : Z) : M PagePtr :=
  b ← gets (fun w => fresh_key (w_blocks w));
  _ ← modify (fun w =>
        wset_w_blocks (<[b := env_garbage b <$> seq 0 (Z.to_nat len)]> (w_blocks w)) w);
  ret (PHeap b 0).

(** The system call [c]: whether it succeeds. *)
Definition syscall (c : call) : M bool := fun w =>
  let ok := env_syscall (length (w_calls w)) in
  Ok (ok, wset_w_calls ((if ok then c else OtherCall) :: w_calls w) w).

(** The file with [bs] at offset [off], as [pwrite] leaves it: a hole before
    [off] reads as zeros. *)
Definition file_write (f : list byte) (off : Z) (bs : list byte) : list byte :=
  take (Z.to_nat off) (f ++ replicate (Z.to_nat off - length f) Byte.x00) ++ bs ++
  drop (Z.to_nat off + length bs) f.

(** [ftruncate(file_, sz)] *)
Definition file_truncate (f : list byte) (sz : Z) : list byte :=
  take (Z.to_nat sz) f ++ replicate (Z.to_nat sz - length f) Byte.x00.

(** [DB::writeAt(buf, len, offset)]: the number of bytes written, or -1 *)
Definition writeAt (bs : list byte) (off : Z) : M Z :=
  k ← gets (fun w => length (w_calls w));
  let n := Z.min (env_pwrite k (Z.of_nat (length bs))) (Z.of_nat (length bs)) in
  ok ← syscall (Pwrite off (take (Z.to_nat n) bs));
  if ok : bool then
    _ ← modify (fun w => wset_w_file (file_write (w_file w) off (take (Z.to_nat n) bs)) w);
    ret n
  else ret (-1).
End env.

(** ** Running a computation *)

Lemma bindM_ok {A B} (m : M A) (f : A -> M B) w a w' :
  m w = Ok (a, w') -> (m ≫= f) w = f a w'.
Proof. intros H. unfold mbind, M_bind. by rewrite H. Qed.

Lemma bindM_err {A B} (m : M A) (f : A -> M B) w e : m w = Err e -> (m ≫= f) w = Err e.
Proof. intros H. unfold mbind, M_bind. by rewrite H. Qed.

Lemma bindM_inv {A B} (m : M A) (f : A -> M B) w b w' :
  (m ≫= f) w = Ok (b, w') -> exists a w1, m w = Ok (a, w1) /\ f a w1 = Ok (b, w').
Proof.
  unfold mbind, M_bind. destruct (m w) as [[a w1]|]; [|done]. intros H. by exists a, w1.
Qed.

Lemma reads_ok {A} (f : World -> res A) w a : f w = Ok a -> reads f w = Ok (a, w).
Proof. intros H. unfold reads. by rewrite H. Qed.

Lemma lift_ok {A} (r : res A) w a : r = Ok a -> lift r w = Ok (a, w).
Proof. by intros ->. Qed.

Lemma massert_ok b w : b = true -> massert b w = Ok (tt, w).
Proof. by intros ->. Qed.

Lemma gets_ok {A} (f : World -> A) w : gets f w = Ok (f w, w).
Proof. done. Qed.

Lemma get_node_ok w n v : node_of w n = Ok v -> get_node n w = Ok (v, w).
Proof. intros Hx. by apply (reads_ok (fun w => _)). Qed.
Lemma get_bucket_ok w b v : bucket_of w b = Ok v -> get_bucket b w = Ok (v, w).
Proof. intros Hx. by apply (reads_ok (fun w => _)). Qed.
Lemma get_tx_ok w t v : tx_of w t = Ok v -> get_tx t w = Ok (v, w).
Proof. intros Hx. by apply (reads_ok (fun w => _)). Qed.
Lemma get_db_ok w : get_db w = Ok (w_db w, w).
Proof. done. Qed.

(** The states after an update of one object. *)
Definition with_node (n : nptr) (v : Node) (w : World) : World :=
  wset_w_nodes (<[n := v]> (w_nodes w)) w.
Definition with_bucket (b : bptr) (v : Bucket) (w : World) : World :=
  wset_w_buckets (<[b := v]> (w_buckets w)) w.
Definition with_tx (t : txptr) (v : Tx) (w : World) : World :=
  wset_w_txs (<[t := v]> (w_txs w)) w.
Definition with_block (b : nat) (m : list byte) (w : World) : World :=
  wset_w_blocks (<[b := m]> (w_blocks w)) w.

Lemma put_node_ok n v w : put_node n v w = Ok (tt, with_node n v w).
Proof. done. Qed.
Lemma put_bucket_ok b v w : put_bucket b v w = Ok (tt, with_bucket b v w).
Proof. done. Qed.
Lemma put_tx_ok t v w : put_tx t v w = Ok (tt, with_tx t v w).
Proof. done. Qed.

Lemma upd_node_ok n f w v : node_of w n = Ok v -> upd_node n f w = Ok (tt, with_node n (f v) w).
Proof. intros H. unfold upd_node. by erewrite bindM_ok by (by apply get_node_ok). Qed.
Lemma upd_bucket_ok b f w v :
  bucket_of w b = Ok v -> upd_bucket b f w = Ok (tt, with_bucket b (f v) w).
Proof. intros H. unfold upd_bucket. by erewrite bindM_ok by (by apply get_bucket_ok). Qed.
Lemma upd_tx_ok t f w v : tx_of w t = Ok v -> upd_tx t f w = Ok (tt, with_tx t (f v) w).
Proof. intros H. unfold upd_tx. by erewrite bindM_ok by (by apply get_tx_ok). Qed.
Lemma upd_db_ok f w : upd_db f w = Ok (tt, wset_w_db (f (w_db w)) w).
Proof. done. Qed.

Lemma new_node_ok v w :
  new_node v w = Ok (fresh_key (w_nodes w), with_node (fresh_key (w_nodes w)) v w).
Proof. done. Qed.
Lemma new_bucket_ok v w :
  new_bucket v w = Ok (fresh_key (w_buckets w), with_bucket (fresh_key (w_buckets w)) v w).
Proof. done. Qed.
Lemma new_tx_ok v w :
  new_tx v w = Ok (fresh_key (w_txs w), with_tx (fresh_key (w_txs w)) v w).
Proof. done. Qed.

Lemma fresh_key_None {A} (m : gmap nat A) : m !! fresh_key m = None.
Proof. apply not_elem_of_dom, is_fresh. Qed.

Lemma the_ok {A} (o : option A) a : the o = Ok a <-> o = Some a.
Proof. destruct o; cbn; split; congruence. Qed.

Lemma node_of_with n v w : node_of (with_node n v w) n = Ok v.
Proof. apply the_ok, lookup_insert_eq. Qed.
Lemma node_of_with_ne n m v w : n <> m -> node_of (with_node n v w) m = node_of w m.
Proof. intros H. unfold node_of, with_node. cbn. by rewrite lookup_insert_ne. Qed.
Lemma bucket_of_with b v w : bucket_of (with_bucket b v w) b = Ok v.
Proof. apply the_ok, lookup_insert_eq. Qed.
Lemma bucket_of_with_ne b c v w : b <> c -> bucket_of (with_bucket b v w) c = bucket_of w c.
Proof. intros H. unfold bucket_of, with_bucket. cbn. by rewrite lookup_insert_ne. Qed.
Lemma with_bucket_twice b v v' w : with_bucket b v (with_bucket b v' w) = with_bucket b v w.
Proof. unfold with_bucket, wset_w_buckets. cbn. by rewrite insert_insert_eq. Qed.
Lemma tx_of_with t v w : tx_of (with_tx t v w) t = Ok v.
Proof. apply the_ok, lookup_insert_eq. Qed.
Lemma tx_of_with_ne t u v w : t <> u -> tx_of (with_tx t v w) u = tx_of w u.
Proof. intros H. unfold tx_of, with_tx. cbn. by rewrite lookup_insert_ne. Qed.

(** A fresh key differs from every key in use. *)
Lemma fresh_node_ne w n v : node_of w n = Ok v -> fresh_key (w_nodes w) <> n.
Proof. intros H%the_ok <-. by rewrite fresh_key_None in H. Qed.
Lemma fresh_bucket_ne w b v : bucket_of w b = Ok v -> fresh_key (w_buckets w) <> b.
Proof. intros H%the_ok <-. by rewrite fresh_key_None in H. Qed.

Create HintDb run.
#[export] Hint Resolve get_node_ok get_bucket_ok get_tx_ok get_db_ok gets_ok reads_ok lift_ok
  massert_ok put_node_ok put_bucket_ok put_tx_ok upd_node_ok upd_bucket_ok upd_tx_ok upd_db_ok
  new_node_ok new_bucket_ok new_tx_ok node_of_with bucket_of_with tx_of_with : run.

(** [mstep] runs the first step of a computation whose outcome is known. *)
Ltac mstep := erewrite bindM_ok; [|solve [eauto 3 with run]]; cbn beta iota.
(** [mstep_with H] runs the first step by [H]. *)
Ltac mstep_with H := erewrite bindM_ok; [|solve [apply H; eauto 3 with run]]; cbn beta iota.
(** [minv H] decomposes a computation that returned. *)
Ltac minv H :=
  match type of H with
  | (_ ≫= _) _ = Ok _ =>
      let a := fresh "a" in let w1 := fresh "w" in let E := fresh "E" in
      apply bindM_inv in H as (a & w1 & E & H)
  end.

(** ** A sample environment and state, for the witnesses *)

Definition sample_env : Env := {|
  env_garbage := fun _ _ => Byte.xa5;
  env_page_addr := fun p => match p with PMap _ o => 2 ^ 40 + o | PHeap b o => 2 ^ 20 * (1 + Z.of_nat b) + o | PDead => 0 end;
  env_node_addr := fun n => 1000 * Z.of_nat n;
  env_item_addr := fun _ => 2 ^ 47;
  env_order_pgid := fun l => l;
  env_order_name := fun l => l;
  env_syscall := fun _ => true;
  env_pwrite := fun _ len => len;
  env_getpagesize := 4096;
  env_uninit_flag := 0;
  env_fuel := 50;
|}.

Definition sample_db : DB :=
  {| file_ := 3; opened_ := true; NoSync_ := false; NoGrowSync_ := false; readOnly_ := false;
     AllocSize_ := 16 * 1024 * 1024; datasz_ := 32768; filesz_ := 16384; DB_pageSize_ := 4096;
     meta0_ := Some (PMap 1 16); meta1_ := Some (PMap 1 4112); rwtx_ := None; txs_ := [];
     freeList_ := freeList_new; rwLock_ := false; mmapReaders_ := 0; mmapWriter_ := false |}.

Definition empty_world : World :=
  {| w_nodes := ∅; w_buckets := ∅; w_txs := ∅; w_db := sample_db; w_blocks := ∅; w_file := [];
     w_map := None; w_gen := 1; w_calls := [] |}.
