(* ===== verification/Disk.v ===== *)
(** * Disk.v: the file and the disk

    What [pwrite] and [ftruncate] do to the bytes of the file, and what of it
    is on the disk.  Between two syncs the disk holds, in each sector, what
    the file had there at some moment since the last sync: a crash may keep
    some writes and lose others, in any order, but it does not tear a
    sector. *)
From S2P Require Import Bytes.
From S2P Require Import Page.
From S2P Require Import World.

(** ** Writing and resizing the file *)

Lemma file_write_slice f off bs :
  0 <= off -> slice (file_write f off bs) off (Z.of_nat (length bs)) = Ok bs.
Proof.
  intros Ho. unfold file_write. apply slice_app; [|done].
  rewrite length_take, length_app, length_replicate. lia.
Qed.

Lemma file_write_lookup f off bs i :
  0 <= off -> (i < length f)%nat -> Z.of_nat i < off \/ off + Z.of_nat (length bs) <= Z.of_nat i ->
  file_write f off bs !! i = f !! i.
Proof.
  intros Ho Hi Hd. unfold file_write. set (pre := take _ _).
  assert (length pre = Z.to_nat off) as Hl.
  { unfold pre. rewrite length_take, length_app, length_replicate. lia. }
  destruct (decide (i < Z.to_nat off)%nat).
  - rewrite lookup_app_l by lia. unfold pre. rewrite lookup_take_lt by lia. by rewrite lookup_app_l.
  - rewrite lookup_app_r, lookup_app_r by lia. rewrite lookup_drop, Hl. f_equal. lia.
Qed.

Lemma file_write_length f off bs :
  0 <= off -> (length f <= length (file_write f off bs))%nat.
Proof.
  intros Ho. unfold file_write. rewrite !length_app, length_take, length_app, length_replicate, length_drop. lia.
Qed.

Lemma file_write_length_eq f off bs :
  0 <= off -> Z.of_nat (length (file_write f off bs)) = Z.max (Z.of_nat (length f)) (off + Z.of_nat (length bs)).
Proof.
  intros Ho. unfold file_write. rewrite !length_app, length_take, length_app, length_replicate, length_drop. lia.
Qed.

(** A run of bytes is where the same bytes are. *)
Lemma slice_same_bytes f f' o n x :
  slice f o n = Ok x -> o + n <= Z.of_nat (length f') ->
  (forall i, (i < length f)%nat -> o <= Z.of_nat i < o + n -> f' !! i = f !! i) -> slice f' o n = Ok x.
Proof.
  intros Hs Hl Hi. apply slice_inv in Hs as Hb. rewrite <-Hs, !slice_ok by lia. f_equal. apply list_eq. intros i.
  destruct (decide (i < Z.to_nat n)%nat).
  - rewrite !lookup_take_lt, !lookup_drop by lia. apply Hi; lia.
  - by rewrite !lookup_take_ge by lia.
Qed.

Lemma file_write_slice_other f off bs o n x :
  0 <= off -> slice f o n = Ok x -> o + n <= off \/ off + Z.of_nat (length bs) <= o ->
  slice (file_write f off bs) o n = Ok x.
Proof.
  intros Ho Hs Hd. pose proof (file_write_length f off bs Ho). apply slice_inv in Hs as Hb.
  eapply slice_same_bytes; [exact Hs|lia|]. intros i Hi Hr. apply file_write_lookup; lia.
Qed.

Lemma file_truncate_length f sz : 0 <= sz -> Z.of_nat (length (file_truncate f sz)) = sz.
Proof. intros ?. unfold file_truncate. rewrite length_app, length_take, length_replicate. lia. Qed.

Lemma file_truncate_lookup f sz i :
  (i < length f)%nat -> Z.of_nat i < sz -> file_truncate f sz !! i = f !! i.
Proof.
  intros Hi Hs. unfold file_truncate. rewrite lookup_app_l by (rewrite length_take; lia).
  by rewrite lookup_take_lt by lia.
Qed.

Lemma file_truncate_slice f sz o n x :
  slice f o n = Ok x -> o + n <= sz -> slice (file_truncate f sz) o n = Ok x.
Proof.
  intros Hs Hsz. apply slice_inv in Hs as Hb. pose proof (file_truncate_length f sz ltac:(lia)).
  eapply slice_same_bytes; [exact Hs|lia|]. intros i Hi Hr. apply file_truncate_lookup; lia.
Qed.

(** ** The disk *)

(** The file after a call, and after several, the last one first. *)
Definition run_call (c : call) (f : list byte) : list byte :=
  match c with
  | Pwrite off bs => file_write f off bs
  | Ftruncate sz => file_truncate f sz
  | Fsync | OtherCall => f
  end.
Definition replay (cs : list call) (f : list byte) : list byte := foldr run_call f cs.

(** The state after the calls [cs], when they succeed and change nothing but
    the file. *)
Definition called (cs : list call) (w : World) : World :=
  wset_w_calls (cs ++ w_calls w) (wset_w_file (replay cs (w_file w)) w).

(** The file as the program sees it, and as it was at the moments before,
    back to the last sync. *)
Record disk := { latest : list byte; pending : list (list byte) }.
Definition possible (d : disk) : list (list byte) := latest d :: pending d.
Definition synced (f : list byte) : disk := {| latest := f; pending := [] |}.

Definition disk_step (c : call) (d : disk) : disk :=
  match c with
  | Fsync => synced (latest d)
  | OtherCall => d
  | Pwrite _ _ | Ftruncate _ => {| latest := run_call c (latest d); pending := possible d |}
  end.

(** The disk after the calls [cs] on a disk that holds [d]. *)
Definition disk_after (cs : list call) (d : disk) : disk := foldr disk_step d cs.

(** What the disk writes as a whole. *)
Definition SECTOR : nat := 512.

(** The file [f] may be found after a crash: it has the length of one of the
    possible files, and in each sector the bytes of one of them, or zeros
    beyond its end. *)
Record crash_image (d : disk) (f : list byte) : Prop := {
  ci_length : exists s, s ∈ possible d /\ length f = length s;
  ci_sector : forall k, exists s, s ∈ possible d /\ forall i,
    (i / SECTOR = k)%nat -> (i < length f)%nat -> f !! i = Some (default Byte.x00 (s !! i));
}.

(** ** Runs of calls *)

Lemma replay_app cs cs' f : replay (cs ++ cs') f = replay cs (replay cs' f).
Proof. apply foldr_app. Qed.

Lemma called_nil w : called [] w = w.
Proof. by destruct w. Qed.

Lemma called_called cs cs' w : called cs (called cs' w) = called (cs ++ cs') w.
Proof. unfold called, wset_w_calls, wset_w_file. cbn. by rewrite replay_app, app_assoc. Qed.

Lemma disk_after_app cs cs' d : disk_after (cs ++ cs') d = disk_after cs (disk_after cs' d).
Proof. apply foldr_app. Qed.

Lemma latest_step c d : latest (disk_step c d) = run_call c (latest d).
Proof. by destruct c. Qed.

Lemma latest_after cs d : latest (disk_after cs d) = replay cs (latest d).
Proof.
  induction cs as [|c cs IH]; [done|]. cbn [disk_after replay foldr]. fold (disk_after cs d) (replay cs (latest d)).
  by rewrite latest_step, IH.
Qed.

(** Every possible file is the file as some of the calls left it. *)
Lemma possible_after cs f s :
  s ∈ possible (disk_after cs (synced f)) -> exists cs', cs' `suffix_of` cs /\ s = replay cs' f.
Proof.
  induction cs as [|c cs IH] in s |-*; cbn [disk_after foldr].
  - intros ->%list_elem_of_singleton. by exists [].
  - fold (disk_after cs (synced f)). intros Hs.
    assert (s = replay (c :: cs) f \/ s ∈ possible (disk_after cs (synced f))) as [->|Hin].
    { cbn [replay foldr]. fold (replay cs f).
      change (replay cs f) with (replay cs (latest (synced f))). rewrite <-latest_after. clear IH.
      destruct (disk_after cs (synced f)) as [l p], c; unfold possible, synced in *; cbn in Hs |- *; set_solver. }
    + by exists (c :: cs).
    + destruct (IH s Hin) as (cs'&Hsuf&->). exists cs'. split; [|done]. by apply suffix_cons_r.
Qed.

(** A call leaves a run of bytes alone. *)
Definition call_keeps (o n : Z) (c : call) : Prop :=
  match c with
  | Pwrite off bs => 0 <= off /\ (o + n <= off \/ off + Z.of_nat (length bs) <= o)
  | Ftruncate sz => o + n <= sz
  | Fsync | OtherCall => True
  end.

Lemma replay_keeps cs f o n x :
  Forall (call_keeps o n) cs -> slice f o n = Ok x -> slice (replay cs f) o n = Ok x.
Proof.
  intros Hc Hx. induction Hc as [|c cs Hc _ IH]; [done|]. cbn [replay foldr]. fold (replay cs f).
  destruct c; cbn [run_call call_keeps] in *; [|by apply file_truncate_slice|done..].
  destruct Hc. by apply file_write_slice_other.
Qed.

(** A call leaves the file at least [z] bytes, if it had them. *)
Definition call_grows (z : Z) (c : call) : Prop :=
  match c with Pwrite off _ => 0 <= off | Ftruncate sz => 0 <= z <= sz | Fsync | OtherCall => True end.

Lemma replay_grows cs f z :
  Forall (call_grows z) cs -> z <= Z.of_nat (length f) -> z <= Z.of_nat (length (replay cs f)).
Proof.
  intros Hc Hz. induction Hc as [|c cs Hc _ IH]; [done|]. cbn [replay foldr]. fold (replay cs f).
  destruct c as [off bs|sz| |]; cbn [run_call call_grows] in *; [|rewrite file_truncate_length; lia|done..].
  pose proof (file_write_length (replay cs f) off bs Hc). lia.
Qed.

(** ** What a crash leaves *)

(** Bytes that every possible file has survive. *)
Lemma crash_slice d f o n x :
  crash_image d f -> (forall s, s ∈ possible d -> slice s o n = Ok x) -> slice f o n = Ok x.
Proof.
  intros [(s0&Hs0&Hlen) Hsec] Hall. pose proof (Hall s0 Hs0) as H0. apply slice_inv in H0 as Hb.
  eapply slice_same_bytes; [exact H0|lia|]. intros i Hi Hr.
  destruct (Hsec (i / SECTOR)%nat) as (s&Hs&Hbytes). rewrite (Hbytes i) by (done || lia).
  pose proof (Hall s Hs) as Hsx. apply slice_inv in Hsx as Hbs.
  destruct (lookup_lt_is_Some_2 s i) as [y Hy]; [lia|]. rewrite Hy. cbn.
  rewrite <-Hy. assert (Z.of_nat (length x) = n) as Hlx by (by eapply slice_length).
  pose proof (slice_lookup _ _ _ _ (i - Z.to_nat o) H0 ltac:(lia)) as E0.
  pose proof (slice_lookup _ _ _ _ (i - Z.to_nat o) Hsx ltac:(lia)) as E1.
  replace (Z.to_nat o + (i - Z.to_nat o))%nat with i in * by lia. congruence.
Qed.

(** Calls that leave bytes alone leave them to a crash. *)
Lemma crash_keeps cs f f' o n x :
  crash_image (disk_after cs (synced f)) f' -> Forall (call_keeps o n) cs -> slice f o n = Ok x -> slice f' o n = Ok x.
Proof.
  intros Hc Hall Hx. apply (crash_slice _ _ _ _ _ Hc). intros s (cs'&Hsuf&->)%possible_after.
  apply replay_keeps; [|done]. destruct Hsuf as [pre ->]. by apply Forall_app in Hall as [_ ?].
Qed.

Lemma crash_grows cs f f' z :
  crash_image (disk_after cs (synced f)) f' -> Forall (call_grows z) cs -> z <= Z.of_nat (length f) ->
  z <= Z.of_nat (length f').
Proof.
  intros [(s&(cs'&[pre ->]&->)%possible_after&->) _] [_ Hall]%Forall_app Hz. by apply replay_grows.
Qed.

(** Nothing is lost of a file that is synced. *)
Lemma crash_synced f f' : crash_image (synced f) f' -> f' = f.
Proof.
  intros [(s&Hs&Hlen) Hsec]. change (possible (synced f)) with [f] in *.
  apply list_elem_of_singleton in Hs as ->. apply list_eq. intros i.
  destruct (decide (i < length f)%nat) as [Hi|]; [|by rewrite !lookup_ge_None_2 by lia].
  destruct (Hsec (i / SECTOR)%nat) as (s&Hs&Hb). apply list_elem_of_singleton in Hs as ->.
  rewrite Hb by (done || lia). by destruct (lookup_lt_is_Some_2 f i Hi) as [y ->].
Qed.

(** A sector is not torn. *)
Lemma crash_sector d f o n :
  crash_image d f -> 0 <= o -> 0 <= n -> o mod Z.of_nat SECTOR + n <= Z.of_nat SECTOR -> o + n <= Z.of_nat (length f) ->
  exists s, s ∈ possible d /\ forall x, slice s o n = Ok x -> slice f o n = Ok x.
Proof.
  intros [_ Hsec] Ho Hn Hin Hl. destruct (Hsec (Z.to_nat o / SECTOR)%nat) as (s&Hs&Hb). exists s. split; [done|].
  intros x Hx. eapply slice_same_bytes; [exact Hx|done|]. intros i Hi Hr. rewrite Hb; [|..|lia].
  - by destruct (lookup_lt_is_Some_2 s i Hi) as [y ->].
  - apply Nat2Z.inj. rewrite !Nat2Z.inj_div, Z2Nat.id by lia. change (Z.of_nat SECTOR) with 512 in *.
    pose proof (Z.div_mod o 512 ltac:(lia)). pose proof (Z.mod_pos_bound o 512 ltac:(lia)).
    symmetry. apply (Z.div_unique_pos _ _ _ (Z.of_nat i - o / 512 * 512)); lia.
Qed.
