(* ===== verification/Pager.v ===== *)
(** * Pager.v: pages from the file and from memory (src/src/Bolt/db.cc, tx.cc)

    The lower half of [DB] and [Tx]: the file mapping and its growth, the
    locks, page allocation, and the transaction's view of pages (its dirty
    pages first, then the mapping). *)
From S2P Require Import Bytes.
From S2P Require Import Page.
From S2P Require Import FreeList.
From S2P Require Import Meta.
From S2P Require Import Node.
From S2P Require Import World.
From S2P Require Import Disk.

(** ** Constants of db.cc *)

Definition MAXMAPSIZE : Z := 0x7FFFFFFF.
Definition DEFAULTALLOCSIZE : Z := 16 * 1024 * 1024.
Definition DEFAULTPAGESIZE : Z := 4096.

(** The conversion of an integer to [int]. *)
Definition to_int (z : Z) : Z := let u := wrap32 z in if u <? 2 ^ 31 then u else u - 2 ^ 32.

(** ** Locks *)

(** [getMmapRLock()]: blocks while a writer holds the lock. *)
Definition getMmapRLock : M bool :=
  d ← get_db;
  if mmapWriter_ d then fail Blocked
  else _ ← upd_db (dset_mmapReaders_ (S (mmapReaders_ d))); ret true.

(** [getMmapWLock()]: blocks while anyone holds the lock. *)
Definition getMmapWLock : M bool :=
  d ← get_db;
  if mmapWriter_ d || negb (mmapReaders_ d =? 0)%nat then fail Blocked
  else _ ← upd_db (dset_mmapWriter_ true); ret true.

(** [unlockMmapLock()] *)
Definition unlockMmapLock : M bool :=
  d ← get_db;
  _ ← upd_db (if mmapWriter_ d then dset_mmapWriter_ false
              else dset_mmapReaders_ (pred (mmapReaders_ d)));
  ret true.

(** ** The mapping *)

(** [getPagePtr(pgid)]: [&data_[pgid * pageSize_]] *)
Definition getPagePtr (w : World) (pgid : Z) : PagePtr :=
  PMap (w_gen w) (wrap64 (pgid * DB_pageSize_ (w_db w))).

(** The meta record [meta0_] or [meta1_] points to. *)
Definition meta_at (w : World) (m : option PagePtr) : res meta :=
  p ← deref m; on_page w p meta_read.

(** [DB::getMeta()] *)
Definition DB_getMeta (w : World) : res meta :=
  m0 ← meta_at w (meta0_ (w_db w));
  m1 ← meta_at w (meta1_ (w_db w));
  Meta.getMeta m0 m1.

(** The loop of [getMmapSize] from exponent [i] on: 0 and the new size. *)
Fixpoint getMmapSize_loop (n : nat) (i targetSize : Z) : option Z :=
  match n with
  | O => None
  | S n => if targetSize <=? 2 ^ i then Some (2 ^ i) else getMmapSize_loop n (i + 1) targetSize
  end.

(** [getMmapSize(targetSize)]: the result and [targetSize] *)
Definition getMmapSize (targetSize : Z) : res (Z * Z) :=
  match getMmapSize_loop 16 15 targetSize with
  | Some t => Ok (0, t)
  | None => if MAXMAPSIZE <? targetSize then Ok (-1, targetSize) else Err AssertFailed
  end.

(** [Node::root()] *)
Fixpoint root_loop (fuel : nat) (w : World) (n : nptr) : res nptr :=
  match fuel with
  | O => Err OutOfFuel
  | S fuel =>
      v ← node_of w n;
      match parentNode_ v with None => Ok n | Some p => root_loop fuel w p end
  end.

Section env.
Context `{Env}.

Definition Node_root (w : World) (n : nptr) : res nptr := root_loop env_fuel w n.

(** [Bucket::dereference()]: nodes own copies of their data, so
    [Node::dereference] does nothing; what is left is the walk. *)
Fixpoint dereference_loop (fuel : nat) (w : World) (b : bptr) : res unit :=
  match fuel with
  | O => Err OutOfFuel
  | S fuel =>
      v ← bucket_of w b;
      _ ← match rootNode_ v with None => Ok tt | Some n => _ ← Node_root w n; Ok tt end;
      (fix go (l : list bptr) : res unit :=
         match l with
         | [] => Ok tt
         | c :: l => _ ← dereference_loop fuel w c; go l
         end) (map_to_list (buckets_ v)).*2
  end.
Definition dereference (w : World) (b : bptr) : res unit := dereference_loop env_fuel w b.

(** [mmapDbFile(targetSize)] *)
Definition mmapDbFile (targetSize : Z) : M bool :=
  ok ← syscall OtherCall;
  if negb ok then ret false
  else
    _ ← syscall OtherCall; (* madvise, its result ignored *)
    _ ← modify (fun w => wset_w_gen (S (w_gen w)) (wset_w_map (Some targetSize) w));
    _ ← upd_db (dset_datasz_ targetSize);
    ret true.

(** [DbMunmap()] *)
Definition DbMunmap : M bool :=
  m ← gets w_map;
  match m with
  | None => ret true
  | Some _ =>
      ok ← syscall OtherCall;
      if negb ok then ret false
      else
        _ ← modify (wset_w_map None);
        _ ← upd_db (dset_datasz_ 0);
        ret true
  end.

(** [initMeta(InitialMMapSize)] after the lock is taken and until it is
    released. *)
Definition initMeta_locked (InitialMMapSize : Z) : M Z :=
  d ← get_db;
  if filesz_ d <? wrap32 (DB_pageSize_ d * 2) then ret (-1)
  else
    '(r, targetSize) ← lift (getMmapSize (Z.max (filesz_ d) InitialMMapSize));
    if negb (r =? 0) then ret (-1)
    else
      _ ← match rwtx_ d with
          | None => ret tt
          | Some t => reads (fun w => v ← tx_of w t; dereference w (rootBucket_ v))
          end;
      unmapped ← DbMunmap;
      if negb unmapped then ret (-1)
      else
        mapped ← mmapDbFile targetSize;
        if negb mapped then ret (-1)
        else
          _ ← modify (fun w => wset_w_db
                (dset_meta0_ (Some (ptr_add (getPagePtr w 0) PAGEHEADERSIZE))
                  (dset_meta1_ (Some (ptr_add (getPagePtr w 1) PAGEHEADERSIZE)) (w_db w))) w);
          m0 ← reads (fun w => meta_at w (meta0_ (w_db w)));
          if validate m0 then ret 0
          else
            m1 ← reads (fun w => meta_at w (meta1_ (w_db w)));
            if validate m1 then ret 0 else ret (-1).

(** [initMeta(InitialMMapSize)] *)
Definition initMeta (InitialMMapSize : Z) : M Z :=
  locked ← getMmapWLock;
  _ ← massert locked;
  r ← initMeta_locked InitialMMapSize;
  _ ← unlockMmapLock;
  ret r.

(** ** Allocation *)

(** [rwtx_->getMeta()] *)
Definition rwtx_meta : M (txptr * meta) :=
  reads (fun w => t ← deref (rwtx_ (w_db w)); v ← tx_of w t; mt ← deref (metaData_ v); Ok (t, mt)).

Definition meta_set_total (z : Z) (mt : meta) : meta :=
  {| magic_ := magic_ mt; version_ := version_ mt; pageSize_ := pageSize_ mt;
     flags_ := flags_ mt; root_ := root_ mt; freeListPageNumber_ := freeListPageNumber_ mt;
     totalPageNumber_ := z; txid_ := txid_ mt; checksum_ := checksum_ mt |}.

(** [delete ptr] *)
Definition delete_block (p : PagePtr) : M unit :=
  match p with
  | PHeap b _ => modify (fun w => wset_w_blocks (delete b (w_blocks w)) w)
  | _ => fail UseAfterFree
  end.

(** The last lines of [allocate]: the new pages are counted. *)
Definition allocate_top (ptr : PagePtr) (numPages : Z) : M (option PagePtr) :=
  '(t, mt) ← rwtx_meta;
  _ ← upd_tx t (tset_metaData_ (Some (meta_set_total (wrap64 (totalPageNumber_ mt + numPages)) mt)));
  ret (Some ptr).

(** [DB::allocate(numPages, tx)] *)
Definition DB_allocate (numPages : Z) : M (option PagePtr) :=
  d ← get_db;
  let len := wrap32 (numPages * DB_pageSize_ d) in
  _ ← massert (numPages <? 0x1000);
  ptr ← new_block len;
  _ ← page_write ptr (fun m p => Page_set_overflow m p (wrap32 (numPages - 1)));
  '(pg, f) ← lift (FreeList.allocate (freeList_ d) numPages);
  _ ← upd_db (dset_freeList_ f);
  if negb (pg =? 0) then
    _ ← page_write ptr (fun m p => Page_set_id m p pg);
    ret (Some ptr)
  else
    '(_, mt) ← rwtx_meta;
    let id := totalPageNumber_ mt in
    _ ← page_write ptr (fun m p => Page_set_id m p id);
    let minLen := to_int (wrap64 (wrap64 (id + numPages + 1) * DB_pageSize_ d)) in
    if datasz_ d <? minLen then
      stat ← syscall OtherCall;
      if negb stat then fail LogFatal
      else
        r ← initMeta (wrap32 minLen);
        if negb (r =? 0) then _ ← delete_block ptr; ret None
        else allocate_top ptr numPages
    else allocate_top ptr numPages.

(** [DB::grow(sz)] *)
Definition grow (sz : Z) : M Z :=
  d ← get_db;
  if sz <=? filesz_ d then ret 0
  else
    let sz := if datasz_ d <=? AllocSize_ d then wrap32 (datasz_ d)
              else wrap32 (sz + AllocSize_ d) in
    if negb (NoGrowSync_ d) && negb (readOnly_ d) then
      ok ← syscall (Ftruncate sz);
      if negb ok then ret (-1)
      else
        _ ← modify (fun w => wset_w_file (file_truncate (w_file w) sz) w);
        ok ← syscall Fsync;
        if negb ok then ret (-1)
        else _ ← upd_db (dset_filesz_ sz); ret 0
    else _ ← upd_db (dset_filesz_ sz); ret 0.

(** ** Pages of a transaction *)

(** [tx->metaData_->...] *)
Definition tx_meta (w : World) (t : txptr) : res meta := v ← tx_of w t; deref (metaData_ v).

(** [Tx::getPage(pageId)] *)
Definition getPage (w : World) (t : txptr) (pageId : Z) : res (option PagePtr) :=
  v ← tx_of w t;
  mt ← deref (metaData_ v);
  if totalPageNumber_ mt <=? pageId then Ok None
  else
    match dirtyPageTable_ v !! pageId with
    | Some p => Ok (Some p)
    | None => Ok (Some (getPagePtr w pageId))
    end.

(** [Tx::allocate(count)] *)
Definition Tx_allocate (t : txptr) (count : Z) : M (option PagePtr) :=
  r ← DB_allocate count;
  match r with
  | None => ret None
  | Some p =>
      id ← page_read p Page_id;
      d ← get_db;
      _ ← upd_tx t (fun v => tset_dirtyPageTable_ (<[id := p]> (dirtyPageTable_ v)) v);
      _ ← upd_tx t (fun v => tset_pageCount (wrap64 (pageCount v + 1)) v);
      _ ← upd_tx t (fun v =>
            tset_pageAlloc (wrap64 (pageAlloc v + wrap32 (count * DB_pageSize_ d))) v);
      ret (Some p)
  end.

(** [Tx::free(tid, page)] *)
Definition Tx_free (tid : Z) (page : option PagePtr) : M unit :=
  p ← lift (deref page);
  id ← page_read p Page_id;
  ov ← page_read p Page_overflow;
  d ← get_db;
  f ← lift (FreeList.free (freeList_ d) tid id ov);
  upd_db (dset_freeList_ f).

(** [Tx::increaseCurserCount()] *)
Definition increaseCurserCount (t : txptr) : M unit :=
  upd_tx t (fun v => tset_cursorCount (wrap64 (cursorCount v + 1)) v).
End env.

(** ** Lemmas *)

Lemma to_int_id z : 0 <= z < 2 ^ 31 -> to_int z = z.
Proof. intros Hz. unfold to_int. rewrite wrap_id by lia. destruct (Z.ltb_spec z (2 ^ 31)); lia. Qed.

Lemma getMmapSize_loop_spec n i t :
  0 <= i ->
  match getMmapSize_loop n i t with
  | Some s => exists j, i <= j < i + Z.of_nat n /\ s = 2 ^ j /\ t <= s /\
      forall k, i <= k < j -> 2 ^ k < t
  | None => forall k, i <= k < i + Z.of_nat n -> 2 ^ k < t
  end.
Proof.
  revert i. induction n as [|n IH]; intros i Hi; cbn [getMmapSize_loop]; [lia|].
  destruct (Z.leb_spec t (2 ^ i)).
  - exists i. split_and!; done || lia.
  - specialize (IH (i + 1) ltac:(lia)). destruct (getMmapSize_loop n (i + 1) t) as [s|].
    + destruct IH as (j&?&->&?&Hk). exists j. split_and!; try done; try lia. intros k Hik.
      destruct (decide (k = i)) as [->|]; [done|]. apply Hk. lia.
    + intros k Hik. destruct (decide (k = i)) as [->|]; [done|]. apply IH. lia.
Qed.

(** A block just allocated. *)
Lemma new_block_ok `{Env} len w :
  new_block len w = Ok (PHeap (fresh_key (w_blocks w)) 0,
    with_block (fresh_key (w_blocks w)) (env_garbage (fresh_key (w_blocks w)) <$> seq 0 (Z.to_nat len)) w).
Proof. done. Qed.

Lemma page_write_ok b o m f m' w :
  w_blocks w !! b = Some m -> f m o = Ok m' -> page_write (PHeap b o) f w = Ok (tt, with_block b m' w).
Proof.
  intros Hb Hf. unfold page_write.
  erewrite bindM_ok by (apply (reads_ok (fun w => the (w_blocks w !! b))); by rewrite Hb). cbn beta.
  erewrite bindM_ok by (by apply lift_ok). done.
Qed.

Lemma with_block_lookup b m w : w_blocks (with_block b m w) !! b = Some m.
Proof. apply lookup_insert_eq. Qed.

Lemma with_block_twice b m m' w : with_block b m (with_block b m' w) = with_block b m w.
Proof. unfold with_block, wset_w_blocks. cbn. f_equal. by rewrite insert_insert_eq. Qed.

Lemma rwtx_meta_ok w t v mt :
  rwtx_ (w_db w) = Some t -> tx_of w t = Ok v -> metaData_ v = Some mt ->
  rwtx_meta w = Ok ((t, mt), w).
Proof. intros Hr Ht Hm. unfold rwtx_meta, reads. rewrite Hr. cbn. rewrite Ht. cbn. by rewrite Hm. Qed.

#[export] Hint Resolve new_block_ok page_write_ok with_block_lookup : run.

Lemma with_tx_id t v w : tx_of w t = Ok v -> with_tx t v w = w.
Proof.
  intros Ht%the_ok. unfold with_tx. rewrite insert_id by done. by destruct w.
Qed.

Lemma tset_metaData_id v mt : metaData_ v = Some mt -> tset_metaData_ (Some mt) v = v.
Proof. intros H. destruct v; cbn in *. by subst. Qed.

(** The state after an allocation: the fresh block, the free list and the
    transaction's meta record. *)
Definition allocated (b : nat) (m : list byte) (f' : freeList) (t : txptr) (v : Tx) (mt : meta) (w : World) : World :=
  with_tx t (tset_metaData_ (Some mt) v) (wset_w_db (dset_freeList_ f' (w_db w)) (with_block b m w)).

Lemma DB_allocate_ok `{Env} w t v mt n r f' :
  rwtx_ (w_db w) = Some t -> tx_of w t = Ok v -> metaData_ v = Some mt ->
  1 <= n < 4096 -> 16 <= DB_pageSize_ (w_db w) -> n * DB_pageSize_ (w_db w) < 2 ^ 31 ->
  FreeList.allocate (freeList_ (w_db w)) n = Ok (r, f') -> 0 <= r < 2 ^ 64 ->
  0 <= totalPageNumber_ mt -> (totalPageNumber_ mt + n + 1) * DB_pageSize_ (w_db w) < 2 ^ 31 ->
  (r = 0 -> (totalPageNumber_ mt + n + 1) * DB_pageSize_ (w_db w) <= datasz_ (w_db w)) ->
  let b := fresh_key (w_blocks w) in
  exists m, DB_allocate n w = Ok (Some (PHeap b 0),
      allocated b m f' t v (if r =? 0 then meta_set_total (totalPageNumber_ mt + n) mt else mt) w) /\
    Z.of_nat (length m) = n * DB_pageSize_ (w_db w) /\
    Page_overflow m 0 = Ok (n - 1) /\
    Page_id m 0 = Ok (if r =? 0 then totalPageNumber_ mt else r).
Proof.
  intros Hrw Ht Hmt Hn Hps Hlen Hal Hr Htot Hmin Hroom b. unfold DB_allocate.
  erewrite bindM_ok by apply get_db_ok. cbn beta zeta.
  set (ps := DB_pageSize_ (w_db w)) in *.
  rewrite (wrap_id 32 (n * ps)) by nia. rewrite (proj2 (Z.ltb_lt n 4096)) by lia.
  erewrite bindM_ok by (by apply massert_ok). cbn beta.
  erewrite bindM_ok by apply new_block_ok. cbn beta. fold b.
  set (m0 := env_garbage b <$> _).
  assert (Z.of_nat (length m0) = n * ps) as Hm0 by (unfold m0; rewrite length_fmap, length_seq; lia).
  destruct (store_succeeds 4 m0 (0 + 12) (wrap32 (n - 1))) as [m1 Hm1]; [lia|nia|].
  erewrite bindM_ok by (eapply page_write_ok; [apply with_block_lookup|exact Hm1]). cbn beta.
  rewrite with_block_twice. pose proof (store_length _ _ _ _ _ Hm1) as Hl1.
  erewrite bindM_ok by (apply lift_ok; exact Hal). cbn beta iota.
  erewrite bindM_ok by apply upd_db_ok. cbn beta.
  set (id := if r =? 0 then totalPageNumber_ mt else r).
  assert (0 <= id < 2 ^ 64) as Hid by (unfold id; destruct (Z.eqb_spec r 0); nia).
  destruct (store_succeeds 8 m1 0 id) as [m2 Hm2]; [lia|nia|].
  pose proof (store_length _ _ _ _ _ Hm2) as Hl2. exists m2.
  assert (Page_id m2 0 = Ok id /\ Page_overflow m2 0 = Ok (n - 1)) as [Hpid Hpov].
  { unfold Page_id, Page_overflow. split.
    - erewrite load_store_same by exact Hm2. f_equal. apply Z.mod_small. width_lia.
    - erewrite load_store_other by (exact Hm2 || lia). erewrite load_store_same by exact Hm1.
      f_equal. rewrite wrap_id by lia. apply Z.mod_small. width_lia. }
  assert (forall P, w_blocks (wset_w_db (dset_freeList_ f' (w_db (with_block b m1 w))) (with_block b m1 w)) = P ->
    P !! b = Some m1) as Hb by (intros P <-; apply with_block_lookup).
  split; [|split_and!; [lia|done|done]]. unfold id. destruct (Z.eqb_spec r 0) as [->|Hr0]; cbn [negb].
  - erewrite bindM_ok by (by eapply rwtx_meta_ok).
    cbn beta iota. erewrite bindM_ok by (eapply page_write_ok; [by eapply Hb|exact Hm2]). cbn beta.
    specialize (Hroom eq_refl).
    rewrite (wrap_id 64 (totalPageNumber_ mt + n + 1)) by nia. rewrite wrap_id by nia. rewrite to_int_id by nia.
    rewrite (proj2 (Z.ltb_ge _ _)) by lia. unfold allocate_top.
    erewrite bindM_ok by (by eapply rwtx_meta_ok).
    cbn beta iota. erewrite bindM_ok by (apply upd_tx_ok; exact Ht). cbn beta.
    rewrite wrap_id by nia. unfold allocated, ret, mret, M_ret, with_block, with_tx, wset_w_blocks, wset_w_db, wset_w_txs.
    cbn. by rewrite insert_insert_eq.
  - erewrite bindM_ok by (eapply page_write_ok; [by eapply Hb|exact Hm2]). cbn beta.
    unfold allocated. rewrite tset_metaData_id, with_tx_id by done.
    unfold ret, mret, M_ret, with_block, wset_w_blocks, wset_w_db. cbn. by rewrite insert_insert_eq.
Qed.

(** ** Properties *)

(** [DB::getMmapSize] gives the least power of two from 32 KB to 1 GB
    that holds the size asked for; above 1 GB it asserts, and only above 2 GB
    does it return its error. *)
Lemma getMmapSize_least_power t :
  0 <= t < 2 ^ 32 ->
  (t <= 2 ^ 30 -> exists i, getMmapSize t = Ok (0, 2 ^ i) /\ 15 <= i <= 30 /\ t <= 2 ^ i /\
     forall j, 15 <= j -> t <= 2 ^ j -> 2 ^ i <= 2 ^ j) /\
  (2 ^ 30 < t <= MAXMAPSIZE -> getMmapSize t = Err AssertFailed) /\
  (MAXMAPSIZE < t -> getMmapSize t = Ok (-1, t)).
Proof.
  intros Ht. unfold getMmapSize. pose proof (getMmapSize_loop_spec 16 15 t ltac:(lia)) as Hs.
  unfold MAXMAPSIZE. destruct (getMmapSize_loop 16 15 t) as [s|].
  - destruct Hs as (i&Hi&->&Hti&Hk). assert (2 ^ i <= 2 ^ 30) by (apply Z.pow_le_mono_r; lia).
    split_and!; [|lia|lia]. intros _. exists i. split_and!; [done|lia|lia|done|].
    intros j Hj Htj. destruct (Z.lt_ge_cases j i); [specialize (Hk j ltac:(lia)); lia|].
    apply Z.pow_le_mono_r; lia.
  - pose proof (Hs 30 ltac:(lia)). split_and!; [lia| |].
    + intros ?. by rewrite (proj2 (Z.ltb_ge _ _)) by lia.
    + intros ?. by rewrite (proj2 (Z.ltb_lt _ _)) by lia.
Qed.

(** C18. [DB::allocate] hands out a fresh block of whole pages whose header
    holds its overflow and its id: the first page of a run of the free list,
    which loses that run, or else the first page past the end, which moves;
    no other block and no other part of the meta record changes.  The mapping
    is large enough here, so that it stays as it is. *)
Theorem DB_allocate_page `{Env} w t v mt n r f' :
  rwtx_ (w_db w) = Some t -> tx_of w t = Ok v -> metaData_ v = Some mt ->
  1 <= n < 4096 -> 16 <= DB_pageSize_ (w_db w) -> n * DB_pageSize_ (w_db w) < 2 ^ 31 ->
  FreeList.allocate (freeList_ (w_db w)) n = Ok (r, f') -> 0 <= r < 2 ^ 64 ->
  0 <= totalPageNumber_ mt -> (totalPageNumber_ mt + n + 1) * DB_pageSize_ (w_db w) < 2 ^ 31 ->
  (r = 0 -> (totalPageNumber_ mt + n + 1) * DB_pageSize_ (w_db w) <= datasz_ (w_db w)) ->
  exists b m w', DB_allocate n w = Ok (Some (PHeap b 0), w') /\
    w_blocks w !! b = None /\ w_blocks w' = <[b := m]> (w_blocks w) /\
    Z.of_nat (length m) = n * DB_pageSize_ (w_db w) /\
    Page_overflow m 0 = Ok (n - 1) /\
    Page_id m 0 = Ok (if r =? 0 then totalPageNumber_ mt else r) /\
    w_db w' = dset_freeList_ f' (w_db w) /\
    tx_meta w' t = Ok (if r =? 0 then meta_set_total (totalPageNumber_ mt + n) mt else mt) /\
    w_file w' = w_file w /\ w_map w' = w_map w /\ w_gen w' = w_gen w.
Proof.
  intros Hrw Ht Hmt Hn Hps Hlen Hal Hr Htot Hmin Hroom.
  destruct (DB_allocate_ok w t v mt n r f') as (m&Hrun&Hl&Hov&Hid); [done..|].
  eexists _, m, _. split; [exact Hrun|]. split; [apply fresh_key_None|]. split_and!; try done.
  unfold tx_meta, allocated. by rewrite tx_of_with.
Qed.

Lemma syscall_other `{Env} w :
  syscall OtherCall w = Ok (env_syscall (length (w_calls w)), wset_w_calls (OtherCall :: w_calls w) w).
Proof. unfold syscall. by destruct (env_syscall _). Qed.

Lemma syscall_ok `{Env} c w :
  let ok := env_syscall (length (w_calls w)) in
  syscall c w = Ok (ok, wset_w_calls ((if ok then c else OtherCall) :: w_calls w) w).
Proof. done. Qed.

(** C31. [DB::grow(sz)] always returns; when it succeeds the database counts
    on a file of at least [sz] bytes, provided the mapping already covers
    [sz] (as [allocate] has it), and, when growing is synchronised, the file
    has exactly the size counted on, with its bytes up to there kept. *)
Theorem grow_covers `{Env} w sz :
  0 <= sz <= datasz_ (w_db w) -> datasz_ (w_db w) < 2 ^ 31 -> 0 <= AllocSize_ (w_db w) < 2 ^ 31 ->
  exists r w', grow sz w = Ok (r, w') /\ (r = 0 \/ r = -1) /\
    (r = 0 -> sz <= filesz_ (w_db w') /\
       (filesz_ (w_db w) < sz -> NoGrowSync_ (w_db w) = false -> readOnly_ (w_db w) = false ->
          Z.of_nat (length (w_file w')) = filesz_ (w_db w') /\
          forall i, (i < length (w_file w))%nat -> Z.of_nat i < filesz_ (w_db w') ->
            w_file w' !! i = w_file w !! i)).
Proof.
  intros Hsz Hd Ha. unfold grow. erewrite bindM_ok by apply get_db_ok. cbn beta.
  destruct (Z.leb_spec sz (filesz_ (w_db w))) as [Hle|Hlt].
  { exists 0, w. split_and!; [done|by left|]. intros _. split; [done|lia]. }
  set (sz' := if datasz_ (w_db w) <=? AllocSize_ (w_db w) then _ else _).
  assert (sz <= sz') as Hsz'.
  { unfold sz'. destruct (Z.leb_spec (datasz_ (w_db w)) (AllocSize_ (w_db w))); rewrite wrap_id by lia; lia. }
  destruct (NoGrowSync_ (w_db w)) eqn:En; cbn [negb andb];
    [|destruct (readOnly_ (w_db w)) eqn:Er; cbn [negb]].
  1-2: eexists 0, _; split; [reflexivity|]; split_and!; [by left|]; intros _; split; [done|]; intros; congruence.
  erewrite bindM_ok by apply syscall_ok. cbn beta. destruct (env_syscall (length (w_calls w))); cbn [negb].
  2: { eexists (-1), _. split; [reflexivity|]. split; [by right|lia]. }
  erewrite bindM_ok by reflexivity. cbn beta. erewrite bindM_ok by apply syscall_ok. cbn beta.
  match goal with |- context [env_syscall ?k] => destruct (env_syscall k) end; cbn [negb].
  2: { eexists (-1), _. split; [reflexivity|]. split; [by right|lia]. }
  eexists 0, _. split; [reflexivity|]. split; [by left|]. intros _. cbn. split; [done|].
  intros _ _ _. split; [apply file_truncate_length; lia|]. intros i ? ?. by apply file_truncate_lookup.
Qed.

(** ** Witnesses *)

Lemma getMmapSize_least_power_witness :
  (16384 <= 2 ^ 30 -> exists i, getMmapSize 16384 = Ok (0, 2 ^ i) /\ 15 <= i <= 30 /\ 16384 <= 2 ^ i /\
     forall j, 15 <= j -> 16384 <= 2 ^ j -> 2 ^ i <= 2 ^ j) /\
  (2 ^ 30 < 16384 <= MAXMAPSIZE -> getMmapSize 16384 = Err AssertFailed) /\
  (MAXMAPSIZE < 16384 -> getMmapSize 16384 = Ok (-1, 16384)).
Proof. apply (getMmapSize_least_power 16384). lia. Defined.

Definition ex_meta : meta :=
  {| magic_ := MAGIC; version_ := VERSION; pageSize_ := 4096; flags_ := 0;
     root_ := {| root := 3; sequence := 0 |}; freeListPageNumber_ := 2; totalPageNumber_ := 4;
     txid_ := 2; checksum_ := 0 |}.
Definition ex_tx : Tx :=
  {| writable_ := true; managed_ := false; db_ := true; metaData_ := Some ex_meta;
     rootBucket_ := 0%nat; dirtyPageTable_ := ∅; pageCount := 0; pageAlloc := 0; cursorCount := 0 |}.
Definition ex_tx_world : World :=
  wset_w_db (dset_rwtx_ (Some 0%nat) sample_db) (with_tx 0%nat ex_tx empty_world).

Lemma DB_allocate_page_witness :
  exists b m w', DB_allocate (H:=sample_env) 1 ex_tx_world = Ok (Some (PHeap b 0), w') /\
    w_blocks ex_tx_world !! b = None /\ w_blocks w' = <[b := m]> (w_blocks ex_tx_world) /\
    Z.of_nat (length m) = 1 * 4096 /\
    Page_overflow m 0 = Ok (1 - 1) /\
    Page_id m 0 = Ok (if 0 =? 0 then 4 else 0) /\
    w_db w' = dset_freeList_ freeList_new (w_db ex_tx_world) /\
    tx_meta w' 0%nat = Ok (if 0 =? 0 then meta_set_total (4 + 1) ex_meta else ex_meta) /\
    w_file w' = w_file ex_tx_world /\ w_map w' = w_map ex_tx_world /\ w_gen w' = w_gen ex_tx_world.
Proof.
  apply (DB_allocate_page (H:=sample_env) ex_tx_world 0%nat ex_tx ex_meta 1 0 freeList_new);
    try reflexivity; cbn; try done; lia.
Defined.

Lemma grow_covers_witness :
  exists r w', grow (H:=sample_env) 20480 ex_tx_world = Ok (r, w') /\ (r = 0 \/ r = -1) /\
    (r = 0 -> 20480 <= filesz_ (w_db w') /\
       (filesz_ (w_db ex_tx_world) < 20480 -> NoGrowSync_ (w_db ex_tx_world) = false ->
        readOnly_ (w_db ex_tx_world) = false ->
          Z.of_nat (length (w_file w')) = filesz_ (w_db w') /\
          forall i, (i < length (w_file ex_tx_world))%nat -> Z.of_nat i < filesz_ (w_db w') ->
            w_file w' !! i = w_file ex_tx_world !! i)).
Proof. apply (grow_covers (H:=sample_env) ex_tx_world 20480); cbn; lia. Defined.
