(* ===== verification/Tree.v ===== *)
(** * Tree.v: nodes linked in a tree (src/src/Bolt/node.cc, bucket.cc)

    The operations of [Node] that follow its links to its parent, children
    and bucket, with the part of [Bucket] they rely on: the cache of nodes
    by page id, and the materialisation of a node from its page. *)
From S2P Require Import Bytes.
From S2P Require Import Page.
From S2P Require Import FreeList.
From S2P Require Import Meta.
From S2P Require Import Node.
From S2P Require Import World.
From S2P Require Import Pager.

(** ** Constants of bucket.h *)

Definition MINFILLPERCENT : Q := 1 # 10.
Definition MAXFILLPERCENT : Q := 1.
Definition DEFAULTFILLPERCENT : Q := 1 # 2.

(** [Bucket::Bucket(tx)] *)
Definition Bucket_new (t : txptr) : Bucket :=
  {| bucketHeader_ := bucketHeader_reset; tx_ := t; buckets_ := ∅; page_ := None;
     rootNode_ := None; nodes_ := ∅; fillPercent_ := DEFAULTFILLPERCENT;
     Bucket_parentNode_ := None |}.

(** ** The node cache of a bucket *)

(** [getCachedNode(pgid)] *)
Definition getCachedNode (w : World) (b : bptr) (pgid : Z) : res (option nptr) :=
  v ← bucket_of w b; Ok (nodes_ v !! pgid).

(** [eraseCachedNode(pgid)] *)
Definition eraseCachedNode (b : bptr) (pgid : Z) : M unit :=
  upd_bucket b (fun v => bset_nodes_ (delete pgid (nodes_ v)) v).

(** [Bucket::getNode(pgid, parentNode)]: the parameter [parentNode] is not
    used, the member [parentNode_] is. *)
Definition getNode (b : bptr) (pgid : Z) (parentNode : option nptr) : M nptr :=
  v ← get_bucket b;
  match nodes_ v !! pgid with
  | Some n => ret n
  | None =>
      node ← new_node (Node_new b (Bucket_parentNode_ v));
      _ ← match Bucket_parentNode_ v with
          | None => upd_bucket b (bset_rootNode_ (Some node))
          | Some p => upd_node p (addChild node)
          end;
      v ← get_bucket b;
      _ ← match page_ v with
          | Some _ => ret tt
          | None =>
              p ← reads (fun w => getPage w (tx_ v) pgid);
              upd_bucket b (bset_page_ p)
          end;
      v ← get_bucket b;
      p ← match page_ v with Some p => ret p | None => fail LogFatal end;
      n ← get_node node;
      n' ← page_read p (fun m o => Node.read n m o);
      _ ← put_node node n';
      _ ← upd_bucket b (fun v => bset_nodes_ (<[pgid := node]> (nodes_ v)) v);
      ret node
  end.

(** [Bucket::getPageNode(pageId, node, page)]: [node] and [page] *)
Definition getPageNode (w : World) (b : bptr) (pageId : Z)
    : res (option nptr * option PagePtr) :=
  v ← bucket_of w b;
  if root (bucketHeader_ v) =? 0 then
    match rootNode_ v with
    | Some n => Ok (Some n, None)
    | None => Ok (None, page_ v)
    end
  else
    match nodes_ v !! pageId with
    | Some n => Ok (Some n, None)
    | None => p ← getPage w (tx_ v) pageId; Ok (None, p)
    end.

(** [Bucket::getTotalPageNumber()], a [uint32_t] *)
Definition getTotalPageNumber (w : World) (b : bptr) : res Z :=
  v ← bucket_of w b; mt ← tx_meta w (tx_ v); Ok (wrap32 (totalPageNumber_ mt)).

(** ** Node operations through the store *)

(** [node->put(...)] *)
Definition Node_put (n : nptr) (oldKey newKey value : Item) (pageId flag : Z) : M bool :=
  v ← get_node n;
  total ← reads (fun w => getTotalPageNumber w (bucket_ v));
  '(r, v) ← lift (Node.put total v oldKey newKey value pageId flag);
  _ ← put_node n v;
  ret r.

(** [node->del(key)] *)
Definition Node_del (n : nptr) (key : Item) : M bool :=
  v ← get_node n;
  '(r, v) ← lift (Node.del v key);
  _ ← put_node n v;
  ret r.

(** [Node::free()] *)
Definition Node_free (n : nptr) : M unit :=
  v ← get_node n;
  if pageId_ v =? 0 then ret tt
  else
    b ← get_bucket (bucket_ v);
    mt ← reads (fun w => tx_meta w (tx_ b));
    p ← reads (fun w => getPage w (tx_ b) (pageId_ v));
    _ ← Tx_free (txid_ mt) p;
    upd_node n (set_pageId 0).

(** [childAt(index)] *)
Definition childAt (n : nptr) (index : Z) : M (option nptr) :=
  v ← get_node n;
  if isLeaf_ v then ret None
  else if index <? 0 then fail OutOfBounds
  else
    match inodeList_ v !! Z.to_nat index with
    | None => fail OutOfBounds
    | Some x => c ← getNode (bucket_ v) (i_pageId x) (Some n); ret (Some c)
    end.

(** [parentNode_->childIndex(this)] *)
Definition parentIndex (w : World) (n : nptr) : res Z :=
  v ← node_of w n;
  p ← deref (parentNode_ v);
  pv ← node_of w p;
  childIndex pv (key_ v).

(** [nextSibling()] *)
Definition nextSibling (n : nptr) : M (option nptr) :=
  v ← get_node n;
  match parentNode_ v with
  | None => ret None
  | Some p =>
      idx ← reads (fun w => parentIndex w n);
      if idx =? 0 then ret None else childAt p (wrap32 (idx + 1))
  end.

(** [prevSibling()] *)
Definition prevSibling (n : nptr) : M (option nptr) :=
  v ← get_node n;
  match parentNode_ v with
  | None => ret None
  | Some p =>
      idx ← reads (fun w => parentIndex w n);
      if idx =? 0 then ret None else childAt p (idx - 1)
  end.

(** ** Splitting *)

(** The threshold of [splitTwo]: the fill percentage of a page. *)
Definition fillThreshold (fill : Q) (pageSize : Z) : Z :=
  let fill := if Qle_bool MINFILLPERCENT fill then fill else MINFILLPERCENT in
  let fill := if Qle_bool fill MAXFILLPERCENT then fill else MAXFILLPERCENT in
  wrap32 (Qfloor (inject_Z pageSize * fill)).

(** Whether [splitTwo] leaves the node whole. *)
Definition fits (v : Node) (pageSize : Z) : bool :=
  (Z.of_nat (length (inodeList_ v)) <=? MINKEYSPERPAGE * 2) || sizeLessThan v pageSize.

(** [splitTwo(pageSize)]: the pair [a], [b], [b] null when nothing is split *)
Definition splitTwo (n : nptr) (pageSize : Z) : M (nptr * option nptr) :=
  v ← get_node n;
  if fits v pageSize then ret (n, None)
  else
    b ← get_bucket (bucket_ v);
    index ← lift (splitIndex v (fillThreshold (fillPercent_ b) pageSize));
    _ ← match parentNode_ v with
        | Some _ => ret tt
        | None =>
            p ← new_node (Node_new (bucket_ v) None);
            _ ← upd_node n (setParentNode (Some p));
            upd_node p (addChild n)
        end;
    v ← get_node n;
    p ← lift (deref (parentNode_ v));
    newNode ← new_node (set_inodeList (drop (Z.to_nat index) (inodeList_ v))
                (set_isLeaf (isLeaf_ v) (Node_new (bucket_ v) (Some p))));
    _ ← upd_node p (addChild newNode);
    _ ← upd_node n (set_inodeList (take (Z.to_nat index) (inodeList_ v)));
    ret (n, Some newNode).

(** The loop of [split]: [cur] splits until it is whole. *)
Fixpoint split_loop (fuel : nat) (cur : nptr) (pageSize : Z) : M (list nptr) :=
  match fuel with
  | O => fail OutOfFuel
  | S fuel =>
      '(a, b) ← splitTwo cur pageSize;
      match b with
      | None => ret [a]
      | Some b => l ← split_loop fuel b pageSize; ret (a :: l)
      end
  end.

(** [split(pageSize)]: each round moves inodes, so their number is fuel
    enough. *)
Definition split (n : nptr) (pageSize : Z) : M (list nptr) :=
  v ← get_node n; split_loop (S (length (inodeList_ v))) n pageSize.

(** ** Spilling *)

(** [inodeList_.front().key] *)
Definition front_key (v : Node) : res Item :=
  match inodeList_ v with [] => Err OutOfBounds | x :: _ => Ok (i_key x) end.

Section env.
Context `{Env}.

Definition node_le (a b : nptr) : Prop := env_node_addr a <= env_node_addr b.
#[export] Instance node_le_dec a b : Decision (node_le a b).
Proof. unfold node_le. apply _. Defined.

(** [std::sort(children_.begin(), children_.end())], by pointer value *)
Definition sort_nodes (l : list nptr) : list nptr := merge_sort node_le l.

(** [node->write(page)] *)
Definition Node_write (n : nptr) (p : PagePtr) : M unit :=
  v ← get_node n;
  let base := match p with PHeap b _ => env_page_addr (PHeap b 0) | p => env_page_addr p end in
  page_write p (fun m o => Node.write base (env_item_addr n) v m o).

(** The entry of a spilled node in its parent: the inode of the node's old
    first key is replaced, or a new one inserted. *)
Definition spill_parent (self node p : nptr) : M unit :=
  v ← get_node node;
  sv ← get_node self;
  k ← (if length_ (key_ v) =? 0 then lift (front_key sv) else ret (key_ v));
  first ← lift (front_key v);
  _ ← Node_put p k first Item_empty (pageId_ v) 0;
  _ ← upd_node node (set_key first);
  massert (0 <? length_ k).

(** The body of [spill]'s loop over the nodes of the split; [self] is [this].
    False when no page could be allocated. *)
Definition spill_one (self : nptr) (t : txptr) (node : nptr) : M bool :=
  v ← get_node node;
  mt ← reads (fun w => tx_meta w t);
  _ ← (if 0 <? pageId_ v then
         old ← reads (fun w => getPage w t (pageId_ v)); Tx_free (txid_ mt) old
       else ret tt);
  sv ← get_node self;
  page ← Tx_allocate t (wrap32 (size sv / 4096 + 1));
  match page with
  | None => ret false
  | Some page =>
      id ← page_read page Page_id;
      mt ← reads (fun w => tx_meta w t);
      _ ← massert (negb (wrap32 (totalPageNumber_ mt) <=? id));
      _ ← upd_node node (set_pageId id);
      _ ← Node_write node page;
      _ ← upd_node node (set_spilled true);
      v ← get_node node;
      _ ← match parentNode_ v with
          | None => ret tt
          | Some p => spill_parent self node p
          end;
      ret true
  end.

(** The loop over the nodes of the split. *)
Fixpoint spill_nodes (self : nptr) (t : txptr) (l : list nptr) : M bool :=
  match l with
  | [] => ret true
  | node :: l =>
      ok ← spill_one self t node;
      if ok : bool then spill_nodes self t l else ret false
  end.

(** The loop over [children_], whose size is read again each time; [spill] is
    the recursive call. True when a child's [spill] returned true. *)
Fixpoint spill_children (spill : nptr -> M bool) (fuel : nat) (n : nptr) (i : nat) : M bool :=
  match fuel with
  | O => fail OutOfFuel
  | S fuel =>
      v ← get_node n;
      match children_ v !! i with
      | None => ret false
      | Some c =>
          r ← spill c;
          if r : bool then ret true else spill_children spill fuel n (S i)
      end
  end.

(** [Node::spill()]; every [return] of the source is [false] or [0]. *)
Fixpoint spill_loop (fuel : nat) (n : nptr) : M bool :=
  match fuel with
  | O => fail OutOfFuel
  | S fuel =>
      v ← get_node n;
      if spilled_ v then ret false
      else
        b ← get_bucket (bucket_ v);
        let t := tx_ b in
        _ ← upd_node n (set_children (sort_nodes (children_ v)));
        stop ← spill_children (spill_loop fuel) env_fuel n 0;
        if stop : bool then ret false
        else
          _ ← upd_node n (set_children []);
          nodes ← split n 4096;
          ok ← spill_nodes n t nodes;
          if negb ok then ret false
          else
            v ← get_node n;
            match parentNode_ v with
            | None => ret false
            | Some p =>
                pv ← get_node p;
                if pageId_ pv =? 0 then
                  _ ← upd_node n (set_children []);
                  spill_loop fuel p
                else ret false
            end
  end.
Definition Node_spill (n : nptr) : M bool := spill_loop env_fuel n.
End env.

(** ** Rebalancing *)

(** The reparenting loop of the root's collapse: a child that is not cached
    is an assertion failure. *)
Fixpoint reparent_cached (b : bptr) (self : nptr) (l : InodeList) : M unit :=
  match l with
  | [] => ret tt
  | item :: l =>
      c ← reads (fun w => getCachedNode w b (i_pageId item));
      match c with
      | None => fail AssertFailed
      | Some c => _ ← upd_node c (setParentNode (Some self)); reparent_cached b self l
      end
  end.

(** The loops that move the cached children of a merged node under [dst]. *)
Fixpoint move_children (b : bptr) (dst : nptr) (l : InodeList) : M unit :=
  match l with
  | [] => ret tt
  | item :: l =>
      c ← reads (fun w => getCachedNode w b (i_pageId item));
      _ ← match c with
          | None => ret tt
          | Some c =>
              cv ← get_node c;
              p ← lift (deref (parentNode_ cv));
              _ ← upd_node p (fun pv => removeChild pv c);
              _ ← upd_node c (setParentNode (Some dst));
              upd_node dst (addChild c)
          end;
      move_children b dst l
  end.

(** [rebalance] of a root: a branch root with one child takes its place. *)
Definition collapse_root (n : nptr) (v : Node) : M unit :=
  match isLeaf_ v, inodeList_ v with
  | false, [x] =>
      child ← getNode (bucket_ v) (i_pageId x) (Some n);
      cv ← get_node child;
      _ ← upd_node n (fun v =>
            set_children (children_ cv) (set_inodeList (inodeList_ cv) (set_isLeaf (isLeaf_ cv) v)));
      _ ← reparent_cached (bucket_ v) n (inodeList_ cv);
      _ ← upd_node child (setParentNode None);
      cv ← get_node child;
      _ ← eraseCachedNode (bucket_ v) (pageId_ cv);
      Node_free child
  | _, _ => ret tt
  end.

(** [node] leaves its parent [p], the cache, and its page. *)
Definition unlink (b : bptr) (p node : nptr) : M unit :=
  v ← get_node node;
  _ ← Node_del p (key_ v);
  _ ← upd_node p (fun pv => removeChild pv node);
  _ ← eraseCachedNode b (pageId_ v);
  Node_free node.

(** The right sibling moves into the node, its parent's first child. *)
Definition merge_right (n : nptr) (v : Node) (p : nptr) : M unit :=
  target ← nextSibling n;
  target ← lift (deref target);
  tv ← get_node target;
  _ ← move_children (bucket_ v) n (inodeList_ tv);
  tv ← get_node target;
  _ ← upd_node n (fun v => set_inodeList (inodeList_ v ++ inodeList_ tv) v);
  unlink (bucket_ v) p target.

(** The node moves into its left sibling. *)
Definition merge_left (n : nptr) (v : Node) (p : nptr) : M unit :=
  target ← prevSibling n;
  target ← lift (deref target);
  tv ← get_node target;
  v ← get_node n;
  _ ← move_children (bucket_ tv) target (inodeList_ v);
  v ← get_node n;
  _ ← upd_node target (fun tv => set_inodeList (inodeList_ tv ++ inodeList_ v) tv);
  unlink (bucket_ v) p n.

(** [Node::rebalance()] *)
Fixpoint rebalance_loop (fuel : nat) (n : nptr) : M unit :=
  match fuel with
  | O => fail OutOfFuel
  | S fuel =>
      v ← get_node n;
      if negb (unbalanced_ v) then ret tt
      else
        _ ← upd_node n (set_unbalanced false);
        if (4096 / 4 <? size v) && (minKeys v <? Z.of_nat (length (inodeList_ v))) then ret tt
        else
          match parentNode_ v with
          | None => collapse_root n v
          | Some p =>
              _ ← (if numChildren v =? 0 then unlink (bucket_ v) p n
                   else
                     pv ← get_node p;
                     _ ← massert (1 <? numChildren pv);
                     idx ← reads (fun w => parentIndex w n);
                     if idx =? 0 then merge_right n v p else merge_left n v p);
              rebalance_loop fuel p
          end
  end.
Definition Node_rebalance `{Env} (n : nptr) : M unit := rebalance_loop env_fuel n.

(** ** Materialising a page *)

(** The bucket once the page [p] is the node [n] of id [id]. *)
Definition materialised (p : PagePtr) (id : Z) (n : nptr) (bv : Bucket) : Bucket :=
  bset_nodes_ (<[id := n]> (nodes_ bv)) (bset_page_ (Some p) (bset_rootNode_ (Some n) bv)).

(** [Bucket::getNode] of an id without a node reads the bucket's page, the
    one of [id] only when it has none yet. *)
Lemma getNode_materialise w b bv p id parent nv :
  bucket_of w b = Ok bv -> nodes_ bv !! id = None -> Bucket_parentNode_ bv = None ->
  page_ bv = Some p \/ page_ bv = None /\ getPage w (tx_ bv) id = Ok (Some p) ->
  on_page w p (fun m o => Node.read (Node_new b None) m o) = Ok nv ->
  let n := fresh_key (w_nodes w) in
  getNode b id parent w = Ok (n, with_bucket b (materialised p id n bv) (with_node n nv w)).
Proof.
  intros Hb Hid Hpar Hp Hread n. unfold getNode. erewrite bindM_ok by (apply get_bucket_ok; exact Hb). cbn beta.
  rewrite Hid. erewrite bindM_ok by apply new_node_ok. cbn beta. fold n. rewrite Hpar.
  erewrite bindM_ok by (apply upd_bucket_ok; exact Hb). cbn beta.
  erewrite bindM_ok by (apply get_bucket_ok, bucket_of_with). cbn beta.
  match goal with |- context [(_ ≫= _) ?w0] => set (w2 := w0) end.
  set (bv2 := bset_page_ (Some p) (bset_rootNode_ (Some n) bv)).
  assert ((match page_ (bset_rootNode_ (Some n) bv) with
    | Some _ => ret tt
    | None => p ← reads (fun w => getPage w (tx_ (bset_rootNode_ (Some n) bv)) id); upd_bucket b (bset_page_ p)
    end) w2 = Ok (tt, with_bucket b bv2 w2)) as Hpage.
  { change (page_ (bset_rootNode_ (Some n) bv)) with (page_ bv). unfold bv2. destruct Hp as [Hp|[Hp Hg]]; rewrite Hp.
    - unfold ret, mret, M_ret. do 2 f_equal. unfold w2. rewrite with_bucket_twice. by destruct bv; cbn in *; subst.
    - erewrite bindM_ok by (apply (reads_ok (fun w => getPage w _ id)); exact Hg). cbn beta.
      apply upd_bucket_ok, bucket_of_with. }
  erewrite bindM_ok by exact Hpage. cbn beta. unfold w2. rewrite with_bucket_twice.
  erewrite bindM_ok by (apply get_bucket_ok, bucket_of_with). cbn beta.
  change (page_ bv2) with (Some p). erewrite bindM_ok by reflexivity. cbn beta.
  erewrite bindM_ok by (apply get_node_ok; apply node_of_with). cbn beta.
  erewrite bindM_ok by (match goal with |- page_read ?q ?g ?w0 = _ => apply (reads_ok (fun w => on_page w q g)) end; exact Hread).
  cbn beta. erewrite bindM_ok by apply put_node_ok. cbn beta.
  erewrite bindM_ok by (apply upd_bucket_ok; apply bucket_of_with). cbn beta.
  unfold ret, mret, M_ret. do 2 f_equal. unfold with_bucket, with_node, wset_w_buckets, wset_w_nodes. cbn.
  by rewrite !insert_insert_eq.
Qed.

(** ** Lemmas on splitting *)

(** The state left by a split of [n] at [i]: the right half in the new node
    [m], the parent [p] with the children [cs] and the other fields of [pv]. *)
Definition split_state (n m p : nptr) (v pv : Node) (i : nat) (w : World) : World :=
  with_node n (set_inodeList (take i (inodeList_ v)) (setParentNode (Some p) v))
    (with_node p (addChild m pv)
      (with_node m (set_inodeList (drop i (inodeList_ v))
                     (set_isLeaf (isLeaf_ v) (Node_new (bucket_ v) (Some p)))) w)).

(** The parent of a node, or the one [splitTwo] makes. *)
Definition parent_or_new (w : World) (n p : nptr) (v pv : Node) : Prop :=
  match parentNode_ v with
  | Some q => p = q /\ node_of w q = Ok pv
  | None => w_nodes w !! p = None /\ pv = addChild n (Node_new (bucket_ v) None)
  end.

Lemma splitTwo_fits w n v ps :
  node_of w n = Ok v -> fits v ps = true -> splitTwo n ps w = Ok ((n, None), w).
Proof. intros Hn Hf. unfold splitTwo. mstep. by rewrite Hf. Qed.

Lemma splitTwo_index w n v b ps :
  node_of w n = Ok v -> bucket_of w (bucket_ v) = Ok b -> fits v ps = false ->
  Forall inode_wf (inodeList_ v) -> page_bytes (inodeList_ v) < 2 ^ 32 ->
  exists i, splitIndex v (fillThreshold (fillPercent_ b) ps) = Ok (Z.of_nat i) /\
    (2 <= i <= length (inodeList_ v) - 3)%nat /\ (4 < length (inodeList_ v))%nat /\
    ((2 < i)%nat -> page_bytes (take i (inodeList_ v)) <= fillThreshold (fillPercent_ b) ps).
Proof.
  intros Hn Hb Hf Hw Hp. unfold fits in Hf. apply orb_false_iff in Hf as [Hl _]. zb.
  unfold MINKEYSPERPAGE in Hl.
  destruct (splitIndex_bounds v (fillThreshold (fillPercent_ b) ps)) as (i&?&?&?&_); [done|done|lia|].
  exists i. split_and!; done || lia.
Qed.

(** A split under an existing parent. *)
Lemma splitTwo_parent w n v b q qv ps i :
  node_of w n = Ok v -> bucket_of w (bucket_ v) = Ok b -> fits v ps = false ->
  splitIndex v (fillThreshold (fillPercent_ b) ps) = Ok (Z.of_nat i) ->
  parentNode_ v = Some q -> node_of w q = Ok qv -> q <> n ->
  let m := fresh_key (w_nodes w) in
  splitTwo n ps w = Ok ((n, Some m), split_state n m q v qv i w).
Proof.
  intros Hn Hb Hf Hi Hq Hqv Hne m. pose proof (fresh_node_ne _ _ _ Hn) as Hmn.
  pose proof (fresh_node_ne _ _ _ Hqv) as Hmq. fold m in Hmn, Hmq.
  unfold splitTwo. mstep. rewrite Hf. mstep. mstep. rewrite Hq. mstep. mstep.
  rewrite Hq. erewrite bindM_ok by reflexivity. cbn beta. rewrite Nat2Z.id.
  erewrite bindM_ok by apply new_node_ok. cbn beta. fold m.
  erewrite bindM_ok by (apply upd_node_ok; rewrite node_of_with_ne by done; exact Hqv). cbn beta.
  erewrite bindM_ok by (apply upd_node_ok; rewrite !node_of_with_ne by done; exact Hn). cbn beta.
  unfold split_state, ret, mret, M_ret. do 4 f_equal. destruct v; cbn in Hq |- *. by subst.
Qed.

(** A split of a node without parent makes one. *)
Lemma splitTwo_root w n v b ps i :
  node_of w n = Ok v -> bucket_of w (bucket_ v) = Ok b -> fits v ps = false ->
  splitIndex v (fillThreshold (fillPercent_ b) ps) = Ok (Z.of_nat i) ->
  parentNode_ v = None ->
  exists m p, w_nodes w !! p = None /\ w_nodes w !! m = None /\ m <> p /\
    splitTwo n ps w =
      Ok ((n, Some m), split_state n m p v (addChild n (Node_new (bucket_ v) None)) i w).
Proof.
  intros Hn Hb Hf Hi Hq. pose proof (fresh_node_ne _ _ _ Hn) as Hpn.
  unfold splitTwo. mstep. rewrite Hf. mstep. mstep. rewrite Hq. set (p := fresh_key (w_nodes w)) in *.
  set (pv := Node_new (bucket_ v) None). set (v' := setParentNode (Some p) v).
  erewrite bindM_ok; cycle 1.
  { erewrite bindM_ok by apply new_node_ok. cbn beta. fold p pv.
    erewrite bindM_ok by (apply upd_node_ok; rewrite node_of_with_ne by done; exact Hn). cbn beta.
    apply upd_node_ok. rewrite node_of_with_ne by done. apply node_of_with. }
  cbn beta. fold v'. set (w3 := with_node p _ _).
  assert (node_of w3 n = Ok v') as Hn3 by (unfold w3; rewrite node_of_with_ne by done; apply node_of_with).
  mstep. erewrite bindM_ok by reflexivity. cbn beta. rewrite Nat2Z.id.
  pose proof (fresh_node_ne _ _ _ Hn3) as Hmn.
  pose proof (fresh_key_None (w_nodes w3)) as Hm3. set (m := fresh_key (w_nodes w3)) in *.
  cbn in Hm3. rewrite !lookup_insert in Hm3.
  repeat case_decide; try done.
  erewrite bindM_ok by apply new_node_ok. cbn beta. fold m.
  erewrite bindM_ok by (apply upd_node_ok; rewrite node_of_with_ne by done; apply node_of_with). cbn beta.
  erewrite bindM_ok by (apply upd_node_ok; rewrite !node_of_with_ne by done; exact Hn3). cbn beta.
  exists m, p. split_and!; [apply fresh_key_None|done|by apply not_eq_sym|].
  unfold ret, mret, M_ret, split_state, w3, with_node. cbn. do 2 f_equal.
  unfold wset_w_nodes. cbn. f_equal. apply map_eq. intros k.
  rewrite !lookup_insert. by repeat case_decide.
Qed.

(** What one split does, whatever the parent. *)
Lemma splitTwo_splits w n v b ps :
  node_of w n = Ok v -> bucket_of w (bucket_ v) = Ok b -> fits v ps = false ->
  Forall inode_wf (inodeList_ v) -> page_bytes (inodeList_ v) < 2 ^ 32 ->
  (forall q, parentNode_ v = Some q -> q <> n /\ exists qv, node_of w q = Ok qv) ->
  exists m p pv i, splitTwo n ps w = Ok ((n, Some m), split_state n m p v pv i w) /\
    parent_or_new w n p v pv /\ w_nodes w !! m = None /\ m <> n /\ m <> p /\ p <> n /\
    (2 <= i <= length (inodeList_ v) - 3)%nat /\ (4 < length (inodeList_ v))%nat /\
    ((2 < i)%nat -> page_bytes (take i (inodeList_ v)) <= fillThreshold (fillPercent_ b) ps).
Proof.
  intros Hn Hb Hf Hw Hp Hpar.
  destruct (splitTwo_index _ _ _ _ _ Hn Hb Hf Hw Hp) as (i&Hi&Hlen&H4&Hth).
  unfold parent_or_new. destruct (parentNode_ v) as [q|] eqn:Hq.
  - destruct (Hpar q eq_refl) as (Hne&qv&Hqv).
    exists (fresh_key (w_nodes w)), q, qv, i. split_and!; try done; try lia.
    + by eapply splitTwo_parent.
    + apply fresh_key_None.
    + by eapply fresh_node_ne.
    + by eapply fresh_node_ne.
  - destruct (splitTwo_root _ _ _ _ _ _ Hn Hb Hf Hi Hq) as (m&p&Hpf&Hmf&Hmp&Hs).
    exists m, p, (addChild n (Node_new (bucket_ v) None)), i. apply the_ok in Hn.
    split_and!; try done; try lia; intros ->; congruence.
Qed.

(** A piece that is not the last: the minimum of keys, and under the
    threshold unless it has just that minimum. *)
Definition full_piece (th : Z) (x : Node) : Prop :=
  (2 <= length (inodeList_ x))%nat /\
  ((2 < length (inodeList_ x))%nat -> page_bytes (inodeList_ x) <= th).

(** A node made by a split, under the parent [p]: a node as the constructor
    leaves it but for its kind and its inodes. *)
Definition new_piece (v : Node) (p : nptr) (il : list Inode) : Node :=
  set_inodeList il (set_isLeaf (isLeaf_ v) (Node_new (bucket_ v) (Some p))).

(** The outcome of a split: the nodes [n :: l] hold [vs], and their inodes
    are, in order, those of [v]; [l] was added to the parent's children.  The
    first piece is [v] with fewer inodes and that parent, its other fields as
    they were; the others are new nodes of its kind and bucket. *)
Record split_result (w : World) (n : nptr) (v : Node) (ps th : Z) (l : list nptr) (vs : list Node)
    (w' : World) : Prop := {
  sr_nodes : Forall2 (fun m x => node_of w' m = Ok x) (n :: l) vs;
  sr_concat : concat (inodeList_ <$> vs) = inodeList_ v;
  sr_kind : Forall (fun x => isLeaf_ x = isLeaf_ v /\ bucket_ x = bucket_ v) vs;
  sr_pieces : exists vs0 vl, vs = vs0 ++ [vl] /\ fits vl ps = true /\ Forall (full_piece th) vs0;
  sr_new : NoDup (n :: l) /\ Forall (fun m => w_nodes w !! m = None) l;
  sr_world : w' = wset_w_nodes (w_nodes w') w;
  sr_parent : match l with
    | [] => w' = w
    | _ => exists p pv, parent_or_new w n p v pv /\ p ∉ n :: l /\
        node_of w' p = Ok (set_children (children_ pv ++ l) pv) /\
        (exists il ils, vs = set_inodeList il (setParentNode (Some p) v) :: (new_piece v p <$> ils)) /\
        forall k, k ∉ n :: l -> k <> p -> w_nodes w' !! k = w_nodes w !! k
    end;
}.

(** One split and then those of the right half. *)
Lemma split_result_step w n v ps th m p pv i l vs w' :
  node_of w n = Ok v -> parent_or_new w n p v pv -> w_nodes w !! m = None ->
  m <> n -> m <> p -> p <> n ->
  full_piece th (set_inodeList (take i (inodeList_ v)) v) ->
  let w1 := split_state n m p v pv i w in
  let vm := new_piece v p (drop i (inodeList_ v)) in
  split_result w1 m vm ps th l vs w' ->
  split_result w n v ps th (m :: l)
    (set_inodeList (take i (inodeList_ v)) (setParentNode (Some p) v) :: vs) w'.
Proof.
  intros Hn Hpar Hm Hmn Hmp Hpn Hfull w1 vm [Hnodes Hconcat Hkind Hpieces [Hnd Hnew] Hworld Hparent].
  set (vn := set_inodeList _ (setParentNode _ v)).
  assert (node_of w1 n = Ok vn) as Hn1 by apply node_of_with.
  assert (node_of w1 p = Ok (addChild m pv)) as Hp1.
  { unfold w1, split_state. rewrite node_of_with_ne by done. apply node_of_with. }
  assert (node_of w1 m = Ok vm) as Hm1.
  { unfold w1, split_state. rewrite !node_of_with_ne by (by apply not_eq_sym). apply node_of_with. }
  assert (forall k, k <> n -> k <> p -> k <> m -> w_nodes w1 !! k = w_nodes w !! k) as Hfr1.
  { intros k ???. cbn. by rewrite !lookup_insert_ne by done. }
  assert (forall k x, node_of w1 k = Ok x -> k ∉ l) as Hused.
  { intros k x Hk Hl. apply the_ok in Hk. rewrite Forall_forall in Hnew. by rewrite Hnew in Hk. }
  assert (n ∉ m :: l) as Hnl by (apply not_elem_of_cons; split; [done|by eapply Hused]).
  assert (p ∉ m :: l) as Hpl by (apply not_elem_of_cons; split; [done|by eapply Hused]).
  (* what the rest of the split does to [n] and to the parent *)
  assert (exists cs, node_of w' p = Ok (set_children (children_ pv ++ m :: cs) pv) /\ cs = l /\
    (exists ils, vs = new_piece v p <$> ils) /\
    forall k, k ∉ m :: l -> k <> p -> w_nodes w' !! k = w_nodes w1 !! k) as (cs&Hp'&->&Hvs&Hfr).
  { destruct l as [|l0 l].
    - rewrite Hparent in *. exists []. split_and!; [by rewrite Hp1; destruct pv|done| |done].
      apply Forall2_cons_inv_l in Hnodes as (x&vs'&Hx&Hnil&->). apply Forall2_nil_inv_l in Hnil as ->.
      rewrite Hm1 in Hx. injection Hx as <-. by exists [drop i (inodeList_ v)].
    - destruct Hparent as (p'&pv'&Hpar'&_&Hp'&Hvs&Hfr).
      unfold parent_or_new in Hpar'. cbn in Hpar'. destruct Hpar' as [-> Hpv'].
      rewrite Hp1 in Hpv'. injection Hpv' as <-. exists (l0 :: l). split_and!; try done.
      + rewrite Hp'. destruct pv. cbn. by rewrite <-app_assoc.
      + destruct Hvs as (il&ils&->). by exists (il :: ils). }
  assert (node_of w' n = Ok vn) as Hn'.
  { apply the_ok. rewrite Hfr by (done || by apply not_eq_sym). by apply the_ok. }
  split.
  - by constructor.
  - cbn. rewrite Hconcat. cbn. apply take_drop.
  - constructor; [by destruct v|]. eapply Forall_impl; [exact Hkind|]. by intros x [-> ->].
  - destruct Hpieces as (vs0&vl&->&Hfit&Hall). exists (vn :: vs0), vl. split_and!; [done|done|].
    by constructor.
  - split; [by constructor|]. constructor; [done|]. rewrite !Forall_forall in *. intros k Hk.
    specialize (Hnew k Hk). assert (k <> n /\ k <> p /\ k <> m) as (?&?&?).
    { split_and!; intros ->; [..|by apply NoDup_cons in Hnd as [? _]]; set_solver. }
    by rewrite <-Hfr1.
  - rewrite Hworld. done.
  - exists p, pv. split_and!; [done| |exact Hp'|destruct Hvs as [ils ->]; by eexists _, ils|].
    + apply not_elem_of_cons. done.
    + intros k Hk Hkp. apply not_elem_of_cons in Hk as [Hkn Hk]. rewrite Hfr by done.
      apply Hfr1; [done|done|]. set_solver.
Qed.

Lemma split_loop_spec fuel : forall w n v b ps,
  node_of w n = Ok v -> bucket_of w (bucket_ v) = Ok b ->
  Forall inode_wf (inodeList_ v) -> page_bytes (inodeList_ v) < 2 ^ 32 ->
  (forall q, parentNode_ v = Some q -> q <> n /\ exists qv, node_of w q = Ok qv) ->
  (length (inodeList_ v) < fuel)%nat ->
  exists l vs w', split_loop fuel n ps w = Ok (n :: l, w') /\
    split_result w n v ps (fillThreshold (fillPercent_ b) ps) l vs w'.
Proof.
  induction fuel as [|fuel IH]; intros w n v b ps Hn Hb Hw Hp Hpar Hf; [lia|].
  cbn [split_loop]. destruct (fits v ps) eqn:Hfit.
  - erewrite bindM_ok by (by eapply splitTwo_fits). cbn beta iota.
    exists [], [v], w. split; [done|]. split; cbn; try done.
    + by repeat constructor.
    + by rewrite app_nil_r.
    + by repeat constructor.
    + by exists [], v.
    + split; [|done]. apply NoDup_singleton.
    + by destruct w.
  - destruct (splitTwo_splits w n v b ps) as (m&p&pv&i&Hs&Hpn&Hm&Hmn&Hmp&Hpne&Hi&H4&Hth); try done.
    erewrite bindM_ok by exact Hs. cbn beta iota.
    set (w1 := split_state n m p v pv i w).
    set (vm := new_piece v p (drop i (inodeList_ v))).
    destruct (IH w1 m vm b ps) as (l&vs&w'&Hl&Hres); try done.
    + unfold w1, split_state. rewrite !node_of_with_ne by (by apply not_eq_sym). apply node_of_with.
    + by apply Forall_drop.
    + cbn. rewrite <-(take_drop i (inodeList_ v)), page_bytes_app in Hp. unfold page_bytes in *.
      pose proof (inode_bytes_sum_nonneg _ (Forall_take _ i _ Hw)). lia.
    + cbn. intros q [= <-]. split; [done|]. exists (addChild m pv). unfold w1, split_state.
      rewrite node_of_with_ne by done. apply node_of_with.
    + cbn. rewrite length_drop. lia.
    + erewrite bindM_ok by exact Hl. cbn beta.
      exists (m :: l), (set_inodeList (take i (inodeList_ v)) (setParentNode (Some p) v) :: vs), w'.
      split; [done|]. eapply split_result_step; try done.
      split; cbn; rewrite length_take; [lia|]. intros ?. apply Hth. lia.
Qed.

(** C14. [Node::split] terminates and partitions the node: the pieces, in
    order, hold the node's inodes, each once; every piece but the last has at
    least two inodes and stays under the fill threshold unless it has just
    two; the last is not worth splitting.  The node itself is the first piece
    and keeps its key, page id, flags and children; the others are new nodes
    of its kind and bucket with no key, page, flag or child.  The new pieces
    follow it in the children of its parent, which is made when there is none
    and is the parent of all; nothing else changes, and nothing at all when
    the node is not worth splitting. *)
Theorem split_partitions w n v b ps :
  node_of w n = Ok v -> bucket_of w (bucket_ v) = Ok b ->
  Forall inode_wf (inodeList_ v) -> page_bytes (inodeList_ v) < 2 ^ 32 ->
  (forall q, parentNode_ v = Some q -> q <> n /\ exists qv, node_of w q = Ok qv) ->
  exists l vs w', split n ps w = Ok (n :: l, w') /\
    split_result w n v ps (fillThreshold (fillPercent_ b) ps) l vs w'.
Proof.
  intros Hn Hb Hw Hp Hpar. unfold split. mstep. apply split_loop_spec; done || lia.
Qed.

(** ** Properties of rebalancing *)

(** C33. [Node::rebalance] of a node that must merge and is its parent's first
    child never merges: [nextSibling] returns null exactly for index 0, and
    the null pointer is dereferenced. *)
Theorem rebalance_first_child_faults fuel w n p v pv :
  node_of w n = Ok v -> unbalanced_ v = true ->
  (size v <= 1024 \/ Z.of_nat (length (inodeList_ v)) <= minKeys v) ->
  parentNode_ v = Some p -> p <> n -> node_of w p = Ok pv ->
  numChildren v <> 0 -> 1 < numChildren pv -> childIndex pv (key_ v) = Ok 0 ->
  rebalance_loop (S fuel) n w = Err NullDeref.
Proof.
  intros Hn Hu Hsmall Hp Hne Hpv Hv1 Hpv1 Hidx. cbn [rebalance_loop].
  mstep. rewrite Hu. cbn [negb]. mstep.
  replace ((4096 / 4 <? size v) && _) with false; cycle 1.
  { symmetry. apply andb_false_iff. change (4096 / 4) with 1024. destruct Hsmall; [left|right]; apply Z.ltb_ge; lia. }
  rewrite Hp. rewrite (proj2 (Z.eqb_neq _ _) Hv1).
  set (w1 := with_node n _ w).
  assert (node_of w1 n = Ok (set_unbalanced false v)) as Hn1 by apply node_of_with.
  assert (node_of w1 p = Ok pv) as Hp1 by (unfold w1; by rewrite node_of_with_ne by (by apply not_eq_sym)).
  assert (parentIndex w1 n = Ok 0) as Hi1.
  { unfold parentIndex. rewrite Hn1. cbn. rewrite Hp. cbn. by rewrite Hp1. }
  apply bindM_err. mstep.
  erewrite bindM_ok by (apply massert_ok, Z.ltb_lt; lia). cbn beta.
  erewrite bindM_ok by (by apply (reads_ok (fun w => parentIndex w n))). cbn beta.
  change (0 =? 0) with true. cbn iota. unfold merge_right.
  erewrite bindM_ok; cycle 1.
  { unfold nextSibling. mstep. cbn. rewrite Hp.
    erewrite bindM_ok by (by apply (reads_ok (fun w => parentIndex w n))). reflexivity. }
  reflexivity.
Qed.

Lemma reparent_cached_asserts b self w bv : forall l,
  bucket_of w b = Ok bv -> (exists item, item ∈ l /\ nodes_ bv !! i_pageId item = None) ->
  (forall item c, item ∈ l -> nodes_ bv !! i_pageId item = Some c -> exists cv, node_of w c = Ok cv) ->
  forall w', bucket_of w' b = Ok bv -> (forall c cv, node_of w c = Ok cv -> exists cv', node_of w' c = Ok cv') ->
  reparent_cached b self l w' = Err AssertFailed.
Proof.
  induction l as [|x l IH]; intros Hb (item&Hin&Hnone) Hall w' Hb' Hmono; [by apply not_elem_of_nil in Hin|].
  cbn [reparent_cached].
  erewrite bindM_ok by (apply (reads_ok (fun w => getCachedNode w b (i_pageId x))); unfold getCachedNode; by rewrite Hb').
  cbn beta. destruct (nodes_ bv !! i_pageId x) as [c|] eqn:Hx; [|done].
  destruct (Hall x c) as [cv Hcv]; [set_solver|done|]. destruct (Hmono _ _ Hcv) as [cv' Hcv'].
  mstep. apply IH; try done.
  - exists item. split; [|done]. apply elem_of_cons in Hin as [->|?]; [congruence|done].
  - intros y d Hy. apply Hall. set_solver.
  - intros d dv Hd. destruct (decide (c = d)) as [<-|Hcd]; [eexists; apply node_of_with|].
    rewrite node_of_with_ne by done. by eapply Hmono.
Qed.

(** C34. Collapsing a branch root with one child asserts as soon as one entry
    of the child is not the page of a cached node: always when the child is a
    leaf, whose entries have no page. *)
Theorem collapse_root_asserts fuel w n v x c cv bv item :
  node_of w n = Ok v -> unbalanced_ v = true -> parentNode_ v = None ->
  isLeaf_ v = false -> inodeList_ v = [x] ->
  bucket_of w (bucket_ v) = Ok bv -> nodes_ bv !! i_pageId x = Some c -> c <> n ->
  node_of w c = Ok cv -> item ∈ inodeList_ cv -> nodes_ bv !! i_pageId item = None ->
  (forall k d, nodes_ bv !! k = Some d -> exists dv, node_of w d = Ok dv) ->
  rebalance_loop (S fuel) n w = Err AssertFailed.
Proof.
  intros Hn Hu Hp Hl Hi Hb Hc Hne Hcv Hin Hnone Hall. cbn [rebalance_loop].
  mstep. rewrite Hu. cbn [negb]. mstep.
  replace ((4096 / 4 <? size v) && _) with false; cycle 1.
  { symmetry. apply andb_false_iff. change (4096 / 4) with 1024. right. apply Z.ltb_ge.
    rewrite Hi. unfold minKeys. rewrite Hl. done. }
  rewrite Hp. unfold collapse_root. rewrite Hl, Hi.
  set (w1 := with_node n _ w).
  assert (bucket_of w1 (bucket_ v) = Ok bv) as Hb1 by done.
  erewrite bindM_ok; cycle 1.
  { unfold getNode. erewrite bindM_ok by (apply get_bucket_ok; exact Hb1). cbn beta. rewrite Hc. reflexivity. }
  cbn beta. assert (node_of w1 c = Ok cv) as Hc1 by (unfold w1; by rewrite node_of_with_ne by (by apply not_eq_sym)).
  mstep. erewrite bindM_ok by (apply upd_node_ok, node_of_with). cbn beta.
  apply bindM_err. eapply (reparent_cached_asserts _ _ w); try done.
  - by exists item.
  - intros y d _. apply Hall.
  - intros d dv Hd. destruct (decide (n = d)) as [<-|]; [eexists; apply node_of_with|].
    exists dv. unfold w1. by rewrite !node_of_with_ne by done.
Qed.

(** ** Witnesses *)

Definition ex_split_world : World :=
  with_node 0%nat (ex_leaf ex_keys) (with_bucket 0%nat (Bucket_new 0%nat) empty_world).

Lemma split_partitions_witness :
  exists l vs w', split 0%nat 60 ex_split_world = Ok (0%nat :: l, w') /\
    split_result ex_split_world 0%nat (ex_leaf ex_keys) 60 (fillThreshold DEFAULTFILLPERCENT 60) l vs w'.
Proof.
  apply (split_partitions ex_split_world 0%nat (ex_leaf ex_keys) (Bucket_new 0%nat) 60);
    [reflexivity|reflexivity|ex_wf|done|done].
Defined.

(** A parent with the leaves [0] and [1] under the keys 1 and 5. *)
Definition ex_small_leaf (p : nptr) (b : byte) : Node :=
  set_key (i_key (ex_inode b)) (set_unbalanced true (setParentNode (Some p) (ex_leaf [b]))).
Definition ex_parent : Node :=
  set_inodeList [mkInode 0 6 (i_key (ex_inode Byte.x01)) Item_empty;
                 mkInode 0 7 (i_key (ex_inode Byte.x05)) Item_empty] (Node_new 0%nat None).
Definition ex_merge_world : World :=
  with_node 2%nat ex_parent (with_node 0%nat (ex_small_leaf 2%nat Byte.x01)
    (with_node 1%nat (ex_small_leaf 2%nat Byte.x05)
      (with_bucket 0%nat (bset_nodes_ {[6 := 0%nat; 7 := 1%nat]} (Bucket_new 0%nat)) empty_world))).

Lemma rebalance_first_child_faults_witness :
  rebalance_loop 5 0%nat ex_merge_world = Err NullDeref.
Proof.
  apply (rebalance_first_child_faults 4 ex_merge_world 0%nat 2%nat (ex_small_leaf 2%nat Byte.x01) ex_parent);
    try reflexivity; try done. by left.
Defined.

(** A root whose only child is the leaf [1]. *)
Definition ex_collapse_root : Node :=
  set_unbalanced true (set_inodeList [mkInode 0 7 (i_key (ex_inode Byte.x05)) Item_empty] (Node_new 0%nat None)).
Definition ex_collapse_world : World :=
  with_node 2%nat ex_collapse_root (with_node 1%nat (ex_small_leaf 2%nat Byte.x05)
    (with_bucket 0%nat (bset_nodes_ {[7 := 1%nat]} (Bucket_new 0%nat)) empty_world)).

Lemma collapse_root_asserts_witness :
  rebalance_loop 5 2%nat ex_collapse_world = Err AssertFailed.
Proof.
  apply (collapse_root_asserts 4 ex_collapse_world 2%nat ex_collapse_root
    (mkInode 0 7 (i_key (ex_inode Byte.x05)) Item_empty) 1%nat (ex_small_leaf 2%nat Byte.x05)
    (bset_nodes_ {[7 := 1%nat]} (Bucket_new 0%nat)) (ex_inode Byte.x05)); try reflexivity; try done.
  - by apply list_elem_of_singleton.
  - intros k d Hd. change (({[7 := 1%nat]} : gmap Z nptr) !! k = Some d) in Hd.
    apply lookup_singleton_Some in Hd as [_ <-]. by eexists.
Defined.
