(* ===== verification/Cursor.v ===== *)
(** * Cursor.v: cursors over a bucket (src/src/Bolt/cursor.h, cursor.cc)

    A cursor is a stack of [ElementRef]s, the path from the bucket's root to
    a leaf; an element refers to a page, or to a node when the page has been
    materialised.  The top of the stack is the head of the list.  All
    operations but [getNode] and [remove] only read the state, so they are
    functions of it. *)
From S2P Require Import Bytes.
From S2P Require Import BinSearch.
From S2P Require Import Page.
From S2P Require Import Meta.
From S2P Require Import Node.
From S2P Require Import World.
From S2P Require Import Pager.
From S2P Require Import Tree.

(** [struct ElementRef]; [index_] is a [uint64_t]. *)
Record ElementRef := mkRef {
  ref_page : option PagePtr;
  ref_node : option nptr;
  index_ : Z;
}.

(** [ElementRef(page, node)] *)
Definition ElementRef_new (page : option PagePtr) (node : option nptr) : ElementRef :=
  {| ref_page := page; ref_node := node; index_ := 0 |}.
Definition set_index (i : Z) (r : ElementRef) : ElementRef :=
  {| ref_page := ref_page r; ref_node := ref_node r; index_ := i |}.

(** [elements_], its top first. *)
Abbreviation elements := (list ElementRef).

(** What [keyValue] fills in: [key], [value] and [flag]. *)
Record KV := mkKV { kv_key : Item; kv_value : Item; kv_flag : Z }.
Definition KV_reset : KV := {| kv_key := Item_empty; kv_value := Item_empty; kv_flag := 0 |}.

(** [assert(page_)] *)
Definition assert_page (p : option PagePtr) : res PagePtr :=
  match p with Some p => Ok p | None => Err AssertFailed end.

(** [elements_.top()] *)
Definition top (s : elements) : res ElementRef :=
  match s with r :: _ => Ok r | [] => Err OutOfBounds end.
(** [elements_.top().index_ = i] *)
Definition set_top_index (i : Z) (s : elements) : elements :=
  match s with r :: s => set_index i r :: s | [] => [] end.

Section cursor.
Context (w : World) (b : bptr).

(** [ElementRef::isLeaf()] *)
Definition isLeaf (r : ElementRef) : res bool :=
  match ref_node r with
  | Some n => v ← node_of w n; Ok (isLeaf_ v)
  | None =>
      p ← assert_page (ref_page r);
      fl ← on_page w p Page_flag;
      Ok (has_flag fl leafPageFlag)
  end.

(** [ElementRef::count()] *)
Definition count (r : ElementRef) : res Z :=
  match ref_node r with
  | Some n => v ← node_of w n; Ok (Z.of_nat (length (inodeList_ v)))
  | None => p ← assert_page (ref_page r); on_page w p Page_count
  end.

(** The page id of the child at the element's index. *)
Definition child_id (r : ElementRef) : res Z :=
  match ref_node r with
  | Some n =>
      v ← node_of w n;
      match inodeList_ v !! Z.to_nat (index_ r) with
      | Some x => Ok (i_pageId x)
      | None => Err OutOfBounds
      end
  | None =>
      p ← deref (ref_page r);
      on_page w p (fun m o => branch_pageId m (getBranchPageElement o (index_ r)))
  end.

(** ** Searching *)

(** [searchLeaf(key)] *)
Definition searchLeaf (key : Item) (s : elements) : res elements :=
  match s with
  | [] => Err AssertFailed
  | r :: _ =>
      '(i, _) ← match ref_node r with
                | Some n => v ← node_of w n; Node.search v key
                | None =>
                    p ← deref (ref_page r);
                    on_page w p (fun m o =>
                      cnt ← Page_count m o;
                      binarySearchLeaf m (getLeafPageElement o 0) key cnt)
                end;
      Ok (set_top_index i s)
  end.

(** The index [searchBranchNode] and [searchBranchPage] descend at. *)
Definition branch_index (r : Z * bool) : Z :=
  let '(index, found) := r in
  if negb found && (0 <? index) then index - 1 else index.

(** The index of [key] in a branch node or page. *)
Definition searchBranch (key : Item) (r : ElementRef) : res Z :=
  x ← match ref_node r with
      | Some n => v ← node_of w n; Node.search v key
      | None =>
          p ← deref (ref_page r);
          on_page w p (fun m o =>
            cnt ← Page_count m o;
            binarySearchBranch m (getBranchPageElement o 0) key cnt)
      end;
  Ok (branch_index x).

(** [search(key, pgid)], [searchBranchNode(key, node)] and
    [searchBranchPage(key, page)] being the two ways it calls itself. *)
Fixpoint search (fuel : nat) (key : Item) (pgid : Z) (s : elements) : res elements :=
  match fuel with
  | O => Err OutOfFuel
  | S fuel =>
      '(node, page) ← getPageNode w b pgid;
      _ ← match page with
          | Some p =>
              fl ← on_page w p Page_flag;
              if Z.land fl (Z.lor branchPageFlag leafPageFlag) =? 0 then Err LogFatal else Ok tt
          | None => Ok tt
          end;
      let ref := ElementRef_new page node in
      let s := ref :: s in
      leaf ← isLeaf ref;
      if leaf : bool then searchLeaf key s
      else
        index ← searchBranch key ref;
        c ← child_id (set_index index ref);
        search fuel key c (set_top_index index s)
  end.

(** [keyValue(key, value, flag)]; the parameters are left alone when the
    index is out of range. *)
Definition keyValue (s : elements) (kv : KV) : res (option PagePtr * KV) :=
  match s with
  | [] => Ok (None, KV_reset)
  | r :: _ =>
      c ← count r;
      if (c =? 0) || (c <=? index_ r) then Ok (None, kv)
      else
        match ref_node r with
        | Some n =>
            v ← node_of w n;
            match inodeList_ v !! Z.to_nat (index_ r) with
            | Some x => Ok (None, mkKV (i_key x) (i_value x) (i_flag x))
            | None => Err OutOfBounds
            end
        | None =>
            p ← deref (ref_page r);
            '(k, v, fl) ← on_page w p (fun m o =>
               let e := getLeafPageElement o (index_ r) in
               k ← leaf_key m e; v ← leaf_value m e; fl ← leaf_flag m e; Ok (k, v, fl));
            Ok (Some (ptr_add p (PAGEHEADERSIZE + index_ r * LEAFELEMSIZE)), mkKV k v fl)
        end
  end.

(** [getRootPage()] *)
Definition getRootPage : res Z := v ← bucket_of w b; Ok (root (bucketHeader_ v)).

(** ** Movement *)

(** [do_first()] *)
Fixpoint do_first (fuel : nat) (s : elements) : res elements :=
  match fuel with
  | O => Err OutOfFuel
  | S fuel =>
      match s with
      | [] => Err AssertFailed
      | r :: _ =>
          leaf ← isLeaf r;
          if leaf : bool then Ok s
          else
            c ← child_id r;
            '(node, page) ← getPageNode w b c;
            do_first fuel (ElementRef_new page node :: s)
      end
  end.

(** [do_last()] *)
Fixpoint do_last (fuel : nat) (s : elements) : res elements :=
  match fuel with
  | O => Err OutOfFuel
  | S fuel =>
      match s with
      | [] => Err AssertFailed
      | r :: _ =>
          leaf ← isLeaf r;
          if leaf : bool then Ok s
          else
            c ← child_id r;
            '(node, page) ← getPageNode w b c;
            let e := ElementRef_new page node in
            n ← count e;
            do_last fuel (set_index (wrap64 (n - 1)) e :: s)
      end
  end.

(** The inner loop of [do_next]: pop what is at its end, advance the rest. *)
Fixpoint advance (s : elements) : res elements :=
  match s with
  | [] => Ok []
  | r :: s' =>
      n ← count r;
      if wrap64 (index_ r + 1) <? n then Ok (set_index (wrap64 (index_ r + 1)) r :: s')
      else advance s'
  end.

(** The loop of [prev]. *)
Fixpoint retreat (s : elements) : elements :=
  match s with
  | [] => []
  | r :: s' => if 0 <? index_ r then set_index (index_ r - 1) r :: s' else retreat s'
  end.

(** [do_next(key, value, flag)]; [depth] bounds each descent. *)
Fixpoint do_next (depth fuel : nat) (s : elements) (kv : KV) : res (elements * KV) :=
  match fuel with
  | O => Err OutOfFuel
  | S fuel =>
      s ← advance s;
      match s with
      | [] => Ok ([], KV_reset)
      | _ =>
          s ← do_first depth s;
          r ← top s;
          n ← count r;
          if n =? 0 then do_next depth fuel s kv
          else '(_, kv) ← keyValue s kv; Ok (s, kv)
      end
  end.

(** The reference to the bucket's root. *)
Definition root_ref : res ElementRef :=
  id ← getRootPage;
  '(node, page) ← getPageNode w b id;
  Ok (ElementRef_new page node).

Context `{Env}.

(** [do_seek(searchKey, key, value, flag)]: the stack, the element's address
    when it is in a page, and what was found *)
Definition do_seek (searchKey : Item) : res (elements * option PagePtr * KV) :=
  id ← getRootPage;
  s ← search env_fuel searchKey id [];
  r ← top s;
  n ← count r;
  if n <=? index_ r then Ok (s, None, KV_reset)
  else '(p, kv) ← keyValue s KV_reset; Ok (s, p, kv).

(** [seek(searchKey, key, value, flag)] *)
Definition seek (searchKey : Item) : res (elements * option PagePtr * KV) := do_seek searchKey.

(** [next(key, value)] *)
Definition next (s : elements) : res (elements * KV) := do_next env_fuel env_fuel s KV_reset.

(** [first(key, value)] *)
Definition first : res (elements * KV) :=
  r ← root_ref;
  s ← do_first env_fuel [r];
  r ← top s;
  n ← count r;
  '(s, kv) ← (if n =? 0 then do_next env_fuel env_fuel s KV_reset else Ok (s, KV_reset));
  '(_, kv) ← keyValue s kv;
  Ok (s, kv).

(** [last(key, value)] *)
Definition last : res (elements * KV) :=
  r ← root_ref;
  n ← count r;
  s ← do_last env_fuel [set_index (wrap64 (n - 1)) r];
  '(_, kv) ← keyValue s KV_reset;
  Ok (s, kv).

(** [prev(key, value)] *)
Definition prev (s : elements) : res (elements * KV) :=
  match retreat s with
  | [] => Ok ([], KV_reset)
  | s => s ← do_last env_fuel s; '(_, kv) ← keyValue s KV_reset; Ok (s, kv)
  end.
End cursor.

Section update.
Context `{Env} (b : bptr).

(** The loop of [getNode] down the path. *)
Fixpoint descend (node : nptr) (path : list ElementRef) : M nptr :=
  match path with
  | [] => ret node
  | r :: path =>
      v ← get_node node;
      _ ← massert (negb (isLeaf_ v));
      c ← childAt node (to_int (index_ r));
      c ← lift (deref c);
      descend c path
  end.

(** [getNode()]: the node, and the stack it leaves.  The elements are popped
    into [v], [v] is reversed, and pushed back from its end: the stack comes
    out upside down. *)
Definition Cursor_getNode (s : elements) : M (nptr * elements) :=
  on_leaf ← match s with
            | r :: _ =>
                match ref_node r with
                | Some n => leaf ← reads (fun w => isLeaf w r);
                            ret (if leaf : bool then Some n else None)
                | None => ret None
                end
            | [] => ret None
            end;
  match on_leaf with
  | Some n => ret (n, s)
  | None =>
      let v := rev s in
      let s := foldl (fun st r => r :: st) [] (rev v) in
      match v with
      | [] => fail OutOfBounds
      | r0 :: _ =>
          node ← match ref_node r0 with
                 | Some n => ret n
                 | None =>
                     p ← lift (deref (ref_page r0));
                     id ← page_read p Page_id;
                     getNode b id None
                 end;
          node ← descend node (removelast v);
          nv ← get_node node;
          _ ← massert (isLeaf_ nv);
          ret (node, s)
      end
  end.

(** [isWritable()], [tx_->db_ == nullptr] *)
Definition bucket_writable (w : World) : res bool :=
  v ← bucket_of w b; t ← tx_of w (tx_ v); Ok (writable_ t).
Definition bucket_db (w : World) : res bool :=
  v ← bucket_of w b; t ← tx_of w (tx_ v); Ok (db_ t).

(** [Cursor::remove()]: the result and the stack *)
Definition Cursor_remove (s : elements) : M (Z * elements) :=
  db ← reads bucket_db;
  wr ← reads bucket_writable;
  if negb db then ret (-1, s)
  else if negb wr then ret (-1, s)
  else
    '(_, kv) ← reads (fun w => keyValue w s (mkKV Item_empty Item_empty env_uninit_flag));
    if has_flag (kv_flag kv) bucketLeafFlag then ret (-1, s)
    else
      '(n, s) ← Cursor_getNode s;
      _ ← Node_del n (kv_key kv);
      ret (0, s).
End update.
