(* ===== verification/Traversal.v ===== *)
(** * Traversal.v: cursors against the tree they walk

    What a cursor needs of a page or node is the interface of the classes
    [LeafView] and [BranchView]; nodes and well-formed pages implement it.
    [rep] relates the state to the leaves of a bucket's tree, and the cursor
    theorems are proved against it. *)
From S2P Require Import Bytes.
From S2P Require Import BinSearch.
From S2P Require Import Page.
From S2P Require Import Meta.
From S2P Require Import Node.
From S2P Require Import World.
From S2P Require Import Pager.
From S2P Require Import Tree.
From S2P Require Import Cursor.

(** ** The interface *)

Definition kv_keys (es : list KV) : list (list byte) := (fun e => data_ (kv_key e)) <$> es.

(** A page has one of the flags [search] checks for. *)
Definition page_flag_ok (w : World) (page : option PagePtr) : Prop :=
  match page with
  | None => True
  | Some p => exists fl, on_page w p Page_flag = Ok fl /\
      Z.land fl (Z.lor branchPageFlag leafPageFlag) <> 0
  end.

(** The page or node is a leaf with the entries [es]. *)
Class LeafView (w : World) (page : option PagePtr) (node : option nptr) (es : list KV) : Prop := {
  lv_isLeaf i : isLeaf w (mkRef page node i) = Ok true;
  lv_count i : count w (mkRef page node i) = Ok (Z.of_nat (length es));
  lv_small : Z.of_nat (length es) < 2 ^ 31;
  lv_flag : page_flag_ok w page;
  lv_entry i e s kv : 0 <= i -> es !! Z.to_nat i = Some e ->
    exists p, keyValue w (mkRef page node i :: s) kv = Ok (p, e);
  lv_search key s : StronglySorted bytes_lt (kv_keys es) ->
    exists r, searchLeaf w key (mkRef page node 0 :: s) = Ok (mkRef page node (fst r) :: s) /\
      search_spec (kv_keys es) (data_ key) r;
}.

(** The page or node is a branch with the keys [ks] and the children [ids]. *)
Class BranchView (w : World) (page : option PagePtr) (node : option nptr)
    (ks : list (list byte)) (ids : list Z) : Prop := {
  bv_isLeaf i : isLeaf w (mkRef page node i) = Ok false;
  bv_count i : count w (mkRef page node i) = Ok (Z.of_nat (length ids));
  bv_small : Z.of_nat (length ids) < 2 ^ 31;
  bv_keys : length ks = length ids;
  bv_flag : page_flag_ok w page;
  bv_child i c : 0 <= i -> ids !! Z.to_nat i = Some c ->
    child_id w (mkRef page node i) = Ok c;
  bv_search key : StronglySorted bytes_lt ks ->
    exists r, searchBranch w key (mkRef page node 0) = Ok (branch_index r) /\
      search_spec ks (data_ key) r;
}.

(** ** Nodes implement it *)

Definition kv_of_inode (x : Inode) : KV := mkKV (i_key x) (i_value x) (i_flag x).

Lemma kv_keys_inodes l : kv_keys (kv_of_inode <$> l) = ikeys l.
Proof. unfold kv_keys, ikeys. by rewrite <-list_fmap_compose. Qed.

Lemma node_leaf_view w n v :
  node_of w n = Ok v -> isLeaf_ v = true -> Z.of_nat (length (inodeList_ v)) < 2 ^ 31 ->
  LeafView w None (Some n) (kv_of_inode <$> inodeList_ v).
Proof.
  intros Hn Hl Hs. split.
  - intros i. unfold isLeaf. cbn. by rewrite Hn; cbn; rewrite Hl.
  - intros i. unfold count. cbn. by rewrite Hn, length_fmap.
  - by rewrite length_fmap.
  - done.
  - intros i e s kv Hi He. rewrite list_lookup_fmap in He. apply fmap_Some in He as (x&Hx&->).
    pose proof (lookup_lt_Some _ _ _ Hx). cbn. unfold count. cbn. rewrite Hn. cbn.
    destruct (Z.eqb_spec (Z.of_nat (length (inodeList_ v))) 0); [lia|].
    destruct (Z.leb_spec (Z.of_nat (length (inodeList_ v))) i); [lia|]. cbn.
    rewrite Hx. by eexists.
  - intros key s. rewrite kv_keys_inodes. intros Hsort.
    destruct (binarySearch_correct (inodeList_ v) key) as ([i f]&Hr&Hspec); [done|done|].
    exists (i, f). cbn [searchLeaf ref_node]. rewrite Hn. cbn [mbind res_bind].
    unfold Node.search. by rewrite Hr.
Qed.

Lemma node_branch_view w n v :
  node_of w n = Ok v -> isLeaf_ v = false -> Z.of_nat (length (inodeList_ v)) < 2 ^ 31 ->
  BranchView w None (Some n) (ikeys (inodeList_ v)) (branchPageIds v).
Proof.
  intros Hn Hl Hs. unfold branchPageIds. split.
  - intros i. unfold isLeaf. cbn. by rewrite Hn; cbn; rewrite Hl.
  - intros i. unfold count. cbn. by rewrite Hn, length_fmap.
  - by rewrite length_fmap.
  - by rewrite length_ikeys, length_fmap.
  - done.
  - intros i c Hi Hc. rewrite list_lookup_fmap in Hc. apply fmap_Some in Hc as (x&Hx&->).
    unfold child_id. cbn. rewrite Hn. cbn. by rewrite Hx.
  - intros key Hsort. destruct (binarySearch_correct (inodeList_ v) key) as (r&Hr&Hspec); [done|done|].
    exists r. unfold searchBranch. cbn [ref_node]. rewrite Hn. cbn [mbind res_bind].
    unfold Node.search. by rewrite Hr.
Qed.

(** ** Well-formed pages implement it *)

(** The page at [p] of [m] is a leaf whose elements read as [es]. *)
Definition page_leaf (m : list byte) (p : Z) (es : list KV) : Prop :=
  (exists fl, Page_flag m p = Ok fl /\ has_flag fl leafPageFlag = true) /\
  Page_count m p = Ok (Z.of_nat (length es)) /\
  forall i e, es !! i = Some e ->
    let x := getLeafPageElement p (Z.of_nat i) in
    leaf_key m x = Ok (kv_key e) /\ leaf_value m x = Ok (kv_value e) /\ leaf_flag m x = Ok (kv_flag e).

Definition page_branch (m : list byte) (p : Z) (ks : list Item) (ids : list Z) : Prop :=
  (exists fl, Page_flag m p = Ok fl /\ has_flag fl leafPageFlag = false /\
     has_flag fl branchPageFlag = true) /\
  Page_count m p = Ok (Z.of_nat (length ids)) /\ length ks = length ids /\
  forall i k c, ks !! i = Some k -> ids !! i = Some c ->
    let x := getBranchPageElement p (Z.of_nat i) in
    branch_key m x = Ok k /\ branch_pageId m x = Ok c.

(** A page flag that passes one test is not zero under the mask of [search]. *)
Lemma flag_mask fl f :
  has_flag fl f = true -> f = branchPageFlag \/ f = leafPageFlag ->
  Z.land fl (Z.lor branchPageFlag leafPageFlag) <> 0.
Proof.
  unfold has_flag. rewrite negb_true_iff, Z.eqb_neq. intros H Hf Hz. apply H.
  assert (f = Z.land (Z.lor branchPageFlag leafPageFlag) f) as -> by (destruct Hf as [->| ->]; done).
  rewrite Z.land_assoc, Hz. apply Z.land_0_l.
Qed.

Lemma page_count_small m p n : Page_count m p = Ok (Z.of_nat n) -> Z.of_nat n < 2 ^ 31.
Proof. intros H%load_range. lia. Qed.

Lemma page_leaf_view w p m o es :
  mem_of w p = Ok (m, o) -> page_leaf m o es -> LeafView w (Some p) None es.
Proof.
  intros Hm ((fl&Hfl&Hleaf)&Hcnt&Hel). pose proof (page_count_small _ _ _ Hcnt) as Hs.
  assert (forall A (f : list byte -> Z -> res A), on_page w p f = f m o) as Hon
    by (intros; unfold on_page; by rewrite Hm).
  split.
  - intros i. unfold isLeaf. cbn. rewrite Hon, Hfl. cbn. by rewrite Hleaf.
  - intros i. unfold count. cbn. by rewrite Hon.
  - done.
  - exists fl. rewrite Hon. split; [done|]. by eapply flag_mask; [|right].
  - intros i e s kv Hi He. pose proof (lookup_lt_Some _ _ _ He) as Hlt.
    destruct (Hel _ _ He) as (Hk&Hv&Hf). rewrite Z2Nat.id in Hk, Hv, Hf by lia.
    unfold keyValue, count. cbn [ref_node ref_page index_ assert_page deref mbind res_bind].
    rewrite (Hon _ Page_count), Hcnt. cbn [mbind res_bind].
    destruct (Z.eqb_spec (Z.of_nat (length es)) 0); [lia|].
    destruct (Z.leb_spec (Z.of_nat (length es)) i); [lia|]. cbn [orb].
    rewrite Hon, Hk. cbn [mbind res_bind]. rewrite Hv. cbn [mbind res_bind]. rewrite Hf.
    cbn [mbind res_bind]. destruct e; by eexists.
  - intros key s Hsort. cbn [searchLeaf ref_node ref_page deref mbind res_bind].
    rewrite Hon. cbn beta. rewrite Hcnt. cbn [mbind res_bind]. unfold binarySearchLeaf.
    assert (length es = length (kv_keys es)) as -> by (unfold kv_keys; by rewrite length_fmap).
    edestruct (bsearch_correct (fun mid => k ← leaf_key m (getLeafPageElement o 0 + mid * LEAFELEMSIZE); Ok (data_ k))
      (kv_keys es)) as ([i f]&Hr&Hspec); [|done| |].
    + intros i k Hk Hi. unfold kv_keys in Hk. rewrite list_lookup_fmap in Hk.
      apply fmap_Some in Hk as (e&He&->). destruct (Hel _ _ He) as (Hk&_).
      rewrite Z2Nat.id in Hk by lia. replace (getLeafPageElement o 0 + i * LEAFELEMSIZE) with (getLeafPageElement o i)
        by (unfold getLeafPageElement; lia). by rewrite Hk.
    + unfold kv_keys. by rewrite length_fmap.
    + exists (i, f). rewrite Hr. done.
Qed.

(** ** The tree of a bucket *)

Section rep.
Context (w : World) (b : bptr).

(** The subtree of height [h] at page [id] has the leaves [ls], left to
    right; a branch has a child at least. *)
Fixpoint rep (h : nat) (id : Z) (ls : list (list KV)) : Prop :=
  exists node page, getPageNode w b id = Ok (node, page) /\
    match h with
    | O => exists es, LeafView w page node es /\ ls = [es]
    | S h => exists ks ids lss, BranchView w page node ks ids /\ ids <> [] /\
        Forall2 (rep h) ids lss /\ ls = concat lss
    end.

(** The stack [s] under an element of height [h]: its top is a branch of
    height [S h] whose child at [index_] was entered, and so on to the root;
    [ls] are the leaves to the right of that path. *)
Fixpoint above (h : nat) (s : elements) (ls : list (list KV)) : Prop :=
  match s with
  | [] => ls = []
  | mkRef page node i :: s => exists ks ids lss ls', BranchView w page node ks ids /\
      Forall2 (rep h) ids lss /\ 0 <= i < Z.of_nat (length ids) /\
      ls = concat (drop (S (Z.to_nat i)) lss) ++ ls' /\ above (S h) s ls'
  end.

(** The stack's top is a leaf with the entries [es], at a depth of [H]; the
    leaves [ls] follow. *)
Definition on_leaf (H : nat) (s : elements) (es : list KV) (ls : list (list KV)) : Prop :=
  exists page node i s', s = mkRef page node i :: s' /\ 0 <= i < 2 ^ 63 /\
    LeafView w page node es /\ above 0 s' ls /\ length s' = H.

(** The entries after the position of the cursor. *)
Definition rest (s : elements) (es : list KV) (ls : list (list KV)) : list KV :=
  match s with
  | r :: _ => drop (S (Z.to_nat (index_ r))) es ++ concat ls
  | [] => []
  end.

(** The entry at the position of the cursor. *)
Definition current (s : elements) (es : list KV) : option KV :=
  match s with r :: _ => es !! Z.to_nat (index_ r) | [] => None end.

(** The cursor is at [e], and [l] follows; or it is past the end. *)
Definition positioned (H : nat) (n : nat) (s : elements) (kv : KV) (es : list KV) : Prop :=
  match es with
  | [] => s = [] /\ kv = KV_reset
  | e :: l => kv = e /\ exists es' ls', on_leaf H s es' ls' /\ current s es' = Some e /\
      rest s es' ls' = l /\ (length ls' <= n)%nat
  end.

Lemma on_leaf_keyValue H s es ls e kv :
  on_leaf H s es ls -> current s es = Some e -> exists p, keyValue w s kv = Ok (p, e).
Proof.
  intros (page&node&i&s'&->&Hi&Hv&_) He. by apply lv_entry; [lia|].
Qed.

Lemma rep_page h id ls :
  rep h id ls -> exists node page, getPageNode w b id = Ok (node, page).
Proof. destruct h; intros (node&page&H&_); by exists node, page. Qed.

(** Going down from the element of a subtree reaches its first leaf. *)
Lemma do_first_rep h : forall id ls page node s ls' fuel,
  rep h id ls -> getPageNode w b id = Ok (node, page) -> above h s ls' -> (h < fuel)%nat ->
  exists page' node' s' es ls'', do_first w b fuel (ElementRef_new page node :: s)
      = Ok (mkRef page' node' 0 :: s') /\
    LeafView w page' node' es /\ above 0 s' ls'' /\ ls ++ ls' = es :: ls'' /\
    length s' = (h + length s)%nat.
Proof.
  induction h as [|h IH]; intros id ls page node s ls' fuel Hrep Hpn Hab Hf;
    (destruct fuel as [|fuel]; [lia|]); destruct Hrep as (node'&page'&Hpn'&Hr);
    rewrite Hpn in Hpn'; injection Hpn' as <- <-; cbn [do_first]; unfold ElementRef_new.
  - destruct Hr as (es&Hv&->). rewrite lv_isLeaf. cbn [mbind res_bind].
    exists page, node, s, es, ls'. split_and!; done.
  - destruct Hr as (ks&ids&lss&Hv&Hne&Hall&->). rewrite bv_isLeaf. cbn [mbind res_bind].
    destruct ids as [|c ids]; [done|]. destruct lss as [|l lss]; [by inversion Hall|].
    apply Forall2_cons in Hall as [Hc Hall]. rewrite (bv_child 0 c) by done.
    cbn [mbind res_bind]. destruct (rep_page _ _ _ Hc) as (cnode&cpage&Hcpn).
    rewrite Hcpn. cbn [mbind res_bind].
    destruct (IH c l cpage cnode (mkRef page node 0 :: s) (concat lss ++ ls') fuel)
      as (p'&n'&s'&es&ls''&Hdo&Hleaf&Hab'&Heq&Hlen); [done|done| |lia|].
    { exists ks, (c :: ids), (l :: lss), ls'. split_and!; [done|by constructor|done|cbn; lia|done|done]. }
    exists p', n', s', es, ls''. split_and!; try done; [by rewrite <-Heq, app_assoc|].
    rewrite Hlen. cbn. lia.
Qed.

(** Popping from a stack of branches: the next subtree to enter. *)
Lemma advance_above s : forall h ls, above h s ls ->
  (advance w s = Ok [] /\ ls = []) \/
  exists h' r s' c ls1 ls2, advance w s = Ok (r :: s') /\ child_id w r = Ok c /\
    isLeaf w r = Ok false /\ rep h' c ls1 /\ above h' (r :: s') ls2 /\ ls = ls1 ++ ls2 /\
      (S h' + length s' = h + length s)%nat.
Proof.
  induction s as [|[page node i] s IH]; intros h ls; cbn [above advance].
  { intros ->. by left. }
  intros (ks&ids&lss&ls'&Hv&Hall&Hi&->&Hab). rewrite bv_count. cbn [mbind res_bind index_].
  pose proof (bv_small (ids:=ids)) as Hsm.
  rewrite wrap_id by lia. destruct (Z.ltb_spec (i + 1) (Z.of_nat (length ids))).
  - right. destruct (lookup_lt_is_Some_2 ids (Z.to_nat (i + 1))) as [c Hc]; [lia|].
    destruct (Forall2_lookup_l _ _ _ _ _ Hall Hc) as (l&Hl&Hrep).
    exists h, (mkRef page node (i + 1)), s, c, l, (concat (drop (S (Z.to_nat (i + 1))) lss) ++ ls').
    split_and!; [done|by apply bv_child; [lia|]|by rewrite bv_isLeaf|done| | |cbn; lia].
    + exists ks, ids, lss, ls'. split_and!; done || lia.
    + replace (S (Z.to_nat i)) with (Z.to_nat (i + 1)) by lia.
      rewrite (drop_S lss l _ Hl). cbn. by rewrite <-app_assoc.
  - destruct (IH (S h) ls' Hab) as [[-> ->]|(h'&r&s'&c&ls1&ls2&->&?&?&?&?&->&?)].
    + left. split; [done|]. rewrite drop_ge; [done|]. rewrite <-(Forall2_length _ _ _ Hall). lia.
    + right. exists h', r, s', c, ls1, ls2. split_and!; try done; [|cbn; lia].
      rewrite drop_ge; [done|]. rewrite <-(Forall2_length _ _ _ Hall). lia.
Qed.

(** Entering the next subtree from a branch on the top of the stack. *)
Lemma do_first_branch h r s c ls1 ls2 fuel :
  isLeaf w r = Ok false -> child_id w r = Ok c -> rep h c ls1 -> above h (r :: s) ls2 ->
  (S h < fuel)%nat ->
  exists page node s' es ls, do_first w b fuel (r :: s) = Ok (mkRef page node 0 :: s') /\
    LeafView w page node es /\ above 0 s' ls /\ ls1 ++ ls2 = es :: ls /\
    length s' = (S h + length s)%nat.
Proof.
  intros Hl Hc Hrep Hab Hf. destruct fuel as [|fuel]; [lia|]. cbn [do_first].
  rewrite Hl. cbn [mbind res_bind]. rewrite Hc. cbn [mbind res_bind].
  destruct (rep_page _ _ _ Hrep) as (node&page&Hpn). rewrite Hpn. cbn [mbind res_bind].
  destruct (do_first_rep h c ls1 page node (r :: s) ls2 fuel) as (p'&n'&s'&es&ls&?&?&?&?&Hlen);
    [done|done|done|lia|].
  exists p', n', s', es, ls. split_and!; try done. rewrite Hlen. cbn. lia.
Qed.

Lemma positioned_mono H n n' s kv es :
  (n <= n')%nat -> positioned H n s kv es -> positioned H n' s kv es.
Proof.
  intros Hn. destruct es as [|e l]; [done|]. intros (?&es'&ls'&?&?&?&?). split; [done|].
  exists es', ls'. split_and!; done || lia.
Qed.

(** One step of the cursor: the next entry, or the end. *)
Lemma do_next_spec H depth fuel : forall s es ls kv,
  on_leaf H s es ls -> (H < depth)%nat -> (length ls < fuel)%nat ->
  exists s' kv', do_next w b depth fuel s kv = Ok (s', kv') /\
    positioned H (length ls) s' kv' (rest s es ls).
Proof.
  induction fuel as [|fuel IH]; intros s es ls kv (page&node&i&s0&->&Hi&Hv&Hab&HH) Hd Hf; [lia|].
  cbn [do_next advance rest]. rewrite lv_count. cbn [mbind res_bind index_].
  pose proof (lv_small (es:=es)) as Hsm. rewrite wrap_id by lia.
  destruct (Z.ltb_spec (i + 1) (Z.of_nat (length es))) as [Hlt|Hge].
  - (* inside the leaf *)
    destruct depth as [|depth]; [lia|]. unfold set_index.
    cbn [mbind res_bind do_first ref_page ref_node].
    rewrite lv_isLeaf. cbn [mbind res_bind top]. rewrite lv_count. cbn [mbind res_bind].
    destruct (Z.eqb_spec (Z.of_nat (length es)) 0); [lia|].
    destruct (lookup_lt_is_Some_2 es (Z.to_nat (i + 1))) as [e He]; [lia|].
    destruct (lv_entry (i + 1) e s0 kv) as [p Hp]; [lia|done|]. rewrite Hp. cbn [mbind res_bind].
    eexists _, _. split; [done|]. replace (S (Z.to_nat i)) with (Z.to_nat (i + 1)) by lia.
    rewrite (drop_S es e _ He). cbn [app]. split; [done|]. exists es, ls. split_and!; [|done|done|done].
    exists page, node, (i + 1), s0. split_and!; done || lia.
  - (* the leaf is at its end *)
    rewrite (drop_ge es) by lia. cbn [app].
    destruct (advance_above s0 0 ls Hab) as [[-> ->]|(h&r&s1&c&ls1&ls2&->&Hc&Hl&Hrep&Hab'&->&Hlen)].
    + cbn [mbind res_bind concat]. eexists _, _. done.
    + cbn [mbind res_bind].
      destruct (do_first_branch h r s1 c ls1 ls2 depth) as (p'&n'&s'&es'&ls'&->&Hv'&Hab''&Heq&Hlen');
        [done|done|done|done|lia|].
      cbn [mbind res_bind top]. rewrite lv_count. cbn [mbind res_bind]. rewrite Heq in *.
      assert (on_leaf H (mkRef p' n' 0 :: s') es' ls') as Hon.
      { exists p', n', 0, s'. split_and!; try done; lia. }
      destruct (Z.eqb_spec (Z.of_nat (length es')) 0) as [He|He].
      * destruct es'; [|cbn in He; lia]. cbn in Hf. cbn [concat app].
        destruct (IH _ _ _ kv Hon Hd ltac:(lia)) as (s2&kv2&->&Hres). exists s2, kv2.
        split; [done|]. cbn [rest] in Hres. rewrite drop_nil in Hres. cbn [app] in Hres.
        eapply positioned_mono; [|exact Hres]. cbn. lia.
      * destruct es' as [|e es']; [done|].
        destruct (lv_entry (es:=e :: es') 0 e s' kv) as [p Hp]; [lia|done|]. rewrite Hp.
        cbn [mbind res_bind]. eexists _, _. split; [done|]. cbn [concat app]. split; [done|].
        exists (e :: es'), ls'. split_and!; [done|done|done|cbn; lia].
Qed.

(** The start of a walk. *)
Context `{Env}.

Lemma first_spec h id ls :
  getRootPage w b = Ok id -> rep h id ls -> (h < env_fuel)%nat -> (length ls < env_fuel)%nat ->
  exists s kv, first w b = Ok (s, kv) /\ positioned h (length ls) s kv (concat ls).
Proof.
  intros Hroot Hrep Hh Hls. unfold first, root_ref. rewrite Hroot. cbn [mbind res_bind].
  destruct (rep_page _ _ _ Hrep) as (node&page&Hpn). rewrite Hpn. cbn [mbind res_bind].
  destruct (do_first_rep h id ls page node [] [] env_fuel) as (p'&n'&s'&es&ls'&->&Hv&Hab&Heq&Hlen);
    [done|done|done|done|].
  rewrite app_nil_r in Heq. rewrite Nat.add_0_r in Hlen. subst ls.
  cbn [mbind res_bind top]. rewrite lv_count. cbn [mbind res_bind concat].
  assert (on_leaf h (mkRef p' n' 0 :: s') es ls') as Hon by (exists p', n', 0, s'; split_and!; done || lia).
  cbn [length] in Hls |- *. destruct (Z.eqb_spec (Z.of_nat (length es)) 0) as [He|He].
  - destruct es; [|cbn in He; lia]. cbn [app].
    destruct (do_next_spec h env_fuel env_fuel _ _ _ KV_reset Hon Hh ltac:(lia)) as (s2&kv2&->&Hres).
    cbn [mbind res_bind rest] in *. rewrite drop_nil in Hres. cbn [app] in Hres.
    apply (positioned_mono _ _ (S (length ls'))) in Hres; [|lia].
    destruct (concat ls') as [|e l]; [destruct Hres as [-> ->]; by eexists _, _|].
    pose proof Hres as (->&es2&ls2&Hon2&Hcur&_).
    destruct (on_leaf_keyValue _ _ _ _ _ e Hon2 Hcur) as [p ->]. by eexists _, _.
  - destruct es as [|e es]; [done|]. cbn [app mbind res_bind].
    destruct (on_leaf_keyValue _ _ _ _ e KV_reset Hon eq_refl) as [p ->].
    eexists _, _. split; [done|]. split; [done|]. exists (e :: es), ls'. split_and!; done || (cbn; lia).
Qed.

(** The cursor after [first()] and [i] calls of [next]. *)
Definition nth_step (i : nat) : res (elements * KV) :=
  Nat.iter i (fun st => '(s, _) ← st; next w b s) (first w b).

Lemma nth_step_spec h id ls i :
  getRootPage w b = Ok id -> rep h id ls -> (h < env_fuel)%nat -> (length ls < env_fuel)%nat ->
  exists s kv, nth_step i = Ok (s, kv) /\ positioned h (length ls) s kv (drop i (concat ls)).
Proof.
  intros Hroot Hrep Hh Hls. induction i as [|i IH]; [by eapply first_spec|].
  destruct IH as (s&kv&Hi&Hpos). unfold nth_step in *. rewrite Nat.iter_succ, Hi.
  cbn [mbind res_bind]. unfold next. destruct (drop i (concat ls)) as [|e l] eqn:Ed.
  - destruct Hpos as [-> _]. assert (drop (S i) (concat ls) = []) as ->.
    { apply drop_ge. apply (f_equal length) in Ed. rewrite length_drop in Ed. cbn in Ed. lia. }
    destruct env_fuel; [lia|]. cbn. by eexists _, _.
  - destruct Hpos as (->&es&ls'&Hon&Hcur&Hrest&Hle).
    destruct (do_next_spec h env_fuel env_fuel s es ls' KV_reset Hon Hh ltac:(lia)) as (s2&kv2&->&Hres).
    eexists _, _. split; [done|]. rewrite Hrest in Hres.
    replace (S i) with (i + 1)%nat by lia. rewrite <-drop_drop, Ed. cbn [drop].
    by eapply positioned_mono.
Qed.
End rep.

(** ** Search trees *)

(** What a descent by key in a branch guarantees of the index it takes. *)
Lemma branch_index_spec ks key r :
  search_spec ks key r -> StronglySorted bytes_lt ks -> ks <> [] ->
  0 <= branch_index r < Z.of_nat (length ks) /\
  (forall j k, ks !! j = Some k -> (0 < j)%nat -> Z.of_nat j <= branch_index r -> ~ bytes_lt key k) /\
  (forall j k, ks !! j = Some k -> branch_index r < Z.of_nat j -> bytes_lt key k).
Proof.
  destruct r as [i found]. intros (Hi&Hlo&Hhi) Hs Hne.
  assert (0 < length ks)%nat by (destruct ks; [done|cbn; lia]).
  unfold branch_index. destruct found; cbn [negb andb].
  - pose proof (lookup_lt_Some _ _ _ Hhi). split_and!; [lia|lia| |].
    + intros j k Hj Hj0 Hji. destruct (decide (j = Z.to_nat i)) as [->|].
      * simplify_eq. apply (irreflexivity bytes_lt).
      * apply bytes_lt_asym. apply (Hlo j); [done|lia].
    + intros j k Hj Hij. eapply (StronglySorted_lookup_lt _ ks (Z.to_nat i) j); eauto. lia.
  - destruct (Z.ltb_spec 0 i).
    + split_and!; [lia|lia| |].
      * intros j k Hj _ Hji. apply bytes_lt_asym, (Hlo j); [done|lia].
      * intros j k Hj Hij. apply (Hhi j); [done|lia].
    + split_and!; [lia|lia| |]; intros j k Hj ?; [lia|]. apply (Hhi j); [done|lia].
Qed.

Section srep.
Context (w : World) (b : bptr).

(** [rep] with the order of a search tree: the keys of every page strictly
    increase, and those under child [i] are not below key [i] (but for the
    first child) and below key [i + 1]. *)
Fixpoint srep (h : nat) (id : Z) (ls : list (list KV)) : Prop :=
  exists node page, getPageNode w b id = Ok (node, page) /\
    match h with
    | O => exists es, LeafView w page node es /\ ls = [es] /\ StronglySorted bytes_lt (kv_keys es)
    | S h => exists ks ids lss, BranchView w page node ks ids /\ ids <> [] /\
        Forall2 (srep h) ids lss /\ ls = concat lss /\ StronglySorted bytes_lt ks /\
        forall i l e, lss !! i = Some l -> e ∈ concat l ->
          (forall k, (0 < i)%nat -> ks !! i = Some k -> ~ bytes_lt (data_ (kv_key e)) k) /\
          (forall k, ks !! S i = Some k -> bytes_lt (data_ (kv_key e)) k)
    end.

Lemma srep_rep h : forall id ls, srep h id ls -> rep w b h id ls.
Proof.
  induction h as [|h IH]; intros id ls (node&page&Hpn&Hr); exists node, page; split; try done.
  - destruct Hr as (es&?&->&_). by exists es.
  - destruct Hr as (ks&ids&lss&?&?&Hall&->&_). exists ks, ids, lss. split_and!; try done.
    eapply Forall2_impl; [exact Hall|exact IH].
Qed.

(** The test [search] makes of a page's flag. *)
Lemma flag_check page :
  page_flag_ok w page ->
  match page with
  | Some p => fl ← on_page w p Page_flag;
      if Z.land fl (Z.lor branchPageFlag leafPageFlag) =? 0 then Err LogFatal else Ok tt
  | None => Ok tt
  end = Ok tt.
Proof.
  destruct page as [p|]; [|done]. intros (fl&->&Hne). cbn [mbind res_bind].
  by rewrite (proj2 (Z.eqb_neq _ _) Hne).
Qed.

(** Only the child the descent enters may hold the key. *)
Lemma only_child ks key lss idx e :
  length lss = length ks ->
  (forall i l e, lss !! i = Some l -> e ∈ concat l ->
     (forall k, (0 < i)%nat -> ks !! i = Some k -> ~ bytes_lt (data_ (kv_key e)) k) /\
     (forall k, ks !! S i = Some k -> bytes_lt (data_ (kv_key e)) k)) ->
  (forall j k, ks !! j = Some k -> (0 < j)%nat -> Z.of_nat j <= idx -> ~ bytes_lt key k) ->
  (forall j k, ks !! j = Some k -> idx < Z.of_nat j -> bytes_lt key k) ->
  0 <= idx < Z.of_nat (length ks) ->
  e ∈ concat (concat lss) -> data_ (kv_key e) = key ->
  exists l, lss !! Z.to_nat idx = Some l /\ e ∈ concat l.
Proof.
  intros Hlen Hord Hle Hgt Hidx He Hk. apply elem_of_concat in He as (es&Hes&He).
  apply elem_of_concat in Hes as (l&Hl&Hes). apply list_elem_of_lookup in Hl as [j Hj].
  assert (e ∈ concat l) as Hel by (apply elem_of_concat; by exists es).
  destruct (Hord j l e Hj Hel) as [H1 H2]. rewrite Hk in *.
  pose proof (lookup_lt_Some _ _ _ Hj).
  destruct (decide (j = Z.to_nat idx)) as [->|Hne]; [by exists l|exfalso].
  destruct (decide (Z.of_nat j < idx)).
  - destruct (lookup_lt_is_Some_2 ks (S j)) as [k Hkj]; [lia|].
    apply (Hle (S j) k); [done|lia|lia|by apply H2].
  - destruct (lookup_lt_is_Some_2 ks j) as [k Hkj]; [lia|].
    apply (H1 k); [lia|done|]. apply (Hgt j); [done|lia].
Qed.

(** The descent reaches the leaf that holds the key when the tree has it. *)
Lemma search_srep key h : forall id ls s ls' fuel,
  srep h id ls -> above w b h s ls' -> (h < fuel)%nat ->
  exists page node i found s' es pre post,
    search w b fuel key id s = Ok (mkRef page node i :: s') /\
    LeafView w page node es /\ search_spec (kv_keys es) (data_ key) (i, found) /\
    above w b 0 s' post /\ ls ++ ls' = pre ++ es :: post /\ length s' = (h + length s)%nat /\
    es ∈ ls /\ forall e, e ∈ concat ls -> data_ (kv_key e) = data_ key -> e ∈ es.
Proof.
  induction h as [|h IH]; intros id ls s ls' fuel Hrep Hab Hf; (destruct fuel as [|fuel]; [lia|]);
    destruct Hrep as (node&page&Hpn&Hr); cbn [search]; rewrite Hpn; cbn [mbind res_bind].
  - destruct Hr as (es&Hv&->&Hs). rewrite flag_check by apply lv_flag.
    cbn [mbind res_bind]. unfold ElementRef_new. rewrite lv_isLeaf. cbn [mbind res_bind].
    destruct (lv_search key s Hs) as ([i found]&Hse&Hspec).
    exists page, node, i, found, s, es, [], ls'. rewrite Hse. split_and!; try done.
    + by apply list_elem_of_singleton.
    + intros e. cbn. by rewrite app_nil_r.
  - destruct Hr as (ks&ids&lss&Hv&Hne&Hall&->&Hs&Hord). rewrite flag_check by apply bv_flag.
    cbn [mbind res_bind]. unfold ElementRef_new. rewrite bv_isLeaf. cbn [mbind res_bind].
    destruct (bv_search key Hs) as (r&Hse&Hspec). rewrite Hse. cbn [mbind res_bind].
    pose proof (bv_keys (ks:=ks)) as Hkl. pose proof (Forall2_length _ _ _ Hall) as Hl.
    destruct (branch_index_spec _ _ _ Hspec Hs) as (Hidx&Hle&Hgt); [by intros ->; destruct ids|].
    destruct (lookup_lt_is_Some_2 ids (Z.to_nat (branch_index r))) as [c Hc]; [lia|].
    unfold set_index. cbn [ref_page ref_node set_top_index].
    rewrite (bv_child (branch_index r) c) by (done || lia). cbn [mbind res_bind set_index ref_page ref_node].
    destruct (Forall2_lookup_l _ _ _ _ _ Hall Hc) as (l&Hlss&Hrep).
    destruct (IH c l (mkRef page node (branch_index r) :: s)
      (concat (drop (S (Z.to_nat (branch_index r))) lss) ++ ls') fuel)
      as (p'&n'&i&found&s'&es&pre&post&Hsearch&Hv'&Hspec'&Hab'&Heq&Hlen&Hin&Honly); [done| |lia|].
    { exists ks, ids, lss, ls'. split_and!; try done; try lia.
      eapply Forall2_impl; [exact Hall|]. intros. by apply srep_rep. }
    exists p', n', i, found, s', es, (concat (take (Z.to_nat (branch_index r)) lss) ++ pre), post.
    unfold set_index. cbn [ref_page ref_node]. split_and!; try done.
    + rewrite <-(app_assoc _ pre), <-Heq. rewrite (take_drop_splice lss _ _ Hlss) at 1.
      rewrite concat_app. cbn [concat]. by rewrite <-!app_assoc.
    + rewrite Hlen. cbn. lia.
    + apply elem_of_concat. exists l. split; [by eapply list_elem_of_lookup_2|done].
    + intros e He Hk. destruct (only_child ks (data_ key) lss (branch_index r) e)
        as (l'&Hl'&Hel); try done; [lia|]. simplify_eq. by apply Honly.
Qed.
End srep.

(** ** Properties *)

(** C7. [Cursor::first] and then [Cursor::next] visit the entries of a
    bucket's tree in order, each once, whatever mixture of nodes and pages the
    tree is in: after [first] and [i] calls of [next] the cursor returns entry
    [i] of the leaves read left to right, empty leaves skipped, and an empty
    key from the end on. *)
Theorem cursor_walk_in_order `{Env} w b h id ls i :
  getRootPage w b = Ok id -> rep w b h id ls -> (h < env_fuel)%nat -> (length ls < env_fuel)%nat ->
  exists s, nth_step w b i = Ok (s, default KV_reset (concat ls !! i)).
Proof.
  intros Hroot Hrep Hh Hls. destruct (nth_step_spec w b h id ls i) as (s&kv&Hi&Hpos); [done..|].
  exists s. rewrite Hi. do 2 f_equal. rewrite lookup_head_drop.
  destruct (drop i (concat ls)) as [|e l]; [by destruct Hpos|by destruct Hpos as [-> _]].
Qed.

(** An index a search returns splits the entries into those below the key and
    the rest. *)
Lemma search_spec_filter es key i found :
  StronglySorted bytes_lt (kv_keys es) -> search_spec (kv_keys es) key (i, found) ->
  filter (fun e => ~ data_ (kv_key e) ≺ key) es = drop (Z.to_nat i) es.
Proof.
  intros Hs (Hi&Hlo&Hhi). rewrite <-(take_drop (Z.to_nat i) es) at 1. rewrite filter_app.
  assert (forall j e, es !! j = Some e -> kv_keys es !! j = Some (data_ (kv_key e))) as Hkey.
  { intros j e Hj. unfold kv_keys. by rewrite list_lookup_fmap, Hj. }
  rewrite filter_none, filter_all; [done| |].
  - apply Forall_forall. intros e [j Hj]%list_elem_of_lookup. rewrite lookup_drop in Hj.
    apply Hkey in Hj. destruct found.
    + destruct (decide (j = 0%nat)) as [->|].
      * rewrite Nat.add_0_r, Hhi in Hj. injection Hj as ->. apply (irreflexivity bytes_lt).
      * apply bytes_lt_asym. eapply (StronglySorted_lookup_lt _ _ (Z.to_nat i)); eauto. lia.
    + apply bytes_lt_asym. apply (Hhi (Z.to_nat i + j)%nat); [done|lia].
  - apply Forall_forall. intros e [j Hj]%list_elem_of_lookup.
    apply lookup_take_Some in Hj as [Hj ?]. intros Hn. apply Hn.
    apply (Hlo j); [by apply Hkey|lia].
Qed.

(** C24. [Cursor::seek] on a search tree finds a key that is there, with its
    value and flag; in general it returns the first entry not below the key of
    the one leaf the key belongs to, and an empty key when that leaf has none
    (the next leaf is not tried). *)
Theorem seek_ceiling_in_leaf `{Env} w b h id ls key :
  getRootPage w b = Ok id -> srep w b h id ls -> (h < env_fuel)%nat ->
  Forall (fun es => StronglySorted bytes_lt (kv_keys es)) ls ->
  exists s p es kv, seek w b key = Ok (s, p, kv) /\ es ∈ ls /\
    kv = default KV_reset
           (head (filter (fun e => ~ data_ (kv_key e) ≺ data_ key) es)) /\
    (forall e, e ∈ concat ls -> data_ (kv_key e) = data_ key -> kv = e).
Proof.
  intros Hroot Hrep Hh Hsorted.
  destruct (search_srep w b key h id ls [] [] env_fuel Hrep eq_refl Hh)
    as (page&node&i&found&s'&es&pre&post&Hse&Hv&Hspec&_&_&_&Hin&Honly).
  rewrite Forall_forall in Hsorted. specialize (Hsorted es Hin).
  pose proof (search_spec_filter _ _ _ _ Hsorted Hspec) as Hfil.
  pose proof Hspec as ([Hi0 Hi]&_). unfold kv_keys in Hi. rewrite length_fmap in Hi.
  assert (exists s p, seek w b key = Ok (s, p, default KV_reset (es !! Z.to_nat i))) as (s&p&Hseek).
  { unfold seek, do_seek. rewrite Hroot. cbn [mbind res_bind]. rewrite Hse.
    cbn [mbind res_bind top]. rewrite lv_count. cbn [mbind res_bind index_].
    destruct (Z.leb_spec (Z.of_nat (length es)) i).
    - rewrite lookup_ge_None_2 by lia. by eexists _, _.
    - destruct (lookup_lt_is_Some_2 es (Z.to_nat i)) as [e He]; [lia|].
      destruct (lv_entry i e s' KV_reset) as [p Hp]; [lia|done|]. rewrite Hp. rewrite He. by eexists _, _. }
  exists s, p, es, (default KV_reset (es !! Z.to_nat i)). split_and!; [done|done| |].
  - by rewrite Hfil, lookup_head_drop.
  - intros e He Hk. specialize (Honly e He Hk). apply list_elem_of_lookup in Honly as [j Hj].
    assert (kv_keys es !! j = Some (data_ key)) as Hkj
      by (unfold kv_keys; by rewrite list_lookup_fmap, Hj; cbn; rewrite Hk).
    destruct Hspec as (_&Hlo&Hhi). destruct (decide (Z.of_nat j < i)).
    { exfalso. by apply (irreflexivity bytes_lt (data_ key)), (Hlo j). }
    destruct found.
    + assert (j = Z.to_nat i) as <-; [|by rewrite Hj].
      destruct (decide (j = Z.to_nat i)) as [|Hne]; [done|exfalso].
      apply (irreflexivity bytes_lt (data_ key)).
      eapply (StronglySorted_lookup_lt _ (kv_keys es) (Z.to_nat i) j); eauto. lia.
    + exfalso. apply (irreflexivity bytes_lt (data_ key)). apply (Hhi j); [done|lia].
Qed.

(** ** Witnesses: a root with two leaves *)

Definition ex_item (b : byte) : Item := Item_of_string [b].
Definition ex_kv (b : byte) : KV := mkKV (ex_item b) (ex_item Byte.x76) 0.
Definition ex_kv_inode (b : byte) : Inode := mkInode 0 0 (ex_item b) (ex_item Byte.x76).
Definition ex_tree_leaf (bs : list byte) : Node :=
  markLeaf (set_inodeList (ex_kv_inode <$> bs) (Node_new 0%nat None)).
Definition ex_tree_root : Node :=
  set_inodeList [mkInode 0 6 (ex_item Byte.x62) Item_empty; mkInode 0 7 (ex_item Byte.x66) Item_empty]
    (Node_new 0%nat None).
Definition ex_tree_bucket : Bucket :=
  bset_nodes_ {[5 := 0%nat; 6 := 1%nat; 7 := 2%nat]}
    (bset_bucketHeader_ {| root := 5; sequence := 0 |} (Bucket_new 0%nat)).
Definition ex_tree_world : World :=
  wset_w_buckets {[0%nat := ex_tree_bucket]}
    (wset_w_nodes {[0%nat := ex_tree_root; 1%nat := ex_tree_leaf [Byte.x62; Byte.x64];
                    2%nat := ex_tree_leaf [Byte.x66; Byte.x68]]} (with_tx 0%nat ex_tx empty_world)).
Definition ex_leaves : list (list KV) :=
  [ex_kv <$> [Byte.x62; Byte.x64]; ex_kv <$> [Byte.x66; Byte.x68]].

Lemma ex_leaf_view (n : nptr) bs :
  node_of ex_tree_world n = Ok (ex_tree_leaf bs) -> (length bs <= 10)%nat ->
  LeafView ex_tree_world None (Some n) (ex_kv <$> bs).
Proof.
  intros Hn Hl. assert (ex_kv <$> bs = kv_of_inode <$> inodeList_ (ex_tree_leaf bs)) as ->.
  { cbn. by rewrite <-list_fmap_compose. }
  apply node_leaf_view; [done|done|]. cbn. rewrite length_fmap. lia.
Qed.

Lemma ex_srep : srep ex_tree_world 0%nat 1 5 ex_leaves.
Proof.
  exists (Some 0%nat), None. split; [reflexivity|].
  exists (ikeys (inodeList_ ex_tree_root)), (branchPageIds ex_tree_root), [[ex_kv <$> [Byte.x62; Byte.x64]]; [ex_kv <$> [Byte.x66; Byte.x68]]].
  split_and!; [by apply node_branch_view|done| |done|by repeat constructor|].
  - repeat constructor.
    + exists (Some 1%nat), None. split; [reflexivity|]. eexists. split_and!; [|done|by repeat constructor].
      apply ex_leaf_view; [reflexivity|cbn; lia].
    + exists (Some 2%nat), None. split; [reflexivity|]. eexists. split_and!; [|done|by repeat constructor].
      apply ex_leaf_view; [reflexivity|cbn; lia].
  - intros [|[|i]] l e Hl He; [| |done]; injection Hl as <-; cbn in He;
      repeat (apply elem_of_cons in He as [->|He]); try (by apply not_elem_of_nil in He);
      (split; [intros k Hi Hk|intros k Hk]); try lia; try done; injection Hk as <-; done.
Qed.

Lemma cursor_walk_in_order_witness :
  exists s, nth_step (H:=sample_env) ex_tree_world 0%nat 2 = Ok (s, ex_kv Byte.x66).
Proof.
  apply (cursor_walk_in_order (H:=sample_env) ex_tree_world 0%nat 1 5 ex_leaves 2).
  - reflexivity.
  - apply srep_rep, ex_srep.
  - cbn; lia.
  - cbn; lia.
Defined.

Lemma seek_ceiling_in_leaf_witness :
  exists s p es kv, seek (H:=sample_env) ex_tree_world 0%nat (ex_item Byte.x64) = Ok (s, p, kv) /\
    es ∈ ex_leaves /\
    kv = default KV_reset
           (head (filter (fun e => ~ bytes_lt (data_ (kv_key e)) (data_ (ex_item Byte.x64))) es)) /\
    (forall e, e ∈ concat ex_leaves -> data_ (kv_key e) = data_ (ex_item Byte.x64) -> kv = e).
Proof.
  apply (seek_ceiling_in_leaf (H:=sample_env) ex_tree_world 0%nat 1 5 ex_leaves).
  - reflexivity.
  - apply ex_srep.
  - cbn; lia.
  - by repeat constructor.
Defined.

(** The key after [d] is [f], but a search for [e] ends in the leaf of [d]. *)
Example seek_stops_at_leaf :
  exists s p, seek (H:=sample_env) ex_tree_world 0%nat (ex_item Byte.x65) = Ok (s, p, KV_reset).
Proof. by eexists _, _. Qed.
