(* ===== verification/Termination.v ===== *)
(** * Termination.v: cursors stop

    The loops of the cursor follow page ids found in pages.  When the ids form
    no cycle and branches are not empty they all stop, whatever else the pages
    hold.  Where [rank] is the height of the root and [C] the most entries of
    an element, [search], [do_first] and [do_last] take at most [rank + 1]
    steps and [do_next] at most [C ^ (rank + 1)] rounds: one for each leaf
    entry that a tree of that height and fan-out can have.  Nothing is assumed
    of the order of the keys, and reads may fail. *)
From S2P Require Import Bytes.
From S2P Require Import BinSearch.
From S2P Require Import Page.
From S2P Require Import Meta.
From S2P Require Import Node.
From S2P Require Import World.
From S2P Require Import Pager.
From S2P Require Import Tree.
From S2P Require Import Cursor.
From S2P Require Import Traversal.

(** ** Computations that do not run out of fuel *)

Definition stops {A} (r : res A) : Prop := r <> Err OutOfFuel.

Lemma stops_bind {A B} (m : res A) (f : A -> res B) :
  stops m -> (forall a, m = Ok a -> stops (f a)) -> stops (m ≫= f).
Proof. unfold stops. destruct m; cbn; [auto|]. congruence. Qed.

(** The same fault, of another type. *)
Lemma stops_err {A B} f : stops (@Err A f) -> stops (@Err B f).
Proof. unfold stops. congruence. Qed.

(** An operation that failed: with the same fault the rest fails. *)
Ltac stops_fail := split; [by eapply stops_err|done].

Lemma stops_ok {A} (a : A) : stops (Ok a).
Proof. done. Qed.
Lemma stops_the {A} (o : option A) : stops (the o).
Proof. by destruct o. Qed.
Lemma stops_deref {A} (o : option A) : stops (deref o).
Proof. by destruct o. Qed.
Lemma stops_load n m o : stops (load n m o).
Proof. unfold load, slice. by destruct (_ && _). Qed.
Lemma stops_item m o n : stops (Item_of_buf m o n).
Proof. unfold Item_of_buf, slice. by destruct (_ && _). Qed.
Lemma stops_mem w p : stops (mem_of w p).
Proof. unfold mem_of. destruct p; [|apply stops_bind; [apply stops_the|done]|done]. destruct (w_map w); [|done]. by case_decide. Qed.

(** [stops_step] goes through one operation of a computation. *)
Ltac stops_step :=
  match goal with
  | |- stops (Ok _) => apply stops_ok
  | |- stops (mbind _ _) => apply stops_bind; [|intros ? ?]
  | |- stops (load _ _ _) => apply stops_load
  | |- stops (Item_of_buf _ _ _) => apply stops_item
  | |- stops (the _) => apply stops_the
  | |- stops (deref _) => apply stops_deref
  | |- stops (mem_of _ _) => apply stops_mem
  | |- stops (match ?x with _ => _ end) => destruct x eqn:?
  | |- stops (if ?x then _ else _) => destruct x eqn:?
  | |- stops (Err _) => by unfold stops
  end.
Ltac stops_tac := repeat stops_step.

Lemma stops_on_page {A} w p (f : list byte -> Z -> res A) : (forall m o, stops (f m o)) -> stops (on_page w p f).
Proof. intros Hf. unfold on_page. stops_tac. apply Hf. Qed.

(** The binary search stops when its keys' reads do. *)
Lemma bsearch_stops key_at n key :
  (forall i, stops (key_at i)) -> 0 <= n <= 2 ^ 31 -> stops (bsearch key_at n key).
Proof.
  intros Hk Hn. unfold bsearch.
  assert (forall fuel b e, 0 <= b <= e -> e <= n -> (Z.to_nat (e - b) < fuel)%nat ->
    stops (bsearch_loop key_at fuel key b e)) as Hloop; [|apply Hloop; lia].
  induction fuel as [|fuel IH]; intros b e Hb He Hf; [lia|]. cbn [bsearch_loop].
  destruct (Z.ltb_spec b e); [|apply stops_ok].
  pose proof (Z.div_mod (b + e) 2). pose proof (Z.mod_pos_bound (b + e) 2). rewrite (wrap_id 32) by lia.
  apply stops_bind; [apply Hk|]. intros k _. destruct (bytes_ltb key k); [apply IH; lia|].
  destruct (bytes_eqb k key); [apply stops_ok|]. rewrite (wrap_id 32) by lia. apply IH; lia.
Qed.

Lemma stops_node w n : stops (node_of w n).
Proof. unfold node_of. stops_tac. Qed.
Lemma stops_bucket w b : stops (bucket_of w b).
Proof. unfold bucket_of. stops_tac. Qed.
Lemma stops_tx w t : stops (tx_of w t).
Proof. unfold tx_of. stops_tac. Qed.

Lemma stops_getPageNode w b id : stops (getPageNode w b id).
Proof.
  unfold getPageNode, getPage. apply stops_bind; [apply stops_bucket|]. intros v _. stops_tac. apply stops_tx.
Qed.

Lemma stops_isLeaf w r : stops (isLeaf w r).
Proof.
  unfold isLeaf, assert_page, Page_flag. stops_tac; [apply stops_node|]. apply stops_on_page. intros. stops_tac.
Qed.

Lemma stops_count w r : stops (count w r).
Proof.
  unfold count, assert_page, Page_count. stops_tac; [apply stops_node|]. apply stops_on_page. intros. stops_tac.
Qed.

Lemma stops_child_id w r : stops (child_id w r).
Proof.
  unfold child_id, branch_pageId. stops_tac; [apply stops_node|]. apply stops_on_page. intros. stops_tac.
Qed.

Lemma stops_keyValue w s kv : stops (keyValue w s kv).
Proof.
  unfold keyValue. stops_tac; [apply stops_count|apply stops_node|].
  apply stops_on_page. intros. unfold leaf_key, leaf_value, leaf_flag, leaf_pos, leaf_ksize, leaf_vsize, leaf_read. stops_tac.
Qed.

Lemma stops_advance w s : stops (advance w s).
Proof. induction s; cbn [advance]; stops_tac; [apply stops_count|done]. Qed.

Lemma advance_inv w s s' : advance w s = Ok s' ->
  s' = [] \/ exists r s0 n, count w r = Ok n /\ wrap64 (index_ r + 1) < n /\
    s' = set_index (wrap64 (index_ r + 1)) r :: s0 /\ exists s1, s = s1 ++ r :: s0.
Proof.
  induction s as [|r s IH]; cbn [advance]; intros Hs; [injection Hs as <-; by left|].
  destruct (count w r) as [n|] eqn:Hn; [|done]. cbn [mbind res_bind] in Hs.
  destruct (Z.ltb_spec (wrap64 (index_ r + 1)) n).
  - injection Hs as <-. right. exists r, s, n. split_and!; try done. by exists [].
  - destruct (IH Hs) as [->|(r'&s0&n'&?&?&?&s1&->)]; [by left|]. right. exists r', s0, n'. split_and!; try done.
    by exists (r :: s1).
Qed.

(** ** Acyclic buckets *)

(** The page ids a cursor on bucket [b] can come to from [rootid]. *)
Inductive reachable (w : World) (b : bptr) (rootid : Z) : Z -> Prop :=
  | reachable_root : reachable w b rootid rootid
  | reachable_child id node page i n c : reachable w b rootid id -> getPageNode w b id = Ok (node, page) ->
      isLeaf w (mkRef page node i) = Ok false -> count w (mkRef page node i) = Ok n -> 0 <= i < n ->
      child_id w (mkRef page node i) = Ok c -> reachable w b rootid c.

(** None of them leads back to itself: [rank] decreases from a branch to the
    child of each of its entries.  Branches have entries, and no element has
    more than [C]. *)
Record acyclic (w : World) (b : bptr) (rootid : Z) (rank : Z -> nat) (C : Z) : Prop := {
  ac_child id node page i n c : reachable w b rootid id -> getPageNode w b id = Ok (node, page) ->
    isLeaf w (mkRef page node i) = Ok false -> count w (mkRef page node i) = Ok n -> 0 <= i < n ->
    child_id w (mkRef page node i) = Ok c -> (rank c < rank id)%nat;
  ac_branch id node page i : reachable w b rootid id -> getPageNode w b id = Ok (node, page) ->
    isLeaf w (mkRef page node i) = Ok false -> exists n, count w (mkRef page node i) = Ok n /\ 1 <= n;
  ac_count id node page i n : reachable w b rootid id -> getPageNode w b id = Ok (node, page) ->
    count w (mkRef page node i) = Ok n -> 0 <= n <= C;
  ac_bound : 1 <= C <= 2 ^ 31;
}.

Lemma bsearch_range key_at n key i f :
  0 <= n <= 2 ^ 31 -> bsearch key_at n key = Ok (i, f) -> 0 <= i <= n /\ (f = true -> i < n).
Proof.
  intros Hn. unfold bsearch.
  assert (forall fuel b e, 0 <= b <= e -> e <= n -> bsearch_loop key_at fuel key b e = Ok (i, f) ->
    0 <= i <= n /\ (f = true -> i < n)) as Hloop; [|apply Hloop; lia].
  induction fuel as [|fuel IH]; intros b e Hb He; [done|]. cbn [bsearch_loop].
  destruct (Z.ltb_spec b e); [|intros [= <- <-]; split; [lia|done]].
  pose proof (Z.div_mod (b + e) 2). pose proof (Z.mod_pos_bound (b + e) 2). rewrite (wrap_id 32) by lia.
  destruct (key_at ((b + e) / 2)) as [k|]; [|done]. cbn [mbind res_bind].
  destruct (bytes_ltb key k); [apply IH; lia|]. destruct (bytes_eqb k key); [intros [= <- _]; lia|].
  rewrite (wrap_id 32) by lia. apply IH; lia.
Qed.

Section walk.
Context (w : World) (b : bptr) (rank : Z -> nat) (C : Z) (rootid : Z).
Hypothesis tree : acyclic w b rootid rank C.
#[local] Set Default Proof Using "All".

Definition at_id (r : ElementRef) (id : Z) : Prop :=
  reachable w b rootid id /\ getPageNode w b id = Ok (ref_node r, ref_page r).

(** An index the cursor may be at: in a branch that of an entry, in a leaf near
    the entries, or before an empty leaf. *)
Record index_ok (r : ElementRef) : Prop := {
  ix_near : 0 <= index_ r < 2 ^ 63 \/ (0 <= index_ r /\ count w r = Ok 0);
  ix_branch : isLeaf w r = Ok false -> exists n, count w r = Ok n /\ 0 <= index_ r < n;
}.

(** The entries after the index. *)
Definition left (r : ElementRef) : Z := match count w r with Ok n => Z.max 0 (n - 1 - index_ r) | Err _ => 0 end.

(** A stack from the root down: the rank of its top, and a bound on the leaves
    after its position. *)
Inductive path : elements -> nat -> Z -> Prop :=
  | path_root r : at_id r rootid -> index_ok r -> path [r] (rank rootid) (left r * C ^ Z.of_nat (rank rootid))
  | path_child r s id h m : path s h m -> (rank id < h)%nat -> at_id r id -> index_ok r ->
      path (r :: s) (rank id) (m + left r * C ^ Z.of_nat (rank id)).

Lemma left_nonneg r : 0 <= left r.
Proof. unfold left. destruct (count w r); lia. Qed.

Lemma weight_pos n : 1 <= C ^ Z.of_nat n.
Proof. pose proof (ac_bound _ _ _ _ _ tree). assert (0 < C ^ Z.of_nat n); [|lia]. apply Z.pow_pos_nonneg; lia. Qed.

Lemma path_nonneg s h m : path s h m -> 0 <= m.
Proof.
  induction 1 as [r|r s id h m _ IH]; pose proof (left_nonneg r); pose proof (weight_pos (rank rootid));
    [nia|]. pose proof (weight_pos (rank id)). nia.
Qed.

Lemma path_top r s h m : path (r :: s) h m ->
  exists id, at_id r id /\ rank id = h /\ index_ok r.
Proof. intros Hp. inversion Hp; subst; eauto. Qed.

Lemma path_cons s h m r id : path s h m -> (rank id < h)%nat -> at_id r id -> index_ok r ->
  path (r :: s) (rank id) (m + left r * C ^ Z.of_nat (rank id)).
Proof. intros. by apply (path_child _ _ _ h). Qed.

(** Moving the top's index. *)
Lemma path_set_index r s h m i : path (r :: s) h m -> index_ok (set_index i r) ->
  path (set_index i r :: s) h (m - left r * C ^ Z.of_nat h + left (set_index i r) * C ^ Z.of_nat h).
Proof.
  intros Hp Hi. inversion Hp as [? Hr _|? ? id h' m' Hs Hlt Hr _]; subst.
  - replace (_ - _ + _) with (left (set_index i r) * C ^ Z.of_nat (rank rootid)) by lia. by constructor.
  - replace (_ - _ + _) with (m' + left (set_index i r) * C ^ Z.of_nat (rank id)) by lia. by apply (path_child _ _ _ h').
Qed.

Lemma path_drop s1 s h m : s <> [] -> path (s1 ++ s) h m -> exists h' m', path s h' m' /\ m' <= m /\ (h <= h')%nat.
Proof.
  intros Hs. revert h m. induction s1 as [|r s1 IH]; intros h m Hp; [by exists h, m|]. cbn in Hp.
  inversion Hp as [? Hr _ E|? ? id h' m' Hp' Hlt Hr _]; subst.
  - by destruct s1, s.
  - destruct (IH _ _ Hp') as (h2&m2&?&?&?). exists h2, m2. split; [done|]. split; [|lia].
    pose proof (left_nonneg r). pose proof (weight_pos (rank id)). nia.
Qed.

Lemma count_bound r id n : at_id r id -> count w r = Ok n -> 0 <= n <= C.
Proof. intros [Hre Hr]. destruct r as [page node i]. by apply (ac_count _ _ _ _ _ tree id). Qed.

Lemma child_rank r id c : at_id r id -> index_ok r -> isLeaf w r = Ok false -> child_id w r = Ok c ->
  reachable w b rootid c /\ (rank c < rank id)%nat.
Proof.
  intros [Hre Hr] [_ Hix] Hl Hc. destruct (Hix Hl) as (n&Hn&Hi). destruct r as [page node i].
  split; [by eapply reachable_child|]. by apply (ac_child _ _ _ _ _ tree id node page i n).
Qed.

(** The index a new element has. *)
Lemma index_ok_new r id : at_id r id -> index_ r = 0 -> index_ok r.
Proof.
  intros [Hre Hr] Hi. split; [left; lia|]. intros Hl. destruct r as [page node i]. cbn in Hi. subst i.
  destruct (ac_branch _ _ _ _ _ tree id node page 0 Hre Hr Hl) as (n&Hn&?). exists n. split; [done|]. cbn. lia.
Qed.

(** ** Descents *)

(** The element [do_first] pushes adds less than what its parent's index
    takes away. *)
Lemma pushed_left node page id : at_id (ElementRef_new page node) id ->
  left (ElementRef_new page node) <= C - 1 /\ index_ok (ElementRef_new page node).
Proof.
  intros Hg. pose proof (ac_bound _ _ _ _ _ tree). split; [|by eapply index_ok_new]. unfold left.
  destruct (count w _) as [n|] eqn:Hn; [|lia]. apply (count_bound (ElementRef_new page node) id) in Hn; [|exact Hg].
  cbn. lia.
Qed.

Lemma do_first_stops fuel : forall s h m, path s h m -> (h < fuel)%nat ->
  stops (do_first w b fuel s) /\
  forall s', do_first w b fuel s = Ok s' -> exists h' m', path s' h' m' /\ m' <= m + C ^ Z.of_nat h - 1.
Proof.
  induction fuel as [|fuel IH]; intros s h m Hp Hf; [lia|]. cbn [do_first].
  destruct s as [|r s]; [by inversion Hp|]. destruct (path_top _ _ _ _ Hp) as (id&Hr&Hh&Hir).
  pose proof (weight_pos h) as Hw1. pose proof (stops_isLeaf w r) as Hsl.
  destruct (isLeaf w r) as [[]|] eqn:Hl; cbn [mbind res_bind].
  - split; [apply stops_ok|]. intros s' [= <-]. exists h, m. split; [done|lia].
  - pose proof (stops_child_id w r) as Hsc. destruct (child_id w r) as [c|] eqn:Hc; cbn [mbind res_bind]; [|stops_fail].
    pose proof (stops_getPageNode w b c) as Hsg.
    destruct (getPageNode w b c) as [[node page]|] eqn:Hg; cbn [mbind res_bind]; [|stops_fail].
    destruct (child_rank r id c Hr Hir Hl Hc) as [Hre Hlt]. rewrite Hh in Hlt.
    assert (at_id (ElementRef_new page node) c) as Hat by (by split).
    destruct (pushed_left node page c Hat) as [Hle Hix].
    pose proof (path_cons (r :: s) h m (ElementRef_new page node) c Hp Hlt Hat Hix) as Hp'.
    destruct (IH _ _ _ Hp') as [Hst Hres]; [lia|]. split; [exact Hst|]. intros s' Hs'.
    destruct (Hres s' Hs') as (h'&m'&Hp''&Hm). exists h', m'. split; [done|].
    pose proof (ac_bound _ _ _ _ _ tree). pose proof (weight_pos (rank c)).
    assert (C ^ Z.of_nat (rank c) * C <= C ^ Z.of_nat h) as Hpow.
    { rewrite Z.mul_comm, <-Z.pow_succ_r by lia. apply Z.pow_le_mono_r; lia. }
    nia.
  - stops_fail.
Qed.

Lemma last_index node page id n : at_id (ElementRef_new page node) id ->
  count w (ElementRef_new page node) = Ok n -> index_ok (set_index (wrap64 (n - 1)) (ElementRef_new page node)).
Proof.
  intros Hg Hn. pose proof (count_bound (ElementRef_new page node) id n Hg Hn) as Hb. pose proof (ac_bound _ _ _ _ _ tree).
  split.
  - destruct (decide (n = 0)) as [->|Hne].
    + right. split; [cbn; unfold wrap; vm_compute; discriminate|exact Hn].
    + left. cbn. rewrite wrap_id by lia. lia.
  - intros Hl. exists n. split; [exact Hn|]. destruct Hg as [Hre Hg].
    destruct (ac_branch _ _ _ _ _ tree id node page 0 Hre Hg Hl) as (n'&Hn'&?).
    assert (n' = n) as -> by (unfold ElementRef_new in Hn; congruence). cbn. rewrite wrap_id by lia. lia.
Qed.

Lemma do_last_stops fuel : forall s h m, path s h m -> (h < fuel)%nat ->
  stops (do_last w b fuel s) /\ forall s', do_last w b fuel s = Ok s' -> exists h' m', path s' h' m'.
Proof.
  induction fuel as [|fuel IH]; intros s h m Hp Hf; [lia|]. cbn [do_last].
  destruct s as [|r s]; [by inversion Hp|]. destruct (path_top _ _ _ _ Hp) as (id&Hr&Hh&Hir).
  pose proof (stops_isLeaf w r) as Hsl.
  destruct (isLeaf w r) as [[]|] eqn:Hl; cbn [mbind res_bind].
  - split; [apply stops_ok|]. intros s' [= <-]. by exists h, m.
  - pose proof (stops_child_id w r) as Hsc. destruct (child_id w r) as [c|] eqn:Hc; cbn [mbind res_bind]; [|stops_fail].
    pose proof (stops_getPageNode w b c) as Hsg.
    destruct (getPageNode w b c) as [[node page]|] eqn:Hg; cbn [mbind res_bind]; [|stops_fail].
    pose proof (stops_count w (ElementRef_new page node)) as Hsn.
    destruct (count w _) as [n|] eqn:Hn; cbn [mbind res_bind]; [|stops_fail].
    destruct (child_rank r id c Hr Hir Hl Hc) as [Hre Hlt]. rewrite Hh in Hlt.
    assert (at_id (ElementRef_new page node) c) as Hat by (by split).
    apply (IH _ (rank c) (m + left (set_index (wrap64 (n - 1)) (ElementRef_new page node)) * C ^ Z.of_nat (rank c))); [|lia].
    apply (path_cons (r :: s) h); [done|done|exact Hat|by eapply last_index].
  - stops_fail.
Qed.

(** ** Moving forward *)

Lemma path_rank s h m : path s h m -> (h <= rank rootid)%nat.
Proof. induction 1; lia. Qed.

Lemma advance_path s h m s' : path s h m -> advance w s = Ok s' ->
  s' = [] \/ exists h' m', path s' h' m' /\ m' + C ^ Z.of_nat h' <= m.
Proof.
  intros Hp [->|(r&s0&n&Hn&Hlt&->&s1&->)]%advance_inv; [by left|]. right.
  destruct (path_drop s1 (r :: s0) h m) as (h1&m1&Hp1&Hm&_); [done|done|].
  destruct (path_top _ _ _ _ Hp1) as (id&Hr&Hh&Hix). pose proof (count_bound r id n Hr Hn) as Hb.
  pose proof (ac_bound _ _ _ _ _ tree). destruct Hix as [[Hix|[? Hz]] _]; [|assert (n = 0) as -> by congruence; unfold wrap in Hlt; pose proof (Z.mod_pos_bound (index_ r + 1) (2 ^ 64)); lia].
  rewrite wrap_id in * by lia.
  exists h1. eexists. split.
  { apply (path_set_index r s0 h1 m1 (index_ r + 1) Hp1). split; [left; cbn; lia|].
    intros _. exists n. split; [exact Hn|]. cbn. lia. }
  pose proof (weight_pos h1). unfold left. change (count w (set_index (index_ r + 1) r)) with (count w r).
  rewrite Hn. cbn [index_ set_index]. rewrite !Z.max_r by lia. nia.
Qed.

Lemma do_next_stops depth fuel : forall s h m kv, path s h m -> (rank rootid < depth)%nat -> m < Z.of_nat fuel ->
  stops (do_next w b depth fuel s kv) /\
  forall s' kv', do_next w b depth fuel s kv = Ok (s', kv') -> s' = [] \/ exists h' m', path s' h' m'.
Proof.
  induction fuel as [|fuel IH]; intros s h m kv Hp Hd Hf; [pose proof (path_nonneg _ _ _ Hp); lia|].
  cbn [do_next]. pose proof (stops_advance w s) as Hsa.
  destruct (advance w s) as [s1|] eqn:Ha; cbn [mbind res_bind]; [|stops_fail].
  destruct (advance_path _ _ _ _ Hp Ha) as [->|(h1&m1&Hp1&Hm1)].
  { split; [apply stops_ok|]. intros s' kv' [= <- _]. by left. }
  destruct s1 as [|r1 s1]; [by inversion Hp1|].
  destruct (do_first_stops depth _ _ _ Hp1) as [Hst Hres]; [pose proof (path_rank _ _ _ Hp1); lia|].
  destruct (do_first w b depth (r1 :: s1)) as [s2|] eqn:Hf2; cbn [mbind res_bind]; [|stops_fail].
  destruct (Hres s2 eq_refl) as (h2&m2&Hp2&Hm2). destruct s2 as [|r2 s2]; [by inversion Hp2|]. cbn [top mbind res_bind].
  pose proof (stops_count w r2) as Hsc. destruct (count w r2) as [n|]; cbn [mbind res_bind]; [|stops_fail].
  destruct (n =? 0).
  - apply (IH _ h2 m2); [done|done|lia].
  - pose proof (stops_keyValue w (r2 :: s2) kv) as Hsk.
    destruct (keyValue w (r2 :: s2) kv) as [[? ?]|]; cbn [mbind res_bind]; [|stops_fail].
    split; [apply stops_ok|]. intros s' kv' [= <- _]. right. by exists h2, m2.
Qed.

Lemma retreat_path s h m : path s h m -> retreat s = [] \/ exists h' m', path (retreat s) h' m'.
Proof.
  revert h m. induction s as [|r s IH]; intros h m Hp; [by left|]. cbn [retreat].
  destruct (Z.ltb_spec 0 (index_ r)) as [Hlt|Hge].
  - right. destruct (path_top _ _ _ _ Hp) as (id&Hr&Hh&Hix). exists h. eexists. apply (path_set_index r s h m _ Hp).
    destruct Hix as [Hix Hbr]. split.
    + destruct Hix as [?|[? ?]]; [left; cbn; lia|]. right. cbn. split; [lia|done].
    + intros Hl. destruct (Hbr Hl) as (n&Hn&?). exists n. split; [exact Hn|]. cbn. lia.
  - destruct s as [|r' s]; [by left|]. destruct (path_drop [r] (r' :: s) h m) as (h'&m'&Hp'&_); [done|done|]. by eapply IH.
Qed.

(** ** Searching *)

(** Where [search] may push the element [id]. *)
Definition below (id : Z) (s : elements) : Prop :=
  reachable w b rootid id /\ (s = [] /\ id = rootid \/ exists h m, path s h m /\ (rank id < h)%nat).

Lemma below_push id s node page i : below id s -> getPageNode w b id = Ok (node, page) ->
  index_ok (mkRef page node i) -> exists m, path (mkRef page node i :: s) (rank id) m.
Proof.
  intros [Hre [[-> ->]|(h&m&Hp&Hlt)]] Hg Hi; eexists.
  - by apply path_root.
  - by eapply path_cons.
Qed.

(** What the search for a key in an element answers: an index up to the number
    of entries, of an entry when it is found. *)
Definition search_range (page : option PagePtr) (node : option nptr) (i : Z) (f : bool) : Prop :=
  exists n, count w (ElementRef_new page node) = Ok n /\ n <= 2 ^ 31 /\ 0 <= i <= n /\ (f = true -> i < n).

(** The searches in one element: they stop, with an index in range. *)
Lemma node_search_stops id n page v key :
  reachable w b rootid id -> getPageNode w b id = Ok (Some n, page) -> node_of w n = Ok v ->
  stops (Node.search v key) /\ forall i f, Node.search v key = Ok (i, f) -> search_range page (Some n) i f.
Proof.
  intros Hre Hg Hv. pose proof (ac_bound _ _ _ _ _ tree).
  assert (count w (mkRef page (Some n) 0) = Ok (Z.of_nat (length (inodeList_ v)))) as Hc by (unfold count; cbn; by rewrite Hv).
  pose proof (ac_count _ _ _ _ _ tree id _ _ _ _ Hre Hg Hc) as Hcn. unfold Node.search, binarySearch. rewrite wrap_id by lia. split.
  - apply bsearch_stops; [|lia]. intros i. unfold ikey_at. by destruct (_ !! _).
  - intros i f Hi. apply bsearch_range in Hi as [? ?]; [|lia]. eexists. split_and!; [exact Hc|lia..|done].
Qed.

Lemma page_search_stops p key (elem : Z -> Z) (get : list byte -> Z -> res Item) sz :
  (forall m e, stops (get m e)) ->
  let s := fun m o => cnt ← Page_count m o;
    bsearch (fun mid => k ← get m (elem o + mid * sz); Ok (data_ k)) cnt (data_ key) in
  stops (on_page w p s) /\ forall i f, on_page w p s = Ok (i, f) -> search_range (Some p) None i f.
Proof.
  intros Hget s. split.
  - apply stops_on_page. intros m o. unfold s, Page_count. apply stops_bind; [apply stops_load|]. intros cnt Hc.
    apply load_range in Hc. apply bsearch_stops; [|lia]. intros i. apply stops_bind; [apply Hget|]. intros. apply stops_ok.
  - intros i f. unfold on_page, search_range, count. cbn. unfold on_page.
    destruct (mem_of w p) as [[m o]|]; [|done]. cbn [mbind res_bind]. unfold s, Page_count.
    destruct (load 2 m (o + 10)) as [cnt|] eqn:Hc; [|done]. cbn [mbind res_bind]. apply load_range in Hc.
    intros Hi. apply bsearch_range in Hi as [? ?]; [|lia]. exists cnt. split_and!; [done|lia..|done].
Qed.

Lemma searchLeaf_stops id node page key s :
  reachable w b rootid id -> getPageNode w b id = Ok (node, page) ->
  stops (searchLeaf w key (ElementRef_new page node :: s)) /\
  forall s', searchLeaf w key (ElementRef_new page node :: s) = Ok s' ->
    exists i f, s' = mkRef page node i :: s /\ search_range page node i f.
Proof.
  intros Hre Hg. unfold searchLeaf. cbn [ref_node ref_page ElementRef_new]. destruct node as [n|].
  - destruct (node_of w n) as [v|] eqn:Hv; cbn [mbind res_bind]; [|split; [pose proof (stops_node w n) as Hn; rewrite Hv in Hn; by eapply stops_err|done]].
    destruct (node_search_stops id n page v key Hre Hg Hv) as [Hst Hr].
    destruct (Node.search v key) as [[i f]|]; cbn [mbind res_bind]; [|stops_fail].
    split; [apply stops_ok|]. intros s' [= <-]. exists i, f. split; [done|]. by apply Hr.
  - destruct page as [p|]; cbn [deref mbind res_bind]; [|by split].
    destruct (page_search_stops p key (fun o => getLeafPageElement o 0) leaf_key LEAFELEMSIZE) as [Hst Hr].
    { intros m e. unfold leaf_key, leaf_pos, leaf_ksize, leaf_read. stops_tac. }
    change (on_page w p _) with (on_page w p (fun m o => cnt ← Page_count m o;
      bsearch (fun mid => k ← leaf_key m (getLeafPageElement o 0 + mid * LEAFELEMSIZE); Ok (data_ k)) cnt (data_ key))).
    destruct (on_page w p _) as [[i f]|]; cbn [mbind res_bind]; [|stops_fail].
    split; [apply stops_ok|]. intros s' [= <-]. exists i, f. split; [done|]. by apply Hr.
Qed.

Lemma searchBranch_stops id node page key :
  reachable w b rootid id -> getPageNode w b id = Ok (node, page) ->
  stops (searchBranch w key (ElementRef_new page node)) /\
  forall i, searchBranch w key (ElementRef_new page node) = Ok i -> isLeaf w (ElementRef_new page node) = Ok false ->
    index_ok (mkRef page node i).
Proof.
  assert (forall i f, reachable w b rootid id -> getPageNode w b id = Ok (node, page) -> search_range page node i f ->
    isLeaf w (ElementRef_new page node) = Ok false -> index_ok (mkRef page node (branch_index (i, f)))) as Hbi.
  { intros i f Hre Hg (n&Hn&Hmax&Hi&Hf) Hl. destruct (ac_branch _ _ _ _ _ tree id node page 0 Hre Hg Hl) as (n'&Hn'&?).
    assert (n' = n) as -> by (unfold ElementRef_new in Hn; congruence).
    assert (0 <= branch_index (i, f) < n) as Hb.
    { unfold branch_index. destruct f; cbn; [specialize (Hf eq_refl); lia|]. destruct (Z.ltb_spec 0 i); lia. }
    split; [left; cbn [index_]; lia|]. intros _. by exists n. }
  intros Hre Hg. unfold searchBranch. cbn [ref_node ref_page ElementRef_new]. destruct node as [n|].
  - destruct (node_of w n) as [v|] eqn:Hv; cbn [mbind res_bind]; [|split; [pose proof (stops_node w n) as Hn; rewrite Hv in Hn; by eapply stops_err|done]].
    destruct (node_search_stops id n page v key Hre Hg Hv) as [Hst Hr].
    destruct (Node.search v key) as [[i f]|]; cbn [mbind res_bind]; [|stops_fail].
    split; [apply stops_ok|]. intros j [= <-]. by apply Hbi, Hr.
  - destruct page as [p|]; cbn [deref mbind res_bind]; [|by split].
    destruct (page_search_stops p key (fun o => getBranchPageElement o 0) branch_key BRANCHELEMSIZE) as [Hst Hr].
    { intros m e. unfold branch_key, branch_pos, branch_ksize. stops_tac. }
    change (on_page w p _) with (on_page w p (fun m o => cnt ← Page_count m o;
      bsearch (fun mid => k ← branch_key m (getBranchPageElement o 0 + mid * BRANCHELEMSIZE); Ok (data_ k)) cnt (data_ key))).
    destruct (on_page w p _) as [[i f]|]; cbn [mbind res_bind]; [|stops_fail].
    split; [apply stops_ok|]. intros j [= <-]. by apply Hbi, Hr.
Qed.

Lemma search_stops fuel key : forall id s, below id s -> (rank id < fuel)%nat ->
  stops (search w b fuel key id s) /\
  forall s', search w b fuel key id s = Ok s' -> exists h m, path s' h m.
Proof.
  induction fuel as [|fuel IH]; intros id s Hbl Hf; [lia|]. cbn [search].
  pose proof (stops_getPageNode w b id) as Hsg.
  destruct (getPageNode w b id) as [[node page]|] eqn:Hg; cbn [mbind res_bind]; [|stops_fail].
  set (chk := match page with Some p => _ | None => _ end).
  assert (stops chk) as Hchk.
  { unfold chk. destruct page; [|done]. apply stops_bind; [apply stops_on_page; intros; apply stops_load|]. intros fl _. by destruct (_ =? 0). }
  destruct chk; cbn [mbind res_bind]; [|stops_fail].
  pose proof (stops_isLeaf w (ElementRef_new page node)) as Hsl.
  destruct (isLeaf w _) as [[]|] eqn:Hl; cbn [mbind res_bind]; [..|stops_fail].
  - destruct (searchLeaf_stops id node page key s (proj1 Hbl) Hg) as [Hst Hr]. split; [exact Hst|]. intros s' Hs'.
    destruct (Hr s' Hs') as (i&f&->&n&Hn&Hmax&Hi&_).
    assert (index_ok (mkRef page node i)) as Hix by (split; [left; cbn; lia|unfold isLeaf in *; cbn in *; congruence]).
    destruct (below_push id s node page i Hbl Hg Hix) as [m Hp]. by eexists _, m.
  - destruct (searchBranch_stops id node page key (proj1 Hbl) Hg) as [Hst Hr].
    destruct (searchBranch w key _) as [i|]; cbn [mbind res_bind]; [|stops_fail].
    specialize (Hr i eq_refl Hl). change (set_index i (ElementRef_new page node)) with (mkRef page node i).
    pose proof (stops_child_id w (mkRef page node i)) as Hsc.
    destruct (child_id w _) as [c|] eqn:Hc; cbn [mbind res_bind]; [|stops_fail].
    destruct (child_rank (mkRef page node i) id c (conj (proj1 Hbl) Hg) Hr Hl Hc) as [Hre Hlt].
    destruct (below_push id s node page i Hbl Hg Hr) as [m Hp].
    change (set_top_index i (ElementRef_new page node :: s)) with (mkRef page node i :: s).
    apply IH; [|lia]. split; [done|]. right. by exists (rank id), m.
Qed.

(** The weight of a path is less than the leaves a tree of its rank can have. *)
Lemma path_bound s h m : path s h m -> m <= C ^ Z.of_nat (S (rank rootid)) - C ^ Z.of_nat h.
Proof.
  pose proof (ac_bound _ _ _ _ _ tree). assert (forall r id, at_id r id -> index_ok r -> left r <= C - 1) as Hleft.
  { intros r id Hr Hix. unfold left. destruct (count w r) as [n|] eqn:Hn; [|lia].
    pose proof (count_bound r id n Hr Hn). destruct Hix as [[?|[? ?]] _]; lia. }
  assert (forall n, C ^ Z.of_nat (S n) = C * C ^ Z.of_nat n) as Hsucc by (intros; rewrite <-Z.pow_succ_r by lia; f_equal; lia).
  induction 1 as [r Hr Hix|r s id h m _ IH Hlt Hr Hix].
  - rewrite Hsucc. pose proof (Hleft r rootid Hr Hix). pose proof (weight_pos (rank rootid)). nia.
  - pose proof (Hleft r id Hr Hix). pose proof (weight_pos (rank id)).
    assert (C ^ Z.of_nat (S (rank id)) <= C ^ Z.of_nat h) as Hle by (apply Z.pow_le_mono_r; lia).
    rewrite Hsucc in Hle. nia.
Qed.

(** ** The operations *)

Context `{Env}.
Hypothesis root_ok : getRootPage w b = Ok rootid.
Hypothesis enough : Z.of_nat (rank rootid) + C ^ Z.of_nat (S (rank rootid)) < Z.of_nat env_fuel.

(** A stack the operations leave. *)
Definition placed (s : elements) : Prop := s = [] \/ exists h m, path s h m.

Lemma next_stops s : placed s ->
  stops (next w b s) /\ forall s' kv, next w b s = Ok (s', kv) -> placed s'.
Proof.
  intros [->|(h&m&Hp)].
  - unfold next. destruct env_fuel; [pose proof (weight_pos (S (rank rootid))); lia|]. cbn.
    split; [apply stops_ok|]. intros s' kv [= <- _]. by left.
  - pose proof (path_bound _ _ _ Hp). pose proof (weight_pos h). pose proof (weight_pos (S (rank rootid))).
    apply (do_next_stops env_fuel env_fuel s h m); [done|lia|lia].
Qed.

Lemma prev_stops s : placed s ->
  stops (prev w b s) /\ forall s' kv, prev w b s = Ok (s', kv) -> placed s'.
Proof.
  intros Hs. unfold prev. assert (retreat s = [] \/ exists h m, path (retreat s) h m) as [->|(h&m&Hp)].
  { destruct Hs as [->|(h&m&Hp)]; [by left|]. by eapply retreat_path. }
  - split; [apply stops_ok|]. intros s' kv [= <- _]. by left.
  - destruct (retreat s) as [|r s1]; [by inversion Hp|].
    pose proof (path_rank _ _ _ Hp). pose proof (weight_pos (S (rank rootid))).
    destruct (do_last_stops env_fuel _ _ _ Hp) as [Hst Hr]; [lia|].
    destruct (do_last w b env_fuel _) as [s2|]; cbn [mbind res_bind]; [|stops_fail].
    pose proof (stops_keyValue w s2 KV_reset) as Hk.
    destruct (keyValue w s2 KV_reset) as [[? ?]|]; cbn [mbind res_bind]; [|stops_fail].
    split; [apply stops_ok|]. intros s' kv [= <- _]. right. by apply Hr.
Qed.

Lemma seek_stops key :
  stops (seek w b key) /\ forall s p kv, seek w b key = Ok (s, p, kv) -> placed s.
Proof.
  unfold seek, do_seek. rewrite root_ok. cbn [mbind res_bind]. pose proof (weight_pos (S (rank rootid))).
  destruct (search_stops env_fuel key rootid []) as [Hst Hr]; [split; [constructor|by left]|lia|].
  destruct (search w b env_fuel key rootid []) as [s|]; cbn [mbind res_bind]; [|stops_fail].
  destruct (Hr s eq_refl) as (h&m&Hp). destruct s as [|r s]; [by inversion Hp|]. cbn [top mbind res_bind].
  pose proof (stops_count w r) as Hc. destruct (count w r) as [n|]; cbn [mbind res_bind]; [|stops_fail].
  destruct (n <=? index_ r).
  - split; [apply stops_ok|]. intros s' p kv [= <- _ _]. right. by exists h, m.
  - pose proof (stops_keyValue w (r :: s) KV_reset) as Hk.
    destruct (keyValue w (r :: s) KV_reset) as [[? ?]|]; cbn [mbind res_bind]; [|stops_fail].
    split; [apply stops_ok|]. intros s' p kv [= <- _ _]. right. by exists h, m.
Qed.

Lemma root_ref_path : stops (root_ref w b) /\ forall r, root_ref w b = Ok r ->
  getPageNode w b rootid = Ok (ref_node r, ref_page r) /\ r = ElementRef_new (ref_page r) (ref_node r).
Proof.
  unfold root_ref. rewrite root_ok. cbn [mbind res_bind]. pose proof (stops_getPageNode w b rootid) as Hsg.
  destruct (getPageNode w b rootid) as [[node page]|] eqn:Hg; cbn [mbind res_bind]; [|stops_fail].
  split; [apply stops_ok|]. by intros r [= <-].
Qed.

Lemma first_stops : stops (first w b) /\ forall s kv, first w b = Ok (s, kv) -> placed s.
Proof.
  unfold first. destruct root_ref_path as [Hst Hr].
  destruct (root_ref w b) as [r|]; cbn [mbind res_bind]; [|stops_fail].
  destruct (Hr r eq_refl) as [Hg He]. pose proof (weight_pos (S (rank rootid))).
  assert (path [r] (rank rootid) (left r * C ^ Z.of_nat (rank rootid))) as Hp.
  { apply path_root; [split; [constructor|exact Hg]|].
    apply (index_ok_new r rootid); [split; [constructor|exact Hg]|by rewrite He]. }
  destruct (do_first_stops env_fuel _ _ _ Hp) as [Hst1 Hr1]; [lia|].
  destruct (do_first w b env_fuel [r]) as [s1|]; cbn [mbind res_bind]; [|stops_fail].
  destruct (Hr1 s1 eq_refl) as (h&m&Hp1&_). destruct s1 as [|r1 s1]; [by inversion Hp1|]. cbn [top mbind res_bind].
  pose proof (stops_count w r1) as Hc. destruct (count w r1) as [n|]; cbn [mbind res_bind]; [|stops_fail].
  set (step := if n =? 0 then _ else _).
  assert (stops step /\ forall s2 kv, step = Ok (s2, kv) -> placed s2) as [Hst2 Hr2].
  { unfold step. destruct (n =? 0).
    - apply (next_stops (r1 :: s1)). right. by exists h, m.
    - split; [apply stops_ok|]. intros s2 kv [= <- _]. right. by exists h, m. }
  destruct step as [[s2 kv2]|]; cbn [mbind res_bind]; [|stops_fail].
  pose proof (stops_keyValue w s2 kv2) as Hk.
  destruct (keyValue w s2 kv2) as [[? ?]|]; cbn [mbind res_bind]; [|stops_fail].
  split; [apply stops_ok|]. intros s kv [= <- _]. by eapply Hr2.
Qed.

Lemma last_stops : stops (last w b) /\ forall s kv, last w b = Ok (s, kv) -> placed s.
Proof.
  unfold last. destruct root_ref_path as [Hst Hr].
  destruct (root_ref w b) as [r|]; cbn [mbind res_bind]; [|stops_fail].
  destruct (Hr r eq_refl) as [Hg He]. pose proof (weight_pos (S (rank rootid))).
  pose proof (stops_count w r) as Hc. destruct (count w r) as [n|] eqn:Hn; cbn [mbind res_bind]; [|stops_fail].
  assert (path [set_index (wrap64 (n - 1)) r] (rank rootid) (left (set_index (wrap64 (n - 1)) r) * C ^ Z.of_nat (rank rootid))) as Hp.
  { apply path_root; [split; [constructor|exact Hg]|]. rewrite He in Hn |- *.
    eapply (last_index (ref_node r) (ref_page r) rootid); [split; [constructor|exact Hg]|exact Hn]. }
  destruct (do_last_stops env_fuel _ _ _ Hp) as [Hst1 Hr1]; [lia|].
  destruct (do_last w b env_fuel _) as [s1|]; cbn [mbind res_bind]; [|stops_fail].
  pose proof (stops_keyValue w s1 KV_reset) as Hk.
  destruct (keyValue w s1 KV_reset) as [[? ?]|]; cbn [mbind res_bind]; [|stops_fail].
  split; [apply stops_ok|]. intros s kv [= <- _]. right. by apply Hr1.
Qed.
End walk.

(** ** Properties *)

(** The stacks a program can make its cursor have. *)
Inductive position `{Env} (w : World) (b : bptr) : elements -> Prop :=
  | position_seek key s p kv : seek w b key = Ok (s, p, kv) -> position w b s
  | position_first s kv : first w b = Ok (s, kv) -> position w b s
  | position_last s kv : last w b = Ok (s, kv) -> position w b s
  | position_next s s' kv : position w b s -> next w b s = Ok (s', kv) -> position w b s'
  | position_prev s s' kv : position w b s -> prev w b s = Ok (s', kv) -> position w b s'.

(** C9. Cursors terminate.  Take a bucket whose pages and nodes do not lead back
    to themselves: every page id that an entry of a branch leads to has a
    smaller rank than the branch, branches have at least one entry, and no
    element has more than [C].  Then the operations of a cursor, in any order,
    return or fault, and no loop of theirs makes more than
    [rank + C ^ (rank + 1)] rounds, [rank] being that of the root: the levels
    below it and the leaf entries that a tree of that height and fan-out can
    have.  The keys may be in any order, reads may fail, and leaves may be
    empty. *)
Theorem cursor_terminates `{Env} w b rootid rank C :
  acyclic w b rootid rank C -> getRootPage w b = Ok rootid ->
  Z.of_nat (rank rootid) + C ^ Z.of_nat (S (rank rootid)) < Z.of_nat env_fuel ->
  (forall key, seek w b key <> Err OutOfFuel) /\ first w b <> Err OutOfFuel /\ last w b <> Err OutOfFuel /\
  (forall s, position w b s -> next w b s <> Err OutOfFuel /\ prev w b s <> Err OutOfFuel).
Proof.
  intros Htree Hroot Hf. assert (forall s, position w b s -> placed w b rank C rootid s) as Hpos.
  { induction 1 as [key s p kv Hs|s kv Hs|s kv Hs|s s' kv _ IH Hs|s s' kv _ IH Hs].
    - by eapply (seek_stops w b rank C rootid Htree Hroot Hf key).
    - by eapply (first_stops w b rank C rootid Htree Hroot Hf).
    - by eapply (last_stops w b rank C rootid Htree Hroot Hf).
    - by eapply (next_stops w b rank C rootid Htree Hroot Hf s IH).
    - by eapply (prev_stops w b rank C rootid Htree Hroot Hf s IH). }
  split_and!.
  - intros key. by apply (seek_stops w b rank C rootid Htree Hroot Hf key).
  - by apply (first_stops w b rank C rootid Htree Hroot Hf).
  - by apply (last_stops w b rank C rootid Htree Hroot Hf).
  - intros s Hs%Hpos. split.
    + by apply (next_stops w b rank C rootid Htree Hroot Hf s Hs).
    + by apply (prev_stops w b rank C rootid Htree Hroot Hf s Hs).
Qed.

(** Ids that do form a cycle keep [do_first] going for ever: acyclicity cannot
    be dropped. *)
Lemma do_first_cycle w b id node page fuel s :
  getPageNode w b id = Ok (node, page) -> isLeaf w (ElementRef_new page node) = Ok false ->
  child_id w (ElementRef_new page node) = Ok id ->
  do_first w b fuel (ElementRef_new page node :: s) = Err OutOfFuel.
Proof.
  intros Hg Hl Hc. revert s. induction fuel as [|fuel IH]; intros s; [done|].
  cbn [do_first]. rewrite Hl. cbn [mbind res_bind]. rewrite Hc. cbn [mbind res_bind]. rewrite Hg. apply IH.
Qed.

(** The tree of a root and two leaves. *)
Definition ex_rank (id : Z) : nat := if id =? 5 then 1%nat else 0%nat.

Lemma ex_reachable id : reachable ex_tree_world 0%nat 5 id -> id = 5 \/ id = 6 \/ id = 7.
Proof.
  induction 1 as [|id node page i n c _ IH Hg Hl _ _ Hc]; [by left|].
  destruct IH as [-> | [-> | ->]]; injection Hg as <- <-; [|discriminate Hl..].
  unfold child_id in Hc. cbn in Hc. destruct (Z.to_nat i) as [|[|]]; [injection Hc as <-|injection Hc as <-|done]; tauto.
Qed.

Lemma cursor_terminates_witness :
  seek (H:=sample_env) ex_tree_world 0%nat (ex_item Byte.x64) <> Err OutOfFuel /\ first (H:=sample_env) ex_tree_world 0%nat <> Err OutOfFuel.
Proof.
  destruct (cursor_terminates (H:=sample_env) ex_tree_world 0%nat 5 ex_rank 2) as (Hseek&Hfirst&_).
  - split; [| | |lia].
    + intros id node page i n c Hre Hg Hl Hn Hi Hc.
      apply ex_reachable in Hre. destruct Hre as [-> | [-> | ->]]; injection Hg as <- <-; [|discriminate Hl..].
      unfold child_id in Hc. cbn in Hc. destruct (Z.to_nat i) as [|[|]]; [injection Hc as <-|injection Hc as <-|done]; vm_compute; lia.
    + intros id node page i Hre%ex_reachable Hg Hl. exists 2.
      destruct Hre as [-> | [-> | ->]]; injection Hg as <- <-; [|discriminate Hl..]. by split.
    + intros id node page i n Hre%ex_reachable Hg Hc.
      destruct Hre as [-> | [-> | ->]]; injection Hg as <- <-; injection Hc as <-; split; vm_compute; discriminate.
  - reflexivity.
  - cbn. lia.
  - split; [apply Hseek|exact Hfirst].
Defined.
