(* ===== verification/Image.v ===== *)
(** * Image.v: pages as byte images

    Pages move between blocks of memory and the file as byte strings.  This
    file says what an image holds, independently of where it lies: a page of
    a file is an image found at its place ([page_image]), every read that
    succeeds in an image succeeds wherever the image is ([lifts]), and a leaf
    written by [Node::write] is an image of its entries, which [Node::read]
    turns back into the node. *)
From S2P Require Import Bytes.
From S2P Require Import Page.
From S2P Require Import FreeList.
From S2P Require Import Meta.
From S2P Require Import Node.
From S2P Require Import World.
From S2P Require Import Pager.
From S2P Require Import Tree.
From S2P Require Import Cursor.
From S2P Require Import Traversal.

(** ** Reads through an image *)

(** [bs] lies at offset [o] of [m]. *)
Definition lies_at (m : list byte) (o : Z) (bs : list byte) : Prop :=
  slice m o (Z.of_nat (length bs)) = Ok bs.

Lemma slice_all m : slice m 0 (Z.of_nat (length m)) = Ok m.
Proof. rewrite slice_ok by lia. f_equal. rewrite Nat2Z.id. cbn. apply firstn_all. Qed.

(** A read that succeeds in the image succeeds where the image lies. *)
Lemma slice_lift m o bs d n x :
  lies_at m o bs -> slice bs d n = Ok x -> slice m (o + d) n = Ok x.
Proof.
  intros Hm Hs. apply slice_inv in Hs as Hb. rewrite <-Hs. eapply slice_slice; [exact Hm|lia..].
Qed.

Lemma load_lift m o bs d n z : lies_at m o bs -> load n bs d = Ok z -> load n m (o + d) = Ok z.
Proof.
  intros Hm. unfold load. destruct (slice bs d _) as [x|] eqn:E; [|done].
  by rewrite (slice_lift _ _ _ _ _ _ Hm E).
Qed.

(** ** Pages of a file *)

(** Page [id] of the file, with its overflow [n] pages of [ps] bytes, is
    [bs]. *)
Record page_image (f : list byte) (ps id n : Z) (bs : list byte) : Prop := {
  pi_lies : lies_at f (id * ps) bs;
  pi_length : Z.of_nat (length bs) = n * ps;
  pi_id : Page_id bs 0 = Ok id;
  pi_overflow : Page_overflow bs 0 = Ok (n - 1);
}.

Lemma page_image_end f ps id n bs : page_image f ps id n bs -> id * ps + n * ps <= Z.of_nat (length f).
Proof. intros [Hl Hn _ _]. unfold lies_at in Hl. apply slice_inv in Hl. lia. Qed.

(** Reading through the mapping: only the pages it covers matter. *)
Lemma mem_of_map w sz o :
  w_map w = Some sz -> mem_of w (PMap (w_gen w) o) = Ok (take (Z.to_nat sz) (w_file w), o).
Proof. intros Hm. unfold mem_of. by rewrite Hm, decide_True. Qed.

Lemma on_page_block {A} w b m o (f : list byte -> Z -> res A) :
  w_blocks w !! b = Some m -> on_page w (PHeap b o) f = f m o.
Proof. intros Hb. unfold on_page, mem_of. by rewrite Hb. Qed.

Lemma on_page_lies {A} w sz o bs (f : list byte -> Z -> res A) a :
  w_map w = Some sz -> lies_at (w_file w) o bs -> o + Z.of_nat (length bs) <= sz ->
  (forall m, lies_at m o bs -> f m o = Ok a) -> on_page w (PMap (w_gen w) o) f = Ok a.
Proof.
  intros Hm Hl Hsz Hf. unfold on_page. rewrite (mem_of_map _ sz) by done. cbn [mbind res_bind].
  apply Hf. apply slice_take; [exact Hl|lia].
Qed.

Lemma page_image_header w sz id n bs :
  w_map w = Some sz -> page_image (w_file w) (DB_pageSize_ (w_db w)) id n bs ->
  0 <= id * DB_pageSize_ (w_db w) -> (id + n) * DB_pageSize_ (w_db w) <= sz < 2 ^ 64 -> 0 <= n * DB_pageSize_ (w_db w) ->
  on_page w (getPagePtr w id) Page_id = Ok id /\ on_page w (getPagePtr w id) Page_overflow = Ok (n - 1).
Proof.
  intros Hm [Hl Hlen Hid Hov] Ho Hsz Hn. unfold getPagePtr. rewrite wrap_id by lia.
  split; (eapply on_page_lies; [done|exact Hl|lia|]); intros m Hlm.
  - unfold Page_id in *. rewrite <-(Z.add_0_r (_ * _)). by eapply load_lift.
  - unfold Page_overflow in *. rewrite Z.add_0_l in Hov. by eapply load_lift.
Qed.

(** ** Leaf pages *)

(** What a leaf element's reads say, wherever the image lies. *)
Lemma leaf_reads_lift m o bs e :
  lies_at m o bs ->
  (forall x, leaf_key bs e = Ok x -> leaf_key m (o + e) = Ok x) /\
  (forall x, leaf_value bs e = Ok x -> leaf_value m (o + e) = Ok x) /\
  (forall x, leaf_flag bs e = Ok x -> leaf_flag m (o + e) = Ok x).
Proof.
  intros Hm.
  assert (forall n d z, load n bs (e + d) = Ok z -> load n m (o + e + d) = Ok z) as Hload.
  { intros n d z. rewrite <-Z.add_assoc. by apply load_lift. }
  assert (forall p len it, Item_of_buf bs (e + p) len = Ok it -> Item_of_buf m (o + e + p) len = Ok it) as Hbuf.
  { intros p len it. unfold Item_of_buf. destruct (slice bs (e + p) len) as [y|] eqn:E; [|done].
    rewrite <-Z.add_assoc. by rewrite (slice_lift _ _ _ _ _ _ Hm E). }
  unfold leaf_key, leaf_value, leaf_flag, leaf_pos, leaf_ksize, leaf_vsize, leaf_read. split_and!.
  - intros x Hx. inv_res. rewrite (Hload _ _ _ E). cbn. rewrite (Hload _ _ _ E0). cbn. by apply Hbuf.
  - intros x Hx. inv_res. rewrite (Hload _ _ _ E). cbn. rewrite (Hload _ _ _ E0). cbn.
    rewrite (Hload _ _ _ E1). cbn. by apply Hbuf.
  - intros x. by apply load_lift.
Qed.

(** A leaf inside an image. *)
Lemma page_leaf_lift_at m o bs d es : lies_at m o bs -> page_leaf bs d es -> page_leaf m (o + d) es.
Proof.
  intros Hm ((fl&Hfl&Hleaf)&Hcnt&Hel). unfold page_leaf, Page_flag, Page_count in *. rewrite <-!Z.add_assoc.
  split_and!.
  - exists fl. split; [|done]. by eapply load_lift.
  - by eapply load_lift.
  - intros i e He. destruct (Hel i e He) as (Hk&Hv&Hf). cbn zeta.
    replace (getLeafPageElement (o + d) (Z.of_nat i)) with (o + getLeafPageElement d (Z.of_nat i))
      by (unfold getLeafPageElement, Page_ptr; lia).
    destruct (leaf_reads_lift m o bs (getLeafPageElement d (Z.of_nat i)) Hm) as (H1&H2&H3). auto.
Qed.

Lemma page_leaf_lift m o bs es : lies_at m o bs -> page_leaf bs 0 es -> page_leaf m o es.
Proof. intros Hm Hl. rewrite <-(Z.add_0_r o). by eapply page_leaf_lift_at. Qed.

(** A leaf page in the mapping. *)
Lemma page_image_leaf_view w sz id n bs es :
  w_map w = Some sz -> page_image (w_file w) (DB_pageSize_ (w_db w)) id n bs ->
  0 <= id * DB_pageSize_ (w_db w) -> (id + n) * DB_pageSize_ (w_db w) <= sz < 2 ^ 64 ->
  page_leaf bs 0 es -> LeafView w (Some (getPagePtr w id)) None es.
Proof.
  intros Hm [Hl Hlen _ _] Ho Hsz Hleaf. eapply page_leaf_view.
  - unfold getPagePtr. rewrite wrap_id by nia. by apply mem_of_map.
  - eapply page_leaf_lift; [|exact Hleaf]. apply slice_take; [exact Hl|lia].
Qed.

(** An inode of a leaf: no page id, and a key. *)
Definition leaf_inode (x : Inode) : Prop := inode_wf x /\ i_pageId x = 0 /\ 0 < length_ (i_key x).

Definition inode_of_kv (e : KV) : Inode := mkInode (kv_flag e) 0 (kv_key e) (kv_value e).

Lemma inode_of_kv_of_inode l : Forall leaf_inode l -> inode_of_kv <$> (kv_of_inode <$> l) = l.
Proof.
  induction 1 as [|x l (_&Hx&_) _ IH]; [done|]. cbn. f_equal; [|done]. unfold inode_of_kv. destruct x; cbn in *.
  by subst.
Qed.

(** One element [Node::write] wrote in a leaf. *)
Lemma elem_written_reads base stk m p i content x :
  inode_wf x -> getLeafPageElement p i <= content ->
  content + length_ (i_key x) + length_ (i_value x) - getLeafPageElement p i < 2 ^ 32 ->
  elem_written base stk m p true i content x ->
  let e := getLeafPageElement p i in
  leaf_key m e = Ok (i_key x) /\ leaf_value m e = Ok (i_value x) /\ leaf_flag m e = Ok (i_flag x).
Proof.
  intros ([? _]&[? _]&_) Hc Hb ((Hpos&Hfl&Hks&Hvs)&Hk&Hv) e.
  unfold leaf_flag, leaf_key, leaf_value, leaf_pos, leaf_ksize, leaf_vsize, leaf_read, Item_of_buf.
  unfold pos_written in Hpos. fold e in Hc, Hb, Hpos, Hfl, Hks, Hvs. rewrite wrap_id in Hpos by lia.
  rewrite Hfl, Hpos, Hks, Hvs. cbn [mbind res_bind]. rewrite wrap_id by lia.
  replace (e + (content - e)) with content by lia.
  replace (e + (content - e + length_ (i_key x))) with (content + length_ (i_key x)) by lia.
  rewrite Hk, Hv. cbn. split_and!; [by destruct (i_key x)|by destruct (i_value x)|done].
Qed.

Lemma elems_written_reads base stk m p l : forall i content,
  Forall inode_wf l -> getLeafPageElement p (i + Z.of_nat (length l)) <= content ->
  content + foldr Z.add 0 ((fun x => length_ (i_key x) + length_ (i_value x)) <$> l)
    - getLeafPageElement p i < 2 ^ 32 ->
  elems_written base stk m p true i content l ->
  forall j x, l !! j = Some x -> let e := getLeafPageElement p (i + Z.of_nat j) in
    leaf_key m e = Ok (i_key x) /\ leaf_value m e = Ok (i_value x) /\ leaf_flag m e = Ok (i_flag x).
Proof.
  induction l as [|y l IH]; intros i content Hw Hc Hb He j x Hj; [done|].
  apply Forall_cons in Hw as [Hy Hw]. pose proof Hy as ([? _]&[? _]&_). destruct He as [He Hes].
  assert (0 <= foldr Z.add 0 ((fun x => length_ (i_key x) + length_ (i_value x)) <$> l)) as Hnn.
  { apply list_sum_nonneg, Forall_fmap. eapply Forall_impl; [exact Hw|]. intros z ([? _]&[? _]&_). cbn. lia. }
  unfold getLeafPageElement, LEAFELEMSIZE in *. cbn [length fmap list_fmap foldr] in *.
  destruct j as [|j].
  - injection Hj as <-. rewrite Z.add_0_r. apply (elem_written_reads base stk m p i content); [done|..|done];
      unfold getLeafPageElement, LEAFELEMSIZE; lia.
  - replace (i + Z.of_nat (S j)) with (i + 1 + Z.of_nat j) by lia.
    apply (IH (i + 1) (content + length_ (i_key y) + length_ (i_value y))); [done|lia|lia|done|exact Hj].
Qed.

(** ** Writing a leaf *)

Lemma leaf_flag_set fl : has_flag (wrap16 (Z.lor fl leafPageFlag)) leafPageFlag = true.
Proof.
  unfold has_flag, wrap, leafPageFlag. rewrite <-Z.land_ones by lia.
  apply negb_true_iff, Z.eqb_neq. intros Hc.
  assert (Z.testbit (Z.land (Z.land (Z.lor fl 2) (Z.ones 16)) 2) 1 = true) as Ht.
  { rewrite !Z.land_spec, Z.lor_spec, orb_true_r. done. }
  by rewrite Hc in Ht.
Qed.

(** [Node::write] of a leaf makes an image of its entries at [p]. *)
Lemma write_leaf_at base stk n m p :
  isLeaf_ n = true -> Forall inode_wf (inodeList_ n) -> Z.of_nat (length (inodeList_ n)) <= 65535 -> 0 <= p ->
  page_bytes (inodeList_ n) < 2 ^ 32 -> p + page_bytes (inodeList_ n) <= Z.of_nat (length m) ->
  exists m', write base stk n m p = Ok m' /\ length m' = length m /\
    (forall o k, o + k <= p + 8 \/ (p + 12 <= o /\ o + k <= p + 16) -> slice m' o k = slice m o k) /\
    page_leaf m' p (kv_of_inode <$> inodeList_ n).
Proof.
  intros Hl Hw Hlen Hp Hb Hroom. pose proof (inode_bytes_sum_nonneg _ Hw) as Hnn.
  destruct (load 2 m (p + 8)) as [fl|] eqn:Hfl.
  2:{ unfold load in Hfl. rewrite slice_ok in Hfl by (unfold page_bytes in *; lia). done. }
  destruct (write_ok base stk n m p fl Hw Hlen) as (m'&Hm'&Hl'&Hf&Hflag&Hcnt&He); [done|lia|exact Hfl|].
  rewrite Hl in *. exists m'. split_and!; [done|done| |].
  - intros o k Ho. apply Hf. lia.
  - unfold page_leaf. rewrite length_fmap. split_and!; [eexists; split; [exact Hflag|apply leaf_flag_set]|done|].
    intros i e He'. rewrite list_lookup_fmap in He'. apply fmap_Some in He' as (x&Hx&->). cbn zeta.
    unfold page_bytes in *. rewrite content_sum in *.
    apply (elems_written_reads base stk m' p (inodeList_ n) 0 (Page_ptr p + 16 * Z.of_nat (length (inodeList_ n))));
      [done|unfold getLeafPageElement, LEAFELEMSIZE; lia|unfold getLeafPageElement, LEAFELEMSIZE, Page_ptr, PAGEHEADERSIZE; lia|done|done].
Qed.

Lemma write_leaf_image base stk n m :
  isLeaf_ n = true -> Forall inode_wf (inodeList_ n) -> Z.of_nat (length (inodeList_ n)) <= 65535 ->
  page_bytes (inodeList_ n) < 2 ^ 32 -> page_bytes (inodeList_ n) <= Z.of_nat (length m) ->
  exists m', write base stk n m 0 = Ok m' /\ length m' = length m /\
    Page_id m' 0 = Page_id m 0 /\ Page_overflow m' 0 = Page_overflow m 0 /\
    page_leaf m' 0 (kv_of_inode <$> inodeList_ n).
Proof.
  intros Hl Hw Hlen Hb Hroom. destruct (write_leaf_at base stk n m 0) as (m'&?&?&Hf&?); try done.
  exists m'. split_and!; try done; apply load_frame, Hf; lia.
Qed.

(** ** Reading a leaf *)

Lemma read_inodes_page m p : forall es i its,
  length its = length es -> Forall (fun it => i_pageId it = 0) its ->
  (forall j e, es !! j = Some e -> let x := getLeafPageElement p (i + Z.of_nat j) in
    leaf_key m x = Ok (kv_key e) /\ leaf_value m x = Ok (kv_value e) /\ leaf_flag m x = Ok (kv_flag e)) ->
  read_inodes m p i true its = Ok (inode_of_kv <$> es).
Proof.
  induction es as [|e es IH]; intros i [|it its] Hlen Hit Hel; try done. cbn [read_inodes read_inode].
  apply Forall_cons in Hit as [Hit Hits].
  destruct (Hel 0%nat e eq_refl) as (Hk&Hv&Hf). rewrite Z.add_0_r in Hk, Hv, Hf.
  rewrite Hf, Hk, Hv. cbn [mbind res_bind]. rewrite (IH (i + 1) its ltac:(by injection Hlen) Hits).
  - cbn. rewrite Hit. done.
  - intros j e' Hj. replace (i + 1 + Z.of_nat j) with (i + Z.of_nat (S j)) by lia. by apply (Hel (S j)).
Qed.

(** The node [Node::read] makes of a leaf page. *)
Definition leaf_node (b : bptr) (parent : option nptr) (id : Z) (l : InodeList) : Node :=
  mkNode b true false false (default Item_empty (i_key <$> head l)) id parent [] l.

Lemma read_page_leaf b parent m p id l :
  page_leaf m p (kv_of_inode <$> l) -> Page_id m p = Ok id -> Forall leaf_inode l ->
  read (Node_new b parent) m p = Ok (leaf_node b parent id l).
Proof.
  intros ((fl&Hfl&Hleaf)&Hcnt&Hel) Hid Hl. unfold read. rewrite Hid, Hfl, Hcnt. cbn [mbind res_bind].
  rewrite Hleaf. unfold resize. cbn [inodeList_ Node_new]. rewrite take_nil, Nat2Z.id, Nat.sub_0_r. cbn [app].
  rewrite (read_inodes_page m p (kv_of_inode <$> l)).
  - rewrite inode_of_kv_of_inode by done. cbn [mbind res_bind]. destruct l as [|x l]; [done|].
    apply Forall_cons in Hl as [(_&_&Hx) _]. unfold Item_is_empty, leaf_node. cbn.
    by rewrite (proj2 (Z.eqb_neq _ _)) by lia.
  - by rewrite length_replicate.
  - apply Forall_replicate. done.
  - exact Hel.
Qed.
