(* ===== verification/Alloc.v ===== *)
(** * Alloc.v: the supply of pages of a write transaction

    What [Tx::allocate] and [Tx::free] do to the pages of the file, told
    without the two ways of finding a page: a page is available when it is on
    the free list or past the end of the file, an allocation takes available
    pages and leaves the others, and freeing makes none available before the
    next transaction. *)
From S2P Require Import Bytes.
From S2P Require Import Page.
From S2P Require Import FreeList.
From S2P Require Import Meta.
From S2P Require Import Node.
From S2P Require Import World.
From S2P Require Import Pager.
From S2P Require Import Image.

(** ** Free lists with a sound cache *)

(** A page marked in the cache is on the list: what [free]'s assertion needs. *)
Definition cache_sound (f : freeList) : Prop := forall x, cached f x = true -> x ∈ all_pages f.

(** A well-formed list of pages below [total]. *)
Record fl_ok (f : freeList) (total : Z) : Prop := {
  fo_wf : fl_wf f;
  fo_cache : cache_sound f;
  fo_below : Forall (fun x => x < total) (all_pages f);
}.

Lemma fl_ok_mono f total total' : total <= total' -> fl_ok f total -> fl_ok f total'.
Proof. intros Hle [Hw Hc Hb]. split; [done..|]. eapply Forall_impl; [exact Hb|]. cbn. lia. Qed.

Lemma cached_erase l f x :
  cache_erase l (cache_ f) !! x = if decide (x ∈ l) then None else cache_ f !! x.
Proof.
  unfold cache_erase. generalize (cache_ f) as c. induction l as [|y l IH]; intros c; cbn.
  - by rewrite decide_False by apply not_elem_of_nil.
  - rewrite IH. destruct (decide (x = y)) as [->|Hne].
    + rewrite lookup_delete_eq. rewrite (decide_True (P:=y ∈ y :: l)) by (by left). by destruct (decide _).
    + rewrite lookup_delete_ne by done. do 2 destruct (decide _); set_solver.
Qed.

Lemma allocate_fl_ok f total n r f' : fl_ok f total -> allocate_spec f n r f' -> fl_ok f' total.
Proof.
  intros [Hw Hc Hb] Hs. pose proof (allocate_wf f n r f' Hw Hs) as Hw'.
  destruct Hs as [(_&->&_)|(Hr&_&Hca&Hp&l1&l2&Hi&Hi')]; [by split|].
  unfold all_pages in *. rewrite Hi in *. split; [done| |].
  - intros x. unfold cached. rewrite Hca, cached_erase. destruct (decide (x ∈ seqZ r n)) as [|Hx]; [done|].
    intros Hcx%Hc. revert Hcx. unfold all_pages. rewrite Hi, Hi', Hp, !elem_of_app. tauto.
  - unfold all_pages. rewrite Hi', Hp. rewrite !Forall_app in *. tauto.
Qed.

Lemma release_fl_ok f total t : fl_ok f total -> fl_ok (release f t) total.
Proof.
  intros [Hw Hc Hb]. split; [by apply release_wf| |by rewrite all_pages_release].
  intros x Hx. rewrite all_pages_release. by apply Hc.
Qed.

Lemma free_fl_ok f total t id n f' :
  fl_ok f total -> 2 <= id -> 0 <= n -> id + n < total -> total <= 2 ^ 64 - 1 ->
  (forall x, id <= x <= id + n -> x ∉ all_pages f) ->
  free f t id n = Ok f' -> fl_ok f' total.
Proof.
  intros [Hw Hc Hb] Hid Hn Ht Hmax Hnew Hf.
  assert (all_pages f' ≡ₚ all_pages f ++ seqZ id (n + 1)) as Hp.
  { apply free_inv in Hf as (Hi&Hp&_); [|lia..]. unfold all_pages. rewrite Hi, Hp, pending_pages_add.
    by rewrite <-app_assoc, (Permutation_app_comm (seqZ _ _)). }
  pose proof Hf as Hf'. apply free_inv in Hf' as (_&_&Hcache); [|lia..]. split.
  - eapply free_wf; [exact Hw|done|done|lia|exact Hnew|exact Hf].
  - intros x. rewrite Hcache. intros Hx%Hc. rewrite Hp, elem_of_app. by left.
  - rewrite Hp, Forall_app. split; [done|]. apply Forall_forall. intros x Hx%elem_of_seqZ. lia.
Qed.

(** What freeing the [n] pages from [id] does. *)
Record frees (f : freeList) (t total id n : Z) (f' : freeList) : Prop := {
  fr_ok : fl_ok f' total;
  fr_ids : ids_ f' = ids_ f;
  fr_pages : all_pages f' ≡ₚ all_pages f ++ seqZ id n;
  fr_step : writer_step t f f';
}.

(** Freeing pages that are not on the list succeeds. *)
Lemma free_fresh f total t id n :
  fl_ok f total -> 2 <= id -> 1 <= n -> id + n <= total -> total <= 2 ^ 64 - 1 ->
  (forall x, id <= x < id + n -> x ∉ all_pages f) ->
  exists f', free f t id (n - 1) = Ok f' /\ frees f t total id n f'.
Proof.
  intros Hok Hid Hn Ht Hmax Hnew. pose proof Hok as [Hw Hc Hb].
  destruct (free_ok f t id (n - 1)) as (f'&Hf&Hi&Hp&_); [lia..| |].
  { intros x Hx. destruct (cached f x) eqn:E; [|done]. apply Hc in E. apply Hnew in E; [done|lia]. }
  exists f'. split; [done|]. split; [|done| |by econstructor].
  - apply (free_fl_ok f total t id (n - 1)); [exact Hok|lia..|exact Hmax| |exact Hf]. intros x Hx. apply Hnew. lia.
  - unfold all_pages. rewrite Hi, Hp, pending_pages_add. replace (n - 1 + 1) with n by lia.
    by rewrite <-app_assoc, (Permutation_app_comm (seqZ _ _)).
Qed.

(** No more pages than there are below [total]. *)
Lemma fl_ok_few f total : fl_ok f total -> 0 <= total -> Z.of_nat (length (all_pages f)) <= total.
Proof.
  intros [Hw _ Hb] Ht. assert (length (all_pages f) <= length (seqZ 0 total))%nat as Hle.
  { apply submseteq_length, NoDup_submseteq; [apply Hw|]. intros x Hx.
    rewrite Forall_forall in Hb. specialize (Hb x Hx).
    pose proof (proj1 (Forall_forall _ _) (fl_range _ Hw) x Hx) as Hr. unfold pgid_ok in Hr.
    apply elem_of_seqZ. lia. }
  rewrite length_seqZ in Hle. lia.
Qed.

(** ** Available pages *)

Definition available (f : freeList) (total id : Z) : Prop := id ∈ ids_ f \/ total <= id.

(** What an allocation of [n] pages does to the supply. *)
Record takes (f : freeList) (total : Z) (id n : Z) (f' : freeList) (total' : Z) : Prop := {
  tk_first : 2 <= id;
  tk_run : forall k, id <= k < id + n -> available f total k;
  tk_left : forall k, available f' total' k <-> available f total k /\ ~ (id <= k < id + n);
  tk_ok : fl_ok f' total';
  tk_total : total <= total' <= total + n;
  tk_end : id + n <= total';
  tk_top : total' = total \/ total' = id + n;
  tk_pages : forall k, k ∈ all_pages f' -> k ∈ all_pages f;
  tk_length : (length (all_pages f') <= length (all_pages f))%nat;
  tk_gone : forall k, id <= k < id + n -> k ∉ all_pages f';
  tk_step : forall t, writer_step t f f';
}.

Lemma allocate_takes f total n r f' :
  fl_ok f total -> 2 <= total -> 1 <= n -> allocate f n = Ok (r, f') -> allocate_spec f n r f' ->
  takes f total (if r =? 0 then total else r) n f' (if r =? 0 then total + n else total).
Proof.
  intros Hok Htot Hn Hal Hs. pose proof (allocate_fl_ok f total n r f' Hok Hs) as Hok'.
  assert (forall t, writer_step t f f') as Hstep by (intros; by econstructor).
  destruct Hs as [(->&->&_)|(Hr&_&_&Hp&l1&l2&Hi&Hi')].
  - cbn [Z.eqb]. destruct Hok as [Hw Hc Hb]. split; try done; try lia.
    + intros k Hk. right. lia.
    + intros k. unfold available. split; [|intros [[?|?] ?]; [by left|right; lia]].
      intros [Hk|?]; [|split; [right|]; lia]. split; [by left|].
      rewrite Forall_forall in Hb. specialize (Hb k). unfold all_pages in Hb. rewrite elem_of_app in Hb.
      specialize (Hb (or_introl Hk)). lia.
    + eapply fl_ok_mono; [|done]. lia.
    + intros k Hk Hin. rewrite Forall_forall in Hb. specialize (Hb k Hin). lia.
  - rewrite (proj2 (Z.eqb_neq r 0)) by lia.
    assert (forall k, k ∈ ids_ f' -> k ∈ ids_ f) as Hsub.
    { intros k. rewrite Hi, Hi', !elem_of_app. tauto. }
    assert (forall k, r <= k < r + n -> k < total) as Hlt.
    { intros k Hk. destruct Hok as [_ _ Hb]. rewrite Forall_forall in Hb. apply Hb.
      unfold all_pages. rewrite Hi, !elem_of_app, elem_of_seqZ. lia. }
    assert (NoDup (l1 ++ seqZ r n ++ l2)) as Hnd.
    { destruct Hok as [[_ _ Hnd] _ _]. unfold all_pages in Hnd. rewrite Hi in Hnd.
      by apply NoDup_app in Hnd as [? _]. }
    split; try done; try lia.
    + intros k Hk. left. rewrite Hi, !elem_of_app, elem_of_seqZ. lia.
    + intros k. unfold available. rewrite Hi, Hi', !elem_of_app, elem_of_seqZ.
      apply NoDup_app in Hnd as (_&Hd1&Hnd). apply NoDup_app in Hnd as (_&Hd2&_).
      split; [|intuition lia]. intros [Hk|?]; [|split; [by right|]; intros Hk%Hlt; lia].
      split; [tauto|]. intros Hkr. apply elem_of_seqZ in Hkr. destruct Hk as [Hk|Hk].
      * apply (Hd1 k Hk). rewrite elem_of_app. by left.
      * by apply (Hd2 k Hkr).
    + specialize (Hlt (r + n - 1)). lia.
    + intros k. unfold all_pages. rewrite Hp, !elem_of_app. intros [?|?]; [left; by apply Hsub|by right].
    + unfold all_pages. rewrite Hi, Hi', Hp, !length_app. lia.
    + intros k Hk. destruct Hok as [[_ _ Hnd'] _ _]. unfold all_pages in *. rewrite Hi in Hnd'. rewrite Hi', Hp.
      rewrite <-!app_assoc in Hnd'. apply NoDup_app in Hnd' as (_&H1&Hnd'). apply NoDup_app in Hnd' as (_&H2&_).
      apply elem_of_seqZ in Hk. specialize (H2 k Hk). specialize (H1 k). rewrite !elem_of_app in *. tauto.
Qed.

(** ** [Tx::allocate] *)

(** The transaction with the dirty page [p] under [id], of [sz] bytes. *)
Definition with_dirty (id : Z) (p : PagePtr) (sz : Z) (v : Tx) : Tx :=
  tset_pageAlloc (wrap64 (pageAlloc v + sz)) (tset_pageCount (wrap64 (pageCount v + 1))
    (tset_dirtyPageTable_ (<[id := p]> (dirtyPageTable_ v)) v)).

(** A fresh block of [n] pages for page [id]. *)
Record fresh_page (m : list byte) (ps id n : Z) : Prop := {
  fp_length : Z.of_nat (length m) = n * ps;
  fp_id : Page_id m 0 = Ok id;
  fp_overflow : Page_overflow m 0 = Ok (n - 1);
}.

Lemma with_tx_allocated t v' b m f' v mt w :
  with_tx t v' (allocated b m f' t v mt w) =
  with_tx t v' (wset_w_db (dset_freeList_ f' (w_db w)) (with_block b m w)).
Proof. unfold allocated, with_tx, wset_w_txs. cbn. by rewrite insert_insert_eq. Qed.

Section Tx_allocate.
Context `{Env} (w : World) (t : txptr) (v : Tx) (mt : meta) (n : Z).
Hypothesis rwtx_t : rwtx_ (w_db w) = Some t.
Hypothesis tx_v : tx_of w t = Ok v.
Hypothesis meta_v : metaData_ v = Some mt.
Hypothesis pages_ok : 1 <= n < 4096.
Hypothesis size_ok : 16 <= DB_pageSize_ (w_db w).
Hypothesis list_ok : fl_ok (freeList_ (w_db w)) (totalPageNumber_ mt).
Hypothesis total_ok : 2 <= totalPageNumber_ mt.
Hypothesis room : (totalPageNumber_ mt + n + 1) * DB_pageSize_ (w_db w) <= datasz_ (w_db w) < 2 ^ 31.
#[local] Set Default Proof Using "All".

Lemma Tx_allocate_ok :
  exists m id f' total', Tx_allocate t n w = Ok (Some (PHeap (fresh_key (w_blocks w)) 0),
      allocated (fresh_key (w_blocks w)) m f' t
        (with_dirty id (PHeap (fresh_key (w_blocks w)) 0) (n * DB_pageSize_ (w_db w)) v) (meta_set_total total' mt) w) /\
    fresh_page m (DB_pageSize_ (w_db w)) id n /\
    takes (freeList_ (w_db w)) (totalPageNumber_ mt) id n f' total'.
Proof.
  set (b := fresh_key (w_blocks w)). pose proof list_ok as [Hwf _ Hbelow].
  destruct (allocate_correct (freeList_ (w_db w)) n) as (r&f'&Hal&Hspec);
    [apply Hwf|by apply fl_wf_ids|lia|].
  pose proof (allocate_takes _ _ n _ _ list_ok total_ok (proj1 pages_ok) Hal Hspec) as Htk.
  pose proof (tk_end _ _ _ _ _ _ Htk) as Hend. pose proof (tk_total _ _ _ _ _ _ Htk) as Htot.
  set (T := totalPageNumber_ mt) in *. set (ps := DB_pageSize_ (w_db w)) in *.
  assert (n * ps <= (T + n + 1) * ps /\ (T + n + 1) * 16 <= (T + n + 1) * ps) as [Hn Hps] by nia.
  assert (0 <= r <= T) as Hr.
  { destruct Hspec as [(->&_)|(Hr&_)]; [lia|]. rewrite (proj2 (Z.eqb_neq r 0)) in Hend, Htot by lia. lia. }
  destruct (DB_allocate_ok w t v mt n r f') as (m&Hrun&Hl&Hov&Hid); try done; try lia.
  exists m. eexists _, f', _. split; [|split; [by split|exact Htk]].
  unfold Tx_allocate. erewrite bindM_ok by exact Hrun. cbn beta iota. fold b.
  erewrite bindM_ok.
  2:{ apply (reads_ok (fun w => on_page w (PHeap b 0) Page_id)).
      rewrite (on_page_block _ _ m) by apply with_block_lookup. exact Hid. }
  cbn beta. erewrite bindM_ok by apply get_db_ok. cbn beta.
  set (id := if r =? 0 then totalPageNumber_ mt else r).
  erewrite bindM_ok by (apply (upd_tx_ok _ (fun v => tset_dirtyPageTable_ (<[id := PHeap b 0]> (dirtyPageTable_ v)) v));
    apply tx_of_with).
  cbn beta. rewrite with_tx_allocated.
  erewrite bindM_ok by (apply (upd_tx_ok _ (fun v => tset_pageCount (wrap64 (pageCount v + 1)) v)); apply tx_of_with).
  cbn beta. erewrite bindM_ok by (apply (upd_tx_ok _ (fun v => tset_pageAlloc (wrap64 (pageAlloc v + _)) v)); apply tx_of_with).
  unfold ret, mret, M_ret. do 2 f_equal. unfold allocated, with_tx, wset_w_txs. cbn.
  rewrite !insert_insert_eq. unfold with_dirty. rewrite (wrap_id 32) by nia.
  destruct (Z.eqb_spec r 0); [done|]. do 3 f_equal. by destruct v, mt.
Qed.
End Tx_allocate.

(** ** [Tx::free] of a page in the file *)

Lemma Tx_free_ok w sz t id n bs total :
  w_map w = Some sz -> page_image (w_file w) (DB_pageSize_ (w_db w)) id n bs ->
  0 < DB_pageSize_ (w_db w) -> 2 <= id -> 1 <= n -> id + n <= total -> total * DB_pageSize_ (w_db w) <= sz < 2 ^ 31 ->
  fl_ok (freeList_ (w_db w)) total -> (forall x, id <= x < id + n -> x ∉ all_pages (freeList_ (w_db w))) ->
  exists f', Tx_free t (Some (getPagePtr w id)) w = Ok (tt, wset_w_db (dset_freeList_ f' (w_db w)) w) /\
    frees (freeList_ (w_db w)) t total id n f'.
Proof.
  intros Hm Himg Hps Hid Hn Hend Hsz Hok Hnew.
  set (ps := DB_pageSize_ (w_db w)) in *. assert (total * 1 <= total * ps) as Htot by nia.
  assert ((id + n) * ps <= total * ps) as Hle by nia.
  destruct (page_image_header w sz id n bs) as [Hpid Hpov]; [done|done|fold ps; nia|fold ps; lia|fold ps; nia|].
  destruct (free_fresh (freeList_ (w_db w)) total t id n) as (f'&Hf&Hfr); try done; try lia.
  exists f'. split; [|done]. unfold Tx_free. erewrite bindM_ok by reflexivity. cbn beta.
  erewrite bindM_ok by (apply (reads_ok (fun w => on_page w _ Page_id)); exact Hpid). cbn beta.
  erewrite bindM_ok by (apply (reads_ok (fun w => on_page w _ Page_overflow)); exact Hpov). cbn beta.
  erewrite bindM_ok by apply get_db_ok. cbn beta.
  erewrite bindM_ok by (apply lift_ok; exact Hf). done.
Qed.

(** ** Rolling back and reloading *)

Lemma rollback_fl_ok f total t : fl_ok f total -> fl_ok (rollback f t) total.
Proof.
  intros [Hw Hc Hb]. pose proof (rollback_wf f t Hw) as Hw'. unfold rollback in *.
  destruct (pending_ f !! t) as [l|] eqn:E; cbn [from_option id] in *.
  - assert (all_pages f ≡ₚ l ++ ids_ f ++ pending_pages (delete t (pending_ f))) as Hp.
    { unfold all_pages. rewrite (pending_pages_delete _ _ _ E), !app_assoc. by rewrite (Permutation_app_comm l). }
    split; [done| |].
    + intros x. unfold cached. cbn [cache_]. rewrite cached_erase. destruct (decide (x ∈ l)) as [|Hx]; [done|].
      intros Hcx%Hc. rewrite Hp, elem_of_app in Hcx. unfold all_pages. cbn. tauto.
    + rewrite Hp, Forall_app in Hb. by destruct Hb.
  - split; [done| |].
    + intros x Hx%Hc. revert Hx. unfold all_pages. cbn. by rewrite delete_id.
    + revert Hb. unfold all_pages. cbn. by rewrite delete_id.
Qed.

(** Reloading the page the list was written to. *)
Lemma reload_fl_ok f total m p m' :
  fl_ok f total -> Z.of_nat (length (all_pages f)) < 2 ^ 28 -> 0 <= p -> FreeList.write f m p = Ok m' ->
  exists f', reload f m' p = Ok f' /\ ids_ f' = ids_ f /\ pending_ f' = pending_ f /\ fl_ok f' total.
Proof.
  intros [Hw Hc Hb] Hfew Hp Hwr. pose proof (write_read_pgids f Hw Hfew m p m' f Hp Hwr) as Hr.
  apply reload_eq in Hr. cbn [reindex ids_ cache_] in Hr.
  assert (filter (fun x => x ∉ pending_pages (pending_ f)) (sort_pgids (all_pages f)) = ids_ f) as Hids
    by (apply filter_sorted_pending; apply Hw).
  rewrite Hids in Hr. eexists. split; [exact Hr|]. split_and!; [done|done|].
  set (f' := reindex _). assert (all_pages f' = all_pages f) as Hall by done. split.
  - split; [apply Hw|rewrite Hall; apply Hw|rewrite Hall; apply Hw].
  - intros x. by apply reindex_cache_exact.
  - by rewrite Hall.
Qed.

(** ** Properties *)

(** C10. The free list is type safe.  Its type says that the available pages
    are sorted, that no page is listed twice, that the cache marks listed
    pages only, and that all of them are data pages of a file of [total]
    pages.  Every operation, on arguments its callers give, succeeds on a list
    of this type and gives one: [allocate], [free] of pages in use, [release],
    [rollback], and [reload] of the page the list was written to. *)
Theorem freelist_typed f total :
  fl_ok f total -> 2 <= total <= 2 ^ 64 - 1 ->
  (forall n, 1 <= n < 2 ^ 32 -> exists r f', allocate f n = Ok (r, f') /\ fl_ok f' total) /\
  (forall t id n, 2 <= id -> 0 <= n -> id + n < total -> (forall x, id <= x <= id + n -> x ∉ all_pages f) ->
     exists f', free f t id n = Ok f' /\ fl_ok f' total) /\
  (forall t, fl_ok (release f t) total) /\ (forall t, fl_ok (rollback f t) total) /\
  (forall m p, Z.of_nat (length (all_pages f)) < 2 ^ 28 -> 0 <= p -> p + FreeList.size f <= Z.of_nat (length m) ->
     exists m' f', FreeList.write f m p = Ok m' /\ reload f m' p = Ok f' /\ fl_ok f' total).
Proof.
  intros Hok Htot. pose proof (fo_wf _ _ Hok) as Hw. split_and!.
  - intros n Hn. destruct (allocate_correct f n) as (r&f'&Ha&Hspec); [apply Hw|by apply fl_wf_ids|done|].
    exists r, f'. split; [done|]. by eapply allocate_fl_ok.
  - intros t id n Hid Hn Hend Hnew. destruct (free_fresh f total t id (n + 1)) as (f'&Hf&Hfr); [done|lia..| |].
    { intros x Hx. apply Hnew. lia. }
    replace (n + 1 - 1) with n in Hf by lia. exists f'. split; [exact Hf|apply Hfr].
  - intros t. by apply release_fl_ok.
  - intros t. by apply rollback_fl_ok.
  - intros m p Hfew Hp Hm. destruct (write_succeeds f Hw Hfew m p Hp Hm) as [m' Hwr].
    destruct (reload_fl_ok f total m p m' Hok Hfew Hp Hwr) as (f'&Hre&_&_&Hok'). by exists m', f'.
Qed.

(** ** Witness: pages 5 and 6 available, page 9 pending *)

Definition ex_list : freeList := {| ids_ := [5; 6]; pending_ := {[3 := [9]]}; cache_ := {[5 := true]} |}.

Lemma ex_list_ok : fl_ok ex_list 12.
Proof.
  assert (all_pages ex_list = [5; 6; 9]) as Hall by reflexivity.
  assert (forall x, x ∈ [5; 6; 9] -> x = 5 \/ x = 6 \/ x = 9) as Hin.
  { intros x. rewrite !elem_of_cons, elem_of_nil. tauto. }
  split; [split|..]; rewrite ?Hall.
  - apply SSorted_cons; [by apply SSorted_cons; [constructor|]|]. apply Forall_singleton. lia.
  - apply Forall_forall. intros x Hx%Hin. unfold pgid_ok. lia.
  - apply (bool_decide_unpack _). reflexivity.
  - intros x Hx. rewrite Hall. unfold cached in Hx. cbn [cache_ ex_list] in Hx.
    destruct (decide (x = 5)) as [->|Hne]; [by left|]. by rewrite lookup_singleton_ne in Hx.
  - apply Forall_forall. intros x Hx%Hin. lia.
Qed.

Lemma freelist_typed_witness :
  (exists r f', allocate ex_list 2 = Ok (r, f') /\ fl_ok f' 12) /\ fl_ok (release ex_list 3) 12.
Proof.
  destruct (freelist_typed ex_list 12) as (Ha&_&Hr&_).
  - exact ex_list_ok.
  - lia.
  - split; [apply Ha; lia|apply Hr].
Defined.
