(* ===== verification/Bucket.v ===== *)
(** * Bucket.v: buckets (src/src/Bolt/bucket.h, bucket.cc)

    A bucket is a tree of pages and nodes that holds keys and sub-buckets;
    a sub-bucket is an entry whose value is a [bucketHeader], followed by a
    whole leaf page when the bucket is inline (its [root] is 0). *)
From S2P Require Import Bytes.
From S2P Require Import BinSearch.
From S2P Require Import Page.
From S2P Require Import FreeList.
From S2P Require Import Meta.
From S2P Require Import Node.
From S2P Require Import World.
From S2P Require Import Pager.
From S2P Require Import Tree.
From S2P Require Import Cursor.
From S2P Require Import Traversal.

Definition MAXKEYSIZE : Z := 32768.
Definition MAXVALUESIZE : Z := 2 ^ 31 - 2.

Section env.
Context `{Env}.

(** ** Opening *)

(** [createCursor()]: the counter of the transaction; the cursor itself is
    the bucket and an empty stack. *)
Definition createCursor (b : bptr) : M unit := v ← get_bucket b; increaseCurserCount (tx_ v).

(** [openBucket(value, ptr)]; without [ptr] an inline bucket's page is in
    the parameter [value], which is destroyed on return. *)
Definition openBucket (b : bptr) (value : Item) (ptr : option PagePtr) : M bptr :=
  v ← get_bucket b;
  child ← new_bucket (Bucket_new (tx_ v));
  h ← lift (bucketHeader_read (data_ value) 0);
  _ ← upd_bucket child (bset_bucketHeader_ h);
  _ ← (if root h =? 0 then
         match ptr with
         | Some e =>
             d ← page_read e (fun m o => vp ← leaf_valuePtr m o; Ok (vp - o));
             upd_bucket child (bset_page_ (Some (ptr_add e (d + BUCKETHEADERSIZE))))
         | None => upd_bucket child (bset_page_ (Some PDead))
         end
       else ret tt);
  ret child.

(** [getBucketByName(searchKey)] *)
Definition getBucketByName (b : bptr) (searchKey : Item) : M (option bptr) :=
  v ← get_bucket b;
  match buckets_ v !! data_ searchKey with
  | Some c => ret (Some c)
  | None =>
      _ ← createCursor b;
      '(_, ptr, kv) ← reads (fun w => seek w b searchKey);
      if negb (bytes_eqb (data_ searchKey) (data_ (kv_key kv))) ||
         negb (has_flag (kv_flag kv) bucketLeafFlag)
      then ret None
      else
        c ← openBucket b (kv_value kv) ptr;
        _ ← upd_bucket b (fun v => bset_buckets_ (<[data_ searchKey := c]> (buckets_ v)) v);
        ret (Some c)
  end.

(** ** Writing a bucket as a value *)

(** The bytes of an inline bucket: the header, then the root node's page. *)
Definition Bucket_bytes (base stk : Z) (h : bucketHeader) (n : Node) : res Item :=
  let length := to_int (BUCKETHEADERSIZE + size n) in
  m ← splice (data_ (Item_of_size length)) 0 (bucketHeader_bytes h);
  m ← Node.write base stk n m BUCKETHEADERSIZE;
  Ok {| data_ := m; length_ := wrap32 length |}.

(** [write()] *)
Definition Bucket_write (b : bptr) : M Item :=
  v ← get_bucket b;
  r ← lift (deref (rootNode_ v));
  n ← get_node r;
  base ← gets (fun w => env_page_addr (PHeap (fresh_key (w_blocks w)) 0));
  lift (Bucket_bytes base (env_item_addr r) (bucketHeader_ v) n).

(** [tx_->db_ == nullptr || !tx_->isWritable()] *)
Definition not_writable (b : bptr) : M bool :=
  db ← reads (bucket_db b);
  wr ← reads (bucket_writable b);
  ret (negb db || negb wr).

(** The lines of [createBucket] that put an empty inline bucket under [key];
    [s] is the stack of the cursor that looked for it. *)
Definition putEmptyBucket (b : bptr) (key : Item) (s : elements) : M (option bptr) :=
  v ← get_bucket b;
  local ← new_bucket (Bucket_new (tx_ v));
  r ← new_node (markLeaf (Node_new local None));
  _ ← upd_bucket local (bset_rootNode_ (Some r));
  putValue ← Bucket_write local;
  '(n, _) ← Cursor_getNode b s;
  _ ← Node_put n key key putValue 0 bucketLeafFlag;
  _ ← upd_bucket b (bset_page_ None);
  c ← getBucketByName b key;
  _ ← drop_bucket local;
  ret c.

(** [createBucket(key)] *)
Definition createBucket (b : bptr) (key : Item) : M (option bptr) :=
  no ← not_writable b;
  if no || (length_ key =? 0) then ret None
  else
    '(s, _, kv) ← reads (fun w => seek w b key);
    if Item_eqb (kv_key kv) key then
      if has_flag (kv_flag kv) bucketLeafFlag then getBucketByName b key else ret None
    else putEmptyBucket b key s.

(** [createBucketIfNotExists(key)] *)
Definition createBucketIfNotExists (b : bptr) (key : Item) : M (option bptr) :=
  createBucket b key.

(** ** Entries *)

(** [put(key, value)] *)
Definition Bucket_put (b : bptr) (key value : Item) : M Z :=
  no ← not_writable b;
  if no || (length_ key =? 0) || (MAXKEYSIZE <? length_ key) || (MAXVALUESIZE <? length_ value)
  then ret (-1)
  else
    _ ← createCursor b;
    '(s, _, kv) ← reads (fun w => seek w b key);
    if Item_eqb (kv_key kv) key && has_flag (kv_flag kv) bucketLeafFlag then fail LogFatal
    else
      '(n, _) ← Cursor_getNode b s;
      _ ← Node_put n key key value 0 0;
      ret 0.

(** [remove(key)] *)
Definition Bucket_remove (b : bptr) (key : Item) : M Z :=
  no ← not_writable b;
  if no || (length_ key =? 0) then ret (-1)
  else
    _ ← createCursor b;
    '(s, _, kv) ← reads (fun w => seek w b key);
    if has_flag (kv_flag kv) bucketLeafFlag then fail LogFatal
    else
      '(n, _) ← Cursor_getNode b s;
      _ ← Node_del n key;
      ret 0.

(** [get(key)] *)
Definition Bucket_get (b : bptr) (key : Item) : M Item :=
  _ ← createCursor b;
  '(_, _, kv) ← reads (fun w => seek w b key);
  if has_flag (kv_flag kv) bucketLeafFlag || negb (Item_eqb (kv_key kv) key) then ret Item_empty
  else ret (kv_value kv).

(** ** Walks *)

(** The loop of [for_each]. *)
Fixpoint for_each_loop (fuel : nat) (b : bptr) (fn : Item -> Item -> M Z) (s : elements) (kv : KV)
    : M Z :=
  match fuel with
  | O => fail OutOfFuel
  | S fuel =>
      if length_ (kv_key kv) =? 0 then ret 0
      else
        r ← fn (kv_key kv) (kv_value kv);
        if negb (r =? 0) then ret r
        else
          '(s, kv) ← reads (fun w => next w b s);
          for_each_loop fuel b fn s kv
  end.

(** [for_each(fn)] *)
Definition for_each (b : bptr) (fn : Item -> Item -> M Z) : M Z :=
  db ← reads (bucket_db b);
  if negb db then ret (-1)
  else
    _ ← createCursor b;
    '(s, kv) ← reads (fun w => first w b);
    for_each_loop env_fuel b fn s kv.

(** The loop over the elements of a branch page: [count] is read each time. *)
Fixpoint page_children_loop (fuel : nat) (p : PagePtr) (i : Z) (fn : Z -> M unit) : M unit :=
  match fuel with
  | O => fail OutOfFuel
  | S fuel =>
      cnt ← page_read p Page_count;
      if i <? cnt then
        id ← page_read p (fun m o => branch_pageId m (getBranchPageElement o i));
        _ ← fn id;
        page_children_loop fuel p (i + 1) fn
      else ret tt
  end.

(** A range-for over the elements of a vector. *)
Fixpoint each {A} (l : list A) (fn : A -> M unit) : M unit :=
  match l with [] => ret tt | x :: l => _ ← fn x; each l fn end.

(** [Tx::for_each_page(pageId, depth, fn)] *)
Fixpoint Tx_for_each_page (fuel : nat) (t : txptr) (pageId depth : Z)
    (fn : option PagePtr -> Z -> M unit) : M unit :=
  match fuel with
  | O => fail OutOfFuel
  | S fuel =>
      p ← reads (fun w => getPage w t pageId);
      _ ← fn p depth;
      p ← lift (deref p);
      fl ← page_read p Page_flag;
      if has_flag fl branchPageFlag then
        page_children_loop env_fuel p 0 (fun id => Tx_for_each_page fuel t id (depth + 1) fn)
      else ret tt
  end.

(** [for_each_page(fn)] *)
Definition for_each_page (b : bptr) (fn : option PagePtr -> Z -> M unit) : M unit :=
  v ← get_bucket b;
  match page_ v with
  | Some p => fn (Some p) 0
  | None => Tx_for_each_page env_fuel (tx_ v) (root (bucketHeader_ v)) 0 fn
  end.

(** [for_each_page_node_impl(pgid, depth, fn)] *)
Fixpoint for_each_page_node_impl (fuel : nat) (b : bptr) (pgid depth : Z)
    (fn : option PagePtr -> option nptr -> Z -> M unit) : M unit :=
  match fuel with
  | O => fail OutOfFuel
  | S fuel =>
      '(node, page) ← reads (fun w => getPageNode w b pgid);
      _ ← fn page node depth;
      match page with
      | Some p =>
          fl ← page_read p Page_flag;
          if has_flag fl branchPageFlag then
            page_children_loop env_fuel p 0
              (fun id => for_each_page_node_impl fuel b id (depth + 1) fn)
          else ret tt
      | None =>
          n ← lift (deref node);
          nv ← get_node n;
          if isLeaf_ nv then ret tt
          else each (branchPageIds nv) (fun id => for_each_page_node_impl fuel b id (depth + 1) fn)
      end
  end.

(** [for_each_page_node(fn)] *)
Definition for_each_page_node (b : bptr) (fn : option PagePtr -> option nptr -> Z -> M unit)
    : M unit :=
  v ← get_bucket b;
  match page_ v with
  | Some p => fn (Some p) None 0
  | None => for_each_page_node_impl env_fuel b (root (bucketHeader_ v)) 0 fn
  end.

(** [Bucket::free()] *)
Definition Bucket_free (b : bptr) : M unit :=
  v ← get_bucket b;
  if root (bucketHeader_ v) =? 0 then ret tt
  else
    _ ← for_each_page_node b (fun p n _ =>
          match p with
          | Some _ => mt ← reads (fun w => tx_meta w (tx_ v)); Tx_free (txid_ mt) p
          | None =>
              match n with
              | Some n => Node_free n
              | None => fail AssertFailed
              end
          end);
    upd_bucket b (fun v => bset_bucketHeader_
                             {| root := 0; sequence := sequence (bucketHeader_ v) |} v).

(** [deleteBucket(key)]; the callback runs over this bucket, not over the
    child. *)
Fixpoint deleteBucket (fuel : nat) (b : bptr) (key : Item) : M Z :=
  match fuel with
  | O => fail OutOfFuel
  | S fuel =>
      no ← not_writable b;
      if no : bool then ret (-1)
      else
        _ ← createCursor b;
        '(s, _, kv) ← reads (fun w => seek w b key);
        if negb (bytes_eqb (data_ (kv_key kv)) (data_ key)) || has_flag (kv_flag kv) bucketLeafFlag
        then ret (-1)
        else
          child ← getBucketByName b key;
          r ← for_each b (fun k v =>
                if length_ v =? 0 then c ← lift (deref child); deleteBucket fuel c k else ret 0);
          if negb (r =? 0) then ret r
          else
            _ ← upd_bucket b (fun v => bset_buckets_ (delete (data_ key) (buckets_ v)) v);
            c ← lift (deref child);
            _ ← upd_bucket c (bset_nodes_ ∅);
            _ ← upd_bucket c (bset_rootNode_ None);
            _ ← Bucket_free c;
            '(n, _) ← Cursor_getNode b s;
            _ ← Node_del n key;
            ret 0
  end.

(** ** Commit *)

(** The element after [k] in a walk over the nodes of the map. *)
Definition next_pgid (m : gmap Z nptr) (k : Z) : option Z :=
  (fix go (l : list Z) :=
     match l with
     | x :: l => if x =? k then head l else go l
     | [] => None
     end) (env_order_pgid (map_to_list m).*1).

(** The loop over [nodes_] in [rebalance], which changes [nodes_]: to go on
    from an element that was erased is to use an invalid iterator. *)
Fixpoint rebalance_nodes (fuel : nat) (b : bptr) (cur : option Z) : M unit :=
  match fuel with
  | O => fail OutOfFuel
  | S fuel =>
      match cur with
      | None => ret tt
      | Some k =>
          v ← get_bucket b;
          match nodes_ v !! k with
          | None => fail BadIterator
          | Some n =>
              _ ← Node_rebalance n;
              v ← get_bucket b;
              match nodes_ v !! k with
              | None => fail BadIterator
              | Some _ => rebalance_nodes fuel b (next_pgid (nodes_ v) k)
              end
          end
      end
  end.

(** The buckets of [buckets_] with their names, in the order of a walk. *)
Definition sub_buckets (v : Bucket) : list (list byte * bptr) :=
  omap (fun name => c ← buckets_ v !! name; Some (name, c))
    (env_order_name (map_to_list (buckets_ v)).*1).

(** [Bucket::rebalance()] *)
Fixpoint Bucket_rebalance (fuel : nat) (b : bptr) : M unit :=
  match fuel with
  | O => fail OutOfFuel
  | S fuel =>
      v ← get_bucket b;
      _ ← rebalance_nodes env_fuel b (head (env_order_pgid (map_to_list (nodes_ v)).*1));
      v ← get_bucket b;
      each (sub_buckets v) (fun c => Bucket_rebalance fuel c.2)
  end.

(** [maxInlineBucketSize()] *)
Definition maxInlineBucketSize : Z := 1024.

(** [isInlineable()] *)
Definition isInlineable (w : World) (b : bptr) : res bool :=
  v ← bucket_of w b;
  match rootNode_ v with
  | None => Ok false
  | Some r => n ← node_of w r; Ok (isLeaf_ n && isinlineable n maxInlineBucketSize)
  end.

(** The new value of the child [c]: the bucket itself when it is inlineable,
    else its header once it is spilled; none when the spill fails.  [spill] is
    the recursive call. *)
Definition new_value (spill : bptr -> M bool) (c : bptr) (inl : bool) : M (option Item) :=
  if inl then _ ← Bucket_free c; v ← Bucket_write c; ret (Some v)
  else
    ok ← spill c;
    if negb ok then ret None
    else
      cv ← get_bucket c;
      ret (Some {| data_ := bucketHeader_bytes (bucketHeader_ cv); length_ := BUCKETHEADERSIZE |}).

(** The body of [spill]'s loop for the child [c] called [name]. *)
Definition spill_child (spill : bptr -> M bool) (b : bptr) (name : list byte) (c : bptr)
    : M bool :=
  inl ← reads (fun w => isInlineable w c);
  newValue ← new_value spill c inl;
  match newValue with
  | None => ret false
  | Some newValue =>
      cv ← get_bucket c;
      match rootNode_ cv with
      | None => ret true
      | Some _ =>
          _ ← createCursor b;
          let key := Item_of_string name in
          '(s, _, kv) ← reads (fun w => seek w b key);
          _ ← massert (Item_eqb (kv_key kv) key);
          _ ← massert (has_flag (kv_flag kv) bucketLeafFlag);
          '(n, _) ← Cursor_getNode b s;
          _ ← Node_put n key key newValue 0 bucketLeafFlag;
          ret true
      end
  end.

(** The loop over the children. *)
Fixpoint spill_buckets (spill : bptr -> M bool) (b : bptr) (l : list (list byte * bptr))
    : M bool :=
  match l with
  | [] => ret true
  | (name, c) :: l =>
      ok ← spill_child spill b name c;
      if ok : bool then spill_buckets spill b l else ret false
  end.

(** [Bucket::spill()] *)
Fixpoint Bucket_spill (fuel : nat) (b : bptr) : M bool :=
  match fuel with
  | O => fail OutOfFuel
  | S fuel =>
      v ← get_bucket b;
      ok ← spill_buckets (Bucket_spill fuel) b (sub_buckets v);
      if negb ok then ret false
      else
        v ← get_bucket b;
        match rootNode_ v with
        | None => ret true
        | Some r =>
            failed ← Node_spill r;
            if failed : bool then ret failed
            else
              r ← reads (fun w => Node_root w r);
              _ ← upd_bucket b (bset_rootNode_ (Some r));
              n ← get_node r;
              mt ← reads (fun w => tx_meta w (tx_ v));
              _ ← massert (negb (totalPageNumber_ mt <=? pageId_ n));
              _ ← upd_bucket b (fun v => bset_bucketHeader_
                    {| root := pageId_ n; sequence := sequence (bucketHeader_ v) |} v);
              ret true
        end
  end.
End env.

(** ** Buckets with one leaf

    The abstract view: a bucket whose root is a leaf node in memory is the
    map of its entries. *)
Record leaf_bucket_at (w : World) (b : bptr) (n : nptr) (v : Node) (bv : Bucket) (tv : Tx) (mt : meta)
    : Prop := {
  lb_bucket : bucket_of w b = Ok bv;
  lb_tx : tx_of w (tx_ bv) = Ok tv;
  lb_db : db_ tv = true;
  lb_writable : writable_ tv = true;
  lb_meta : metaData_ tv = Some mt;
  lb_total : 0 < wrap32 (totalPageNumber_ mt);
  lb_page : getPageNode w b (root (bucketHeader_ bv)) = Ok (Some n, None);
  lb_node : node_of w n = Ok v;
  lb_leaf : isLeaf_ v = true;
  lb_own : bucket_ v = b;
  lb_sorted : keys_sorted (inodeList_ v);
  lb_small : Z.of_nat (length (inodeList_ v)) < 2 ^ 31;
}.

Definition leaf_bucket (w : World) (b : bptr) (l : InodeList) : Prop :=
  exists n v bv tv mt, leaf_bucket_at w b n v bv tv mt /\ l = inodeList_ v.

(** The page or node of an id only depends on the bucket and the pages. *)
Lemma getPageNode_root w b bv n :
  bucket_of w b = Ok bv -> getPageNode w b (root (bucketHeader_ bv)) = Ok (Some n, None) ->
  (root (bucketHeader_ bv) = 0 /\ rootNode_ bv = Some n) \/
  (root (bucketHeader_ bv) <> 0 /\ nodes_ bv !! root (bucketHeader_ bv) = Some n).
Proof.
  intros Hb. unfold getPageNode. rewrite Hb. cbn [mbind res_bind].
  destruct (Z.eqb_spec (root (bucketHeader_ bv)) 0).
  - destruct (rootNode_ bv); [|done]. intros [= ->]. by left.
  - destruct (nodes_ bv !! root (bucketHeader_ bv)) eqn:E; [intros [= ->]; by right|].
    destruct (getPage w (tx_ bv) _); done.
Qed.

Lemma getPageNode_intro w b bv n :
  bucket_of w b = Ok bv ->
  (root (bucketHeader_ bv) = 0 /\ rootNode_ bv = Some n) \/
  (root (bucketHeader_ bv) <> 0 /\ nodes_ bv !! root (bucketHeader_ bv) = Some n) ->
  getPageNode w b (root (bucketHeader_ bv)) = Ok (Some n, None).
Proof.
  intros Hb Hr. unfold getPageNode. rewrite Hb. cbn [mbind res_bind].
  destruct Hr as [[-> ->]|[Hne ->]]; [done|]. by rewrite (proj2 (Z.eqb_neq _ _) Hne).
Qed.

(** The transaction once a cursor is counted. *)
Definition count_cursor (tv : Tx) : Tx := tset_cursorCount (wrap64 (cursorCount tv + 1)) tv.

Lemma createCursor_ok w b bv tv :
  bucket_of w b = Ok bv -> tx_of w (tx_ bv) = Ok tv ->
  createCursor b w = Ok (tt, with_tx (tx_ bv) (count_cursor tv) w).
Proof.
  intros Hb Ht. unfold createCursor, increaseCurserCount. erewrite bindM_ok by (by apply get_bucket_ok).
  by apply (upd_tx_ok _ (fun v => tset_cursorCount (wrap64 (cursorCount v + 1)) v)).
Qed.

(** A bucket of an open write transaction may be changed. *)
Lemma not_writable_ok w b bv tv :
  bucket_of w b = Ok bv -> tx_of w (tx_ bv) = Ok tv -> db_ tv = true -> writable_ tv = true ->
  not_writable b w = Ok (false, w).
Proof.
  intros Hb Ht Hdb Hwr. unfold not_writable.
  erewrite bindM_ok by (apply (reads_ok (bucket_db b)); unfold bucket_db; rewrite Hb; cbn; rewrite Ht; cbn; by rewrite Hdb).
  cbn beta. erewrite bindM_ok by (apply (reads_ok (bucket_writable b)); unfold bucket_writable; rewrite Hb; cbn;
    rewrite Ht; cbn; by rewrite Hwr). done.
Qed.

(** What a search finds under a key is the map's entry. *)
Lemma search_found (l : InodeList) (key : Item) i found :
  search_spec (ikeys l) (data_ key) (i, found) ->
  if found : bool
  then exists x, l !! Z.to_nat i = Some x /\ data_ (i_key x) = data_ key /\
         inode_map l !! data_ key = Some x
  else inode_map l !! data_ key = None /\
       forall x, l !! Z.to_nat i = Some x -> bytes_lt (data_ key) (data_ (i_key x)).
Proof.
  intros Hspec. destruct found.
  - destruct (search_split _ _ _ _ Hspec) as (l1&l2&Hl1&(x&Hx&Hk&_)&Hlo&_).
    exists x. apply search_spec_found in Hspec as [Hlk [Hi _]].
    assert (l !! Z.to_nat i = Some x) as Hxi.
    { unfold ikeys in Hlk. rewrite list_lookup_fmap in Hlk. apply fmap_Some in Hlk as (y&Hy&_).
      pose proof (lookup_lt_Some _ _ _ Hy).
      assert (Z.to_nat i = length l1) as Hil by (rewrite Hl1, length_take; lia).
      rewrite Hx, Hil. by rewrite list_lookup_middle. }
    split_and!; [done|done|]. rewrite Hx, inode_map_middle, Hk.
    + apply lookup_insert_eq.
    + rewrite Hk. by apply Forall_lt_notin.
  - split.
    + apply inode_map_none. by eapply search_spec_not_found.
    + intros x Hx. destruct Hspec as ((?&_)&_&Hhi). apply (Hhi (Z.to_nat i)); [|lia].
      unfold ikeys. by rewrite list_lookup_fmap, Hx.
Qed.

(** A key that is not there is not the one the search ends on. *)
Lemma absent_found (l : InodeList) (key : Item) i :
  search_spec (ikeys l) (data_ key) (i, false) ->
  let kv := default KV_reset (kv_of_inode <$> l !! Z.to_nat i) in
  negb (bytes_eqb (data_ key) (data_ (kv_key kv))) || negb (has_flag (kv_flag kv) bucketLeafFlag) = true.
Proof.
  intros Hspec kv. destruct (search_found l key i false Hspec) as [_ Hgt]. unfold kv.
  destruct (l !! Z.to_nat i) as [x|] eqn:Hx; cbn [default fmap option_fmap option_map from_option].
  - rewrite (proj2 (bytes_eqb_neq _ _)); [done|]. intros He. cbn in He. specialize (Hgt x eq_refl).
    rewrite He in Hgt. by apply (irreflexivity bytes_lt) in Hgt.
  - change (has_flag (kv_flag KV_reset) bucketLeafFlag) with false. by rewrite orb_true_r.
Qed.

(** [getBucketByName] of a name that is not there. *)
Lemma getBucketByName_missing `{Env} w w1 b bv l name i s ptr :
  bucket_of w b = Ok bv -> buckets_ bv !! data_ name = None -> createCursor b w = Ok (tt, w1) ->
  search_spec (ikeys l) (data_ name) (i, false) ->
  seek w1 b name = Ok (s, ptr, default KV_reset (kv_of_inode <$> l !! Z.to_nat i)) ->
  getBucketByName b name w = Ok (None, w1).
Proof.
  intros Hb Hnew Hcur Hspec Hseek. unfold getBucketByName. erewrite bindM_ok by (by apply get_bucket_ok). cbn beta.
  rewrite Hnew. erewrite bindM_ok by exact Hcur. cbn beta.
  erewrite bindM_ok by (apply (reads_ok (fun w => seek w b name)); exact Hseek). cbn beta iota.
  by rewrite (absent_found l name i Hspec).
Qed.

(** Where a search ends there is no sub-bucket when the leaf has none. *)
Lemma found_plain (l : InodeList) i :
  Forall (fun x => has_flag (i_flag x) bucketLeafFlag = false) l ->
  has_flag (kv_flag (default KV_reset (kv_of_inode <$> l !! i))) bucketLeafFlag = false.
Proof.
  intros Hl. destruct (l !! i) as [x|] eqn:Hx; [|done]. rewrite Forall_forall in Hl.
  apply (Hl x). by eapply list_elem_of_lookup_2.
Qed.

(** What [get] returns is the map's value. *)
Lemma found_value (l : InodeList) (key : Item) i found :
  Forall (fun x => has_flag (i_flag x) bucketLeafFlag = false) l ->
  search_spec (ikeys l) (data_ key) (i, found) ->
  let kv := default KV_reset (kv_of_inode <$> l !! Z.to_nat i) in
  (if has_flag (kv_flag kv) bucketLeafFlag || negb (Item_eqb (kv_key kv) key) then Item_empty else kv_value kv) =
    default Item_empty (i_value <$> inode_map l !! data_ key).
Proof.
  intros Hl Hspec kv. pose proof (search_found _ key i found Hspec) as Hfound.
  unfold kv. rewrite found_plain by done. cbn [orb]. unfold Item_eqb. destruct found.
  - destruct Hfound as (x&Hx&Hkx&->). rewrite Hx. cbn. by rewrite Hkx, bytes_eqb_refl.
  - destruct Hfound as (->&Hgt). destruct (l !! Z.to_nat i) as [x|] eqn:Hx; cbn.
    + rewrite (proj2 (bytes_eqb_neq _ _)); [done|]. intros He. specialize (Hgt x eq_refl).
      rewrite He in Hgt. by apply (irreflexivity bytes_lt) in Hgt.
    + by destruct (bytes_eqb [] (data_ key)).
Qed.

Section leaf_bucket.
Context `{Env} (w : World) (b : bptr) (n : nptr) (v : Node) (bv : Bucket) (tv : Tx) (mt : meta).
Hypothesis Hlb : leaf_bucket_at w b n v bv tv mt.
#[local] Set Default Proof Using "All".

(** Opening a cursor only counts it. *)
Lemma leaf_bucket_counted :
  createCursor b w = Ok (tt, with_tx (tx_ bv) (count_cursor tv) w) /\
  leaf_bucket_at (with_tx (tx_ bv) (count_cursor tv) w) b n v bv (count_cursor tv) mt.
Proof.
  destruct Hlb. split; [by apply createCursor_ok|]. split; try done; [apply tx_of_with|].
  by eapply getPageNode_intro; [|eapply getPageNode_root].
Qed.

Lemma leaf_bucket_cursor :
  exists w' tv', createCursor b w = Ok (tt, w') /\ leaf_bucket_at w' b n v bv tv' mt /\
    w_nodes w' = w_nodes w /\ w_buckets w' = w_buckets w.
Proof. destruct leaf_bucket_counted as [H1 H2]. eexists _, _. split; [exact H1|]. by split. Qed.

(** A search ends in the leaf, at the key's rank. *)
Lemma leaf_bucket_seek key :
  (0 < env_fuel)%nat ->
  exists i found, search_spec (ikeys (inodeList_ v)) (data_ key) (i, found) /\
    seek w b key = Ok ([mkRef None (Some n) i], None,
                       default KV_reset (kv_of_inode <$> inodeList_ v !! Z.to_nat i)).
Proof.
  intros Hf. destruct Hlb.
  destruct (binarySearch_correct (inodeList_ v) key lb_sorted0 lb_small0) as ([i found]&Hb&Hspec).
  exists i, found. split; [done|].
  pose proof Hspec as ([Hi0 Hi]&_). rewrite length_ikeys in Hi.
  pose proof (node_leaf_view w n v lb_node0 lb_leaf0 lb_small0) as Hv.
  unfold seek, do_seek, getRootPage. rewrite lb_bucket0. cbn [mbind res_bind].
  destruct env_fuel as [|fuel]; [lia|]. cbn [search]. rewrite lb_page0. cbn [mbind res_bind].
  unfold ElementRef_new. rewrite lv_isLeaf. cbn [mbind res_bind searchLeaf ref_node].
  rewrite lb_node0. cbn [mbind res_bind]. unfold Node.search. rewrite Hb.
  cbn [mbind res_bind set_top_index set_index ref_page ref_node top]. unfold set_index. cbn [ref_page ref_node].
  rewrite lv_count. cbn [mbind res_bind index_]. rewrite length_fmap.
  destruct (Z.leb_spec (Z.of_nat (length (inodeList_ v))) i).
  - by rewrite lookup_ge_None_2 by lia.
  - destruct (lookup_lt_is_Some_2 (inodeList_ v) (Z.to_nat i)) as [x Hx]; [lia|].
    unfold keyValue, count. cbn [ref_node index_]. rewrite lb_node0. cbn [mbind res_bind].
    destruct (Z.eqb_spec (Z.of_nat (length (inodeList_ v))) 0); [lia|].
    destruct (Z.leb_spec (Z.of_nat (length (inodeList_ v))) i); [lia|]. cbn [orb].
    by rewrite Hx.
Qed.

(** The cursor of such a bucket is on the node already. *)
Lemma leaf_bucket_getNode i s :
  Cursor_getNode b (mkRef None (Some n) i :: s) w = Ok ((n, mkRef None (Some n) i :: s), w).
Proof.
  destruct Hlb. unfold Cursor_getNode. cbn [ref_node].
  erewrite bindM_ok; [|erewrite bindM_ok by (apply (reads_ok (fun w => isLeaf w _));
    unfold isLeaf; cbn [ref_node]; rewrite lb_node0; cbn; by rewrite lb_leaf0); reflexivity].
  reflexivity.
Qed.

Lemma leaf_bucket_writable : not_writable b w = Ok (false, w).
Proof. destruct Hlb. by eapply not_writable_ok. Qed.

Lemma leaf_bucket_total : getTotalPageNumber w b = Ok (wrap32 (totalPageNumber_ mt)).
Proof.
  destruct Hlb. unfold getTotalPageNumber, tx_meta. rewrite lb_bucket0. cbn [mbind res_bind].
  rewrite lb_tx0. cbn [mbind res_bind]. by rewrite lb_meta0.
Qed.

(** Changing the node's inodes keeps the shape. *)
Lemma leaf_bucket_update v' :
  isLeaf_ v' = true -> bucket_ v' = b -> keys_sorted (inodeList_ v') ->
  Z.of_nat (length (inodeList_ v')) < 2 ^ 31 ->
  leaf_bucket_at (with_node n v' w) b n v' bv tv mt.
Proof. intros. destruct Hlb. split; try done; apply node_of_with. Qed.

(** [put] on the node. *)
Lemma leaf_bucket_Node_put key value flag :
  0 < length_ key -> Z.of_nat (length (inodeList_ v)) < 2 ^ 31 - 1 ->
  exists l, let v' := set_inodeList l v in
    Node_put n key key value 0 flag w = Ok (true, with_node n v' w) /\
    leaf_bucket_at (with_node n v' w) b n v' bv tv mt /\
    inode_map l = <[data_ key := mkInode flag 0 key value]> (inode_map (inodeList_ v)).
Proof.
  intros Hk Hl. pose proof leaf_bucket_total as Htot. destruct Hlb.
  destruct (put_inserts (wrap32 (totalPageNumber_ mt)) v key key value 0 flag)
    as (l&Hput&Hs&Hm); try done.
  exists l. cbn zeta. unfold Node_put.
  erewrite bindM_ok by (by apply get_node_ok). cbn beta. rewrite lb_own0.
  erewrite bindM_ok by (by apply (reads_ok (fun w => getTotalPageNumber w b))). cbn beta.
  erewrite bindM_ok by (by apply lift_ok). cbn beta iota. split_and!; [done| |].
  - apply leaf_bucket_update; try done. cbn.
    assert (length l <= S (length (inodeList_ v)))%nat; [|lia].
    unfold put in Hput. rewrite (proj2 (Z.leb_gt _ _)) in Hput by done.
    rewrite (proj2 (Z.leb_gt _ _)) in Hput by done. cbn [orb] in Hput.
    destruct (binarySearch (inodeList_ v) key) as [[i f]|]; [|done]. cbn [mbind res_bind] in Hput.
    injection Hput as <-. destruct f; rewrite !length_app; cbn; rewrite length_take, length_drop; lia.
  - by rewrite Hm, insert_delete_eq.
Qed.

(** [put] of a new key. *)
Lemma leaf_bucket_Node_put_new key value flag :
  0 < length_ key -> Z.of_nat (length (inodeList_ v)) < 2 ^ 31 - 1 -> data_ key ∉ ikeys (inodeList_ v) ->
  let v' := set_inodeList (insert_inode (mkInode flag 0 key value) (inodeList_ v)) v in
  Node_put n key key value 0 flag w = Ok (true, with_node n v' w) /\
  leaf_bucket_at (with_node n v' w) b n v' bv tv mt.
Proof.
  intros Hk Hl Habs v'. pose proof leaf_bucket_total as Htot. destruct Hlb.
  destruct (put_absent (wrap32 (totalPageNumber_ mt)) v key value 0 flag) as [Hput Hs]; try done.
  split.
  - unfold Node_put. erewrite bindM_ok by (by apply get_node_ok). cbn beta. rewrite lb_own0.
    erewrite bindM_ok by (by apply (reads_ok (fun w => getTotalPageNumber w b))). cbn beta.
    erewrite bindM_ok by (by apply lift_ok). done.
  - apply leaf_bucket_update; try done. cbn. rewrite (insert_inode_perm (mkInode flag 0 key value)). cbn. lia.
Qed.

(** [del] on the node. *)
Lemma leaf_bucket_Node_del key :
  exists v', Node_del n key w = Ok (true, with_node n v' w) /\
    leaf_bucket_at (with_node n v' w) b n v' bv tv mt /\
    inode_map (inodeList_ v') = delete (data_ key) (inode_map (inodeList_ v)) /\
    set_unbalanced (unbalanced_ v) (set_inodeList (inodeList_ v) v') = v.
Proof.
  destruct Hlb. destruct (del_deletes v key) as (v'&Hdel&Hs&Hm&Hu&Hsame); try done.
  exists v'. unfold Node_del. erewrite bindM_ok by (by apply get_node_ok). cbn beta.
  erewrite bindM_ok by (by apply lift_ok). cbn beta iota.
  assert (isLeaf_ v' = isLeaf_ v /\ bucket_ v' = bucket_ v) as [Hl Ho].
  { split; rewrite <-Hsame; by destruct v'. }
  split_and!; [done| |done|done]. apply leaf_bucket_update; try congruence; try done.
  unfold del in Hdel. destruct (binarySearch (inodeList_ v) key) as [[i f]|]; [|done].
  cbn [mbind res_bind] in Hdel. destruct f; injection Hdel as <-; [|done].
  cbn. rewrite length_app, length_take, length_drop. lia.
Qed.
End leaf_bucket.

(** Whether an entry is there and is a sub-bucket. *)
Definition is_bucket (o : option Inode) : bool :=
  from_option (fun x => has_flag (i_flag x) bucketLeafFlag) false o.

(** The entry of the first key that is not below [key]: where a search ends. *)
Definition entry_from (l : InodeList) (key : Item) : option Inode :=
  l !! length (filter (fun k => bytes_lt k (data_ key)) (ikeys l)).

(** The tests [put], [get] and [remove] make of the entry found. *)
Lemma found_is_bucket (l : InodeList) (key : Item) i found :
  search_spec (ikeys l) (data_ key) (i, found) ->
  let kv := default KV_reset (kv_of_inode <$> l !! Z.to_nat i) in
  Item_eqb (kv_key kv) key && has_flag (kv_flag kv) bucketLeafFlag = is_bucket (inode_map l !! data_ key).
Proof.
  intros Hspec kv. pose proof (search_found _ key i found Hspec) as Hfound.
  unfold kv, Item_eqb. destruct found.
  - destruct Hfound as (x&Hx&Hkx&->). rewrite Hx. cbn. by rewrite Hkx, bytes_eqb_refl.
  - destruct Hfound as (->&Hgt). cbn. destruct (l !! Z.to_nat i) as [x|] eqn:Hx; cbn; [|by rewrite andb_false_r].
    rewrite (proj2 (bytes_eqb_neq _ _)); [done|]. intros He. specialize (Hgt x eq_refl).
    rewrite He in Hgt. by apply (irreflexivity bytes_lt) in Hgt.
Qed.

Lemma found_get (l : InodeList) (key : Item) i found :
  search_spec (ikeys l) (data_ key) (i, found) ->
  let kv := default KV_reset (kv_of_inode <$> l !! Z.to_nat i) in
  (if has_flag (kv_flag kv) bucketLeafFlag || negb (Item_eqb (kv_key kv) key) then Item_empty else kv_value kv) =
    if is_bucket (inode_map l !! data_ key) then Item_empty
    else default Item_empty (i_value <$> inode_map l !! data_ key).
Proof.
  intros Hspec kv. pose proof (found_is_bucket l key i found Hspec) as Hb. fold kv in Hb. rewrite <-Hb.
  pose proof (search_found _ key i found Hspec) as Hfound. unfold kv, Item_eqb in *. destruct found.
  - destruct Hfound as (x&Hx&Hkx&->). rewrite Hx. cbn. rewrite Hkx, bytes_eqb_refl. cbn. by rewrite orb_false_r.
  - destruct Hfound as (->&Hgt). cbn in *. rewrite Hb.
    destruct (l !! Z.to_nat i) as [x|] eqn:Hx; cbn in *; [|by destruct (_ || _), (is_bucket _)].
    rewrite (proj2 (bytes_eqb_neq _ _)); [rewrite orb_true_r; by destruct (is_bucket _)|]. intros He. specialize (Hgt x eq_refl).
    rewrite He in Hgt. by apply (irreflexivity bytes_lt) in Hgt.
Qed.

Lemma found_from (l : InodeList) (key : Item) i found :
  keys_sorted l -> search_spec (ikeys l) (data_ key) (i, found) ->
  has_flag (kv_flag (default KV_reset (kv_of_inode <$> l !! Z.to_nat i))) bucketLeafFlag = is_bucket (entry_from l key).
Proof.
  intros Hs Hspec. rewrite (search_rank _ _ Hs _ _ Hspec), Nat2Z.id. fold (entry_from l key).
  by destruct (entry_from l key).
Qed.

(** The operations on the entries: each counts a cursor, and at most changes
    the node. *)
Section leaf_bucket_any.
Context `{Env} (w : World) (b : bptr) (n : nptr) (v : Node) (bv : Bucket) (tv : Tx) (mt : meta).
Hypothesis Hlb : leaf_bucket_at w b n v bv tv mt.
#[local] Set Default Proof Using "All".
Let w1 : World := with_tx (tx_ bv) (count_cursor tv) w.
Hypothesis fuel_pos : (0 < env_fuel)%nat.

Lemma leaf_bucket_put_any key value :
  0 < length_ key <= MAXKEYSIZE -> length_ value <= MAXVALUESIZE -> Z.of_nat (length (inodeList_ v)) < 2 ^ 31 - 1 ->
  if is_bucket (inode_map (inodeList_ v) !! data_ key) then Bucket_put b key value w = Err LogFatal
  else exists l', let v' := set_inodeList l' v in
    Bucket_put b key value w = Ok (0, with_node n v' w1) /\
    leaf_bucket_at (with_node n v' w1) b n v' bv (count_cursor tv) mt /\
    inode_map l' = <[data_ key := mkInode 0 0 key value]> (inode_map (inodeList_ v)).
Proof.
  intros Hk Hv Hlen. destruct (leaf_bucket_counted _ _ _ _ _ _ _ Hlb) as [Hcur Hlb1]. fold w1 in Hcur, Hlb1.
  pose proof (leaf_bucket_writable _ _ _ _ _ _ _ Hlb) as Hw.
  destruct (leaf_bucket_seek _ _ _ _ _ _ _ Hlb1 key fuel_pos) as (i&found&Hspec&Hseek).
  assert (Bucket_put b key value w =
    (if is_bucket (inode_map (inodeList_ v) !! data_ key) then fail LogFatal
     else '(n, _) ← Cursor_getNode b [mkRef None (Some n) i]; _ ← Node_put n key key value 0 0; ret 0) w1) as ->.
  { unfold Bucket_put. erewrite bindM_ok by exact Hw. cbn beta.
    rewrite (proj2 (Z.eqb_neq _ _)), (proj2 (Z.ltb_ge _ _)), (proj2 (Z.ltb_ge _ _)) by lia. cbn [orb].
    erewrite bindM_ok by exact Hcur. cbn beta.
    erewrite bindM_ok by (by apply (reads_ok (fun w => seek w b key))). cbn beta iota.
    by rewrite (found_is_bucket _ key i found Hspec). }
  destruct (is_bucket _); [done|].
  destruct (leaf_bucket_Node_put _ _ _ _ _ _ _ Hlb1 key value 0) as (l'&Hput&Hlb'&Hm); [lia|done|].
  exists l'. split_and!; [|done|done].
  erewrite bindM_ok by (by eapply leaf_bucket_getNode). cbn beta iota.
  by erewrite bindM_ok by exact Hput.
Qed.

Lemma leaf_bucket_get_any key :
  Bucket_get b key w =
    Ok (if is_bucket (inode_map (inodeList_ v) !! data_ key) then Item_empty
        else default Item_empty (i_value <$> inode_map (inodeList_ v) !! data_ key), w1) /\
  leaf_bucket_at w1 b n v bv (count_cursor tv) mt.
Proof.
  destruct (leaf_bucket_counted _ _ _ _ _ _ _ Hlb) as [Hcur Hlb1]. split; [|exact Hlb1]. fold w1 in Hcur, Hlb1.
  destruct (leaf_bucket_seek _ _ _ _ _ _ _ Hlb1 key fuel_pos) as (i&found&Hspec&Hseek).
  rewrite <-(found_get _ key i found Hspec). unfold Bucket_get. erewrite bindM_ok by exact Hcur. cbn beta.
  erewrite bindM_ok by (by apply (reads_ok (fun w => seek w b key))). cbn beta iota zeta.
  by destruct (_ || _).
Qed.

Lemma leaf_bucket_remove_any key :
  0 < length_ key ->
  if is_bucket (entry_from (inodeList_ v) key) then Bucket_remove b key w = Err LogFatal
  else exists v', Bucket_remove b key w = Ok (0, with_node n v' w1) /\
    leaf_bucket_at (with_node n v' w1) b n v' bv (count_cursor tv) mt /\
    inode_map (inodeList_ v') = delete (data_ key) (inode_map (inodeList_ v)) /\
    set_unbalanced (unbalanced_ v) (set_inodeList (inodeList_ v) v') = v.
Proof.
  intros Hk. destruct (leaf_bucket_counted _ _ _ _ _ _ _ Hlb) as [Hcur Hlb1]. fold w1 in Hcur, Hlb1.
  pose proof (leaf_bucket_writable _ _ _ _ _ _ _ Hlb) as Hw.
  destruct (leaf_bucket_seek _ _ _ _ _ _ _ Hlb1 key fuel_pos) as (i&found&Hspec&Hseek).
  assert (Bucket_remove b key w =
    (if is_bucket (entry_from (inodeList_ v) key) then fail LogFatal
     else '(n, _) ← Cursor_getNode b [mkRef None (Some n) i]; _ ← Node_del n key; ret 0) w1) as ->.
  { unfold Bucket_remove. erewrite bindM_ok by exact Hw. cbn beta.
    rewrite (proj2 (Z.eqb_neq _ _)) by lia. cbn [orb]. erewrite bindM_ok by exact Hcur. cbn beta.
    erewrite bindM_ok by (by apply (reads_ok (fun w => seek w b key))). cbn beta iota.
    by rewrite (found_from _ key i found (lb_sorted _ _ _ _ _ _ _ Hlb1) Hspec). }
  destruct (is_bucket _); [done|].
  destruct (leaf_bucket_Node_del _ _ _ _ _ _ _ Hlb1 key) as (v'&Hdel&Hlb'&Hm&Hshape).
  exists v'. split_and!; [|done|done|done]. erewrite bindM_ok by (by eapply leaf_bucket_getNode). cbn beta iota.
  by erewrite bindM_ok by exact Hdel.
Qed.
End leaf_bucket_any.

(** The same in a bucket without sub-buckets. *)
Section leaf_bucket_entries.
Context `{Env} (w : World) (b : bptr) (n : nptr) (v : Node) (bv : Bucket) (tv : Tx) (mt : meta).
Hypothesis Hlb : leaf_bucket_at w b n v bv tv mt.
#[local] Set Default Proof Using "All".
Let w1 : World := with_tx (tx_ bv) (count_cursor tv) w.
Hypothesis fuel_pos : (0 < env_fuel)%nat.
Hypothesis plain_entries : Forall (fun x => has_flag (i_flag x) bucketLeafFlag = false) (inodeList_ v).

Lemma plain_map key : is_bucket (inode_map (inodeList_ v) !! data_ key) = false.
Proof.
  destruct (leaf_bucket_seek _ _ _ _ _ _ _ Hlb key fuel_pos) as (i&found&Hspec&_).
  by rewrite <-(found_is_bucket _ key i found Hspec), found_plain, andb_false_r.
Qed.

Lemma leaf_bucket_put key value :
  0 < length_ key <= MAXKEYSIZE -> length_ value <= MAXVALUESIZE -> Z.of_nat (length (inodeList_ v)) < 2 ^ 31 - 1 ->
  exists l', let v' := set_inodeList l' v in
    Bucket_put b key value w = Ok (0, with_node n v' w1) /\
    leaf_bucket_at (with_node n v' w1) b n v' bv (count_cursor tv) mt /\
    inode_map l' = <[data_ key := mkInode 0 0 key value]> (inode_map (inodeList_ v)).
Proof.
  intros Hk Hv Hlen. pose proof (leaf_bucket_put_any _ _ _ _ _ _ _ Hlb fuel_pos key value Hk Hv Hlen) as H0.
  by rewrite plain_map in H0.
Qed.

Lemma leaf_bucket_get key :
  Bucket_get b key w = Ok (default Item_empty (i_value <$> inode_map (inodeList_ v) !! data_ key), w1) /\
  leaf_bucket_at w1 b n v bv (count_cursor tv) mt.
Proof. pose proof (leaf_bucket_get_any _ _ _ _ _ _ _ Hlb fuel_pos key) as H0. by rewrite plain_map in H0. Qed.

Lemma leaf_bucket_remove key :
  0 < length_ key ->
  exists v', Bucket_remove b key w = Ok (0, with_node n v' w1) /\
    leaf_bucket_at (with_node n v' w1) b n v' bv (count_cursor tv) mt /\
    inode_map (inodeList_ v') = delete (data_ key) (inode_map (inodeList_ v)) /\
    set_unbalanced (unbalanced_ v) (set_inodeList (inodeList_ v) v') = v.
Proof.
  intros Hk. pose proof (leaf_bucket_remove_any _ _ _ _ _ _ _ Hlb fuel_pos key Hk) as H0.
  assert (is_bucket (entry_from (inodeList_ v) key) = false) as Hnext; [|by rewrite Hnext in H0].
  unfold entry_from, is_bucket. destruct (_ !! _) as [x|] eqn:Hx; [|done]. cbn.
  rewrite Forall_forall in plain_entries. apply (plain_entries x). by eapply list_elem_of_lookup_2.
Qed.
End leaf_bucket_entries.

(** ** Properties *)

(** C6. A writable bucket whose root is a leaf node refines a map from keys to
    entries, sub-buckets among them.  [Bucket::put] inserts and returns 0; of
    the key of a sub-bucket it ends in [LOG(FATAL)].  [Bucket::get] looks up,
    and returns an empty item for a missing key or a sub-bucket.
    [Bucket::remove] deletes and returns 0, whether the key is there or not,
    unless the first entry whose key is not below it is a sub-bucket: then it
    ends in [LOG(FATAL)].  Whatever returns leaves such a bucket. *)
Theorem leaf_bucket_refines_map `{Env} w b l key value :
  leaf_bucket w b l -> (0 < env_fuel)%nat -> Z.of_nat (length l) < 2 ^ 31 - 1 ->
  0 < length_ key <= MAXKEYSIZE -> length_ value <= MAXVALUESIZE ->
  (if is_bucket (inode_map l !! data_ key) then Bucket_put b key value w = Err LogFatal
   else exists w' l', Bucket_put b key value w = Ok (0, w') /\ leaf_bucket w' b l' /\
     inode_map l' = <[data_ key := mkInode 0 0 key value]> (inode_map l)) /\
  (exists w', Bucket_get b key w =
       Ok (if is_bucket (inode_map l !! data_ key) then Item_empty
           else default Item_empty (i_value <$> inode_map l !! data_ key), w') /\ leaf_bucket w' b l) /\
  (if is_bucket (entry_from l key) then Bucket_remove b key w = Err LogFatal
   else exists w' l', Bucket_remove b key w = Ok (0, w') /\ leaf_bucket w' b l' /\
     inode_map l' = delete (data_ key) (inode_map l)).
Proof.
  intros (n&v&bv&tv&mt&Hlb&->) Hf Hlen Hk Hv. split_and!.
  - pose proof (leaf_bucket_put_any _ _ _ _ _ _ _ Hlb Hf key value Hk Hv Hlen) as Hput.
    destruct (is_bucket _); [done|]. destruct Hput as (l'&Hput&Hlb'&Hm).
    eexists _, l'. split; [exact Hput|]. split; [|exact Hm]. by eexists n, (set_inodeList l' v), bv, _, mt.
  - destruct (leaf_bucket_get_any _ _ _ _ _ _ _ Hlb Hf key) as [Hget Hlb'].
    eexists. split; [exact Hget|]. by eexists n, v, bv, _, mt.
  - pose proof (leaf_bucket_remove_any _ _ _ _ _ _ _ Hlb Hf key (proj1 Hk)) as Hrem.
    destruct (is_bucket _); [done|]. destruct Hrem as (v'&Hrem&Hlb'&Hm&_).
    eexists _, (inodeList_ v'). split; [exact Hrem|]. split; [|exact Hm]. by eexists n, v', bv, _, mt.
Qed.


(** ** Creating a bucket in a bucket with one leaf *)

(** The shape is kept when other buckets and nodes change. *)
Lemma leaf_bucket_other_bucket w b n v bv tv mt c cv :
  c <> b -> leaf_bucket_at w b n v bv tv mt -> leaf_bucket_at (with_bucket c cv w) b n v bv tv mt.
Proof.
  intros Hc []. assert (bucket_of (with_bucket c cv w) b = Ok bv) as Hb by (by rewrite bucket_of_with_ne).
  split; try done. eapply getPageNode_intro; [exact Hb|by eapply (getPageNode_root w)].
Qed.

Lemma leaf_bucket_other_node w b n v bv tv mt m mv :
  m <> n -> leaf_bucket_at w b n v bv tv mt -> leaf_bucket_at (with_node m mv w) b n v bv tv mt.
Proof. intros Hm []. split; try done. by rewrite node_of_with_ne. Qed.

Lemma leaf_bucket_rebucket w b n v bv tv mt bv' :
  bucketHeader_ bv' = bucketHeader_ bv -> tx_ bv' = tx_ bv -> rootNode_ bv' = rootNode_ bv ->
  nodes_ bv' = nodes_ bv ->
  leaf_bucket_at w b n v bv tv mt -> leaf_bucket_at (with_bucket b bv' w) b n v bv' tv mt.
Proof.
  intros H1 H2 H3 H4 []. split; try done; [apply bucket_of_with|by rewrite H2|].
  eapply getPageNode_intro; [apply bucket_of_with|]. rewrite H1, H3, H4.
  by eapply (getPageNode_root w).
Qed.

(** The value of a new, empty inline bucket: its header, and an empty leaf. *)
Definition empty_bucket_value : Item :=
  {| data_ := replicate 24 Byte.x00 ++ Byte.x02 :: replicate 7 Byte.x00; length_ := 32 |}.

Lemma Bucket_bytes_empty base stk b :
  Bucket_bytes base stk bucketHeader_reset (markLeaf (Node_new b None)) = Ok empty_bucket_value.
Proof. reflexivity. Qed.

(** A bucket opened from a value with a zero root and no page behind it. *)
Definition dangling_bucket (t : txptr) : Bucket :=
  bset_page_ (Some PDead) (bset_bucketHeader_ bucketHeader_reset (Bucket_new t)).

Lemma openBucket_empty `{Env} w b bv :
  bucket_of w b = Ok bv ->
  let c := fresh_key (w_buckets w) in
  openBucket b empty_bucket_value None w = Ok (c, with_bucket c (dangling_bucket (tx_ bv)) w).
Proof.
  intros Hb c. unfold openBucket. erewrite bindM_ok by (by apply get_bucket_ok). cbn beta.
  erewrite bindM_ok by apply new_bucket_ok. cbn beta. fold c.
  erewrite bindM_ok by (apply lift_ok; reflexivity). cbn beta.
  erewrite bindM_ok by (apply upd_bucket_ok, bucket_of_with). cbn beta.
  erewrite bindM_ok by (apply upd_bucket_ok, bucket_of_with). cbn beta. by rewrite !with_bucket_twice.
Qed.

Section create.
Context `{Env} (w : World) (b : bptr) (n : nptr) (v : Node) (bv : Bucket) (tv : Tx) (mt : meta).
Hypothesis Hlb : leaf_bucket_at w b n v bv tv mt.
Hypothesis fuel_pos : (0 < env_fuel)%nat.
#[local] Set Default Proof Using "All".

(** The entry just put is found, and opened. *)
Lemma getBucketByName_new key x :
  buckets_ bv !! data_ key = None -> inode_map (inodeList_ v) !! data_ key = Some x ->
  i_value x = empty_bucket_value -> has_flag (i_flag x) bucketLeafFlag = true ->
  let c := fresh_key (w_buckets w) in c <> b /\
  getBucketByName b key w = Ok (Some c,
    with_bucket b (bset_buckets_ (<[data_ key := c]> (buckets_ bv)) bv)
      (with_bucket c (dangling_bucket (tx_ bv)) (with_tx (tx_ bv) (count_cursor tv) w))).
Proof.
  intros Hnb Hx Hval Hflag c.
  destruct (leaf_bucket_counted w b n v bv tv mt Hlb) as (Hcur&Hlb1).
  destruct (leaf_bucket_seek _ _ _ _ _ _ _ Hlb1 key fuel_pos) as (i&found&Hspec&Hseek).
  pose proof (search_found _ key i found Hspec) as Hfound.
  destruct found; [|destruct Hfound; congruence].
  destruct Hfound as (y&Hy&Hky&Hy'). rewrite Hx in Hy'. injection Hy' as <-.
  rewrite Hy in Hseek. cbn in Hseek.
  assert (c <> b) as Hcb by (by eapply fresh_bucket_ne, Hlb). split; [done|].
  unfold getBucketByName. erewrite bindM_ok by (apply get_bucket_ok, Hlb). cbn beta. rewrite Hnb.
  erewrite bindM_ok by exact Hcur. cbn beta.
  erewrite bindM_ok by (by apply (reads_ok (fun w => seek w b key))). cbn beta iota.
  cbn [kv_key kv_flag kv_value kv_of_inode]. rewrite Hky, bytes_eqb_refl, Hflag, Hval. cbn [negb orb].
  erewrite bindM_ok by (eapply openBucket_empty, Hlb1). cbn beta.
  change (fresh_key (w_buckets (with_tx _ _ w))) with c.
  erewrite bindM_ok by (apply upd_bucket_ok; rewrite bucket_of_with_ne by done; apply Hlb1).
  reflexivity.
Qed.
End create.

(** The state with one bucket less. *)
Definition without_bucket (b : bptr) (w : World) : World := wset_w_buckets (delete b (w_buckets w)) w.

(** [putEmptyBucket] once the cursor has found the leaf's node: the state
    before is [w4], and the new bucket's value is under its key. *)
Lemma putEmptyBucket_ok `{Env} w b bv0 key s s' n v bv tv mt w4 :
  let loc := fresh_key (w_buckets w) in let r := fresh_key (w_nodes w) in
  let w3 := with_bucket loc (bset_rootNode_ (Some r) (Bucket_new (tx_ bv0)))
    (with_node r (markLeaf (Node_new loc None)) w) in
  bucket_of w b = Ok bv0 -> Cursor_getNode b s w3 = Ok ((n, s'), w4) ->
  leaf_bucket_at w4 b n v bv tv mt -> (0 < env_fuel)%nat ->
  Z.of_nat (length (inodeList_ v)) < 2 ^ 31 - 1 -> 0 < length_ key ->
  data_ key ∉ ikeys (inodeList_ v) -> buckets_ bv !! data_ key = None ->
  let v' := set_inodeList (insert_inode (mkInode bucketLeafFlag 0 key empty_bucket_value) (inodeList_ v)) v in
  let w5 := with_bucket b (bset_page_ None bv) (with_node n v' w4) in
  let c := fresh_key (w_buckets w5) in
  c <> b /\ putEmptyBucket b key s w = Ok (Some c, without_bucket loc
    (with_bucket b (bset_buckets_ (<[data_ key := c]> (buckets_ bv)) (bset_page_ None bv))
      (with_bucket c (dangling_bucket (tx_ bv)) (with_tx (tx_ bv) (count_cursor tv) w5)))).
Proof.
  intros loc r w3 Hb Hnode Hlb Hf Hlen Hk Habs Hnb v' w5 c.
  destruct (leaf_bucket_Node_put_new _ _ _ _ _ _ _ Hlb key empty_bucket_value bucketLeafFlag) as [Hput Hlb4]; [lia|done|done|].
  fold v' in Hput, Hlb4.
  assert (leaf_bucket_at w5 b n v' (bset_page_ None bv) tv mt) as Hlb5 by (by apply (leaf_bucket_rebucket _ _ _ _ bv)).
  destruct (put_inserts (wrap32 (totalPageNumber_ mt)) v key key empty_bucket_value 0 bucketLeafFlag)
    as (l'&Hput'&_&Hm); try (apply Hlb || done); [].
  destruct (put_absent (wrap32 (totalPageNumber_ mt)) v key empty_bucket_value 0 bucketLeafFlag) as [Hput'' _];
    try (apply Hlb || done); [].
  rewrite Hput'' in Hput'. injection Hput' as Hl'.
  destruct (getBucketByName_new w5 b n v' _ _ _ Hlb5 Hf key (mkInode bucketLeafFlag 0 key empty_bucket_value))
    as (Hcb&Hget); [done| |done|done|].
  { change (inodeList_ v') with (insert_inode (mkInode bucketLeafFlag 0 key empty_bucket_value) (inodeList_ v)).
    rewrite Hl', Hm. apply lookup_insert_eq. }
  split; [exact Hcb|]. unfold putEmptyBucket.
  erewrite bindM_ok by (by apply get_bucket_ok). cbn beta.
  erewrite bindM_ok by apply new_bucket_ok. cbn beta. fold loc.
  erewrite bindM_ok by apply new_node_ok. cbn beta.
  change (fresh_key (w_nodes (with_bucket loc (Bucket_new (tx_ bv0)) w))) with r.
  erewrite bindM_ok by (apply upd_bucket_ok, bucket_of_with). cbn beta.
  match goal with |- (_ ≫= _) ?x = _ => assert (x = w3) as -> end.
  { unfold w3, with_bucket, with_node, wset_w_buckets, wset_w_nodes. cbn. by rewrite insert_insert_eq. }
  erewrite bindM_ok; cycle 1.
  { unfold Bucket_write. erewrite bindM_ok by (apply get_bucket_ok, bucket_of_with). cbn beta.
    erewrite bindM_ok by (by apply lift_ok). cbn beta.
    erewrite bindM_ok by (apply get_node_ok; apply the_ok; apply lookup_insert_eq). cbn beta.
    erewrite bindM_ok by apply gets_ok. cbn beta. apply lift_ok, Bucket_bytes_empty. }
  cbn beta. erewrite bindM_ok by exact Hnode. cbn beta iota.
  erewrite bindM_ok by exact Hput. cbn beta.
  erewrite bindM_ok by (apply upd_bucket_ok, Hlb4). cbn beta. fold w5.
  erewrite bindM_ok by exact Hget. cbn beta. reflexivity.
Qed.

(** Every use of [c] that looks at its contents is a use after free: [get],
    [put] and [remove] of keys and values of valid sizes, the cursor, walks,
    and the operations on buckets in it. *)
Record unusable `{Env} (w : World) (c : bptr) : Prop := {
  un_get : forall key, Bucket_get c key w = Err UseAfterFree;
  un_put : forall key value, 0 < length_ key <= MAXKEYSIZE -> length_ value <= MAXVALUESIZE ->
    Bucket_put c key value w = Err UseAfterFree;
  un_remove : forall key, 0 < length_ key -> Bucket_remove c key w = Err UseAfterFree;
  un_cursor : forall key, seek w c key = Err UseAfterFree /\ first w c = Err UseAfterFree /\ last w c = Err UseAfterFree;
  un_walk : forall fn, for_each c fn w = Err UseAfterFree;
  un_open : forall key, getBucketByName c key w = Err UseAfterFree;
  un_create : forall key, 0 < length_ key -> createBucket c key w = Err UseAfterFree;
}.

(** A bucket whose inline page is gone cannot be used. *)
Lemma dangling_unusable `{Env} w c t tv :
  bucket_of w c = Ok (dangling_bucket t) -> tx_of w t = Ok tv -> db_ tv = true -> writable_ tv = true ->
  (0 < env_fuel)%nat -> unusable w c.
Proof.
  intros Hc Ht Hd Hwr Hf.
  assert (forall w', bucket_of w' c = Ok (dangling_bucket t) -> forall key,
    seek w' c key = Err UseAfterFree /\ first w' c = Err UseAfterFree /\ last w' c = Err UseAfterFree) as Hcur.
  { intros w' Hc' key. unfold seek, do_seek, first, last, Cursor.root_ref, getRootPage. rewrite Hc'. cbn [mbind res_bind].
    destruct env_fuel; [lia|]. cbn [search]. unfold getPageNode. by rewrite Hc'. }
  assert (createCursor c w = Ok (tt, with_tx t (count_cursor tv) w)) as Hnew by (by apply (createCursor_ok w c (dangling_bucket t))).
  assert (not_writable c w = Ok (false, w)) as Hw by (by eapply (not_writable_ok w c (dangling_bucket t) tv)).
  assert (forall w' key, bucket_of w' c = Ok (dangling_bucket t) ->
    reads (fun w => seek w c key) w' = Err UseAfterFree) as Hseek.
  { intros w' key Hc'. unfold reads. by rewrite (proj1 (Hcur w' Hc' key)). }
  split.
  - intros key. unfold Bucket_get. erewrite bindM_ok by exact Hnew. cbn beta. by apply bindM_err, Hseek.
  - intros key value Hk Hv. unfold Bucket_put. erewrite bindM_ok by exact Hw. cbn beta.
    rewrite (proj2 (Z.eqb_neq _ _)), (proj2 (Z.ltb_ge _ _)), (proj2 (Z.ltb_ge _ _)) by lia. cbn [orb].
    erewrite bindM_ok by exact Hnew. cbn beta. by apply bindM_err, Hseek.
  - intros key Hk. unfold Bucket_remove. erewrite bindM_ok by exact Hw. cbn beta.
    rewrite (proj2 (Z.eqb_neq _ _)) by lia. cbn [orb].
    erewrite bindM_ok by exact Hnew. cbn beta. by apply bindM_err, Hseek.
  - intros key. by apply Hcur.
  - intros fn. unfold for_each.
    erewrite bindM_ok by (apply (reads_ok (bucket_db c)); unfold bucket_db; rewrite Hc; cbn; rewrite Ht; cbn; by rewrite Hd).
    cbn beta. cbn [negb]. erewrite bindM_ok by exact Hnew. cbn beta. apply bindM_err. unfold reads.
    by rewrite (proj1 (proj2 (Hcur (with_tx t (count_cursor tv) w) Hc Item_empty))).
  - intros key. unfold getBucketByName. erewrite bindM_ok by (apply get_bucket_ok; exact Hc). cbn beta.
    change (buckets_ (dangling_bucket t)) with (∅ : gmap (list byte) bptr). rewrite lookup_empty.
    erewrite bindM_ok by exact Hnew. cbn beta. by apply bindM_err, Hseek.
  - intros key Hk. unfold createBucket. erewrite bindM_ok by exact Hw. cbn beta.
    rewrite (proj2 (Z.eqb_neq _ _)) by lia. cbn [orb]. by apply bindM_err, Hseek.
Qed.

(** [createBucket] of a new name in a bucket whose root is a leaf in memory:
    the bucket it returns keeps its inline page in the value [openBucket] was
    passed by copy, which is destroyed before it returns. *)
Lemma createBucket_in_leaf `{Env} w b n v bv tv mt key :
  leaf_bucket_at w b n v bv tv mt -> (0 < env_fuel)%nat ->
  Z.of_nat (length (inodeList_ v)) < 2 ^ 31 - 1 -> Item_wf key -> 0 < length_ key ->
  inode_map (inodeList_ v) !! data_ key = None -> buckets_ bv !! data_ key = None ->
  exists c w', createBucket b key w = Ok (Some c, w') /\ unusable w' c.
Proof.
  intros Hlb Hf Hlen [Hkl _] Hk Hnone Hnb.
  destruct (leaf_bucket_seek _ _ _ _ _ _ _ Hlb key Hf) as (i&found&Hspec&Hseek).
  pose proof (search_found _ key i found Hspec) as Hfound.
  destruct found; [destruct Hfound as (x&_&_&?); congruence|]. destruct Hfound as [_ Hgt].
  set (loc := fresh_key (w_buckets w)). set (r := fresh_key (w_nodes w)).
  assert (loc <> b) as Hloc by (by eapply fresh_bucket_ne, Hlb).
  assert (r <> n) as Hrn by (by eapply fresh_node_ne, Hlb).
  set (w3 := with_bucket loc (bset_rootNode_ (Some r) (Bucket_new (tx_ bv)))
    (with_node r (markLeaf (Node_new loc None)) w)).
  assert (leaf_bucket_at w3 b n v bv tv mt) as Hlb3.
  { apply leaf_bucket_other_bucket; [done|]. by apply leaf_bucket_other_node. }
  assert (data_ key ∉ ikeys (inodeList_ v)) as Habs by (by eapply search_spec_not_found).
  destruct (putEmptyBucket_ok w b bv key [mkRef None (Some n) i] [mkRef None (Some n) i] n v bv tv mt w3) as (Hcb&Hput);
    [apply Hlb|by eapply leaf_bucket_getNode|exact Hlb3|done|done|done|done|done|].
  set (w5 := with_bucket b _ _) in Hcb, Hput. set (c := fresh_key (w_buckets w5)) in *.
  assert (c <> loc) as Hcl.
  { intros Hc. pose proof (fresh_key_None (w_buckets w5)) as Hfr. fold c in Hfr. rewrite Hc in Hfr. cbn in Hfr.
    by rewrite lookup_insert_ne, lookup_insert_eq in Hfr by (by apply not_eq_sym). }
  eexists c, _. split.
  - unfold createBucket. erewrite bindM_ok by (by eapply leaf_bucket_writable). cbn beta.
    rewrite (proj2 (Z.eqb_neq _ _)) by lia. cbn [orb].
    erewrite bindM_ok by (by apply (reads_ok (fun w => seek w b key))). cbn beta iota.
    replace (Item_eqb _ key) with false; cycle 1.
    { symmetry. apply bytes_eqb_neq. destruct (inodeList_ v !! Z.to_nat i) as [x|] eqn:Hx; cbn.
      - intros He. specialize (Hgt x eq_refl). rewrite He in Hgt. by apply (irreflexivity bytes_lt) in Hgt.
      - intros He. rewrite <-He in Hkl. cbn in Hkl. lia. }
    exact Hput.
  - eapply (dangling_unusable _ c (tx_ bv)); [| | | |done].
    + unfold bucket_of. cbn. rewrite lookup_delete_ne, lookup_insert_ne, lookup_insert_eq by (by apply not_eq_sym). done.
    + apply the_ok, lookup_insert_eq.
    + apply Hlb.
    + apply Hlb.
Qed.

(** [deleteBucket] refuses to delete a sub-bucket that exists, because its
    test of the flag lacks a negation: it returns -1 and the entry stays. *)
Lemma deleteBucket_refuses `{Env} fuel w b l key x :
  leaf_bucket w b l -> (0 < env_fuel)%nat ->
  inode_map l !! data_ key = Some x -> has_flag (i_flag x) bucketLeafFlag = true ->
  exists w', deleteBucket (S fuel) b key w = Ok (-1, w') /\ leaf_bucket w' b l.
Proof.
  intros (n&v&bv&tv&mt&Hlb&->) Hf Hx Hflag.
  destruct (leaf_bucket_cursor _ _ _ _ _ _ _ Hlb) as (w1&tv1&Hcur&Hlb1&_&_).
  destruct (leaf_bucket_seek _ _ _ _ _ _ _ Hlb1 key Hf) as (i&found&Hspec&Hseek).
  pose proof (search_found _ key i found Hspec) as Hfound.
  destruct found; [|destruct Hfound; congruence].
  destruct Hfound as (y&Hy&Hky&Hy'). rewrite Hx in Hy'. injection Hy' as <-.
  exists w1. split; [|by exists n, v, bv, tv1, mt]. cbn [deleteBucket].
  erewrite bindM_ok by (by eapply leaf_bucket_writable). cbn beta iota.
  erewrite bindM_ok by exact Hcur. cbn beta.
  erewrite bindM_ok by (by apply (reads_ok (fun w => seek w b key))). cbn beta iota.
  rewrite Hy. cbn. rewrite Hflag, orb_true_r. done.
Qed.

(** ** Walks in order *)

(** Counting a cursor changes nothing a walk reads. *)
Lemma LeafView_with_tx w t tv page node es :
  LeafView w page node es -> LeafView (with_tx t tv w) page node es.
Proof. intros []. by split. Qed.

Lemma BranchView_with_tx w t tv page node ks ids :
  BranchView w page node ks ids -> BranchView (with_tx t tv w) page node ks ids.
Proof. intros []. by split. Qed.

Lemma getPageNode_with_tx w t tv tv' b id :
  tx_of w t = Ok tv -> metaData_ tv' = metaData_ tv -> dirtyPageTable_ tv' = dirtyPageTable_ tv ->
  getPageNode (with_tx t tv' w) b id = getPageNode w b id.
Proof.
  intros Ht Hm Hd. unfold getPageNode. change (bucket_of (with_tx t tv' w) b) with (bucket_of w b).
  destruct (bucket_of w b) as [bv|]; [|done]. cbn [mbind res_bind].
  destruct (root (bucketHeader_ bv) =? 0); [done|]. destruct (nodes_ bv !! id); [done|].
  assert (getPage (with_tx t tv' w) (tx_ bv) id = getPage w (tx_ bv) id) as ->; [|done].
  unfold getPage. destruct (decide (t = tx_ bv)) as [->|Hne].
  - rewrite tx_of_with, Ht. cbn [mbind res_bind]. by rewrite Hm, Hd.
  - by rewrite tx_of_with_ne.
Qed.

Lemma rep_with_tx w t tv tv' b h : forall id ls,
  tx_of w t = Ok tv -> metaData_ tv' = metaData_ tv -> dirtyPageTable_ tv' = dirtyPageTable_ tv ->
  rep w b h id ls -> rep (with_tx t tv' w) b h id ls.
Proof.
  induction h as [|h IH]; intros id ls Ht Hm Hd (node&page&Hpn&Hr); exists node, page;
    (split; [by rewrite (getPageNode_with_tx w t tv)|]).
  - destruct Hr as (es&Hv&->). exists es. split; [by apply LeafView_with_tx|done].
  - destruct Hr as (ks&ids&lss&Hv&Hne&Hall&->). exists ks, ids, lss.
    split_and!; [by apply BranchView_with_tx|done| |done].
    eapply Forall2_impl; [exact Hall|]. intros. by apply IH.
Qed.

(** The first result that is not 0, in order. *)
Definition first_nonzero (rs : list Z) : Z := default 0 (head (filter (fun r => r <> 0) rs)).

Lemma for_each_loop_spec `{Env} w b h f n : forall fuel es s kv,
  positioned w b h n s kv es -> (h < env_fuel)%nat -> (n < env_fuel)%nat -> (length es < fuel)%nat ->
  Forall (fun e => length_ (kv_key e) <> 0) es ->
  for_each_loop fuel b (fun k v => ret (f k v)) s kv w =
    Ok (first_nonzero ((fun e => f (kv_key e) (kv_value e)) <$> es), w).
Proof.
  induction fuel as [|fuel IH]; intros es s kv Hpos Hh Hn Hlen Hkeys; [lia|]. cbn [for_each_loop].
  destruct es as [|e es]; [by destruct Hpos as [-> ->]|].
  destruct Hpos as (->&es'&ls'&Hon&Hcur&Hrest&Hle). apply Forall_cons in Hkeys as [Hk Hkeys].
  rewrite (proj2 (Z.eqb_neq _ _) Hk). erewrite bindM_ok by reflexivity. cbn beta.
  unfold first_nonzero. cbn [fmap list_fmap]. rewrite filter_cons.
  destruct (Z.eqb_spec (f (kv_key e) (kv_value e)) 0) as [Hz|Hz]; cbn [negb].
  - rewrite decide_False by tauto.
    destruct (do_next_spec w b h env_fuel env_fuel s es' ls' KV_reset Hon Hh) as (s2&kv2&Hnext&Hpos2); [lia|].
    erewrite bindM_ok by (by apply (reads_ok (fun w => next w b s))). cbn beta iota.
    rewrite Hrest in Hpos2. apply IH; try done; [|cbn in Hlen; lia]. by eapply positioned_mono.
  - by rewrite decide_True.
Qed.

(** C25. [Bucket::for_each] calls its function on the entries of the whole tree
    in order, stops at the first result that is not 0 and returns it, and
    returns 0 after the last entry (for a function that does not change the
    state, over entries whose keys are not empty). *)
Theorem for_each_in_order `{Env} w b bv tv h ls f :
  bucket_of w b = Ok bv -> tx_of w (tx_ bv) = Ok tv -> db_ tv = true ->
  rep w b h (root (bucketHeader_ bv)) ls -> (h < env_fuel)%nat -> (length ls < env_fuel)%nat ->
  (length (concat ls) < env_fuel)%nat ->
  Forall (fun e => length_ (kv_key e) <> 0) (concat ls) ->
  exists w', for_each b (fun k v => ret (f k v)) w =
    Ok (first_nonzero ((fun e => f (kv_key e) (kv_value e)) <$> concat ls), w').
Proof.
  intros Hb Ht Hdb Hrep Hh Hls Hlen Hkeys.
  set (w1 := with_tx (tx_ bv) (tset_cursorCount (wrap64 (cursorCount tv + 1)) tv) w).
  exists w1. unfold for_each.
  erewrite bindM_ok by (apply (reads_ok (bucket_db b)); unfold bucket_db; rewrite Hb; cbn; by rewrite Ht; cbn; rewrite Hdb).
  cbn beta iota. cbn [negb].
  erewrite bindM_ok; cycle 1.
  { unfold createCursor, increaseCurserCount. erewrite bindM_ok by (by apply get_bucket_ok).
    apply (upd_tx_ok _ (fun v => tset_cursorCount (wrap64 (cursorCount v + 1)) v)). exact Ht. }
  cbn beta. fold w1.
  assert (rep w1 b h (root (bucketHeader_ bv)) ls) as Hrep1 by (by eapply rep_with_tx).
  destruct (first_spec w1 b h (root (bucketHeader_ bv)) ls) as (s&kv&Hfirst&Hpos); try done.
  { unfold getRootPage. change (bucket_of w1 b) with (bucket_of w b). by rewrite Hb. }
  erewrite bindM_ok by (by apply (reads_ok (fun w => first w b))). cbn beta iota.
  by eapply for_each_loop_spec.
Qed.

(** ** Witnesses *)

Definition ex_root_bucket : Bucket :=
  bset_nodes_ {[5 := 0%nat]} (bset_bucketHeader_ {| root := 5; sequence := 0 |} (Bucket_new 0%nat)).
Definition ex_bucket_world (v : Node) : World :=
  with_tx 0%nat ex_tx (with_node 0%nat v (with_bucket 0%nat ex_root_bucket empty_world)).
(** A leaf with a key and then a sub-bucket. *)
Definition ex_sub_leaf : Node :=
  set_inodeList [ex_inode Byte.x01; mkInode bucketLeafFlag 0 (Item_of_string [Byte.x05]) empty_bucket_value]
    (ex_leaf []).

Lemma ex_leaf_bucket v :
  isLeaf_ v = true -> bucket_ v = 0%nat -> keys_sorted (inodeList_ v) ->
  Z.of_nat (length (inodeList_ v)) < 2 ^ 31 ->
  leaf_bucket_at (ex_bucket_world v) 0%nat 0%nat v ex_root_bucket ex_tx ex_meta.
Proof. intros. by split. Qed.

Lemma ex_leaf_bucket' v :
  isLeaf_ v = true -> bucket_ v = 0%nat -> keys_sorted (inodeList_ v) ->
  Z.of_nat (length (inodeList_ v)) < 2 ^ 31 ->
  leaf_bucket (ex_bucket_world v) 0%nat (inodeList_ v).
Proof. intros. eexists _, _, _, _, _. split; [by apply ex_leaf_bucket|done]. Qed.

(** In a plain leaf, and on the sub-bucket of another. *)
Lemma leaf_bucket_refines_map_witness :
  let w := ex_bucket_world (ex_leaf ex_keys) in let ws := ex_bucket_world ex_sub_leaf in
  let key := Item_of_string [Byte.x04] in let sub := Item_of_string [Byte.x05] in
  let value := Item_of_string [Byte.x63] in
  (exists w' l', Bucket_put (H:=sample_env) 0%nat key value w = Ok (0, w') /\ leaf_bucket w' 0%nat l' /\
     inode_map l' = <[data_ key := mkInode 0 0 key value]> (inode_map (ex_inode <$> ex_keys))) /\
  Bucket_put (H:=sample_env) 0%nat sub value ws = Err LogFatal /\
  (exists w', Bucket_get (H:=sample_env) 0%nat sub ws = Ok (Item_empty, w') /\ leaf_bucket w' 0%nat (inodeList_ ex_sub_leaf)).
Proof.
  intros w ws key sub value.
  destruct (leaf_bucket_refines_map (H:=sample_env) w 0%nat (inodeList_ (ex_leaf ex_keys)) key value) as (Hput&_&_);
    [by apply ex_leaf_bucket'; [| |ex_sorted|]|cbn; lia|done..|].
  destruct (leaf_bucket_refines_map (H:=sample_env) ws 0%nat (inodeList_ ex_sub_leaf) sub value) as (Hsub&Hget&_);
    [by apply ex_leaf_bucket'; [| |ex_sorted|]|cbn; lia|done..|].
  assert (is_bucket (inode_map (inodeList_ ex_sub_leaf) !! data_ sub) = true) as E1 by (vm_compute; reflexivity).
  assert (is_bucket (inode_map (inodeList_ (ex_leaf ex_keys)) !! data_ key) = false) as E2 by (vm_compute; reflexivity).
  rewrite E1 in Hsub, Hget. rewrite E2 in Hput. exact (conj Hput (conj Hsub Hget)).
Defined.


Lemma deleteBucket_refuses_witness :
  exists w', deleteBucket (H:=sample_env) 3 0%nat (Item_of_string [Byte.x05]) (ex_bucket_world ex_sub_leaf)
      = Ok (-1, w') /\ leaf_bucket w' 0%nat (inodeList_ ex_sub_leaf).
Proof.
  apply (deleteBucket_refuses (H:=sample_env) 2 _ _ (inodeList_ ex_sub_leaf) _
    (mkInode bucketLeafFlag 0 (Item_of_string [Byte.x05]) empty_bucket_value)).
  - by apply ex_leaf_bucket'; [| |ex_sorted|].
  - cbn; lia.
  - reflexivity.
  - reflexivity.
Defined.

Lemma for_each_in_order_witness :
  exists w', for_each (H:=sample_env) 0%nat (fun k _ => ret (if Item_eqb k (ex_item Byte.x66) then 7 else 0))
      ex_tree_world =
    Ok (first_nonzero ((fun e => if Item_eqb (kv_key e) (ex_item Byte.x66) then 7 else 0) <$> concat ex_leaves), w').
Proof.
  apply (for_each_in_order (H:=sample_env) ex_tree_world 0%nat ex_tree_bucket ex_tx 1 ex_leaves
    (fun k _ => if Item_eqb k (ex_item Byte.x66) then 7 else 0)).
  - reflexivity.
  - reflexivity.
  - reflexivity.
  - apply srep_rep, ex_srep.
  - cbn; lia.
  - cbn; lia.
  - cbn; lia.
  - by repeat constructor.
Defined.
