(* ===== verification/BranchPages.v ===== *)
(** * BranchPages.v: writing below a branch page

    [Bucket::getNode] (bucket.cc) keeps the first page it reads in [page_] and
    reads that page again for every other id.  Below a branch page it can
    therefore not make the node of a leaf, and the operations that write come
    through it. *)
From S2P Require Import Bytes.
From S2P Require Import BinSearch.
From S2P Require Import Page.
From S2P Require Import Meta.
From S2P Require Import Node.
From S2P Require Import World.
From S2P Require Import Pager.
From S2P Require Import Tree.
From S2P Require Import Cursor.
From S2P Require Import Traversal.
From S2P Require Import Termination.
From S2P Require Import Bucket.

(** A bucket whose root is the branch page [p] in the file, nothing of it
    being in memory yet; [nv] is what [Node::read] makes of the page. *)
Record branch_root `{Env} (w : World) (b : bptr) (bv : Bucket) (tv : Tx) (p : PagePtr) (nv : Node) : Prop := {
  br_bucket : bucket_of w b = Ok bv;
  br_nodes : nodes_ bv = ∅;
  br_nopage : page_ bv = None;
  br_noparent : Bucket_parentNode_ bv = None;
  br_tx : tx_of w (tx_ bv) = Ok tv;
  br_db : db_ tv = true;
  br_writable : writable_ tv = true;
  br_getPage : getPage w (tx_ bv) (root (bucketHeader_ bv)) = Ok (Some p);
  br_id : on_page w p Page_id = Ok (root (bucketHeader_ bv));
  br_read : on_page w p (fun m o => Node.read (Node_new b None) m o) = Ok nv;
  br_branch : isLeaf_ nv = false;
  br_own : bucket_ nv = b;
}.

(** A bucket whose [page_] is [p] and whose nodes are all read from it. *)
Record copies (w : World) (b : bptr) (bv : Bucket) (p : PagePtr) (nv : Node) : Prop := {
  cp_bucket : bucket_of w b = Ok bv;
  cp_page : page_ bv = Some p;
  cp_noparent : Bucket_parentNode_ bv = None;
  cp_nodes : forall id c, nodes_ bv !! id = Some c -> node_of w c = Ok nv;
  cp_read : on_page w p (fun m o => Node.read (Node_new b None) m o) = Ok nv;
}.

(** One more node read from [p]. *)
Lemma copies_materialise w b bv p id nv :
  (forall id c, nodes_ bv !! id = Some c -> node_of w c = Ok nv) -> Bucket_parentNode_ bv = None ->
  on_page w p (fun m o => Node.read (Node_new b None) m o) = Ok nv ->
  let n := fresh_key (w_nodes w) in
  copies (with_bucket b (materialised p id n bv) (with_node n nv w)) b (materialised p id n bv) p nv.
Proof.
  intros Hnodes Hpar Hread n. split; try done; [apply bucket_of_with|].
  intros id' c. cbn. rewrite lookup_insert_Some. intros [[_ <-]|[_ Hc]]; [apply node_of_with|].
  apply Hnodes in Hc. assert (n <> c) as Hne by (by eapply fresh_node_ne).
  change (node_of (with_node n nv w) c = Ok nv). by rewrite node_of_with_ne.
Qed.

(** A child of such a node comes out as one more copy, or as one of those
    there are. *)
Lemma copies_childAt w b bv p nv n i x :
  copies w b bv p nv -> node_of w n = Ok nv -> isLeaf_ nv = false -> bucket_ nv = b ->
  0 <= i -> inodeList_ nv !! Z.to_nat i = Some x ->
  exists c w2 bv2, childAt n i w = Ok (Some c, w2) /\ node_of w2 c = Ok nv /\ copies w2 b bv2 p nv.
Proof.
  intros Hcp Hn Hbranch Hown Hi Hx. pose proof Hcp as [Hb Hp Hpar Hnodes Hread].
  unfold childAt. erewrite bindM_ok by (apply get_node_ok; exact Hn). cbn beta.
  rewrite Hbranch, (proj2 (Z.ltb_ge i 0)) by done. rewrite Hx, Hown.
  destruct (nodes_ bv !! i_pageId x) as [c|] eqn:Hc.
  - exists c, w, bv. split; [|split; [by eapply Hnodes|done]]. unfold getNode.
    erewrite bindM_ok; [reflexivity|]. erewrite bindM_ok by (apply get_bucket_ok; exact Hb). cbn beta. by rewrite Hc.
  - eexists _, _, _. split; [|split; [|by apply (copies_materialise w b bv p (i_pageId x) nv)]].
    + erewrite bindM_ok; [reflexivity|]. apply (getNode_materialise w b bv p); try done. by left.
    + apply node_of_with.
Qed.

(** The indices of a path are those of entries of [nv]. *)
Definition indices_in (nv : Node) (path : elements) : bool :=
  forallb (fun r => index_ r <? Z.of_nat (length (inodeList_ nv))) path.

(** The way down from a copy leads from copy to copy. *)
Lemma descend_copies b p nv path : isLeaf_ nv = false -> bucket_ nv = b ->
  Forall (fun r => 0 <= index_ r < 2 ^ 31) path ->
  forall w bv n, copies w b bv p nv -> node_of w n = Ok nv ->
  if indices_in nv path then exists c w2, descend n path w = Ok (c, w2) /\ node_of w2 c = Ok nv
  else descend n path w = Err OutOfBounds.
Proof.
  intros Hbranch Hown. induction 1 as [|r path Hr _ IH]; intros w bv n Hcp Hn; cbn [indices_in forallb].
  { by exists n, w. }
  cbn [descend]. erewrite bindM_ok by (apply get_node_ok; exact Hn). cbn beta. rewrite Hbranch.
  erewrite bindM_ok by reflexivity. cbn beta.
  replace (to_int (index_ r)) with (index_ r)
    by (unfold to_int; rewrite wrap_id by lia; by rewrite (proj2 (Z.ltb_lt (index_ r) (2 ^ 31))) by lia).
  destruct (Z.ltb_spec (index_ r) (Z.of_nat (length (inodeList_ nv)))) as [Hlt|Hge]; cbn [andb].
  - destruct (lookup_lt_is_Some_2 (inodeList_ nv) (Z.to_nat (index_ r))) as [x Hx]; [lia|].
    destruct (copies_childAt w b bv p nv n (index_ r) x Hcp Hn Hbranch Hown (proj1 Hr) Hx) as (c&w2&bv2&Hchild&Hc&Hcp2).
    specialize (IH w2 bv2 c Hcp2 Hc). fold (indices_in nv path).
    rewrite (bindM_ok _ _ _ _ _ Hchild). cbn beta. rewrite (bindM_ok (lift (deref (Some c))) _ _ c w2) by done.
    cbn beta. exact IH.
  - apply bindM_err. unfold childAt. erewrite bindM_ok by (apply get_node_ok; exact Hn). cbn beta.
    rewrite Hbranch, (proj2 (Z.ltb_ge (index_ r) 0)) by lia. by rewrite lookup_ge_None_2 by lia.
Qed.

(** What [Cursor::getNode] dies of below a branch page: of the assertion that
    the last node is a leaf, unless an index on the way is too large for the
    page that is read in place of each. *)
Definition below_branch_fault (nv : Node) (path : elements) : fault :=
  if indices_in nv path then AssertFailed else OutOfBounds.

Lemma indices_in_path nv mid root : indices_in nv (mid ++ [root]) = indices_in nv (root :: rev mid).
Proof.
  unfold indices_in. rewrite forallb_app. cbn [forallb]. rewrite andb_true_r, andb_comm. f_equal.
  induction mid as [|x mid IH]; [done|]. cbn. rewrite forallb_app, <-IH. cbn. rewrite andb_true_r. apply andb_comm.
Qed.

(** The cursor's [getNode] on a leaf page below the root, [mid] being the
    elements between them. *)
Lemma branch_getNode_faults `{Env} w b bv tv p nv r mid i :
  branch_root w b bv tv p nv -> ref_node r = None ->
  Forall (fun r => 0 <= index_ r < 2 ^ 31) (mid ++ [mkRef (Some p) None i]) ->
  Cursor_getNode b (r :: mid ++ [mkRef (Some p) None i]) w =
    Err (below_branch_fault nv (mid ++ [mkRef (Some p) None i])).
Proof.
  intros [] Hr Hix. set (root := mkRef (Some p) None i) in *. unfold Cursor_getNode. rewrite Hr.
  erewrite bindM_ok by reflexivity. cbn beta iota.
  assert (rev (r :: mid ++ [root]) = (root :: rev mid) ++ [r]) as -> by (cbn; by rewrite rev_app_distr).
  rewrite removelast_last. cbn [app ref_node ref_page deref root].
  erewrite bindM_ok.
  2:{ erewrite bindM_ok by (by apply lift_ok). cbn beta.
      erewrite bindM_ok by (apply (reads_ok (fun w => on_page w p Page_id)); exact br_id0). cbn beta.
      apply (getNode_materialise w b bv p _ None nv); try done; [by rewrite br_nodes0|by right]. }
  cbn beta. fold root.
  pose proof (copies_materialise w b bv p (Meta.root (bucketHeader_ bv)) nv
    ltac:(intros id c; by rewrite br_nodes0) br_noparent0 br_read0) as Hcp.
  assert (Forall (fun r => 0 <= index_ r < 2 ^ 31) (root :: rev mid)) as Hpath.
  { apply Forall_app in Hix as [Hmid Hroot]. constructor; [by inversion Hroot|]. by apply Forall_rev. }
  pose proof (descend_copies b p nv _ br_branch0 br_own0 Hpath _ _ _ Hcp (node_of_with _ _ _)) as Hdesc.
  unfold below_branch_fault. rewrite indices_in_path. destruct (indices_in nv (root :: rev mid)).
  - destruct Hdesc as (c&w2&Hdesc&Hc). rewrite (bindM_ok _ _ _ _ _ Hdesc). cbn beta.
    erewrite bindM_ok by (apply get_node_ok; exact Hc). cbn beta. rewrite br_branch0. reflexivity.
  - by apply bindM_err.
Qed.

(** The same bucket once a cursor is counted. *)
Lemma branch_root_counted `{Env} w b bv tv p nv :
  branch_root w b bv tv p nv -> branch_root (with_tx (tx_ bv) (count_cursor tv) w) b bv (count_cursor tv) p nv.
Proof.
  intros []. split; try done; [apply tx_of_with|].
  revert br_getPage0. unfold getPage. rewrite tx_of_with, br_tx0. done.
Qed.

(** ** Property *)

(** The checks of [put] and [remove] let a writable bucket through. *)
Lemma branch_writable `{Env} w b bv tv p nv :
  branch_root w b bv tv p nv -> not_writable b w = Ok (false, w).
Proof.
  intros []. unfold not_writable.
  erewrite bindM_ok by (apply (reads_ok (bucket_db b)); unfold bucket_db; rewrite br_bucket0; cbn;
    rewrite br_tx0; cbn; by rewrite br_db0).
  cbn beta. erewrite bindM_ok by (apply (reads_ok (bucket_writable b)); unfold bucket_writable; rewrite br_bucket0;
    cbn; rewrite br_tx0; cbn; by rewrite br_writable0). reflexivity.
Qed.

(** C22. Nothing can be written below a branch page.  Take a writable bucket
    whose root is a branch page of the file, none of whose nodes is in memory
    and which has read no page, as before the first write of a transaction to
    it; and a key whose search ends on a leaf page, through a stack of any
    height.  Then neither [put], with a key and a value of valid sizes, nor
    [remove] returns.  [Bucket::getNode] reads the root page again in place of
    every page on the way and of the leaf's, and [Cursor::getNode] dies of its
    assertion that the last node is a leaf, or before that of an index that is
    too large for the root page.  When the key found is that of a sub-bucket
    (for [remove]: when the entry at the position is one) the call ends in
    [LOG(FATAL)] before. *)
Theorem put_below_branch_asserts `{Env} w b bv tv p nv key value r mid i ptr kv :
  branch_root w b bv tv p nv -> 0 < length_ key <= MAXKEYSIZE ->
  seek (with_tx (tx_ bv) (count_cursor tv) w) b key = Ok (r :: mid ++ [mkRef (Some p) None i], ptr, kv) ->
  ref_node r = None -> Forall (fun r => 0 <= index_ r < 2 ^ 31) (mid ++ [mkRef (Some p) None i]) ->
  let f := below_branch_fault nv (mid ++ [mkRef (Some p) None i]) in
  (length_ value <= MAXVALUESIZE ->
   Bucket_put b key value w =
     Err (if Item_eqb (kv_key kv) key && has_flag (kv_flag kv) bucketLeafFlag then LogFatal else f)) /\
  Bucket_remove b key w = Err (if has_flag (kv_flag kv) bucketLeafFlag then LogFatal else f).
Proof.
  intros Hbr Hk Hseek Hr Hix f. pose proof Hbr as [].
  pose proof (branch_getNode_faults _ b bv _ p nv r mid i (branch_root_counted _ _ _ _ _ _ Hbr) Hr Hix) as Hget.
  split; [intros Hv; unfold Bucket_put|unfold Bucket_remove];
    (erewrite bindM_ok by (by eapply branch_writable); cbn beta;
     rewrite (proj2 (Z.eqb_neq (length_ key) 0)) by lia;
     try rewrite (proj2 (Z.ltb_ge MAXKEYSIZE _)), (proj2 (Z.ltb_ge MAXVALUESIZE _)) by lia;
     cbn [orb]; erewrite bindM_ok by (by apply createCursor_ok); cbn beta;
     erewrite bindM_ok by (apply (reads_ok (fun w => seek w b key)); exact Hseek); cbn beta iota).
  - destruct (_ && _); [done|]. by apply bindM_err.
  - destruct (has_flag _ _); [done|]. by apply bindM_err.
Qed.

(** ** Witness: a root page with two leaves *)

(** A branch page 5 with the keys [b] and [f], and leaf pages 6 and 7, in
    pages of 64 bytes. *)
Definition ex_branch_file : list byte :=
  let page id flag count := le_split 8 id ++ le_split 2 flag ++ le_split 2 count ++ le_split 4 0 in
  let leaf id k := page id 2 1 ++ le_split 4 0 ++ le_split 4 16 ++ le_split 4 1 ++ le_split 4 1
    ++ [k; Byte.x76] ++ replicate 30 Byte.x00 in
  replicate 320 Byte.x00
  ++ page 5 1 2 ++ le_split 4 32 ++ le_split 4 1 ++ le_split 8 6 ++ le_split 4 17 ++ le_split 4 1 ++ le_split 8 7
     ++ [Byte.x62; Byte.x66] ++ replicate 14 Byte.x00
  ++ leaf 6 Byte.x62 ++ leaf 7 Byte.x66.

Definition ex_branch_bucket : Bucket := bset_bucketHeader_ {| root := 5; sequence := 0 |} (Bucket_new 0%nat).
Definition ex_branch_tx : Tx := tset_metaData_ (Some (meta_set_total 8 ex_meta)) ex_tx.
Definition ex_branch_world : World :=
  wset_w_buckets {[0%nat := ex_branch_bucket]} (with_tx 0%nat ex_branch_tx
    (wset_w_map (Some 512) (wset_w_file ex_branch_file
      (wset_w_db (dset_DB_pageSize_ 64 sample_db) empty_world)))).
Definition ex_branch_page : PagePtr := PMap (w_gen ex_branch_world) 320.
Definition ex_branch_node : Node :=
  match on_page ex_branch_world ex_branch_page (fun m o => Node.read (Node_new 0%nat None) m o) with
  | Ok nv => nv
  | Err _ => Node_new 0%nat None
  end.

Example ex_branch_reads :
  inodeList_ ex_branch_node = [mkInode 0 6 (ex_item Byte.x62) Item_empty; mkInode 0 7 (ex_item Byte.x66) Item_empty].
Proof. vm_compute. reflexivity. Qed.

Lemma put_below_branch_asserts_witness :
  Bucket_put (H:=sample_env) 0%nat (ex_item Byte.x64) (ex_item Byte.x01) ex_branch_world = Err AssertFailed /\
  Bucket_remove (H:=sample_env) 0%nat (ex_item Byte.x64) ex_branch_world = Err AssertFailed.
Proof.
  destruct (seek (H:=sample_env) (with_tx 0%nat (count_cursor ex_branch_tx) ex_branch_world) 0%nat (ex_item Byte.x64))
    as [[[s ptr] kv]|] eqn:E; [|vm_compute in E; discriminate E].
  vm_compute in E. injection E as <- <- <-.
  destruct (put_below_branch_asserts (H:=sample_env) ex_branch_world 0%nat ex_branch_bucket ex_branch_tx ex_branch_page
    ex_branch_node (ex_item Byte.x64) (ex_item Byte.x01) (mkRef (Some (PMap 1 384)) None 1) [] 0 None KV_reset)
    as [Hput Hrem].
  - split; vm_compute; reflexivity.
  - vm_compute. split; [reflexivity|discriminate].
  - vm_compute. reflexivity.
  - reflexivity.
  - constructor; [|constructor]. cbn. lia.
  - split; [apply Hput; vm_compute; discriminate|exact Hrem].
Defined.

(** Cursors terminate in this bucket: what [cursor_terminates] asks of a tree
    holds of branch pages in the file. *)
Lemma ex_branch_reachable id : reachable ex_branch_world 0%nat 5 id -> id = 5 \/ id = 6 \/ id = 7.
Proof.
  induction 1 as [|id node page i n c _ IH Hg Hl Hn Hi Hc]; [by left|].
  destruct IH as [-> | [-> | ->]]; vm_compute in Hg; injection Hg as <- <-; vm_compute in Hl; [|discriminate Hl..].
  vm_compute in Hn. injection Hn as <-. assert (i = 0 \/ i = 1) as [-> | ->] by lia;
    vm_compute in Hc; injection Hc as <-; tauto.
Qed.

Lemma ex_branch_acyclic : acyclic ex_branch_world 0%nat 5 ex_rank 2.
Proof.
  split; [| | |lia].
  - intros id node page i n c Hre%ex_branch_reachable Hg Hl Hn Hi Hc.
    destruct Hre as [-> | [-> | ->]]; vm_compute in Hg; injection Hg as <- <-; vm_compute in Hl; [|discriminate Hl..].
    vm_compute in Hn. injection Hn as <-. assert (i = 0 \/ i = 1) as [-> | ->] by lia;
      vm_compute in Hc; injection Hc as <-; vm_compute; lia.
  - intros id node page i Hre%ex_branch_reachable Hg Hl. exists 2.
    destruct Hre as [-> | [-> | ->]]; vm_compute in Hg; injection Hg as <- <-; vm_compute in Hl; [|discriminate Hl..].
    split; [by vm_compute|lia].
  - intros id node page i n Hre%ex_branch_reachable Hg Hn.
    destruct Hre as [-> | [-> | ->]]; vm_compute in Hg; injection Hg as <- <-; vm_compute in Hn; injection Hn as <-; lia.
Qed.
