(* ===== verification/Tx.v ===== *)
(** * Tx.v: transactions (src/src/Bolt/tx.h, tx.cc)

    A transaction works on a copy of the meta record and a root bucket; a
    write transaction's pages stay in memory, in [dirtyPageTable_], until
    [commit] writes them, then the free list, then the meta page. *)
From S2P Require Import Bytes.
From S2P Require Import Page.
From S2P Require Import FreeList.
From S2P Require Import Meta.
From S2P Require Import Node.
From S2P Require Import World.
From S2P Require Import Disk.
From S2P Require Import Pager.
From S2P Require Import Tree.
From S2P Require Import Cursor.
From S2P Require Import Bucket.

(** [Tx::Tx()] *)
Definition Tx_new : Tx :=
  {| writable_ := false; managed_ := false; db_ := false; metaData_ := None; rootBucket_ := 0%nat;
     dirtyPageTable_ := ∅; pageCount := 0; pageAlloc := 0; cursorCount := 0 |}.

Definition meta_set_txid (z : Z) (mt : meta) : meta :=
  {| magic_ := magic_ mt; version_ := version_ mt; pageSize_ := pageSize_ mt;
     flags_ := flags_ mt; root_ := root_ mt; freeListPageNumber_ := freeListPageNumber_ mt;
     totalPageNumber_ := totalPageNumber_ mt; txid_ := z; checksum_ := checksum_ mt |}.
Definition meta_set_root (z : Z) (mt : meta) : meta :=
  {| magic_ := magic_ mt; version_ := version_ mt; pageSize_ := pageSize_ mt;
     flags_ := flags_ mt; root_ := {| root := z; sequence := sequence (root_ mt) |};
     freeListPageNumber_ := freeListPageNumber_ mt;
     totalPageNumber_ := totalPageNumber_ mt; txid_ := txid_ mt; checksum_ := checksum_ mt |}.
Definition meta_set_freelist (z : Z) (mt : meta) : meta :=
  {| magic_ := magic_ mt; version_ := version_ mt; pageSize_ := pageSize_ mt;
     flags_ := flags_ mt; root_ := root_ mt; freeListPageNumber_ := z;
     totalPageNumber_ := totalPageNumber_ mt; txid_ := txid_ mt; checksum_ := checksum_ mt |}.

Section env.
Context `{Env}.

(** [init(db)] *)
Definition Tx_init (t : txptr) : M unit :=
  b ← new_bucket (Bucket_new t);
  _ ← upd_tx t (tset_rootBucket_ b);
  _ ← upd_tx t (tset_db_ true);
  mt ← reads DB_getMeta;
  _ ← upd_tx t (tset_metaData_ (Some (clone mt)));
  _ ← upd_bucket b (bset_bucketHeader_ (root_ mt));
  v ← get_tx t;
  if writable_ v then
    mt ← lift (deref (metaData_ v));
    upd_tx t (tset_metaData_ (Some (meta_set_txid (wrap64 (txid_ mt + 1)) mt)))
  else ret tt.

(** [upd_meta t f] changes [metaData_] of [t]. *)
Definition upd_meta (t : txptr) (f : meta -> meta) : M unit :=
  mt ← reads (fun w => tx_meta w t); upd_tx t (tset_metaData_ (Some (f mt))).

(** [rollback()] *)
Definition rollback (t : txptr) : M Z :=
  v ← get_tx t;
  if managed_ v then ret (-1)
  else if negb (db_ v) then ret (-1)
  else if writable_ v then
    mt ← lift (deref (metaData_ v));
    _ ← upd_db (fun d => dset_freeList_ (FreeList.rollback (freeList_ d) (txid_ mt)) d);
    d ← get_db;
    p ← gets (fun w => getPagePtr w (freeListPageNumber_ mt));
    f ← page_read p (FreeList.reload (freeList_ d));
    _ ← upd_db (dset_freeList_ f);
    ret 0
  else ret 0.

(** [std::sort(pages.begin(), pages.end())], by address *)
Definition page_le (a b : PagePtr) : Prop := env_page_addr a <= env_page_addr b.
#[export] Instance page_le_dec a b : Decision (page_le a b).
Proof. unfold page_le. apply _. Defined.
Definition sort_pages (l : list PagePtr) : list PagePtr := merge_sort page_le l.

(** The loop of [write]: each page at its place in the file. *)
Fixpoint write_pages (l : list PagePtr) : M bool :=
  match l with
  | [] => ret true
  | p :: l =>
      d ← get_db;
      ov ← page_read p Page_overflow;
      id ← page_read p Page_id;
      let length := wrap32 (wrap32 (ov + 1) * DB_pageSize_ d) in
      let offset := wrap64 (id * DB_pageSize_ d) in
      bs ← page_read p (fun m o => slice m o length);
      n ← writeAt bs offset;
      if negb (n =? length) then ret false else write_pages l
  end.

(** [file_data_sync(fd)] succeeded, or was not asked for. *)
Definition sync_file : M bool :=
  d ← get_db; if NoSync_ d then ret true else syscall Fsync.

(** [write()] *)
Definition Tx_write (t : txptr) : M Z :=
  v ← get_tx t;
  let pages := sort_pages (map_to_list (dirtyPageTable_ v)).*2 in
  _ ← upd_tx t (tset_dirtyPageTable_ ∅);
  ok ← write_pages pages;
  if negb ok then ret (-1)
  else ok ← sync_file; if negb ok then ret (-1) else ret 0.

(** [writeMeta()] *)
Definition writeMeta (t : txptr) : M Z :=
  mt ← reads (fun w => tx_meta w t);
  '(mt, tmp) ← lift (meta_write mt (replicate 4096 Byte.x00) 0);
  _ ← upd_tx t (tset_metaData_ (Some mt));
  id ← lift (Page_id tmp 0);
  n ← writeAt tmp (wrap64 (id * 4096));
  if negb (n =? 4096) then ret (-1)
  else ok ← sync_file; if negb ok then ret (-1) else ret 0.

(** [rollback(); return -1;] *)
Definition give_up_commit (t : txptr) : M Z := _ ← rollback t; ret (-1).

(** [commit] from the free list's page on: it is written in memory, the file
    grows, the dirty pages and then the meta page are written. *)
Definition commit_pages (t : txptr) (total : Z) (page : PagePtr) : M Z :=
  d ← get_db;
  _ ← page_write page (FreeList.write (freeList_ d));
  id ← page_read page Page_id;
  _ ← upd_meta t (meta_set_freelist id);
  mt ← reads (fun w => tx_meta w t);
  d ← get_db;
  g ← (if total <? totalPageNumber_ mt
       then grow (wrap32 (wrap64 (totalPageNumber_ mt + 1) * DB_pageSize_ d)) else ret 0);
  if negb (g =? 0) then give_up_commit t
  else
    r ← Tx_write t;
    if negb (r =? 0) then give_up_commit t
    else
      r ← writeMeta t;
      if negb (r =? 0) then give_up_commit t else ret 0.

(** [commit()] *)
Definition commit (t : txptr) : M Z :=
  v ← get_tx t;
  if managed_ v then ret (-1)
  else if negb (db_ v) || negb (writable_ v) then ret (-1)
  else
    _ ← Bucket_rebalance env_fuel (rootBucket_ v);
    ok ← Bucket_spill env_fuel (rootBucket_ v);
    if negb ok then give_up_commit t
    else
      b ← get_bucket (rootBucket_ v);
      _ ← upd_meta t (meta_set_root (root (bucketHeader_ b)));
      mt ← reads (fun w => tx_meta w t);
      let total := totalPageNumber_ mt in
      old ← gets (fun w => getPagePtr w (freeListPageNumber_ mt));
      _ ← Tx_free (txid_ mt) (Some old);
      d ← get_db;
      page ← Tx_allocate t (wrap32 (FreeList.size (freeList_ d) / 4096 + 1));
      match page with
      | None => give_up_commit t
      | Some page => commit_pages t total page
      end.

(** ** Buckets of a transaction *)

Definition Tx_getBucket (t : txptr) (name : Item) : M (option bptr) :=
  v ← get_tx t; getBucketByName (rootBucket_ v) name.
Definition Tx_createBucket (t : txptr) (name : Item) : M (option bptr) :=
  v ← get_tx t; createBucket (rootBucket_ v) name.
Definition Tx_createBucketIfNotExists (t : txptr) (name : Item) : M (option bptr) :=
  v ← get_tx t; createBucketIfNotExists (rootBucket_ v) name.
(** [Tx::deleteBucket(name)] returns 0 whatever the bucket says. *)
Definition Tx_deleteBucket (t : txptr) (name : Item) : M Z :=
  v ← get_tx t; _ ← deleteBucket env_fuel (rootBucket_ v) name; ret 0.
End env.

(** ** Writing the dirty pages *)

(** The page at [p] is a block with the id [id] and, with its overflow, the
    bytes [bs]. *)
Definition dirty_page (w : World) (p : PagePtr) (id : Z) (bs : list byte) : Prop :=
  exists b m ov, p = PHeap b 0 /\ w_blocks w !! b = Some m /\
    Page_id m 0 = Ok id /\ Page_overflow m 0 = Ok ov /\
    let ps := DB_pageSize_ (w_db w) in
    Z.of_nat (length bs) = (ov + 1) * ps /\ 0 < ps < 2 ^ 32 /\ (ov + 1) * ps < 2 ^ 32 /\ id * ps < 2 ^ 64 /\
    slice m 0 ((ov + 1) * ps) = Ok bs.

(** The bytes of two pages do not meet in the file. *)
Definition apart (ps o n : Z) (id : Z) (bs : list byte) : Prop :=
  o + n <= id * ps \/ id * ps + Z.of_nat (length bs) <= o.

Lemma dirty_page_range w p id bs : dirty_page w p id bs -> 0 <= id /\ 0 < DB_pageSize_ (w_db w).
Proof.
  intros (b&m&ov&_&_&Hid&_&_&?&_). unfold Page_id in Hid. apply load_range in Hid. lia.
Qed.

Section write_pages.
Context `{Env}.
Hypothesis calls_succeed : forall k, env_syscall k = true.
Hypothesis pwrite_whole : forall k len, env_pwrite k len = len.
#[local] Set Default Proof Using "All".

Lemma writeAt_ok bs off w :
  writeAt bs off w = Ok (Z.of_nat (length bs),
    called [Pwrite off bs] w).
Proof.
  unfold writeAt. erewrite bindM_ok by apply gets_ok. cbn beta zeta.
  rewrite pwrite_whole, Z.min_id, Nat2Z.id, firstn_all.
  erewrite bindM_ok by reflexivity. cbn beta. rewrite calls_succeed. by erewrite bindM_ok by reflexivity.
Qed.

Lemma write_page_ok p l w id bs :
  dirty_page w p id bs ->
  write_pages (p :: l) w = write_pages l
    (called [Pwrite (id * DB_pageSize_ (w_db w)) bs] w).
Proof.
  intros Hd. destruct (dirty_page_range _ _ _ _ Hd) as [Hid0 Hps0].
  destruct Hd as (b&m&ov&->&Hb&Hid&Hov&Hlen&Hps&Hsz&Hoff&Hs). cbn [write_pages].
  assert (forall A (f : list byte -> Z -> res A) a, f m 0 = Ok a ->
    page_read (PHeap b 0) f w = Ok (a, w)) as Hread.
  { intros A f a Ha. apply (reads_ok (fun w => on_page w (PHeap b 0) f)). unfold on_page, mem_of.
    rewrite Hb. exact Ha. }
  assert (0 <= ov) as Hov0 by (unfold Page_overflow in Hov; apply load_range in Hov; lia).
  erewrite bindM_ok by apply get_db_ok. cbn beta.
  erewrite bindM_ok by (by apply Hread). cbn beta. erewrite bindM_ok by (by apply Hread). cbn beta zeta.
  rewrite (wrap_id 32 (ov + 1)) by nia. rewrite (wrap_id 32) by nia. rewrite wrap_id by nia.
  erewrite bindM_ok by (apply Hread; exact Hs). cbn beta.
  erewrite bindM_ok by apply writeAt_ok. cbn beta. rewrite Hlen, Z.eqb_refl. done.
Qed.

(** A call that writes one of the pages to its place. *)
Definition writes_page (w : World) (l : list PagePtr) (c : call) : Prop :=
  exists p id bs, p ∈ l /\ dirty_page w p id bs /\ c = Pwrite (id * DB_pageSize_ (w_db w)) bs.

Lemma write_pages_ok l : forall w,
  NoDup l -> (forall p, p ∈ l -> exists id bs, dirty_page w p id bs) ->
  (forall p q id bs id' bs', p ∈ l -> q ∈ l -> p <> q -> dirty_page w p id bs -> dirty_page w q id' bs' ->
     apart (DB_pageSize_ (w_db w)) (id * DB_pageSize_ (w_db w)) (Z.of_nat (length bs)) id' bs') ->
  exists cs, let f := replay cs (w_file w) in
    write_pages l w = Ok (true, called cs w) /\ Forall (writes_page w l) cs /\
    (forall p id bs, p ∈ l -> dirty_page w p id bs ->
       slice f (id * DB_pageSize_ (w_db w)) (Z.of_nat (length bs)) = Ok bs) /\
    (forall o n x, slice (w_file w) o n = Ok x ->
       (forall p id bs, p ∈ l -> dirty_page w p id bs -> apart (DB_pageSize_ (w_db w)) o n id bs) ->
       slice f o n = Ok x) /\
    (length (w_file w) <= length f)%nat /\
    (forall L, Z.of_nat (length (w_file w)) <= L ->
       (forall p id bs, p ∈ l -> dirty_page w p id bs -> id * DB_pageSize_ (w_db w) + Z.of_nat (length bs) <= L) ->
       Z.of_nat (length f) <= L).
Proof.
  induction l as [|p l IH]; intros w Hnd Hall Hap.
  { exists []. cbn zeta. rewrite called_nil. split_and!; [done|constructor| |done|done|done].
    intros p id bs Hp. by apply not_elem_of_nil in Hp. }
  apply NoDup_cons in Hnd as [Hpl Hnd]. set (ps := DB_pageSize_ (w_db w)) in *.
  destruct (Hall p) as (id&bs&Hd); [by left|].
  destruct (dirty_page_range _ _ _ _ Hd) as [Hid0 Hps0]. fold ps in Hps0.
  rewrite (write_page_ok p l w id bs Hd). fold ps.
  set (c := Pwrite (id * ps) bs). set (w1 := called [c] w).
  destruct (IH w1 Hnd) as (cs&Hw&Hcs&Hsl&Hfr&Hlen&Hle).
  { intros q Hq. apply Hall. by right. }
  { intros q r iq bq ir br Hq Hr Hne Hdq Hdr. apply (Hap q r iq bq ir br); [by right|by right|done..]. }
  change (w_file w1) with (replay [c] (w_file w)) in *. rewrite <-replay_app in *. exists (cs ++ [c]). split_and!.
  - rewrite Hw. unfold w1. by rewrite called_called.
  - apply Forall_app. split; [|apply Forall_singleton; exists p, id, bs; split; [by left|done]].
    eapply Forall_impl; [exact Hcs|]. intros c' (q&iq&bq&Hq&Hdq). exists q, iq, bq. split; [by right|done].
  - intros q iq bq Hq Hdq. destruct (decide (q = p)) as [->|Hqp].
    + apply Hfr.
      * assert (iq = id /\ bq = bs) as [-> ->].
        { destruct Hd as (b&m&ov&Hp&Hb&Hi&Hov&_&_&_&_&Hs), Hdq as (b'&m'&ov'&Hp'&Hb'&Hi'&Hov'&_&_&_&_&Hs').
          rewrite Hp in Hp'. injection Hp' as <-. rewrite Hb in Hb'. injection Hb' as <-.
          rewrite Hi in Hi'. rewrite Hov in Hov'. injection Hi' as <-. injection Hov' as <-.
          rewrite Hs in Hs'. by injection Hs' as <-. }
        apply file_write_slice. nia.
      * intros r ir br Hr Hdr. apply (Hap p r iq bq ir br); [by left|by right|by intros ->|done|done].
    + apply (Hsl q iq bq); [|done]. by apply elem_of_cons in Hq as [?|?].
  - intros o n x Hx Hapart. apply Hfr.
    + apply file_write_slice_other; [nia|done|]. by apply (Hapart p); [left|].
    + intros r ir br Hr Hdr. apply (Hapart r); [by right|done].
  - etransitivity; [|exact Hlen]. apply file_write_length. nia.
  - intros L HL Hend. apply Hle.
    + cbn. rewrite file_write_length_eq by nia. specialize (Hend p id bs ltac:(by left) Hd). lia.
    + intros r ir br Hr Hdr. apply (Hend r); [by right|done].
Qed.
End write_pages.

(** The calls of [sync_file]. *)
Definition syncs (d : DB) : list call := if NoSync_ d then [] else [Fsync].

Lemma replay_syncs d cs f : replay (syncs d ++ cs) f = replay cs f.
Proof. unfold syncs. by destruct (NoSync_ d). Qed.

Lemma sync_file_ok `{Env} : (forall k, env_syscall k = true) ->
  forall w, sync_file w = Ok (true, called (syncs (w_db w)) w).
Proof.
  intros Hsys w. unfold sync_file, syncs. erewrite bindM_ok by apply get_db_ok. cbn beta.
  destruct (NoSync_ _); [by rewrite called_nil|]. unfold syscall. rewrite Hsys. by destruct w.
Qed.

Lemma Tx_write_ok `{Env} w t v :
  (forall k, env_syscall k = true) -> (forall k len, env_pwrite k len = len) ->
  tx_of w t = Ok v -> NoDup (map_to_list (dirtyPageTable_ v)).*2 ->
  (forall i p, dirtyPageTable_ v !! i = Some p -> exists id bs, dirty_page w p id bs) ->
  (forall i j p q id bs id' bs', dirtyPageTable_ v !! i = Some p -> dirtyPageTable_ v !! j = Some q -> p <> q ->
     dirty_page w p id bs -> dirty_page w q id' bs' ->
     apart (DB_pageSize_ (w_db w)) (id * DB_pageSize_ (w_db w)) (Z.of_nat (length bs)) id' bs') ->
  exists cs, let f := replay cs (w_file w) in
    Tx_write t w = Ok (0, called (syncs (w_db w) ++ cs) (with_tx t (tset_dirtyPageTable_ ∅ v) w)) /\
    Forall (fun c => exists i p id bs, dirtyPageTable_ v !! i = Some p /\ dirty_page w p id bs /\
      c = Pwrite (id * DB_pageSize_ (w_db w)) bs) cs /\
    (forall i p id bs, dirtyPageTable_ v !! i = Some p -> dirty_page w p id bs ->
       slice f (id * DB_pageSize_ (w_db w)) (Z.of_nat (length bs)) = Ok bs) /\
    (forall o n x, slice (w_file w) o n = Ok x ->
       (forall i p id bs, dirtyPageTable_ v !! i = Some p -> dirty_page w p id bs ->
          apart (DB_pageSize_ (w_db w)) o n id bs) ->
       slice f o n = Ok x) /\
    (length (w_file w) <= length f)%nat /\
    (forall L, Z.of_nat (length (w_file w)) <= L ->
       (forall i p id bs, dirtyPageTable_ v !! i = Some p -> dirty_page w p id bs ->
          id * DB_pageSize_ (w_db w) + Z.of_nat (length bs) <= L) -> Z.of_nat (length f) <= L).
Proof.
  intros Hsys Hpw Ht Hnd Hall Hap.
  assert (forall p, p ∈ sort_pages (map_to_list (dirtyPageTable_ v)).*2 <->
    exists i, dirtyPageTable_ v !! i = Some p) as Hin.
  { intros p. unfold sort_pages. rewrite merge_sort_Permutation, list_elem_of_fmap. split.
    - intros ([i q]&->&Hq%elem_of_map_to_list). by exists i.
    - intros [i Hi]. exists (i, p). split; [done|]. by apply elem_of_map_to_list. }
  set (w1 := with_tx t (tset_dirtyPageTable_ ∅ v) w).
  destruct (write_pages_ok Hsys Hpw (sort_pages (map_to_list (dirtyPageTable_ v)).*2) w1) as (cs&Hw&Hcs&Hsl&Hfr&Hlen&Hle).
  - unfold sort_pages. by rewrite merge_sort_Permutation.
  - intros p [i Hi]%Hin. by eapply Hall.
  - intros p q id bs id' bs' [i Hi]%Hin [j Hj]%Hin. by eapply Hap.
  - change (w_file w1) with (w_file w) in *. exists cs. split_and!.
    + unfold Tx_write. erewrite bindM_ok by (by apply get_tx_ok). cbn beta zeta.
      erewrite bindM_ok by (by apply upd_tx_ok). cbn beta. fold w1.
      erewrite bindM_ok by exact Hw. cbn beta iota. cbn [negb].
      erewrite bindM_ok by (by apply sync_file_ok). by rewrite called_called.
    + eapply Forall_impl; [exact Hcs|]. intros c (p&id&bs&[i Hi]%Hin&Hd&->). by exists i, p, id, bs.
    + intros i p id bs Hi Hd. apply (Hsl p); [|done]. apply Hin. by exists i.
    + intros o n x Hx Hapart. apply Hfr; [done|]. intros p id bs [i Hi]%Hin. by apply (Hapart i).
    + exact Hlen.
    + intros L HL Hend. apply Hle; [done|]. intros p id bs [i Hi]%Hin. by apply (Hend i).
Qed.

(** C12. [Tx::write] puts every dirty page at its place in the file, overflow
    pages included, and touches no other byte of the file; the table of dirty
    pages is emptied, and nothing in memory changes besides (system calls
    succeeding and pages not overlapping). *)
Theorem Tx_write_pages `{Env} w t v :
  (forall k, env_syscall k = true) -> (forall k len, env_pwrite k len = len) ->
  tx_of w t = Ok v -> NoDup (map_to_list (dirtyPageTable_ v)).*2 ->
  (forall i p, dirtyPageTable_ v !! i = Some p -> exists id bs, dirty_page w p id bs) ->
  (forall i j p q id bs id' bs', dirtyPageTable_ v !! i = Some p -> dirtyPageTable_ v !! j = Some q -> p <> q ->
     dirty_page w p id bs -> dirty_page w q id' bs' ->
     apart (DB_pageSize_ (w_db w)) (id * DB_pageSize_ (w_db w)) (Z.of_nat (length bs)) id' bs') ->
  exists cs, let f := replay cs (w_file w) in
    Tx_write t w = Ok (0, called cs (with_tx t (tset_dirtyPageTable_ ∅ v) w)) /\
    (forall i p id bs, dirtyPageTable_ v !! i = Some p -> dirty_page w p id bs ->
       slice f (id * DB_pageSize_ (w_db w)) (Z.of_nat (length bs)) = Ok bs) /\
    (forall o n x, slice (w_file w) o n = Ok x ->
       (forall i p id bs, dirtyPageTable_ v !! i = Some p -> dirty_page w p id bs ->
          apart (DB_pageSize_ (w_db w)) o n id bs) ->
       slice f o n = Ok x).
Proof.
  intros. destruct (Tx_write_ok w t v) as (cs&Hrun&_&Hsl&Hfr&_&_); [done..|].
  exists (syncs (w_db w) ++ cs). by rewrite replay_syncs.
Qed.

(** ** Writing the meta page *)

(** What is written at [off] is read back through the file. *)
Lemma meta_read_file_write f off bs d mt :
  0 <= off -> 0 <= d -> d + METASIZE <= Z.of_nat (length bs) -> meta_read bs d = Ok mt ->
  meta_read (file_write f off bs) (off + d) = Ok mt.
Proof.
  intros Ho Hd Hl <-. unfold METASIZE in Hl.
  pose proof (file_write_slice f off bs Ho) as Hs.
  pose proof (slice_slice _ _ _ _ d 64 Hs ltac:(lia) ltac:(lia) ltac:(lia)) as H1.
  destruct (slice bs d 64) as [b|] eqn:Hb; [|by rewrite slice_ok in Hb by lia].
  by rewrite (meta_read_slice (file_write f off bs) (off + d) b), (meta_read_slice bs d b).
Qed.

Lemma meta_read_file_write_other f off bs o mt :
  0 <= off -> o + METASIZE <= off \/ off + Z.of_nat (length bs) <= o ->
  0 <= o -> o + METASIZE <= Z.of_nat (length f) ->
  meta_read f o = Ok mt -> meta_read (file_write f off bs) o = Ok mt.
Proof.
  intros Ho Hd H0 Hl <-. unfold METASIZE in *.
  destruct (slice f o 64) as [b|] eqn:Hb; [|by rewrite slice_ok in Hb by lia].
  rewrite (meta_read_slice _ _ _ Hb).
  by rewrite (meta_read_slice (file_write f off bs) o b) by (apply file_write_slice_other; [lia|exact Hb|exact Hd]).
Qed.

(** [getMeta] prefers the newer valid record, in whichever slot. *)
Lemma getMeta_newer new old id (m : list byte) :
  id = 0 \/ id = 1 -> validate new = true -> txid_ old < txid_ new ->
  meta_read m (id * 4096 + PAGEHEADERSIZE) = Ok new ->
  meta_read m ((1 - id) * 4096 + PAGEHEADERSIZE) = Ok old ->
  (m0 ← meta_read m 16; m1 ← meta_read m 4112; Meta.getMeta m0 m1) = Ok new.
Proof.
  intros Hid Hv Hlt Hn Ho. unfold Meta.getMeta, PAGEHEADERSIZE in *. destruct Hid as [-> | ->].
  - change (0 * 4096 + 16) with 16 in Hn. change ((1 - 0) * 4096 + 16) with 4112 in Ho.
    rewrite Hn, Ho. cbn [mbind res_bind]. rewrite (proj2 (Z.ltb_ge _ _)) by lia. by rewrite Hv.
  - change (1 * 4096 + 16) with 4112 in Hn. change ((1 - 1) * 4096 + 16) with 16 in Ho.
    rewrite Hn, Ho. cbn [mbind res_bind]. rewrite (proj2 (Z.ltb_lt _ _)) by lia. by rewrite Hv.
Qed.

Lemma writeMeta_ok `{Env} :
  (forall k, env_syscall k = true) -> (forall k len, env_pwrite k len = len) ->
  forall w t v mt mt' tmp id, tx_of w t = Ok v -> metaData_ v = Some mt ->
  meta_write mt (replicate 4096 Byte.x00) 0 = Ok (mt', tmp) -> Page_id tmp 0 = Ok id ->
  Z.of_nat (length tmp) = 4096 -> 0 <= id < 2 ->
  writeMeta t w =
    Ok (0, called (syncs (w_db w) ++ [Pwrite (id * 4096) tmp]) (with_tx t (tset_metaData_ (Some mt') v) w)).
Proof.
  intros Hsys Hpw w t v mt mt' tmp id Ht Hmt Hw Hid Hl Hr. unfold writeMeta.
  erewrite bindM_ok.
  2:{ apply (reads_ok (fun w => tx_meta w t)). unfold tx_meta. rewrite Ht. cbn. by rewrite Hmt. }
  cbn beta. erewrite bindM_ok by (apply lift_ok; exact Hw). cbn beta iota.
  erewrite bindM_ok by (apply (upd_tx_ok _ (tset_metaData_ (Some mt'))); exact Ht). cbn beta.
  erewrite bindM_ok by (apply lift_ok; exact Hid). cbn beta.
  erewrite bindM_ok by (by apply writeAt_ok). cbn beta. rewrite Hl, wrap_id by lia. cbn [Z.eqb negb Pos.eqb].
  erewrite bindM_ok by (by apply sync_file_ok). by rewrite called_called.
Qed.

(** Reading through a mapping that covers the file. *)
Lemma on_page_map {A} w o sz (f : list byte -> Z -> res A) :
  w_map w = Some sz -> Z.of_nat (length (w_file w)) <= sz -> on_page w (PMap (w_gen w) o) f = f (w_file w) o.
Proof.
  intros Hm Hsz. unfold on_page, mem_of. rewrite Hm, decide_True by done. cbn. by rewrite take_ge by lia.
Qed.

Lemma meta_read_take m n o mt :
  o + METASIZE <= Z.of_nat n -> meta_read m o = Ok mt -> 0 <= o -> o + METASIZE <= Z.of_nat (length m) ->
  meta_read (take n m) o = Ok mt.
Proof.
  intros Hn Hmt Ho Hm. unfold METASIZE in *. destruct (slice m o 64) as [b|] eqn:Hb; [|by rewrite slice_ok in Hb by lia].
  rewrite <-Hmt, (meta_read_slice _ _ _ Hb). by apply meta_read_slice, slice_take.
Qed.

(** The current meta record, from the two slots of the file. *)
Lemma DB_getMeta_slots w sz new old id :
  meta0_ (w_db w) = Some (PMap (w_gen w) 16) -> meta1_ (w_db w) = Some (PMap (w_gen w) 4112) ->
  w_map w = Some sz -> 8192 <= sz -> 8192 <= Z.of_nat (length (w_file w)) ->
  id = 0 \/ id = 1 -> validate new = true -> txid_ old < txid_ new ->
  meta_read (w_file w) (id * 4096 + PAGEHEADERSIZE) = Ok new ->
  meta_read (w_file w) ((1 - id) * 4096 + PAGEHEADERSIZE) = Ok old ->
  DB_getMeta w = Ok new.
Proof.
  intros Hm0 Hm1 Hmap Hsz Hlen Hid Hv Hlt Hnew Hold. unfold DB_getMeta, meta_at.
  rewrite Hm0, Hm1. cbn [deref mbind res_bind].
  assert (forall o, on_page w (PMap (w_gen w) o) meta_read = meta_read (take (Z.to_nat sz) (w_file w)) o) as Hon.
  { intros o. unfold on_page, mem_of. by rewrite Hmap, decide_True. }
  rewrite !Hon. apply (getMeta_newer new old id); try done;
    (apply meta_read_take; [|done|..]); unfold METASIZE, PAGEHEADERSIZE; destruct Hid as [-> | ->]; lia.
Qed.

(** The slot [writeMeta] writes, and the other one. *)
Lemma writeMeta_slots `{Env} w t v mt other :
  (forall k, env_syscall k = true) -> (forall k len, env_pwrite k len = len) ->
  tx_of w t = Ok v -> metaData_ v = Some mt -> meta_ok mt ->
  root (root_ mt) < totalPageNumber_ mt -> freeListPageNumber_ mt < totalPageNumber_ mt ->
  8192 <= Z.of_nat (length (w_file w)) ->
  let id := txid_ mt mod 2 in
  meta_read (w_file w) ((1 - id) * 4096 + PAGEHEADERSIZE) = Ok other ->
  exists tmp, let f := file_write (w_file w) (id * 4096) tmp in
    writeMeta t w = Ok (0, called (syncs (w_db w) ++ [Pwrite (id * 4096) tmp]) (with_tx t (tset_metaData_ (Some (meta_set_checksum mt 0)) v) w)) /\
    Z.of_nat (length tmp) = 4096 /\ length f = length (w_file w) /\
    meta_read f (id * 4096 + PAGEHEADERSIZE) = Ok (meta_set_checksum mt 0) /\
    meta_read f ((1 - id) * 4096 + PAGEHEADERSIZE) = Ok other /\
    forall o n x, slice (w_file w) o n = Ok x -> o + n <= id * 4096 \/ id * 4096 + 4096 <= o -> slice f o n = Ok x.
Proof.
  intros Hsys Hpw Ht Hmt Hok Hroot Hfl Hlen id Hother.
  assert (id = 0 \/ id = 1) as Hid by (pose proof (Z.mod_pos_bound (txid_ mt) 2); unfold id; lia).
  set (z := replicate 4096 Byte.x00).
  assert (Z.of_nat (length z) = 4096) as Hz by (unfold z; by rewrite length_replicate).
  destruct (meta_write_ok mt z 0) as (tmp&Hw&Hso&Hrd&Hpid); [done..|unfold PAGEHEADERSIZE, METASIZE; lia|].
  pose proof (same_outside_length _ _ _ _ Hso) as Htl.
  assert (Z.of_nat (length tmp) = 4096) as Htmp by lia.
  pose proof (writeMeta_ok Hsys Hpw w t v mt (meta_set_checksum mt 0) tmp id Ht Hmt Hw Hpid Htmp ltac:(lia)) as Hrun.
  exists tmp. split; [exact Hrun|]. split_and!; [done|..].
  - unfold file_write. rewrite !length_app, length_take, length_app, length_replicate, length_drop. lia.
  - apply meta_read_file_write; [lia|done|unfold METASIZE; unfold PAGEHEADERSIZE; lia|exact Hrd].
  - apply meta_read_file_write_other; unfold PAGEHEADERSIZE, METASIZE in *; [lia..|done].
  - intros o n x Hx Hd. apply file_write_slice_other; [lia|done|lia].
Qed.

(** C11. [Tx::writeMeta] publishes the transaction: from then on [getMeta]
    returns its record (with checksum 0), and the write touches no byte
    outside the meta page that does not hold the record current until then. *)
Theorem writeMeta_publishes `{Env} w t v mt other sz :
  (forall k, env_syscall k = true) -> (forall k len, env_pwrite k len = len) ->
  tx_of w t = Ok v -> metaData_ v = Some mt -> meta_ok mt ->
  magic_ mt = MAGIC -> version_ mt = VERSION ->
  root (root_ mt) < totalPageNumber_ mt -> freeListPageNumber_ mt < totalPageNumber_ mt ->
  meta0_ (w_db w) = Some (PMap (w_gen w) 16) -> meta1_ (w_db w) = Some (PMap (w_gen w) 4112) ->
  w_map w = Some sz -> 8192 <= Z.of_nat (length (w_file w)) <= sz ->
  let id := txid_ mt mod 2 in
  meta_read (w_file w) ((1 - id) * 4096 + PAGEHEADERSIZE) = Ok other -> txid_ other < txid_ mt ->
  exists w', writeMeta t w = Ok (0, w') /\ DB_getMeta w' = Ok (meta_set_checksum mt 0) /\
    tx_meta w' t = Ok (meta_set_checksum mt 0) /\
    length (w_file w') = length (w_file w) /\
    forall o n x, slice (w_file w) o n = Ok x -> o + n <= id * 4096 \/ id * 4096 + 4096 <= o ->
      slice (w_file w') o n = Ok x.
Proof.
  intros Hsys Hpw Ht Hmt Hok Hmg Hvs Hroot Hfl Hm0 Hm1 Hmap Hlen id Hother Hlt.
  destruct (writeMeta_slots w t v mt other) as (tmp&Hrun&_&Hfl'&Hnew&Hold&Hfr); [done..|lia|done|].
  match type of Hrun with _ = Ok (_, ?x) => set (w' := x) in * end. exists w'. split; [exact Hrun|].
  assert (w_file w' = file_write (w_file w) (id * 4096) tmp) as Hfile by (cbn; by rewrite replay_syncs).
  rewrite Hfile. split_and!; [| |done|done].
  - eapply (DB_getMeta_slots _ sz _ other id); rewrite ?Hfile; try done; try lia.
    + fold id in Hfl'. rewrite Hfl'. lia.
    + pose proof (Z.mod_pos_bound (txid_ mt) 2). unfold id. lia.
    + by apply validate_iff.
  - unfold tx_meta. change (tx_of _ t) with (tx_of (with_tx t (tset_metaData_ (Some (meta_set_checksum mt 0)) v) w) t).
    by rewrite tx_of_with.
Qed.

(** One dirty page of 32 bytes, with the id 1. *)
Definition ex_block : list byte := Byte.x01 :: replicate 31 Byte.x00.
Definition ex_dirty_tx : Tx := tset_dirtyPageTable_ {[1 := PHeap 7 0]} ex_tx.
Definition ex_dirty_world : World :=
  wset_w_file (replicate 96 Byte.xff)
    (wset_w_blocks {[7%nat := ex_block]}
      (wset_w_db (dset_DB_pageSize_ 32 sample_db) (with_tx 0%nat ex_dirty_tx empty_world))).

Lemma ex_dirty_page : dirty_page ex_dirty_world (PHeap 7 0) 1 ex_block.
Proof. exists 7%nat, ex_block, 0. cbn zeta. split_and!; try reflexivity; done. Qed.

Lemma Tx_write_pages_witness :
  exists cs, Tx_write (H:=sample_env) 0%nat ex_dirty_world =
      Ok (0, called cs (with_tx 0%nat (tset_dirtyPageTable_ ∅ ex_dirty_tx) ex_dirty_world)) /\
    slice (replay cs (w_file ex_dirty_world)) 32 32 = Ok ex_block.
Proof.
  edestruct (Tx_write_pages (H:=sample_env) ex_dirty_world 0%nat ex_dirty_tx) as (cs&Hw&Hs&_).
  - done.
  - done.
  - reflexivity.
  - apply NoDup_singleton.
  - intros i p Hp. change (({[1 := PHeap 7 0]} : gmap Z PagePtr) !! i = Some p) in Hp.
    apply lookup_singleton_Some in Hp as [_ <-]. exists 1, ex_block. apply ex_dirty_page.
  - intros i j p q id bs id' bs' Hp Hq Hne. change (({[1 := PHeap 7 0]} : gmap Z PagePtr) !! i = Some p) in Hp.
    change (({[1 := PHeap 7 0]} : gmap Z PagePtr) !! j = Some q) in Hq.
    apply lookup_singleton_Some in Hp as [_ <-], Hq as [_ <-]. done.
  - exists cs. split; [exact Hw|]. apply (Hs 1 (PHeap 7 0) 1 ex_block); [reflexivity|].
    apply ex_dirty_page.
Defined.

(** A file of two meta pages, the second one current; transaction 2 is about
    to write the first. *)
Definition ex_meta_file : list byte :=
  replicate 4112 Byte.x00 ++ meta_bytes (meta_set_txid 1 ex_meta) ++ replicate 4016 Byte.x00.
Definition ex_meta_world : World :=
  wset_w_map (Some 8192) (wset_w_file ex_meta_file
    (wset_w_db (dset_meta1_ (Some (PMap 1 4112)) (w_db ex_tx_world)) ex_tx_world)).

Lemma ex_meta_file_read :
  meta_read (w_file ex_meta_world) ((1 - txid_ ex_meta mod 2) * 4096 + PAGEHEADERSIZE) =
    Ok (meta_set_txid 1 ex_meta).
Proof. vm_compute. reflexivity. Qed.

Lemma writeMeta_publishes_witness :
  exists w', writeMeta (H:=sample_env) 0%nat ex_meta_world = Ok (0, w') /\
    DB_getMeta w' = Ok (meta_set_checksum ex_meta 0).
Proof.
  edestruct (writeMeta_publishes (H:=sample_env) ex_meta_world 0%nat ex_tx ex_meta (meta_set_txid 1 ex_meta) 8192)
    as (w'&Hrun&Hgm&_).
  - done.
  - done.
  - reflexivity.
  - reflexivity.
  - unfold meta_ok. cbn. done.
  - reflexivity.
  - reflexivity.
  - done.
  - done.
  - reflexivity.
  - reflexivity.
  - reflexivity.
  - vm_compute. split; discriminate.
  - exact ex_meta_file_read.
  - done.
  - exists w'. split; [exact Hrun|exact Hgm].
Defined.
