(* ===== verification/DB.v ===== *)
(** * DB.v: the database (src/src/Bolt/db.h, db.cc)

    Opening and closing a file, the two kinds of transactions, and the
    callers' entry points [update] and [view].  [rwLock_] serialises write
    transactions; read transactions hold [mmapLock_] for reading.  The
    [std::lock_guard]s on [metaLock_] open and close within one operation, so
    they have no state between operations. *)
From S2P Require Import FileUtil.
From S2P Require Import Bytes.
From S2P Require Import Page.
From S2P Require Import FreeList.
From S2P Require Import Mvcc.
From S2P Require Import Meta.
From S2P Require Import Node.
From S2P Require Import World.
From S2P Require Import Disk.
From S2P Require Import Pager.
From S2P Require Import Tree.
From S2P Require Import Cursor.
From S2P Require Import Bucket.
From S2P Require Import Tx.

(** [struct Options] *)
Record Options := mkOptions {
  timeout : Z;
  NoGrowSync : bool;
  ReadOnly : bool;
  MmapFlags : Z;
  InitialMMapSize : Z;
}.
Definition Options_new : Options :=
  {| timeout := 0; NoGrowSync := false; ReadOnly := false; MmapFlags := 0; InitialMMapSize := 0 |}.

(** [DB::DB(path)]; [garbage] supplies the members it does not initialise. *)
Definition DB_new (garbage : DB) : DB :=
  {| file_ := 0; opened_ := opened_ garbage; NoSync_ := false; NoGrowSync_ := false;
     readOnly_ := false; AllocSize_ := AllocSize_ garbage; datasz_ := datasz_ garbage;
     filesz_ := filesz_ garbage; DB_pageSize_ := DB_pageSize_ garbage;
     meta0_ := meta0_ garbage; meta1_ := meta1_ garbage; rwtx_ := None; txs_ := [];
     freeList_ := freeList_new; rwLock_ := false; mmapReaders_ := 0; mmapWriter_ := false |}.

(** [pageInBuffer(ptr, length, pageId)]: the offset of the page *)
Definition pageInBuffer (pageSize length pageId : Z) : res Z :=
  _ ← assert_ (wrap64 (pageId * pageSize) <? length);
  Ok (wrap64 (pageId * pageSize)).

(** The meta record [Init] writes in page [i]. *)
Definition init_meta (pageSize i : Z) : meta :=
  {| magic_ := MAGIC; version_ := VERSION; pageSize_ := pageSize; flags_ := 0;
     root_ := {| root := 3; sequence := 0 |}; freeListPageNumber_ := 2; totalPageNumber_ := 4;
     txid_ := i; checksum_ := 0 |}.

(** One round of [Init]'s loop. *)
Definition init_meta_page (pageSize : Z) (m : list byte) (i : Z) : res (list byte) :=
  p ← pageInBuffer pageSize (Z.of_nat (length m)) i;
  m ← Page_set_id m p i;
  m ← Page_set_flag m p metaPageFlag;
  splice m (Page_ptr p) (meta_bytes (init_meta pageSize i)).

(** The four pages [Init] builds in its zeroed buffer. *)
Definition init_pages (pageSize : Z) : res (list byte) :=
  m ← init_meta_page pageSize (replicate (Z.to_nat (pageSize * 4)) Byte.x00) 0;
  m ← init_meta_page pageSize m 1;
  p ← pageInBuffer pageSize (Z.of_nat (length m)) 2;
  m ← Page_set_id m p 2;
  m ← Page_set_count m p 0;
  m ← Page_set_flag m p freelistPageFlag;
  p ← pageInBuffer pageSize (Z.of_nat (length m)) 3;
  m ← Page_set_id m p 3;
  m ← Page_set_flag m p leafPageFlag;
  Page_set_count m p 0.

Section env.
Context `{Env}.

(** [rwLock_.lock()], [rwLock_.unlock()] *)
Definition lock_rw : M unit :=
  d ← get_db; if rwLock_ d then fail Blocked else upd_db (dset_rwLock_ true).
Definition writerLeave : M unit := upd_db (dset_rwLock_ false).
Definition resetRWTX : M unit := upd_db (dset_rwtx_ None).

(** ** Opening and closing *)

(** [Init()] *)
Definition Init : M Z :=
  _ ← upd_db (dset_DB_pageSize_ env_getpagesize);
  buf ← lift (init_pages env_getpagesize);
  n ← writeAt buf 0;
  if negb (n =? Z.of_nat (length buf)) then ret (-1)
  else
    _ ← syscall Fsync; (* fileSync, its failure only logged *)
    _ ← upd_db (dset_filesz_ (wrap32 n));
    ret 0.

(** [DbClose()]; a closed database keeps the read lock taken. *)
Definition DbClose : M unit :=
  _ ← lock_rw;
  _ ← getMmapRLock;
  d ← get_db;
  _ ← (if negb (opened_ d) then ret tt
       else
         _ ← upd_db (dset_opened_ false);
         _ ← upd_db (dset_freeList_ (FreeList.reset (freeList_ d)));
         _ ← (if file_ d =? 0 then ret tt
              else _ ← syscall OtherCall; upd_db (dset_file_ (-1)));
         _ ← unlockMmapLock;
         ret tt);
  writerLeave.

(** [DbClose(); return -1;] *)
Definition give_up_open : M Z := _ ← DbClose; ret (-1).

(** [pread(file_, buf, 0x1000, 0)] into a zeroed buffer *)
Definition read_first_page (w : World) : list byte :=
  take 4096 (w_file w ++ replicate 4096 Byte.x00).

(** [Open] from the first page on. *)
Definition open_pages (options : Options) : M Z :=
  ok ← syscall OtherCall;
  if negb ok then give_up_open
  else
    buf ← gets read_first_page;
    m ← lift (meta_read buf PAGEHEADERSIZE);
    _ ← upd_db (dset_DB_pageSize_ (if validate m then DEFAULTPAGESIZE else pageSize_ m));
    r ← initMeta (InitialMMapSize options);
    if r =? -1 then give_up_open
    else
      mt ← reads DB_getMeta;
      p ← gets (fun w => getPagePtr w (freeListPageNumber_ mt));
      d ← get_db;
      f ← page_read p (FreeList.read (freeList_ d));
      _ ← upd_db (dset_freeList_ f);
      ret 0.

(** [Open] once the lock file is locked. *)
Definition Open_locked (options : Options) (fd : Z) : M Z :=
  _ ← upd_db (dset_opened_ true);
  _ ← upd_db (dset_NoGrowSync_ (NoGrowSync options));
  _ ← upd_db (dset_AllocSize_ DEFAULTALLOCSIZE);
  _ ← (if ReadOnly options then upd_db (dset_readOnly_ true) else ret tt);
  ok ← syscall OtherCall;
  _ ← upd_db (dset_file_ (if ok : bool then fd else -1));
  if negb ok then ret (-1)
  else
    stat ← syscall OtherCall;
    sz ← gets (fun w => GetFileSize (if stat : bool then Some (Z.of_nat (length (w_file w))) else None));
    _ ← upd_db (dset_filesz_ (wrap32 sz));
    d ← get_db;
    r ← (if filesz_ d =? 0 then Init else ret 0);
    if negb (r =? 0) then give_up_open else open_pages options.

(** [Open(options)]; [fd] is the descriptor [open] returns.  Whether the lock
    file can be locked is one system call here; Handle.v puts [FlockUtil] in
    its place. *)
Definition Open (options : Options) (fd : Z) : M Z :=
  d ← get_db;
  if 0 <? file_ d then ret 0
  else
    locked ← syscall OtherCall;
    if negb locked then ret (-1) else Open_locked options fd.

(** ** Transactions *)

(** The least transaction id of the open read transactions. *)
Fixpoint min_txid (w : World) (minId : Z) (l : list txptr) : res Z :=
  match l with
  | [] => Ok minId
  | t :: l => mt ← tx_meta w t; min_txid w (Z.min minId (txid_ mt)) l
  end.

(** [beginRWTx()] *)
Definition beginRWTx : M (option txptr) :=
  d ← get_db;
  if readOnly_ d then ret None
  else
    _ ← lock_rw;
    d ← get_db;
    if negb (opened_ d) then _ ← writerLeave; ret None
    else
      t ← new_tx Tx_new;
      _ ← upd_db (dset_rwtx_ (Some t));
      _ ← upd_tx t (tset_writable_ true);
      _ ← Tx_init t;
      minId ← reads (fun w => min_txid w UINT64_MAX (txs_ (w_db w)));
      _ ← (if 0 <? minId
           then upd_db (fun d => dset_freeList_ (FreeList.release (freeList_ d) (minId - 1)) d)
           else ret tt);
      d ← get_db;
      ret (rwtx_ d).

(** [beginTx()] *)
Definition beginTx : M (option txptr) :=
  _ ← getMmapRLock;
  d ← get_db;
  if negb (opened_ d) then _ ← unlockMmapLock; ret None
  else
    t ← new_tx Tx_new;
    _ ← upd_db (fun d => dset_txs_ (txs_ d ++ [t]) d);
    _ ← Tx_init t;
    ret (Some t).

(** [txs_] without the first [t]. *)
Fixpoint erase_tx (t : txptr) (l : list txptr) : list txptr :=
  match l with
  | [] => []
  | x :: l => if decide (x = t) then l else x :: erase_tx t l
  end.

(** [removeTx(tx)] *)
Definition removeTx (t : txptr) : M unit :=
  _ ← unlockMmapLock; upd_db (fun d => dset_txs_ (erase_tx t (txs_ d)) d).

(** [closeTx(tx)] *)
Definition closeTx (t : option txptr) : M unit :=
  match t with
  | None => ret tt
  | Some t =>
      d ← get_db;
      if decide (rwtx_ d = Some t) then _ ← resetRWTX; writerLeave else removeTx t
  end.

(** [update(fn)] *)
Definition update (fn : txptr -> M Z) : M Z :=
  tx ← beginRWTx;
  match tx with
  | None => ret (-1)
  | Some t =>
      _ ← upd_tx t (tset_managed_ true);
      r ← fn t;
      _ ← upd_tx t (tset_managed_ false);
      if negb (r =? 0) then _ ← rollback t; ret (-1)
      else
        result ← commit t;
        _ ← closeTx (Some t);
        ret result
  end.

(** [view(fn)] *)
Definition view (fn : txptr -> M Z) : M Z :=
  tx ← beginTx;
  match tx with
  | None => ret (-1)
  | Some t =>
      _ ← upd_tx t (tset_managed_ true);
      r ← fn t;
      _ ← upd_tx t (tset_managed_ false);
      _ ← rollback t;
      _ ← closeTx (Some t);
      ret (if r =? 0 then 0 else -1)
  end.
End env.

(** ** Beginning transactions *)

(** An open transaction: an object with a meta record. *)
Definition tx_live (w : World) (t : txptr) : Prop := exists mt, tx_meta w t = Ok mt.

(** The least of [minId] and the transaction ids of [mts]. *)
Definition least_txid (minId : Z) (mts : list meta) : Z := foldl (fun a mt => Z.min a (txid_ mt)) minId mts.

Lemma least_txid_le mts : forall a,
  least_txid a mts <= a /\ forall mt, mt ∈ mts -> least_txid a mts <= txid_ mt.
Proof.
  induction mts as [|x mts IH]; intros a; cbn; [split; [lia|by intros mt ?%not_elem_of_nil]|].
  destruct (IH (Z.min a (txid_ x))) as [H1 H2]. unfold least_txid in *. split; [lia|].
  intros mt [->|Hm]%elem_of_cons; [lia|by apply H2].
Qed.

Lemma least_txid_greatest mts b : forall a,
  b <= a -> (forall mt, mt ∈ mts -> b <= txid_ mt) -> b <= least_txid a mts.
Proof.
  induction mts as [|x mts IH]; intros a Ha Hall; cbn; [done|].
  apply IH; [|intros; apply Hall; by right]. pose proof (Hall x ltac:(by left)). lia.
Qed.

Lemma min_txid_ok w l mts : Forall2 (fun t mt => tx_meta w t = Ok mt) l mts ->
  forall a, min_txid w a l = Ok (least_txid a mts).
Proof. induction 1 as [|t mt l mts Hm _ IH]; intros a; cbn; [done|]. rewrite Hm. apply IH. Qed.

(** The transaction [beginTx] and [beginRWTx] build over the meta record
    [mt], its root bucket being [b]. *)
Definition begun (writable : bool) (b : bptr) (mt : meta) : Tx :=
  {| writable_ := writable; managed_ := false; db_ := true;
     metaData_ := Some (if writable then meta_set_txid (wrap64 (txid_ mt + 1)) mt else mt);
     rootBucket_ := b; dirtyPageTable_ := ∅; pageCount := 0; pageAlloc := 0; cursorCount := 0 |}.

Definition root_bucket (t : txptr) (mt : meta) : Bucket := bset_bucketHeader_ (root_ mt) (Bucket_new t).

Lemma with_tx_twice t v v' w : with_tx t v (with_tx t v' w) = with_tx t v w.
Proof. unfold with_tx, wset_w_txs. cbn. by rewrite insert_insert_eq. Qed.

Lemma Tx_init_ok w t v mt :
  tx_of w t = Ok v -> v = Tx_new \/ v = tset_writable_ true Tx_new -> DB_getMeta w = Ok mt ->
  let b := fresh_key (w_buckets w) in
  exists w', Tx_init t w = Ok (tt, w') /\
    w_txs w' = <[t := begun (writable_ v) b mt]> (w_txs w) /\
    w_buckets w' = <[b := root_bucket t mt]> (w_buckets w) /\
    w_db w' = w_db w /\ w_file w' = w_file w /\ w_map w' = w_map w /\ w_gen w' = w_gen w /\
    w_blocks w' = w_blocks w /\ w_nodes w' = w_nodes w /\ w_calls w' = w_calls w.
Proof.
  intros Ht Hv Hmt b. unfold Tx_init.
  erewrite bindM_ok by apply new_bucket_ok. cbn beta. fold b.
  erewrite bindM_ok by (apply (upd_tx_ok _ (tset_rootBucket_ b)); exact Ht). cbn beta.
  erewrite bindM_ok by (apply (upd_tx_ok _ (tset_db_ true)); apply tx_of_with). cbn beta.
  rewrite with_tx_twice.
  erewrite bindM_ok by (apply (reads_ok DB_getMeta); exact Hmt). cbn beta.
  erewrite bindM_ok by (apply (upd_tx_ok _ (tset_metaData_ (Some (clone mt)))); apply tx_of_with).
  cbn beta. rewrite with_tx_twice.
  erewrite bindM_ok by (apply (upd_bucket_ok _ (bset_bucketHeader_ (root_ mt)));
    apply the_ok, lookup_insert_eq). cbn beta.
  erewrite bindM_ok by (apply get_tx_ok; apply the_ok, lookup_insert_eq). cbn beta.
  destruct Hv as [-> | ->]; cbn [writable_ tset_metaData_ tset_db_ tset_rootBucket_ tset_writable_ Tx_new].
  - eexists. split; [reflexivity|]. split_and!; try done. cbn. by rewrite insert_insert_eq.
  - cbn [metaData_]. erewrite bindM_ok by reflexivity. cbn beta.
    erewrite (upd_tx_ok _ (tset_metaData_ _)) by (apply the_ok, lookup_insert_eq).
    eexists. split; [reflexivity|].
    split_and!; try done; cbn; rewrite insert_insert_eq; done.
Qed.

Lemma tx_meta_begun w w' t v mt u :
  w_txs w' = <[t := v]> (w_txs w) -> t = fresh_key (w_txs w) -> tx_meta w u = Ok mt -> tx_meta w' u = Ok mt.
Proof.
  intros Ht Hf Hu. unfold tx_meta, tx_of in *. rewrite Ht.
  destruct (decide (t = u)) as [->|Hne]; [|by rewrite lookup_insert_ne].
  rewrite Hf, fresh_key_None in Hu. done.
Qed.

Lemma beginRWTx_ok w mt mts :
  readOnly_ (w_db w) = false -> rwLock_ (w_db w) = false -> opened_ (w_db w) = true ->
  DB_getMeta w = Ok mt -> Forall2 (fun t m => tx_meta w t = Ok m) (txs_ (w_db w)) mts ->
  let t := fresh_key (w_txs w) in let b := fresh_key (w_buckets w) in
  exists w', beginRWTx w = Ok (Some t, w') /\
    w_txs w' = <[t := begun true b mt]> (w_txs w) /\
    w_buckets w' = <[b := root_bucket t mt]> (w_buckets w) /\
    w_db w' = dset_freeList_ (begin_freelist (least_txid UINT64_MAX mts) (freeList_ (w_db w)))
                (dset_rwtx_ (Some t) (dset_rwLock_ true (w_db w))) /\
    w_file w' = w_file w /\ w_map w' = w_map w /\ w_gen w' = w_gen w /\ w_blocks w' = w_blocks w /\
    w_nodes w' = w_nodes w /\ w_calls w' = w_calls w.
Proof.
  intros Hro Hlk Hop Hmt Hl t b. unfold beginRWTx, lock_rw.
  erewrite bindM_ok by apply get_db_ok. cbn beta. rewrite Hro.
  erewrite bindM_ok by (erewrite bindM_ok by apply get_db_ok; cbn beta; rewrite Hlk; apply upd_db_ok).
  cbn beta. erewrite bindM_ok by apply get_db_ok. cbn [w_db wset_w_db opened_ dset_rwLock_]. rewrite Hop.
  cbn [negb]. erewrite bindM_ok by apply new_tx_ok. cbn beta. cbn [w_txs wset_w_db]. fold t.
  erewrite bindM_ok by apply upd_db_ok. cbn beta.
  erewrite bindM_ok by (apply (upd_tx_ok _ (tset_writable_ true)); apply the_ok, lookup_insert_eq). cbn beta.
  match goal with |- context [(Tx_init t ≫= _) ?w0] => set (w1 := w0) end.
  assert (w_txs w1 = <[t := tset_writable_ true Tx_new]> (w_txs w)) as Ht1
    by (cbn; by rewrite insert_insert_eq).
  destruct (Tx_init_ok w1 t (tset_writable_ true Tx_new) mt) as (w2&Hi&Htx&Hbk&Hdb&Hf&Hmp&Hg&Hblk&Hn&Hcl).
  { apply the_ok. by rewrite Ht1, lookup_insert_eq. }
  { by right. }
  { exact Hmt. }
  erewrite bindM_ok by exact Hi. cbn beta.
  rewrite Ht1, insert_insert_eq in Htx. cbn [writable_ tset_writable_] in Htx.
  erewrite bindM_ok.
  2:{ apply (reads_ok (fun w => min_txid w UINT64_MAX (txs_ (w_db w)))). apply (min_txid_ok _ _ mts).
      rewrite Hdb. cbn. eapply Forall2_impl; [exact Hl|]. intros u m Hu. cbn in Hu |- *.
      by eapply (tx_meta_begun w w2). }
  cbn beta. unfold begin_freelist. destruct (0 <? least_txid _ _).
  - erewrite bindM_ok by apply upd_db_ok. cbn beta. erewrite bindM_ok by apply get_db_ok. cbn beta.
    eexists. split; [unfold ret, mret, M_ret; rewrite Hdb; reflexivity|].
    split_and!; done.
  - erewrite bindM_ok by reflexivity. cbn beta. erewrite bindM_ok by apply get_db_ok. cbn beta.
    eexists. split; [unfold ret, mret, M_ret; rewrite Hdb; reflexivity|]. split_and!; done.
Qed.

Lemma beginTx_ok w mt :
  mmapWriter_ (w_db w) = false -> opened_ (w_db w) = true -> DB_getMeta w = Ok mt ->
  let t := fresh_key (w_txs w) in let b := fresh_key (w_buckets w) in
  exists w', beginTx w = Ok (Some t, w') /\
    w_txs w' = <[t := begun false b mt]> (w_txs w) /\
    w_buckets w' = <[b := root_bucket t mt]> (w_buckets w) /\
    w_db w' = dset_txs_ (txs_ (w_db w) ++ [t]) (dset_mmapReaders_ (S (mmapReaders_ (w_db w))) (w_db w)) /\
    w_file w' = w_file w /\ w_map w' = w_map w /\ w_gen w' = w_gen w /\ w_blocks w' = w_blocks w /\
    w_nodes w' = w_nodes w /\ w_calls w' = w_calls w.
Proof.
  intros Hwr Hop Hmt t b. unfold beginTx, getMmapRLock.
  erewrite bindM_ok by (erewrite bindM_ok by apply get_db_ok; cbn beta; rewrite Hwr; reflexivity).
  cbn beta. erewrite bindM_ok by apply get_db_ok. cbn [w_db wset_w_db opened_ dset_mmapReaders_]. rewrite Hop.
  cbn [negb]. erewrite bindM_ok by apply new_tx_ok. cbn beta. cbn [w_txs wset_w_db]. fold t.
  erewrite bindM_ok by apply upd_db_ok. cbn beta.
  match goal with |- context [(Tx_init t ≫= _) ?w0] => set (w1 := w0) end.
  destruct (Tx_init_ok w1 t Tx_new mt) as (w2&Hi&Htx&Hbk&Hdb&Hf&Hmp&Hg&Hblk&Hn&Hcl).
  { apply the_ok, lookup_insert_eq. }
  { by left. }
  { exact Hmt. }
  erewrite bindM_ok by exact Hi. cbn beta. exists w2. split; [reflexivity|].
  split_and!; try done. rewrite Htx. cbn. by rewrite insert_insert_eq.
Qed.

(** ** The entry points *)

(** The database's transactions exist. *)
Definition txs_live (w : World) : Prop :=
  Forall (tx_live w) (txs_ (w_db w)) /\ from_option (tx_live w) True (rwtx_ (w_db w)).

Lemma fresh_tx_not_live w : ~ tx_live w (fresh_key (w_txs w)).
Proof. intros [mt Hm]. unfold tx_meta, tx_of in Hm. by rewrite fresh_key_None in Hm. Qed.

Lemma erase_tx_snoc t l : t ∉ l -> erase_tx t (l ++ [t]) = l.
Proof.
  induction l as [|x l IH]; cbn; intros Hn; [by rewrite decide_True|].
  apply not_elem_of_cons in Hn as [Hx Hn]. rewrite decide_False by congruence. by rewrite IH.
Qed.

(** The world in which [view] runs its callback: the new transaction [t] over
    the meta record [mt], read-only, and its root bucket; it is on the list of
    transactions, and the mapping has one more reader. *)
Definition view_world (w : World) (mt : meta) : World :=
  let t := fresh_key (w_txs w) in let b := fresh_key (w_buckets w) in
  with_tx t (tset_managed_ true (begun false b mt))
    (with_bucket b (root_bucket t mt)
      (wset_w_db (dset_txs_ (txs_ (w_db w) ++ [t]) (dset_mmapReaders_ (S (mmapReaders_ (w_db w))) (w_db w))) w)).

(** The one in which [update] does: the transaction is writable and is the
    database's writer, the lock is held, and the free list has released what no
    reader, [mts] being their records, can see. *)
Definition update_world (w : World) (mt : meta) (mts : list meta) : World :=
  let t := fresh_key (w_txs w) in let b := fresh_key (w_buckets w) in
  with_tx t (tset_managed_ true (begun true b mt))
    (with_bucket b (root_bucket t mt)
      (wset_w_db (dset_freeList_ (begin_freelist (least_txid UINT64_MAX mts) (freeList_ (w_db w)))
        (dset_rwtx_ (Some t) (dset_rwLock_ true (w_db w)))) w)).

Lemma beginTx_world w mt :
  mmapWriter_ (w_db w) = false -> opened_ (w_db w) = true -> DB_getMeta w = Ok mt ->
  let t := fresh_key (w_txs w) in
  exists w1, beginTx w = Ok (Some t, w1) /\ upd_tx t (tset_managed_ true) w1 = Ok (tt, view_world w mt).
Proof.
  intros Hwr Hop Hmt t. destruct (beginTx_ok w mt Hwr Hop Hmt) as (w1&Hrun&Htx&Hbk&Hdb&Hf&Hm&Hg&Hbl&Hn&Hc).
  exists w1. split; [done|]. fold t in Htx.
  rewrite (upd_tx_ok t (tset_managed_ true) w1 (begun false (fresh_key (w_buckets w)) mt)) by (apply the_ok; by rewrite Htx, lookup_insert_eq).
  do 2 f_equal. unfold view_world, with_tx, with_bucket, wset_w_txs, wset_w_buckets, wset_w_db. cbn.
  destruct w1, w; cbn in *; subst. by rewrite !insert_insert_eq.
Qed.

Lemma beginRWTx_world w mt mts :
  readOnly_ (w_db w) = false -> rwLock_ (w_db w) = false -> opened_ (w_db w) = true ->
  DB_getMeta w = Ok mt -> Forall2 (fun t m => tx_meta w t = Ok m) (txs_ (w_db w)) mts ->
  let t := fresh_key (w_txs w) in
  exists w1, beginRWTx w = Ok (Some t, w1) /\ upd_tx t (tset_managed_ true) w1 = Ok (tt, update_world w mt mts).
Proof.
  intros Hro Hlk Hop Hmt Hl t.
  destruct (beginRWTx_ok w mt mts Hro Hlk Hop Hmt Hl) as (w1&Hrun&Htx&Hbk&Hdb&Hf&Hm&Hg&Hbl&Hn&Hc).
  exists w1. split; [done|]. fold t in Htx.
  rewrite (upd_tx_ok t (tset_managed_ true) w1 (begun true (fresh_key (w_buckets w)) mt)) by (apply the_ok; by rewrite Htx, lookup_insert_eq).
  do 2 f_equal. unfold update_world, with_tx, with_bucket, wset_w_txs, wset_w_buckets, wset_w_db. cbn.
  destruct w1, w; cbn in *; subst. by rewrite !insert_insert_eq.
Qed.

(** ** A new file *)

(** What a new file of four pages of [ps] bytes holds. *)
Record new_file (ps : Z) (m : list byte) : Prop := {
  nf_length : Z.of_nat (length m) = 4 * ps;
  nf_meta0 : meta_read m PAGEHEADERSIZE = Ok (init_meta ps 0);
  nf_meta1 : meta_read m (ps + PAGEHEADERSIZE) = Ok (init_meta ps 1);
  nf_ids : Page_id m 0 = Ok 0 /\ Page_id m ps = Ok 1 /\ Page_id m (2 * ps) = Ok 2 /\ Page_id m (3 * ps) = Ok 3;
  nf_flags : Page_flag m 0 = Ok metaPageFlag /\ Page_flag m ps = Ok metaPageFlag /\
    Page_flag m (2 * ps) = Ok freelistPageFlag /\ Page_flag m (3 * ps) = Ok leafPageFlag;
  nf_counts : Page_count m (2 * ps) = Ok 0 /\ Page_count m (3 * ps) = Ok 0;
}.

Lemma init_meta_ok ps i : 0 <= ps < 2 ^ 32 -> 0 <= i < 2 -> meta_ok (init_meta ps i).
Proof. intros. unfold meta_ok, init_meta, MAGIC, VERSION. cbn. lia. Qed.

Lemma pageInBuffer_ok ps len i :
  0 < ps < 2 ^ 32 -> 0 <= i < 4 -> len = 4 * ps -> pageInBuffer ps len i = Ok (i * ps).
Proof.
  intros Hps Hi ->. unfold pageInBuffer. rewrite wrap_id by nia.
  by rewrite (proj2 (Z.ltb_lt _ _)) by nia.
Qed.

Lemma load_same_outside n lo hi m m' o :
  same_outside lo hi m m' -> o + Z.of_nat n <= lo \/ hi <= o -> load n m' o = load n m o.
Proof. intros Hs Ho. unfold load. by rewrite (same_outside_slice _ _ _ _ _ _ Hs). Qed.

Lemma meta_read_same_outside lo hi m m' o mt :
  same_outside lo hi m m' -> o + 64 <= lo \/ hi <= o -> meta_read m o = Ok mt -> meta_read m' o = Ok mt.
Proof.
  intros Hs Ho <-. unfold meta_read, bucketHeader_read.
  by rewrite !(load_same_outside _ _ _ _ _ _ Hs) by lia.
Qed.

(** One meta page. *)
Lemma init_meta_page_ok ps m i :
  80 <= ps < 2 ^ 32 -> 0 <= i < 2 -> Z.of_nat (length m) = 4 * ps ->
  exists m', init_meta_page ps m i = Ok m' /\ same_outside (i * ps) (i * ps + 80) m m' /\
    Page_id m' (i * ps) = Ok i /\ Page_flag m' (i * ps) = Ok metaPageFlag /\
    meta_read m' (i * ps + PAGEHEADERSIZE) = Ok (init_meta ps i).
Proof.
  intros Hps Hi Hm. unfold init_meta_page. rewrite pageInBuffer_ok by lia. cbn [mbind res_bind].
  set (p := i * ps). assert (0 <= p /\ p + ps <= 4 * ps) as [Hp0 Hp] by (unfold p; nia).
  unfold Page_set_id, Page_set_flag, Page_ptr, Page_id, Page_flag, PAGEHEADERSIZE.
  destruct (store_succeeds 8 m p i) as [m1 Hm1]; [lia..|]. rewrite Hm1. cbn [mbind res_bind].
  pose proof (store_length _ _ _ _ _ Hm1) as Hl1.
  destruct (store_succeeds 2 m1 (p + 8) metaPageFlag) as [m2 Hm2]; [lia..|]. rewrite Hm2. cbn [mbind res_bind].
  pose proof (store_length _ _ _ _ _ Hm2) as Hl2. pose proof (meta_bytes_length (init_meta ps i)) as Hb.
  destruct (splice_succeeds m2 (p + 16) (meta_bytes (init_meta ps i))) as [m3 Hm3]; [lia..|].
  exists m3. split; [exact Hm3|].
  assert (same_outside (p + 16) (p + 80) m2 m3) as H3 by (eapply splice_same_outside; [done|lia..]).
  split_and!.
  - transitivity m1; [eapply store_same_outside; [done|lia..]|].
    transitivity m2; [eapply store_same_outside; [done|lia..]|].
    eapply splice_same_outside; [done|lia..].
  - rewrite (load_same_outside _ _ _ _ _ _ H3) by lia. rewrite (load_store_other _ _ _ _ _ _ _ Hm2) by lia.
    rewrite (load_store_same _ _ _ _ _ Hm1), Z.mod_small by width_lia. done.
  - rewrite (load_same_outside _ _ _ _ _ _ H3) by lia. by rewrite (load_store_same _ _ _ _ _ Hm2).
  - eapply meta_read_splice; [apply init_meta_ok; lia|done].
Qed.

Lemma init_pages_ok ps : 80 <= ps < 2 ^ 32 -> exists m, init_pages ps = Ok m /\ new_file ps m.
Proof.
  intros Hps. unfold init_pages. set (m0 := replicate _ _).
  assert (Z.of_nat (length m0) = 4 * ps) as Hl0 by (unfold m0; rewrite length_replicate; lia).
  destruct (init_meta_page_ok ps m0 0) as (m1&->&Ho1&Hi1&Hf1&Hr1); [lia..|]. cbn [mbind res_bind].
  pose proof (same_outside_length _ _ _ _ Ho1) as Hl1.
  destruct (init_meta_page_ok ps m1 1) as (m2&->&Ho2&Hi2&Hf2&Hr2); [lia..|]. cbn [mbind res_bind].
  pose proof (same_outside_length _ _ _ _ Ho2) as Hl2. rewrite Z.mul_0_l in *. rewrite Z.mul_1_l in *.
  rewrite Z.add_0_l in *.
  destruct (stores_ok [(8%nat, 2 * ps, 2); (2%nat, 2 * ps + 10, 0); (2%nat, 2 * ps + 8, freelistPageFlag);
    (8%nat, 3 * ps, 3); (2%nat, 3 * ps + 8, leafPageFlag); (2%nat, 3 * ps + 10, 0)] (2 * ps) (4 * ps) m2)
    as (m3&Hm3&Ho3&_&Hld); [lia|lia|cbn; repeat match goal with
      | |- _ /\ _ => split | |- Forall _ _ => constructor | |- True => done | _ => lia end|].
  rewrite pageInBuffer_ok by lia. cbn [mbind res_bind]. cbn [stores] in Hm3.
  unfold Page_set_id, Page_set_count, Page_set_flag.
  destruct (store 8 m2 _ _) as [m4|] eqn:E4; [|done]. cbn [mbind res_bind] in Hm3 |- *.
  destruct (store 2 m4 _ _) as [m5|] eqn:E5; [|done]. cbn [mbind res_bind] in Hm3 |- *.
  destruct (store 2 m5 _ _) as [m6|] eqn:E6; [|done]. cbn [mbind res_bind] in Hm3 |- *.
  rewrite pageInBuffer_ok.
  2-3: lia.
  2:{ apply store_length in E4, E5, E6. lia. }
  cbn [mbind res_bind].
  destruct (store 8 m6 _ _) as [m7|] eqn:E7; [|done]. cbn [mbind res_bind] in Hm3 |- *.
  destruct (store 2 m7 _ _) as [m8|] eqn:E8; [|done]. cbn [mbind res_bind] in Hm3 |- *.
  destruct (store 2 m8 _ _) as [m9|] eqn:E9; [|done]. cbn [mbind res_bind] in Hm3.
  exists m9. split; [done|]. injection Hm3 as <-. repeat (apply Forall_cons in Hld as [? Hld]).
  assert (forall n o, o + Z.of_nat n <= ps \/ ps + 80 <= o -> o + Z.of_nat n <= 2 * ps ->
    load n m9 o = load n m1 o) as Hpage1.
  { intros n o Hn Hn'. rewrite (load_same_outside _ _ _ _ _ _ Ho3) by lia. by apply (load_same_outside _ _ _ _ _ _ Ho2). }
  unfold PAGEHEADERSIZE in *. split; unfold Page_id, Page_flag, Page_count, PAGEHEADERSIZE in *.
  - rewrite (same_outside_length _ _ _ _ Ho3). lia.
  - eapply meta_read_same_outside; [exact Ho3|lia|]. eapply meta_read_same_outside; [exact Ho2|lia|done].
  - eapply meta_read_same_outside; [exact Ho3|lia|done].
  - split_and!; try done; [by rewrite Hpage1 by lia|]. rewrite (load_same_outside _ _ _ _ _ _ Ho3) by lia. done.
  - split_and!; try done; [by rewrite Hpage1 by lia|]. rewrite (load_same_outside _ _ _ _ _ _ Ho3) by lia. done.
  - by split.
Qed.

Lemma getMmapSize_ok t :
  0 <= t <= 2 ^ 30 -> exists i, getMmapSize t = Ok (0, 2 ^ i) /\ 15 <= i <= 30 /\ t <= 2 ^ i.
Proof.
  intros Ht. unfold getMmapSize. pose proof (getMmapSize_loop_spec 16 15 t ltac:(lia)) as Hs.
  destruct (getMmapSize_loop 16 15 t) as [s|].
  - destruct Hs as (i&Hi&->&Hti&_). exists i. split_and!; (done || lia).
  - pose proof (Hs 30 ltac:(lia)). lia.
Qed.

(** A file whose two meta pages hold the valid records [mt] and, one
    transaction or more before it, [old]. *)
Record meta_slots (f : list byte) (mt old : meta) : Prop := {
  ms_new : meta_read f (txid_ mt mod 2 * 4096 + PAGEHEADERSIZE) = Ok mt;
  ms_old : meta_read f ((1 - txid_ mt mod 2) * 4096 + PAGEHEADERSIZE) = Ok old;
  ms_valid : validate mt = true;
  ms_old_valid : validate old = true;
  ms_newer : txid_ old < txid_ mt;
  ms_length : 8192 <= Z.of_nat (length f) <= 2 ^ 30;
}.

Lemma slot_zero f mt old : meta_slots f mt old ->
  exists m, meta_read f PAGEHEADERSIZE = Ok m /\ validate m = true.
Proof.
  intros [Hn Ho Hv Hov _ _]. pose proof (Z.mod_pos_bound (txid_ mt) 2 ltac:(lia)).
  assert (txid_ mt mod 2 = 0 \/ txid_ mt mod 2 = 1) as [E|E] by lia; rewrite E in *; [by exists mt|by exists old].
Qed.

Lemma new_file_slots m : new_file DEFAULTPAGESIZE m ->
  meta_slots m (init_meta DEFAULTPAGESIZE 1) (init_meta DEFAULTPAGESIZE 0).
Proof. intros Hm. pose proof (nf_length _ _ Hm). unfold DEFAULTPAGESIZE in *. split; try apply Hm; done || lia. Qed.

Lemma new_file_freelist f ps m : new_file ps m ->
  FreeList.read f m (2 * ps) = Ok (reindex (mkFreeList [] (pending_ f) (cache_ f))).
Proof. intros Hm. unfold FreeList.read. destruct (nf_counts _ _ Hm) as [-> _]. done. Qed.

(** [Init] overwrites the first four pages of whatever file there is. *)
Lemma Init_writes `{Env} w :
  env_syscall (length (w_calls w)) = true -> (forall k len, env_pwrite k len = len) -> 80 <= env_getpagesize < 2 ^ 30 ->
  exists m w', Init w = Ok (0, w') /\ init_pages env_getpagesize = Ok m /\ new_file env_getpagesize m /\
    w_file w' = file_write (w_file w) 0 m /\
    w_db w' = dset_filesz_ (4 * env_getpagesize) (dset_DB_pageSize_ env_getpagesize (w_db w)) /\
    w_map w' = w_map w /\ w_gen w' = w_gen w /\ w_txs w' = w_txs w /\
    w_calls w' = (if env_syscall (S (length (w_calls w))) then Fsync else OtherCall) :: Pwrite 0 m :: w_calls w.
Proof.
  intros Hsys Hpw Hps. destruct (init_pages_ok env_getpagesize) as (m&Hm&Hnew); [lia|].
  pose proof (nf_length _ _ Hnew) as Hlen. unfold Init.
  erewrite bindM_ok by apply upd_db_ok. cbn beta.
  erewrite bindM_ok by (apply lift_ok; exact Hm). cbn beta.
  erewrite bindM_ok.
  2:{ unfold writeAt. erewrite bindM_ok by apply gets_ok. cbn beta zeta. rewrite Hpw, Z.min_id, Nat2Z.id, firstn_all.
      erewrite bindM_ok by reflexivity. cbn beta. cbn [w_calls wset_w_db]. rewrite Hsys. reflexivity. }
  cbn beta. rewrite Z.eqb_refl. cbn [negb].
  erewrite bindM_ok by reflexivity. cbn beta.
  erewrite bindM_ok by apply upd_db_ok. cbn beta.
  exists m. eexists. split; [reflexivity|]. do 2 (split; [done|]).
  cbn [w_file w_db w_map w_gen w_txs w_calls wset_w_db wset_w_calls wset_w_file].
  rewrite wrap_id, Hlen by lia. by split_and!.
Qed.

(** The state once [Open] has taken the lock file, and opened and measured
    the database file, [stat] being what [fstat] gave. *)
Definition begin_open (opts : Options) (fd : Z) (stat : bool) (w : World) : World :=
  wset_w_calls (OtherCall :: OtherCall :: OtherCall :: w_calls w) (wset_w_db
    (dset_filesz_ (wrap32 (GetFileSize (if stat then Some (Z.of_nat (length (w_file w))) else None))) (dset_file_ fd
      (dset_readOnly_ (ReadOnly opts || readOnly_ (w_db w)) (dset_AllocSize_ DEFAULTALLOCSIZE
        (dset_NoGrowSync_ (NoGrowSync opts) (dset_opened_ true (w_db w))))))) w).

Lemma Open_begin `{Env} w opts fd :
  file_ (w_db w) = 0 -> env_syscall (length (w_calls w)) = true -> env_syscall (S (length (w_calls w))) = true ->
  let w3 := begin_open opts fd (env_syscall (2 + length (w_calls w))) w in
  Open opts fd w = (r ← (if filesz_ (w_db w3) =? 0 then Init else ret 0);
    if negb (r =? 0) then give_up_open else open_pages opts) w3.
Proof.
  intros Hfd Hlock Hopen w3. unfold Open. erewrite bindM_ok by apply get_db_ok. cbn beta. rewrite Hfd. cbn [Z.ltb Z.compare].
  erewrite bindM_ok by apply syscall_other. cbn beta. rewrite Hlock. cbn [negb]. unfold Open_locked.
  erewrite bindM_ok by apply upd_db_ok. cbn beta. erewrite bindM_ok by apply upd_db_ok. cbn beta.
  erewrite bindM_ok by apply upd_db_ok. cbn beta.
  match goal with |- context [(_ ≫= _) ?w0] => set (w1 := w0) end.
  assert ((if ReadOnly opts then upd_db (dset_readOnly_ true) else ret tt) w1 =
    Ok (tt, wset_w_db (dset_readOnly_ (ReadOnly opts || readOnly_ (w_db w)) (w_db w1)) w1)) as Hro.
  { destruct (ReadOnly opts); [reflexivity|]. unfold w1. by destruct w as [? ? ? [] ? ? ? ? ?]. }
  erewrite bindM_ok by exact Hro. cbn beta.
  erewrite bindM_ok by apply syscall_other. cbn beta. cbn [w_calls w1 wset_w_db wset_w_calls length]. rewrite Hopen.
  erewrite bindM_ok by apply upd_db_ok. cbn beta iota. cbn [negb].
  erewrite bindM_ok by apply syscall_other. cbn beta.
  erewrite bindM_ok by apply gets_ok. cbn beta iota.
  erewrite bindM_ok by apply upd_db_ok. cbn beta. erewrite bindM_ok by apply get_db_ok. reflexivity.
Qed.

Section new_file.
Context `{Env}.
Hypothesis calls_succeed : forall k, env_syscall k = true.
Hypothesis pwrite_whole : forall k len, env_pwrite k len = len.
#[local] Set Default Proof Using "All".

Lemma syscall_true c w : syscall c w = Ok (true, wset_w_calls (c :: w_calls w) w).
Proof using calls_succeed. unfold syscall. by rewrite calls_succeed. Qed.

(** [Init] on an empty file. *)
Lemma Init_ok w :
  w_file w = [] -> 80 <= env_getpagesize < 2 ^ 30 ->
  exists m w', Init w = Ok (0, w') /\ init_pages env_getpagesize = Ok m /\ new_file env_getpagesize m /\ w_file w' = m /\
    w_db w' = dset_filesz_ (4 * env_getpagesize) (dset_DB_pageSize_ env_getpagesize (w_db w)) /\
    w_map w' = w_map w /\ w_gen w' = w_gen w /\ w_txs w' = w_txs w /\ w_calls w' = Fsync :: Pwrite 0 m :: w_calls w.
Proof.
  intros Hf Hps. destruct (Init_writes w) as (m&w'&Hrun&Hm&Hnew&Hf'&Hrest); [done|done|done|].
  exists m, w'. rewrite calls_succeed in Hrest. do 3 (split; [done|]). split; [|exact Hrest].
  rewrite Hf', Hf. unfold file_write. cbn. rewrite drop_ge by (cbn; lia). by rewrite app_nil_r.
Qed.

(** [initMeta] on a file with valid meta pages, not yet mapped. *)
Lemma initMeta_ok w sz mt old :
  meta_slots (w_file w) mt old -> w_map w = None -> rwtx_ (w_db w) = None ->
  mmapWriter_ (w_db w) = false -> mmapReaders_ (w_db w) = 0%nat ->
  DB_pageSize_ (w_db w) = DEFAULTPAGESIZE -> filesz_ (w_db w) = Z.of_nat (length (w_file w)) -> 0 <= sz <= 2 ^ 30 ->
  exists i, 15 <= i <= 30 /\ Z.of_nat (length (w_file w)) <= 2 ^ i /\ sz <= 2 ^ i /\ initMeta sz w = Ok (0,
    wset_w_calls (OtherCall :: OtherCall :: w_calls w) (wset_w_gen (S (w_gen w)) (wset_w_map (Some (2 ^ i)) (wset_w_db
      (dset_meta0_ (Some (PMap (S (w_gen w)) 16)) (dset_meta1_ (Some (PMap (S (w_gen w)) 4112))
        (dset_datasz_ (2 ^ i) (w_db w)))) w)))).
Proof.
  intros Hslots Hmap Hrw Hwr Hrd Hps Hfsz Hsz. unfold DEFAULTPAGESIZE in *.
  destruct (slot_zero _ _ _ Hslots) as (m0&Hm0&Hv0). pose proof (ms_length _ _ _ Hslots) as Hlen.
  destruct (getMmapSize_ok (Z.max (filesz_ (w_db w)) sz)) as (i&Hi&Hir&Hle); [lia|].
  exists i. split; [done|]. do 2 (split; [lia|]). unfold initMeta, getMmapWLock.
  erewrite bindM_ok.
  2:{ erewrite bindM_ok by apply get_db_ok. cbn beta. rewrite Hwr, Hrd. reflexivity. }
  cbn beta. erewrite bindM_ok by reflexivity. cbn beta.
  erewrite bindM_ok.
  2:{ unfold initMeta_locked. erewrite bindM_ok by apply get_db_ok. cbn beta.
      cbn [w_db wset_w_db filesz_ DB_pageSize_ dset_mmapWriter_]. rewrite Hps.
      change (wrap32 (4096 * 2)) with 8192. rewrite (proj2 (Z.ltb_ge (filesz_ (w_db w)) 8192)) by lia.
      erewrite bindM_ok by (apply lift_ok; exact Hi). cbn beta iota.
      cbn [negb Z.eqb rwtx_ dset_mmapWriter_]. rewrite Hrw.
      erewrite bindM_ok by reflexivity. cbn beta. unfold DbMunmap.
      erewrite bindM_ok.
      2:{ erewrite bindM_ok by apply gets_ok. cbn beta. cbn [w_map wset_w_db]. rewrite Hmap. reflexivity. }
      cbn [negb]. unfold mmapDbFile.
      erewrite bindM_ok.
      2:{ erewrite bindM_ok by apply syscall_true. cbn [negb]. erewrite bindM_ok by apply syscall_true.
          cbn beta. erewrite bindM_ok by reflexivity. cbn beta. erewrite bindM_ok by apply upd_db_ok. reflexivity. }
      cbn [negb]. erewrite bindM_ok by reflexivity. cbn beta.
      erewrite bindM_ok.
      2:{ apply (reads_ok (fun w => meta_at w (meta0_ (w_db w)))).
          transitivity (meta_read (w_file w) PAGEHEADERSIZE); [|exact Hm0].
          etransitivity; [|apply (on_page_map (wset_w_gen (S (w_gen w)) (wset_w_map (Some (2 ^ i)) w))
            PAGEHEADERSIZE (2 ^ i)); [done|cbn; lia]]. reflexivity. }
      cbn beta. rewrite Hv0. reflexivity. }
  destruct w as [? ? ? d ? ? ? ? ?]. destruct d. cbn in *. subst. reflexivity.
Qed.

(** [Open] from the first page on, of a file with valid meta pages and a free
    list's page that reads. *)
Lemma open_pages_ok w opts mt old F :
  meta_slots (w_file w) mt old -> w_map w = None -> rwtx_ (w_db w) = None ->
  mmapWriter_ (w_db w) = false -> mmapReaders_ (w_db w) = 0%nat ->
  filesz_ (w_db w) = Z.of_nat (length (w_file w)) -> 0 <= InitialMMapSize opts <= 2 ^ 30 ->
  0 <= freeListPageNumber_ mt < 2 ^ 32 ->
  FreeList.read (freeList_ (w_db w)) (w_file w) (freeListPageNumber_ mt * 4096) = Ok F ->
  exists i w', open_pages opts w = Ok (0, w') /\ DB_getMeta w' = Ok mt /\
    15 <= i <= 30 /\ Z.of_nat (length (w_file w)) <= 2 ^ i /\ InitialMMapSize opts <= 2 ^ i /\
    w_file w' = w_file w /\ w_map w' = Some (2 ^ i) /\ w_gen w' = S (w_gen w) /\ w_txs w' = w_txs w /\
    w_calls w' = replicate 3 OtherCall ++ w_calls w /\ w_db w' = dset_freeList_ F
      (dset_meta0_ (Some (PMap (S (w_gen w)) 16)) (dset_meta1_ (Some (PMap (S (w_gen w)) 4112))
        (dset_datasz_ (2 ^ i) (dset_DB_pageSize_ DEFAULTPAGESIZE (w_db w))))).
Proof.
  intros Hslots Hmap Hrw Hwr Hrd Hfsz Hsz Hfp HF. unfold open_pages.
  destruct (slot_zero _ _ _ Hslots) as (m0&Hm0&Hv0). pose proof (ms_length _ _ _ Hslots) as Hlen.
  erewrite bindM_ok by apply syscall_true. cbn [negb].
  erewrite bindM_ok by apply gets_ok. cbn beta.
  assert (meta_read (read_first_page w) PAGEHEADERSIZE = Ok m0) as Hfirst.
  { unfold read_first_page. rewrite take_app_le by lia. apply meta_read_take; unfold METASIZE, PAGEHEADERSIZE; try done; lia. }
  change (read_first_page (wset_w_calls _ w)) with (read_first_page w).
  erewrite bindM_ok by (apply lift_ok; exact Hfirst). cbn beta.
  erewrite bindM_ok by apply upd_db_ok. cbn beta. rewrite Hv0.
  match goal with |- context [(_ ≫= _) ?w0] => set (w1 := w0) end.
  destruct (initMeta_ok w1 (InitialMMapSize opts) mt old) as (i&Hi&Hli&Hsi&Hrun); [done..|].
  erewrite bindM_ok by exact Hrun. cbn [Z.eqb].
  match goal with |- context [(_ ≫= _) ?w0] => set (w2 := w0) end.
  assert (2 ^ 15 <= 2 ^ i) as H15 by (apply Z.pow_le_mono_r; lia).
  assert (DB_getMeta w2 = Ok mt) as Hgm.
  { pose proof (Z.mod_pos_bound (txid_ mt) 2 ltac:(lia)).
    eapply (DB_getMeta_slots w2 (2 ^ i) mt old (txid_ mt mod 2)); [done|done|done|lia|cbn; lia|lia|..]; apply Hslots. }
  erewrite bindM_ok by (apply (reads_ok DB_getMeta); exact Hgm). cbn beta.
  erewrite bindM_ok by apply gets_ok. cbn beta. erewrite bindM_ok by apply get_db_ok. cbn beta.
  erewrite bindM_ok.
  2:{ match goal with |- page_read ?p ?g ?w0 = _ => apply (reads_ok (fun w => on_page w p g)) end.
      unfold getPagePtr. cbn [DB_pageSize_ w_db w2 wset_w_db wset_w_calls wset_w_gen wset_w_map w1 dset_meta0_ dset_meta1_
        dset_datasz_ dset_DB_pageSize_]. unfold DEFAULTPAGESIZE. rewrite wrap_id by lia.
      etransitivity; [apply (on_page_map w2 _ (2 ^ i)); [done|exact Hli]|]. exact HF. }
  cbn beta. erewrite bindM_ok by apply upd_db_ok. cbn beta.
  exists i. eexists. split; [reflexivity|]. split_and!; try done; lia.
Qed.
End new_file.

(** ** Properties *)

(** C13. A write transaction starts from a copy of the current meta record,
    with the next transaction id, and makes available exactly the pages freed
    by transactions older than every open read transaction: what a reader's
    snapshot holds stays out of the free list.  Only the free list, the
    writer's lock and the transaction itself change. *)
Theorem beginRWTx_releases w mt mts :
  readOnly_ (w_db w) = false -> rwLock_ (w_db w) = false -> opened_ (w_db w) = true ->
  DB_getMeta w = Ok mt -> Forall2 (fun t m => tx_meta w t = Ok m) (txs_ (w_db w)) mts ->
  (forall u l, pending_ (freeList_ (w_db w)) !! u = Some l -> 0 <= u < UINT64_MAX) ->
  exists t b w' f', beginRWTx w = Ok (Some t, w') /\
    w_txs w !! t = None /\ w_txs w' = <[t := begun true b mt]> (w_txs w) /\
    w_db w' = dset_freeList_ f' (dset_rwtx_ (Some t) (dset_rwLock_ true (w_db w))) /\
    w_file w' = w_file w /\ w_map w' = w_map w /\ w_blocks w' = w_blocks w /\
    (forall id, id ∈ ids_ f' <-> id ∈ ids_ (freeList_ (w_db w)) \/
       exists u l, pending_ (freeList_ (w_db w)) !! u = Some l /\ id ∈ l /\
         forall m, m ∈ mts -> u < txid_ m) /\
    (forall u l m, pending_ (freeList_ (w_db w)) !! u = Some l -> m ∈ mts -> txid_ m <= u ->
       pending_ f' !! u = Some l).
Proof.
  intros Hro Hlk Hop Hmt Hl Hpend.
  destruct (beginRWTx_ok w mt mts Hro Hlk Hop Hmt Hl) as (w'&Hrun&Htx&_&Hdb&Hf&Hm&_&Hbl&_).
  eexists _, _, w', _. split; [exact Hrun|]. split; [apply fresh_key_None|]. split; [exact Htx|].
  split; [exact Hdb|]. split_and!; [done..| |].
  - intros id. rewrite begin_freelist_ids by (intros; by eapply Hpend).
    destruct (least_txid_le mts UINT64_MAX) as [_ Hle].
    split; (intros [?|(u&l&Hu&Hid&Hlt)]; [by left|right; exists u, l; split_and!; [done..|]]).
    + intros m Hin. apply Hle in Hin. lia.
    + pose proof (Hpend _ _ Hu). pose proof (least_txid_greatest mts (u + 1) UINT64_MAX ltac:(lia)) as Hg.
      enough (u + 1 <= least_txid UINT64_MAX mts) by lia. apply Hg. intros m Hin. specialize (Hlt m Hin). lia.
  - intros u l m Hu Hin Hle. apply begin_freelist_pending. split; [done|left].
    destruct (least_txid_le mts UINT64_MAX) as [_ Hmin]. specialize (Hmin m Hin). lia.
Qed.

(** C21. [view] runs a reader and leaves nothing of it behind.  The callback
    runs in [view_world]: the world as it was but for a new read-only
    transaction over the current meta record with its root bucket, which is
    counted as a reader of the mapping and of the database.  When it returns
    and has left the database object as it found it and its transaction
    read-only, as reading does, [view] restores the database object, its locks,
    its list of transactions and its free list included, and changes nothing
    else of what the callback left, file and mapping included; the result is 0
    when the callback returned 0, else -1.  A fault of the callback is a fault
    of [view]. *)
Theorem view_restores w mt fn :
  mmapWriter_ (w_db w) = false -> opened_ (w_db w) = true -> DB_getMeta w = Ok mt -> txs_live w ->
  let t := fresh_key (w_txs w) in let w1 := view_world w mt in
  (forall r w2 v, fn t w1 = Ok (r, w2) -> w_db w2 = w_db w1 ->
     tx_of w2 t = Ok v -> writable_ v = false -> db_ v = true ->
     view fn w = Ok (if r =? 0 then 0 else -1, wset_w_db (w_db w) (with_tx t (tset_managed_ false v) w2))) /\
  (forall f, fn t w1 = Err f -> view fn w = Err f).
Proof.
  intros Hwr Hop Hmt [Hall Hrw] t w1.
  destruct (beginTx_world w mt Hwr Hop Hmt) as (w0&Hrun&Hman). fold t w1 in Hrun, Hman.
  assert (forall u, tx_live w u -> u <> t) as Hne by (intros u Hu ->; by apply (fresh_tx_not_live w)).
  unfold view. split.
  - intros r w2 v Hfn Hdb Hv Hwrt Hd. erewrite bindM_ok by exact Hrun. cbn beta iota.
    erewrite bindM_ok by exact Hman. cbn beta. erewrite bindM_ok by exact Hfn. cbn beta.
    erewrite bindM_ok by (apply (upd_tx_ok _ (tset_managed_ false)); exact Hv). cbn beta.
    erewrite bindM_ok.
    2:{ unfold rollback. erewrite bindM_ok by (apply get_tx_ok; apply tx_of_with). cbn beta.
        cbn [managed_ db_ writable_ tset_managed_]. rewrite Hd, Hwrt. reflexivity. }
    cbn beta. erewrite bindM_ok.
    2:{ unfold closeTx. erewrite bindM_ok by apply get_db_ok. cbn beta. rewrite decide_False.
        2:{ cbn. rewrite Hdb. cbn. intros Heq. rewrite Heq in Hrw. by apply (Hne t). }
        unfold removeTx, unlockMmapLock. reflexivity. }
    cbn beta. unfold ret, mret, M_ret. do 2 f_equal. unfold wset_w_db. cbn. f_equal.
    rewrite Hdb. unfold w1. cbn. rewrite Hwr. cbn. rewrite erase_tx_snoc; [by destruct (w_db w)|].
    rewrite Forall_forall in Hall. intros Hin. by apply (Hne t (Hall _ Hin)).
  - intros f Hfn. erewrite bindM_ok by exact Hrun. cbn beta iota.
    erewrite bindM_ok by exact Hman. cbn beta. by apply bindM_err.
Qed.

(** C23. When the callback of [update] fails, the transaction is never closed.
    The callback runs in [update_world].  When it returns another value than 0,
    whatever it has done, the lock still being held and its transaction still
    having its meta record, [update] forgets the pages the transaction freed,
    reads the free list back from the page its meta record names, and returns
    -1; nothing else changes, so the writer's lock stays held, and every later
    [update] blocks for ever.  When that page cannot be read back, [update]
    ends in the fault of the read. *)
Theorem update_failure_blocks `{Env} w mt mts fn r w2 v mt2 :
  readOnly_ (w_db w) = false -> rwLock_ (w_db w) = false -> opened_ (w_db w) = true ->
  DB_getMeta w = Ok mt -> Forall2 (fun t m => tx_meta w t = Ok m) (txs_ (w_db w)) mts ->
  let t := fresh_key (w_txs w) in
  fn t (update_world w mt mts) = Ok (r, w2) -> r <> 0 ->
  readOnly_ (w_db w2) = false -> rwLock_ (w_db w2) = true ->
  tx_of w2 t = Ok v -> writable_ v = true -> db_ v = true -> metaData_ v = Some mt2 ->
  match on_page w2 (getPagePtr w2 (freeListPageNumber_ mt2))
    (FreeList.reload (FreeList.rollback (freeList_ (w_db w2)) (txid_ mt2))) with
  | Ok f => let w' := wset_w_db (dset_freeList_ f (w_db w2)) (with_tx t (tset_managed_ false v) w2) in
      update fn w = Ok (-1, w') /\ forall fn2, update fn2 w' = Err Blocked
  | Err e => update fn w = Err e
  end.
Proof.
  intros Hro Hlk Hop Hmt Hl t Hfn Hr Hro2 Hlk2 Hv Hwrt Hd Hmt2.
  destruct (beginRWTx_world w mt mts Hro Hlk Hop Hmt Hl) as (w0&Hrun&Hman). fold t in Hrun, Hman.
  set (w3 := with_tx t (tset_managed_ false v) w2).
  assert (update fn w = (_ ← rollback t; ret (-1)) w3) as Hup.
  { unfold update. erewrite bindM_ok by exact Hrun. cbn beta iota.
    erewrite bindM_ok by exact Hman. cbn beta. erewrite bindM_ok by exact Hfn. cbn beta.
    erewrite bindM_ok by (apply (upd_tx_ok _ (tset_managed_ false)); exact Hv). cbn beta.
    by rewrite (proj2 (Z.eqb_neq _ _) Hr). }
  set (fl := FreeList.rollback (freeList_ (w_db w2)) (txid_ mt2)).
  assert (rollback t w3 = (f ← page_read (getPagePtr w2 (freeListPageNumber_ mt2)) (FreeList.reload fl);
    _ ← upd_db (dset_freeList_ f); ret 0) (wset_w_db (dset_freeList_ fl (w_db w2)) w3)) as Hrb.
  { unfold rollback. erewrite bindM_ok by (apply get_tx_ok; apply tx_of_with). cbn beta.
    cbn [managed_ db_ writable_ tset_managed_ metaData_]. rewrite Hd, Hwrt, Hmt2. cbn [negb].
    erewrite bindM_ok by reflexivity. cbn beta. erewrite bindM_ok by apply upd_db_ok. cbn beta.
    erewrite bindM_ok by apply get_db_ok. cbn beta. by erewrite bindM_ok by apply gets_ok. }
  set (w4 := wset_w_db (dset_freeList_ fl (w_db w2)) w3) in *.
  set (p := getPagePtr w2 (freeListPageNumber_ mt2)) in *.
  assert (on_page w4 p (FreeList.reload fl) = on_page w2 p (FreeList.reload fl)) as Hsame by done.
  rewrite Hup. destruct (on_page w2 p _) as [f|e] eqn:Hrel.
  - intros w'. split.
    + assert (rollback t w3 = Ok (0, w')) as Hend; [|by erewrite bindM_ok by exact Hend]. rewrite Hrb.
      erewrite bindM_ok by (apply (reads_ok (fun w => on_page w p (FreeList.reload fl))); exact Hsame).
      reflexivity.
    + intros fn2. unfold update, beginRWTx, lock_rw. apply bindM_err.
      erewrite bindM_ok by apply get_db_ok. cbn beta. cbn [w_db wset_w_db w' readOnly_ dset_freeList_].
      rewrite Hro2. apply bindM_err. erewrite bindM_ok by apply get_db_ok. cbn. by rewrite Hlk2.
  - apply bindM_err. rewrite Hrb. apply bindM_err. unfold page_read, reads. by rewrite Hsame.
Qed.

(** Opening an empty file creates a database: with page size 4096 and
    system calls succeeding, [Open] writes two valid meta pages, an empty free
    list and an empty leaf, maps the file, and leaves a database whose current
    meta record is that of transaction 1, with no available page and no lock
    held. *)
Lemma Open_creates `{Env} w opts fd :
  (forall k, env_syscall k = true) -> (forall k len, env_pwrite k len = len) ->
  env_getpagesize = DEFAULTPAGESIZE -> w_file w = [] -> w_map w = None ->
  file_ (w_db w) = 0 -> rwtx_ (w_db w) = None -> mmapWriter_ (w_db w) = false ->
  mmapReaders_ (w_db w) = 0%nat -> 0 <= InitialMMapSize opts <= 2 ^ 30 ->
  exists w', Open opts fd w = Ok (0, w') /\ new_file DEFAULTPAGESIZE (w_file w') /\
    (exists mt, DB_getMeta w' = Ok mt /\ validate mt = true /\ txid_ mt = 1 /\ root (root_ mt) = 3 /\
       freeListPageNumber_ mt = 2 /\ totalPageNumber_ mt = 4 /\ pageSize_ mt = DEFAULTPAGESIZE) /\
    opened_ (w_db w') = true /\ file_ (w_db w') = fd /\ readOnly_ (w_db w') = ReadOnly opts || readOnly_ (w_db w) /\
    DB_pageSize_ (w_db w') = DEFAULTPAGESIZE /\ filesz_ (w_db w') = Z.of_nat (length (w_file w')) /\
    ids_ (freeList_ (w_db w')) = [] /\ pending_ (freeList_ (w_db w')) = pending_ (freeList_ (w_db w)) /\
    mmapWriter_ (w_db w') = false /\ mmapReaders_ (w_db w') = 0%nat /\
    rwLock_ (w_db w') = rwLock_ (w_db w) /\ rwtx_ (w_db w') = None /\ txs_ (w_db w') = txs_ (w_db w).
Proof.
  intros Hsys Hpw Hps Hf Hmap Hfd Hrw Hwr Hrd Hsz. rewrite (Open_begin w opts fd Hfd) by apply Hsys.
  rewrite Hsys. set (w3 := begin_open opts fd true w). assert (w_file w3 = []) as Hf3 by exact Hf.
  assert ((filesz_ (w_db w3) =? 0) = true) as -> by (unfold w3; cbn; by rewrite Hf).
  destruct (Init_ok Hsys Hpw w3 Hf3) as (m&w4&Hini&_&Hnew&Hf4&Hdb4&Hmap4&_); [by rewrite Hps|].
  rewrite Hps in Hnew, Hdb4. erewrite bindM_ok by exact Hini. cbn [negb Z.eqb].
  assert (w_db w4 = dset_filesz_ (4 * DEFAULTPAGESIZE) (dset_DB_pageSize_ DEFAULTPAGESIZE (w_db w3))) as Hd4 by exact Hdb4.
  pose proof (nf_length _ _ Hnew) as Hlen.
  destruct (open_pages_ok Hsys Hpw w4 opts (init_meta DEFAULTPAGESIZE 1) (init_meta DEFAULTPAGESIZE 0)
    (reindex (mkFreeList [] (pending_ (freeList_ (w_db w))) (cache_ (freeList_ (w_db w))))))
    as (i&w'&Hrun&Hgm&_&_&_&Hf'&_&_&_&_&Hdb');
    rewrite ?Hf4, ?Hmap4, ?Hd4; try (done || exact Hmap || exact Hrw || exact Hwr || exact Hrd); [by apply new_file_slots|apply (new_file_freelist _ DEFAULTPAGESIZE); done|].
  exists w'. split; [exact Hrun|]. rewrite Hf', Hdb', Hd4, Hf4.
  cbn. rewrite Hwr, Hrd, Hrw. split_and!; try (done || lia).
  exists (init_meta DEFAULTPAGESIZE 1). by split_and!.
Qed.


(** C39. When [fstat] fails, [Open] destroys the database: [GetFileSize] reports
    a file it cannot measure as empty, and [Open] writes a new, empty database
    over the first pages of the one that is there, and goes on with it. *)
Theorem Open_fstat_failure_wipes `{Env} w opts fd :
  env_syscall (length (w_calls w)) = true -> env_syscall (S (length (w_calls w))) = true ->
  env_syscall (2 + length (w_calls w)) = false -> env_syscall (3 + length (w_calls w)) = true ->
  (forall k len, env_pwrite k len = len) -> env_getpagesize = DEFAULTPAGESIZE ->
  file_ (w_db w) = 0 -> 4 * DEFAULTPAGESIZE <= Z.of_nat (length (w_file w)) <= 2 ^ 30 ->
  exists w', Open opts fd w = open_pages opts w' /\
    meta_slots (w_file w') (init_meta DEFAULTPAGESIZE 1) (init_meta DEFAULTPAGESIZE 0).
Proof.
  intros Hlock Hopen Hstat Hwrite Hpw Hps Hfd Hlen. rewrite (Open_begin w opts fd Hfd Hlock Hopen), Hstat.
  set (w3 := begin_open opts fd false w). cbn zeta.
  destruct (Init_writes w3) as (m&w4&Hini&_&Hnew&Hf4&_); [exact Hwrite|done|by rewrite Hps|].
  change (filesz_ (w_db w3) =? 0) with true. erewrite bindM_ok by exact Hini. cbn [negb Z.eqb].
  exists w4. split; [done|]. rewrite Hf4. change (w_file w3) with (w_file w). rewrite Hps in Hnew.
  pose proof (nf_length _ _ Hnew) as Hm. destruct (new_file_slots m Hnew) as [H1 H2 H3 H4 H5 _].
  pose proof (file_write_length_eq (w_file w) 0 m ltac:(lia)) as Hl. unfold DEFAULTPAGESIZE in *.
  split; try done; [| |lia].
  - apply (meta_read_file_write (w_file w) 0 m) in H1; [exact H1|lia|vm_compute; discriminate|].
    change (txid_ (init_meta 4096 1) mod 2) with 1. unfold METASIZE, PAGEHEADERSIZE. lia.
  - apply (meta_read_file_write (w_file w) 0 m) in H2; [exact H2|lia|vm_compute; discriminate|].
    change (txid_ (init_meta 4096 1) mod 2) with 1. unfold METASIZE, PAGEHEADERSIZE. lia.
Qed.

(** ** Witnesses: a database of four pages of 128 bytes *)

Definition ex_pages : list byte := match init_pages 128 with Ok m => m | Err _ => [] end.
Definition ex_open_db : DB :=
  dset_DB_pageSize_ 128 (dset_meta1_ (Some (PMap 1 144))
    (dset_freeList_ {| ids_ := [7]; pending_ := {[2 := [9]]}; cache_ := ∅ |} sample_db)).
Definition ex_open : World :=
  wset_w_map (Some 512) (wset_w_file ex_pages (wset_w_db ex_open_db empty_world)).

Lemma beginRWTx_releases_witness :
  DB_getMeta ex_open = Ok (init_meta 128 1) /\
  exists t b w' f', beginRWTx ex_open = Ok (Some t, w') /\
    w_txs w' = <[t := begun true b (init_meta 128 1)]> (w_txs ex_open) /\
    w_db w' = dset_freeList_ f' (dset_rwtx_ (Some t) (dset_rwLock_ true (w_db ex_open))) /\ 9 ∈ ids_ f'.
Proof.
  split; [vm_compute; reflexivity|].
  destruct (beginRWTx_releases ex_open (init_meta 128 1) [])
    as (t&b&w'&f'&Hrun&_&Htx&Hdb&_&_&_&Hids&_).
  1-3: reflexivity.
  - vm_compute; reflexivity.
  - constructor.
  - intros u l Hu. change (({[2 := [9]]} : gmap Z (list Z)) !! u = Some l) in Hu.
    apply lookup_singleton_Some in Hu as [<- _]. done.
  - exists t, b, w', f'. split; [exact Hrun|]. split; [exact Htx|]. split; [exact Hdb|]. apply Hids. right. exists 2, [9].
    split; [vm_compute; reflexivity|]. split; [by apply list_elem_of_singleton|]. intros m Hm. apply not_elem_of_nil in Hm. destruct Hm.
Defined.

(** A callback that looks a bucket up, and fails with 5 when there is none. *)
Definition look_up (t : txptr) : M Z :=
  b ← Tx_getBucket (H:=sample_env) t (Item_of_string [Byte.x61]); ret (match b with Some _ => 0 | None => 5 end).

Lemma view_restores_witness :
  exists w', view look_up ex_open = Ok (-1, w') /\ w_db w' = w_db ex_open /\ w_file w' = w_file ex_open.
Proof.
  assert (exists w2 v, look_up 0%nat (view_world ex_open (init_meta 128 1)) = Ok (5, w2) /\
    w_db w2 = w_db (view_world ex_open (init_meta 128 1)) /\ w_file w2 = w_file ex_open /\
    tx_of w2 0%nat = Ok v /\ writable_ v = false /\ db_ v = true) as (w2&v&Hfn&Hdb&Hf&Hv&Hwr&Hd)
    by (do 2 eexists; split_and!; vm_compute; reflexivity).
  destruct (view_restores ex_open (init_meta 128 1) look_up) as [Hview _].
  1-2: reflexivity.
  - vm_compute; reflexivity.
  - split; [constructor|done].
  - specialize (Hview 5 w2 v Hfn Hdb Hv Hwr Hd). eexists. split; [exact Hview|]. split; [reflexivity|exact Hf].
Defined.

(** The world it leaves in an update, and its transaction there. *)
Definition world_of {A} (r : res (A * World)) : World := match r with Ok (_, w) => w | Err _ => empty_world end.
Definition is_ok {A} (r : res A) : bool := match r with Ok _ => true | Err _ => false end.
Definition ex_failed : World := world_of (look_up 0%nat (update_world ex_open (init_meta 128 1) [])).
Definition ex_failed_tx : Tx := match tx_of ex_failed 0%nat with Ok v => v | Err _ => Tx_new end.

Lemma update_failure_blocks_witness :
  exists w', update (H:=sample_env) look_up ex_open = Ok (-1, w') /\
    forall fn2, update (H:=sample_env) fn2 w' = Err Blocked.
Proof.
  pose proof (update_failure_blocks (H:=sample_env) ex_open (init_meta 128 1) [] look_up 5 ex_failed ex_failed_tx
    (meta_set_txid 2 (init_meta 128 1))) as H.
  assert (look_up 0%nat (update_world ex_open (init_meta 128 1) []) = Ok (5, ex_failed)) as Hfn
    by (vm_cast_no_check (eq_refl (Ok (5, ex_failed)))).
  specialize (H eq_refl eq_refl eq_refl ltac:(vm_compute; reflexivity) ltac:(constructor) Hfn ltac:(done)).
  specialize (H ltac:(vm_compute; reflexivity) ltac:(vm_compute; reflexivity) ltac:(vm_compute; reflexivity)
    ltac:(vm_compute; reflexivity) ltac:(vm_compute; reflexivity) ltac:(vm_compute; reflexivity)).
  assert (is_ok (on_page ex_failed (getPagePtr ex_failed 2)
    (FreeList.reload (FreeList.rollback (freeList_ (w_db ex_failed)) 2))) = true) as Hok by (vm_compute; reflexivity).
  change (freeListPageNumber_ _) with 2 in H. change (txid_ _) with 2 in H.
  destruct (on_page ex_failed _ _) as [f|e]; [|discriminate Hok].
  destruct H as [Hup Hblk]. eexists. split; [exact Hup|exact Hblk].
Defined.

(** A database object before its first [Open], with no file. *)
Definition ex_closed : World :=
  wset_w_db (DB_new (dset_opened_ false sample_db)) empty_world.

Lemma Open_creates_witness :
  exists w', Open (H:=sample_env) Options_new 3 ex_closed = Ok (0, w') /\
    new_file 4096 (w_file w') /\ (exists mt, DB_getMeta w' = Ok mt /\ txid_ mt = 1) /\ opened_ (w_db w') = true /\
    ids_ (freeList_ (w_db w')) = [].
Proof.
  destruct (Open_creates (H:=sample_env) ex_closed Options_new 3)
    as (w'&Hrun&Hnew&(mt&Hgm&_&Htx&_)&Hop&_&_&_&_&Hids&_).
  1-9: done.
  - done.
  - exists w'. split; [exact Hrun|]. split; [exact Hnew|]. split; [exists mt; split; [exact Hgm|exact Htx]|].
    split; [exact Hop|exact Hids].
Defined.

(** A database of 20000 bytes, on a system whose third call fails. *)
Definition ex_stat_env : Env := {|
  env_garbage := env_garbage (Env:=sample_env); env_page_addr := env_page_addr (Env:=sample_env);
  env_node_addr := env_node_addr (Env:=sample_env); env_item_addr := env_item_addr (Env:=sample_env);
  env_order_pgid := fun l => l; env_order_name := fun l => l;
  env_syscall := fun k => negb (Nat.eqb k 2);
  env_pwrite := fun _ len => len; env_getpagesize := 4096; env_uninit_flag := 0; env_fuel := 50;
|}.
Definition ex_existing : World := wset_w_file (replicate (Z.to_nat 20000) Byte.x07) ex_closed.

Lemma Open_fstat_failure_wipes_witness :
  exists w', Open (H:=ex_stat_env) Options_new 3 ex_existing = open_pages (H:=ex_stat_env) Options_new w' /\
    meta_read (w_file w') 4112 = Ok (init_meta 4096 1).
Proof.
  destruct (Open_fstat_failure_wipes (H:=ex_stat_env) ex_existing Options_new 3) as (w'&Ho&Hs).
  - reflexivity.
  - reflexivity.
  - reflexivity.
  - reflexivity.
  - reflexivity.
  - reflexivity.
  - reflexivity.
  - unfold ex_existing. cbn [w_file wset_w_file]. rewrite length_replicate. unfold DEFAULTPAGESIZE. lia.
  - exists w'. split; [exact Ho|]. exact (ms_new _ _ _ Hs).
Defined.
