(* ===== verification/Stage.v ===== *)
(** * Stage.v: versions, frames and staged pages

    What the commit of a write transaction is told with: the current version of
    the database ([leaf_version]), what work in a transaction leaves alone
    ([bucket_frame], [tx_frame]), and the pages a commit has allocated so far
    ([staged]): fresh blocks with a place in the file that no page of the
    version uses, known to nobody until the dirty pages are written. *)
From S2P Require Import Bytes.
From S2P Require Import Page.
From S2P Require Import FreeList.
From S2P Require Import Meta.
From S2P Require Import Node.
From S2P Require Import World.
From S2P Require Import Pager.
From S2P Require Import Tree.
From S2P Require Import Cursor.
From S2P Require Import Traversal.
From S2P Require Import Image.
From S2P Require Import Alloc.
From S2P Require Import Bucket.
From S2P Require Import Tx.
From S2P Require Import DB.

(** ** Versions *)

(** The pages [id .. id + n) of the current version: in the file, below the
    end, and not on the free list. *)
Record kept_page (w : World) (total id n : Z) (bs : list byte) : Prop := {
  kp_image : page_image (w_file w) 4096 id n bs;
  kp_range : 2 <= id /\ 1 <= n /\ id + n <= total;
  kp_kept : forall x, id <= x < id + n -> x ∉ all_pages (freeList_ (w_db w));
}.

(** An entry that is no sub-bucket. *)
Definition plain (x : Inode) : Prop := has_flag (i_flag x) bucketLeafFlag = false.

(** The entries of a sub-bucket, few enough for a page. *)
Record bucket_entries (es : InodeList) : Prop := {
  be_inodes : Forall leaf_inode es;
  be_plain : Forall plain es;
  be_sorted : keys_sorted es;
  be_small : page_bytes es < 4096;
}.

(** What the leaves of a version hold: the entries of the root bucket, and, by
    page, those of the sub-buckets that have a page of their own. *)
Record image := mkImage {
  im_root : InodeList;
  im_subs : gmap Z InodeList;
}.

(** The page [bs] is that of a sub-bucket with the entries [es]. *)
Definition sub_leaf (bs : list byte) (es : InodeList) : Prop :=
  page_leaf bs 0 (kv_of_inode <$> es) /\ bucket_entries es.

(** The version [mt] of a database whose leaves hold [im]: its meta record is
    current, and read from its slot; the pages of the root's leaf, of the
    sub-buckets and of the free list are in the file, none shares a page with
    another, and the free list spares them. *)
Record leaf_version (w : World) (mt : meta) (im : image) (np nf : Z) (pg fl : list byte) : Prop := {
  ve_ps : DB_pageSize_ (w_db w) = 4096;
  ve_map : w_map w = Some (datasz_ (w_db w));
  ve_meta0 : meta0_ (w_db w) = Some (PMap (w_gen w) 16);
  ve_meta1 : meta1_ (w_db w) = Some (PMap (w_gen w) 4112);
  ve_ok : meta_ok mt;
  ve_valid : validate mt = true;
  ve_slot : meta_read (w_file w) (txid_ mt mod 2 * 4096 + PAGEHEADERSIZE) = Ok mt;
  ve_current : DB_getMeta w = Ok mt;
  ve_room : totalPageNumber_ mt * 4096 <= datasz_ (w_db w) < 2 ^ 31;
  ve_file : 8192 <= Z.of_nat (length (w_file w)) <= Z.max (filesz_ (w_db w)) (totalPageNumber_ mt * 4096);
  ve_size : 0 <= filesz_ (w_db w) < 2 ^ 32;
  ve_root : kept_page w (totalPageNumber_ mt) (root (root_ mt)) np pg;
  ve_free : kept_page w (totalPageNumber_ mt) (freeListPageNumber_ mt) nf fl;
  ve_apart : root (root_ mt) + np <= freeListPageNumber_ mt \/ freeListPageNumber_ mt + nf <= root (root_ mt);
  ve_leaf : page_leaf pg 0 (kv_of_inode <$> im_root im);
  ve_inodes : Forall leaf_inode (im_root im);
  ve_sorted : keys_sorted (im_root im);
  ve_subs : forall id es, im_subs im !! id = Some es -> exists bs,
    kept_page w (totalPageNumber_ mt) id 1 bs /\ sub_leaf bs es;
  ve_subs_apart : forall id, is_Some (im_subs im !! id) ->
    ~ root (root_ mt) <= id < root (root_ mt) + np /\
    ~ freeListPageNumber_ mt <= id < freeListPageNumber_ mt + nf;
  ve_list : fl_ok (freeList_ (w_db w)) (totalPageNumber_ mt);
  ve_cover : totalPageNumber_ mt * 4096 <= Z.of_nat (length (w_file w));
}.

(** ** Frames *)

(** The buckets of other transactions than [t] are left alone. *)
Definition others_kept (t : txptr) (w w' : World) : Prop :=
  forall c cv, bucket_of w c = Ok cv -> tx_ cv <> t -> bucket_of w' c = Ok cv.

#[export] Instance others_kept_preorder t : PreOrder (others_kept t).
Proof. split; [by intros w c cv|]. intros w1 w2 w3 H1 H2 c cv Hc Ht. by apply H2; [apply H1|]. Qed.

Lemma others_kept_same t w w' : w_buckets w' = w_buckets w -> others_kept t w w'.
Proof. intros He c cv. unfold bucket_of. by rewrite He. Qed.

Lemma others_kept_insert t w w' b bv :
  w_buckets w' = <[b := bv]> (w_buckets w) -> (forall cv, bucket_of w b = Ok cv -> tx_ cv = t) -> others_kept t w w'.
Proof.
  intros He Hb c cv Hc Ht. unfold bucket_of in *. rewrite He, lookup_insert_ne; [done|].
  intros ->. by apply Ht, Hb.
Qed.

Lemma others_kept_fresh t w w' bv :
  w_buckets w' = <[fresh_key (w_buckets w) := bv]> (w_buckets w) -> others_kept t w w'.
Proof.
  intros He. apply (others_kept_insert t w w' _ bv He). intros cv Hc. unfold bucket_of in Hc.
  by rewrite fresh_key_None in Hc.
Qed.

(** The transaction but for its count of cursors. *)
Definition same_tx (tv tv' : Tx) : Prop := tset_cursorCount (cursorCount tv) tv' = tv.

Lemma same_tx_count tv tv' : same_tx tv tv' -> same_tx tv (count_cursor tv').
Proof. unfold same_tx. intros <-. by destruct tv'. Qed.
#[export] Instance same_tx_preorder : PreOrder same_tx.
Proof.
  split; [by intros []|]. intros tv1 tv2 tv3 H1 H2. unfold same_tx in *. rewrite <-H2 in H1. by destruct tv3.
Qed.

(** What working in [t] on the bucket [x] leaves alone: whatever is not [x],
    its nodes, or new. *)
Record bucket_frame (t : txptr) (x : bptr) (w w' : World) : Prop := {
  bf_db : w_db w' = w_db w;
  bf_file : w_file w' = w_file w;
  bf_map : w_map w' = w_map w;
  bf_gen : w_gen w' = w_gen w;
  bf_blocks : w_blocks w' = w_blocks w;
  bf_calls : w_calls w' = w_calls w;
  bf_txs : forall u, u <> t -> w_txs w' !! u = w_txs w !! u;
  bf_tx : forall tv, tx_of w t = Ok tv -> exists tv', tx_of w' t = Ok tv' /\ same_tx tv tv';
  bf_buckets : forall c cv, bucket_of w c = Ok cv -> c <> x -> bucket_of w' c = Ok cv;
  bf_nodes : forall n v, node_of w n = Ok v -> bucket_ v <> x -> node_of w' n = Ok v;
}.

#[export] Instance bucket_frame_preorder t x : PreOrder (bucket_frame t x).
Proof.
  split; [split; try done; by eexists|].
  intros w1 w2 w3 [A1 A2 A3 A4 A0 A5 A6 A7 A8 A9] [B1 B2 B3 B4 B0 B5 B6 B7 B8 B9]. split; try congruence; try auto.
  - intros u Hu. by rewrite B6, A6.
  - intros tv Ht. destruct (A7 tv Ht) as (tv2&H2&S2). destruct (B7 tv2 H2) as (tv3&H3&S3).
    exists tv3. split; [done|by etransitivity].
Qed.

Lemma bucket_frame_tx t x w tv : tx_of w t = Ok tv -> bucket_frame t x w (with_tx t (count_cursor tv) w).
Proof.
  intros Ht. split; try done.
  - intros u Hu. cbn. by rewrite lookup_insert_ne.
  - intros tv' Ht'. rewrite Ht in Ht'. injection Ht' as <-. eexists. split; [apply tx_of_with|by apply same_tx_count].
Qed.

Lemma bucket_frame_bucket t x w bv : bucket_frame t x w (with_bucket x bv w).
Proof. split; try done; [by eexists|]. intros c cv Hc Hx. by rewrite bucket_of_with_ne by (by apply not_eq_sym). Qed.

Lemma bucket_frame_new_bucket t x w bv : bucket_frame t x w (with_bucket (fresh_key (w_buckets w)) bv w).
Proof.
  split; try done; [by eexists|]. intros c cv Hc _. rewrite bucket_of_with_ne; [done|]. by eapply fresh_bucket_ne.
Qed.

Lemma bucket_frame_node t x w n v v' :
  node_of w n = Ok v -> bucket_ v = x -> bucket_frame t x w (with_node n v' w).
Proof.
  intros Hn Hx. split; try done; [by eexists|]. intros m mv Hm Hne. rewrite node_of_with_ne; [done|].
  intros ->. congruence.
Qed.

Lemma bucket_frame_new_node t x w v : bucket_frame t x w (with_node (fresh_key (w_nodes w)) v w).
Proof.
  split; try done; [by eexists|]. intros m mv Hm _. rewrite node_of_with_ne; [done|]. by eapply fresh_node_ne.
Qed.

Lemma bucket_frame_without t x w w' c :
  bucket_frame t x w w' -> (forall cv, bucket_of w c <> Ok cv) -> bucket_frame t x w (without_bucket c w').
Proof.
  intros [E1 E2 E3 E4 E0 E5 E6 E7 E8 E9] Hc. split; try done. intros d dv Hd Hne. specialize (E8 d dv Hd Hne).
  unfold bucket_of in *. cbn. rewrite lookup_delete_ne; [exact E8|]. intros <-. by eapply Hc.
Qed.

(** What working in [t] leaves alone: everything but its own memory. *)
Record tx_frame (t : txptr) (w w' : World) : Prop := {
  tf_db : w_db w' = w_db w;
  tf_file : w_file w' = w_file w;
  tf_map : w_map w' = w_map w;
  tf_gen : w_gen w' = w_gen w;
  tf_calls : w_calls w' = w_calls w;
  tf_txs : forall u, u <> t -> w_txs w' !! u = w_txs w !! u;
  tf_tx : forall tv, tx_of w t = Ok tv -> exists tv', tx_of w' t = Ok tv' /\ same_tx tv tv';
  tf_others : others_kept t w w';
}.

#[export] Instance tx_frame_preorder t : PreOrder (tx_frame t).
Proof.
  split; [split; try done; by eexists|].
  intros w1 w2 w3 [A1 A2 A3 A4 A5 A6 A7 A8] [B1 B2 B3 B4 B5 B6 B7 B8]. split; try congruence.
  - intros u Hu. by rewrite B6, A6.
  - intros tv Ht. destruct (A7 tv Ht) as (tv2&H2&S2). destruct (B7 tv2 H2) as (tv3&H3&S3).
    exists tv3. split; [done|by etransitivity].
  - by transitivity w2.
Qed.

Lemma bucket_frame_tx_frame t x w w' :
  bucket_frame t x w w' -> (forall bv, bucket_of w x = Ok bv -> tx_ bv = t) -> tx_frame t w w'.
Proof.
  intros [E1 E2 E3 E4 E0 E5 E6 E7 E8 E9] Hx. split; try done. intros c cv Hc Hne. apply E8; [done|].
  intros ->. by apply Hne, Hx.
Qed.

(** The transactions are as they were, but for [t]. *)
Lemma tx_frame_txs t w w' tv : tx_frame t w w' -> tx_of w' t = Ok tv -> w_txs w' = <[t := tv]> (w_txs w).
Proof.
  intros Hfr Ht%the_ok. apply map_eq. intros u. destruct (decide (u = t)) as [->|Hne].
  - by rewrite lookup_insert_eq.
  - rewrite lookup_insert_ne by done. by apply Hfr.
Qed.


(** ** A version in another state *)

(** The fields of the database a version depends on, the free list apart. *)
Record same_store (w w' : World) : Prop := {
  ss_ps : DB_pageSize_ (w_db w') = DB_pageSize_ (w_db w);
  ss_datasz : datasz_ (w_db w') = datasz_ (w_db w);
  ss_filesz : filesz_ (w_db w') = filesz_ (w_db w);
  ss_meta0 : meta0_ (w_db w') = meta0_ (w_db w);
  ss_meta1 : meta1_ (w_db w') = meta1_ (w_db w);
  ss_file : w_file w' = w_file w;
  ss_map : w_map w' = w_map w;
  ss_gen : w_gen w' = w_gen w;
}.

Lemma DB_getMeta_same w w' mt :
  same_store w w' ->
  meta0_ (w_db w) = Some (PMap (w_gen w) 16) -> meta1_ (w_db w) = Some (PMap (w_gen w) 4112) ->
  DB_getMeta w = Ok mt -> DB_getMeta w' = Ok mt.
Proof.
  intros [_ _ _ H0 H1 Hf Hm Hg] E0 E1 <-. unfold DB_getMeta, meta_at. rewrite H0, H1, E0, E1.
  cbn [deref mbind res_bind]. unfold on_page, mem_of. by rewrite Hf, Hm, Hg.
Qed.

Lemma leaf_version_same w w' mt im np nf pg fl :
  same_store w w' -> fl_ok (freeList_ (w_db w')) (totalPageNumber_ mt) ->
  (forall x, x ∈ all_pages (freeList_ (w_db w')) -> x ∈ all_pages (freeList_ (w_db w))) ->
  leaf_version w mt im np nf pg fl -> leaf_version w' mt im np nf pg fl.
Proof.
  intros Hs Hok Hsub [? ? ? ? ? ? ? ? ? ? ? Hroot Hfree ? ? ? ? Hsubs ? ? ?].
  assert (DB_getMeta w' = Ok mt) by (by apply (DB_getMeta_same w)).
  destruct Hs as [E1 E2 E3 E4 E5 E6 E7 E8].
  assert (forall id n bs, kept_page w (totalPageNumber_ mt) id n bs -> kept_page w' (totalPageNumber_ mt) id n bs) as Hkept.
  { intros id n bs [? ? Hk]. split; rewrite ?E6; try done. intros x Hx Hin%Hsub. by apply (Hk x). }
  split; rewrite ?E1, ?E2, ?E3, ?E4, ?E5, ?E6, ?E7, ?E8; auto.
  intros id es Hid. destruct (Hsubs id es Hid) as (bs&Hp&Hl). exists bs. auto.
Qed.

Lemma leaf_version_frame t x w w' mt im np nf pg fl :
  bucket_frame t x w w' -> leaf_version w mt im np nf pg fl -> leaf_version w' mt im np nf pg fl.
Proof.
  intros [E1 E2 E3 E4 E0 E5 _ _ _ _] Hver.
  apply (leaf_version_same w); rewrite ?E1; [split; by rewrite ?E1|apply Hver|done|exact Hver].
Qed.

Lemma runs_apart a n b m :
  1 <= n -> 1 <= m -> (forall x, a <= x < a + n -> ~ b <= x < b + m) -> a + n <= b \/ b + m <= a.
Proof. intros Hn Hm H. pose proof (H (Z.max a b)). lia. Qed.

(** The pages [n] bytes take, as the source counts them. *)
Definition pages_for (n : Z) : Z := n / 4096 + 1.

Lemma pages_for_bounds n k : 0 <= n < k * 4096 -> 1 <= pages_for n <= k /\ n < pages_for n * 4096.
Proof.
  intros Hn. unfold pages_for. pose proof (Z.div_mod n 4096). pose proof (Z.mod_pos_bound n 4096).
  assert (0 <= n / 4096) by (apply Z.div_pos; lia). assert (n / 4096 < k) by (apply Z.div_lt_upper_bound; lia). lia.
Qed.

Lemma pages_for_pos n : 0 <= n -> 1 <= pages_for n.
Proof. intros Hn. unfold pages_for. pose proof (Z.div_pos n 4096 Hn ltac:(lia)). lia. Qed.

Lemma page_bytes_nonneg l : Forall leaf_inode l -> 0 <= page_bytes l.
Proof.
  intros Hl. assert (Forall inode_wf l) as Hwf by (eapply Forall_impl; [exact Hl|by intros x []]).
  unfold page_bytes. pose proof (inode_bytes_sum_nonneg l Hwf). lia.
Qed.

(** ** Staged pages *)

(** The meta record of the write transaction on [mt]. *)
Definition next_meta (mt : meta) : meta := meta_set_txid (txid_ mt + 1) mt.

(** Pages in memory with a place in the file: how many, the block that holds
    them, and its bytes. *)
Record run := mkRun { rn_pages : Z; rn_block : nat; rn_bytes : list byte }.

(** The pages of the run at [id]. *)
Definition in_run (id : Z) (r : run) (x : Z) : Prop := id <= x < id + rn_pages r.

(** The write transaction [t] on the version [mt], whose commit began in [w0]
    and has allocated the runs [R], freeing pages on the way: the runs' pages
    were available when the commit began, and have left the free list; nothing
    is written to the file yet.  [mx] is the meta record of the transaction. *)
Record staged (w0 : World) (t : txptr) (mt : meta) (w : World) (tv : Tx) (mx : meta) (R : gmap Z run) : Prop := {
  sg_tx : tx_of w t = Ok tv;
  sg_open : db_ tv = true /\ writable_ tv = true;
  sg_meta : metaData_ tv = Some mx;
  sg_txid : txid_ mx = txid_ mt + 1;
  sg_total : totalPageNumber_ mt <= totalPageNumber_ mx;
  sg_top : totalPageNumber_ mx = totalPageNumber_ mt \/ exists id r, R !! id = Some r /\ totalPageNumber_ mx = id + rn_pages r;
  sg_dirty : dirtyPageTable_ tv = (fun r => PHeap (rn_block r) 0) <$> R;
  sg_blocks : forall id r, R !! id = Some r -> w_blocks w !! rn_block r = Some (rn_bytes r);
  sg_pages : forall id r, R !! id = Some r -> fresh_page (rn_bytes r) 4096 id (rn_pages r);
  sg_range : forall id r, R !! id = Some r -> 2 <= id /\ 1 <= rn_pages r /\ id + rn_pages r <= totalPageNumber_ mx;
  sg_apart : forall id id' r r' x, R !! id = Some r -> R !! id' = Some r' -> in_run id r x -> in_run id' r' x -> id = id';
  sg_separate : forall id id' r r', R !! id = Some r -> R !! id' = Some r' -> rn_block r = rn_block r' -> id = id';
  sg_new : forall id r x, R !! id = Some r -> in_run id r x -> available (freeList_ (w_db w0)) (totalPageNumber_ mt) x;
  sg_gone : forall id r x, R !! id = Some r -> in_run id r x -> x ∉ all_pages (freeList_ (w_db w));
  sg_list : fl_ok (freeList_ (w_db w)) (totalPageNumber_ mx);
  sg_old : forall x, x ∈ all_pages (freeList_ (w_db w)) -> x < totalPageNumber_ mt;
  sg_ids : forall x, x ∈ ids_ (freeList_ (w_db w)) -> x ∈ ids_ (freeList_ (w_db w0));
  sg_steps : rtc (writer_step (txid_ mt + 1)) (freeList_ (w_db w0)) (freeList_ (w_db w));
  sg_db : w_db w = dset_freeList_ (freeList_ (w_db w)) (w_db w0);
  sg_file : w_file w = w_file w0;
  sg_map : w_map w = w_map w0;
  sg_gen : w_gen w = w_gen w0;
  sg_calls : w_calls w = w_calls w0;
  sg_txs : forall u, u <> t -> w_txs w !! u = w_txs w0 !! u;
  sg_others : others_kept t w0 w;
}.

(** Pages of the version that nobody has freed, and those of a run: what the
    next version can use. *)
Definition lasts (w0 w : World) (mt : meta) (R : gmap Z run) (id n : Z) (bs : list byte) : Prop :=
  (exists b, R !! id = Some (mkRun n b bs)) \/
  (kept_page w0 (totalPageNumber_ mt) id n bs /\ forall x, id <= x < id + n -> x ∉ all_pages (freeList_ (w_db w))).

Section staged.
Context `{Env} (w0 : World) (t : txptr) (mt : meta) (im : image) (np nf : Z) (pg fl : list byte).
Hypothesis current : leaf_version w0 mt im np nf pg fl.
Hypothesis rwtx_t : rwtx_ (w_db w0) = Some t.
#[local] Set Default Proof Using "All".

Abbreviation total := (totalPageNumber_ mt).

(** Nothing allocated yet. *)
Lemma staged_init w tv :
  tx_frame t w0 w -> tx_of w t = Ok tv -> db_ tv = true -> writable_ tv = true -> metaData_ tv = Some (next_meta mt) ->
  dirtyPageTable_ tv = ∅ -> staged w0 t mt w tv (next_meta mt) ∅.
Proof.
  intros [Edb Ef Em Eg Ec Etx _ Eo] Ht Hdb Hwr Hm Hd. pose proof (ve_list _ _ _ _ _ _ _ current) as [_ _ Hb].
  assert (forall id r, (∅ : gmap Z run) !! id = Some r -> False) as He by (intros id r; by rewrite lookup_empty).
  split; rewrite ?Edb; try done; try (by intros * ?%He); try (by intros).
  - by left.
  - apply current.
  - intros x Hx. rewrite Forall_forall in Hb. by apply Hb.
  - by destruct (w_db w0).
Qed.

Section state.
Context (w : World) (tv : Tx) (mx : meta) (R : gmap Z run).
Hypothesis state : staged w0 t mt w tv mx R.

Lemma staged_store : same_store w0 w.
Proof. destruct state. split; try done; by rewrite sg_db0. Qed.

(** Work in the buckets of [t], which allocates nothing. *)
Lemma staged_frame x w' :
  bucket_frame t x w w' -> (forall bv, bucket_of w x = Ok bv -> tx_ bv = t) ->
  exists tv', staged w0 t mt w' tv' mx R /\ same_tx tv tv'.
Proof.
  intros Hfr Hx. pose proof (bucket_frame_tx_frame t x w w' Hfr Hx) as Htf.
  destruct Hfr as [E1 E2 E3 E4 E0 E5 E6 E7 _ _]. destruct state.
  destruct (E7 tv sg_tx0) as (tv'&Htv'&Hs). exists tv'. split; [|exact Hs].
  pose proof Hs as Hs'. unfold same_tx in Hs'. rewrite <-Hs' in sg_open0, sg_meta0, sg_dirty0. destruct tv'; cbn in *.
  split; rewrite ?E1, ?E2, ?E3, ?E4, ?E0, ?E5; try done.
  - intros u Hu. by rewrite E6, sg_txs0.
  - transitivity w; [done|apply Htf].
Qed.

(** The transaction's meta record changes, but not what counts here. *)
Lemma staged_meta mx' :
  txid_ mx' = txid_ mx -> totalPageNumber_ mx' = totalPageNumber_ mx ->
  staged w0 t mt (with_tx t (tset_metaData_ (Some mx') tv) w) (tset_metaData_ (Some mx') tv) mx' R.
Proof.
  intros E1 E2. destruct state. split; rewrite ?E1, ?E2; try done; [apply tx_of_with|].
  intros u Hu. cbn. by rewrite lookup_insert_ne by (by apply not_eq_sym); apply sg_txs0.
Qed.

Lemma staged_tx_meta : tx_meta w t = Ok mx.
Proof.
  unfold tx_meta. rewrite (sg_tx _ _ _ _ _ _ _ state). cbn [mbind res_bind]. by rewrite (sg_meta _ _ _ _ _ _ _ state).
Qed.

Lemma staged_upd_meta g :
  upd_meta t g w = Ok (tt, with_tx t (tset_metaData_ (Some (g mx)) tv) w).
Proof.
  unfold upd_meta. erewrite bindM_ok by (apply (reads_ok (fun w => tx_meta w t)); exact staged_tx_meta).
  cbn beta. apply (upd_tx_ok _ (tset_metaData_ (Some (g mx)))). apply state.
Qed.

(** The pages of the version are none of the runs'. *)
Lemma staged_kept_run id n bs id' r x :
  kept_page w0 total id n bs -> R !! id' = Some r -> id <= x < id + n -> in_run id' r x -> False.
Proof.
  intros [_ Hr Hk] Hrun Hx Hx'. destruct (sg_new _ _ _ _ _ _ _ state _ _ _ Hrun Hx') as [Hin|?]; [|lia].
  apply (Hk x Hx). unfold all_pages. rewrite elem_of_app. by left.
Qed.

(** The transaction sees the version's pages where they are. *)
Lemma staged_getPage id n bs : kept_page w0 total id n bs -> getPage w t id = Ok (Some (getPagePtr w id)).
Proof.
  intros Hkp. pose proof Hkp as [_ Hr _]. unfold getPage. rewrite (sg_tx _ _ _ _ _ _ _ state). cbn [mbind res_bind].
  rewrite (sg_meta _ _ _ _ _ _ _ state). cbn [deref mbind res_bind].
  pose proof (sg_total _ _ _ _ _ _ _ state). rewrite (proj2 (Z.leb_gt _ _)) by lia.
  rewrite (sg_dirty _ _ _ _ _ _ _ state), lookup_fmap. destruct (R !! id) as [r|] eqn:E; [|done].
  exfalso. pose proof (sg_range _ _ _ _ _ _ _ state _ _ E). apply (staged_kept_run id n bs id r id Hkp E); unfold in_run; lia.
Qed.

(** Freeing pages of the version. *)
Lemma staged_free id n bs :
  kept_page w0 total id n bs -> (forall x, id <= x < id + n -> x ∉ all_pages (freeList_ (w_db w))) ->
  totalPageNumber_ mx * 4096 <= datasz_ (w_db w0) ->
  exists f, Tx_free (txid_ mx) (Some (getPagePtr w id)) w = Ok (tt, wset_w_db (dset_freeList_ f (w_db w)) w) /\
    staged w0 t mt (wset_w_db (dset_freeList_ f (w_db w)) w) tv mx R /\
    all_pages f ≡ₚ all_pages (freeList_ (w_db w)) ++ seqZ id n.
Proof.
  intros Hkp Hspared Hroom. pose proof Hkp as [Himg Hr Hk]. pose proof staged_store as Hss.
  pose proof (ve_room _ _ _ _ _ _ _ current) as Hdz. pose proof (ve_ps _ _ _ _ _ _ _ current) as Hps.
  pose proof (sg_total _ _ _ _ _ _ _ state) as HT. pose proof (sg_txid _ _ _ _ _ _ _ state) as Htx.
  destruct (Tx_free_ok w (datasz_ (w_db w0)) (txid_ mx) id n bs (totalPageNumber_ mx)) as (f&Hrun&[Hok Hids Hpages Hstep]);
    rewrite ?(ss_ps _ _ Hss), ?(ss_file _ _ Hss), ?(ss_map _ _ Hss), ?Hps; try done; try lia; [apply current|apply state|].
  exists f. split; [exact Hrun|]. split; [|exact Hpages]. set (w' := wset_w_db _ w).
  assert (freeList_ (w_db w') = f) as Hf by done.
  destruct state. split; rewrite ?Hf; try done.
  - intros id' r x Hrun' Hx. rewrite Hpages, elem_of_app, elem_of_seqZ. intros [Hin|Hin]; [by eapply sg_gone0|].
    by eapply (staged_kept_run id n bs).
  - intros x. rewrite Hpages, elem_of_app, elem_of_seqZ. intros [Hin|Hin]; [by apply sg_old0|lia].
  - intros x. rewrite Hids. apply sg_ids0.
  - eapply rtc_r; [done|]. by rewrite <-Htx.
  - unfold w'. cbn. by rewrite sg_db0.
Qed.

(** Allocating a run of [k] pages. *)
Lemma staged_take k :
  1 <= k < 4096 -> (totalPageNumber_ mx + k + 1) * 4096 <= datasz_ (w_db w0) ->
  exists id b m f T w', Tx_allocate t k w = Ok (Some (PHeap b 0), w') /\
    w' = allocated b m f t (with_dirty id (PHeap b 0) (k * 4096) tv) (meta_set_total T mx) w /\ R !! id = None /\
    staged w0 t mt w' (tset_metaData_ (Some (meta_set_total T mx)) (with_dirty id (PHeap b 0) (k * 4096) tv))
      (meta_set_total T mx) (<[id := mkRun k b m]> R) /\
    totalPageNumber_ mx <= T <= totalPageNumber_ mx + k /\ (forall x, x ∈ all_pages f -> x ∈ all_pages (freeList_ (w_db w))).
Proof.
  intros Hk Hroom. pose proof staged_store as Hss. pose proof (ve_room _ _ _ _ _ _ _ current) as Hdz.
  pose proof (ve_ps _ _ _ _ _ _ _ current) as Hps. pose proof (sg_total _ _ _ _ _ _ _ state) as HT.
  pose proof (kp_range _ _ _ _ _ (ve_root _ _ _ _ _ _ _ current)) as Hrr.
  destruct (Tx_allocate_ok w t tv mx k) as (m&id&f&T&Hal&Hfresh&Htk);
    rewrite ?(ss_ps _ _ Hss), ?(ss_datasz _ _ Hss), ?Hps; try apply state; try done; try lia.
  { by rewrite (sg_db _ _ _ _ _ _ _ state). }
  rewrite (ss_ps _ _ Hss), Hps in Hal, Hfresh. set (b := fresh_key (w_blocks w)) in *.
  destruct Htk as [A1 A2 A3 A4 A5 A6 AT A7 A8 A9 AS]. destruct state.
  assert (forall x, available (freeList_ (w_db w)) (totalPageNumber_ mx) x -> available (freeList_ (w_db w0)) total x) as Hav.
  { intros x [?%sg_ids0|?]; [by left|right; lia]. }
  assert (forall id' r x, R !! id' = Some r -> in_run id' r x -> ~ id <= x < id + k) as Hnew.
  { intros id' r x Hr Hx Hx'. destruct (A2 x Hx') as [Hin|?].
    - apply (sg_gone0 id' r x Hr Hx). unfold all_pages. rewrite elem_of_app. by left.
    - unfold in_run in Hx. destruct (sg_range0 id' r Hr). lia. }
  assert (forall id' r, R !! id' = Some r -> rn_block r <> b) as Hblk.
  { intros id' r Hr He. pose proof (sg_blocks0 id' r Hr) as Hl. unfold b in He. by rewrite He, fresh_key_None in Hl. }
  assert (R !! id = None) as Hid.
  { destruct (R !! id) as [r|] eqn:E; [|done]. exfalso. destruct (sg_range0 id r E) as (?&?&?).
    apply (Hnew id r id E); unfold in_run; lia. }
  exists id, b, m, f, T. eexists. split; [exact Hal|]. split; [done|]. split; [exact Hid|]. split; [|by split; [lia|]].
  split; cbn; try done.
  - apply the_ok, lookup_insert_eq.
  - lia.
  - destruct AT as [->| ->]; [|right; exists id, (mkRun k b m); split; [apply lookup_insert_eq|done]].
    destruct sg_top0 as [->|(id'&r&Hr&->)]; [by left|right; exists id', r]. split; [|done].
    rewrite lookup_insert_ne by congruence. done.
  - by rewrite fmap_insert, sg_dirty0.
  - intros id' r. rewrite lookup_insert_Some. intros [[<- <-]|[Hne Hr]]; [apply lookup_insert_eq|].
    rewrite lookup_insert_ne by (by apply not_eq_sym; exact (Hblk id' r Hr)). exact (sg_blocks0 id' r Hr).
  - intros id' r. rewrite lookup_insert_Some. intros [[<- <-]|[Hne Hr]]; [done|by apply sg_pages0].
  - intros id' r. rewrite lookup_insert_Some. intros [[<- <-]|[Hne Hr]]; [cbn; lia|].
    destruct (sg_range0 id' r Hr). lia.
  - intros id1 id2 r1 r2 x. rewrite !lookup_insert_Some.
    intros [[<- <-]|[Hne1 Hr1]] [[<- <-]|[Hne2 Hr2]] Hx1 Hx2; [done|..].
    + by destruct (Hnew id2 r2 x Hr2 Hx2).
    + by destruct (Hnew id1 r1 x Hr1 Hx1).
    + by eapply sg_apart0.
  - intros id1 id2 r1 r2. rewrite !lookup_insert_Some.
    intros [[<- <-]|[Hne1 Hr1]] [[<- <-]|[Hne2 Hr2]] He; cbn in He; [done|..].
    + by destruct (Hblk id2 r2 Hr2).
    + by destruct (Hblk id1 r1 Hr1).
    + by eapply sg_separate0.
  - intros id' r x. rewrite lookup_insert_Some. intros [[<- <-]|[Hne Hr]] Hx; [by apply Hav, A2|by eapply sg_new0].
  - intros id' r x. rewrite lookup_insert_Some. intros [[<- <-]|[Hne Hr]] Hx; [by apply A9|].
    intros Hin%A7. by eapply sg_gone0.
  - intros x Hx%A7. by apply sg_old0.
  - intros x Hx. assert (available f T x) as Hx' by (by left). apply A3 in Hx' as [Hx' _].
    destruct Hx' as [?%sg_ids0|Hge]; [done|]. exfalso.
    assert (x ∈ all_pages f) as Hin by (unfold all_pages; rewrite elem_of_app; by left).
    apply A7, sg_old0 in Hin. lia.
  - eapply rtc_r; [done|apply AS].
  - by rewrite sg_db0.
  - intros u Hu. rewrite lookup_insert_ne by (by apply not_eq_sym). by apply sg_txs0.
Qed.

(** The bytes of a run are written in memory. *)
Lemma staged_write id r m :
  R !! id = Some r -> fresh_page m 4096 id (rn_pages r) ->
  staged w0 t mt (with_block (rn_block r) m w) tv mx (<[id := mkRun (rn_pages r) (rn_block r) m]> R).
Proof.
  intros Hr Hm. destruct state.
  assert (forall id' r', <[id := mkRun (rn_pages r) (rn_block r) m]> R !! id' = Some r' ->
    exists r0, R !! id' = Some r0 /\ rn_pages r' = rn_pages r0 /\ rn_block r' = rn_block r0) as Hold.
  { intros id' r'. rewrite lookup_insert_Some. intros [[<- <-]|[Hne Hr']]; [by exists r|by exists r']. }
  assert (forall id' r' r0 x, rn_pages r' = rn_pages r0 -> in_run id' r' x -> in_run id' r0 x) as Hin
    by (unfold in_run; intros id' r' r0 x ->; done).
  split; try done.
  - destruct sg_top0 as [->|(id'&r'&Hr'&->)]; [by left|right]. destruct (decide (id' = id)) as [->|Hne].
    + assert (r' = r) as -> by congruence. eexists id, _. split; [apply lookup_insert_eq|done].
    + exists id', r'. by rewrite lookup_insert_ne by congruence.
  - rewrite sg_dirty0, fmap_insert. cbn. symmetry. apply insert_id. by rewrite lookup_fmap, Hr.
  - intros id' r'. rewrite lookup_insert_Some. intros [[<- <-]|[Hne Hr']]; [apply lookup_insert_eq|].
    cbn. rewrite lookup_insert_ne; [exact (sg_blocks0 id' r' Hr')|]. intros He. destruct Hne; exact (sg_separate0 id id' r r' Hr Hr' He).
  - intros id' r'. rewrite lookup_insert_Some. intros [[<- <-]|[Hne Hr']]; [done|by apply sg_pages0].
  - intros id' r' (r0&Hr0&->&_)%Hold. by apply sg_range0.
  - intros id1 id2 r1 r2 x (s1&Hs1&E1&_)%Hold (s2&Hs2&E2&_)%Hold Hx1 Hx2. eapply sg_apart0; [exact Hs1|exact Hs2|..]; eauto.
  - intros id1 id2 r1 r2 (s1&Hs1&_&E1)%Hold (s2&Hs2&_&E2)%Hold He. eapply sg_separate0; [exact Hs1|exact Hs2|congruence].
  - intros id' r' x (r0&Hr0&E0&_)%Hold Hx. eapply sg_new0; eauto.
  - intros id' r' x (r0&Hr0&E0&_)%Hold Hx. eapply sg_gone0; eauto.
Qed.
End state.
End staged.
