(* ===== verification/Spill.v ===== *)
(** * Spill.v: rebalancing and spilling a bucket with one leaf

    The first half of [Tx::commit] (src/src/Bolt/tx.cc), for a transaction
    whose root bucket is a leaf in memory: what such a commit starts from, the
    rebalancing of the leaf and its idle sub-buckets, and the spill of the
    leaf to a page ([Bucket::spill], [Node::spill]). *)
From S2P Require Import Bytes.
From S2P Require Import Page.
From S2P Require Import FreeList.
From S2P Require Import Meta.
From S2P Require Import Node.
From S2P Require Import World.
From S2P Require Import Pager.
From S2P Require Import Tree.
From S2P Require Import Cursor.
From S2P Require Import Traversal.
From S2P Require Import Image.
From S2P Require Import Alloc.
From S2P Require Import Bucket.
From S2P Require Import Tx.
From S2P Require Import DB.
From S2P Require Import Stage.

(** A sub-bucket that was opened and not written to. *)
Definition idle_bucket (w : World) (c : bptr) : Prop := exists cv,
  bucket_of w c = Ok cv /\ rootNode_ cv = None /\ nodes_ cv = ∅ /\ buckets_ cv = ∅.

(** The bucket [b] of [t] with the header [h] is the leaf [n] alone, read from
    its page, or from its parent's value ([root h = 0]), and not spilled yet.
    Its sub-buckets are not looked at. *)
Record lone_leaf (w : World) (t : txptr) (b : bptr) (h : bucketHeader) (n : nptr) (bv : Bucket) (v : Node) : Prop := {
  ll_bucket : bucket_of w b = Ok bv;
  ll_owner : tx_ bv = t;
  ll_header : bucketHeader_ bv = h;
  ll_root : rootNode_ bv = Some n;
  ll_nodes : nodes_ bv = {[root h := n]};
  ll_node : node_of w n = Ok v;
  ll_leaf : isLeaf_ v = true;
  ll_own : bucket_ v = b;
  ll_parent : parentNode_ v = None;
  ll_kids : children_ v = [];
  ll_fresh : spilled_ v = false;
  ll_page : pageId_ v = root h;
}.

(** What its entries must be for it to be written as one page, with its
    overflow. *)
Record page_sized (v : Node) : Prop := {
  pz_inodes : Forall inode_wf (inodeList_ v);
  pz_fits : fits v 4096 = true;
  pz_bytes : page_bytes (inodeList_ v) < 4095 * 4096;
  pz_count : Z.of_nat (length (inodeList_ v)) <= 65535;
}.

(** The memory of other buckets than [b] is left alone. *)
Record memory_frame (b : bptr) (w w' : World) : Prop := {
  mf_buckets : forall c cv, bucket_of w c = Ok cv -> c <> b -> bucket_of w' c = Ok cv;
  mf_nodes : forall n v, node_of w n = Ok v -> bucket_ v <> b -> node_of w' n = Ok v;
}.

Lemma bucket_frame_memory t b w w' : bucket_frame t b w w' -> memory_frame b w w'.
Proof. by intros []. Qed.

#[export] Instance memory_frame_preorder b : PreOrder (memory_frame b).
Proof. split; [by split|]. intros w1 w2 w3 [A B] [C D]. split; auto. Qed.

(** The walks over the unordered maps visit each element once. *)
Class OrderLaws `{Env} : Prop := {
  order_pgid : forall l, env_order_pgid l ≡ₚ l;
  order_name : forall l, env_order_name l ≡ₚ l;
}.

(** ** Idle sub-buckets *)

Section idle.
Context `{OrderLaws} (w : World).
#[local] Set Default Proof Using "All".

Lemma idle_sub_buckets c cv : bucket_of w c = Ok cv -> buckets_ cv = ∅ -> sub_buckets cv = [].
Proof.
  intros _ Hb. unfold sub_buckets. rewrite Hb, map_to_list_empty. cbn.
  by rewrite (proj1 (Permutation_nil_r _) (order_name [])).
Qed.

Hypothesis fuel : (1 <= env_fuel)%nat.

(** A bucket without nodes only rebalances its sub-buckets. *)
Lemma nodeless_rebalance c cv f :
  bucket_of w c = Ok cv -> nodes_ cv = ∅ ->
  Bucket_rebalance (S f) c w = each (sub_buckets cv) (fun c => Bucket_rebalance f c.2) w.
Proof.
  intros Hc Hn. cbn [Bucket_rebalance].
  erewrite bindM_ok by (by apply get_bucket_ok). cbn beta. rewrite Hn, map_to_list_empty. cbn [fmap list_fmap].
  rewrite (proj1 (Permutation_nil_r _) (order_pgid [])). cbn [head].
  destruct env_fuel as [|g]; [lia|]. erewrite bindM_ok by reflexivity. cbn beta.
  by erewrite bindM_ok by (by apply get_bucket_ok).
Qed.

Lemma idle_rebalance c f : idle_bucket w c -> Bucket_rebalance (S f) c w = Ok (tt, w).
Proof. intros (cv&Hc&Hr&Hn&Hb). by rewrite (nodeless_rebalance c cv), (idle_sub_buckets c). Qed.

Lemma idle_spill c f : idle_bucket w c -> Bucket_spill (S f) c w = Ok (true, w).
Proof.
  intros (cv&Hc&Hr&Hn&Hb). cbn [Bucket_spill].
  erewrite bindM_ok by (by apply get_bucket_ok). cbn beta. rewrite (idle_sub_buckets c) by done.
  erewrite bindM_ok by reflexivity. cbn [negb].
  erewrite bindM_ok by (by apply get_bucket_ok). cbn beta. by rewrite Hr.
Qed.

Lemma idle_spill_child b name c f :
  idle_bucket w c -> spill_child (Bucket_spill (S f)) b name c w = Ok (true, w).
Proof.
  intros Hc. pose proof Hc as (cv&Hcv&Hr&_). unfold spill_child.
  erewrite bindM_ok by (apply (reads_ok (fun w => isInlineable w c)); unfold isInlineable; rewrite Hcv; cbn; by rewrite Hr).
  cbn beta iota. erewrite bindM_ok.
  2:{ unfold new_value. erewrite bindM_ok by (by apply idle_spill). cbn [negb]. erewrite bindM_ok by (by apply get_bucket_ok). reflexivity. }
  cbn beta iota. erewrite bindM_ok by (by apply get_bucket_ok). cbn beta. by rewrite Hr.
Qed.

End idle.

(** ** Buckets of one node *)

(** Rebalancing a leaf without a parent only resets its mark. *)
Lemma lone_Node_rebalance `{Env} w n v :
  (1 <= env_fuel)%nat -> node_of w n = Ok v -> isLeaf_ v = true -> parentNode_ v = None ->
  exists v', Node_rebalance n w = Ok (tt, with_node n v' w) /\ set_unbalanced (unbalanced_ v) v' = v.
Proof.
  intros Hf Hn Hl Hp. unfold Node_rebalance. destruct env_fuel as [|f]; [lia|]. cbn [rebalance_loop].
  erewrite bindM_ok by (by apply get_node_ok). cbn beta. destruct (unbalanced_ v) eqn:Hu; cbn [negb].
  - exists (set_unbalanced false v). split; [|by destruct v; cbn in *; subst].
    erewrite bindM_ok by (by apply upd_node_ok). cbn beta.
    destruct (_ && _); [done|]. rewrite Hp. unfold collapse_root. by rewrite Hl.
  - exists v. split; [|by destruct v; cbn in *; subst]. unfold ret, mret, M_ret. do 2 f_equal.
    apply the_ok in Hn. unfold with_node. rewrite insert_id by done. by destruct w.
Qed.

(** A walk over a map of one node. *)
Lemma one_node_order `{OrderLaws} (m : gmap Z nptr) id n :
  m = {[id := n]} -> env_order_pgid (map_to_list m).*1 = [id].
Proof. intros ->. rewrite map_to_list_singleton. cbn. apply Permutation_singleton_r, order_pgid. Qed.

(** Rebalancing a bucket whose one node is a lone leaf. *)
Lemma lone_rebalance `{OrderLaws} w b bv id n v f :
  (2 <= env_fuel)%nat -> bucket_of w b = Ok bv -> nodes_ bv = {[id := n]} ->
  node_of w n = Ok v -> isLeaf_ v = true -> parentNode_ v = None ->
  exists v', set_unbalanced (unbalanced_ v) v' = v /\
    Bucket_rebalance (S f) b w = each (sub_buckets bv) (fun c => Bucket_rebalance f c.2) (with_node n v' w).
Proof.
  intros Hf Hb Hnodes Hn Hl Hp. destruct (lone_Node_rebalance w n v) as (v'&Hrun&Hv'); [lia|done..|].
  exists v'. split; [exact Hv'|]. pose proof (one_node_order _ _ _ Hnodes) as Hord.
  assert (nodes_ bv !! id = Some n) as Hlk by (rewrite Hnodes; apply lookup_singleton_eq).
  assert (bucket_of (with_node n v' w) b = Ok bv) as Hb' by exact Hb.
  cbn [Bucket_rebalance]. erewrite bindM_ok by (apply get_bucket_ok, Hb). cbn beta. rewrite Hord. cbn [head].
  destruct env_fuel as [|[|g]] eqn:Ef; [lia|lia|].
  erewrite bindM_ok.
  2:{ cbn [rebalance_nodes]. erewrite bindM_ok by (apply get_bucket_ok, Hb). cbn beta.
      rewrite Hlk. erewrite bindM_ok by exact Hrun. cbn beta.
      erewrite bindM_ok by (apply get_bucket_ok, Hb'). cbn beta. rewrite Hlk.
      unfold next_pgid. rewrite Hord, Z.eqb_refl. reflexivity. }
  cbn beta. by erewrite bindM_ok by (apply get_bucket_ok, Hb').
Qed.

Lemma with_node_id n v w : node_of w n = Ok v -> with_node n v w = w.
Proof. intros Hn%the_ok. unfold with_node. rewrite insert_id by done. by destruct w. Qed.

(** The page of a node depends on its inodes and its kind. *)
Lemma write_same_leaf base stk n n' m p :
  isLeaf_ n = isLeaf_ n' -> inodeList_ n = inodeList_ n' -> Node.write base stk n m p = Node.write base stk n' m p.
Proof. intros Hl Hi. unfold Node.write, pageElementSize. by rewrite Hl, Hi. Qed.

(** Where the page [id] of a bucket, freed by its spill, leaves the free list:
    other pages do not enter it. *)
Definition freed_only (id n : Z) (w w' : World) : Prop := forall x,
  x ∈ all_pages (freeList_ (w_db w')) -> x ∈ all_pages (freeList_ (w_db w)) \/ (0 < id /\ id <= x < id + n).

Section spill.
Context `{OrderLaws} (w0 : World) (t : txptr) (mt : meta) (im : image) (np nf : Z) (pg fl : list byte).
Hypothesis current : leaf_version w0 mt im np nf pg fl.
Hypothesis rwtx_t : rwtx_ (w_db w0) = Some t.
Context (w : World) (tv : Tx) (mx : meta) (R : gmap Z run).
Hypothesis state : staged w0 t mt w tv mx R.
Context (b : bptr) (h : bucketHeader) (n : nptr) (bv : Bucket) (v : Node) (on : Z) (obs : list byte).
Hypothesis leaf : lone_leaf w t b h n bv v.
Hypothesis sized : page_sized v.
(** The page the leaf was read from is the version's, and nobody freed it. *)
Hypothesis old_page : root h = 0 \/ (kept_page w0 (totalPageNumber_ mt) (root h) on obs /\
  forall x, root h <= x < root h + on -> x ∉ all_pages (freeList_ (w_db w))).
Let k := pages_for (page_bytes (inodeList_ v)).
Hypothesis room : (totalPageNumber_ mx + k + 1) * 4096 <= datasz_ (w_db w0).
#[local] Set Default Proof Using "All".

Lemma leaf_bytes : 16 <= page_bytes (inodeList_ v) < 4095 * 4096.
Proof.
  split; [|apply sized]. unfold page_bytes. pose proof (inode_bytes_sum_nonneg _ (pz_inodes _ sized)). lia.
Qed.

Lemma leaf_pages : 1 <= k < 4096 /\ page_bytes (inodeList_ v) < k * 4096.
Proof. pose proof leaf_bytes. pose proof (pages_for_bounds (page_bytes (inodeList_ v)) 4095 ltac:(lia)). subst k. lia. Qed.

Lemma leaf_size : wrap32 (size v / 4096 + 1) = k.
Proof.
  pose proof leaf_bytes. rewrite size_exact; [|apply sized|lia]. pose proof leaf_pages. unfold k, pages_for in *.
  apply wrap_id. lia.
Qed.

(** The first lines of [spill_one]: the old page, if there is one, is freed. *)
Lemma leaf_free_old :
  exists f, let w' := wset_w_db (dset_freeList_ f (w_db w)) w in
    (if 0 <? pageId_ v then old ← reads (fun w => getPage w t (pageId_ v)); Tx_free (txid_ mx) old else ret tt) w =
      Ok (tt, w') /\ staged w0 t mt w' tv mx R /\ freed_only (root h) on w w'.
Proof.
  rewrite (ll_page _ _ _ _ _ _ _ leaf). pose proof leaf_pages as [Hk _].
  destruct old_page as [->|[Hkp Hspared]].
  - exists (freeList_ (w_db w)). assert (wset_w_db (dset_freeList_ (freeList_ (w_db w)) (w_db w)) w = w) as ->
      by (destruct w as [? ? ? d ? ? ? ? ?]; by destruct d).
    split_and!; [done|exact state|]. intros x Hx. by left.
  - pose proof (kp_range _ _ _ _ _ Hkp) as Hr. rewrite (proj2 (Z.ltb_lt _ _)) by lia.
    destruct (staged_free w0 t mt im np nf pg fl current rwtx_t w tv mx R state _ on obs Hkp Hspared) as (f&Hrun&Hst&Hp); [lia|].
    exists f. split; [|split; [exact Hst|]].
    + erewrite bindM_ok; [exact Hrun|]. apply (reads_ok (fun w => getPage w t (root h))).
      eapply (staged_getPage w0 t mt im np nf pg fl current rwtx_t w tv mx R state). exact Hkp.
    + intros x. cbn. rewrite Hp, elem_of_app, elem_of_seqZ. intros [?|?]; [by left|right; lia].
Qed.

(** The leaf after its spill, as page [id]. *)
Definition spilled_leaf (id : Z) : Node := set_spilled true (set_pageId id v).

(** The transaction then. *)
Definition spilled_tx (id : Z) (blk : nat) (T : Z) : Tx :=
  tset_metaData_ (Some (meta_set_total T mx)) (with_dirty id (PHeap blk 0) (k * 4096) tv).

(** The state then: the leaf's bytes [m] are the run at [id]. *)
Definition spilled_state (id : Z) (m : list byte) (blk : nat) (f : freeList) (T : Z) : World :=
  with_node n (spilled_leaf id) (allocated blk m f t (with_dirty id (PHeap blk 0) (k * 4096) tv) (meta_set_total T mx) w).

Lemma with_block_allocated blk m m' f' tv' mt' :
  with_block blk m' (allocated blk m f' t tv' mt' w) = allocated blk m' f' t tv' mt' w.
Proof. unfold allocated, with_tx, with_block, wset_w_blocks, wset_w_db, wset_w_txs. cbn. by rewrite insert_insert_eq. Qed.

Lemma leaf_spill_one :
  exists id m blk f T, let w' := spilled_state id m blk f T in
    spill_one n t n w = Ok (true, w') /\ R !! id = None /\
    staged w0 t mt w' (spilled_tx id blk T) (meta_set_total T mx) (<[id := mkRun k blk m]> R) /\
    totalPageNumber_ mx <= T <= totalPageNumber_ mx + k /\ page_leaf m 0 (kv_of_inode <$> inodeList_ v) /\ freed_only (root h) on w w'.
Proof.
  destruct leaf_free_old as (f1&Hfree&Hst1&Hfo). pose proof leaf_pages as [Hk Hbytes]. pose proof leaf_bytes as Hpb.
  pose proof (ve_room _ _ _ _ _ _ _ current) as Hdz. set (w1 := wset_w_db (dset_freeList_ f1 (w_db w)) w) in *.
  destruct (staged_take w0 t mt im np nf pg fl current rwtx_t w1 tv mx R Hst1 k) as (id&blk&m&f&T&w2&Hal&Hw2&Hid&Hst2&[HT0 HT]&Hsub); [lia|lia|].
  change (allocated blk m f t ?x ?y w1) with (allocated blk m f t x y w) in Hw2.
  assert (<[id := mkRun k blk m]> R !! id = Some (mkRun k blk m)) as Hrun by apply lookup_insert_eq.
  pose proof (sg_pages _ _ _ _ _ _ _ Hst2 _ _ Hrun) as [Hlen Hpid Hov]. pose proof (sg_range _ _ _ _ _ _ _ Hst2 _ _ Hrun) as (Hid2&_&Hend).
  pose proof (sg_blocks _ _ _ _ _ _ _ Hst2 _ _ Hrun) as Hblk. cbn [rn_pages rn_block rn_bytes] in *.
  cbn [totalPageNumber_ meta_set_total] in Hend.
  destruct (write_leaf_image (env_page_addr (PHeap blk 0)) (env_item_addr n) v m) as (m2&Hw&Hl2&Hid2'&Hov2&Hleaf);
    [apply leaf|apply sized|apply sized|lia|lia|].
  exists id, m2, blk, f, T. set (w' := spilled_state id m2 blk f T).
  assert (w' = with_node n (spilled_leaf id) (with_block blk m2 w2)) as Hw' by (unfold w', spilled_state; by rewrite Hw2, with_block_allocated).
  split_and!; try done.
  - unfold spill_one. erewrite bindM_ok by (apply get_node_ok, leaf). cbn beta.
    erewrite bindM_ok; [|apply (reads_ok (fun w => tx_meta w t)); unfold tx_meta; rewrite (sg_tx _ _ _ _ _ _ _ state);
      cbn; by rewrite (sg_meta _ _ _ _ _ _ _ state)].
    cbn beta. erewrite bindM_ok by exact Hfree. cbn beta. fold w1.
    erewrite bindM_ok by (apply get_node_ok, leaf). cbn beta. rewrite leaf_size.
    erewrite bindM_ok by exact Hal. cbn beta iota.
    erewrite bindM_ok by (apply (reads_ok (fun w => on_page w _ Page_id)); rewrite (on_page_block _ _ m) by done; exact Hpid).
    cbn beta. erewrite bindM_ok.
    2:{ apply (reads_ok (fun w => tx_meta w t)). unfold tx_meta. rewrite (sg_tx _ _ _ _ _ _ _ Hst2). reflexivity. }
    cbn beta. erewrite bindM_ok.
    2:{ apply massert_ok. cbn [totalPageNumber_ meta_set_total]. rewrite wrap_id by lia.
        by rewrite (proj2 (Z.leb_gt _ _)) by lia. }
    cbn beta. assert (node_of w2 n = Ok v) as Hn by (rewrite Hw2; apply leaf).
    erewrite bindM_ok by (by apply upd_node_ok). cbn beta. unfold Node_write at 1.
    erewrite bindM_ok.
    2:{ erewrite bindM_ok by (apply get_node_ok, node_of_with). cbn beta zeta.
        eapply page_write_ok; [exact Hblk|]. erewrite write_same_leaf; [exact Hw|done|done]. }
    cbn beta. erewrite bindM_ok by (apply upd_node_ok, node_of_with). cbn beta.
    erewrite bindM_ok by (apply get_node_ok, node_of_with). cbn beta.
    change (parentNode_ (set_spilled true _)) with (parentNode_ v). rewrite (ll_parent _ _ _ _ _ _ _ leaf).
    erewrite bindM_ok by reflexivity. unfold ret, mret, M_ret. do 2 f_equal. rewrite Hw'.
    unfold with_node, with_block, wset_w_nodes, wset_w_blocks. cbn. by rewrite insert_insert_eq.
  - pose proof (staged_write w0 t mt im np nf pg fl current rwtx_t w2 _ _ _ Hst2 id _ m2 Hrun) as Hst3.
    cbn [rn_pages rn_block] in Hst3. rewrite insert_insert_eq in Hst3. rewrite Hw'.
    assert (fresh_page m2 4096 id k) as Hfresh by (split; congruence). destruct (Hst3 Hfresh). by split.
  - intros x Hx. by apply Hfo, Hsub.
Qed.

Lemma set_children_kids : set_children [] v = v.
Proof. pose proof (ll_kids _ _ _ _ _ _ _ leaf) as Hk. destruct v; cbn in *. by subst. Qed.

(** [Node::spill] of the leaf is [spill_one]: it has no children, and is not
    split. *)
Lemma leaf_Node_spill id m blk f T :
  (1 <= env_fuel)%nat -> spill_one n t n w = Ok (true, spilled_state id m blk f T) ->
  Node_spill n w = Ok (false, spilled_state id m blk f T).
Proof.
  intros Hf Hone. unfold Node_spill. destruct env_fuel as [|g] eqn:Ef; [lia|]. cbn [spill_loop].
  pose proof set_children_kids as Hsame. pose proof (ll_node _ _ _ _ _ _ _ leaf) as Hn.
  erewrite bindM_ok by (apply get_node_ok, leaf). cbn beta. rewrite (ll_fresh _ _ _ _ _ _ _ leaf).
  rewrite (ll_own _ _ _ _ _ _ _ leaf). erewrite bindM_ok by (apply get_bucket_ok, leaf). cbn beta zeta.
  rewrite (ll_owner _ _ _ _ _ _ _ leaf).
  erewrite bindM_ok.
  2:{ erewrite (upd_node_ok n _ w v) by exact Hn. rewrite (ll_kids _ _ _ _ _ _ _ leaf).
      change (sort_nodes []) with (@nil nptr). rewrite Hsame, with_node_id by exact Hn. reflexivity. }
  cbn beta. erewrite bindM_ok.
  2:{ rewrite Ef. cbn [spill_children]. erewrite bindM_ok by (apply get_node_ok, leaf). cbn beta.
      rewrite (ll_kids _ _ _ _ _ _ _ leaf). reflexivity. }
  cbn beta iota. erewrite bindM_ok.
  2:{ erewrite (upd_node_ok n _ w v) by exact Hn. rewrite Hsame, with_node_id by exact Hn. reflexivity. }
  cbn beta. erewrite bindM_ok.
  2:{ unfold split. erewrite bindM_ok by (apply get_node_ok, leaf). cbn beta. cbn [split_loop].
      erewrite bindM_ok by (eapply splitTwo_fits; [apply leaf|apply sized]). reflexivity. }
  cbn beta. erewrite bindM_ok by (cbn [spill_nodes]; erewrite bindM_ok by exact Hone; reflexivity).
  cbn [negb]. erewrite bindM_ok by (apply get_node_ok, node_of_with). cbn beta.
  change (parentNode_ (spilled_leaf id)) with (parentNode_ v). by rewrite (ll_parent _ _ _ _ _ _ _ leaf).
Qed.

(** The bucket with the page [id] as its root. *)
Definition rooted (id : Z) : Bucket := bset_bucketHeader_ {| root := id; sequence := sequence h |} bv.

(** [Bucket::spill], once its sub-buckets are spilled. *)
Lemma leaf_Bucket_spill wb bv0 f0 :
  (1 <= env_fuel)%nat -> bucket_of wb b = Ok bv0 -> spill_buckets (Bucket_spill f0) b (sub_buckets bv0) wb = Ok (true, w) ->
  exists id m blk w' tv' mx', Bucket_spill (S f0) b wb = Ok (true, w') /\
    staged w0 t mt w' tv' mx' (<[id := mkRun k blk m]> R) /\ R !! id = None /\ mx' = meta_set_total (totalPageNumber_ mx') mx /\
    totalPageNumber_ mx <= totalPageNumber_ mx' <= totalPageNumber_ mx + k /\ page_leaf m 0 (kv_of_inode <$> inodeList_ v) /\
    freed_only (root h) on w w' /\ memory_frame b w w' /\ bucket_of w' b = Ok (rooted id).
Proof.
  intros Hf Hb0 Hsub. destruct leaf_spill_one as (id&m&blk&f&T&Hone&Hid&Hst&[HT0 HT]&Hleaf&Hfo).
  set (w2 := spilled_state id m blk f T) in *. set (w' := with_bucket b (rooted id) w2).
  pose proof (leaf_Node_spill id m blk f T Hf Hone) as Hspill. fold w2 in Hspill.
  exists id, m, blk, w', (spilled_tx id blk T), (meta_set_total T mx). cbn [totalPageNumber_ meta_set_total].
  assert (bucket_of w2 b = Ok bv) as Hb by apply leaf.
  split_and!; try done.
  - cbn [Bucket_spill].
    erewrite bindM_ok by (apply get_bucket_ok, Hb0). cbn beta.
    erewrite bindM_ok by exact Hsub. cbn [negb].
    erewrite bindM_ok by (apply get_bucket_ok, leaf). cbn beta. rewrite (ll_root _ _ _ _ _ _ _ leaf).
    erewrite bindM_ok by exact Hspill. cbn beta iota.
    assert (node_of w2 n = Ok (spilled_leaf id)) as Hn by apply node_of_with.
    erewrite bindM_ok.
    2:{ apply (reads_ok (fun w => Node_root w n)). unfold Node_root. destruct env_fuel as [|g] eqn:Ef; [lia|]. cbn [root_loop]. rewrite Hn. cbn.
        by rewrite (ll_parent _ _ _ _ _ _ _ leaf). }
    cbn beta. assert (bset_rootNode_ (Some n) bv = bv) as Hbv.
    { pose proof (ll_root _ _ _ _ _ _ _ leaf). destruct bv; cbn in *. by subst. }
    erewrite bindM_ok.
    2:{ erewrite (upd_bucket_ok b _ w2 bv) by exact Hb. rewrite Hbv. reflexivity. }
    cbn beta. erewrite bindM_ok by (apply get_node_ok; exact Hn). cbn beta.
    erewrite bindM_ok.
    2:{ apply (reads_ok (fun w => tx_meta w _)). rewrite (ll_owner _ _ _ _ _ _ _ leaf). unfold tx_meta.
        change (tx_of (with_bucket b bv w2) t) with (tx_of w2 t). rewrite (sg_tx _ _ _ _ _ _ _ Hst). reflexivity. }
    cbn beta. pose proof (sg_range _ _ _ _ _ _ _ Hst id _ (lookup_insert_eq _ _ _)) as (Hid2&Hk1&Hend).
    cbn [rn_pages totalPageNumber_ meta_set_total] in Hk1, Hend.
    erewrite bindM_ok.
    2:{ apply massert_ok. cbn [totalPageNumber_ meta_set_total pageId_ spilled_leaf set_spilled set_pageId].
        by rewrite (proj2 (Z.leb_gt _ _)) by lia. }
    cbn beta. erewrite bindM_ok by (apply upd_bucket_ok, bucket_of_with). cbn beta.
    unfold ret, mret, M_ret. do 2 f_equal. unfold w', rooted. rewrite (ll_header _ _ _ _ _ _ _ leaf).
    unfold with_bucket, wset_w_buckets. cbn. by rewrite insert_insert_eq.
  - destruct Hst. split; try done. transitivity w2; [done|]. eapply others_kept_insert; [reflexivity|].
    intros cv Hcv. rewrite Hb in Hcv. injection Hcv as <-. apply leaf.
  - split.
    + intros c cv Hc Hne. unfold w'. rewrite bucket_of_with_ne by (by apply not_eq_sym). exact Hc.
    + intros n' v' Hn' Hne. change (node_of (with_node n (spilled_leaf id) w) n' = Ok v').
      rewrite node_of_with_ne; [done|]. intros ->. rewrite (ll_node _ _ _ _ _ _ _ leaf) in Hn'. injection Hn' as <-.
      by apply Hne, leaf.
  - apply bucket_of_with.
Qed.
End spill.
