(* ===== verification/Commit.v ===== *)
(** * Commit.v: committing buckets of one leaf each

    [Tx::commit] from its first line to its last (src/src/Bolt/tx.cc): after
    the spill of the buckets (Spill.v) come the free list's page, the growth of
    the file, the dirty pages, any number of them, and the meta page. *)
From S2P Require Import Bytes.
From S2P Require Import Page.
From S2P Require Import FreeList.
From S2P Require Import Meta.
From S2P Require Import Node.
From S2P Require Import World.
From S2P Require Import Disk.
From S2P Require Import Pager.
From S2P Require Import Tree.
From S2P Require Import Cursor.
From S2P Require Import Traversal.
From S2P Require Import Image.
From S2P Require Import Alloc.
From S2P Require Import Bucket.
From S2P Require Import Tx.
From S2P Require Import DB.
From S2P Require Import Stage.
From S2P Require Import Spill.

(** ** Growing the file *)

(** What growing does: the file keeps its bytes. *)
Record grown (f f' : list byte) : Prop := {
  gr_length : (length f <= length f')%nat;
  gr_slice : forall o n x, slice f o n = Ok x -> slice f' o n = Ok x;
}.

Lemma grown_refl f : grown f f.
Proof. by split. Qed.

(** [f'] is no longer than [f], or than [n] bytes. *)
Definition at_most (f f' : list byte) (n : Z) : Prop := Z.of_nat (length f') <= Z.max (Z.of_nat (length f)) n.

Lemma grow_ok `{Env} w sz :
  (forall k, env_syscall k = true) ->
  0 <= sz <= datasz_ (w_db w) -> datasz_ (w_db w) < 2 ^ 31 -> 0 <= AllocSize_ (w_db w) < 2 ^ 31 ->
  0 <= filesz_ (w_db w) < 2 ^ 32 -> Z.of_nat (length (w_file w)) <= Z.max (filesz_ (w_db w)) sz ->
  exists cs fz, let f := replay cs (w_file w) in
    grow sz w = Ok (0, wset_w_db (dset_filesz_ fz (w_db w)) (called cs w)) /\
    grown (w_file w) f /\ sz <= fz < 2 ^ 32 /\
    (Z.of_nat (length f) <= fz /\ at_most (w_file w) f (sz + AllocSize_ (w_db w))) /\
    Forall (call_grows (Z.of_nat (length (w_file w)))) cs /\
    forall o n, o + n <= Z.of_nat (length (w_file w)) -> Forall (call_keeps o n) cs.
Proof.
  unfold at_most. intros Hsys Hsz Hd Ha Hfz Hf. unfold grow. erewrite bindM_ok by apply get_db_ok. cbn beta.
  destruct (Z.leb_spec sz (filesz_ (w_db w))) as [Hle|Hlt].
  { exists [], (filesz_ (w_db w)). rewrite called_nil. split_and!; try done; try apply grown_refl; try (cbn; lia); try (intros; apply Forall_nil_2).
    destruct w as [? ? ? d ? ? ? ? ?]. by destruct d. }
  set (sz' := if datasz_ (w_db w) <=? AllocSize_ (w_db w) then _ else _).
  assert (sz <= sz' < 2 ^ 32 /\ sz' <= sz + AllocSize_ (w_db w)) as [Hsz' Hmost].
  { unfold sz'. destruct (Z.leb_spec (datasz_ (w_db w)) (AllocSize_ (w_db w))); rewrite wrap_id by lia; lia. }
  assert (exists cs fz, let f := replay cs (w_file w) in
    (_ ← upd_db (dset_filesz_ sz'); ret 0) w = Ok (0, wset_w_db (dset_filesz_ fz (w_db w)) (called cs w)) /\
    grown (w_file w) f /\ sz <= fz < 2 ^ 32 /\
    (Z.of_nat (length f) <= fz /\ Z.of_nat (length f) <= Z.max (Z.of_nat (length (w_file w))) (sz + AllocSize_ (w_db w))) /\
    Forall (call_grows (Z.of_nat (length (w_file w)))) cs /\
    forall o n, o + n <= Z.of_nat (length (w_file w)) -> Forall (call_keeps o n) cs) as Hkeep.
  { exists [], sz'. rewrite called_nil. split_and!; try done; try apply grown_refl; try (cbn; lia); try (intros; apply Forall_nil_2). }
  destruct (negb _ && negb _); [|exact Hkeep].
  erewrite bindM_ok by (by apply syscall_true). cbn [negb].
  erewrite bindM_ok by reflexivity. cbn beta. erewrite bindM_ok by (by apply syscall_true). cbn [negb].
  erewrite bindM_ok by apply upd_db_ok. cbn beta.
  exists [Fsync; Ftruncate sz'], sz'. change (replay _ _) with (file_truncate (w_file w) sz').
  pose proof (file_truncate_length (w_file w) sz' ltac:(lia)) as Hl.
  assert (forall o n, o + n <= Z.of_nat (length (w_file w)) -> Forall (call_keeps o n) [Fsync; Ftruncate sz']) as Hcs.
  { intros o n Ho. constructor; [done|]. constructor; [|constructor]. unfold call_keeps. lia. }
  split_and!; try done; try lia; [|constructor; [done|constructor; [unfold call_grows; lia|constructor]]].
  split; [lia|]. intros o n x Hx. apply slice_inv in Hx as Hb. apply file_truncate_slice; [done|lia].
Qed.

(** ** From the free list's page to the meta page *)

(** The system calls of a commit: [cs] resizes the file and writes the pages,
    and they are on the disk before the meta page of the slot is written. *)
Record commit_calls (w w' : World) (slot : Z) (cs : list call) (tmp : list byte) : Prop := {
  cc_calls : w_calls w' =
    (syncs (w_db w) ++ [Pwrite (slot * 4096) tmp] ++ syncs (w_db w) ++ cs) ++ w_calls w;
  cc_page : Z.of_nat (length tmp) = 4096;
  cc_grows : Forall (call_grows (Z.of_nat (length (w_file w)))) cs;
  cc_file : w_file w' = file_write (replay cs (w_file w)) (slot * 4096) tmp;
}.

(** The bytes [o .. o + n) are in no run. *)
Definition outside (R : gmap Z run) (o n : Z) : Prop := forall id r, R !! id = Some r ->
  o + n <= id * 4096 \/ (id + rn_pages r) * 4096 <= o.

(** What [commit_pages] leaves: the runs and the meta record are in the file,
    the free list in the run at [fid], what lies elsewhere stays, and the
    database only counts on a larger file. *)
Record published (w w' : World) (t : txptr) (mt' : meta) (R : gmap Z run) (fid : Z) : Prop := {
  pb_slot : meta_read (w_file w') (txid_ mt' mod 2 * 4096 + PAGEHEADERSIZE) = Ok mt';
  pb_current : DB_getMeta w' = Ok mt';
  pb_runs : forall id r, R !! id = Some r -> id <> fid -> page_image (w_file w') 4096 id (rn_pages r) (rn_bytes r);
  pb_free : forall r, R !! fid = Some r -> exists m, page_image (w_file w') 4096 fid (rn_pages r) m /\
    forall g, FreeList.read g m 0 =
      Ok (reindex (mkFreeList (sort_pgids (all_pages (freeList_ (w_db w)))) (pending_ g) (cache_ g)));
  pb_frame : forall o n x, slice (w_file w) o n = Ok x -> outside R o n ->
    (o + n <= txid_ mt' mod 2 * 4096 \/ (txid_ mt' mod 2 + 1) * 4096 <= o) -> slice (w_file w') o n = Ok x;
  pb_db : exists fz, w_db w' = dset_filesz_ fz (w_db w) /\ 0 <= fz < 2 ^ 32 /\
    8192 <= Z.of_nat (length (w_file w')) <= Z.max fz (totalPageNumber_ mt' * 4096);
  pb_map : w_map w' = w_map w /\ w_gen w' = w_gen w;
  pb_memory : w_buckets w' = w_buckets w /\ w_nodes w' = w_nodes w;
  pb_tx : exists tv', w_txs w' = <[t := tv']> (w_txs w) /\ metaData_ tv' = Some mt';
  pb_longer : (length (w_file w) <= length (w_file w'))%nat;
  pb_most : at_most (w_file w) (w_file w') ((totalPageNumber_ mt' + 1) * 4096 + AllocSize_ (w_db w));
  pb_calls : exists cs tmp, commit_calls w w' (txid_ mt' mod 2) cs tmp /\
    forall o n, 0 <= o -> o + n <= Z.of_nat (length (w_file w)) -> outside R o n -> Forall (call_keeps o n) cs;
}.

(** What growing the file and [Tx::write] do: the calls [cs] leave the runs [R]
    in the file, which has room for [T] pages, and what lies elsewhere. *)
Record runs_written (w w' : World) (t : txptr) (v : Tx) (R : gmap Z run) (T fz : Z) (cs : list call) : Prop := {
  rw_file : w_file w' = replay cs (w_file w);
  rw_calls : w_calls w' = syncs (w_db w) ++ cs ++ w_calls w;
  rw_db : w_db w' = dset_filesz_ fz (w_db w) /\ 0 <= fz < 2 ^ 32;
  rw_tx : w_txs w' = <[t := tset_dirtyPageTable_ ∅ v]> (w_txs w);
  rw_map : w_map w' = w_map w /\ w_gen w' = w_gen w;
  rw_memory : w_buckets w' = w_buckets w /\ w_nodes w' = w_nodes w;
  rw_images : forall id r, R !! id = Some r -> page_image (w_file w') 4096 id (rn_pages r) (rn_bytes r);
  rw_frame : forall o n x, slice (w_file w) o n = Ok x -> outside R o n -> slice (w_file w') o n = Ok x;
  rw_longer : (length (w_file w) <= length (w_file w'))%nat;
  rw_bound : Z.of_nat (length (w_file w')) <= Z.max fz (T * 4096);
  rw_most : at_most (w_file w) (w_file w') ((T + 1) * 4096 + AllocSize_ (w_db w));
  rw_grows : Forall (call_grows (Z.of_nat (length (w_file w)))) cs;
  rw_keeps : forall o n, o + n <= Z.of_nat (length (w_file w)) -> outside R o n -> Forall (call_keeps o n) cs;
}.

(** A block just allocated is a dirty page, with all its bytes. *)
Lemma fresh_dirty_page w b m id n :
  w_blocks w !! b = Some m -> DB_pageSize_ (w_db w) = 4096 -> fresh_page m 4096 id n ->
  0 <= id -> 1 <= n -> (id + n) * 4096 < 2 ^ 31 -> dirty_page w (PHeap b 0) id m.
Proof.
  intros Hb Hps [Hl Hid Hov] H2 H1 Hend. exists b, m, (n - 1). cbn zeta. rewrite Hps.
  replace ((n - 1 + 1) * 4096) with (Z.of_nat (length m)) by lia.
  split_and!; try done; try lia. by apply slice_all.
Qed.

Lemma fresh_dirty_inj w b m id n id' bs :
  w_blocks w !! b = Some m -> DB_pageSize_ (w_db w) = 4096 -> fresh_page m 4096 id n ->
  dirty_page w (PHeap b 0) id' bs -> id' = id /\ bs = m.
Proof.
  intros Hb Hps [Hl Hid Hov] (b'&m'&ov&Hp&Hb'&Hid'&Hov'&_&_&_&_&Hs). injection Hp as <-.
  rewrite Hb in Hb'. injection Hb' as <-. rewrite Hid in Hid'. rewrite Hov in Hov'.
  injection Hid' as <-. injection Hov' as <-. split; [done|]. rewrite Hps in Hs.
  replace ((n - 1 + 1) * 4096) with (Z.of_nat (length m)) in Hs by lia. rewrite slice_all in Hs. by injection Hs.
Qed.

(** A page stays where its bytes stay. *)
Lemma page_image_kept f f' ps id n bs :
  (slice f (id * ps) (n * ps) = Ok bs -> slice f' (id * ps) (n * ps) = Ok bs) ->
  page_image f ps id n bs -> page_image f' ps id n bs.
Proof. intros Hs [Hl Hn Hid Hov]. split; [|done..]. unfold lies_at in *. rewrite Hn in *. auto. Qed.

(** A meta record read through bytes that stay. *)
Lemma meta_read_kept f f' o x :
  (forall y, slice f o METASIZE = Ok y -> slice f' o METASIZE = Ok y) ->
  0 <= o -> o + METASIZE <= Z.of_nat (length f) -> meta_read f o = Ok x -> meta_read f' o = Ok x.
Proof.
  intros Hs H0 Hl <-. destruct (slice f o METASIZE) as [y|] eqn:E; [|by rewrite slice_ok in E by (unfold METASIZE in *; lia)].
  rewrite (meta_read_slice _ _ _ E). by apply meta_read_slice, Hs.
Qed.

Lemma other_slot z : 1 - (z + 1) mod 2 = z mod 2.
Proof.
  rewrite Zplus_mod. pose proof (Z.mod_pos_bound z 2 ltac:(lia)).
  assert (z mod 2 = 0 \/ z mod 2 = 1) as [-> | ->] by lia; done.
Qed.

(** ** Writing the runs *)

Section runs.
Context `{Env} (w : World) (t : txptr) (tv : Tx) (R : gmap Z run) (T : Z).
Hypothesis calls_succeed : forall k, env_syscall k = true.
Hypothesis pwrite_whole : forall k len, env_pwrite k len = len.
Hypothesis tx_v : tx_of w t = Ok tv.
Hypothesis dirty_v : dirtyPageTable_ tv = (fun r => PHeap (rn_block r) 0) <$> R.
Hypothesis ps_4096 : DB_pageSize_ (w_db w) = 4096.
Hypothesis blocks : forall id r, R !! id = Some r -> w_blocks w !! rn_block r = Some (rn_bytes r).
Hypothesis pages : forall id r, R !! id = Some r -> fresh_page (rn_bytes r) 4096 id (rn_pages r).
Hypothesis range : forall id r, R !! id = Some r -> 2 <= id /\ 1 <= rn_pages r /\ id + rn_pages r <= T.
Hypothesis apart : forall id id' r r' x, R !! id = Some r -> R !! id' = Some r' -> in_run id r x -> in_run id' r' x -> id = id'.
Hypothesis separate : forall id id' r r', R !! id = Some r -> R !! id' = Some r' -> rn_block r = rn_block r' -> id = id'.
Hypothesis small : T * 4096 < 2 ^ 31.
#[local] Set Default Proof Using "All".

Lemma run_dirty id r : R !! id = Some r -> dirty_page w (PHeap (rn_block r) 0) id (rn_bytes r).
Proof.
  intros Hr. pose proof (range id r Hr). eapply fresh_dirty_page; [by eapply blocks|done|by apply pages|lia..].
Qed.

Lemma run_lookup i p : dirtyPageTable_ tv !! i = Some p -> exists r, R !! i = Some r /\ p = PHeap (rn_block r) 0.
Proof. rewrite dirty_v, lookup_fmap. destruct (R !! i) as [r|]; [|done]. intros [= <-]. by exists r. Qed.

Lemma run_dirty_inj i r id bs :
  R !! i = Some r -> dirty_page w (PHeap (rn_block r) 0) id bs -> id = i /\ bs = rn_bytes r.
Proof. intros Hr. eapply fresh_dirty_inj; [by eapply blocks|done|by apply pages]. Qed.

(** [Tx::write] of the runs. *)
Lemma write_runs :
  exists cs, let f := replay cs (w_file w) in
    Tx_write t w = Ok (0, called (syncs (w_db w) ++ cs) (with_tx t (tset_dirtyPageTable_ ∅ tv) w)) /\
    (forall id r, R !! id = Some r -> page_image f 4096 id (rn_pages r) (rn_bytes r)) /\
    (forall o n x, slice (w_file w) o n = Ok x -> outside R o n -> slice f o n = Ok x) /\
    (length (w_file w) <= length f)%nat /\
    (forall L, Z.of_nat (length (w_file w)) <= L -> T * 4096 <= L -> Z.of_nat (length f) <= L) /\
    (forall z, Forall (call_grows z) cs) /\
    (forall o n, outside R o n -> Forall (call_keeps o n) cs).
Proof.
  destruct (Tx_write_ok w t tv calls_succeed pwrite_whole tx_v) as (cs&Hrun&Hcs&Hsl&Hfr&Hlen&Hle).
  - apply NoDup_fmap_2_strong; [|apply NoDup_map_to_list]. intros [i p] [j q] Hi%elem_of_map_to_list Hj%elem_of_map_to_list.
    cbn. intros ->. destruct (run_lookup _ _ Hi) as (r&Hr&Hq), (run_lookup _ _ Hj) as (r'&Hr'&Hq').
    rewrite Hq in Hq'. injection Hq' as Hb. f_equal. by eapply separate.
  - intros i p (r&Hr&->)%run_lookup. exists i, (rn_bytes r). by apply run_dirty.
  - intros i j p q id bs id' bs' (r&Hr&->)%run_lookup (r'&Hr'&->)%run_lookup Hne Hp Hq.
    destruct (run_dirty_inj i r id bs Hr Hp) as [-> ->], (run_dirty_inj j r' id' bs' Hr' Hq) as [-> ->].
    pose proof (range i r Hr). pose proof (range j r' Hr').
    pose proof (fp_length _ _ _ _ (pages i r Hr)). pose proof (fp_length _ _ _ _ (pages j r' Hr')).
    destruct (runs_apart i (rn_pages r) j (rn_pages r')); [lia|lia| |unfold Tx.apart; rewrite ps_4096; lia..].
    intros x Hx Hx'. apply Hne. assert (i = j) as <- by (by eapply apart). congruence.
  - rewrite ps_4096 in *.
    assert (forall i p id bs, dirtyPageTable_ tv !! i = Some p -> dirty_page w p id bs ->
      exists r, R !! id = Some r /\ Z.of_nat (length bs) = rn_pages r * 4096) as Hinv.
    { intros i p id bs (r&Hr&->)%run_lookup Hp. destruct (run_dirty_inj i r id bs Hr Hp) as [-> ->].
      exists r. split; [done|]. apply (fp_length _ _ _ _ (pages i r Hr)). }
    exists cs. split; [exact Hrun|]. split_and!.
    + intros id r Hr. pose proof (pages id r Hr) as Hpg. destruct Hpg. split; try done.
      apply (Hsl id (PHeap (rn_block r) 0)); [|by apply run_dirty]. by rewrite dirty_v, lookup_fmap, Hr.
    + intros o n x Hx Ho. apply Hfr; [done|]. intros i p id bs Hi Hp. destruct (Hinv i p id bs Hi Hp) as (r&Hr&Hl).
      pose proof (Ho id r Hr). unfold Tx.apart. lia.
    + exact Hlen.
    + intros L HL HT. apply Hle; [done|]. intros i p id bs Hi Hp. destruct (Hinv i p id bs Hi Hp) as (r&Hr&Hl).
      pose proof (range id r Hr). lia.
    + intros z. eapply Forall_impl; [exact Hcs|]. intros c (i&p&id&bs&_&Hp&->). cbn. apply dirty_page_range in Hp. lia.
    + intros o n Ho. eapply Forall_impl; [exact Hcs|]. intros c (i&p&id&bs&Hi&Hp&->). cbn.
      destruct (Hinv i p id bs Hi Hp) as (r&Hr&Hl). pose proof (Ho id r Hr). pose proof (range id r Hr). lia.
Qed.
End runs.

Section tail.
Context `{Env} (w0 : World) (t : txptr) (mt : meta) (im : image) (np nf : Z) (pg fl : list byte).
Hypothesis calls_succeed : forall k, env_syscall k = true.
Hypothesis pwrite_whole : forall k len, env_pwrite k len = len.
Hypothesis current : leaf_version w0 mt im np nf pg fl.
Hypothesis rwtx_t : rwtx_ (w_db w0) = Some t.
Context (w : World) (tv : Tx) (mtx : meta) (R : gmap Z run) (total fid : Z) (fr : run).
Hypothesis state : staged w0 t mt w tv mtx R.
Hypothesis free_run : R !! fid = Some fr.
Let T := totalPageNumber_ mtx.
Hypothesis list_few : Z.of_nat (length (all_pages (freeList_ (w_db w)))) < 2 ^ 28.
Hypothesis list_fits : FreeList.size (freeList_ (w_db w)) <= rn_pages fr * 4096.
Hypothesis mtx_ok : meta_ok mtx.
Hypothesis mtx_magic : magic_ mtx = MAGIC /\ version_ mtx = VERSION.
Hypothesis mtx_root : root (root_ mtx) < T.
Hypothesis total_le : totalPageNumber_ mt <= total <= T.
Hypothesis room : (T + 1) * 4096 <= datasz_ (w_db w0).
Hypothesis alloc_ok : 0 <= AllocSize_ (w_db w0) < 2 ^ 31.
#[local] Set Default Proof Using "All".

(** The growth of the file. *)
Lemma tail_grow w1 :
  w_db w1 = w_db w -> w_file w1 = w_file w ->
  exists cs fz, let f := replay cs (w_file w) in
    (if total <? T then grow (wrap32 (wrap64 (T + 1) * 4096)) else ret 0) w1 =
      Ok (0, wset_w_db (dset_filesz_ fz (w_db w)) (called cs w1)) /\
    grown (w_file w) f /\ 0 <= fz < 2 ^ 32 /\
    (Z.of_nat (length f) <= Z.max fz (T * 4096) /\ at_most (w_file w) f ((T + 1) * 4096 + AllocSize_ (w_db w))) /\
    Forall (call_grows (Z.of_nat (length (w_file w)))) cs /\
    forall o n, o + n <= Z.of_nat (length (w_file w)) -> Forall (call_keeps o n) cs.
Proof.
  unfold at_most. intros Hdb Hf. pose proof (ve_room _ _ _ _ _ _ _ current) as Hdz. pose proof (ve_size _ _ _ _ _ _ _ current) as Hsz.
  pose proof (ve_file _ _ _ _ _ _ _ current) as Hfl.
  assert (w_file w = w_file w0) as Hfw by apply state.
  assert (datasz_ (w_db w) = datasz_ (w_db w0) /\ AllocSize_ (w_db w) = AllocSize_ (w_db w0) /\
    filesz_ (w_db w) = filesz_ (w_db w0)) as (E1&E2&E3) by (rewrite (sg_db _ _ _ _ _ _ _ state); done).
  pose proof (kp_range _ _ _ _ _ (ve_root _ _ _ _ _ _ _ current)) as Hrr.
  rewrite (wrap_id 64), (wrap_id 32) by lia.
  destruct (Z.ltb_spec total T).
  - destruct (grow_ok w1 ((T + 1) * 4096) calls_succeed) as (cs&fz&Hrun&Hg&Hfz&[Hl Hmost]&Hgr&Hcs); rewrite ?Hdb, ?Hf, ?E1, ?E2, ?E3, ?Hfw; try lia.
    exists cs, fz. rewrite Hdb, Hf, ?Hfw in *. unfold at_most in Hmost. split_and!; try done; lia.
  - exists [], (filesz_ (w_db w)). rewrite called_nil. split_and!; try done; try apply grown_refl; try (rewrite ?Hfw; cbn; lia); try (intros; apply Forall_nil_2).
    rewrite <-Hdb. destruct w1 as [? ? ? d ? ? ? ? ?]. by destruct d.
Qed.

(** The fields of the database are those the commit began with. *)
Lemma tail_db :
  DB_pageSize_ (w_db w) = 4096 /\ meta0_ (w_db w) = Some (PMap (w_gen w) 16) /\
  meta1_ (w_db w) = Some (PMap (w_gen w) 4112) /\ w_map w = Some (datasz_ (w_db w)) /\
  datasz_ (w_db w) = datasz_ (w_db w0) /\ w_file w = w_file w0.
Proof.
  pose proof (staged_store w0 t mt im np nf pg fl current rwtx_t _ _ _ _ state) as [E1 E2 _ E4 E5 E6 E7 E8].
  rewrite E1, E2, E4, E5, E7, E8. destruct current. by split_and!.
Qed.

Let mtf : meta := meta_set_freelist fid mtx.
Let v2 : Tx := tset_metaData_ (Some mtf) tv.

(** The free list is written in its page in memory, and the page recorded. *)
Lemma list_on_page :
  exists m, let w1 := with_block (rn_block fr) m w in
    page_write (PHeap (rn_block fr) 0) (FreeList.write (freeList_ (w_db w))) w = Ok (tt, w1) /\
    page_read (PHeap (rn_block fr) 0) Page_id w1 = Ok (fid, w1) /\
    upd_meta t (meta_set_freelist fid) w1 = Ok (tt, with_tx t v2 w1) /\
    staged w0 t mt (with_tx t v2 w1) v2 mtf (<[fid := mkRun (rn_pages fr) (rn_block fr) m]> R) /\
    forall g, FreeList.read g m 0 =
      Ok (reindex (mkFreeList (sort_pgids (all_pages (freeList_ (w_db w)))) (pending_ g) (cache_ g))).
Proof.
  pose proof (fo_wf _ _ (sg_list _ _ _ _ _ _ _ state)) as Hwf. pose proof (ve_room _ _ _ _ _ _ _ current) as Hdz.
  pose proof (sg_range _ _ _ _ _ _ _ state fid fr free_run) as Hfid.
  pose proof (sg_pages _ _ _ _ _ _ _ state fid fr free_run) as [Hl Hid Hov].
  destruct (write_succeeds (freeList_ (w_db w)) Hwf list_few (rn_bytes fr) 0) as [m Hw]; [lia|lia|].
  pose proof (write_header _ _ _ _ Hw) as (Hlen'&Hid'&Hov').
  assert (fresh_page m 4096 fid (rn_pages fr)) as Hfresh by (split; congruence).
  pose proof (staged_write w0 t mt im np nf pg fl current rwtx_t _ _ _ _ state fid fr m free_run Hfresh) as Hst1.
  exists m. cbn zeta. split_and!.
  - eapply page_write_ok; [by apply (sg_blocks _ _ _ _ _ _ _ state fid fr)|exact Hw].
  - apply (reads_ok (fun w => on_page w _ Page_id)). rewrite (on_page_block _ _ m) by apply with_block_lookup. apply Hfresh.
  - exact (staged_upd_meta w0 t mt im np nf pg fl current rwtx_t _ _ _ _ Hst1 (meta_set_freelist fid)).
  - by apply (staged_meta w0 t mt im np nf pg fl current rwtx_t _ _ _ _ Hst1 mtf).
  - intros g. by apply (write_read_pgids _ Hwf list_few (rn_bytes fr) 0).
Qed.

(** The file grows, and the runs are written. *)
Lemma tail_write w2 R' :
  staged w0 t mt w2 v2 mtf R' -> w_db w2 = w_db w -> w_file w2 = w_file w ->
  exists w3 w4 fz cs,
    (if total <? T then grow (wrap32 (wrap64 (T + 1) * 4096)) else ret 0) w2 = Ok (0, w3) /\
    Tx_write t w3 = Ok (0, w4) /\ runs_written w2 w4 t v2 R' T fz cs.
Proof.
  intros Hst Hdb Hf. pose proof tail_db as (Hps&_&_&_&Hdz&_). pose proof (ve_room _ _ _ _ _ _ _ current) as Hroom.
  destruct (tail_grow w2 Hdb Hf) as (cs3&fz&Hgrow&[Hgl Hgs]&Hfz&[Hfl Hmost]&Hgr3&Hcs3).
  set (w3 := wset_w_db (dset_filesz_ fz (w_db w)) (called cs3 w2)) in *.
  destruct (write_runs w3 t v2 R' T calls_succeed pwrite_whole) as (cs4&Hwrite&Hpages&Hfr4&Hlen4&Hle4&Hgr4&Hcs4);
    [apply Hst|apply Hst|exact Hps|apply Hst|apply Hst|apply Hst|apply Hst|apply Hst|lia|].
  assert (w_file w3 = replay cs3 (w_file w)) as Hf3 by (rewrite <-Hf; done). rewrite Hf3 in *.
  eexists w3, _, fz, (cs4 ++ cs3). split; [exact Hgrow|]. split; [exact Hwrite|].
  assert (forall w1, w_file (called (syncs (w_db w3) ++ cs4) w1) = replay cs4 (w_file w1)) as Hfile
    by (intros w1; cbn; by rewrite replay_syncs).
  assert (w_file (with_tx t (tset_dirtyPageTable_ ∅ v2) w3) = replay cs3 (w_file w)) as Hf4 by exact Hf3.
  split; rewrite ?Hfile, ?Hf4; try done.
  - by rewrite Hf, replay_app.
  - rewrite Hdb. cbn. by rewrite <-!app_assoc.
  - rewrite Hdb. by split.
  - intros o n x Hx Ho. apply Hfr4; [|exact Ho]. apply Hgs. by rewrite <-Hf.
  - rewrite Hf. lia.
  - apply Hle4; lia.
  - rewrite Hf, Hdb. unfold at_most in *. apply Hle4; [exact Hmost|]. pose proof (sg_db _ _ _ _ _ _ _ state) as Edb. rewrite Edb. cbn. lia.
  - rewrite Hf. by apply Forall_app.
  - rewrite Hf. intros o n Hl Ho. apply Forall_app. split; [by apply Hcs4|by apply Hcs3].
Qed.

Let mt' : meta := meta_set_checksum mtf 0.

(** The bytes below the pages of the runs. *)
Lemma outside_low o n : o + n <= 8192 -> outside R o n.
Proof. intros Ho id r Hr. left. destruct (sg_range _ _ _ _ _ _ _ state id r Hr). lia. Qed.

(** The meta page is written. *)
Lemma tail_meta w2 w4 fz cs m :
  let R' := <[fid := mkRun (rn_pages fr) (rn_block fr) m]> R in
  staged w0 t mt w2 v2 mtf R' -> w_db w2 = w_db w -> w_file w2 = w_file w -> w_map w2 = w_map w -> w_gen w2 = w_gen w ->
  w_buckets w2 = w_buckets w -> w_nodes w2 = w_nodes w -> w_calls w2 = w_calls w -> w_txs w2 = <[t := v2]> (w_txs w) ->
  (forall g, FreeList.read g m 0 =
    Ok (reindex (mkFreeList (sort_pgids (all_pages (freeList_ (w_db w)))) (pending_ g) (cache_ g)))) ->
  runs_written w2 w4 t v2 R' T fz cs ->
  exists w5, writeMeta t w4 = Ok (0, w5) /\ published w w5 t mt' R fid.
Proof.
  intros R' Hst E1 E2 E3 E4 E5 E6 E7 E8 Hlist [B1 B2 [B3 Hfz] B4 [B5 B6] [B7 B8] Himg Hfr Hlen Hle Hmost Hgr Hks].
  rewrite E1, E2, E3, E4, E5, E6, E7, E8 in *. pose proof tail_db as (_&Hm0&Hm1&Hmap&Hdz&Hfw). pose proof mtx_magic as [Hmg Hvs].
  pose proof (ve_room _ _ _ _ _ _ _ current) as Hroom. pose proof (ve_file _ _ _ _ _ _ _ current) as Hfile.
  pose proof (sg_txid _ _ _ _ _ _ _ state) as Htxid. pose proof (sg_range _ _ _ _ _ _ _ state fid fr free_run) as Hfid.
  pose proof (Z.mod_pos_bound (txid_ mt) 2 ltac:(lia)) as Hmod. pose proof (Z.mod_pos_bound (txid_ mt') 2 ltac:(lia)) as Hmod'.
  assert (forall o n, outside R o n -> outside R' o n) as Hout.
  { intros o n Ho id r. unfold R'. rewrite lookup_insert_Some. intros [[<- <-]|[_ Hr]]; [exact (Ho fid fr free_run)|by apply Ho]. }
  destruct (writeMeta_slots w4 t (tset_dirtyPageTable_ ∅ v2) mtf mt calls_succeed pwrite_whole)
    as (tmp&Hmeta&Htmp&Hl5&Hnew&Hold5&Hfr5).
  { unfold tx_of. rewrite B4. apply the_ok, lookup_insert_eq. }
  { done. }
  { destruct mtx_ok as (?&?&?&?&?&?&?&?&?&?). unfold meta_ok, mtf. cbn. fold T. lia. }
  { done. }
  { cbn. fold T. lia. }
  { rewrite Hfw in Hlen. lia. }
  { change (txid_ mtf) with (txid_ mtx). rewrite Htxid, other_slot.
    eapply (meta_read_kept (w_file w0)); [|unfold PAGEHEADERSIZE, METASIZE; lia..|apply current].
    intros y Hy. apply Hfr; [by rewrite Hfw|]. apply Hout, outside_low. unfold PAGEHEADERSIZE, METASIZE. lia. }
  change (txid_ mtf) with (txid_ mt') in Hmeta, Hl5, Hnew, Hold5, Hfr5.
  change (meta_set_checksum mtf 0) with mt' in Hmeta, Hnew.
  set (f5 := file_write _ _ tmp) in *. set (w5 := called _ (with_tx _ _ w4)) in *.
  assert (w_file w5 = f5) as Hf5 by (cbn; by rewrite replay_syncs).
  assert (forall o n x, slice (w_file w4) o n = Ok x ->
    o + n <= txid_ mt' mod 2 * 4096 \/ (txid_ mt' mod 2 + 1) * 4096 <= o -> slice (w_file w5) o n = Ok x) as Hkeep.
  { intros o n x Hx Ho. rewrite Hf5. apply Hfr5; [exact Hx|lia]. }
  assert (forall id r, R' !! id = Some r -> page_image (w_file w5) 4096 id (rn_pages r) (rn_bytes r)) as Himg5.
  { intros id r Hr. apply (page_image_kept (w_file w4)); [|by apply Himg]. intros Hx. apply Hkeep; [done|].
    destruct (sg_range _ _ _ _ _ _ _ Hst id r Hr). lia. }
  rewrite <-Hf5 in Hnew, Hold5. rewrite Hfw in *.
  exists w5. split; [exact Hmeta|]. split; rewrite ?Hfw.
  - exact Hnew.
  - eapply (DB_getMeta_slots w5 (datasz_ (w_db w0)) mt' mt (txid_ mt' mod 2)); try exact Hnew; try exact Hold5;
      change (w_db w5) with (w_db w4); change (w_map w5) with (w_map w4); change (w_gen w5) with (w_gen w4);
      rewrite ?B3, ?B5, ?B6, ?Hf5; try lia; [exact Hm0|exact Hm1|by rewrite <-Hdz|by apply validate_iff|].
    change (txid_ mt') with (txid_ mtx). lia.
  - intros id r Hr Hne. apply Himg5. unfold R'. by rewrite lookup_insert_ne by (by apply not_eq_sym).
  - intros r Hr. assert (r = fr) as -> by congruence. exists m. split; [|exact Hlist].
    apply (Himg5 fid (mkRun (rn_pages fr) (rn_block fr) m)), lookup_insert_eq.
  - intros o n x Hx Ho Hs. apply Hkeep; [|done]. apply Hfr; [exact Hx|by apply Hout].
  - exists fz. split; [exact B3|]. split; [exact Hfz|]. rewrite Hf5, Hl5.
    change (totalPageNumber_ mt') with T. lia.
  - by split.
  - by split.
  - exists (tset_metaData_ (Some mt') (tset_dirtyPageTable_ ∅ v2)). split; [|done]. cbn. by rewrite B4, !insert_insert_eq.
  - rewrite Hf5. lia.
  - unfold at_most in *. rewrite Hf5, Hl5. change (totalPageNumber_ mt') with T. lia.
  - exists cs, tmp. split; [|intros o n H0 Hl Ho; apply Hks; [exact Hl|by apply Hout]].
    split; rewrite ?Hfw; try done; [|by rewrite Hf5; unfold f5; rewrite B1].
    change (w_calls w5) with ((syncs (w_db w4) ++ [Pwrite (txid_ mt' mod 2 * 4096) tmp]) ++ w_calls w4).
    rewrite B2, B3. by rewrite <-!app_assoc.
Qed.

Lemma commit_pages_ok :
  exists w', commit_pages t total (PHeap (rn_block fr) 0) w = Ok (0, w') /\ published w w' t mt' R fid.
Proof.
  destruct list_on_page as (m&Hwrite&Hid&Hupd&Hst&Hlist). set (w1 := with_block (rn_block fr) m w) in *.
  set (w2 := with_tx t v2 w1) in *.
  destruct (tail_write w2 _ Hst) as (w3&w4&fz&cs&Hgrow&Hruns&Hwr); [done|done|].
  destruct (tail_meta w2 w4 fz cs m Hst) as (w5&Hmeta&Hpub); try done. exists w5. split; [|exact Hpub].
  pose proof tail_db as (Hps&_). unfold commit_pages. erewrite bindM_ok by apply get_db_ok. cbn beta.
  erewrite bindM_ok by exact Hwrite. cbn beta. erewrite bindM_ok by exact Hid. cbn beta.
  erewrite bindM_ok by exact Hupd. cbn beta. fold w2. erewrite bindM_ok.
  2:{ apply (reads_ok (fun w => tx_meta w t)). exact (staged_tx_meta w0 t mt im np nf pg fl current rwtx_t _ _ _ _ Hst). }
  cbn beta. erewrite bindM_ok by apply get_db_ok. cbn beta. change (w_db w2) with (w_db w).
  change (totalPageNumber_ mtf) with T. rewrite Hps.
  erewrite bindM_ok by exact Hgrow. cbn beta iota. cbn [negb Z.eqb].
  erewrite bindM_ok by exact Hruns. cbn [negb Z.eqb]. by erewrite bindM_ok by exact Hmeta.
Qed.
End tail.

(** ** The whole commit *)

(** [commit] does not refuse the transaction. *)
Definition may_commit (w : World) (t : txptr) (b : bptr) : Prop := exists tv,
  tx_of w t = Ok tv /\ managed_ tv = false /\ db_ tv = true /\ writable_ tv = true /\ rootBucket_ tv = b.

(** Rebalancing the bucket [b] and spilling its sub-buckets leads to [w']. *)
Definition prepares `{Env} (w : World) (b : bptr) (w' : World) : Prop := exists w1 bv1,
  Bucket_rebalance env_fuel b w = Ok (tt, w1) /\ bucket_of w1 b = Ok bv1 /\
  spill_buckets (Bucket_spill (pred env_fuel)) b (sub_buckets bv1) w1 = Ok (true, w').

(** What a commit that succeeds leaves, having begun with the free list [f]:
    the new version is current, the free list's page holds the list, and every
    page of the old version's file that was not available is still whole.  The
    leaves take at most [k] new pages at the end of the file. *)
Record committed (w w' : World) (f : freeList) (mt mt' : meta) (im' : image) (k : Z) : Prop := {
  cm_version : exists n1 n2 pg' fl', leaf_version w' mt' im' n1 n2 pg' fl' /\
    forall g, FreeList.read g fl' 0 =
      Ok (reindex (mkFreeList (sort_pgids (all_pages (freeList_ (w_db w')))) (pending_ g) (cache_ g)));
  cm_txid : txid_ mt' = txid_ mt + 1;
  cm_old_slot : meta_read (w_file w') (txid_ mt mod 2 * 4096 + PAGEHEADERSIZE) = Ok mt;
  cm_frame : forall p n bs, 2 <= p -> 1 <= n -> p + n <= totalPageNumber_ mt ->
    (forall x, p <= x < p + n -> x ∉ ids_ f) ->
    page_image (w_file w) 4096 p n bs -> page_image (w_file w') 4096 p n bs;
  cm_list : rtc (writer_step (txid_ mt')) f (freeList_ (w_db w'));
  cm_db : exists f' fz, w_db w' = dset_filesz_ fz (dset_freeList_ f' (w_db w));
  cm_map : w_map w' = w_map w /\ w_gen w' = w_gen w;
  cm_calls : exists cs tmp, commit_calls w w' (txid_ mt' mod 2) cs tmp /\ Forall (call_keeps 0 8192) cs /\
    forall p n, 2 <= p -> 1 <= n -> p + n <= totalPageNumber_ mt -> (forall x, p <= x < p + n -> x ∉ ids_ f) ->
      Forall (call_keeps (p * 4096) (n * 4096)) cs;
  cm_most : at_most (w_file w) (w_file w') ((totalPageNumber_ mt' + 1) * 4096 + AllocSize_ (w_db w));
  cm_total : totalPageNumber_ mt <= totalPageNumber_ mt' <=
    totalPageNumber_ mt + k + pages_for (24 + 8 * totalPageNumber_ mt);
}.

Lemma committed_mono w w' f mt mt' im' k k' : committed w w' f mt mt' im' k -> k <= k' -> committed w w' f mt mt' im' k'.
Proof. intros [] ?. split; done || lia. Qed.

(** ** Staging the free list *)

Section list.
Context `{Env} (w0 : World) (t : txptr) (mt : meta) (im : image) (np nf : Z) (pg fl : list byte).
Hypothesis current : leaf_version w0 mt im np nf pg fl.
Hypothesis rwtx_t : rwtx_ (w_db w0) = Some t.
Context (w : World) (tv : Tx) (mx : meta) (R : gmap Z run) (k : Z).
Hypothesis state : staged w0 t mt w tv mx R.
Abbreviation total := (totalPageNumber_ mt).
Abbreviation fid0 := (freeListPageNumber_ mt).
Hypothesis free_spared : forall x, fid0 <= x < fid0 + nf -> x ∉ all_pages (freeList_ (w_db w)).
Let kf := pages_for (24 + 8 * total).
Hypothesis taken : totalPageNumber_ mx <= total + k.
Hypothesis room : (total + k + kf + 1) * 4096 <= datasz_ (w_db w0).
#[local] Set Default Proof Using "All".

Lemma list_pages : 1 <= kf <= 4095.
Proof.
  pose proof (ve_room _ _ _ _ _ _ _ current) as Hdz. pose proof (kp_range _ _ _ _ _ (ve_root _ _ _ _ _ _ _ current)) as Hr.
  apply (pages_for_bounds (24 + 8 * total) 4095). lia.
Qed.

(** The size of a list of pages of the version. *)
Lemma list_size f :
  fl_wf f -> (forall x, x ∈ all_pages f -> x < total) ->
  Z.of_nat (length (all_pages f)) < 2 ^ 28 /\ 16 <= FreeList.size f <= 24 + 8 * total /\
  1 <= pages_for (FreeList.size f) <= kf /\ FreeList.size f < pages_for (FreeList.size f) * 4096.
Proof.
  intros Hw Hb. pose proof (ve_room _ _ _ _ _ _ _ current) as Hdz.
  pose proof (kp_range _ _ _ _ _ (ve_root _ _ _ _ _ _ _ current)) as Hr.
  assert (Z.of_nat (length (all_pages f)) <= total) as Hfew.
  { assert (length (all_pages f) <= length (seqZ 0 total))%nat as Hle; [|rewrite length_seqZ in Hle; lia].
    apply submseteq_length, NoDup_submseteq; [apply Hw|]. intros x Hx. pose proof (Hb x Hx).
    pose proof (proj1 (Forall_forall _ _) (fl_range _ Hw) x Hx) as Hp. unfold pgid_ok in Hp. rewrite elem_of_seqZ. lia. }
  assert (Z.of_nat (length (all_pages f)) < 2 ^ 28) as Hfew28 by lia.
  assert (16 <= FreeList.size f <= 24 + 8 * total) as Hsz.
  { rewrite size_eq by done. unfold PAGEHEADERSIZE. case_z; lia. }
  destruct (pages_for_bounds (FreeList.size f) 4095 ltac:(lia)) as [[? _] ?].
  assert (pages_for (FreeList.size f) <= kf).
  { unfold kf, pages_for. pose proof (Z.div_le_mono (FreeList.size f) (24 + 8 * total) 4096). lia. }
  split_and!; try done; lia.
Qed.

(** The free list's old page is freed, and a new one allocated. *)
Lemma stage_list :
  exists fid n m blk T w' tv',
    (_ ← Tx_free (txid_ mx) (Some (getPagePtr w fid0));
     d ← get_db;
     page ← Tx_allocate t (wrap32 (FreeList.size (freeList_ d) / 4096 + 1));
     match page with
     | None => give_up_commit t
     | Some page => commit_pages t (totalPageNumber_ mx) page
     end) w = commit_pages t (totalPageNumber_ mx) (PHeap blk 0) w' /\
    R !! fid = None /\ staged w0 t mt w' tv' (meta_set_total T mx) (<[fid := mkRun n blk m]> R) /\
    totalPageNumber_ mx <= T <= totalPageNumber_ mx + kf /\
    Z.of_nat (length (all_pages (freeList_ (w_db w')))) < 2 ^ 28 /\ FreeList.size (freeList_ (w_db w')) <= n * 4096 /\
    (forall x, x ∈ all_pages (freeList_ (w_db w')) -> x ∈ all_pages (freeList_ (w_db w)) \/ fid0 <= x < fid0 + nf) /\
    w_buckets w' = w_buckets w.
Proof.
  pose proof list_pages as Hkf. pose proof (ve_room _ _ _ _ _ _ _ current) as Hdz.
  destruct (staged_free w0 t mt im np nf pg fl current rwtx_t w tv mx R state fid0 nf fl (ve_free _ _ _ _ _ _ _ current) free_spared)
    as (f3&Hfree&Hst3&Hp3); [lia|]. set (w3 := wset_w_db (dset_freeList_ f3 (w_db w)) w) in *.
  destruct (list_size f3) as (Hfew&Hsz&Hk2&Hlt); [apply (sg_list _ _ _ _ _ _ _ Hst3)|apply (sg_old _ _ _ _ _ _ _ Hst3)|].
  set (n := pages_for (FreeList.size f3)) in *.
  destruct (staged_take w0 t mt im np nf pg fl current rwtx_t w3 tv mx R Hst3 n)
    as (fid&blk&m&f4&T&w4&Hal&Hw4&Hid&Hst4&HT&Hsub); [lia|lia|].
  assert (freeList_ (w_db w4) = f4) as Hf4 by (by rewrite Hw4).
  exists fid, n, m, blk, T, w4. eexists. split.
  { erewrite bindM_ok by exact Hfree. cbn beta. fold w3. erewrite bindM_ok by apply get_db_ok. cbn beta.
    change (freeList_ (w_db w3)) with f3.
    assert (wrap32 (FreeList.size f3 / 4096 + 1) = n) as -> by (apply wrap_id; unfold n, pages_for in *; lia).
    erewrite bindM_ok by exact Hal. done. }
  split; [exact Hid|]. split; [exact Hst4|]. split; [lia|].
  assert (length (all_pages (freeList_ (w_db w4))) <= length (all_pages f3))%nat as Hlen.
  { apply submseteq_length, NoDup_submseteq; [apply (sg_list _ _ _ _ _ _ _ Hst4)|]. intros x. rewrite Hf4. apply Hsub. }
  split; [lia|]. split; [pose proof (size_mono _ f3 Hfew Hlen); lia|]. split; [|by rewrite Hw4].
  intros x. rewrite Hf4. intros Hx%Hsub. change (freeList_ (w_db w3)) with f3 in Hx.
  rewrite Hp3, elem_of_app, elem_of_seqZ in Hx. exact Hx.
Qed.
End list.

Section publish.
Context `{Env} (w0 : World) (t : txptr) (mt : meta) (im : image) (np nf : Z) (pg fl : list byte).
Hypothesis calls_succeed : forall k, env_syscall k = true.
Hypothesis pwrite_whole : forall k len, env_pwrite k len = len.
Hypothesis current : leaf_version w0 mt im np nf pg fl.
Hypothesis rwtx_t : rwtx_ (w_db w0) = Some t.
Hypothesis txid_next : txid_ mt + 1 < 2 ^ 64.
Hypothesis alloc_ok : 0 <= AllocSize_ (w_db w0) < 2 ^ 31.
Abbreviation total := (totalPageNumber_ mt).
Abbreviation fid0 := (freeListPageNumber_ mt).

(** The buckets of the transaction are spilled in [w]: [im'] is what the
    leaves hold, in new pages or in those of the version. *)
Context (w : World) (tv : Tx) (mx : meta) (R : gmap Z run) (im' : image) (b : bptr) (bv : Bucket) (k : Z).
Abbreviation rid := (root (bucketHeader_ bv)).
Hypothesis state : staged w0 t mt w tv mx R.
Hypothesis record : mx = meta_set_total (totalPageNumber_ mx) (next_meta mt).
Hypothesis bucket_v : bucket_of w b = Ok bv.
Hypothesis free_spared : forall x, fid0 <= x < fid0 + nf -> x ∉ all_pages (freeList_ (w_db w)).
Hypothesis root_place :
  (exists r, R !! rid = Some r /\ page_leaf (rn_bytes r) 0 (kv_of_inode <$> im_root im') /\
    im_subs im' !! rid = None) \/
  (rid = root (root_ mt) /\ im_root im' = im_root im /\
    forall x, rid <= x < rid + np -> x ∉ all_pages (freeList_ (w_db w))).
Hypothesis root_inodes : Forall leaf_inode (im_root im') /\ keys_sorted (im_root im').
Hypothesis subs_place : forall id es, im_subs im' !! id = Some es ->
  (exists blk bs, R !! id = Some (mkRun 1 blk bs) /\ sub_leaf bs es) \/
  (im_subs im !! id = Some es /\ id ∉ all_pages (freeList_ (w_db w))).
Let kf := pages_for (24 + 8 * total).
Hypothesis taken : totalPageNumber_ mx <= total + k.
Hypothesis room : (total + k + kf + 1) * 4096 <= datasz_ (w_db w0).
#[local] Set Default Proof Using "All".

(** What the allocations of the commit do not touch: pages that were not
    available. *)
Lemma kept_outside w1 tv1 mx1 R1 p pn :
  staged w0 t mt w1 tv1 mx1 R1 -> 1 <= pn -> p + pn <= total ->
  (forall x, p <= x < p + pn -> x ∉ ids_ (freeList_ (w_db w0))) -> outside R1 (p * 4096) (pn * 4096).
Proof.
  intros Hst Hpn Hend Hk id r Hr. destruct (sg_range _ _ _ _ _ _ _ Hst id r Hr) as (_&Hn&_).
  destruct (runs_apart p pn id (rn_pages r) Hpn Hn); [|lia..]. intros x Hx Hx'.
  destruct (sg_new _ _ _ _ _ _ _ Hst id r x Hr Hx') as [Hin|?]; [|lia]. by apply (Hk x Hx).
Qed.

(** The commit of the runs [Rf], those of [R] and the free list's [fr] at
    [fid]; in [w4] they are staged, in [w'] published. *)
Section version.
Context (w4 : World) (tv4 : Tx) (fid T : Z) (fr : run).
Let mtr : meta := meta_set_root rid mx.
Let mtx : meta := meta_set_total T mtr.
Let mt' : meta := meta_set_checksum (meta_set_freelist fid mtx) 0.
Let Rf : gmap Z run := <[fid := fr]> R.
Hypothesis fid_new : R !! fid = None.
Hypothesis staged4 : staged w0 t mt w4 tv4 mtx Rf.
Hypothesis total_T : totalPageNumber_ mx <= T <= totalPageNumber_ mx + kf.

Lemma free_run : Rf !! fid = Some fr.
Proof. apply lookup_insert_eq. Qed.

Lemma run_of_R id r : R !! id = Some r -> Rf !! id = Some r /\ id <> fid.
Proof.
  intros Hr. assert (id <> fid) as Hne by congruence. split; [|exact Hne]. unfold Rf. by rewrite lookup_insert_ne by congruence.
Qed.

Lemma root_in_range : 2 <= rid < T.
Proof.
  pose proof (sg_total _ _ _ _ _ _ _ state). destruct root_place as [(r&Hr&_)|(->&_)].
  - destruct (run_of_R _ _ Hr) as [Hrf _]. pose proof (sg_range _ _ _ _ _ _ _ staged4 rid r Hrf). cbn in *. lia.
  - pose proof (kp_range _ _ _ _ _ (ve_root _ _ _ _ _ _ _ current)). lia.
Qed.

(** The record of the new version. *)
Lemma record_ok :
  meta_ok mtx /\ magic_ mtx = MAGIC /\ version_ mtx = VERSION /\ freeListPageNumber_ mtr = fid0 /\
  txid_ mt' = txid_ mt + 1 /\ txid_ mtr = txid_ mt + 1.
Proof.
  pose proof (ve_room _ _ _ _ _ _ _ current) as Hdz. pose proof root_in_range as Hrid.
  pose proof (proj1 (validate_iff mt) (ve_valid _ _ _ _ _ _ _ current)) as (Hmg&Hvs&Hck).
  pose proof (ve_ok _ _ _ _ _ _ _ current) as (?&?&?&?&?&?&?&?&?&?).
  unfold mt', mtx, mtr. rewrite record. split_and!; try done. unfold meta_ok. cbn. lia.
Qed.

Hypothesis list_from : forall x, x ∈ all_pages (freeList_ (w_db w4)) ->
  x ∈ all_pages (freeList_ (w_db w)) \/ fid0 <= x < fid0 + nf.
Context (w' : World).
Hypothesis pub : published w4 w' t mt' Rf fid.

Lemma published_list : freeList_ (w_db w') = freeList_ (w_db w4).
Proof. destruct (pb_db _ _ _ _ _ _ pub) as (fz&->&_). done. Qed.

(** Pages of the version are none of the runs'. *)
Lemma run_old p n bs id r x : kept_page w0 total p n bs -> Rf !! id = Some r -> p <= x < p + n -> ~ in_run id r x.
Proof. intros Hkp Hr Hx Hx'. by apply (staged_kept_run w0 t mt im np nf pg fl current rwtx_t _ _ _ _ staged4 p n bs id r x). Qed.

(** What was not available is still whole. *)
Lemma old_frame p n bs :
  2 <= p -> 1 <= n -> p + n <= total -> (forall x, p <= x < p + n -> x ∉ ids_ (freeList_ (w_db w0))) ->
  page_image (w_file w0) 4096 p n bs -> page_image (w_file w') 4096 p n bs.
Proof.
  intros H2 H1 Hend Hk. pose proof (Z.mod_pos_bound (txid_ mt') 2 ltac:(lia)). rewrite <-(sg_file _ _ _ _ _ _ _ staged4).
  apply page_image_kept. intros Hx. apply (pb_frame _ _ _ _ _ _ pub); [exact Hx|by eapply kept_outside|lia].
Qed.

(** A page of the version that nobody frees. *)
Lemma old_page_kept p n bs :
  kept_page w0 total p n bs -> (forall x, p <= x < p + n -> x ∉ all_pages (freeList_ (w_db w)) /\ ~ (fid0 <= x < fid0 + nf)) ->
  kept_page w' T p n bs.
Proof.
  pose proof (sg_total _ _ _ _ _ _ _ state). intros [Hi Hr Hk] Hsp. split; [|lia|].
  - apply old_frame; [lia..| |exact Hi]. intros x Hx Hin. apply (Hk x Hx). unfold all_pages. rewrite elem_of_app. by left.
  - rewrite published_list. intros x Hx Hin%list_from. destruct (Hsp x Hx). tauto.
Qed.

Lemma run_gone id r x : Rf !! id = Some r -> in_run id r x -> x ∉ all_pages (freeList_ (w_db w')).
Proof. rewrite published_list. apply (sg_gone _ _ _ _ _ _ _ staged4). Qed.

Lemma run_kept id r : Rf !! id = Some r -> id <> fid -> kept_page w' T id (rn_pages r) (rn_bytes r).
Proof.
  intros Hr Hne. split; [by apply (pb_runs _ _ _ _ _ _ pub)|by apply (sg_range _ _ _ _ _ _ _ staged4)|].
  intros x Hx. by eapply run_gone.
Qed.

(** The root's leaf: apart from the page of the free list and from the leaves
    of the sub-buckets. *)
Lemma root_published :
  exists n bs, kept_page w' T rid n bs /\ page_leaf bs 0 (kv_of_inode <$> im_root im') /\
    (forall x, rid <= x < rid + n -> ~ in_run fid fr x) /\
    forall id, is_Some (im_subs im' !! id) -> ~ rid <= id < rid + n.
Proof.
  pose proof (sg_apart _ _ _ _ _ _ _ staged4) as run_apart. pose proof free_run as Hfr.
  pose proof root_place as [(r&Hr&Hl&Hnone)|(E&El&Hsp)].
  - destruct (run_of_R _ _ Hr) as [Hrf Hne]. exists (rn_pages r), (rn_bytes r). split_and!; [by apply run_kept|exact Hl|..].
    + intros x Hx Hx'. apply Hne. exact (run_apart _ _ r fr x Hrf Hfr Hx Hx').
    + intros id [es Hid] Hx. destruct (subs_place id es Hid) as [(blk&bs&Hs&_)|[Hold _]].
      * destruct (run_of_R _ _ Hs) as [Hsf _].
        assert (rid = id) as E by (apply (run_apart _ _ r (mkRun 1 blk bs) id Hrf Hsf Hx); unfold in_run; cbn; lia).
        rewrite E in Hnone. congruence.
      * destruct (ve_subs _ _ _ _ _ _ _ current _ _ Hold) as (bs&Hkp&_). exact (run_old id 1 bs rid r id Hkp Hrf ltac:(lia) Hx).
  - exists np, pg. rewrite El. pose proof (ve_apart _ _ _ _ _ _ _ current) as Hap. split_and!; [|apply current|..].
    + rewrite E in Hsp |- *. apply old_page_kept; [apply current|]. intros x Hx. split; [by apply Hsp|lia].
    + rewrite E. intros x Hx. by apply (run_old _ _ _ fid fr x (ve_root _ _ _ _ _ _ _ current) Hfr).
    + rewrite E. intros id [es Hid] Hx. destruct (subs_place id es Hid) as [(blk&bs&Hs&_)|[Hold _]].
      * destruct (run_of_R _ _ Hs) as [Hsf _].
        apply (run_old _ _ _ id _ id (ve_root _ _ _ _ _ _ _ current) Hsf Hx). unfold in_run; cbn; lia.
      * exact (proj1 (ve_subs_apart _ _ _ _ _ _ _ current id (mk_is_Some _ _ Hold)) Hx).
Qed.

(** The leaves of the sub-buckets. *)
Lemma subs_published id es : im_subs im' !! id = Some es ->
  (exists bs, kept_page w' T id 1 bs /\ sub_leaf bs es) /\ ~ in_run fid fr id.
Proof.
  pose proof (sg_apart _ _ _ _ _ _ _ staged4) as run_apart. pose proof free_run as Hfr.
  intros [(blk&bs&Hr&Hl)|[Hid Hsp]]%subs_place.
  - destruct (run_of_R _ _ Hr) as [Hrf Hne]. split.
    + exists bs. split; [|exact Hl]. by apply (run_kept id (mkRun 1 blk bs)).
    + intros Hx. apply Hne. apply (run_apart _ _ (mkRun 1 blk bs) fr id Hrf Hfr); [|exact Hx]. unfold in_run; cbn; lia.
  - destruct (ve_subs _ _ _ _ _ _ _ current _ _ Hid) as (bs&Hkp&Hl). split.
    + exists bs. split; [|exact Hl]. apply old_page_kept; [exact Hkp|]. intros x Hx. assert (x = id) as -> by lia.
      split; [exact Hsp|]. apply (ve_subs_apart _ _ _ _ _ _ _ current id). by eexists.
    + apply (run_old id 1 bs fid fr id Hkp Hfr); lia.
Qed.

(** The file holds all pages of the new version. *)
Lemma published_cover fl' : page_image (w_file w') 4096 fid (rn_pages fr) fl' -> T * 4096 <= Z.of_nat (length (w_file w')).
Proof.
  intros Hfl. pose proof (ve_cover _ _ _ _ _ _ _ current). pose proof (pb_longer _ _ _ _ _ _ pub) as Hlong.
  rewrite (sg_file _ _ _ _ _ _ _ staged4) in Hlong.
  destruct (sg_top _ _ _ _ _ _ _ staged4) as [HT|(id&r&Hr&HT)]; change (totalPageNumber_ mtx) with T in HT; rewrite HT; [lia|].
  destruct (decide (id = fid)) as [->|Hne].
  - rewrite free_run in Hr. injection Hr as <-. pose proof (page_image_end _ _ _ _ _ Hfl). lia.
  - pose proof (page_image_end _ _ _ _ _ (pb_runs _ _ _ _ _ _ pub id r Hr Hne)). lia.
Qed.

Lemma version_published :
  exists n1 n2 pg' fl', leaf_version w' mt' im' n1 n2 pg' fl' /\
    forall g, FreeList.read g fl' 0 =
      Ok (reindex (mkFreeList (sort_pgids (all_pages (freeList_ (w_db w')))) (pending_ g) (cache_ g))).
Proof.
  destruct root_published as (rn&rb&Hroot&Hleaf&Hap&Hrs). pose proof subs_published as Hsubs.
  destruct (pb_free _ _ _ _ _ _ pub fr free_run) as (fl'&Hfl&Hread). rewrite <-published_list in Hread.
  exists rn, (rn_pages fr), rb, fl'. split; [|exact Hread].
  pose proof (kp_range _ _ _ _ _ Hroot) as Hrr. pose proof (sg_range _ _ _ _ _ _ _ staged4 fid fr free_run) as Hfrr.
  pose proof (staged_store w0 t mt im np nf pg fl current rwtx_t _ _ _ _ staged4) as [E1 E2 _ E4 E5 _ E7 E8].
  pose proof record_ok as (Hmx&Hmg&Hvs&_&Htx&_). pose proof (published_cover fl' Hfl) as Hcov.
  pose proof (ve_room _ _ _ _ _ _ _ current) as Hdz. change (totalPageNumber_ mtx) with T in Hfrr.
  destruct (pb_db _ _ _ _ _ _ pub) as (fz&P7&P8&P9). destruct (pb_map _ _ _ _ _ _ pub) as [P10 P11].
  split; rewrite ?P7, ?P10, ?P11; cbn [DB_pageSize_ datasz_ meta0_ meta1_ freeList_ filesz_ dset_filesz_];
    rewrite ?E1, ?E2, ?E4, ?E5, ?E7, ?E8; change (totalPageNumber_ mt') with T; change (root (root_ mt')) with rid;
    change (freeListPageNumber_ mt') with fid; try apply pub; try (apply current); try done.
  - unfold mt', meta_ok in *. cbn in *. lia.
  - by apply validate_iff.
  - unfold kf in *. lia.
  - split; [exact Hfl|lia|]. intros x Hx. by apply (run_gone fid fr x free_run).
  - destruct (runs_apart rid rn fid (rn_pages fr)); [lia|lia|exact Hap|by left|by right].
  - apply root_inodes.
  - apply root_inodes.
  - intros id es Hid. by apply (Hsubs id es).
  - intros id Hid. split; [by apply Hrs|]. destruct Hid as [es Hid]. by apply (Hsubs id es).
  - exact (sg_list _ _ _ _ _ _ _ staged4).
Qed.

Lemma committed_published : committed w0 w' (freeList_ (w_db w0)) mt mt' im' k.
Proof.
  pose proof record_ok as (_&_&_&_&Htx'&_). pose proof (sg_total _ _ _ _ _ _ _ state) as Htot.
  pose proof (Z.mod_pos_bound (txid_ mt) 2 ltac:(lia)) as Hmod.
  pose proof (ve_file _ _ _ _ _ _ _ current) as Hfile. pose proof (ve_cover _ _ _ _ _ _ _ current) as Hcover.
  pose proof pub as [_ _ _ _ P6 (fz&P7&_) [P10 P11] _ _ P13 P14 (cs&tmp&[Q1 Q2 Q3 Q4]&P15)].
  rewrite (sg_file _ _ _ _ _ _ _ staged4) in P6, P13, P14, P15, Q3, Q4.
  assert (forall o n, o + n <= 8192 -> outside Rf o n) as Hlow.
  { intros o n Ho id r Hr. left. pose proof (sg_range _ _ _ _ _ _ _ staged4 id r Hr). lia. }
  split.
  - exact version_published.
  - exact Htx'.
  - eapply (meta_read_kept (w_file w0)); [|unfold PAGEHEADERSIZE, METASIZE; lia..|exact (ve_slot _ _ _ _ _ _ _ current)].
    intros y Hy. pose proof (other_slot (txid_ mt)) as Hother. rewrite Htx' in P6.
    apply P6; [exact Hy|apply Hlow; unfold PAGEHEADERSIZE, METASIZE; lia|unfold PAGEHEADERSIZE, METASIZE; lia].
  - exact old_frame.
  - rewrite published_list, Htx'. apply staged4.
  - exists (freeList_ (w_db w4)), fz. rewrite P7. by rewrite (sg_db _ _ _ _ _ _ _ staged4).
  - rewrite P10, P11, (sg_map _ _ _ _ _ _ _ staged4), (sg_gen _ _ _ _ _ _ _ staged4). done.
  - exists cs, tmp. split; [|split].
    + rewrite (sg_calls _ _ _ _ _ _ _ staged4), (sg_db _ _ _ _ _ _ _ staged4) in Q1. by split.
    + apply P15; [lia|lia|]. apply Hlow. lia.
    + intros p pn H2 H1 Hend Hk. apply P15; [lia|lia|]. by eapply kept_outside.
  - rewrite (sg_db _ _ _ _ _ _ _ staged4) in P14. exact P14.
  - change (totalPageNumber_ mt') with T. unfold kf in *. lia.
Qed.
End version.

(** From the spilled buckets to the new version. *)
Lemma publish :
  exists w' mt',
    (bk ← get_bucket b;
     _ ← upd_meta t (meta_set_root (root (bucketHeader_ bk)));
     m ← reads (fun w => tx_meta w t);
     old ← gets (fun w => getPagePtr w (freeListPageNumber_ m));
     _ ← Tx_free (txid_ m) (Some old);
     d ← get_db;
     page ← Tx_allocate t (wrap32 (FreeList.size (freeList_ d) / 4096 + 1));
     match page with
     | None => give_up_commit t
     | Some page => commit_pages t (totalPageNumber_ m) page
     end) w = Ok (0, w') /\
    committed w0 w' (freeList_ (w_db w0)) mt mt' im' k /\
    (exists tv', w_txs w' = <[t := tv']> (w_txs w0)) /\ others_kept t w0 w'.
Proof.
  set (mtr := meta_set_root rid mx).
  pose proof (staged_meta w0 t mt im np nf pg fl current rwtx_t w tv mx R state mtr eq_refl eq_refl) as Hst1.
  set (tv1 := tset_metaData_ (Some mtr) tv) in *. set (w1 := with_tx t tv1 w) in *.
  destruct (stage_list w0 t mt im np nf pg fl current rwtx_t w1 tv1 mtr R k Hst1 free_spared taken room)
    as (fid&n&m&blk&T&w4&tv4&Hrun&Hfid&Hst4&HT&Hfew&Hsize&Hlist&Hbks).
  set (fr := mkRun n blk m) in *. pose proof (sg_total _ _ _ _ _ _ _ state) as Htot.
  destruct (record_ok w4 tv4 fid T fr Hfid Hst4 HT) as (Hmx&Hmg&Hvs&Hf0&_&Htx).
  pose proof (root_in_range w4 tv4 fid T fr Hfid Hst4 HT) as Hrid. change (totalPageNumber_ mtr) with (totalPageNumber_ mx) in *.
  destruct (commit_pages_ok w0 t mt im np nf pg fl calls_succeed pwrite_whole current rwtx_t w4 tv4 _ _
    (totalPageNumber_ mx) fid fr Hst4 (lookup_insert_eq _ _ _) Hfew Hsize Hmx) as (w'&Hpages&Hpub);
    [done|cbn; lia|cbn; lia|cbn; lia|exact alloc_ok|].
  eexists w', _. split; [|split; [exact (committed_published w4 tv4 fid T fr Hfid Hst4 HT Hlist w' Hpub)|split]].
  - erewrite bindM_ok by (by apply get_bucket_ok). cbn beta.
    erewrite bindM_ok by exact (staged_upd_meta w0 t mt im np nf pg fl current rwtx_t _ _ _ _ state (meta_set_root rid)).
    cbn beta. fold mtr tv1 w1. erewrite bindM_ok.
    2:{ apply (reads_ok (fun w => tx_meta w t)). exact (staged_tx_meta w0 t mt im np nf pg fl current rwtx_t _ _ _ _ Hst1). }
    cbn beta. erewrite bindM_ok by apply gets_ok. cbn beta. change (freeListPageNumber_ mtr = fid0) in Hf0. rewrite Hf0.
    change (totalPageNumber_ mtr) with (totalPageNumber_ mx). rewrite Hrun. exact Hpages.
  - destruct (pb_tx _ _ _ _ _ _ Hpub) as (tv'&Htx'&_). exists tv'. rewrite Htx'. apply map_eq. intros u.
    destruct (decide (u = t)) as [->|Hne]; [by rewrite !lookup_insert_eq|].
    rewrite !lookup_insert_ne by congruence. by apply Hst4.
  - transitivity w4; [apply Hst4|]. by apply others_kept_same, Hpub.
Qed.
End publish.

(** ** Ready to commit *)

(** The root bucket [b] once its sub-buckets are spilled: a leaf in memory, or
    the one of the version, which nobody has read; and its entries. *)
Inductive root_ready (w : World) (t : txptr) (mt : meta) (b : bptr) (l0 : InodeList) : InodeList -> Prop :=
  | ready_loaded n bv v :
      lone_leaf w t b (root_ mt) n bv v -> page_sized v -> Forall leaf_inode (inodeList_ v) -> keys_sorted (inodeList_ v) ->
      root_ready w t mt b l0 (inodeList_ v)
  | ready_unread bv :
      bucket_of w b = Ok bv -> tx_ bv = t -> rootNode_ bv = None -> bucketHeader_ bv = root_ mt ->
      root_ready w t mt b l0 l0.

(** In [w], [commit] of [t] runs, and prepares the state [w2]: the sub-buckets
    of [im'] that are new are staged, in at most [k] pages at the end of the
    file, the pages of others are freed, and the root bucket is to be spilled
    with the entries of [im']. *)
Record commit_ready `{Env} (w : World) (t : txptr) (mt : meta) (b : bptr) (im im' : image) (k : Z) (w2 : World) : Prop := {
  cr_allowed : may_commit w t b;
  cr_rwtx : rwtx_ (w_db w) = Some t;
  cr_prepares : prepares w b w2;
  cr_root : root_ready w2 t mt b (im_root im) (im_root im');
  cr_freed : forall x, x ∈ all_pages (freeList_ (w_db w2)) -> x ∈ all_pages (freeList_ (w_db w)) \/ is_Some (im_subs im !! x);
  cr_staged : exists tv mx R, staged w t mt w2 tv mx R /\ mx = meta_set_total (totalPageNumber_ mx) (next_meta mt) /\
    totalPageNumber_ mx <= totalPageNumber_ mt + k /\
    forall id es, im_subs im' !! id = Some es ->
      (exists blk bs, R !! id = Some (mkRun 1 blk bs) /\ sub_leaf bs es) \/
      (im_subs im !! id = Some es /\ id ∉ all_pages (freeList_ (w_db w2)));
}.

(** How many pages the leaves of [im'] take, when those of its sub-buckets
    take [k]. *)
Definition leaf_pages_of (im' : image) (k : Z) : Z := k + pages_for (page_bytes (im_root im')).

Section commit.
Context `{OrderLaws} (w0 : World) (t : txptr) (mt : meta) (im im' : image) (np nf : Z) (pg fl : list byte) (b : bptr) (k : Z).
Context (w2 : World).
Hypothesis calls_succeed : forall k, env_syscall k = true.
Hypothesis pwrite_whole : forall k len, env_pwrite k len = len.
Hypothesis fuel : (1 <= env_fuel)%nat.
Hypothesis current : leaf_version w0 mt im np nf pg fl.
Hypothesis txid_next : txid_ mt + 1 < 2 ^ 64.
Hypothesis alloc_ok : 0 <= AllocSize_ (w_db w0) < 2 ^ 31.
Hypothesis ready : commit_ready w0 t mt b im im' k w2.
Abbreviation total := (totalPageNumber_ mt).
Hypothesis room : (total + leaf_pages_of im' k + pages_for (24 + 8 * total) + 1) * 4096 <= datasz_ (w_db w0).
#[local] Set Default Proof Using "All".

(** What the sub-buckets freed is not the root's, nor the free list's. *)
Lemma ready_spared x :
  root (root_ mt) <= x < root (root_ mt) + np \/ freeListPageNumber_ mt <= x < freeListPageNumber_ mt + nf ->
  x ∉ all_pages (freeList_ (w_db w2)).
Proof.
  intros Hx Hin. destruct (cr_freed _ _ _ _ _ _ _ _ ready x Hin) as [Hin'|Hs].
  - destruct Hx as [Hx|Hx]; [by apply (kp_kept _ _ _ _ _ (ve_root _ _ _ _ _ _ _ current) x)
      |by apply (kp_kept _ _ _ _ _ (ve_free _ _ _ _ _ _ _ current) x)].
  - destruct (ve_subs_apart _ _ _ _ _ _ _ current x Hs). tauto.
Qed.

(** The lines of [commit] from the first to the spill of the root bucket. *)
Lemma commit_to_spill w1 ws :
  Bucket_rebalance env_fuel b w0 = Ok (tt, w1) -> Bucket_spill env_fuel b w1 = Ok (true, ws) ->
  commit t w0 =
    (bk ← get_bucket b;
     _ ← upd_meta t (meta_set_root (root (bucketHeader_ bk)));
     m ← reads (fun w => tx_meta w t);
     old ← gets (fun w => getPagePtr w (freeListPageNumber_ m));
     _ ← Tx_free (txid_ m) (Some old);
     d ← get_db;
     page ← Tx_allocate t (wrap32 (FreeList.size (freeList_ d) / 4096 + 1));
     match page with
     | None => give_up_commit t
     | Some page => commit_pages t (totalPageNumber_ m) page
     end) ws.
Proof.
  intros Hreb Hspill. destruct (cr_allowed _ _ _ _ _ _ _ _ ready) as (tv0&Ht0&Hmn0&Hd0&Hw0&Hr0). unfold commit.
  erewrite bindM_ok by (apply get_tx_ok, Ht0). cbn beta. rewrite Hmn0, Hd0, Hw0. cbn [negb orb]. rewrite Hr0.
  erewrite bindM_ok by exact Hreb. cbn beta. by erewrite bindM_ok by exact Hspill.
Qed.

Lemma commit_ready_ok :
  exists w' mt', commit t w0 = Ok (0, w') /\ committed w0 w' (freeList_ (w_db w0)) mt mt' im' (leaf_pages_of im' k) /\
    (exists tv', w_txs w' = <[t := tv']> (w_txs w0)) /\ others_kept t w0 w'.
Proof.
  pose proof ready as [_ Hrw (w1&bv1&Hreb&Hb1&Hsub) Hroot Hfreed (tv&mx&R&Hst&Hmx&Htot&Hsubs)].
  pose proof ready_spared as Hspared. assert (exists f, env_fuel = S f) as [f Ef] by (exists (pred env_fuel); lia).
  assert (pred env_fuel = f) as Epred by (rewrite Ef; done). rewrite Epred in Hsub.
  pose proof (kp_range _ _ _ _ _ (ve_root _ _ _ _ _ _ _ current)) as Hrr. pose proof (ve_apart _ _ _ _ _ _ _ current) as Hap.
  unfold leaf_pages_of in *. pose proof (pages_for_pos (24 + 8 * total) ltac:(lia)) as Hk2.
  inversion Hroot as [n bv v Hleaf Hsized Hin Hso El|bv Hb Ht Hr Hh El].
  - destruct (leaf_Bucket_spill w0 t mt im np nf pg fl current Hrw w2 tv mx R Hst b (root_ mt) n bv v np pg Hleaf Hsized)
      with (wb := w1) (bv0 := bv1) (f0 := f) as (id&m&blk&ws&tvs&mxs&Hspill&Hst'&Hid&Hmxs&[_ HT]&Hpl&Hfo&_&Hbs);
      [right; split; [apply current|intros x Hx; apply Hspared; by left]|rewrite El; lia|lia|done|done|].
    rewrite <-Ef in Hspill. rewrite (commit_to_spill w1 ws Hreb Hspill).
    set (r := mkRun (pages_for (page_bytes (inodeList_ v))) blk m) in *.
    apply (publish w0 t mt im np nf pg fl calls_succeed pwrite_whole current Hrw txid_next alloc_ok ws tvs mxs (<[id := r]> R)
      im' b (rooted (root_ mt) bv id) _ Hst'); [rewrite Hmxs; by rewrite Hmx|exact Hbs|..].
    + intros x Hx Hin'. destruct (Hfo x Hin') as [Hin2|Hin2]; [by apply (Hspared x); [right|]|lia].
    + left. exists r. cbn. split; [apply lookup_insert_eq|]. split; [by rewrite <-El|].
      destruct (im_subs im' !! id) as [es|] eqn:E; [|done]. exfalso.
      destruct (Hsubs id es E) as [(?&?&?&_)|[Hold _]]; [congruence|].
      destruct (ve_subs _ _ _ _ _ _ _ current _ _ Hold) as (bs&Hkp&_).
      apply (staged_kept_run w0 t mt im np nf pg fl current Hrw _ _ _ _ Hst' id 1 bs id r id Hkp); [apply lookup_insert_eq|lia|].
      unfold in_run, r. cbn. pose proof (page_bytes_nonneg _ Hin) as Hnn. pose proof (pages_for_pos _ Hnn). lia.
    + by rewrite <-El.
    + intros id' es He. destruct (Hsubs id' es He) as [(blk'&bs&Hr'&Hl)|[Hold Hsp]].
      * left. exists blk', bs. split; [|exact Hl]. rewrite lookup_insert_ne; [done|]. intros ->. congruence.
      * right. split; [exact Hold|]. intros Hin'. destruct (Hfo id' Hin') as [?|Hin2]; [done|].
        destruct (ve_subs_apart _ _ _ _ _ _ _ current id' (mk_is_Some _ _ Hold)). tauto.
    + lia.
    + rewrite El. lia.
  - assert (Bucket_spill env_fuel b w1 = Ok (true, w2)) as Hspill.
    { rewrite Ef. cbn [Bucket_spill]. erewrite bindM_ok by (by apply get_bucket_ok). cbn beta.
      erewrite bindM_ok by exact Hsub. cbn [negb]. erewrite bindM_ok by (by apply get_bucket_ok). cbn beta. by rewrite Hr. }
    rewrite (commit_to_spill w1 w2 Hreb Hspill).
    pose proof (pages_for_pos _ (page_bytes_nonneg _ (ve_inodes _ _ _ _ _ _ _ current))) as Hk1.
    apply (publish w0 t mt im np nf pg fl calls_succeed pwrite_whole current Hrw txid_next alloc_ok w2 tv mx R
      im' b bv _ Hst Hmx Hb); try rewrite Hh.
    + intros x Hx. apply Hspared. by right.
    + right. split; [done|]. split; [done|]. intros x Hx. apply Hspared. by left.
    + rewrite <-El. split; apply current.
    + exact Hsubs.
    + lia.
    + rewrite El. lia.
Qed.
End commit.
