(* ===== verification/Update.v ===== *)
(** * Update.v: update transactions from end to end

    [DB::update] over a database of leaf pages: the transaction begins on the
    current version, the callback changes leaves in memory, the commit makes the next version durable, and the writer's lock is free again.  The
    callback is any that meets the contract [writes]; the programs of
    Program.v do. *)
From S2P Require Import Bytes.
From S2P Require Import BinSearch.
From S2P Require Import Page.
From S2P Require Import FreeList.
From S2P Require Import Mvcc.
From S2P Require Import Meta.
From S2P Require Import Node.
From S2P Require Import World.
From S2P Require Import Pager.
From S2P Require Import Tree.
From S2P Require Import Cursor.
From S2P Require Import Traversal.
From S2P Require Import Image.
From S2P Require Import Alloc.
From S2P Require Import Bucket.
From S2P Require Import Tx.
From S2P Require Import DB.
From S2P Require Import Stage.
From S2P Require Import Spill.
From S2P Require Import Commit.

(** ** The contract of a callback *)

(** The write transaction [t] as the callback of [update] finds it, with the
    root bucket [b]. *)
Record fresh_write_tx (w : World) (t : txptr) (b : bptr) (mt : meta) : Prop := {
  fw_rwtx : rwtx_ (w_db w) = Some t;
  fw_tx : tx_of w t = Ok (tset_managed_ true (begun true b mt));
  fw_bucket : bucket_of w b = Ok (root_bucket t mt);
}.

(** The next version fits the mapping without a remap, when its leaves take at
    most [k] pages at the end of the file. *)
Definition has_room (w : World) (mt : meta) (k : Z) : Prop :=
  (totalPageNumber_ mt + k + pages_for (24 + 8 * totalPageNumber_ mt) + 1) * 4096 <= datasz_ (w_db w).

(** The callback [fn] turns the leaves [im] of the version [mt] into leaves of
    which [Q] holds, in memory, and returns 0: once the transaction is not
    managed any more, it is ready to commit them, in at most [k] pages. *)
Definition writes `{Env} (fn : txptr -> M Z) (mt : meta) (im : image) (k : Z) (Q : image -> Prop) : Prop :=
  forall w t b np nf pg fl, leaf_version w mt im np nf pg fl -> fresh_write_tx w t b mt -> has_room w mt k ->
  exists w' w2 tv im' ks, fn t w = Ok (0, w') /\
    w_db w' = w_db w /\ w_file w' = w_file w /\ w_map w' = w_map w /\ w_gen w' = w_gen w /\ w_calls w' = w_calls w /\
    w_txs w' = <[t := tv]> (w_txs w) /\ others_kept t w w' /\
    commit_ready (with_tx t (tset_managed_ false tv) w') t mt b im im' ks w2 /\ leaf_pages_of im' ks <= k /\ Q im'.

(** A database that is open for writing, with no write transaction. *)
Record idle_db (w : World) (mts : list meta) : Prop := {
  id_open : opened_ (w_db w) = true;
  id_writable : readOnly_ (w_db w) = false;
  id_unlocked : rwLock_ (w_db w) = false;
  id_rwtx : rwtx_ (w_db w) = None;
  id_alloc : 0 <= AllocSize_ (w_db w) < 2 ^ 31;
  id_readers : Forall2 (fun t mt => tx_meta w t = Ok mt) (txs_ (w_db w)) mts;
}.

Lemma begin_freelist_ok f total minId : fl_ok f total -> fl_ok (begin_freelist minId f) total.
Proof. intros Hf. unfold begin_freelist. destruct (0 <? minId); [by apply release_fl_ok|done]. Qed.

(** The transactions of [w], and their buckets, are as they were. *)
Record transactions_kept (w w' : World) : Prop := {
  xk_tx : forall u v, tx_of w u = Ok v -> tx_of w' u = Ok v;
  xk_bucket : forall c cv v, bucket_of w c = Ok cv -> tx_of w (tx_ cv) = Ok v -> bucket_of w' c = Ok cv;
}.

(** What only touches a new transaction keeps the others. *)
Lemma transactions_kept_new w w' tv :
  w_txs w' = <[fresh_key (w_txs w) := tv]> (w_txs w) -> others_kept (fresh_key (w_txs w)) w w' -> transactions_kept w w'.
Proof.
  intros Htx Hoth. assert (forall u v, tx_of w u = Ok v -> u <> fresh_key (w_txs w)) as Hne.
  { intros u v Hu ->. unfold tx_of in Hu. by rewrite fresh_key_None in Hu. }
  split.
  - intros u v Hu. pose proof (Hne u v Hu). unfold tx_of. by rewrite Htx, lookup_insert_ne by done.
  - intros c cv v Hc Hu. apply Hoth; [done|]. by eapply Hne.
Qed.

(** The free list [update] begins with. *)
Definition begun_list (w : World) (mts : list meta) : freeList :=
  begin_freelist (least_txid UINT64_MAX mts) (freeList_ (w_db w)).

(** The database while [update] holds the writer's lock for [t]. *)
Definition locked_db (w : World) (t : txptr) (mts : list meta) : DB :=
  dset_freeList_ (begun_list w mts) (dset_rwtx_ (Some t) (dset_rwLock_ true (w_db w))).

Section update.
Context `{OrderLaws} (w : World) (mt : meta) (mts : list meta) (im : image) (np nf : Z) (pg fl : list byte).
Hypothesis calls_succeed : forall k, env_syscall k = true.
Hypothesis pwrite_whole : forall k len, env_pwrite k len = len.
Hypothesis fuel : (2 <= env_fuel)%nat.
Hypothesis current : leaf_version w mt im np nf pg fl.
Hypothesis idle : idle_db w mts.
Hypothesis txid_next : txid_ mt + 1 < 2 ^ 64.
#[local] Set Default Proof Using "All".

Let t : txptr := fresh_key (w_txs w).

(** The version is that of [w] wherever the database is the locked one. *)
Lemma locked_version w1 :
  w_db w1 = locked_db w t mts -> w_file w1 = w_file w -> w_map w1 = w_map w -> w_gen w1 = w_gen w ->
  leaf_version w1 mt im np nf pg fl.
Proof.
  intros Edb Ef Em Eg. apply (leaf_version_same w); rewrite ?Edb; cbn; [|..|exact current].
  - split; rewrite ?Edb; done.
  - apply begin_freelist_ok, current.
  - intros x. unfold begun_list. by rewrite begin_freelist_pages.
Qed.

(** [update] up to the call of its callback. *)
Lemma update_begins :
  exists w1 b, (forall fn, update fn w =
      (r ← fn t;
       _ ← upd_tx t (tset_managed_ false);
       if negb (r =? 0) then _ ← rollback t; ret (-1)
       else result ← commit t; _ ← closeTx (Some t); ret result) w1) /\
    fresh_write_tx w1 t b mt /\ w_db w1 = locked_db w t mts /\
    w_file w1 = w_file w /\ w_map w1 = w_map w /\ w_gen w1 = w_gen w /\ w_calls w1 = w_calls w /\
    (exists tv, w_txs w1 = <[t := tv]> (w_txs w)) /\ others_kept t w w1.
Proof.
  pose proof idle as [Hop Hwr Hlk Hrw Hal Hrd].
  destruct (beginRWTx_ok w mt mts) as (w1&Hbegin&Htx1&Hb1&Hdb1&Hf1&Hm1&Hg1&_&_&Hcl1); try done; [apply current|].
  assert (tx_of w1 t = Ok (begun true (fresh_key (w_buckets w)) mt)) as Ht1 by (unfold tx_of; rewrite Htx1; apply the_ok, lookup_insert_eq).
  eexists (with_tx t (tset_managed_ true (begun true (fresh_key (w_buckets w)) mt)) w1), (fresh_key (w_buckets w)).
  split_and!; try done.
  - intros fn. unfold update. erewrite bindM_ok by exact Hbegin. cbn beta iota. fold t.
    by erewrite bindM_ok by (apply (upd_tx_ok _ (tset_managed_ true)); exact Ht1).
  - split; [cbn; by rewrite Hdb1|apply tx_of_with|].
    unfold bucket_of. cbn. rewrite Hb1. apply the_ok, lookup_insert_eq.
  - eexists. cbn. rewrite Htx1, insert_insert_eq. reflexivity.
  - by eapply others_kept_fresh.
Qed.

(** The end of [update]: the lock is free again. *)
Lemma update_closes w1 f fz :
  w_db w1 = dset_filesz_ fz (dset_freeList_ f (locked_db w t mts)) ->
  closeTx (Some t) w1 = Ok (tt, wset_w_db (dset_filesz_ fz (dset_freeList_ f (w_db w))) w1).
Proof.
  intros Hdb. pose proof idle as [_ _ Hlk Hrw _ _]. unfold closeTx. erewrite bindM_ok by apply get_db_ok. cbn beta.
  rewrite Hdb. cbn. rewrite decide_True by done. unfold resetRWTX, writerLeave.
  erewrite bindM_ok by apply upd_db_ok. cbn beta. rewrite upd_db_ok, Hdb. do 2 f_equal. cbn.
  destruct w as [? ? ? d ? ? ? ? ?]. destruct d. cbn in *. by subst.
Qed.

(** What the commit of [t] leaves is what [update] leaves. *)
Lemma committed_closed w1 w2 w3 mt' im' k f fz :
  w_db w1 = locked_db w t mts -> w_file w1 = w_file w -> w_map w1 = w_map w -> w_gen w1 = w_gen w -> w_calls w1 = w_calls w ->
  committed w1 w2 (begun_list w mts) mt mt' im' k -> w_file w3 = w_file w2 -> w_map w3 = w_map w2 -> w_gen w3 = w_gen w2 ->
  w_calls w3 = w_calls w2 ->
  w_db w2 = dset_filesz_ fz (dset_freeList_ f (locked_db w t mts)) -> w_db w3 = dset_filesz_ fz (dset_freeList_ f (w_db w)) ->
  committed w w3 (begun_list w mts) mt mt' im' k.
Proof.
  intros A1 A2 A3 A4 A5 [(n1&n2&pg'&fl'&Hver&Hfl) Ctx C1 C2 C3 _ [Hm Hg] (cs&tmp&[Q1 Q2 Q3 Q4]&Q5) Htot] B1 B2 B3 B4 Hdb2 Hdb3.
  rewrite A1, A2, A3, A4, A5 in *. assert (freeList_ (w_db w3) = freeList_ (w_db w2)) as Hlist by (by rewrite Hdb3, Hdb2).
  split; rewrite ?Hlist, ?B1, ?B2, ?B3; try done.
  - exists n1, n2, pg', fl'. split; [|exact Hfl]. apply (leaf_version_same w2); rewrite ?Hlist; [|apply Hver|done|exact Hver].
    split; rewrite ?Hdb3, ?Hdb2; done.
  - by eexists f, fz.
  - exists cs, tmp. split; [|exact Q5]. split; rewrite ?B1, ?B4; done.
Qed.

Lemma update_ok fn k (Q : image -> Prop) :
  writes fn mt im k Q -> has_room w mt k ->
  exists w' mt' im', update fn w = Ok (0, w') /\ committed w w' (begun_list w mts) mt mt' im' k /\
    idle_db w' mts /\ transactions_kept w w' /\ Q im'.
Proof.
  intros Hfn Hroom. pose proof idle as [Hop Hwr Hlk Hrw Hal Hrd].
  destruct update_begins as (w1&b&Hupd&Hfresh&Hdb1&Hf1&Hm1&Hg1&Hcl1&(tv1&Htx1)&Hoth1).
  destruct (Hfn w1 t b np nf pg fl (locked_version w1 Hdb1 Hf1 Hm1 Hg1) Hfresh)
    as (w2&w3p&tv&im'&ks&Hrun&Hdb2&Hf2&Hm2&Hg2&Hcl2&Htx2&Hoth2&Hready&Hks&HQ); [unfold has_room; by rewrite Hdb1|].
  assert (tx_of w2 t = Ok tv) as Ht2 by (unfold tx_of; rewrite Htx2; apply the_ok, lookup_insert_eq).
  rewrite Hdb1 in Hdb2. rewrite Hf1 in Hf2. rewrite Hm1 in Hm2. rewrite Hg1 in Hg2. rewrite Hcl1 in Hcl2.
  set (w3 := with_tx t (tset_managed_ false tv) w2) in *.
  destruct (commit_ready_ok w3 t mt im im' np nf pg fl b ks w3p) as (w4&mt'&Hcommit&Hcm&(tv4&Htx4)&Hoth4); try done.
  { lia. }
  { by apply locked_version. }
  { change (w_db w3) with (w_db w2). by rewrite Hdb2. }
  { change (w_db w3) with (w_db w2). rewrite Hdb2. unfold has_room in Hroom. cbn. lia. }
  assert (freeList_ (w_db w3) = begun_list w mts) as Hl3 by (change (w_db w3) with (w_db w2); by rewrite Hdb2). rewrite Hl3 in Hcm.
  destruct (cm_db _ _ _ _ _ _ _ Hcm) as (f4&fz&Hdb4). change (w_db w3) with (w_db w2) in Hdb4. rewrite Hdb2 in Hdb4.
  pose proof (update_closes w4 f4 fz Hdb4) as Hclose. set (w5 := wset_w_db _ w4) in *.
  assert (transactions_kept w w5) as Hkept.
  { apply (transactions_kept_new w w5 tv4); [|transitivity w1; [done|transitivity w2; [exact Hoth2|exact Hoth4]]].
    change (w_txs w5) with (w_txs w4). rewrite Htx4. cbn. by rewrite Htx2, Htx1, !insert_insert_eq. }
  exists w5, mt', im'. split; [|split; [|split; [|by split]]].
  - rewrite Hupd. erewrite bindM_ok by exact Hrun. cbn beta.
    erewrite bindM_ok by (apply (upd_tx_ok _ (tset_managed_ false)); exact Ht2). cbn [negb Z.eqb].
    erewrite bindM_ok by exact Hcommit. cbn beta. by erewrite bindM_ok by exact Hclose.
  - pose proof (committed_mono _ _ _ _ _ _ _ k Hcm ltac:(lia)) as Hcm'.
    by apply (committed_closed w3 w4 w5 mt' im' k f4 fz).
  - split; try done. cbn. eapply Forall2_impl; [exact Hrd|]. intros u m Hu. cbn in Hu |- *.
    unfold tx_meta in *. destruct (tx_of w u) as [x|] eqn:Hx; [|done]. by rewrite (xk_tx _ _ Hkept _ _ Hx).
Qed.
End update.

(** ** Reading a version *)

(** What a cursor on an element of a page reports is at the element. *)
Lemma keyValue_page_ptr w p i s kv e ptr :
  keyValue w (mkRef (Some p) None i :: s) kv = Ok (ptr, e) -> 0 <= i ->
  ptr = None \/ ptr = Some (ptr_add p (PAGEHEADERSIZE + i * LEAFELEMSIZE)).
Proof.
  unfold keyValue. intros Hk Hi. inv_res. destruct ((a =? 0) || (a <=? _)); [inv_res; by left|].
  cbn [ref_node ref_page deref mbind res_bind index_] in Hk. inv_res. destruct a0 as [[k v] fl]. inv_res. by right.
Qed.

(** A search in a bucket whose root is a leaf, on a page or in memory. *)
Lemma leaf_view_seek `{Env} w b bv page node es key :
  bucket_of w b = Ok bv -> getPageNode w b (root (bucketHeader_ bv)) = Ok (node, page) ->
  LeafView w page node es -> StronglySorted bytes_lt (kv_keys es) -> (0 < env_fuel)%nat ->
  exists i found ptr, search_spec (kv_keys es) (data_ key) (i, found) /\
    seek w b key = Ok ([mkRef page node i], ptr, default KV_reset (es !! Z.to_nat i)) /\
    (forall e, es !! Z.to_nat i = Some e -> keyValue w [mkRef page node i] KV_reset = Ok (ptr, e)).
Proof.
  intros Hb Hpn Hv Hs Hf. destruct (lv_search key [] Hs) as ([i found]&Hsearch&Hspec).
  pose proof Hspec as ([Hi0 Hi]&_). cbn [fst] in Hsearch.
  unfold seek, do_seek, getRootPage. rewrite Hb. cbn [mbind res_bind].
  assert (search w b env_fuel key (root (bucketHeader_ bv)) [] = Ok [mkRef page node i]) as ->.
  { destruct env_fuel as [|fuel]; [lia|]. cbn [search]. rewrite Hpn. cbn [mbind res_bind].
    assert (match page with Some p => fl ← on_page w p Page_flag;
      if Z.land fl (Z.lor branchPageFlag leafPageFlag) =? 0 then Err LogFatal else Ok tt | None => Ok tt end = Ok tt) as ->.
    { pose proof lv_flag as Hflag. destruct page as [p|]; [|done]. destruct Hflag as (fl&->&Hne). cbn [mbind res_bind].
      by rewrite (proj2 (Z.eqb_neq _ _)). }
    cbn [mbind res_bind]. unfold ElementRef_new. rewrite lv_isLeaf. cbn [mbind res_bind]. exact Hsearch. }
  cbn [mbind res_bind top]. rewrite lv_count. cbn [mbind res_bind index_].
  destruct (Z.leb_spec (Z.of_nat (length es)) i) as [Hge|Hlt].
  - exists i, found, None. split; [done|]. by rewrite lookup_ge_None_2 by lia.
  - destruct (lookup_lt_is_Some_2 es (Z.to_nat i)) as [e He]; [lia|].
    destruct (lv_entry i e [] KV_reset Hi0 He) as [p Hp]. exists i, found, p. split; [done|].
    rewrite Hp. cbn [mbind res_bind]. rewrite He. split; [done|]. by intros e' [= <-].
Qed.

(** What is found under a key that is not there. *)
Lemma absent_entry es key i :
  search_spec (kv_keys es) (data_ key) (i, false) -> 0 < length_ key -> Item_wf key ->
  Item_eqb (kv_key (default KV_reset (es !! Z.to_nat i))) key = false.
Proof.
  intros Hspec Hk [Hl _]. apply bytes_eqb_neq. destruct (es !! Z.to_nat i) as [e|] eqn:He; cbn.
  - intros Heq. apply (search_spec_not_found _ _ _ Hspec). rewrite <-Heq. unfold kv_keys.
    apply list_elem_of_fmap. exists e. split; [done|]. by eapply list_elem_of_lookup_2.
  - intros Heq. rewrite <-Heq in Hl. cbn in Hl. lia.
Qed.

(** The root bucket [b] of a transaction on version [mt], none of whose nodes
    is made; its sub-buckets may be open. *)
Record unread_root (w : World) (t : txptr) (b : bptr) (mt : meta) (tv : Tx) (bv : Bucket) : Prop := {
  ur_tx : tx_of w t = Ok tv;
  ur_meta : exists m, metaData_ tv = Some m /\ totalPageNumber_ mt <= totalPageNumber_ m;
  ur_clean : dirtyPageTable_ tv !! root (root_ mt) = None;
  ur_bucket : bucket_of w b = Ok bv;
  ur_fresh : bset_buckets_ ∅ bv = root_bucket t mt;
}.

Lemma unread_fields t mt bv : bset_buckets_ ∅ bv = root_bucket t mt ->
  tx_ bv = t /\ bucketHeader_ bv = root_ mt /\ nodes_ bv = ∅ /\ rootNode_ bv = None /\ page_ bv = None /\
  Bucket_parentNode_ bv = None.
Proof. intros He. destruct bv; cbn in *. injection He. intros. by subst. Qed.

(** What a transaction on the version [mt] reads: the pages of its leaves are
    in the file and mapped.  The version need not be the current one. *)
Record leaf_snapshot (w : World) (mt : meta) (im : image) (np : Z) (pg : list byte) : Prop := {
  ls_ps : DB_pageSize_ (w_db w) = 4096;
  ls_map : w_map w = Some (datasz_ (w_db w));
  ls_room : totalPageNumber_ mt * 4096 <= datasz_ (w_db w) < 2 ^ 31;
  ls_image : page_image (w_file w) 4096 (root (root_ mt)) np pg;
  ls_range : 2 <= root (root_ mt) /\ 1 <= np /\ root (root_ mt) + np <= totalPageNumber_ mt;
  ls_leaf : page_leaf pg 0 (kv_of_inode <$> im_root im);
  ls_inodes : Forall leaf_inode (im_root im);
  ls_sorted : keys_sorted (im_root im);
  ls_subs : forall id es, im_subs im !! id = Some es -> exists bs,
    page_image (w_file w) 4096 id 1 bs /\ 2 <= id < totalPageNumber_ mt /\ sub_leaf bs es;
}.

Lemma version_snapshot w mt im np nf pg fl : leaf_version w mt im np nf pg fl -> leaf_snapshot w mt im np pg.
Proof.
  intros [? ? ? ? ? ? ? ? ? ? ? [? ? ?] ? ? ? ? ? Hsubs ? ? ?]. split; try done.
  intros id es Hid. destruct (Hsubs id es Hid) as (bs&[? ? _]&?). exists bs. split_and!; [done|lia|lia|done..].
Qed.

(** It is read again wherever the pages, the mapping and its size are. *)
Lemma leaf_snapshot_same w w' mt im np pg :
  DB_pageSize_ (w_db w') = DB_pageSize_ (w_db w) -> datasz_ (w_db w') = datasz_ (w_db w) -> w_map w' = w_map w ->
  (page_image (w_file w) 4096 (root (root_ mt)) np pg -> page_image (w_file w') 4096 (root (root_ mt)) np pg) ->
  (forall id bs, is_Some (im_subs im !! id) -> page_image (w_file w) 4096 id 1 bs -> page_image (w_file w') 4096 id 1 bs) ->
  leaf_snapshot w mt im np pg -> leaf_snapshot w' mt im np pg.
Proof.
  intros E1 E2 E3 Hi Hs []. split; rewrite ?E1, ?E2, ?E3; auto.
  intros id es Hid. destruct (ls_subs0 id es Hid) as (bs&?&?&?). exists bs. eauto.
Qed.

Lemma leaf_snapshot_tx w t v mt im np pg : leaf_snapshot w mt im np pg -> leaf_snapshot (with_tx t v w) mt im np pg.
Proof. by apply leaf_snapshot_same. Qed.

Section version.
Context `{Env} (w : World) (mt : meta) (im : image) (np : Z) (pg : list byte).
Hypothesis current : leaf_snapshot w mt im np pg.
Abbreviation l := (im_root im).
Let p : PagePtr := getPagePtr w (root (root_ mt)).
#[local] Set Default Proof Using "All".

Lemma version_leaf_view : LeafView w (Some p) None (kv_of_inode <$> l).
Proof.
  destruct current as [Eps Emap Eroom Hi Hr Eleaf _ _ _].
  rewrite <-Eps in Hi. eapply page_image_leaf_view; [exact Emap|exact Hi|rewrite Eps; lia..|done].
Qed.

Lemma root_range : 2 <= root (root_ mt) < totalPageNumber_ mt /\ 1 <= np.
Proof. pose proof (ls_range _ _ _ _ _ current). lia. Qed.

Section unread.
Context (t : txptr) (b : bptr) (tv : Tx) (bv : Bucket).
Hypothesis unread : unread_root w t b mt tv bv.

(** The root page of the version, as every transaction on it finds it. *)
Lemma unread_getPage : getPage w t (root (root_ mt)) = Ok (Some p).
Proof.
  destruct unread as [Ht (m&Hm&Htot) Hd _ _]. pose proof root_range.
  unfold getPage. rewrite Ht. cbn [mbind res_bind]. rewrite Hm. cbn [deref mbind res_bind].
  rewrite (proj2 (Z.leb_gt _ _)) by lia. by rewrite Hd.
Qed.

Lemma unread_getPageNode : getPageNode w b (root (bucketHeader_ bv)) = Ok (None, Some p).
Proof.
  destruct (unread_fields _ _ _ (ur_fresh _ _ _ _ _ _ unread)) as (Ht&Hh&Hn&_). pose proof root_range.
  unfold getPageNode. rewrite (ur_bucket _ _ _ _ _ _ unread). cbn [mbind res_bind].
  rewrite Hh, (proj2 (Z.eqb_neq _ _)), Hn, lookup_empty, Ht by lia. by rewrite unread_getPage.
Qed.

(** A search ends on the root page, at the key's rank, and reports the
    element there. *)
Lemma unread_seek key :
  (0 < env_fuel)%nat ->
  exists i found ptr, search_spec (ikeys l) (data_ key) (i, found) /\
    seek w b key = Ok ([mkRef (Some p) None i], ptr, default KV_reset (kv_of_inode <$> l !! Z.to_nat i)) /\
    (is_Some (l !! Z.to_nat i) -> ptr = Some (ptr_add p (PAGEHEADERSIZE + i * LEAFELEMSIZE))).
Proof.
  intros Hf. pose proof (ls_sorted _ _ _ _ _ current) as Hs.
  destruct (leaf_view_seek w b bv (Some p) None (kv_of_inode <$> l) key) as (i&found&ptr&Hspec&Hseek&Hkv);
    [apply unread|apply unread_getPageNode|apply version_leaf_view|by rewrite kv_keys_inodes|done|].
  rewrite kv_keys_inodes in Hspec. rewrite list_lookup_fmap in Hseek, Hkv. exists i, found, ptr.
  split_and!; [done|done|]. intros [x Hx]. pose proof Hspec as ([Hi0 _]&_).
  pose proof (Hkv (kv_of_inode x)) as Hk. rewrite Hx in Hk. specialize (Hk eq_refl).
  destruct (keyValue_page_ptr _ _ _ _ _ _ _ Hk Hi0) as [->|]; [exfalso|done].
  revert Hk. unfold keyValue. pose proof version_leaf_view as Hv. rewrite (lv_count i (LeafView := Hv)).
  cbn [mbind res_bind index_]. pose proof (lookup_lt_Some _ _ _ Hx) as Hlt. rewrite length_fmap.
  rewrite (proj2 (Z.eqb_neq _ _)), (proj2 (Z.leb_gt _ _)) by lia. cbn [orb ref_node ref_page deref mbind res_bind].
  intros Hk. inv_res. destruct a as [[k v] f]. by inv_res.
Qed.

(** A search for an entry's key finds it. *)
Lemma unread_find x :
  (0 < env_fuel)%nat -> x ∈ l ->
  exists i, 0 <= i /\ l !! Z.to_nat i = Some x /\
    seek w b (i_key x) = Ok ([mkRef (Some p) None i], Some (ptr_add p (PAGEHEADERSIZE + i * LEAFELEMSIZE)), kv_of_inode x).
Proof.
  intros Hf Hx. destruct (unread_seek (i_key x) Hf) as (i&found&ptr&Hspec&Hseek&Hptr).
  pose proof (ls_sorted _ _ _ _ _ current) as Hs. pose proof Hspec as ([Hi0 _]&_).
  assert (data_ (i_key x) ∈ ikeys l) as Hin by (unfold ikeys; apply list_elem_of_fmap; by exists x).
  destruct found; [|by destruct (search_spec_not_found _ _ _ Hspec)].
  destruct (search_spec_found _ _ _ Hspec) as [Hi _].
  apply list_elem_of_lookup in Hx as [j Hj].
  assert (ikeys l !! j = Some (data_ (i_key x))) as Hj' by (unfold ikeys; by rewrite list_lookup_fmap, Hj).
  pose proof (NoDup_lookup _ _ _ _ (keys_sorted_NoDup _ Hs) Hi Hj') as Hij. rewrite <-Hij in Hj.
  exists i. rewrite Hseek, Hptr by (by exists x). rewrite Hj. done.
Qed.

(** [Bucket::getNode] of the root page makes the leaf's node. *)
Lemma unread_getNode :
  let n := fresh_key (w_nodes w) in
  getNode b (root (root_ mt)) None w =
    Ok (n, with_bucket b (materialised p (root (root_ mt)) n bv) (with_node n (leaf_node b None (root (root_ mt)) l) w)).
Proof.
  intros n. pose proof root_range. pose proof unread_getPage as Hgp.
  destruct (unread_fields _ _ _ (ur_fresh _ _ _ _ _ _ unread)) as (Ht&Hh&Hn&_&Hpage&Hpar).
  destruct current as [Eps Emap Eroom [Hlies Hlen Hid _] Hr Eleaf Einodes _ _].
  rewrite (getNode_materialise w b bv p (root (root_ mt)) None (leaf_node b None (root (root_ mt)) l)); try done.
  - apply unread.
  - by rewrite Hn.
  - right. rewrite Ht. split; [done|exact Hgp].
  - unfold p, getPagePtr. rewrite Eps, wrap_id by lia.
    eapply on_page_lies; [exact Emap|exact Hlies|lia|]. intros m Hm.
    apply read_page_leaf; [by eapply page_leaf_lift| |done].
    unfold Page_id in *. rewrite <-(Z.add_0_r (_ * 4096)). by eapply load_lift.
Qed.

(** The cursor's [getNode], on the page [search] left it at. *)
Lemma unread_cursor_getNode i :
  let n := fresh_key (w_nodes w) in
  Cursor_getNode b [mkRef (Some p) None i] w = Ok ((n, [mkRef (Some p) None i]),
    with_bucket b (materialised p (root (root_ mt)) n bv) (with_node n (leaf_node b None (root (root_ mt)) l) w)).
Proof.
  intros n. pose proof root_range as [Hr0 Hnp].
  destruct current as [Eps Emap Eroom Himg Hr _ _ _ _].
  unfold Cursor_getNode. cbn [ref_node rev foldl app].
  erewrite bindM_ok by reflexivity. cbn beta iota. cbn [ref_node ref_page deref].
  erewrite bindM_ok.
  2:{ erewrite bindM_ok by (by apply lift_ok). cbn beta.
      erewrite bindM_ok; [cbn beta; apply unread_getNode|].
      apply (reads_ok (fun w => on_page w p Page_id)). rewrite <-Eps in Himg.
      destruct (page_image_header w (datasz_ (w_db w)) (root (root_ mt)) np pg) as [Hid _]; [done|done|rewrite Eps; lia..|].
      exact Hid. }
  cbn beta. fold n. cbn [removelast descend]. erewrite bindM_ok by reflexivity. cbn beta.
  erewrite bindM_ok by (apply get_node_ok; apply node_of_with). cbn beta.
  erewrite bindM_ok by reflexivity. reflexivity.
Qed.

End unread.
End version.

(** A reader that begins on the version has its root bucket at hand. *)
Lemma version_begin `{Env} w mt im np nf pg fl :
  leaf_version w mt im np nf pg fl -> mmapWriter_ (w_db w) = false -> opened_ (w_db w) = true ->
  exists w' t b tv, beginTx w = Ok (Some t, w') /\ rootBucket_ tv = b /\ leaf_version w' mt im np nf pg fl /\
    unread_root w' t b mt tv (root_bucket t mt) /\ db_ tv = true /\ dirtyPageTable_ tv = ∅.
Proof.
  intros current Hwr Hop.
  destruct (beginTx_ok w mt) as (w'&Hrun&Htx&Hbk&Hdb&Hfl&Hmp&Hg&Hblk&Hn&_); [done|done|apply current|].
  set (t := fresh_key (w_txs w)) in *. set (b := fresh_key (w_buckets w)) in *.
  assert (tx_of w' t = Ok (begun false b mt)) as Ht by (unfold tx_of; rewrite Htx; apply the_ok, lookup_insert_eq).
  exists w', t, b, (begun false b mt). split_and!; try done.
  - apply (leaf_version_same w); [by split; rewrite ?Hdb|rewrite Hdb; apply current|by rewrite Hdb|exact current].
  - split; try done; [by exists mt; split; [|lia]|]. unfold bucket_of. rewrite Hbk. apply the_ok, lookup_insert_eq.
Qed.

(** ** Creating a bucket *)

(** The transaction [update] hands to its callback has read nothing. *)
Lemma fresh_meta b mt : meta_ok mt -> txid_ mt + 1 < 2 ^ 64 -> metaData_ (begun true b mt) = Some (next_meta mt).
Proof. intros (?&?&?&?&?&?&?&?&?&?) Htx. unfold next_meta. cbn. by rewrite wrap_id by lia. Qed.

(** The entry of a new bucket. *)
Definition bucket_entry (key : Item) : Inode := mkInode bucketLeafFlag 0 key empty_bucket_value.

Lemma bucket_entry_wf key : Item_wf key -> 0 < length_ key -> leaf_inode (bucket_entry key).
Proof. intros. split_and!; try done. Qed.

(** Among the entries of the bucket it is made in. *)
Lemma insert_bucket_entry l key :
  keys_sorted l -> Z.of_nat (length l) < 2 ^ 31 - 1 -> 0 < length_ key -> inode_map l !! data_ key = None ->
  keys_sorted (insert_inode (bucket_entry key) l) /\
  inode_map (insert_inode (bucket_entry key) l) = <[data_ key := bucket_entry key]> (inode_map l) /\ data_ key ∉ ikeys l.
Proof.
  intros Hs Hlen Hpos Hnone.
  assert (data_ key ∉ ikeys l) as Habs.
  { intros (x&Hk&Hx)%list_elem_of_fmap. apply list_elem_of_split in Hx as (l1&l2&->).
    pose proof (keys_sorted_NoDup _ Hs) as Hnd. rewrite ikeys_app, NoDup_app in Hnd. destruct Hnd as (_&Hnd&_).
    rewrite Hk, inode_map_middle, lookup_insert_eq in Hnone; [done|]. intros Hin. apply (Hnd _ Hin). apply list_elem_of_here. }
  set (n := set_inodeList l (Node_new 0%nat None)).
  destruct (put_absent 1 n key empty_bucket_value 0 bucketLeafFlag) as [Hput Hs']; try (done || (cbn; lia)).
  split; [exact Hs'|]. split; [|done].
  destruct (put_inserts 1 n key key empty_bucket_value 0 bucketLeafFlag) as (l2&Hput2&_&Hm); try (done || (cbn; lia)).
  rewrite Hput in Hput2. injection Hput2 as He. unfold bucket_entry. rewrite He, Hm. by rewrite insert_delete_eq.
Qed.

(** A callback that makes one bucket. *)
Definition make_bucket `{Env} (key : Item) (t : txptr) : M Z :=
  c ← Tx_createBucket t key; ret (match c with Some _ => 0 | None => -1 end).

(** A list the commit writes as one leaf: few entries, or less than a page. *)
Definition one_page (l : InodeList) : Prop :=
  page_bytes l < 4096 \/ (Z.of_nat (length l) <= 4 /\ page_bytes l < 4095 * 4096).

Lemma one_page_fits v :
  one_page (inodeList_ v) -> isLeaf_ v = true -> Forall leaf_inode (inodeList_ v) ->
  fits v 4096 = true /\ page_bytes (inodeList_ v) < 4095 * 4096 /\ Z.of_nat (length (inodeList_ v)) <= 65535.
Proof.
  intros Hone Hl Hw. assert (Forall inode_wf (inodeList_ v)) as Hwf by (by eapply Forall_impl; [exact Hw|intros x []]).
  assert (16 * Z.of_nat (length (inodeList_ v)) + 16 <= page_bytes (inodeList_ v)) as Hlen.
  { unfold page_bytes. rewrite content_sum.
    assert (0 <= foldr Z.add 0 ((fun x => length_ (i_key x) + length_ (i_value x)) <$> inodeList_ v)); [|lia].
    apply list_sum_nonneg, Forall_fmap. eapply Forall_impl; [exact Hwf|]. intros z ([? _]&[? _]&_). cbn. lia. }
  unfold fits, MINKEYSPERPAGE. destruct Hone as [Hb|[Hfew Hb]].
  - split; [|lia]. apply orb_true_iff. right. unfold sizeLessThan, PAGEHEADERSIZE. unfold page_bytes in *.
    rewrite sizeLessThan_loop_spec by (done || lia). by apply Z.ltb_lt.
  - split; [|lia]. apply orb_true_iff. left. apply Z.leb_le. lia.
Qed.
