(* ===== verification/Inline.v ===== *)
(** * Inline.v: sub-buckets and the values that hold them

    A sub-bucket is the value of its entry in the parent.  A small one is
    stored inline: the value is the bucket's header and the page of its one
    leaf ([Bucket::write], bucket.cc); of a larger one the value is the header
    alone, which names the page of its leaf.  This file follows a sub-bucket of
    one leaf from the value through [Bucket::openBucket] to reads, through
    [Bucket::put] and [Bucket::remove] to a leaf in memory, and from there to
    the value that replaces it. *)
From S2P Require Import Bytes.
From S2P Require Import BinSearch.
From S2P Require Import Page.
From S2P Require Import FreeList.
From S2P Require Import Meta.
From S2P Require Import Node.
From S2P Require Import World.
From S2P Require Import Pager.
From S2P Require Import Tree.
From S2P Require Import Cursor.
From S2P Require Import Traversal.
From S2P Require Import Image.
From S2P Require Import Alloc.
From S2P Require Import Bucket.
From S2P Require Import Tx.
From S2P Require Import DB.
From S2P Require Import Stage.
From S2P Require Import Spill.
From S2P Require Import Commit.
From S2P Require Import Update.

(** ** Values *)

(** The value [v] holds the bucket of the entries [es] inline. *)
Record holds (v : Item) (es : InodeList) : Prop := {
  ho_wf : Item_wf v;
  ho_header : exists seq, bucketHeader_read (data_ v) 0 = Ok {| root := 0; sequence := seq |};
  ho_id : Page_id (data_ v) BUCKETHEADERSIZE = Ok 0;
  ho_leaf : page_leaf (data_ v) BUCKETHEADERSIZE (kv_of_inode <$> es);
  ho_entries : bucket_entries es;
  ho_small : page_bytes es <= maxInlineBucketSize;
  ho_size : length_ v = BUCKETHEADERSIZE + page_bytes es;
}.

(** The value [v] is the header of a bucket whose root is the page [id]. *)
Record points_to (v : Item) (id : Z) : Prop := {
  pt_wf : Item_wf v;
  pt_header : exists seq, bucketHeader_read (data_ v) 0 = Ok {| root := id; sequence := seq |};
  pt_id : 0 < id;
  pt_size : length_ v = BUCKETHEADERSIZE;
}.

(** The value [v] stores the bucket of the entries [es]: inline, or, when they
    are many, in one of the pages [subs]. *)
Variant stored_as (subs : gmap Z InodeList) (v : Item) (es : InodeList) : Prop :=
  | stored_inline (_ : holds v es)
  | stored_page id (_ : points_to v id) (_ : subs !! id = Some es) (_ : bucket_entries es)
      (_ : maxInlineBucketSize < page_bytes es).

(** The page a value names; 0 for an inline bucket. *)
Definition value_root (v : Item) : Z :=
  match bucketHeader_read (data_ v) 0 with Ok h => root h | Err _ => 0 end.

Lemma entries_wf es : bucket_entries es -> Forall inode_wf es.
Proof. intros He. eapply Forall_impl; [apply He|]. by intros x []. Qed.

Lemma entries_count es : bucket_entries es -> 16 <= page_bytes es < 4096 /\ Z.of_nat (length es) < 256.
Proof.
  intros He. pose proof (inode_bytes_sum_le _ (entries_wf _ He)) as Hle. pose proof (be_small _ He) as Hs.
  unfold page_bytes in *. lia.
Qed.

(** A page says which entries it has. *)
Lemma page_leaf_inj m o ks ks' : page_leaf m o ks -> page_leaf m o ks' -> ks = ks'.
Proof.
  intros (_&Hc&He) (_&Hc'&He'). rewrite Hc in Hc'. injection Hc' as Hlen. apply list_eq. intros i.
  destruct (ks !! i) as [x|] eqn:Hx.
  - destruct (lookup_lt_is_Some_2 ks' i) as [y Hy]; [apply lookup_lt_Some in Hx; lia|]. rewrite Hy. f_equal.
    destruct (He i x Hx) as (A1&A2&A3), (He' i y Hy) as (B1&B2&B3). cbn zeta in *.
    rewrite A1 in B1. rewrite A2 in B2. rewrite A3 in B3. destruct x, y; cbn in *. congruence.
  - symmetry. apply lookup_ge_None. apply lookup_ge_None in Hx. lia.
Qed.

Lemma page_leaf_entries_inj m o es es' :
  page_leaf m o (kv_of_inode <$> es) -> page_leaf m o (kv_of_inode <$> es') -> Forall leaf_inode es -> Forall leaf_inode es' ->
  es = es'.
Proof.
  intros H1 H2 E1 E2. pose proof (page_leaf_inj _ _ _ _ H1 H2) as He.
  by rewrite <-(inode_of_kv_of_inode es), <-(inode_of_kv_of_inode es'), He.
Qed.

Lemma holds_root v es : holds v es -> value_root v = 0.
Proof. intros [_ [seq Hh] _ _ _ _ _]. unfold value_root. by rewrite Hh. Qed.

Lemma points_root v id : points_to v id -> value_root v = id.
Proof. intros [_ [seq Hh] _ _]. unfold value_root. by rewrite Hh. Qed.

Lemma stored_entries subs v es : stored_as subs v es -> bucket_entries es.
Proof. by intros [[]|]. Qed.

Lemma stored_wf subs v es : stored_as subs v es -> Item_wf v.
Proof. by intros [[]|? [] _ _ _]. Qed.

Lemma stored_inj subs v es es' : stored_as subs v es -> stored_as subs v es' -> es = es'.
Proof.
  intros [H1|id H1 E1 _ _] [H2|id' H2 E2 _ _].
  - destruct H1 as [_ _ _ L1 B1 _ _], H2 as [_ _ _ L2 B2 _ _]. eapply page_leaf_entries_inj; [exact L1|exact L2|apply B1|apply B2].
  - pose proof (holds_root _ _ H1). pose proof (points_root _ _ H2). pose proof (pt_id _ _ H2). lia.
  - pose proof (holds_root _ _ H2). pose proof (points_root _ _ H1). pose proof (pt_id _ _ H1). lia.
  - pose proof (points_root _ _ H1). pose proof (points_root _ _ H2). congruence.
Qed.

(** The pages may change, but for the one the value names. *)
Lemma stored_mono subs subs' v es :
  stored_as subs v es -> (value_root v <> 0 -> subs' !! value_root v = subs !! value_root v) -> stored_as subs' v es.
Proof.
  intros [H1|id H1 E1 B1 L1] Hs; [by apply stored_inline|]. pose proof (points_root _ _ H1). pose proof (pt_id _ _ H1).
  apply (stored_page _ _ _ id); try done. rewrite <-E1. subst. apply Hs. lia.
Qed.

(** The bytes the value takes. *)
Lemma stored_size subs v es :
  stored_as subs v es ->
  length_ v = BUCKETHEADERSIZE + (if page_bytes es <=? maxInlineBucketSize then page_bytes es else 0).
Proof.
  intros [[_ _ _ _ _ Hs Hl]|id [_ _ _ Hl] _ _ Hb].
  - by rewrite (proj2 (Z.leb_le _ _)).
  - rewrite (proj2 (Z.leb_gt _ _)) by done. lia.
Qed.

Lemma holds_empty : holds empty_bucket_value [].
Proof.
  split; try done; [by exists 0| |split; try constructor; done].
  split_and!; [|done|by intros ? ?]. exists leafPageFlag. split; reflexivity.
Qed.

Lemma load_zeros k o : 0 <= o -> o + 8 <= Z.of_nat k -> load 8 (replicate k Byte.x00) o = Ok 0.
Proof.
  intros Ho Hk. unfold load. rewrite slice_ok by (rewrite ?length_replicate; lia).
  rewrite drop_replicate, take_replicate, Nat.min_l by lia. done.
Qed.

(** A header read from its bytes. *)
Lemma bucketHeader_roundtrip h :
  0 <= root h < 2 ^ 64 -> 0 <= sequence h < 2 ^ 64 -> bucketHeader_read (bucketHeader_bytes h) 0 = Ok h.
Proof.
  intros Hr Hs. unfold bucketHeader_read, bucketHeader_bytes.
  assert (load 8 (le_split 8 (root h) ++ le_split 8 (sequence h)) 0 = Ok (root h)) as -> by (apply (load_app 8 []); [done|lia]).
  cbn [mbind res_bind]. change (0 + 8) with 8.
  rewrite <-(app_nil_r (le_split 8 (sequence h))), (load_app 8 (le_split 8 (root h)) (sequence h) [] 8) by (done || (cbn; lia)).
  by destruct h.
Qed.

(** The header alone as a value. *)
Lemma header_points h :
  0 < root h < 2 ^ 64 -> 0 <= sequence h < 2 ^ 64 ->
  points_to {| data_ := bucketHeader_bytes h; length_ := BUCKETHEADERSIZE |} (root h).
Proof.
  intros Hr Hs. split; [by split|exists (sequence h)|lia|done]. cbn [data_]. rewrite bucketHeader_roundtrip by lia. by destruct h.
Qed.

(** [Bucket::write] of a leaf with few entries makes an inline bucket. *)
Lemma Bucket_bytes_holds base stk seq n :
  isLeaf_ n = true -> bucket_entries (inodeList_ n) -> page_bytes (inodeList_ n) <= maxInlineBucketSize -> 0 <= seq < 2 ^ 64 ->
  exists v, Bucket_bytes base stk {| root := 0; sequence := seq |} n = Ok v /\ holds v (inodeList_ n).
Proof.
  intros Hl He Hs Hseq. pose proof (entries_wf _ He) as Hw. pose proof (entries_count _ He) as [Hb Hc].
  unfold maxInlineBucketSize in Hs.
  set (es := inodeList_ n) in *. set (k := 16 + page_bytes es).
  assert (32 <= k <= 1040) as Hk by (unfold k; lia).
  assert (to_int (BUCKETHEADERSIZE + size n) = k) as Hint.
  { rewrite size_exact by (done || (fold es; lia)). fold es. unfold BUCKETHEADERSIZE. fold k. unfold to_int.
    rewrite wrap_id by lia. by rewrite (proj2 (Z.ltb_lt _ _)) by lia. }
  unfold Bucket_bytes. rewrite Hint. cbn [data_ Item_of_size]. set (m0 := replicate _ _).
  assert (Z.of_nat (length m0) = k) as Hl0 by (unfold m0; rewrite length_replicate; lia).
  set (h := bucketHeader_bytes _). assert (Z.of_nat (length h) = 16) as Hlh by reflexivity.
  destruct (splice_succeeds m0 0 h) as [m1 Hm1]; [lia|lia|].
  pose proof (splice_length _ _ _ _ Hm1) as Hl1. rewrite Hm1. cbn [mbind res_bind].
  destruct (write_leaf_at base stk n m1 BUCKETHEADERSIZE) as (m2&Hm2&Hl2&Hf&Hleaf);
    [done|done|fold es; lia|done|fold es; lia|fold es; unfold BUCKETHEADERSIZE, k in *; lia|].
  rewrite Hm2. cbn [mbind res_bind]. eexists. split; [reflexivity|]. fold es in Hleaf.
  pose proof (slice_splice_same _ _ _ _ Hm1) as Hsame. rewrite Hlh in Hsame.
  assert (forall o, 0 <= o -> o + 8 <= 24 -> load 8 m2 o = load 8 m1 o) as Hkeep
    by (intros o H0 H24; apply load_frame, Hf; unfold BUCKETHEADERSIZE; lia).
  split; cbn [data_ length_]; try done.
  - split; cbn; rewrite wrap_id by lia; lia.
  - exists seq. pose proof (bucketHeader_roundtrip {| root := 0; sequence := seq |} ltac:(cbn; lia) ltac:(cbn; lia)) as Hrt.
    fold h in Hrt. unfold bucketHeader_read in Hrt |- *. rewrite !Hkeep by lia.
    change (load 8 m1 0) with (load 8 m1 (0 + 0)). by rewrite (load_of_slice _ _ _ _ 0 8 Hsame), (load_of_slice _ _ _ _ 8 8 Hsame) by lia.
  - unfold Page_id. rewrite Hkeep by (unfold BUCKETHEADERSIZE; lia).
    rewrite (load_frame 8 m0 m1) by (eapply slice_splice_other; [exact Hm1|unfold BUCKETHEADERSIZE; lia]).
    apply load_zeros; unfold BUCKETHEADERSIZE; lia.
  - rewrite wrap_id by lia. done.
Qed.

(** ** Opening *)

(** At offset [o] of [bs] is the page [id] with the entries [es]; the page of
    an inline bucket has the id 0. *)
Definition page_at (bs : list byte) (o id : Z) (es : InodeList) : Prop :=
  page_leaf bs o (kv_of_inode <$> es) /\ Page_id bs o = Ok id.

(** [q] points to such a page. *)
Definition readable_page (w : World) (q : PagePtr) (id : Z) (es : InodeList) : Prop := exists m o,
  mem_of w q = Ok (m, o) /\ page_at m o id es.

Lemma page_at_lift m o bs d id es : lies_at m o bs -> page_at bs d id es -> page_at m (o + d) id es.
Proof.
  intros Hm [Hl Hid]. split; [by eapply page_leaf_lift_at|].
  unfold Page_id in *. by eapply load_lift.
Qed.

(** The bucket [openBucket] makes of a value, with the page [qo] when it is
    inline. *)
Definition handle (t : txptr) (h : bucketHeader) (qo : option PagePtr) : Bucket :=
  bset_page_ qo (bset_bucketHeader_ h (Bucket_new t)).

(** Where the bucket with header [h] of the version is: on the root's page, at
    [qo], or on a page of its own. *)
Variant place (g : nat) (mt : meta) (im : image) (pg : list byte) (h : bucketHeader) : option PagePtr -> InodeList -> Prop :=
  | place_inline o es : root h = 0 -> page_at pg o 0 es -> place g mt im pg h (Some (PMap g (root (root_ mt) * 4096 + o))) es
  | place_page es : root h <> 0 -> im_subs im !! root h = Some es -> place g mt im pg h None es.

(** [q] is what a transaction [t] reads of a bucket. *)
Definition reads_page (w : World) (t : txptr) (h : bucketHeader) (qo : option PagePtr) (q : PagePtr) : Prop :=
  (root h = 0 /\ qo = Some q) \/
  (0 < root h /\ qo = None /\ q = getPagePtr w (root h) /\ getPage w t (root h) = Ok (Some q)).

(** The pages of the version, read through the mapping by a transaction that
    has none of its own. *)
Lemma place_readable w mt im np pg h qo es t tv m :
  leaf_snapshot w mt im np pg -> place (w_gen w) mt im pg h qo es -> tx_of w t = Ok tv ->
  metaData_ tv = Some m -> totalPageNumber_ mt <= totalPageNumber_ m -> dirtyPageTable_ tv = ∅ ->
  exists q, readable_page w q (root h) es /\ reads_page w t h qo q.
Proof.
  intros [Eps Emap Eroom [Hlies Hlen _ _] Hr _ _ _ Hsubs] Hp Ht Hm Htot Hd. inversion Hp as [o es' E Hpg|es' Hne Hs]; subst.
  - eexists. split; [|by left]. rewrite E. eexists _, _. split; [by apply mem_of_map|].
    eapply page_at_lift; [|exact Hpg]. apply slice_take; [exact Hlies|lia].
  - destruct (Hsubs _ _ Hs) as (bs&[Hl2 Hn2 Hi2 _]&Hr2&Hleaf&_).
    exists (getPagePtr w (root h)). split.
    + unfold getPagePtr. rewrite Eps, wrap_id by lia. eexists _, _. split; [by apply mem_of_map|].
      rewrite <-(Z.add_0_r (_ * 4096)). eapply page_at_lift; [apply slice_take; [exact Hl2|lia]|]. by split.
    + right. split_and!; [lia|done|done|]. unfold getPage. rewrite Ht. cbn [mbind res_bind]. rewrite Hm. cbn [deref mbind res_bind].
      rewrite (proj2 (Z.leb_gt _ _)) by lia. by rewrite Hd, lookup_empty.
Qed.

(** The bytes of a leaf element's value are at [valuePtr()]. *)
Lemma leaf_value_at m e v :
  leaf_value m e = Ok v -> exists vp, leaf_valuePtr m e = Ok vp /\ slice m vp (length_ v) = Ok (data_ v).
Proof.
  unfold leaf_value, leaf_valuePtr, leaf_read, Item_of_buf. intros Hv. inv_res. subst.
  exists (e + wrap32 (a + a0)). by split.
Qed.

(** The page inside a value. *)
Lemma value_page_at bs e v es :
  leaf_value bs e = Ok v -> holds v es ->
  exists vp, leaf_valuePtr bs e = Ok vp /\ page_at bs (vp + BUCKETHEADERSIZE) 0 es.
Proof.
  intros Hv [[Hl _] _ Hid Hleaf _ _ _]. destruct (leaf_value_at _ _ _ Hv) as (vp&Hvp&Hs). rewrite Hl in Hs.
  exists vp. split; [done|]. by apply (page_at_lift _ _ (data_ v)).
Qed.

Lemma leaf_valuePtr_lift m o bs e vp :
  lies_at m o bs -> leaf_valuePtr bs e = Ok vp -> leaf_valuePtr m (o + e) = Ok (o + vp).
Proof.
  intros Hm Hv. unfold leaf_valuePtr in *. inv_res. unfold leaf_pos, leaf_ksize in *.
  rewrite <-!Z.add_assoc. erewrite load_lift by done. cbn [mbind res_bind]. erewrite load_lift by done.
  cbn [mbind res_bind]. f_equal. lia.
Qed.

Lemma header_range m o h : bucketHeader_read m o = Ok h -> 0 <= root h < 2 ^ 64 /\ 0 <= sequence h < 2 ^ 64.
Proof.
  unfold bucketHeader_read. intros Hh. inv_res. subst. cbn.
  repeat match goal with E : load 8 _ _ = Ok _ |- _ => apply load_range in E end. lia.
Qed.

(** [openBucket] of a value: what it knows of the page depends on whether the
    bucket is inline, and on whether the value's place is given. *)
Lemma openBucket_header `{Env} w b bv v h e :
  bucket_of w b = Ok bv -> bucketHeader_read (data_ v) 0 = Ok h ->
  (forall e', root h = 0 -> e = Some e' -> exists d, on_page w e' (fun m o => vp ← leaf_valuePtr m o; Ok (vp - o)) = Ok d) ->
  let c := fresh_key (w_buckets w) in
  exists qo, openBucket b v e w = Ok (c, with_bucket c (handle (tx_ bv) h qo) w) /\
    (root h <> 0 -> qo = None) /\
    (forall e' d, root h = 0 -> e = Some e' -> on_page w e' (fun m o => vp ← leaf_valuePtr m o; Ok (vp - o)) = Ok d ->
      qo = Some (ptr_add e' (d + BUCKETHEADERSIZE))).
Proof.
  intros Hb Hh Hd c. unfold openBucket. erewrite bindM_ok by (by apply get_bucket_ok). cbn beta.
  erewrite bindM_ok by apply new_bucket_ok. cbn beta. fold c.
  erewrite bindM_ok by (by apply lift_ok). cbn beta.
  erewrite bindM_ok by (apply upd_bucket_ok, bucket_of_with). cbn beta.
  destruct (Z.eqb_spec (root h) 0) as [E|E].
  - destruct e as [e|].
    + destruct (Hd e E eq_refl) as [d Hd']. exists (Some (ptr_add e (d + BUCKETHEADERSIZE))). split_and!; [|done|].
      * erewrite bindM_ok.
        2:{ erewrite bindM_ok by (apply (reads_ok (fun w => on_page w e _)); exact Hd'). cbn beta.
            apply upd_bucket_ok, bucket_of_with. }
        cbn beta. by rewrite !with_bucket_twice.
      * intros e' d' _ [= <-] Hd2. assert (d = d') as -> by congruence. done.
    + exists (Some PDead). split_and!; [|done|done]. erewrite bindM_ok by (apply upd_bucket_ok, bucket_of_with).
      cbn beta. by rewrite !with_bucket_twice.
  - exists None. split_and!; [|done|done]. erewrite bindM_ok by reflexivity. cbn beta. by rewrite !with_bucket_twice.
Qed.

Lemma stored_header subs v es : stored_as subs v es -> exists h, bucketHeader_read (data_ v) 0 = Ok h /\ root h = value_root v.
Proof. unfold value_root. by intros [[_ [seq ->] _ _ _ _ _]|id [_ [seq ->] _ _] _ _ _]; eexists. Qed.

(** Without the place of its value, an inline bucket's page dangles. *)
Lemma openBucket_dangling `{Env} w b bv subs v es :
  bucket_of w b = Ok bv -> stored_as subs v es ->
  let c := fresh_key (w_buckets w) in
  exists h qo, openBucket b v None w = Ok (c, with_bucket c (handle (tx_ bv) h qo) w).
Proof.
  intros Hb Hv c. destruct (stored_header _ _ _ Hv) as (h&Hh&_).
  destruct (openBucket_header w b bv v h None Hb Hh) as (qo&Hopen&_); [done|]. by exists h, qo.
Qed.

(** Counting a cursor changes neither the version nor the root bucket. *)
Lemma unread_counted w t b mt tv bv :
  unread_root w t b mt tv bv -> unread_root (with_tx t (count_cursor tv) w) t b mt (count_cursor tv) bv.
Proof. intros []. split; try done. apply tx_of_with. Qed.

Section open.
Context `{Env} (w : World) (mt : meta) (im : image) (np : Z) (pg : list byte).
Hypothesis current : leaf_snapshot w mt im np pg.
Context (t : txptr) (b : bptr) (tv : Tx) (bv : Bucket).
Hypothesis unread : unread_root w t b mt tv bv.
#[local] Set Default Proof Using "All".

Let c : bptr := fresh_key (w_buckets w).

(** The root bucket once the sub-bucket [c] called [name] is open in it. *)
Definition opened_root (name : list byte) (c : bptr) : Bucket := bset_buckets_ (<[name := c]> (buckets_ bv)) bv.

(** [getBucketByName] opens the bucket under a key of the version. *)
Lemma getBucketByName_opens x es :
  (0 < env_fuel)%nat -> x ∈ im_root im -> has_flag (i_flag x) bucketLeafFlag = true -> stored_as (im_subs im) (i_value x) es ->
  buckets_ bv !! data_ (i_key x) = None ->
  c <> b /\ exists h qo, root h = value_root (i_value x) /\ 0 <= root h < 2 ^ 64 /\ 0 <= sequence h < 2 ^ 64 /\
    place (w_gen w) mt im pg h qo es /\
    getBucketByName b (i_key x) w = Ok (Some c,
      with_bucket b (opened_root (data_ (i_key x)) c) (with_bucket c (handle t h qo) (with_tx t (count_cursor tv) w))).
Proof.
  intros Hf Hx Hflag Hstored Hnew.
  destruct (unread_fields _ _ _ (ur_fresh _ _ _ _ _ _ unread)) as (Ht&Hh&Hn&_).
  assert (c <> b) as Hcb by (eapply fresh_bucket_ne, unread). split; [exact Hcb|].
  set (w1 := with_tx t (count_cursor tv) w).
  destruct (unread_find w1 mt im np pg (leaf_snapshot_tx _ _ _ _ _ _ _ current) t b _ bv
    (unread_counted _ _ _ _ _ _ unread) x Hf Hx) as (i&Hi&Hxi&Hseek).
  change (getPagePtr w1 (root (root_ mt))) with (getPagePtr w (root (root_ mt))) in Hseek.
  pose proof current as [Eps Emap Eroom [Hlies Hlen _ _] Hr Eleaf _ _ _].
  destruct Eleaf as (_&_&Hel). destruct (Hel (Z.to_nat i) (kv_of_inode x)) as (_&Hval&_); [by rewrite list_lookup_fmap, Hxi|].
  cbn zeta in Hval. cbn [kv_value kv_of_inode] in Hval. rewrite Z2Nat.id in Hval by lia.
  set (o := root (root_ mt) * 4096) in *. set (e := getLeafPageElement 0 i) in *.
  assert (ptr_add (getPagePtr w (root (root_ mt))) (PAGEHEADERSIZE + i * LEAFELEMSIZE) = PMap (w_gen w) (o + e)) as He.
  { unfold getPagePtr. rewrite Eps, wrap_id by lia. cbn [ptr_add]. done. }
  rewrite He in Hseek. destruct (stored_header _ _ _ Hstored) as (h&Hhd&Hroot).
  destruct (header_range _ _ _ Hhd) as [Hrr Hseq]. destruct (leaf_value_at _ _ _ Hval) as (vp&Hvp&_).
  assert (on_page w1 (PMap (w_gen w) (o + e)) (fun m o => vp ← leaf_valuePtr m o; Ok (vp - o)) = Ok (vp - e)) as Hon.
  { unfold on_page. change (mem_of w1) with (mem_of w). rewrite (mem_of_map w _ _ Emap). cbn [mbind res_bind].
    rewrite (leaf_valuePtr_lift _ o pg e vp); [|apply slice_take; [exact Hlies|lia]|exact Hvp].
    cbn [mbind res_bind]. f_equal. lia. }
  destruct (openBucket_header w1 b bv (i_value x) h (Some (PMap (w_gen w) (o + e)))) as (qo&Hopen&Hpaged&Hinline);
    [apply unread|done|intros e' _ [= <-]; by eexists|].
  exists h, qo. split; [exact Hroot|]. split; [exact Hrr|]. split; [exact Hseq|]. split.
  - destruct Hstored as [Hholds|id Hpt Hid _ _].
    + rewrite (holds_root _ _ Hholds) in Hroot. rewrite (Hinline _ _ Hroot eq_refl Hon). destruct (value_page_at _ _ _ es Hval Hholds) as (vp'&Hvp'&Hq).
      rewrite Hvp in Hvp'. injection Hvp' as <-.
      replace (ptr_add _ _) with (PMap (w_gen w) (o + (vp + BUCKETHEADERSIZE))) by (cbn [ptr_add]; f_equal; lia).
      by apply place_inline.
    + rewrite (points_root _ _ Hpt) in Hroot. pose proof (pt_id _ _ Hpt). rewrite Hpaged by lia.
      apply place_page; [lia|by rewrite Hroot].
  - rewrite Ht in Hopen. unfold getBucketByName. erewrite bindM_ok by (apply get_bucket_ok, unread). cbn beta. rewrite Hnew.
    erewrite bindM_ok.
    2:{ rewrite (createCursor_ok w b bv tv); [rewrite Ht; reflexivity|apply unread|rewrite Ht; apply unread]. }
    cbn beta. fold w1.
    erewrite bindM_ok by (apply (reads_ok (fun w => seek w b (i_key x))); exact Hseek).
    cbn beta iota.
    cbn [kv_key kv_flag kv_value kv_of_inode]. rewrite bytes_eqb_refl, Hflag. cbn [negb orb].
    erewrite bindM_ok by exact Hopen. cbn beta.
    erewrite bindM_ok by (apply upd_bucket_ok; rewrite bucket_of_with_ne by done; apply unread).
    reflexivity.
Qed.
End open.

(** ** Reading and writing a sub-bucket *)

Lemma readable_leaf_view w q id es : readable_page w q id es -> LeafView w (Some q) None (kv_of_inode <$> es).
Proof. intros (m&o&Hm&Hl&_). by eapply page_leaf_view. Qed.

(** The sub-bucket [c] of transaction [t], opened and not read yet. *)
Record unread_child (w : World) (t : txptr) (tv : Tx) (c : bptr) (h : bucketHeader) (qo : option PagePtr) (q : PagePtr)
    (es : InodeList) : Prop := {
  uc_tx : tx_of w t = Ok tv;
  uc_bucket : bucket_of w c = Ok (handle t h qo);
  uc_reads : reads_page w t h qo q;
  uc_page : readable_page w q (root h) es;
  uc_entries : bucket_entries es;
  uc_seq : 0 <= sequence h < 2 ^ 64;
}.

(** The bucket [c] with the header [h] once its one leaf is the node [n]:
    [v]. *)
Record edited_child (w : World) (t : txptr) (c : bptr) (h : bucketHeader) (n : nptr) (cv : Bucket) (v : Node) : Prop := {
  ec_leaf : lone_leaf w t c h n cv v;
  ec_buckets : buckets_ cv = ∅;
  ec_seq : 0 <= sequence h < 2 ^ 64;
  ec_page : root h = 0 \/ (0 < root h /\ page_ cv = Some (getPagePtr w (root h)));
}.

(** A node with other entries. *)
Definition same_shape (v v' : Node) : Prop := set_unbalanced (unbalanced_ v) (set_inodeList (inodeList_ v) v') = v.

Lemma same_shape_set l v : same_shape v (set_inodeList l v).
Proof. by destruct v. Qed.

Lemma lone_leaf_node w t c h n cv v v' :
  lone_leaf w t c h n cv v -> same_shape v v' -> lone_leaf (with_node n v' w) t c h n cv v'.
Proof.
  intros [] Hs. unfold same_shape in Hs. split; try done; [apply node_of_with|..]; rewrite <-Hs in *; by destruct v'.
Qed.

Lemma edited_child_node w t c h n cv v v' :
  edited_child w t c h n cv v -> same_shape v v' -> edited_child (with_node n v' w) t c h n cv v'.
Proof. intros [] Hs. split; try done. by eapply lone_leaf_node. Qed.

Section child.
Context `{Env} (w : World) (t : txptr) (tv : Tx) (c : bptr) (h : bucketHeader) (qo : option PagePtr) (q : PagePtr) (es : InodeList).
Hypothesis child : unread_child w t tv c h qo q es.
Hypothesis fuel : (0 < env_fuel)%nat.
#[local] Set Default Proof Using "All".

Let w1 : World := with_tx t (count_cursor tv) w.

Lemma child_cursor : createCursor c w = Ok (tt, w1).
Proof. destruct child. by rewrite (createCursor_ok w c (handle t h qo) tv). Qed.

(** Counting the cursor does not change what is read. *)
Lemma child_reads : reads_page w1 t h qo q.
Proof.
  destruct child. destruct uc_reads0 as [?|(?&?&?&Hg)]; [by left|right]. split_and!; try done.
  revert Hg. unfold getPage. rewrite uc_tx0. unfold w1. by rewrite tx_of_with.
Qed.

Lemma child_getPageNode : getPageNode w1 c (root (bucketHeader_ (handle t h qo))) = Ok (None, Some q).
Proof.
  destruct child. unfold getPageNode. change (bucket_of w1 c) with (bucket_of w c). rewrite uc_bucket0.
  cbn [mbind res_bind]. destruct child_reads as [[Hr ->]|(Hr&->&_&Hg)].
  - cbn [bucketHeader_ handle bset_page_ bset_bucketHeader_]. by rewrite Hr.
  - cbn [bucketHeader_ handle bset_page_ bset_bucketHeader_]. rewrite (proj2 (Z.eqb_neq _ _)) by lia.
    change (nodes_ _) with (∅ : gmap Z nptr). rewrite lookup_empty. change (tx_ _) with t. by rewrite Hg.
Qed.

Lemma child_seek key :
  exists i found ptr, search_spec (ikeys es) (data_ key) (i, found) /\
    seek w1 c key = Ok ([mkRef (Some q) None i], ptr, default KV_reset (kv_of_inode <$> es !! Z.to_nat i)).
Proof.
  destruct child as [Ht Hb _ Hq He _].
  destruct (leaf_view_seek w1 c (handle t h qo) (Some q) None (kv_of_inode <$> es) key) as (i&found&ptr&Hspec&Hseek&_);
    [exact Hb|apply child_getPageNode|by eapply readable_leaf_view|rewrite kv_keys_inodes; apply He|done|].
  rewrite kv_keys_inodes in Hspec. rewrite list_lookup_fmap in Hseek. by exists i, found, ptr.
Qed.

(** [get] of any key is the lookup in the bucket's map. *)
Lemma child_get key : Bucket_get c key w = Ok (default Item_empty (i_value <$> inode_map es !! data_ key), w1).
Proof.
  destruct (child_seek key) as (i&found&ptr&Hspec&Hseek).
  pose proof (found_value es key i found (be_plain _ (uc_entries _ _ _ _ _ _ _ _ child)) Hspec) as Hval.
  unfold Bucket_get. erewrite bindM_ok by exact child_cursor. cbn beta.
  erewrite bindM_ok by (by apply (reads_ok (fun w => seek w c key))). cbn beta iota.
  rewrite <-Hval. cbn zeta. by destruct (_ || _).
Qed.

Let n : nptr := fresh_key (w_nodes w).
Let cv : Bucket := materialised q (root h) n (handle t h qo).
Let v : Node := leaf_node c None (root h) es.
Let w2 : World := with_bucket c cv (with_node n v w1).

(** The cursor's [getNode] makes the bucket's node. *)
Lemma child_getNode i :
  Cursor_getNode c [mkRef (Some q) None i] w1 = Ok ((n, [mkRef (Some q) None i]), w2).
Proof.
  pose proof child_reads as Hreads. destruct child as [Ht Hb _ (m&o&Hm&Hl&Hid) He _].
  assert (forall A (f : list byte -> Z -> res A), on_page w1 q f = f m o) as Hon
    by (intros; unfold on_page; change (mem_of w1 q) with (mem_of w q); by rewrite Hm).
  unfold Cursor_getNode. cbn [ref_node rev foldl app].
  erewrite bindM_ok by reflexivity. cbn beta iota. cbn [ref_node ref_page deref].
  erewrite bindM_ok.
  2:{ erewrite bindM_ok by (by apply lift_ok). cbn beta.
      erewrite bindM_ok by (apply (reads_ok (fun w => on_page w q Page_id)); rewrite Hon; exact Hid). cbn beta.
      apply (getNode_materialise w1 c (handle t h qo) q (root h) None v); [exact Hb|done|done| |].
      - destruct Hreads as [[_ ->]|(_&->&_&Hg)]; [by left|by right].
      - rewrite Hon. apply read_page_leaf; [done|done|apply He]. }
  cbn beta. cbn [removelast descend]. erewrite bindM_ok by reflexivity. cbn beta.
  erewrite bindM_ok by (apply get_node_ok; apply node_of_with). cbn beta.
  erewrite bindM_ok by reflexivity. reflexivity.
Qed.

Context (mt : meta).
Hypothesis tx_db : db_ tv = true.
Hypothesis tx_writable : writable_ tv = true.
Hypothesis tx_meta_ok : metaData_ tv = Some mt /\ 0 < wrap32 (totalPageNumber_ mt).

Lemma child_writable : not_writable c w = Ok (false, w).
Proof. destruct child. by eapply not_writable_ok. Qed.

Lemma child_loaded : leaf_bucket_at w2 c n v cv (count_cursor tv) mt.
Proof.
  destruct child as [Ht Hb Hr Hq He _], tx_meta_ok. pose proof (entries_count _ He).
  split; try done.
  - apply bucket_of_with.
  - apply tx_of_with.
  - eapply getPageNode_intro; [apply bucket_of_with|]. cbn. destruct Hr as [[? _]|(?&_)]; [by left|right].
    split; [lia|apply lookup_insert_eq].
  - apply node_of_with.
  - apply He.
  - cbn. lia.
Qed.

(** The state once the node's inodes are changed. *)
Lemma child_edited v' :
  same_shape v v' -> edited_child (with_node n v' w2) t c h n cv v' /\ bucket_frame t c w (with_node n v' w2).
Proof.
  intros Hv. destruct child as [Ht Hb Hr Hq He Hs]. split.
  - eapply edited_child_node; [|exact Hv]. split; try done; [split; try done|].
    + apply bucket_of_with.
    + apply node_of_with.
    + destruct Hr as [[? _]|(?&_&->&_)]; [by left|by right].
  - transitivity w1; [by apply bucket_frame_tx|].
    transitivity (with_node n v w1); [apply bucket_frame_new_node|].
    transitivity w2; [apply bucket_frame_bucket|]. by apply (bucket_frame_node t c w2 n v); [apply node_of_with|].
Qed.

(** [put] in the bucket is insertion in its map. *)
Lemma child_put key value :
  0 < length_ key <= MAXKEYSIZE -> length_ value <= MAXVALUESIZE ->
  exists w' cv' v', Bucket_put c key value w = Ok (0, w') /\ edited_child w' t c h n cv' v' /\ bucket_frame t c w w' /\
    keys_sorted (inodeList_ v') /\
    inode_map (inodeList_ v') = <[data_ key := mkInode 0 0 key value]> (inode_map es).
Proof.
  intros Hk Hv. destruct (child_seek key) as (i&found&ptr&Hspec&Hseek).
  pose proof (uc_entries _ _ _ _ _ _ _ _ child) as He. pose proof (entries_count _ He).
  destruct (leaf_bucket_Node_put _ _ _ _ _ _ _ child_loaded key value 0) as (l'&Hput&Hlb&Hm); [lia|cbn; lia|].
  destruct (child_edited (set_inodeList l' v)) as [Hed Hfr]; [done|].
  eexists _, cv, _. split; [|split; [exact Hed|split; [exact Hfr|split; [apply Hlb|exact Hm]]]].
  unfold Bucket_put. erewrite bindM_ok by exact child_writable. cbn beta.
  rewrite (proj2 (Z.eqb_neq (length_ key) 0)), (proj2 (Z.ltb_ge MAXKEYSIZE _)), (proj2 (Z.ltb_ge MAXVALUESIZE _)) by lia.
  cbn [orb]. erewrite bindM_ok by exact child_cursor. cbn beta.
  erewrite bindM_ok by (by apply (reads_ok (fun w => seek w c key))). cbn beta iota.
  rewrite (found_plain es _ (be_plain _ He)), andb_false_r.
  erewrite bindM_ok by apply child_getNode. cbn beta iota. by erewrite bindM_ok by exact Hput.
Qed.

(** [remove] in the bucket is deletion from its map. *)
Lemma child_remove key :
  0 < length_ key ->
  exists w' cv' v', Bucket_remove c key w = Ok (0, w') /\ edited_child w' t c h n cv' v' /\ bucket_frame t c w w' /\
    keys_sorted (inodeList_ v') /\ inode_map (inodeList_ v') = delete (data_ key) (inode_map es).
Proof.
  intros Hk. destruct (child_seek key) as (i&found&ptr&Hspec&Hseek).
  pose proof (uc_entries _ _ _ _ _ _ _ _ child) as He.
  destruct (leaf_bucket_Node_del _ _ _ _ _ _ _ child_loaded key) as (v'&Hdel&Hlb&Hm&Hshape).
  destruct (child_edited v') as [Hed Hfr]; [exact Hshape|].
  eexists _, cv, _. split; [|split; [exact Hed|split; [exact Hfr|split; [apply Hlb|exact Hm]]]].
  unfold Bucket_remove. erewrite bindM_ok by exact child_writable. cbn beta.
  rewrite (proj2 (Z.eqb_neq (length_ key) 0)) by lia. cbn [orb].
  erewrite bindM_ok by exact child_cursor. cbn beta.
  erewrite bindM_ok by (by apply (reads_ok (fun w => seek w c key))). cbn beta iota.
  rewrite (found_plain es _ (be_plain _ He)).
  erewrite bindM_ok by apply child_getNode. cbn beta iota. by erewrite bindM_ok by exact Hdel.
Qed.
End child.

(** ** A sub-bucket at work *)

(** The bucket [c] of [t] has the entries [es]: it was not read yet, or is a
    leaf in memory. *)
Variant child_at (w : World) (t : txptr) (c : bptr) (h : bucketHeader) (es : InodeList) : Prop :=
  | child_unread tv qo q (_ : unread_child w t tv c h qo q es)
  | child_node n cv v (_ : edited_child w t c h n cv v) (_ : bucket_entries (inodeList_ v)) (_ : es = inodeList_ v).

Lemma child_at_entries w t c h es : child_at w t c h es -> bucket_entries es.
Proof. by intros [tv qo q []|n cv v ? ? ->]. Qed.

(** In [w'] the bucket [c] is a leaf in memory with the entries [es]. *)
Definition child_becomes (w w' : World) (t : txptr) (c : bptr) (h : bucketHeader) (es : InodeList) : Prop := exists n cv v,
  edited_child w' t c h n cv v /\ inodeList_ v = es /\ bucket_frame t c w w'.

(** A leaf in memory is one of Bucket.v. *)
Lemma edited_loaded w t tv c h mt n cv v :
  tx_of w t = Ok tv -> db_ tv = true -> writable_ tv = true -> metaData_ tv = Some mt -> 0 < wrap32 (totalPageNumber_ mt) ->
  edited_child w t c h n cv v -> bucket_entries (inodeList_ v) -> leaf_bucket_at w c n v cv tv mt.
Proof.
  intros Htx Hdb Hwr Hm Htot [[] Hbs Hseq Hpage] He. pose proof (entries_count _ He).
  split; try done.
  - by rewrite ll_owner.
  - eapply getPageNode_intro; [exact ll_bucket|]. rewrite ll_header, ll_nodes.
    destruct Hpage as [?|[? _]]; [by left|right]. split; [lia|apply lookup_singleton_eq].
  - apply He.
  - lia.
Qed.

(** The bucket keeps its shape when its node changes. *)
Lemma edited_counted w t tv c h n cv v v' :
  tx_of w t = Ok tv -> edited_child w t c h n cv v -> same_shape v v' ->
  child_becomes w (with_node n v' (with_tx t (count_cursor tv) w)) t c h (inodeList_ v').
Proof.
  intros tx Hed Hs. exists n, cv, v'. split; [|split; [done|]].
  - eapply (edited_child_node _ _ _ _ _ _ v); [|exact Hs]. destruct Hed as [[] ? ? ?]. by split.
  - transitivity (with_tx t (count_cursor tv) w); [by apply bucket_frame_tx|]. destruct Hed as [[] _ _ _].
    by eapply bucket_frame_node.
Qed.

Section working_child.
Context `{Env} (w : World) (t : txptr) (tv : Tx) (c : bptr) (h : bucketHeader) (es : InodeList) (mt : meta).
Hypothesis child : child_at w t c h es.
Hypothesis tx : tx_of w t = Ok tv.
Hypothesis tx_db : db_ tv = true.
Hypothesis tx_writable : writable_ tv = true.
Hypothesis tx_meta_ok : metaData_ tv = Some mt /\ 0 < wrap32 (totalPageNumber_ mt).
Hypothesis fuel : (0 < env_fuel)%nat.
#[local] Set Default Proof Using "All".

Lemma child_bucket : exists cv, bucket_of w c = Ok cv /\ tx_ cv = t.
Proof. destruct child as [? ? ? []|? ? ? [[] _ _ _] _ _]; by eexists. Qed.

(** [put] in the bucket is insertion in its map; a key or value out of bounds
    is refused. *)
Lemma child_at_put key value :
  0 < length_ key <= MAXKEYSIZE -> length_ value <= MAXVALUESIZE ->
  exists w' es', Bucket_put c key value w = Ok (0, w') /\ child_becomes w w' t c h es' /\ keys_sorted es' /\
    inode_map es' = <[data_ key := mkInode 0 0 key value]> (inode_map es).
Proof.
  intros Hk Hv. destruct child as [tv' qo q Hch|n cv v Hed He ->].
  - assert (tv' = tv) as -> by (destruct Hch; congruence).
    destruct (child_put w t tv c h qo q es Hch fuel mt tx_db tx_writable tx_meta_ok key value Hk Hv)
      as (w'&cv&v&Hrun&Hed&Hfr&Hs&Hm). exists w', (inodeList_ v). split_and!; try done. by eexists _, cv, v.
  - destruct tx_meta_ok as [Hmt Htot].
    pose proof (edited_loaded w t tv c h mt n cv v tx tx_db tx_writable Hmt Htot Hed He) as Hlb. pose proof (entries_count _ He).
    destruct (leaf_bucket_put _ _ _ _ _ _ _ Hlb fuel (be_plain _ He) key value) as (l'&Hrun&Hlb'&Hm); [done|done|lia|].
    rewrite (ll_owner _ _ _ _ _ _ _ (ec_leaf _ _ _ _ _ _ _ Hed)) in Hrun.
    eexists _, l'. split_and!; [exact Hrun| |apply Hlb'|exact Hm].
    apply (edited_counted w t tv c h n cv v); [done|done|apply same_shape_set].
Qed.

Lemma child_at_put_refused key value :
  length_ key = 0 \/ MAXKEYSIZE < length_ key \/ MAXVALUESIZE < length_ value ->
  Bucket_put c key value w = Ok (-1, w).
Proof.
  intros Hbad. destruct child_bucket as (cv&Hc&Ht). unfold Bucket_put.
  erewrite bindM_ok by (eapply not_writable_ok; [exact Hc|rewrite Ht; exact tx|done..]). cbn beta. cbn [orb].
  destruct (Z.eqb_spec (length_ key) 0), (Z.ltb_spec MAXKEYSIZE (length_ key)), (Z.ltb_spec MAXVALUESIZE (length_ value));
    done || lia.
Qed.

(** [remove] is deletion from the map; an empty key is refused. *)
Lemma child_at_remove key :
  0 < length_ key ->
  exists w' es', Bucket_remove c key w = Ok (0, w') /\ child_becomes w w' t c h es' /\ keys_sorted es' /\
    inode_map es' = delete (data_ key) (inode_map es).
Proof.
  intros Hk. destruct child as [tv' qo q Hch|n cv v Hed He ->].
  - assert (tv' = tv) as -> by (destruct Hch; congruence).
    destruct (child_remove w t tv c h qo q es Hch fuel mt tx_db tx_writable tx_meta_ok key Hk)
      as (w'&cv&v&Hrun&Hed&Hfr&Hs&Hm). exists w', (inodeList_ v). split_and!; try done. by eexists _, cv, v.
  - destruct tx_meta_ok as [Hmt Htot].
    pose proof (edited_loaded w t tv c h mt n cv v tx tx_db tx_writable Hmt Htot Hed He) as Hlb.
    destruct (leaf_bucket_remove _ _ _ _ _ _ _ Hlb fuel (be_plain _ He) key Hk) as (v'&Hrun&Hlb'&Hm&Hshape).
    rewrite (ll_owner _ _ _ _ _ _ _ (ec_leaf _ _ _ _ _ _ _ Hed)) in Hrun. eexists _, (inodeList_ v').
    split_and!; [exact Hrun| |apply Hlb'|exact Hm]. by apply (edited_counted w t tv c h n cv v).
Qed.

Lemma child_at_remove_refused key : length_ key = 0 -> Bucket_remove c key w = Ok (-1, w).
Proof.
  intros Hk. destruct child_bucket as (cv&Hc&Ht). unfold Bucket_remove.
  erewrite bindM_ok by (eapply not_writable_ok; [exact Hc|rewrite Ht; exact tx|done..]). cbn beta. by rewrite Hk.
Qed.

(** [get] is the lookup, and counts a cursor. *)
Lemma child_at_get key :
  Bucket_get c key w =
    Ok (default Item_empty (i_value <$> inode_map es !! data_ key), with_tx t (count_cursor tv) w).
Proof.
  destruct child as [tv' qo q Hch|n cv v Hed He ->].
  - assert (tv' = tv) as -> by (destruct Hch; congruence). by apply (child_get w t tv c h qo q).
  - destruct tx_meta_ok as [Hmt Htot].
    pose proof (edited_loaded w t tv c h mt n cv v tx tx_db tx_writable Hmt Htot Hed He) as Hlb.
    destruct (leaf_bucket_get _ _ _ _ _ _ _ Hlb fuel (be_plain _ He) key) as [Hrun _].
    by rewrite (ll_owner _ _ _ _ _ _ _ (ec_leaf _ _ _ _ _ _ _ Hed)) in Hrun.
Qed.
End working_child.

(** ** The value a commit makes of such a bucket *)

(** What a bucket does not keep inline fits a page. *)
Lemma edited_sized v : bucket_entries (inodeList_ v) -> isLeaf_ v = true -> page_sized v.
Proof.
  intros He Hl. pose proof (be_small _ He) as Hs. destruct (one_page_fits v) as (H1&H2&H3); [by left|done|apply He|].
  split; try done. by apply entries_wf.
Qed.

Lemma edited_inlineable w t c h n cv v :
  edited_child w t c h n cv v -> bucket_entries (inodeList_ v) ->
  isInlineable w c = Ok (page_bytes (inodeList_ v) <=? maxInlineBucketSize).
Proof.
  intros [[] _ _ _] He. pose proof (entries_wf _ He) as Hw. pose proof (entries_count _ He) as [Hc _].
  unfold isInlineable. rewrite ll_bucket. cbn [mbind res_bind]. rewrite ll_root, ll_node. cbn [mbind res_bind].
  rewrite ll_leaf. cbn [andb]. f_equal. pose proof (isinlineable_spec v maxInlineBucketSize Hw ltac:(lia)) as Hspec.
  destruct (Z.leb_spec (page_bytes (inodeList_ v)) maxInlineBucketSize) as [Hle|Hgt].
  - apply Hspec. split; [apply He|by right].
  - apply not_true_iff_false. intros [_ [Hn|Hn]]%Hspec; [|lia]. rewrite Hn in Hgt. by vm_compute in Hgt.
Qed.

(** The bucket [cv] without its page. *)
Definition freed_bucket (h : bucketHeader) (cv : Bucket) : Bucket :=
  bset_bucketHeader_ {| root := 0; sequence := sequence h |} cv.

(** [Bucket::write] of the leaf, its page freed. *)
Lemma freed_write `{Env} w c h n cv v :
  bucket_of w c = Ok (freed_bucket h cv) -> rootNode_ cv = Some n -> node_of w n = Ok v -> isLeaf_ v = true ->
  bucket_entries (inodeList_ v) -> page_bytes (inodeList_ v) <= maxInlineBucketSize -> 0 <= sequence h < 2 ^ 64 ->
  exists nv, holds nv (inodeList_ v) /\ Bucket_write c w = Ok (nv, w).
Proof.
  intros Hb Hr Hn Hl He Hs Hseq.
  destruct (Bucket_bytes_holds (env_page_addr (PHeap (fresh_key (w_blocks w)) 0)) (env_item_addr n) (sequence h) v Hl He Hs Hseq)
    as (nv&Hnv&Hholds).
  exists nv. split; [exact Hholds|]. unfold Bucket_write. erewrite bindM_ok by (by apply get_bucket_ok). cbn beta.
  erewrite bindM_ok by (apply lift_ok; cbn; by rewrite Hr). cbn beta.
  erewrite bindM_ok by (by apply get_node_ok). cbn beta.
  erewrite bindM_ok by apply gets_ok. cbn beta. apply lift_ok. exact Hnv.
Qed.

(** [Bucket::free]: the bucket's page goes to the free list, if it has one. *)
Lemma edited_free `{Env} w t c h n cv v mx fl' :
  edited_child w t c h n cv v -> tx_meta w t = Ok mx ->
  (if root h =? 0 then fl' = freeList_ (w_db w)
   else Tx_free (txid_ mx) (Some (getPagePtr w (root h))) w = Ok (tt, wset_w_db (dset_freeList_ fl' (w_db w)) w)) ->
  exists w', Bucket_free c w = Ok (tt, w') /\ w' = with_bucket c (freed_bucket h cv) (wset_w_db (dset_freeList_ fl' (w_db w)) w).
Proof.
  intros [[] _ _ Hpage] Hm Hfree. eexists. split; [|reflexivity]. unfold Bucket_free.
  erewrite bindM_ok by (by apply get_bucket_ok). cbn beta. rewrite ll_header. destruct (Z.eqb_spec (root h) 0) as [E|E].
  - subst fl'. assert (wset_w_db (dset_freeList_ (freeList_ (w_db w)) (w_db w)) w = w) as ->
      by (destruct w as [? ? ? d ? ? ? ? ?]; by destruct d).
    assert (freed_bucket h cv = cv) as ->.
    { unfold freed_bucket. rewrite <-E. destruct cv; cbn in *. subst. by destruct h. }
    unfold ret, mret, M_ret. do 2 f_equal. unfold with_bucket. apply the_ok in ll_bucket. rewrite insert_id by done. by destruct w.
  - destruct Hpage as [?|[_ Hpage]]; [done|]. unfold for_each_page_node.
    erewrite bindM_ok.
    2:{ erewrite bindM_ok by (by apply get_bucket_ok). cbn beta. rewrite Hpage, ll_owner.
        erewrite bindM_ok by (apply (reads_ok (fun w => tx_meta w t)); exact Hm). cbn beta. exact Hfree. }
    cbn beta. erewrite (upd_bucket_ok c _ _ cv) by exact ll_bucket. unfold freed_bucket. by rewrite ll_header.
Qed.

(** ** Lists and their maps *)
Lemma inode_map_elem l x : keys_sorted l -> x ∈ l -> inode_map l !! data_ (i_key x) = Some x.
Proof.
  intros Hs Hx. apply list_elem_of_split in Hx as (l1&l2&->).
  pose proof (keys_sorted_NoDup _ Hs) as Hnd. rewrite ikeys_app, NoDup_app in Hnd. destruct Hnd as (_&Hnd&_).
  rewrite inode_map_middle; [apply lookup_insert_eq|]. intros Hin. apply (Hnd _ Hin). apply list_elem_of_here.
Qed.

Lemma inode_map_lookup l k x : inode_map l !! k = Some x -> x ∈ l /\ data_ (i_key x) = k.
Proof.
  induction l as [|y l IH]; [done|]. rewrite inode_map_cons, lookup_insert_Some.
  intros [[<- <-]|[_ Hx]]; [split; [by left|done]|]. destruct (IH Hx). split; [by right|done].
Qed.

(** A property of all entries is one of the map. *)
Lemma Forall_inode_map (P : Inode -> Prop) l :
  keys_sorted l -> (forall k x, inode_map l !! k = Some x -> P x) -> Forall P l.
Proof. intros Hs HP. apply Forall_forall. intros x Hx. by eapply HP, inode_map_elem. Qed.

Lemma inode_map_Forall (P : Inode -> Prop) l k x : Forall P l -> inode_map l !! k = Some x -> P x.
Proof. rewrite Forall_forall. intros HP Hx%inode_map_lookup. destruct Hx; by apply HP. Qed.

(** The key of an entry, from its name. *)
Lemma Item_of_name it : Item_wf it -> Item_of_string (data_ it) = it.
Proof. intros [Hl Hb]. unfold Item_of_string. rewrite wrap_id by lia. destruct it; cbn in *. by subst. Qed.
