(* ===== verification/MapDB.v ===== *)
(** * MapDB.v: the database as a map of maps

    The abstract database is a finite map from bucket names to finite maps
    from keys to values.  This file says when the entries of a version
    represent such a map, how large its pages are, and that [getBucketByName]
    and [Bucket::get] in a reader are the lookups of the map. *)
From S2P Require Import Bytes.
From S2P Require Import BinSearch.
From S2P Require Import Page.
From S2P Require Import FreeList.
From S2P Require Import Meta.
From S2P Require Import Node.
From S2P Require Import World.
From S2P Require Import Pager.
From S2P Require Import Tree.
From S2P Require Import Cursor.
From S2P Require Import Traversal.
From S2P Require Import Image.
From S2P Require Import Alloc.
From S2P Require Import Bucket.
From S2P Require Import Tx.
From S2P Require Import DB.
From S2P Require Import Stage.
From S2P Require Import Spill.
From S2P Require Import Commit.
From S2P Require Import Update.
From S2P Require Import Inline.

(** ** The abstract database *)

Abbreviation entries_map := (gmap (list byte) Item).
Abbreviation db_map := (gmap (list byte) entries_map).

(** ** Sizes *)

Definition total (g : gmap (list byte) Z) : Z := map_fold (fun _ z acc => z + acc) 0 g.

Lemma total_insert g k z : g !! k = None -> total (<[k := z]> g) = z + total g.
Proof.
  intros Hk. unfold total. apply (map_fold_insert_L (fun _ z acc => z + acc) 0 k z g); [|done].
  intros. lia.
Qed.

(** The bytes of a bucket's page, and of the page of the root bucket. *)
Definition bucket_bytes (es : entries_map) : Z :=
  PAGEHEADERSIZE + total (map_imap (fun k v => Some (LEAFELEMSIZE + Z.of_nat (length k) + length_ v)) es).

(** The bytes of a bucket's value that hold its page: none, when it is too
    large for that. *)
Definition inline_bytes (es : entries_map) : Z :=
  if bucket_bytes es <=? maxInlineBucketSize then bucket_bytes es else 0.

Definition db_bytes (m : db_map) : Z :=
  PAGEHEADERSIZE + total (map_imap (fun name es =>
    Some (LEAFELEMSIZE + Z.of_nat (length name) + (BUCKETHEADERSIZE + inline_bytes es))) m).

(** Every bucket fits a page, and so does the root bucket. *)
Definition fits_db (m : db_map) : Prop :=
  map_Forall (fun _ es => bucket_bytes es < 4096) m /\ db_bytes m < 4096.

(** The buckets that have a page of their own, and their number. *)
Definition big (es : entries_map) : Prop := maxInlineBucketSize < bucket_bytes es.
Definition big_names (m : db_map) : gset (list byte) := dom (filter (fun p => big p.2) m).
Definition bigs (m : db_map) : Z := Z.of_nat (base.size (big_names m)).

Lemma elem_of_big_names m name : name ∈ big_names m <-> exists es, m !! name = Some es /\ big es.
Proof.
  unfold big_names. rewrite elem_of_dom. split.
  - intros [es Hes]. apply map_lookup_filter_Some in Hes as [? ?]. by exists es.
  - intros (es&?&?). exists es. by apply map_lookup_filter_Some.
Qed.

(** One name less, among those of [B]. *)
Lemma size_without (D B : gset (list byte)) name : name ∈ D ->
  Z.of_nat (base.size ((D ∖ {[name]}) ∩ B)) + (if decide (name ∈ B) then 1 else 0) = Z.of_nat (base.size (D ∩ B)).
Proof.
  intros HD. destruct (decide (name ∈ B)) as [HB|HB].
  - assert (D ∩ B = {[name]} ∪ ((D ∖ {[name]}) ∩ B)) as Heq.
    { apply set_eq. intros k. destruct (decide (k = name)) as [->|]; set_solver. }
    assert ({[name]} ## (D ∖ {[name]}) ∩ B) as Hdis by set_solver.
    pose proof (size_union (C := gset (list byte)) _ _ Hdis) as Hu. rewrite <-Heq in Hu.
    rewrite (size_singleton (C := gset (list byte))) in Hu. rewrite Hu. lia.
  - assert (D ∩ B = (D ∖ {[name]}) ∩ B) as ->; [|lia].
    apply set_eq. intros k. destruct (decide (k = name)) as [->|]; set_solver.
Qed.

#[export] Instance Item_wf_dec k : Decision (Item_wf k).
Proof. unfold Item_wf. apply _. Defined.
#[export] Instance fits_db_dec m : Decision (fits_db m).
Proof. unfold fits_db. apply _. Defined.

Lemma page_bytes_total l : keys_sorted l -> page_bytes l = PAGEHEADERSIZE + total (inode_bytes <$> inode_map l).
Proof.
  unfold page_bytes, PAGEHEADERSIZE. intros Hs. f_equal. induction l as [|x l IH]; [done|].
  rewrite inode_map_cons, fmap_insert. cbn [fmap list_fmap foldr].
  apply StronglySorted_cons in Hs as [Hx Hs]. rewrite total_insert.
  - by rewrite <-IH.
  - rewrite lookup_fmap, (inode_map_none l); [done|]. by apply Forall_gt_notin.
Qed.

(** ** Representation *)

(** The map of a bucket's entries. *)
Definition values (es : InodeList) : entries_map := i_value <$> inode_map es.

(** The entry [x] is a bucket of the map [es]. *)
Definition bucket_at (subs : gmap Z InodeList) (x : Inode) (es : entries_map) : Prop :=
  i_flag x = bucketLeafFlag /\ exists es', stored_as subs (i_value x) es' /\ values es' = es.

(** No two entries name the same page. *)
Definition roots_apart (l : InodeList) : Prop := forall name name' x x',
  inode_map l !! name = Some x -> inode_map l !! name' = Some x' ->
  value_root (i_value x) = value_root (i_value x') -> value_root (i_value x) = 0 \/ name = name'.

(** The leaves [im] represent the database [m]. *)
Record represents (im : image) (m : db_map) : Prop := {
  rp_at : forall name, match inode_map (im_root im) !! name, m !! name with
                       | Some x, Some es => bucket_at (im_subs im) x es
                       | None, None => True
                       | _, _ => False
                       end;
  rp_apart : roots_apart (im_root im);
}.

Lemma represents_empty : represents (mkImage [] ∅) ∅.
Proof.
  split; [intros name; by rewrite lookup_empty|]. intros name name' x x' Hx.
  change ((∅ : gmap (list byte) Inode) !! name = Some x) in Hx. by rewrite lookup_empty in Hx.
Qed.

Lemma represents_lookup im m name es :
  represents im m -> m !! name = Some es -> exists x, inode_map (im_root im) !! name = Some x /\ bucket_at (im_subs im) x es.
Proof. intros [Hr _] Hm. specialize (Hr name). rewrite Hm in Hr. destruct (inode_map _ !! name); [by eexists|done]. Qed.

Lemma represents_none im m name : represents im m -> m !! name = None -> inode_map (im_root im) !! name = None.
Proof. intros [Hr _] Hm. specialize (Hr name). rewrite Hm in Hr. by destruct (inode_map _ !! name). Qed.

Lemma bucket_bytes_entries es : keys_sorted es -> Forall leaf_inode es -> page_bytes es = bucket_bytes (values es).
Proof.
  intros Hs Hw. rewrite page_bytes_total by done. unfold bucket_bytes. f_equal. f_equal. apply map_eq. intros k.
  unfold values. rewrite map_lookup_imap, !lookup_fmap. destruct (inode_map es !! k) as [x|] eqn:Hx; [|done].
  apply inode_map_lookup in Hx as [Hin Hk]. rewrite Forall_forall in Hw. destruct (Hw x Hin) as (([Hl _]&_)&_).
  cbn. unfold inode_bytes, LEAFELEMSIZE. by rewrite Hl, Hk.
Qed.

Lemma db_bytes_entries im m :
  keys_sorted (im_root im) -> Forall leaf_inode (im_root im) -> represents im m -> page_bytes (im_root im) = db_bytes m.
Proof.
  intros Hs Hw [Hr _]. rewrite page_bytes_total by done. unfold db_bytes. f_equal. f_equal. apply map_eq. intros k.
  rewrite map_lookup_imap, lookup_fmap. specialize (Hr k).
  destruct (inode_map _ !! k) as [x|] eqn:Hx, (m !! k) as [es|]; try done.
  apply inode_map_lookup in Hx as [Hin Hk]. rewrite Forall_forall in Hw. destruct (Hw x Hin) as (([Hl _]&_)&_).
  destruct Hr as (_&es'&Hst&<-). pose proof (stored_entries _ _ _ Hst) as [Hi _ He _].
  cbn. unfold inode_bytes, inline_bytes, LEAFELEMSIZE. by rewrite Hl, Hk, (stored_size _ _ _ Hst), bucket_bytes_entries.
Qed.

(** A list whose map is a bucket's, with an entry put or removed, holds the
    entries of a bucket when they fit a page. *)
Lemma edited_entries es' m :
  keys_sorted es' -> inode_map es' = m ->
  (forall k x, m !! k = Some x -> leaf_inode x /\ plain x) -> bucket_bytes (i_value <$> m) < 4096 ->
  bucket_entries es'.
Proof.
  intros Hs Hm Hx Hb. assert (Forall (fun x => leaf_inode x /\ plain x) es') as Hall.
  { apply Forall_inode_map; [done|]. rewrite Hm. exact Hx. }
  assert (Forall leaf_inode es') as Hl by (eapply Forall_impl; [exact Hall|by intros ? []]).
  split; [done|eapply Forall_impl; [exact Hall|by intros ? []]|done|].
  rewrite bucket_bytes_entries by done. unfold values. by rewrite Hm.
Qed.

(** ** Counting *)

Lemma total_size (g : gmap (list byte) Z) : map_Forall (fun _ z => 1 <= z) g -> Z.of_nat (base.size g) <= total g.
Proof.
  induction g as [|k z g Hk IH] using map_ind; intros Hg; [done|].
  apply map_Forall_insert in Hg as [Hz Hg]; [|done]. rewrite total_insert, map_size_insert_None by done.
  specialize (IH Hg). lia.
Qed.

Lemma db_bytes_size m : map_Forall (fun _ es => 0 <= bucket_bytes es) m -> Z.of_nat (base.size m) <= db_bytes m.
Proof.
  intros Hm. unfold db_bytes. set (g := map_imap _ m).
  assert (map_Forall (fun _ z => 1 <= z) g) as Hg.
  { intros k z. unfold g. rewrite map_lookup_imap. destruct (m !! k) as [es|] eqn:E; [|done]. intros [= <-].
    pose proof (Hm k es E) as Hes. cbn beta in Hes. unfold inline_bytes, LEAFELEMSIZE, BUCKETHEADERSIZE. case_z; lia. }
  assert (base.size m = base.size g) as ->; [|pose proof (total_size g Hg); unfold PAGEHEADERSIZE; lia].
  rewrite <-!size_dom. f_equal. apply set_eq. intros k. rewrite !elem_of_dom. unfold g. rewrite map_lookup_imap.
  destruct (m !! k); cbn; split; intros [? ?]; done || by eexists.
Qed.

Lemma inode_map_size l : keys_sorted l -> base.size (inode_map l) = length l.
Proof.
  induction l as [|x l IH]; intros Hs; [done|]. rewrite inode_map_cons. apply StronglySorted_cons in Hs as [Hx Hs].
  rewrite map_size_insert_None; [cbn; by rewrite IH|]. apply inode_map_none. by apply Forall_gt_notin.
Qed.

(** ** Readers *)

(** Looking a key up in a transaction: nothing without the bucket, and else
    what [get] returns. *)
Definition read_key `{Env} (name key : Item) (t : txptr) : M (option Item) :=
  c ← Tx_getBucket t name;
  match c with Some c => v ← Bucket_get c key; ret (Some v) | None => ret None end.

(** [get] returns the empty item for a key that is not there. *)
Definition lookup_key (m : db_map) (name key : Item) : option Item :=
  (fun es => default Item_empty (es !! data_ key)) <$> m !! data_ name.

(** The sub-bucket [c] that a reader [t] of version [mt] has open under the
    key [name]: one of the version's. *)
Definition opened_child (w : World) (t : txptr) (mt : meta) (im : image) (pg : list byte) (name : list byte)
    (c : bptr) : Prop := exists x es h qo,
  inode_map (im_root im) !! name = Some x /\ stored_as (im_subs im) (i_value x) es /\ place (w_gen w) mt im pg h qo es /\
  0 <= sequence h < 2 ^ 64 /\ bucket_of w c = Ok (handle t h qo).

(** The read transaction [t] on the version [mt], which need not be the current
    one any more: its root bucket [b], none of whose nodes is made, and the
    sub-buckets it has opened. *)
Record reader (w : World) (t : txptr) (mt : meta) (im : image) (np : Z) (pg : list byte) (b : bptr) (tv : Tx)
    (bv : Bucket) : Prop := {
  rd_snapshot : leaf_snapshot w mt im np pg;
  rd_unread : unread_root w t b mt tv bv;
  rd_clean : dirtyPageTable_ tv = ∅;
  rd_root : rootBucket_ tv = b;
  rd_children : forall name c, buckets_ bv !! name = Some c -> c <> b /\ opened_child w t mt im pg name c;
}.

(** What reading through [t] leaves alone. *)
Record read_frame (t : txptr) (w w' : World) : Prop := {
  rf_db : w_db w' = w_db w;
  rf_file : w_file w' = w_file w;
  rf_map : w_map w' = w_map w;
  rf_gen : w_gen w' = w_gen w;
  rf_txs : forall u, u <> t -> tx_of w' u = tx_of w u;
  rf_meta : tx_meta w' t = tx_meta w t;
  rf_others : others_kept t w w';
}.

#[export] Instance read_frame_preorder t : PreOrder (read_frame t).
Proof.
  split; [by intros w; split; try done; intros c cv|].
  intros w1 w2 w3 [A1 A2 A3 A4 A5 A6 A7] [B1 B2 B3 B4 B5 B6 B7]. split; try congruence.
  - intros u Hu. by rewrite B5, A5.
  - by transitivity w2.
Qed.

(** Counting a cursor. *)
Lemma count_cursor_frame w t tv : tx_of w t = Ok tv -> read_frame t w (with_tx t (count_cursor tv) w).
Proof.
  intros Ht. split; try done.
  - intros u Hu. unfold tx_of. cbn. by rewrite lookup_insert_ne by (by apply not_eq_sym).
  - unfold tx_meta. by rewrite tx_of_with, Ht.
  - by apply others_kept_same.
Qed.

(** A reader is one wherever what it reads is. *)
Lemma reader_same w w' t mt im np pg b tv bv :
  leaf_snapshot w' mt im np pg -> w_gen w' = w_gen w -> tx_of w' t = Ok tv ->
  (forall c cv, bucket_of w c = Ok cv -> tx_ cv = t -> bucket_of w' c = Ok cv) ->
  reader w t mt im np pg b tv bv -> reader w' t mt im np pg b tv bv.
Proof.
  intros Hs Hg Ht Hb [_ [_ Hm Hd Hbv Hfr] Hcl Hr Hc]. destruct (unread_fields _ _ _ Hfr) as (Htx&_). split; try done.
  - split; try done. by apply Hb.
  - intros name c Hn. destruct (Hc name c Hn) as (Hcb&x&es&h&qo&Hx&Hh&Hp&Hseq&Hcv). split; [done|].
    exists x, es, h, qo. split_and!; try done; [by rewrite Hg|lia|lia|by apply Hb].
Qed.

Section reader.
Context `{Env} (w : World) (t : txptr) (mt : meta) (im : image) (np : Z) (pg : list byte) (b : bptr) (tv : Tx).
Context (bv : Bucket) (m : db_map).
Hypothesis reads : reader w t mt im np pg b tv bv.
Hypothesis rep : represents im m.
Hypothesis fuel : (0 < env_fuel)%nat.
#[local] Set Default Proof Using "All".

Let w1 : World := with_tx t (count_cursor tv) w.

Lemma reader_counted : reader w1 t mt im np pg b (count_cursor tv) bv.
Proof.
  destruct reads as [Hs Hu Hcl Hr Hc]. split; try done.
  - by apply leaf_snapshot_tx.
  - by apply unread_counted.
Qed.

(** A bucket that is not there is not found. *)
Lemma getBucketByName_absent name :
  inode_map (im_root im) !! data_ name = None -> getBucketByName b name w = Ok (None, w1).
Proof.
  intros Hnone. pose proof (rd_unread _ _ _ _ _ _ _ _ _ reads) as Hun.
  destruct (unread_fields _ _ _ (ur_fresh _ _ _ _ _ _ Hun)) as (Ht&_).
  assert (buckets_ bv !! data_ name = None) as Hnew.
  { destruct (buckets_ bv !! data_ name) as [c|] eqn:E; [|done].
    destruct (rd_children _ _ _ _ _ _ _ _ _ reads _ _ E) as (_&x&?&?&?&Hx&_). congruence. }
  destruct (unread_seek w1 mt im np pg (rd_snapshot _ _ _ _ _ _ _ _ _ reader_counted) t b _ _
    (rd_unread _ _ _ _ _ _ _ _ _ reader_counted) name fuel) as (i&found&ptr&Hspec&Hseek&_).
  destruct found; [destruct (search_found (im_root im) name i true Hspec) as (x&_&_&Hx); congruence|].
  eapply (getBucketByName_missing w w1); [apply Hun|exact Hnew| |exact Hspec|exact Hseek].
  rewrite (createCursor_ok w b bv tv); [by rewrite Ht|apply Hun|rewrite Ht; apply Hun].
Qed.

(** What the reader reads of a bucket it has open. *)
Lemma opened_unread w2 tv2 c h qo es :
  leaf_snapshot w2 mt im np pg -> tx_of w2 t = Ok tv2 -> same_tx tv tv2 -> place (w_gen w2) mt im pg h qo es -> bucket_entries es ->
  0 <= sequence h < 2 ^ 64 -> bucket_of w2 c = Ok (handle t h qo) -> exists q, unread_child w2 t tv2 c h qo q es.
Proof.
  intros Hsn Ht Hsame Hp He Hseq Hc. destruct (ur_meta _ _ _ _ _ _ (rd_unread _ _ _ _ _ _ _ _ _ reads)) as (mr&Hm&Htot).
  pose proof (rd_clean _ _ _ _ _ _ _ _ _ reads) as Hcl. unfold same_tx in Hsame.
  destruct (place_readable w2 mt im np pg h qo es t tv2 mr Hsn Hp Ht) as (q&Hq&Hr);
    [rewrite <-Hsame in Hm; by destruct tv2|done|rewrite <-Hsame in Hcl; by destruct tv2|].
  by exists q.
Qed.

(** A bucket of the version is opened, or was before. *)
Lemma getBucketByName_present name es :
  Item_wf name -> m !! data_ name = Some es ->
  exists w2 c tv2 bv2 h qo q es', getBucketByName b name w = Ok (Some c, w2) /\ reader w2 t mt im np pg b tv2 bv2 /\
    unread_child w2 t tv2 c h qo q es' /\ values es' = es /\ read_frame t w w2 /\ same_tx tv tv2.
Proof.
  intros Hname Hm. pose proof (rd_unread _ _ _ _ _ _ _ _ _ reads) as Hun.
  pose proof (rd_snapshot _ _ _ _ _ _ _ _ _ reads) as Hsn.
  destruct (represents_lookup _ _ _ _ rep Hm) as (x&Hx&Hflag&es'&Hst&Hes).
  destruct (buckets_ bv !! data_ name) as [c|] eqn:Hc.
  - destruct (rd_children _ _ _ _ _ _ _ _ _ reads _ _ Hc) as (_&x'&es2&h&qo&Hx'&Hst2&Hp&Hseq&Hcv).
    rewrite Hx in Hx'. injection Hx' as <-. assert (es2 = es') as -> by (by eapply stored_inj).
    destruct (opened_unread w tv c h qo es') as [q Hq]; try done; [apply Hun|by eapply stored_entries|].
    exists w, c, tv, bv, h, qo, q, es'. split_and!; try done.
    unfold getBucketByName. erewrite bindM_ok by (apply get_bucket_ok, Hun). cbn beta. by rewrite Hc.
  - destruct (inode_map_lookup _ _ _ Hx) as [Hin Hk].
    pose proof (proj1 (Forall_forall _ _) (ls_inodes _ _ _ _ _ Hsn) x Hin) as ((Hkwf&_)&_).
    assert (i_key x = name) as Hkey by (by rewrite <-(Item_of_name _ Hkwf), Hk, Item_of_name).
    destruct (getBucketByName_opens w mt im np pg Hsn t b tv bv Hun x es')
      as (Hcb&h&qo&Hroot&_&Hseq&Hp&Hget); [done|done|by rewrite Hflag|done|by rewrite Hkey|].
    rewrite Hkey in Hget. set (c := fresh_key (w_buckets w)) in *.
    set (w2 := with_bucket b _ _) in Hget.
    assert (read_frame t w w2) as Hframe.
    { transitivity w1; [apply count_cursor_frame, Hun|]. split; try done.
      transitivity (with_bucket c (handle t h qo) w1); [by eapply others_kept_fresh|].
      eapply others_kept_insert; [reflexivity|]. intros cv Hcv. rewrite bucket_of_with_ne in Hcv by (by apply not_eq_sym).
      change (bucket_of w b = Ok cv) in Hcv. rewrite (ur_bucket _ _ _ _ _ _ Hun) in Hcv. injection Hcv as <-.
      by destruct (unread_fields _ _ _ (ur_fresh _ _ _ _ _ _ Hun)) as (?&_). }
    assert (leaf_snapshot w2 mt im np pg) as Hsn2 by (by apply (leaf_snapshot_same w)).
    assert (bucket_of w2 c = Ok (handle t h qo)) as Hc2.
    { unfold w2. rewrite bucket_of_with_ne by done. apply bucket_of_with. }
    assert (place (w_gen w2) mt im pg h qo es') as Hp2 by done.
    destruct (opened_unread w2 (count_cursor tv) c h qo es') as [q Hq]; try done;
      [apply tx_of_with|by apply same_tx_count|by eapply stored_entries|].
    exists w2, c, (count_cursor tv), (opened_root bv (data_ name) c), h, qo, q, es'. split_and!; try done.
    + split; try apply reader_counted; [done| |].
      * destruct Hun as [U1 U2 U3 U4 U5]. split; try done; [apply tx_of_with|apply bucket_of_with].
      * intros name' c'. cbn. rewrite lookup_insert_Some. intros [[<- <-]|[_ Hc']].
        -- split; [done|]. by exists x, es', h, qo.
        -- destruct (rd_children _ _ _ _ _ _ _ _ _ reads _ _ Hc') as (Hb'&x2&es2&h2&qo2&?&?&Hp'&?&Hcv2).
           split; [done|]. exists x2, es2, h2, qo2. split_and!; try done; try lia.
           unfold w2. rewrite bucket_of_with_ne by done. rewrite bucket_of_with_ne; [exact Hcv2|].
           by eapply fresh_bucket_ne.
    + by apply same_tx_count.
Qed.

Lemma read_key_ok name key :
  Item_wf name -> exists w' tv' bv', read_key name key t w = Ok (lookup_key m name key, w') /\
    reader w' t mt im np pg b tv' bv' /\ read_frame t w w' /\ same_tx tv tv'.
Proof.
  intros Hname. pose proof (rd_unread _ _ _ _ _ _ _ _ _ reads) as Hun.
  pose proof (rd_root _ _ _ _ _ _ _ _ _ reads) as Hroot. unfold read_key, Tx_getBucket, lookup_key.
  destruct (m !! data_ name) as [es|] eqn:Hm.
  - destruct (getBucketByName_present name es Hname Hm) as (w2&c&tv2&bv2&h&qo&q&es'&Hget&Hrd&Hch&<-&Hframe&Hsame).
    pose proof (child_get w2 t tv2 c h qo q es' Hch fuel key) as Hval.
    exists (with_tx t (count_cursor tv2) w2), (count_cursor tv2), bv2. split; [|split; [|split; [|by apply same_tx_count]]].
    + erewrite bindM_ok.
      2:{ erewrite bindM_ok by (apply get_tx_ok, Hun). cbn beta. rewrite Hroot. exact Hget. }
      cbn beta iota. erewrite bindM_ok by exact Hval. unfold values. cbn [fmap option_fmap option_map]. by rewrite lookup_fmap.
    + destruct Hrd as [R1 R2 R3 R4 R5]. split; try done; [by apply leaf_snapshot_tx|by apply unread_counted].
    + transitivity w2; [exact Hframe|]. apply count_cursor_frame, Hch.
  - pose proof (getBucketByName_absent name (represents_none _ _ _ rep Hm)) as Hget.
    exists w1, (count_cursor tv), bv.
    split; [|split; [apply reader_counted|split; [apply count_cursor_frame, Hun|by apply same_tx_count]]].
    erewrite bindM_ok.
    2:{ erewrite bindM_ok by (apply get_tx_ok, Hun). cbn beta. rewrite Hroot. exact Hget. }
    reflexivity.
Qed.
End reader.

(** ** The database at a version *)

(** The current version [mt] represents the map [m]. *)
Definition db_at (w : World) (mt : meta) (m : db_map) : Prop := exists im np nf pg fl,
  leaf_version w mt im np nf pg fl /\ represents im m /\ fits_db m.

(** A transaction that begins now reads the map, every key of it. *)
Definition reads_db `{Env} (w : World) (m : db_map) : Prop := exists w' t, beginTx w = Ok (Some t, w') /\
  forall name key, Item_wf name -> exists w2, read_key name key t w' = Ok (lookup_key m name key, w2).

Lemma db_at_reads `{Env} w mt m :
  db_at w mt m -> (0 < env_fuel)%nat -> mmapWriter_ (w_db w) = false -> opened_ (w_db w) = true -> reads_db w m.
Proof.
  intros (im&np&nf&pg&fl&Hver&Hrep&_) Hf Hwr Hop.
  destruct (version_begin w mt im np nf pg fl Hver Hwr Hop) as (w'&t&b&tv&Hrun&Hb&Hver'&Hun&_&Hcl).
  exists w', t. split; [exact Hrun|]. intros name key Hname.
  assert (reader w' t mt im np pg b tv (root_bucket t mt)) as Hrd
    by (split; [by eapply version_snapshot|done|done|done|by intros name' c Hc]).
  destruct (read_key_ok w' t mt im np pg b tv (root_bucket t mt) m Hrd Hrep Hf name key Hname) as (w2&_&_&Hread&_).
  by exists w2.
Qed.

(** The mapping has room for the pages an update takes that makes the map
    [m]. *)
Definition room_for_update (w : World) (mt : meta) (m : db_map) : Prop := has_room w mt (1 + bigs m).
