(* ===== verification/Work.v ===== *)
(** * Work.v: a write transaction at work

    What a callback of [DB::update] works on: the transaction, its root bucket
    before and after it becomes a leaf in memory, and the sub-buckets it has
    opened or made.  The invariant [working] ties them to a map of maps; the
    calls a callback makes keep it, and what they return is read off the map. *)
From S2P Require Import Bytes.
From S2P Require Import BinSearch.
From S2P Require Import Page.
From S2P Require Import FreeList.
From S2P Require Import Meta.
From S2P Require Import Node.
From S2P Require Import World.
From S2P Require Import Pager.
From S2P Require Import Tree.
From S2P Require Import Cursor.
From S2P Require Import Traversal.
From S2P Require Import Image.
From S2P Require Import Alloc.
From S2P Require Import Bucket.
From S2P Require Import Tx.
From S2P Require Import DB.
From S2P Require Import Stage.
From S2P Require Import Spill.
From S2P Require Import Commit.
From S2P Require Import Update.
From S2P Require Import Inline.
From S2P Require Import MapDB.

(** ** The transaction *)

(** The open write transaction [t] on version [mt], with nothing allocated. *)
Record open_tx (w : World) (t : txptr) (b : bptr) (mt : meta) (tv : Tx) : Prop := {
  ot_tx : tx_of w t = Ok tv;
  ot_db : db_ tv = true;
  ot_writable : writable_ tv = true;
  ot_meta : metaData_ tv = Some (next_meta mt);
  ot_clean : dirtyPageTable_ tv = ∅;
  ot_root : rootBucket_ tv = b;
}.

Lemma open_tx_same w w' t b mt tv tv' :
  open_tx w t b mt tv -> tx_of w' t = Ok tv' -> same_tx tv tv' -> open_tx w' t b mt tv' /\ managed_ tv' = managed_ tv.
Proof.
  intros [A1 A2 A3 A4 A5 A6] Ht Hs. unfold same_tx in Hs. rewrite <-Hs in A2, A3, A4, A5, A6. rewrite <-Hs.
  destruct tv'. cbn in *. by split.
Qed.

Lemma open_tx_frame t x w w' b mt tv :
  bucket_frame t x w w' -> open_tx w t b mt tv ->
  exists tv', open_tx w' t b mt tv' /\ managed_ tv' = managed_ tv.
Proof.
  intros Hfr Ho. destruct (bf_tx _ _ _ _ Hfr tv (ot_tx _ _ _ _ _ Ho)) as (tv'&Ht'&Hs).
  exists tv'. by apply (open_tx_same w w' t b mt tv).
Qed.

(** Entries few enough for the machine integers of a node. *)
Definition few (l : InodeList) : Prop := Z.of_nat (length l) < 2 ^ 31 - 1.

(** The entries [l] of the root bucket, with the pages [subs], and for the
    names in [D] the buckets in memory, represent [m]. *)
Definition represents_but (subs : gmap Z InodeList) (D : gset (list byte)) (l : InodeList) (m : db_map) : Prop :=
  forall name, match inode_map l !! name, m !! name with
               | Some x, Some es => i_flag x = bucketLeafFlag /\ (name ∉ D -> bucket_at subs x es)
               | None, None => True
               | _, _ => False
               end.

Lemma represents_but_none im m :
  represents im m <-> represents_but (im_subs im) ∅ (im_root im) m /\ roots_apart (im_root im).
Proof.
  split.
  - intros [Hr Ha]. split; [|done]. intros name. specialize (Hr name). destruct (inode_map _ !! name), (m !! name); try done.
    split; [apply Hr|done].
  - intros [Hr Ha]. split; [|done]. intros name. specialize (Hr name). destruct (inode_map _ !! name), (m !! name); try done.
    apply Hr. set_solver.
Qed.

Lemma represents_but_lookup subs D l m name es :
  represents_but subs D l m -> m !! name = Some es ->
  exists x, inode_map l !! name = Some x /\ i_flag x = bucketLeafFlag /\ (name ∉ D -> bucket_at subs x es).
Proof. intros Hr Hm. specialize (Hr name). rewrite Hm in Hr. destruct (inode_map l !! name); [by eexists|done]. Qed.

Lemma represents_but_absent subs D l m name : represents_but subs D l m -> m !! name = None -> inode_map l !! name = None.
Proof. intros Hr Hm. specialize (Hr name). rewrite Hm in Hr. by destruct (inode_map l !! name). Qed.

(** The roots of entries stay apart when a name gets an entry with a root of
    its own. *)
Lemma roots_apart_write l l' name x :
  roots_apart l -> inode_map l' = <[name := x]> (inode_map l) ->
  (value_root (i_value x) <> 0 -> forall name' x', name' <> name -> inode_map l !! name' = Some x' ->
    value_root (i_value x') <> value_root (i_value x)) ->
  roots_apart l'.
Proof.
  intros Ha Hl Hx n1 n2 x1 x2. rewrite Hl, !lookup_insert_Some.
  intros [[<- <-]|[Hn1 H1]] [[<- <-]|[Hn2 H2]] He; [by right|..].
  - destruct (decide (value_root (i_value x) = 0)) as [|Hne]; [by left|]. destruct (Hx Hne n2 x2); congruence.
  - destruct (decide (value_root (i_value x) = 0)) as [E|Hne]; [left; congruence|]. destruct (Hx Hne n1 x1); congruence.
  - by apply (Ha n1 n2 x1 x2).
Qed.

(** A bucket changes in memory. *)
Lemma represents_but_edit subs D l m name es :
  represents_but subs D l m -> is_Some (m !! name) -> represents_but subs ({[name]} ∪ D) l (<[name := es]> m).
Proof.
  intros Hr [es0 Hm] k. specialize (Hr k). destruct (decide (name = k)) as [<-|Hne].
  - rewrite lookup_insert_eq. rewrite Hm in Hr. destruct (inode_map l !! name); [|done].
    destruct Hr as [Hfl _]. split; [done|set_solver].
  - rewrite lookup_insert_ne by done. destruct (inode_map l !! k), (m !! k); try done.
    destruct Hr as [? Hr]. split; [done|]. intros Hk. apply Hr. set_solver.
Qed.

(** An entry is written. *)
Lemma represents_but_write subs D l l' m name x es :
  represents_but subs ({[name]} ∪ D) l m -> inode_map l' = <[name := x]> (inode_map l) -> m !! name = Some es ->
  bucket_at subs x es -> represents_but subs D l' m.
Proof.
  intros Hr Hl Hm Hx k. specialize (Hr k). rewrite Hl. destruct (decide (name = k)) as [<-|Hne].
  - rewrite lookup_insert_eq, Hm. split; [apply Hx|done].
  - rewrite lookup_insert_ne by done. destruct (inode_map l !! k), (m !! k); try done.
    destruct Hr as [? Hr]. split; [done|]. intros Hk. apply Hr. set_solver.
Qed.

(** A bucket is new. *)
Lemma represents_but_insert subs D l l' m name x es :
  represents_but subs D l m -> inode_map l' = <[name := x]> (inode_map l) -> bucket_at subs x es ->
  represents_but subs D l' (<[name := es]> m).
Proof.
  intros Hr Hl Hx k. specialize (Hr k). rewrite Hl. destruct (decide (name = k)) as [<-|Hne].
  - rewrite !lookup_insert_eq. split; [apply Hx|done].
  - by rewrite !lookup_insert_ne.
Qed.

Lemma represents_but_few subs D l m :
  represents_but subs D l m -> keys_sorted l -> fits_db m -> map_Forall (fun _ es => 0 <= bucket_bytes es) m -> few l.
Proof.
  intros Hr Hs [_ Hb] Hm. pose proof (db_bytes_size m Hm). unfold few.
  rewrite <-(inode_map_size l Hs), <-(size_dom (inode_map l)).
  assert (dom (inode_map l) = dom m) as ->; [|rewrite size_dom; lia].
  apply set_eq. intros k. rewrite !elem_of_dom. specialize (Hr k).
  destruct (inode_map l !! k), (m !! k); try done; split; intros [? ?]; done || by eexists.
Qed.

Section work.
Context `{OrderLaws} (t : txptr) (b : bptr) (mt : meta) (im0 : image) (np nf : Z) (pg fl : list byte).
Abbreviation l0 := (im_root im0).
Hypothesis fuel : (2 <= env_fuel)%nat.
#[local] Set Default Proof Using "All".

(** ** The root bucket *)

(** The root bucket is the leaf node [n], materialised from the version's root
    page. *)
Record root_leaf (w : World) (bv : Bucket) (n : nptr) (v : Node) : Prop := {
  rl_bucket : bucket_of w b = Ok bv;
  rl_owner : tx_ bv = t;
  rl_header : bucketHeader_ bv = root_ mt;
  rl_root : rootNode_ bv = Some n;
  rl_nodes : nodes_ bv = {[root (root_ mt) := n]};
  rl_node : node_of w n = Ok v;
  rl_leaf : isLeaf_ v = true;
  rl_own : bucket_ v = b;
  rl_parent : parentNode_ v = None;
  rl_kids : children_ v = [];
  rl_fresh : spilled_ v = false;
  rl_page : pageId_ v = root (root_ mt);
  rl_inodes : Forall leaf_inode (inodeList_ v);
  rl_sorted : keys_sorted (inodeList_ v);
}.

(** The root bucket with the entries [l]: still on the version's page, or a
    node. *)
Variant root_at (w : World) (bv : Bucket) : option nptr -> InodeList -> Prop :=
  | root_unread (_ : bucket_of w b = Ok bv) (_ : bset_buckets_ ∅ bv = root_bucket t mt) : root_at w bv None l0
  | root_loaded n v (_ : root_leaf w bv n v) : root_at w bv (Some n) (inodeList_ v).

(** Where a cursor on the root bucket is. *)
Definition root_ref (w : World) (r : option nptr) (i : Z) : ElementRef :=
  match r with
  | None => mkRef (Some (getPagePtr w (root (root_ mt)))) None i
  | Some n => mkRef None (Some n) i
  end.

Lemma root_at_bucket w bv r l : root_at w bv r l -> bucket_of w b = Ok bv /\ tx_ bv = t.
Proof.
  intros [Hb Hf|n v []]; [|done]. split; [done|]. by destruct (unread_fields _ _ _ Hf).
Qed.

Lemma root_at_loaded w bv n l : root_at w bv (Some n) l -> exists v, root_leaf w bv n v /\ l = inodeList_ v.
Proof. intros Hr. inversion Hr as [|n' v Hleaf]. subst. by exists v. Qed.

Lemma root_at_frame x w w' bv r l :
  x <> b -> bucket_frame t x w w' -> root_at w bv r l -> root_at w' bv r l /\ root_ref w' r = root_ref w r.
Proof.
  intros Hx Hfr Hr. split.
  - destruct Hr as [Hb Hf|n v []]; constructor; [by apply Hfr|done|]. split; try done; [by apply Hfr|].
    apply Hfr; [done|]. congruence.
  - unfold root_ref. destruct r; [done|]. unfold getPagePtr.
    by rewrite (bf_db _ _ _ _ Hfr), (bf_gen _ _ _ _ Hfr).
Qed.

(** A transaction on the version, as far as the root bucket is concerned: it
    has no page of its own in the place of the root's. *)
Record root_tx (w : World) (tv : Tx) (mx : meta) : Prop := {
  rt_tx : tx_of w t = Ok tv;
  rt_db : db_ tv = true;
  rt_writable : writable_ tv = true;
  rt_meta : metaData_ tv = Some mx;
  rt_total : totalPageNumber_ mt <= totalPageNumber_ mx < 2 ^ 32;
  rt_clean : dirtyPageTable_ tv !! root (root_ mt) = None;
}.

Section root.
Context (w : World) (tv : Tx) (mx : meta) (bv : Bucket).
Hypothesis current : leaf_snapshot w mt im0 np pg.
Hypothesis tx : root_tx w tv mx.

Lemma mx_total : 0 < wrap32 (totalPageNumber_ mx).
Proof. pose proof (root_range w mt im0 np pg current). pose proof (rt_total _ _ _ tx). rewrite wrap_id by lia. lia. Qed.

Lemma root_unread_view l : root_at w bv None l -> unread_root w t b mt tv bv /\ l = l0.
Proof.
  intros Hr. inversion Hr; subst. split; [|done]. destruct tx as [? ? ? Hm Ht Hd].
  split; try done. eexists. split; [exact Hm|lia].
Qed.

Lemma root_leaf_bucket n v : root_leaf w bv n v -> few (inodeList_ v) -> leaf_bucket_at w b n v bv tv mx.
Proof.
  intros [] Hl. pose proof (root_range w mt im0 np pg current).
  unfold few in Hl. pose proof mx_total. destruct tx. split; try done.
  - congruence.
  - eapply getPageNode_intro; [done|]. right. rewrite rl_header0, rl_nodes0. split; [lia|]. apply lookup_singleton_eq.
  - lia.
Qed.

(** A search in the root bucket finds the entry at the key's rank. *)
Lemma root_seek r l key :
  root_at w bv r l -> few l ->
  exists i found ptr, search_spec (ikeys l) (data_ key) (i, found) /\
    seek w b key = Ok ([root_ref w r i], ptr, default KV_reset (kv_of_inode <$> l !! Z.to_nat i)) /\
    (is_Some r -> ptr = None).
Proof.
  intros Hr Hl. destruct r as [n|].
  - destruct (root_at_loaded _ _ _ _ Hr) as (v&Hleaf&->).
    destruct (leaf_bucket_seek _ _ _ _ _ _ _ (root_leaf_bucket n v Hleaf Hl) key) as (i&found&Hspec&Hseek); [lia|].
    by exists i, found, None.
  - destruct (root_unread_view l Hr) as [Hun ->].
    destruct (unread_seek w mt im0 np pg current t b tv bv Hun key)
      as (i&found&ptr&Hspec&Hseek&_); [lia|]. exists i, found, ptr. by split_and!.
Qed.

(** A search for the key of an entry ends on it. *)
Lemma root_find r l name x :
  root_at w bv r l -> few l -> Forall leaf_inode l -> Item_wf name -> inode_map l !! data_ name = Some x ->
  x ∈ l /\ i_key x = name /\ exists i ptr, seek w b name = Ok ([root_ref w r i], ptr, kv_of_inode x) /\ (is_Some r -> ptr = None).
Proof.
  intros Hr Hl Hi Hname Hx. destruct (inode_map_lookup _ _ _ Hx) as [Hin Hk].
  pose proof (proj1 (Forall_forall _ _) Hi x Hin) as ((Hkwf&_)&_). split; [done|].
  split; [by rewrite <-(Item_of_name _ Hkwf), Hk, Item_of_name|].
  destruct (root_seek r l name Hr Hl) as (i&found&ptr&Hspec&Hseek&Hptr).
  pose proof (search_found l name i found Hspec) as Hfound. destruct found; [|destruct Hfound; congruence].
  destruct Hfound as (y&Hy&_&Hy'). rewrite Hx in Hy'. injection Hy' as <-. rewrite Hy in Hseek. by exists i, ptr.
Qed.

(** [getNode] of a cursor there makes the root's node, if it is not made. *)
Lemma root_getNode r l i :
  root_at w bv r l -> few l ->
  exists n v bv' w' s, Cursor_getNode b [root_ref w r i] w = Ok ((n, s), w') /\ root_leaf w' bv' n v /\
    inodeList_ v = l /\ buckets_ bv' = buckets_ bv /\ bucket_frame t b w w'.
Proof.
  intros Hr Hl. destruct r as [n|].
  - destruct (root_at_loaded _ _ _ _ Hr) as (v&Hleaf&->). pose proof (root_leaf_bucket n v Hleaf Hl) as Hlb.
    exists n, v, bv, w, [root_ref w (Some n) i]. split_and!; try done. by eapply leaf_bucket_getNode.
  - destruct (root_unread_view l Hr) as [Hun ->]. pose proof current as Hsn.
    destruct (unread_fields _ _ _ (ur_fresh _ _ _ _ _ _ Hun)) as (Ht&Hh&Hn&_).
    pose proof (unread_cursor_getNode w mt im0 np pg Hsn t b tv bv Hun i) as Hnode. cbn zeta in Hnode.
    set (n := fresh_key (w_nodes w)) in *. set (v := leaf_node b None (root (root_ mt)) l0) in *.
    eexists n, v, (materialised (getPagePtr w (root (root_ mt))) (root (root_ mt)) n bv), _, _. split; [exact Hnode|]. split; [|split; [done|split; [done|]]].
    + split; try done; [apply bucket_of_with|cbn; by rewrite Hn|apply node_of_with|apply current..].
    + transitivity (with_node n v w); [apply bucket_frame_new_node|apply bucket_frame_bucket].
Qed.
End root.

Lemma open_tx_root w tv :
  leaf_version w mt im0 np nf pg fl -> open_tx w t b mt tv ->
  leaf_snapshot w mt im0 np pg /\ root_tx w tv (next_meta mt).
Proof.
  intros Hver [? ? ? ? Hd ?]. split; [by eapply version_snapshot|]. pose proof (ve_room _ _ _ _ _ _ _ Hver).
  split; try done; [cbn; lia|by rewrite Hd, lookup_empty].
Qed.

(** ** The sub-buckets *)

(** The header [h] is that of the bucket the root's entries [l] have under
    [name]; its page, if it has one, is the version's. *)
Definition entry_root (l : InodeList) (name : list byte) (h : bucketHeader) : Prop :=
  (exists x, inode_map l !! name = Some x /\ value_root (i_value x) = root h) /\
  (root h = 0 \/ is_Some (im_subs im0 !! root h)).

(** The sub-bucket [c] called [name] that the transaction has in its cache:
    changed, and a leaf in memory ([D]); opened, and fit for use ([O]); or
    neither, and never used. *)
Variant kid (w : World) (l : InodeList) (D O : gset (list byte)) (m : db_map) (name : list byte) (c : bptr) : Prop :=
  | kid_edited h n cv v (_ : name ∈ D) (_ : edited_child w t c h n cv v) (_ : bucket_entries (inodeList_ v))
      (_ : entry_root l name h) (_ : m !! name = Some (values (inodeList_ v)))
  | kid_opened h qo es (_ : name ∉ D) (_ : name ∈ O) (_ : 0 <= sequence h < 2 ^ 64) (_ : place (w_gen w) mt im0 pg h qo es)
      (_ : bucket_entries es) (_ : entry_root l name h) (_ : bucket_of w c = Ok (handle t h qo))
      (_ : m !! name = Some (values es))
  | kid_idle (_ : name ∉ D) (_ : name ∉ O) (_ : idle_bucket w c).

(** The state of the transaction when the database is [m] to its callback. *)
Record working (w : World) (tv : Tx) (bv : Bucket) (r : option nptr) (l : InodeList) (D O : gset (list byte))
    (m : db_map) : Prop := {
  wk_version : leaf_version w mt im0 np nf pg fl;
  wk_tx : open_tx w t b mt tv;
  wk_root : root_at w bv r l;
  wk_kids : forall name c, buckets_ bv !! name = Some c -> c <> b /\ kid w l D O m name c /\ is_Some (m !! name);
  wk_apart : forall name name' c, buckets_ bv !! name = Some c -> buckets_ bv !! name' = Some c -> name = name';
  wk_open : forall name, name ∈ O -> is_Some (buckets_ bv !! name);
  wk_edited : D ⊆ O;
  wk_unread : forall name c, r = None -> buckets_ bv !! name = Some c -> name ∈ O;
  wk_rep : represents_but (im_subs im0) D l m;
  wk_roots : roots_apart l;
  wk_fits : fits_db m;
  wk_bytes : map_Forall (fun _ es => 0 <= bucket_bytes es) m;
  wk_inodes : Forall leaf_inode l;
  wk_sorted : keys_sorted l;
}.

Lemma working_root_tx w tv bv r l D O m :
  working w tv bv r l D O m -> leaf_snapshot w mt im0 np pg /\ root_tx w tv (next_meta mt).
Proof. intros []. by apply open_tx_root. Qed.

Lemma edited_child_frame x w w' c h n cv v :
  x <> c -> bucket_frame t x w w' -> edited_child w t c h n cv v -> edited_child w' t c h n cv v.
Proof.
  intros Hx Hfr [[] Hb Hs Hp]. split; try done.
  - split; try done; [by apply Hfr; [|apply not_eq_sym]|]. apply Hfr; [done|]. congruence.
  - unfold getPagePtr. by rewrite (bf_db _ _ _ _ Hfr), (bf_gen _ _ _ _ Hfr).
Qed.

Lemma idle_bucket_frame x w w' c : x <> c -> bucket_frame t x w w' -> idle_bucket w c -> idle_bucket w' c.
Proof.
  intros Hx Hfr (cv&Hc&Hi). exists cv. split; [|done]. by apply Hfr; [|apply not_eq_sym].
Qed.

Lemma kid_frame x w w' l D O m name c : x <> c -> bucket_frame t x w w' -> kid w l D O m name c -> kid w' l D O m name c.
Proof.
  intros Hx Hfr [h n cv v|h qo es|].
  - eapply kid_edited; try done. by eapply edited_child_frame.
  - eapply kid_opened; try done; [by rewrite (bf_gen _ _ _ _ Hfr)|]. by apply Hfr; [|apply not_eq_sym].
  - apply kid_idle; try done. by eapply idle_bucket_frame.
Qed.

Lemma kid_mono w l D O m l' D' O' m' name c :
  inode_map l' !! name = inode_map l !! name -> (name ∈ D' <-> name ∈ D) -> (name ∈ O' <-> name ∈ O) -> m' !! name = m !! name ->
  kid w l D O m name c -> kid w l' D' O' m' name c.
Proof.
  intros Hl HD HO Hm. assert (forall h, entry_root l name h -> entry_root l' name h) as He
    by (intros h [(x&?&?) ?]; split; [exists x; by rewrite Hl|done]).
  intros [h n cv v|h qo es|].
  - eapply kid_edited; [by apply HD|done|done|by apply He|by rewrite Hm].
  - eapply kid_opened; try done; [by rewrite HD|by apply HO|by apply He|by rewrite Hm].
  - apply kid_idle; [by rewrite HD|by rewrite HO|done].
Qed.

Lemma kid_bucket w l D O m name c : kid w l D O m name c -> exists cv, bucket_of w c = Ok cv.
Proof. intros [h n cv v _ [[] _ _ _]|h qo es|? ? (cv&Hc&_)]; by eexists. Qed.

(** An opened sub-bucket is fit for use. *)
Lemma kid_child w tv l D O m name c :
  leaf_version w mt im0 np nf pg fl -> D ⊆ O -> open_tx w t b mt tv -> name ∈ O -> kid w l D O m name c ->
  exists h es, child_at w t c h es /\ m !! name = Some (values es) /\ entry_root l name h.
Proof.
  intros Hver Hsub [Ht _ _ Hm Hd _] HO [h n cv v|h qo es ? ? ? Hp|]; [..|done].
  - exists h, (inodeList_ v). split; [by eapply child_node|done].
  - exists h, es. split; [|done].
    destruct (place_readable w mt im0 np pg h qo es t tv _ (version_snapshot _ _ _ _ _ _ _ Hver) Hp Ht Hm) as (q&Hq&Hr);
      [done|done|]. by eapply (child_unread _ _ _ _ _ tv).
Qed.

(** ** Keeping the invariant *)

Section steps.
Context (w : World) (tv : Tx) (bv : Bucket) (r : option nptr) (l : InodeList) (D O : gset (list byte)) (m : db_map).
Hypothesis state : working w tv bv r l D O m.

Lemma working_few : few l.
Proof. destruct state. by eapply represents_but_few. Qed.

Lemma working_bucket : bucket_of w b = Ok bv /\ tx_ bv = t.
Proof. eapply root_at_bucket, state. Qed.

Lemma working_cursor : createCursor b w = Ok (tt, with_tx t (count_cursor tv) w).
Proof.
  destruct working_bucket as [Hb Ht]. rewrite (createCursor_ok w b bv tv); [by rewrite Ht|done|].
  rewrite Ht. apply state.
Qed.

(** The transaction is the same after work on what is none of its buckets. *)
Lemma working_frame x w' :
  bucket_frame t x w w' -> (forall cv, bucket_of w x <> Ok cv) -> exists tv', working w' tv' bv r l D O m.
Proof.
  intros Hfr Hx. destruct working_bucket as [Hb _]. pose proof state as [W1 W2 W3 W4 W5 W6 W7 W8 W9 W10 W11 W12 W13 W14].
  destruct (open_tx_frame t x w w' b mt tv Hfr W2) as (tv'&Ho&_). exists tv'. split; try done.
  - by eapply leaf_version_frame.
  - eapply root_at_frame; [|exact Hfr|done]. intros ->. by eapply Hx.
  - intros name c Hc. destruct (W4 name c Hc) as (Hcb&Hk&Hm). split_and!; [done| |done].
    eapply kid_frame; [|exact Hfr|exact Hk]. intros ->. destruct (kid_bucket _ _ _ _ _ _ _ Hk) as [cv Hcv]. by eapply Hx.
Qed.

Lemma working_counted : exists tv', working (with_tx t (count_cursor tv) w) tv' bv r l D O m.
Proof.
  apply (working_frame (fresh_key (w_buckets w))); [apply bucket_frame_tx, state|].
  intros cv Hcv. by apply fresh_bucket_ne in Hcv.
Qed.

(** Only the transaction's own record changes. *)
Lemma working_with_tx tv' :
  open_tx (with_tx t tv' w) t b mt tv' -> working (with_tx t tv' w) tv' bv r l D O m.
Proof.
  intros Ho. pose proof state as [W1 W2 W3 W4 W5 W6 W7 W8 W9 W10 W11 W12 W13 W14]. split; try done.
  - apply (leaf_version_same w); [by split|apply W1|done|exact W1].
  - destruct W3 as [|n v []]; [by constructor|]. constructor. by split.
  - intros name c Hc. destruct (W4 name c Hc) as (Hcb&Hk&Hm). split_and!; [done| |done].
    destruct Hk as [h n cv v HD [[] ? ? ?] He|h qo es|]; [|by eapply kid_opened|by apply kid_idle].
    eapply (kid_edited _ _ _ _ _ _ _ h n cv v); [done| |done..]. by split.
Qed.

(** The root bucket's node changes, and not its entries. *)
Lemma working_root w' r' :
  bucket_frame t b w w' -> root_at w' bv r' l -> (r' = None -> r = None) -> exists tv', working w' tv' bv r' l D O m.
Proof.
  intros Hfr Hr Hn. pose proof state as [W1 W2 W3 W4 W5 W6 W7 W8 W9 W10 W11 W12 W13 W14].
  destruct (open_tx_frame t b w w' b mt tv Hfr W2) as (tv'&Ho&_). exists tv'. split; try done.
  - by eapply leaf_version_frame.
  - intros name c Hc. destruct (W4 name c Hc) as (Hcb&Hk&Hm). split_and!; [done| |done].
    apply (kid_frame b w); [by apply not_eq_sym|done|done].
  - intros name c Hr'. by apply W8, Hn.
Qed.

(** A sub-bucket enters the cache. *)
Lemma working_add w' bv' r' l' O' m' name c :
  bucket_frame t b w w' -> root_at w' bv' r' l' -> buckets_ bv' = <[name := c]> (buckets_ bv) ->
  buckets_ bv !! name = None -> (forall cv, bucket_of w c <> Ok cv) -> kid w' l' D O' m' name c -> is_Some (m' !! name) ->
  (forall k, k <> name -> (k ∈ O' <-> k ∈ O) /\ m' !! k = m !! k /\ inode_map l' !! k = inode_map l !! k) -> D ⊆ O' -> (r' = None -> r = None /\ name ∈ O') ->
  represents_but (im_subs im0) D l' m' -> roots_apart l' -> fits_db m' -> map_Forall (fun _ es => 0 <= bucket_bytes es) m' ->
  Forall leaf_inode l' -> keys_sorted l' ->
  exists tv', working w' tv' bv' r' l' D O' m'.
Proof.
  intros Hfr Hr' Hbks Hnew Hc Hkid Hname Hsame HD Hun Hrep Hfit Hbytes Hi Hs. destruct working_bucket as [Hb _].
  pose proof state as [W1 W2 W3 W4 W5 W6 W7 W8 W9 W10 W11 W12 W13 W14].
  assert (c <> b) as Hcb by (intros ->; by eapply Hc).
  assert (forall k c', buckets_ bv !! k = Some c' -> k <> name /\ c' <> c) as Hold.
  { intros k c' Hk. split; [intros ->; congruence|]. intros ->. destruct (W4 k c Hk) as (_&Hk'&_).
    destruct (kid_bucket _ _ _ _ _ _ _ Hk') as [cv Hcv]. by eapply Hc. }
  destruct (open_tx_frame t b w w' b mt tv Hfr W2) as (tv'&Ho&_). exists tv'. split; try done.
  - by eapply leaf_version_frame.
  - intros k c'. rewrite Hbks, lookup_insert_Some. intros [[<- <-]|[Hne Hk]]; [done|].
    destruct (W4 k c' Hk) as (Hb'&Hk'&Hm'). destruct (Hsame k) as (HO&Hm&Hlk); [done|]. split_and!; [done| |by rewrite Hm].
    apply (kid_mono _ l D O m); [exact Hlk|done|exact HO|exact Hm|].
    apply (kid_frame b w); [by apply not_eq_sym|exact Hfr|exact Hk'].
  - intros k k' c'. rewrite Hbks, !lookup_insert_Some. intros [[<- <-]|[Hne Hk]] [[<- He]|[Hne' Hk']]; try done.
    + by destruct (Hold _ _ Hk').
    + subst. by destruct (Hold _ _ Hk).
    + by eapply W5.
  - intros k Hk. rewrite Hbks, lookup_insert_is_Some. destruct (decide (name = k)); [by left|right].
    split; [done|]. apply W6. by apply Hsame; [apply not_eq_sym|].
  - intros k c' Hn. destruct (Hun Hn) as [Hr Hin]. rewrite Hbks, lookup_insert_Some. intros [[<- _]|[Hne Hk]]; [done|].
    apply Hsame; [by apply not_eq_sym|]. by eapply W8.
Qed.

(** A sub-bucket that was opened changes. *)
Lemma working_edit name c h w' es' :
  buckets_ bv !! name = Some c -> name ∈ O -> entry_root l name h -> child_becomes w w' t c h es' -> bucket_entries es' ->
  fits_db (<[name := values es']> m) ->
  exists tv', working w' tv' bv r l ({[name]} ∪ D) O (<[name := values es']> m).
Proof.
  intros Hc HO Hroot (n&cv&v&Hed&<-&Hfr) Hent Hfit. pose proof state as [W1 W2 W3 W4 W5 W6 W7 W8 W9 W10 W11 W12 W13 W14].
  destruct (W4 name c Hc) as (Hcb&_&Hm). destruct (open_tx_frame t c w w' b mt tv Hfr W2) as (tv'&Ho&_).
  exists tv'. split; try done.
  - by eapply leaf_version_frame.
  - by eapply root_at_frame; [|exact Hfr|].
  - intros k c' Hk. destruct (W4 k c' Hk) as (Hb'&Hk'&Hm'). split; [done|]. destruct (decide (k = name)) as [->|Hne].
    + rewrite Hc in Hk. injection Hk as <-. split; [|rewrite lookup_insert_eq; by eexists].
      eapply kid_edited; [set_solver|exact Hed|done|exact Hroot|apply lookup_insert_eq].
    + rewrite lookup_insert_ne by (by apply not_eq_sym). split; [|done].
      eapply (kid_mono _ l D O m); [done|set_solver|done|by rewrite lookup_insert_ne by (by apply not_eq_sym)|].
      apply (kid_frame c w); [|exact Hfr|exact Hk']. intros ->. by destruct Hne; eapply W5.
  - set_solver.
  - by apply represents_but_edit.
  - apply map_Forall_insert_2; [|done]. rewrite <-bucket_bytes_entries by apply Hent. pose proof (entries_count _ Hent). lia.
Qed.
End steps.

(** ** Looking for a bucket *)

Section calls.
Context (w : World) (tv : Tx) (bv : Bucket) (r : option nptr) (l : InodeList) (D O : gset (list byte)) (m : db_map).
Hypothesis state : working w tv bv r l D O m.

Let w1 : World := with_tx t (count_cursor tv) w.

Lemma counted_frame : tx_frame t w w1.
Proof.
  apply (bucket_frame_tx_frame t b); [apply bucket_frame_tx, state|]. intros cv Hb.
  destruct (working_bucket _ _ _ _ _ _ _ _ state) as [Hb' Ht]. congruence.
Qed.

(** Work on the root bucket stays in the transaction. *)
Lemma root_frame w' : bucket_frame t b w w' -> tx_frame t w w'.
Proof.
  intros Hfr. apply (bucket_frame_tx_frame t b); [exact Hfr|]. intros cv Hb.
  destruct (working_bucket _ _ _ _ _ _ _ _ state) as [Hb' Ht]. congruence.
Qed.

(** An entry of the root bucket, and where a search for its key ends. *)
Lemma working_find name es :
  Item_wf name -> m !! data_ name = Some es ->
  exists x i ptr, inode_map l !! data_ name = Some x /\ x ∈ l /\ i_key x = name /\ i_flag x = bucketLeafFlag /\
    (data_ name ∉ D -> bucket_at (im_subs im0) x es) /\ seek w b name = Ok ([root_ref w r i], ptr, kv_of_inode x) /\
    (is_Some r -> ptr = None).
Proof.
  intros Hname Hm. destruct (represents_but_lookup _ _ _ _ _ _ (wk_rep _ _ _ _ _ _ _ _ state) Hm) as (x&Hx&Hflag&Hat).
  destruct (working_root_tx _ _ _ _ _ _ _ _ state) as [Hsn Hrt].
  destruct (root_find w tv _ bv Hsn Hrt r l name x
    (wk_root _ _ _ _ _ _ _ _ state) (working_few _ _ _ _ _ _ _ _ state) (wk_inodes _ _ _ _ _ _ _ _ state) Hname Hx)
    as (Hin&Hk&i&ptr&Hseek&Hptr). by exists x, i, ptr.
Qed.

Lemma working_getBucket_absent name :
  m !! data_ name = None ->
  getBucketByName b name w = Ok (None, w1) /\ exists tv', working w1 tv' bv r l D O m.
Proof.
  intros Hnone. destruct (working_counted _ _ _ _ _ _ _ _ state) as [tv' Hst1]. fold w1 in Hst1.
  split; [|by exists tv'].
  destruct (working_root_tx _ _ _ _ _ _ _ _ Hst1) as [Hsn Hrt].
  destruct (root_seek w1 tv' _ bv Hsn Hrt r l name
    (wk_root _ _ _ _ _ _ _ _ Hst1) (working_few _ _ _ _ _ _ _ _ state)) as (i&found&ptr&Hspec&Hseek&_).
  pose proof (represents_but_absent _ _ _ _ _ (wk_rep _ _ _ _ _ _ _ _ state) Hnone) as Hx.
  destruct found; [destruct (search_found l name i true Hspec) as (x&_&_&?); congruence|].
  eapply (getBucketByName_missing w w1); [apply (working_bucket _ _ _ _ _ _ _ _ state)| | |exact Hspec|exact Hseek].
  - destruct (buckets_ bv !! data_ name) as [c|] eqn:E; [|done].
    destruct (wk_kids _ _ _ _ _ _ _ _ state _ _ E) as (_&_&[? ?]). congruence.
  - by apply (working_cursor _ _ _ _ _ _ _ _ state).
Qed.

(** The bucket is in the cache. *)
Lemma getBucket_cached name c : buckets_ bv !! data_ name = Some c -> getBucketByName b name w = Ok (Some c, w).
Proof.
  intros Hc. unfold getBucketByName. erewrite bindM_ok by (apply get_bucket_ok, (working_bucket _ _ _ _ _ _ _ _ state)).
  cbn beta. by rewrite Hc.
Qed.

(** A bucket that is there, in a root bucket without a node or opened before. *)
Lemma working_getBucket name es :
  Item_wf name -> m !! data_ name = Some es -> r = None \/ data_ name ∈ O ->
  exists w' bv' tv' c, getBucketByName b name w = Ok (Some c, w') /\ tx_frame t w w' /\
    working w' tv' bv' r l D ({[data_ name]} ∪ O) m /\ buckets_ bv' !! data_ name = Some c.
Proof.
  intros Hname Hm Huse. destruct (buckets_ bv !! data_ name) as [c|] eqn:Hc.
  { assert (data_ name ∈ O) as HO by (destruct Huse as [Hr|]; [by eapply (wk_unread _ _ _ _ _ _ _ _ state)|done]).
    assert ({[data_ name]} ∪ O = O) as -> by set_solver. exists w, bv, tv, c. split_and!; try done.
    by apply getBucket_cached. }
  assert (data_ name ∉ O) as HnO.
  { intros HO. destruct (wk_open _ _ _ _ _ _ _ _ state _ HO). congruence. }
  assert (data_ name ∉ D) as HnD by (intros HD; apply HnO; by apply (wk_edited _ _ _ _ _ _ _ _ state)).
  destruct (working_find name es Hname Hm) as (x&_&_&Hx&Hin&<-&Hflag&Hat&_).
  destruct (Hat HnD) as (_&es'&Hst&Hes). assert (forall w', bucket_frame t b w w' -> tx_frame t w w') as Hframe by exact root_frame.
  destruct Huse as [->|]; [|done]. pose proof state as [W1 W2 W3 W4 W5 W6 W7 W8 W9 W10 W11 W12 W13 W14].
  destruct (open_tx_root w tv W1 W2) as [Hsn Hrt]. destruct (root_unread_view w tv _ bv Hsn Hrt l W3) as [Hun ->].
  destruct (getBucketByName_opens w mt im0 np pg (version_snapshot _ _ _ _ _ _ _ W1) t b tv bv Hun x es')
    as (Hcb&h&qo&Hroot&Hrr&Hseq&Hp&Hget); [lia|done|by rewrite Hflag|done|done|].
  set (c := fresh_key (w_buckets w)) in *. match type of Hget with _ = Ok (_, ?x) => set (w2 := x) in * end.
  assert (forall cv, bucket_of w c <> Ok cv) as Hfresh by (intros cv Hcv; by apply fresh_bucket_ne in Hcv).
  assert (bucket_frame t b w w2) as Hfr.
  { transitivity w1; [apply bucket_frame_tx, W2|]. transitivity (with_bucket c (handle t h qo) w1);
      [apply (bucket_frame_new_bucket t b w1)|apply bucket_frame_bucket]. }
  destruct (working_add _ _ _ _ _ _ _ _ state w2 (opened_root bv (data_ (i_key x)) c) None l0 ({[data_ (i_key x)]} ∪ O) m
    (data_ (i_key x)) c) as [tv' Hst2]; try done.
  - apply root_unread; [apply bucket_of_with|]. apply (ur_fresh _ _ _ _ _ _ Hun).
  - eapply (kid_opened _ _ _ _ _ _ _ h qo es'); try done; [set_solver|by eapply stored_entries| | |by rewrite Hes].
    + split; [by exists x|]. rewrite Hroot. destruct Hst as [Hh|id Hpt Hid _ _]; [left; by eapply holds_root|right].
      rewrite (points_root _ _ Hpt), Hid. by eexists.
    + unfold w2. rewrite bucket_of_with_ne by done. apply bucket_of_with.
  - intros k Hk. split; [set_solver|done].
  - set_solver.
  - intros _. split; [done|set_solver].
  - exists w2, (opened_root bv (data_ (i_key x)) c), tv', c. split_and!; [exact Hget|by apply Hframe|exact Hst2|].
    apply lookup_insert_eq.
Qed.
End calls.

(** ** Making a bucket *)

Section again.
Context (w : World) (tv : Tx) (bv : Bucket) (r : option nptr) (l : InodeList) (D O : gset (list byte)) (m : db_map).
Hypothesis state : working w tv bv r l D O m.

(** A bucket that is in the root bucket's node, and not opened before, is
    opened without the place of its page. *)
Lemma getBucket_dangling n name es :
  r = Some n -> Item_wf name -> m !! data_ name = Some es -> buckets_ bv !! data_ name = None ->
  exists w' bv' tv' c, getBucketByName b name w = Ok (Some c, w') /\ tx_frame t w w' /\ working w' tv' bv' r l D O m.
Proof.
  intros Hr Hname Hm Hnew. set (w1 := with_tx t (count_cursor tv) w).
  destruct (working_counted _ _ _ _ _ _ _ _ state) as [tv1 Hst1]. fold w1 in Hst1.
  destruct (working_find _ _ _ _ _ _ _ _ Hst1 name es Hname Hm) as (x&i&ptr&Hx&Hin&<-&Hflag&Hat&Hseek&Hptr).
  rewrite Hptr in Hseek by (rewrite Hr; by eexists).
  destruct (working_bucket _ _ _ _ _ _ _ _ state) as [Hb Ht].
  pose proof state as [W1 W2 W3 W4 W5 W6 W7 W8 W9 W10 W11 W12 W13 W14].
  assert (data_ (i_key x) ∉ O) as HnO by (intros HO; destruct (W6 _ HO); congruence).
  destruct Hat as (_&es'&Hstored&_); [intros HD; by apply HnO, W7|].
  set (c := fresh_key (w_buckets w)).
  destruct (openBucket_dangling w1 b bv _ (i_value x) es' Hb Hstored) as (h&qo&Hopen).
  change (fresh_key (w_buckets w1)) with c in Hopen. rewrite Ht in Hopen.
  set (w2 := with_bucket b (opened_root bv (data_ (i_key x)) c) (with_bucket c (handle t h qo) w1)).
  assert (c <> b) as Hcb by (by eapply fresh_bucket_ne).
  assert (bucket_frame t b w w2) as Hfr.
  { transitivity w1; [apply bucket_frame_tx, W2|].
    transitivity (with_bucket c (handle t h qo) w1); [apply (bucket_frame_new_bucket t b w1)|apply bucket_frame_bucket]. }
  destruct (working_add _ _ _ _ _ _ _ _ state w2 (opened_root bv (data_ (i_key x)) c) r l O m (data_ (i_key x)) c)
    as [tv' Hst2]; try done.
  - rewrite Hr in W3 |- *. destruct (root_at_loaded _ _ _ _ W3) as (v&Hleaf&->). constructor. destruct Hleaf. split; try done. apply bucket_of_with.
  - intros cv Hcv. by apply fresh_bucket_ne in Hcv.
  - apply kid_idle; [intros HD; by apply HnO, W7|done|]. exists (handle t h qo). split; [|done].
    unfold w2. rewrite bucket_of_with_ne by done. apply bucket_of_with.
  - by rewrite Hr.
  - exists w2, (opened_root bv (data_ (i_key x)) c), tv', c. split_and!; [|by eapply root_frame|exact Hst2].
    unfold getBucketByName. erewrite bindM_ok by (by apply get_bucket_ok). cbn beta. rewrite Hnew.
    erewrite bindM_ok by apply (working_cursor _ _ _ _ _ _ _ _ state). cbn beta.
    erewrite bindM_ok by (apply (reads_ok (fun w => seek w b (i_key x))); exact Hseek). cbn beta iota.
    cbn [kv_key kv_flag kv_value kv_of_inode]. rewrite bytes_eqb_refl, Hflag. cbn [negb orb].
    change (negb (has_flag bucketLeafFlag bucketLeafFlag)) with false. cbn iota.
    erewrite bindM_ok by exact Hopen. cbn beta.
    erewrite bindM_ok by (apply upd_bucket_ok; rewrite bucket_of_with_ne by done; exact Hb). done.
Qed.

End again.

Section creates.
Context (w : World) (tv : Tx) (bv : Bucket) (r : option nptr) (l : InodeList) (D O : gset (list byte)) (m : db_map).
Hypothesis state : working w tv bv r l D O m.

Lemma working_writable : not_writable b w = Ok (false, w).
Proof.
  destruct (working_bucket _ _ _ _ _ _ _ _ state) as [Hb Ht]. destruct (wk_tx _ _ _ _ _ _ _ _ state).
  eapply not_writable_ok; [exact Hb|by rewrite Ht|done..].
Qed.

(** [createBucket] of a bucket that is there opens it, fit for use when the
    root bucket has no node yet. *)
Lemma working_create_again name es :
  Item_wf name -> m !! data_ name = Some es ->
  exists w' bv' tv' c, createBucket b name w = Ok (Some c, w') /\ tx_frame t w w' /\
    working w' tv' bv' r l D (if r is Some _ then O else {[data_ name]} ∪ O) m.
Proof.
  intros Hname Hm. destruct (working_find _ _ _ _ _ _ _ _ state name es Hname Hm) as (x&i&ptr&Hx&Hin&Hk&Hflag&_&Hseek&_).
  pose proof (proj1 (Forall_forall _ _) (wk_inodes _ _ _ _ _ _ _ _ state) x Hin) as (_&_&Hpos). rewrite Hk in Hpos.
  assert (createBucket b name w = getBucketByName b name w) as ->.
  { unfold createBucket. erewrite bindM_ok by exact working_writable. cbn beta.
    rewrite (proj2 (Z.eqb_neq _ _)) by lia. cbn [orb].
    erewrite bindM_ok by (by apply (reads_ok (fun w => seek w b name))). cbn beta iota.
    cbn [kv_key kv_flag kv_of_inode]. unfold Item_eqb. by rewrite Hk, bytes_eqb_refl, Hflag. }
  destruct (buckets_ bv !! data_ name) as [c|] eqn:Hc.
  - assert ((if r is Some _ then O else {[data_ name]} ∪ O) = O) as ->.
    { destruct r as [n|] eqn:Hr; [done|]. pose proof (wk_unread _ _ _ _ _ _ _ _ state _ _ eq_refl Hc). set_solver. }
    exists w, bv, tv, c. split_and!; try done. by apply (getBucket_cached _ _ _ _ _ _ _ _ state).
  - destruct r as [n|] eqn:Hr.
    + destruct (getBucket_dangling _ _ _ _ _ _ _ _ state n name es) as (w'&bv'&tv'&c&?&?&?); try done. by exists w', bv', tv', c.
    + destruct (working_getBucket _ _ _ _ _ _ _ _ state name es) as (w'&bv'&tv'&c&?&?&?&_); try done; [by left|].
      by exists w', bv', tv', c.
Qed.

(** [createBucket] of the empty name is refused. *)
Lemma working_create_refused name : length_ name = 0 -> createBucket b name w = Ok (None, w).
Proof.
  intros Hz. unfold createBucket. erewrite bindM_ok by exact working_writable. cbn beta. by rewrite Hz.
Qed.

(** The entry of a new bucket, put where a search for its name ends: the
    root's node is made, if it is not, and the new bucket is open, with a page
    that dangles. *)
Lemma putEmptyBucket_root name i :
  Item_wf name -> 0 < length_ name -> inode_map l !! data_ name = None -> buckets_ bv !! data_ name = None ->
  exists w' bv' c n v, putEmptyBucket b name [root_ref w r i] w = Ok (Some c, w') /\ root_leaf w' bv' n v /\
    inodeList_ v = insert_inode (bucket_entry name) l /\ buckets_ bv' = <[data_ name := c]> (buckets_ bv) /\
    bucket_frame t b w w' /\ bucket_of w' c = Ok (dangling_bucket t) /\ (forall cv, bucket_of w c <> Ok cv).
Proof.
  intros Hname Hpos Hx Hnew. pose proof (working_few _ _ _ _ _ _ _ _ state) as Hfew.
  destruct (working_bucket _ _ _ _ _ _ _ _ state) as [Hb Ht].
  destruct (insert_bucket_entry l name (wk_sorted _ _ _ _ _ _ _ _ state) Hfew Hpos Hx) as (Hs'&_&Habs).
  set (loc := fresh_key (w_buckets w)). set (rr := fresh_key (w_nodes w)).
  set (w3 := with_bucket loc (bset_rootNode_ (Some rr) (Bucket_new (tx_ bv))) (with_node rr (markLeaf (Node_new loc None)) w)).
  assert (forall x, bucket_frame t x w w3) as Hfr3.
  { intros x. transitivity (with_node rr (markLeaf (Node_new loc None)) w); [apply bucket_frame_new_node|].
    apply (bucket_frame_new_bucket t x (with_node rr (markLeaf (Node_new loc None)) w)). }
  destruct (working_frame _ _ _ _ _ _ _ _ state loc w3 (Hfr3 loc)) as [tv3 Hst3].
  { intros cv Hcv. by apply fresh_bucket_ne in Hcv. }
  destruct (working_root_tx _ _ _ _ _ _ _ _ Hst3) as [Hsn Hrt].
  destruct (root_getNode w3 tv3 _ bv Hsn Hrt r l i
    (wk_root _ _ _ _ _ _ _ _ Hst3) Hfew) as (n&v&bv4&w4&s&Hnode&Hleaf&Hv&Hbk4&Hfr4).
  assert (root_ref w3 r i = root_ref w r i) as Href by (unfold root_ref; by destruct r). rewrite Href in Hnode.
  destruct (open_tx_frame t b w3 w4 b mt tv3 Hfr4 (wk_tx _ _ _ _ _ _ _ _ Hst3)) as (tv4&Hot4&_).
  pose proof (leaf_version_frame t b w3 w4 _ _ _ _ _ _ Hfr4 (wk_version _ _ _ _ _ _ _ _ Hst3)) as Hver4.
  destruct (open_tx_root w4 tv4 Hver4 Hot4) as [Hsn4 Hrt4].
  pose proof (root_leaf_bucket w4 tv4 _ bv4 Hsn4 Hrt4 n v Hleaf) as Hlb. rewrite Hv in Hlb. specialize (Hlb Hfew).
  destruct (putEmptyBucket_ok w b bv name [root_ref w r i] s n v bv4 tv4 (next_meta mt) w4) as (Hcb&Hput);
    [done|exact Hnode|exact Hlb|lia|by rewrite Hv|done|by rewrite Hv|by rewrite Hbk4|].
  rewrite Hv, Hbk4, (rl_owner _ _ _ _ Hleaf) in Hput. rewrite Hv in Hcb.
  change (mkInode bucketLeafFlag 0 name empty_bucket_value) with (bucket_entry name) in *.
  set (l' := insert_inode (bucket_entry name) l) in *. set (v' := set_inodeList l' v) in *.
  set (w5 := with_bucket b (bset_page_ None bv4) (with_node n v' w4)) in *.
  set (c := fresh_key (w_buckets w5)) in *. fold loc in Hput.
  set (bv6 := bset_buckets_ (<[data_ name := c]> (buckets_ bv)) (bset_page_ None bv4)) in *.
  match type of Hput with _ = Ok (_, without_bucket _ ?x) => set (w7 := x) in * end.
  set (w6 := without_bucket loc w7) in *.
  assert (loc <> b) as Hlb' by (by eapply fresh_bucket_ne).
  assert (bucket_of w5 loc = Ok (bset_rootNode_ (Some rr) (Bucket_new (tx_ bv)))) as Hloc5.
  { unfold w5. rewrite bucket_of_with_ne by (by apply not_eq_sym). by apply Hfr4; [apply bucket_of_with|]. }
  assert (c <> loc) as Hcl by (by eapply fresh_bucket_ne).
  assert (bucket_frame t b w w5) as Hfr5.
  { transitivity w3; [apply Hfr3|]. transitivity w4; [exact Hfr4|].
    transitivity (with_node n v' w4); [|apply bucket_frame_bucket]. apply (bucket_frame_node t b w4 n v); apply Hleaf. }
  exists w6, bv6, c, n, v'. split_and!; try done.
  - destruct Hleaf. split; try done.
    + unfold bucket_of, w6, w7. cbn. by rewrite lookup_delete_ne, lookup_insert_eq.
    + unfold node_of, w6, w7, w5. cbn. by rewrite lookup_insert_eq.
    + change (inodeList_ v') with l'. unfold l'. rewrite (insert_inode_perm (bucket_entry name)).
      apply Forall_cons. split; [by apply bucket_entry_wf|apply state].
  - apply (bucket_frame_without t b w w7 loc); [|intros cv Hcv; by apply fresh_bucket_ne in Hcv].
    transitivity w5; [exact Hfr5|]. transitivity (with_tx t (count_cursor tv4) w5); [apply bucket_frame_tx; apply Hot4|].
    transitivity (with_bucket c (dangling_bucket t) (with_tx t (count_cursor tv4) w5));
      [apply (bucket_frame_new_bucket t b (with_tx t (count_cursor tv4) w5))|apply bucket_frame_bucket].
  - unfold bucket_of, w6, w7. cbn.
    by rewrite lookup_delete_ne, lookup_insert_ne, lookup_insert_eq by (done || by apply not_eq_sym).
  - intros cv Hcv. by apply (bf_buckets _ _ _ _ Hfr5) in Hcv as Hcv5%fresh_bucket_ne; [|intros ->].
Qed.

(** [createBucket] of a new name. *)
Lemma working_create name :
  Item_wf name -> 0 < length_ name -> m !! data_ name = None -> fits_db (<[data_ name := ∅]> m) ->
  exists w' bv' tv' c n l', createBucket b name w = Ok (Some c, w') /\ tx_frame t w w' /\
    working w' tv' bv' (Some n) l' D O (<[data_ name := ∅]> m) /\ bucket_of w' c = Ok (dangling_bucket t).
Proof.
  intros Hname Hpos Hnone Hfit. pose proof (working_few _ _ _ _ _ _ _ _ state) as Hfew.
  destruct (working_root_tx _ _ _ _ _ _ _ _ state) as [Hsn Hrt].
  destruct (root_seek w tv _ bv Hsn Hrt r l name
    (wk_root _ _ _ _ _ _ _ _ state) Hfew) as (i&found&ptr&Hspec&Hseek&_).
  pose proof (represents_but_absent _ _ _ _ _ (wk_rep _ _ _ _ _ _ _ _ state) Hnone) as Hx.
  destruct found; [destruct (search_found l name i true Hspec) as (x&_&_&?); congruence|].
  destruct (insert_bucket_entry l name (wk_sorted _ _ _ _ _ _ _ _ state) Hfew Hpos Hx) as (Hs'&Hm'&_).
  pose proof (absent_entry (kv_of_inode <$> l) name i) as Hne. rewrite kv_keys_inodes in Hne. specialize (Hne Hspec Hpos Hname).
  rewrite list_lookup_fmap in Hne.
  assert (buckets_ bv !! data_ name = None) as Hnew.
  { destruct (buckets_ bv !! data_ name) as [c|] eqn:E; [|done].
    destruct (wk_kids _ _ _ _ _ _ _ _ state _ _ E) as (_&_&[? ?]). congruence. }
  destruct (putEmptyBucket_root name i Hname Hpos Hx Hnew) as (w6&bv6&c&n&v'&Hput&Hleaf&Hv&Hbk&Hfr&Hdang&Hc).
  assert (idle_bucket w6 c) as Hidle by (by exists (dangling_bucket t)).
  assert (data_ name ∉ O) as HnO by (intros HO; destruct (wk_open _ _ _ _ _ _ _ _ state _ HO); congruence).
  destruct (working_add _ _ _ _ _ _ _ _ state w6 bv6 (Some n) (inodeList_ v') O (<[data_ name := ∅]> m) (data_ name) c)
    as [tv' Hst6]; try done; rewrite ?Hv; try done.
  - rewrite <-Hv. by constructor.
  - apply kid_idle; [intros HD; by apply HnO, (wk_edited _ _ _ _ _ _ _ _ state)|done|done].
  - rewrite lookup_insert_eq. by eexists.
  - intros k Hk. rewrite Hm'. by rewrite !lookup_insert_ne by (by apply not_eq_sym).
  - apply state.
  - eapply represents_but_insert; [apply state|exact Hm'|]. split; [done|]. exists [].
    split; [apply stored_inline, holds_empty|done].
  - eapply roots_apart_write; [apply state|exact Hm'|]. intros Hnz. destruct Hnz. exact (holds_root _ _ holds_empty).
  - apply map_Forall_insert_2; [|apply state]. vm_compute. done.
  - rewrite <-Hv. apply Hleaf.
  - exists w6, bv6, tv', c, n, (inodeList_ v'). split_and!; [|by eapply root_frame|exact Hst6|exact Hdang].
    unfold createBucket. erewrite bindM_ok by exact working_writable. cbn beta.
    rewrite (proj2 (Z.eqb_neq _ _)) by lia. cbn [orb].
    erewrite bindM_ok by (by apply (reads_ok (fun w => seek w b name))). cbn beta iota. by rewrite Hne.
Qed.
End creates.
End work.
