(* ===== verification/Gather.v ===== *)
(** * Gather.v: committing what a transaction holds in memory

    The first half of [Tx::commit] for a transaction at work (Work.v):
    [Bucket::rebalance] visits the root bucket and every sub-bucket, and
    [Bucket::spill] brings each changed sub-bucket to its entry, or to a page of
    its own with its header in the entry, in the order of a walk over an
    unordered map, until the root's leaf and the pages it names hold the whole
    database. *)
From S2P Require Import Bytes.
From S2P Require Import BinSearch.
From S2P Require Import Page.
From S2P Require Import FreeList.
From S2P Require Import Meta.
From S2P Require Import Node.
From S2P Require Import World.
From S2P Require Import Pager.
From S2P Require Import Tree.
From S2P Require Import Cursor.
From S2P Require Import Traversal.
From S2P Require Import Image.
From S2P Require Import Alloc.
From S2P Require Import Bucket.
From S2P Require Import Tx.
From S2P Require Import DB.
From S2P Require Import Stage.
From S2P Require Import Spill.
From S2P Require Import Commit.
From S2P Require Import Update.
From S2P Require Import Inline.
From S2P Require Import MapDB.
From S2P Require Import Work.

(** The buckets a walk visits are those of the cache, each once. *)
Lemma sub_buckets_elem `{Env} bv (name : list byte) c : (name, c) ∈ sub_buckets bv -> buckets_ bv !! name = Some c.
Proof.
  unfold sub_buckets. rewrite list_elem_of_omap. intros (x&_&Hx). destruct (buckets_ bv !! x) eqn:E; [|done].
  by injection Hx as <- <-.
Qed.

Lemma sub_buckets_names `{OrderLaws} bv : (sub_buckets bv).*1 ≡ₚ (map_to_list (buckets_ bv)).*1.
Proof.
  assert (forall l : list (list byte), (forall name, name ∈ l -> is_Some (buckets_ bv !! name)) ->
    (omap (fun name => c ← buckets_ bv !! name; Some (name, c)) l).*1 = l) as Hl.
  { induction l as [|name l IH]; intros Hin; [done|]. destruct (Hin name) as [c Hc]; [by left|]. cbn. rewrite Hc. cbn.
    f_equal. apply IH. intros k Hk. apply Hin. by right. }
  unfold sub_buckets. rewrite Hl; [apply order_name|]. intros name. rewrite order_name.
  intros ([k c]&->&Hk)%list_elem_of_fmap. apply elem_of_map_to_list in Hk. by exists c.
Qed.

Lemma sub_buckets_nodup `{OrderLaws} bv : NoDup (sub_buckets bv).*1.
Proof. rewrite sub_buckets_names. apply NoDup_fst_map_to_list. Qed.

Section gather.
Context `{OrderLaws} (t : txptr) (b : bptr) (mt : meta) (im0 : image) (np nf : Z) (pg fl : list byte).
Hypothesis fuel : (2 <= env_fuel)%nat.
#[local] Set Default Proof Using "All".

Abbreviation l0 := (im_root im0).
Abbreviation working := (working t b mt im0 np nf pg fl).
Abbreviation root_at := (root_at t b mt im0).
Abbreviation entry_root := (entry_root im0).
Abbreviation root_leaf := (root_leaf t b mt).

(** ** Rebalancing *)

(** The mark of a changed sub-bucket's node is reset; nothing else happens. *)
Lemma working_rebalance_kid w tv bv r l D O m name c f :
  working w tv bv r l D O m -> buckets_ bv !! name = Some c ->
  exists w' tv', Bucket_rebalance (S f) c w = Ok (tt, w') /\ working w' tv' bv r l D O m /\ tx_frame t w w'.
Proof.
  intros Hst Hc. destruct (wk_kids _ _ _ _ _ _ _ _ _ _ _ _ _ _ _ _ Hst name c Hc) as (Hcb&[h n cv v HD Hed Hent Her Hm|h qo es _ _ _ _ _ _ Hb _|_ _ Hi]&_).
  - pose proof Hed as [[] Hbs _ _].
    destruct (lone_rebalance w c cv (root h) n v f) as (v'&Hv'&Hrun); try done.
    rewrite (idle_sub_buckets (H:=H) w c cv) in Hrun by done.
    assert (inodeList_ v' = inodeList_ v) as Hin by (rewrite <-Hv'; by destruct v').
    assert (bucket_frame t c w (with_node n v' w)) as Hfr by (by apply (bucket_frame_node t c w n v)).
    assert (child_becomes w (with_node n v' w) t c h (inodeList_ v)) as Hbec.
    { exists n, cv, v'. split; [|by split]. eapply edited_child_node; [exact Hed|]. unfold same_shape. rewrite <-Hin, <-Hv'.
      by destruct v'. }
    assert (<[name := values (inodeList_ v)]> m = m) as Hm' by (by apply insert_id).
    destruct (working_edit t b mt im0 np nf pg fl fuel _ _ _ _ _ _ _ _ Hst name c h _ _ Hc
      (wk_edited _ _ _ _ _ _ _ _ _ _ _ _ _ _ _ _ Hst _ HD) Her Hbec Hent) as [tv' Hst']; [rewrite Hm'; apply Hst|].
    rewrite Hm' in Hst'. assert ({[name]} ∪ D = D) as HD' by set_solver. rewrite HD' in Hst'.
    exists (with_node n v' w), tv'. split_and!; [exact Hrun|exact Hst'|].
    apply (bucket_frame_tx_frame t c); [exact Hfr|]. intros cv' Hcv'. congruence.
  - exists w, tv. split_and!; try done. apply (idle_rebalance (H:=H) w); [lia|]. by exists (handle t h qo).
  - exists w, tv. split_and!; try done. apply (idle_rebalance (H:=H) w); [lia|done].
Qed.

Lemma working_rebalance_kids bv r l D O m f : forall kids w tv,
  working w tv bv r l D O m -> (forall name c, (name, c) ∈ kids -> buckets_ bv !! name = Some c) ->
  exists w' tv', each kids (fun c => Bucket_rebalance (S f) c.2) w = Ok (tt, w') /\ working w' tv' bv r l D O m /\
    tx_frame t w w'.
Proof.
  induction kids as [|[name c] kids IH]; intros w tv Hst Hkids; [by exists w, tv|]. cbn [each snd].
  destruct (working_rebalance_kid w tv bv r l D O m name c f Hst) as (w1&tv1&Hrun&Hst1&Hfr1); [apply Hkids; by left|].
  destruct (IH w1 tv1 Hst1) as (w'&tv'&Hruns&Hst'&Hfr'); [intros; apply Hkids; by right|].
  exists w', tv'. split_and!; [by erewrite bindM_ok by exact Hrun|done|by transitivity w1].
Qed.

Lemma working_rebalance w tv bv r l D O m :
  working w tv bv r l D O m ->
  exists w' tv', Bucket_rebalance env_fuel b w = Ok (tt, w') /\ working w' tv' bv r l D O m /\ tx_frame t w w'.
Proof.
  intros Hst. destruct (working_bucket _ _ _ _ _ _ _ _ fuel _ _ _ _ _ _ _ _ Hst) as [Hb Ht].
  pose proof (wk_root _ _ _ _ _ _ _ _ _ _ _ _ _ _ _ _ Hst) as Hroot.
  assert (exists f, env_fuel = S (S f)) as [f Ef] by (exists (pred (pred env_fuel)); lia).
  destruct r as [n|].
  - destruct (root_at_loaded t b mt im0 np nf pg fl fuel w bv n l Hroot) as (v&Hleaf&->). pose proof Hleaf as [L1 L2 L3 L4 L5 L6 L7 L8 L9 L10 L11 L12 L13 L14].
    destruct (lone_rebalance w b bv (root (root_ mt)) n v (S f)) as (v'&Hv'&Hrun); try done.
    assert (inodeList_ v' = inodeList_ v) as Hin by (rewrite <-Hv'; by destruct v').
    assert (bucket_frame t b w (with_node n v' w)) as Hfr by (by apply (bucket_frame_node t b w n v)).
    destruct (working_root _ _ _ _ _ _ _ _ fuel _ _ _ _ _ _ _ _ Hst (with_node n v' w) (Some n) Hfr) as [tv1 Hst1]; [|done|].
    { rewrite <-Hin. constructor. split; try done; [apply node_of_with|..]; rewrite <-Hv' in *; by destruct v'. }
    destruct (working_rebalance_kids bv (Some n) (inodeList_ v) D O m f (sub_buckets bv) _ _ Hst1)
      as (w'&tv'&Hruns&Hst'&Hfr'); [intros; by apply sub_buckets_elem|].
    exists w', tv'. split_and!; [by rewrite Ef, Hrun|done|]. transitivity (with_node n v' w); [|done]. by eapply root_frame.
  - destruct (working_rebalance_kids bv None l D O m f (sub_buckets bv) w tv Hst)
      as (w'&tv'&Hruns&Hst'&Hfr'); [intros; by apply sub_buckets_elem|].
    exists w', tv'. split_and!; [|done|done].
    destruct (working_root_tx _ _ _ _ _ _ _ _ fuel _ _ _ _ _ _ _ _ Hst) as [Hsn Hrt].
    destruct (root_unread_view t b mt im0 np nf pg fl fuel w tv _ bv Hsn Hrt l Hroot) as [Hun _].
    destruct (unread_fields _ _ _ (ur_fresh _ _ _ _ _ _ Hun)) as (_&_&Hn&_).
    rewrite Ef. by rewrite (nodeless_rebalance (H:=H) w ltac:(lia) b bv).
Qed.

(** ** Spilling the sub-buckets *)

Context (w0 : World).
Hypothesis current : leaf_version w0 mt im0 np nf pg fl.
Hypothesis rwtx_t : rwtx_ (w_db w0) = Some t.

Lemma staged_root_tx w tv mx R :
  staged w0 t mt w tv mx R -> totalPageNumber_ mx < 2 ^ 32 ->
  leaf_snapshot w mt im0 np pg /\ root_tx t mt w tv mx.
Proof.
  intros Hst Hsmall. pose proof (staged_store w0 t mt im0 np nf pg fl current rwtx_t w tv mx R Hst) as Hss. split.
  - apply (leaf_snapshot_same w0); try apply Hss; [by rewrite (ss_file _ _ Hss)|by rewrite (ss_file _ _ Hss)|].
    by eapply version_snapshot.
  - destruct (sg_open _ _ _ _ _ _ _ Hst) as [Hdb Hwr]. split; try done; [apply Hst|apply Hst| |].
    + pose proof (sg_total _ _ _ _ _ _ _ Hst). lia.
    + rewrite (sg_dirty _ _ _ _ _ _ _ Hst), lookup_fmap. destruct (R !! root (root_ mt)) as [rn|] eqn:E; [|done]. exfalso.
      pose proof (ve_root _ _ _ _ _ _ _ current) as Hkp. pose proof (kp_range _ _ _ _ _ Hkp).
      pose proof (sg_range _ _ _ _ _ _ _ Hst _ _ E).
      apply (staged_kept_run w0 t mt im0 np nf pg fl current rwtx_t w tv mx R Hst _ _ _ _ _ (root (root_ mt)) Hkp E); unfold in_run; lia.
Qed.

(** A sub-bucket's page in [S]: a new one, or one of the version's that nobody
    freed. *)
Definition page_held (w : World) (R : gmap Z run) (id : Z) (es : InodeList) : Prop :=
  (exists blk bs, R !! id = Some (mkRun 1 blk bs) /\ sub_leaf bs es) \/
  (im_subs im0 !! id = Some es /\ id ∉ all_pages (freeList_ (w_db w))).

(** The pages of the version are none of the new ones. *)
Lemma old_no_run w tv mx R id r : staged w0 t mt w tv mx R -> is_Some (im_subs im0 !! id) -> R !! id = Some r -> False.
Proof.
  intros Hst [es Hs] Hr. destruct (ve_subs _ _ _ _ _ _ _ current id es Hs) as (bs&Hkp&_).
  pose proof (sg_range _ _ _ _ _ _ _ Hst _ _ Hr).
  apply (staged_kept_run w0 t mt im0 np nf pg fl current rwtx_t w tv mx R Hst _ _ _ _ _ id Hkp Hr); unfold in_run; lia.
Qed.

(** What is left to do for the sub-bucket [c]: write it, when it is one of the
    changed ones [D]. *)
Definition to_spill (w : World) (l : InodeList) (D : gset (list byte)) (m : db_map) (name : list byte) (c : bptr) : Prop :=
  c <> b /\ ((name ∈ D /\ (exists h n cv v, edited_child w t c h n cv v /\ bucket_entries (inodeList_ v) /\
                entry_root l name h /\ m !! name = Some (values (inodeList_ v)))) \/
             (name ∉ D /\ idle_bucket w c)).

(** The loop over the sub-buckets has [kids] left; the changed ones among them
    are [D].  [S] are the pages that the entries of the root bucket name. *)
Record spilling (w : World) (tv : Tx) (mx : meta) (R : gmap Z run) (bv : Bucket) (r : option nptr) (l : InodeList)
    (S : gmap Z InodeList) (D : gset (list byte)) (m : db_map) (kids : list (list byte * bptr)) : Prop := {
  sp_staged : staged w0 t mt w tv mx R;
  sp_record : mx = meta_set_total (totalPageNumber_ mx) (next_meta mt);
  sp_root : root_at w bv r l;
  sp_rep : represents_but S D l m;
  sp_roots : roots_apart l;
  sp_known : forall name x, inode_map l !! name = Some x ->
    value_root (i_value x) = 0 \/ is_Some (S !! value_root (i_value x));
  sp_subs : forall id es, S !! id = Some es -> page_held w R id es;
  sp_freed : forall x, x ∈ all_pages (freeList_ (w_db w)) -> x ∈ all_pages (freeList_ (w_db w0)) \/ is_Some (im_subs im0 !! x);
  sp_total : totalPageNumber_ mx + Z.of_nat (base.size (D ∩ big_names m)) <= totalPageNumber_ mt + bigs m;
  sp_fits : fits_db m;
  sp_bytes : map_Forall (fun _ es => 0 <= bucket_bytes es) m;
  sp_inodes : Forall leaf_inode l;
  sp_sorted : keys_sorted l;
  sp_kids : Forall (fun x => to_spill w l D m x.1 x.2) kids;
  sp_nodup : NoDup kids.*1;
  sp_apart : NoDup kids.*2;
  sp_changed : forall name, name ∈ D -> name ∈ kids.*1;
}.

(** The pages of buckets' own make room enough. *)
Abbreviation map_room := (room_for_update w0 mt).

Lemma room_total m z : map_room m -> z <= totalPageNumber_ mt + bigs m -> (z + 2) * 4096 <= datasz_ (w_db w0) < 2 ^ 31.
Proof.
  unfold room_for_update, has_room. intros Hr Hz. pose proof (ve_room _ _ _ _ _ _ _ current) as Hdz.
  pose proof (kp_range _ _ _ _ _ (ve_root _ _ _ _ _ _ _ current)).
  pose proof (pages_for_pos (24 + 8 * totalPageNumber_ mt) ltac:(lia)). lia.
Qed.

(** ** Frames of other buckets' memory *)

Lemma root_at_memory c w w' bv r l : c <> b -> memory_frame c w w' -> root_at w bv r l -> root_at w' bv r l.
Proof.
  intros Hc [Hb Hn] [Hbv Hf|n v []]; constructor; [by apply Hb; [|apply not_eq_sym]|done|].
  split; try done; [by apply Hb; [|apply not_eq_sym]|]. apply Hn; congruence.
Qed.

Lemma edited_child_memory x w w' c h n cv v :
  x <> c -> memory_frame x w w' -> (forall id, getPagePtr w' id = getPagePtr w id) ->
  edited_child w t c h n cv v -> edited_child w' t c h n cv v.
Proof.
  intros Hx [Hb Hn] Hp [[] ? ? ?]. split; try done; [|by rewrite Hp].
  split; try done; [by apply Hb; [|apply not_eq_sym]|]. apply Hn; congruence.
Qed.

Lemma idle_bucket_memory x w w' c : x <> c -> memory_frame x w w' -> idle_bucket w c -> idle_bucket w' c.
Proof. intros Hx [Hb _] (cv&Hc&Hi). exists cv. split; [|done]. by apply Hb; [|apply not_eq_sym]. Qed.

Lemma to_spill_memory x w w' l l' D D' m name c :
  x <> c -> memory_frame x w w' -> (forall id, getPagePtr w' id = getPagePtr w id) ->
  inode_map l' !! name = inode_map l !! name -> (name ∈ D' <-> name ∈ D) ->
  to_spill w l D m name c -> to_spill w' l' D' m name c.
Proof.
  intros Hx Hfr Hp Hl HD [Hcb [(Hin&h&n&cv&v&Hed&He&[(y&Hy&Hr) Hs]&Hm)|[Hin Hi]]]; split; [done| |done|]; rewrite HD; [left|right].
  - split; [done|]. exists h, n, cv, v. split; [by apply (edited_child_memory x w)|]. split; [done|]. split; [|done].
    split; [|done]. exists y. by rewrite Hl.
  - split; [done|]. by apply (idle_bucket_memory x w).
Qed.

(** ** The new value of a sub-bucket *)

(** What making the new value [nv] of the sub-bucket [c] leaves, when its
    header was [h], its node is [n], and its entries [es]: the bucket's old
    page is free, and its new one, if it has one, is staged. *)
Record spilled_value (w : World) (mx : meta) (R : gmap Z run) (S : gmap Z InodeList) (c : bptr) (h : bucketHeader) (n : nptr)
    (es : InodeList) (w1 : World) (nv : Item) (tv1 : Tx) (mx1 : meta) (R1 : gmap Z run) (S1 : gmap Z InodeList) : Prop := {
  sv_staged : staged w0 t mt w1 tv1 mx1 R1;
  sv_record : mx1 = meta_set_total (totalPageNumber_ mx1) (next_meta mt);
  sv_total : totalPageNumber_ mx1 <= totalPageNumber_ mx + (if page_bytes es <=? maxInlineBucketSize then 0 else 1);
  sv_subs : forall id es, S1 !! id = Some es -> page_held w1 R1 id es;
  sv_freed : forall x, x ∈ all_pages (freeList_ (w_db w1)) ->
    x ∈ all_pages (freeList_ (w_db w)) \/ is_Some (im_subs im0 !! x);
  sv_value : stored_as S1 nv es;
  sv_others : forall id, id <> root h -> is_Some (S !! id) -> S1 !! id = S !! id;
  sv_new : value_root nv = 0 \/ (S !! value_root nv = None /\ is_Some (S1 !! value_root nv));
  sv_bucket : exists cv, bucket_of w1 c = Ok cv /\ rootNode_ cv = Some n;
  sv_memory : memory_frame c w w1;
}.

Section value.
Context (w : World) (tv : Tx) (mx : meta) (R : gmap Z run) (S : gmap Z InodeList).
Hypothesis state : staged w0 t mt w tv mx R.
Hypothesis record : mx = meta_set_total (totalPageNumber_ mx) (next_meta mt).
Hypothesis held : forall id es, S !! id = Some es -> page_held w R id es.
Hypothesis room : (totalPageNumber_ mx + 2) * 4096 <= datasz_ (w_db w0) < 2 ^ 31.
Context (c : bptr) (h : bucketHeader) (n : nptr) (cv : Bucket) (v : Node).
Hypothesis edited : edited_child w t c h n cv v.
Hypothesis entries : bucket_entries (inodeList_ v).
(** The bucket's old page is one of the version's. *)
Hypothesis old : root h = 0 \/ (is_Some (im_subs im0 !! root h) /\ is_Some (S !! root h)).

Lemma old_page : root h = 0 \/ exists bs, kept_page w0 (totalPageNumber_ mt) (root h) 1 bs /\
  forall x, root h <= x < root h + 1 -> x ∉ all_pages (freeList_ (w_db w)).
Proof.
  destruct old as [|[Hs [es Hes]]]; [by left|right].
  destruct (held _ _ Hes) as [(blk&bs&Hr&_)|[Ho Hsp]]; [by destruct (old_no_run _ _ _ _ _ _ state Hs Hr)|].
  destruct (ve_subs _ _ _ _ _ _ _ current _ _ Ho) as (bs&Hkp&_). exists bs. split; [exact Hkp|].
  intros x Hx. by assert (x = root h) as -> by lia.
Qed.

(** The pages still named stay, when the bucket's page is freed. *)
Lemma held_after w1 R1 id es :
  (forall id r, R !! id = Some r -> R1 !! id = Some r) ->
  (forall x, x ∈ all_pages (freeList_ (w_db w1)) -> x ∈ all_pages (freeList_ (w_db w)) \/ (0 < root h /\ x = root h)) ->
  id <> root h -> S !! id = Some es -> page_held w1 R1 id es.
Proof.
  intros HR Hf Hne Hs. destruct (held _ _ Hs) as [(blk&bs&Hr&Hl)|[Ho Hsp]].
  - left. exists blk, bs. eauto.
  - right. split; [exact Ho|]. intros Hin. destruct (Hf id Hin) as [?|[_ ?]]; done.
Qed.

(** Freeing the bucket's old page, if it has one. *)
Lemma old_page_freed :
  exists f, let w1 := wset_w_db (dset_freeList_ f (w_db w)) w in
    (if root h =? 0 then f = freeList_ (w_db w)
     else Tx_free (txid_ mx) (Some (getPagePtr w (root h))) w = Ok (tt, w1)) /\
    staged w0 t mt w1 tv mx R /\
    forall x, x ∈ all_pages f -> x ∈ all_pages (freeList_ (w_db w)) \/ (0 < root h /\ x = root h).
Proof.
  destruct old_page as [E|(bs&Hkp&Hspared)].
  - exists (freeList_ (w_db w)). rewrite E. cbn. split; [done|]. split; [|by left].
    assert (wset_w_db (dset_freeList_ (freeList_ (w_db w)) (w_db w)) w = w) as -> by (destruct w as [? ? ? d ? ? ? ? ?]; by destruct d).
    exact state.
  - pose proof (kp_range _ _ _ _ _ Hkp). rewrite (proj2 (Z.eqb_neq _ _)) by lia.
    destruct (staged_free w0 t mt im0 np nf pg fl current rwtx_t w tv mx R state _ 1 bs Hkp Hspared) as (f&Hrun&Hst1&Hperm); [lia|].
    exists f. split; [exact Hrun|]. split; [exact Hst1|]. intros x. rewrite Hperm, elem_of_app, elem_of_seqZ. intros [?|?]; [by left|right; lia].
Qed.

Lemma inline_value :
  page_bytes (inodeList_ v) <= maxInlineBucketSize ->
  exists w1 nv, new_value (fun _ => ret true) c true w = Ok (Some nv, w1) /\
    spilled_value w mx R S c h n (inodeList_ v) w1 nv tv mx R (delete (root h) S).
Proof.
  intros Hs. pose proof edited as [[Hb Ht Hh Hr Hnodes Hn Hl Ho Hp Hk Hsp Hpg] Hbs Hseq Hpage].
  destruct old_page_freed as (f&Hfree&Hst1&Hf).
  destruct (edited_free w t c h n cv v mx f edited) as (w1&Hrun&Hw1);
    [exact (staged_tx_meta w0 t mt im0 np nf pg fl current rwtx_t _ _ _ _ state)|exact Hfree|].
  set (w1' := wset_w_db (dset_freeList_ f (w_db w)) w) in *.
  destruct (staged_frame w0 t mt im0 np nf pg fl current rwtx_t w1' tv mx R Hst1 c w1) as (tv1&Hst2&Hsame).
  { rewrite Hw1. apply bucket_frame_bucket. }
  { intros bv' Hbv'. change (bucket_of w c = Ok bv') in Hbv'. congruence. }
  assert (tv1 = tv) as ->.
  { pose proof (sg_tx _ _ _ _ _ _ _ Hst2) as Htx. rewrite Hw1 in Htx. change (tx_of w t = Ok tv1) in Htx.
    rewrite (sg_tx _ _ _ _ _ _ _ state) in Htx. by injection Htx. }
  destruct (freed_write w1 c h n cv v) as (nv&Hholds&Hwrite); try done; [rewrite Hw1; apply bucket_of_with|by rewrite Hw1|].
  exists w1, nv. split.
  { unfold new_value. erewrite bindM_ok by exact Hrun. cbn beta. erewrite bindM_ok by exact Hwrite. reflexivity. }
  assert (freeList_ (w_db w1) = f) as Hfl by (by rewrite Hw1).
  split; try done.
  - rewrite (proj2 (Z.leb_le _ _)) by done. lia.
  - intros id es. rewrite lookup_delete_Some. intros [Hne Hs']. eapply held_after; [done| |by apply not_eq_sym|done].
    by rewrite Hfl.
  - intros x. rewrite Hfl. intros [?|[Hpos ->]]%Hf; [by left|right]. destruct old as [?|[? _]]; [lia|done].
  - by apply stored_inline.
  - intros id Hne _. by apply lookup_delete_ne, not_eq_sym.
  - left. by eapply holds_root.
  - eexists. split; [rewrite Hw1; apply bucket_of_with|exact Hr].
  - rewrite Hw1. split; [|done]. intros d dv Hd Hne. by rewrite bucket_of_with_ne by (by apply not_eq_sym).
Qed.

Lemma paged_value f :
  maxInlineBucketSize < page_bytes (inodeList_ v) ->
  exists w1 nv tv1 mx1 R1 S1,
    new_value (Bucket_spill (Datatypes.S f)) c false w = Ok (Some nv, w1) /\
    spilled_value w mx R S c h n (inodeList_ v) w1 nv tv1 mx1 R1 S1.
Proof.
  intros Hbig. pose proof edited as [Hlone Hbs Hseq Hpage]. pose proof (entries_count _ entries) as [Hpb _].
  assert (pages_for (page_bytes (inodeList_ v)) = 1) as Hk.
  { unfold pages_for. rewrite Z.div_small by lia. done. }
  assert (root h = 0 \/ exists bs, (kept_page w0 (totalPageNumber_ mt) (root h) 1 bs /\
    forall x, root h <= x < root h + 1 -> x ∉ all_pages (freeList_ (w_db w)))) as Hold by exact old_page.
  assert (exists bs, root h = 0 \/ (kept_page w0 (totalPageNumber_ mt) (root h) 1 bs /\
    forall x, root h <= x < root h + 1 -> x ∉ all_pages (freeList_ (w_db w)))) as [obs Hold'].
  { destruct Hold as [?|[bs ?]]; [exists []; by left|exists bs; by right]. }
  destruct (leaf_Bucket_spill w0 t mt im0 np nf pg fl current rwtx_t w tv mx R state c h n cv v 1 obs Hlone
    (edited_sized v entries (ll_leaf _ _ _ _ _ _ _ Hlone)) Hold') with (wb := w) (bv0 := cv) (f0 := f)
    as (id&m&blk&w1&tv1&mx1&Hspill&Hst1&Hid&Hmx1&[_ HT]&Hleaf&Hfo&Hmem&Hb1); [rewrite Hk; lia|lia|apply Hlone| |].
  { rewrite (idle_sub_buckets (H:=H) w c cv) by (apply Hlone || done). reflexivity. }
  rewrite Hk in HT, Hst1. set (rn := mkRun 1 blk m) in *. set (R1 := <[id := rn]> R) in *.
  assert (R1 !! id = Some rn) as Hid1 by apply lookup_insert_eq.
  pose proof (sg_range _ _ _ _ _ _ _ Hst1 _ _ Hid1) as (Hid2&_&Hend). cbn in Hend.
  set (h1 := {| root := id; sequence := sequence h |}) in *.
  assert (bucketHeader_ (rooted h cv id) = h1) as Hh1 by done.
  exists w1, {| data_ := bucketHeader_bytes h1; length_ := BUCKETHEADERSIZE |}, tv1, mx1, R1, (<[id := inodeList_ v]> (delete (root h) S)).
  pose proof (header_points h1 ltac:(cbn; lia) ltac:(cbn; lia)) as Hpt.
  assert (S !! id = None) as HSid.
  { destruct (S !! id) as [es|] eqn:E; [|done]. destruct (held _ _ E) as [(?&?&?&_)|[Ho _]]; [congruence|].
    destruct (old_no_run _ _ _ _ id rn Hst1); [by eexists|done]. }
  split.
  { unfold new_value. erewrite bindM_ok by exact Hspill. cbn [negb].
    erewrite bindM_ok by (apply get_bucket_ok; exact Hb1). by rewrite Hh1. }
  assert (forall x, x ∈ all_pages (freeList_ (w_db w1)) -> x ∈ all_pages (freeList_ (w_db w)) \/ (0 < root h /\ x = root h)) as Hf.
  { intros x [?|[? ?]]%Hfo; [by left|right; lia]. }
  split; try done.
  - rewrite Hmx1. by rewrite record.
  - rewrite (proj2 (Z.leb_gt _ _)) by done. lia.
  - intros id' es. rewrite lookup_insert_Some, lookup_delete_Some. intros [[<- <-]|[Hne [Hne2 Hs']]].
    + left. exists blk, m. by split.
    + eapply held_after; [|exact Hf|by apply not_eq_sym|done]. intros i r Hi. unfold R1. rewrite lookup_insert_ne; [done|congruence].
  - intros x [?|[Hpos ->]]%Hf; [by left|right]. destruct old as [?|[? _]]; [lia|done].
  - eapply stored_page; [exact Hpt|apply lookup_insert_eq|done|done].
  - intros id' Hne [es Hs']. rewrite lookup_insert_ne by congruence. by apply lookup_delete_ne, not_eq_sym.
  - right. rewrite (points_root _ _ Hpt). split; [exact HSid|]. cbn. rewrite lookup_insert_eq. by eexists.
  - eexists. split; [exact Hb1|]. apply Hlone.
Qed.
(** The value is inline or a header, as the bucket's size decides. *)
Lemma value_ok f : exists inl w1 nv tv1 mx1 R1 S1, isInlineable w c = Ok inl /\
  new_value (Bucket_spill (Datatypes.S f)) c inl w = Ok (Some nv, w1) /\
  spilled_value w mx R S c h n (inodeList_ v) w1 nv tv1 mx1 R1 S1.
Proof.
  pose proof (edited_inlineable w t c h n cv v edited entries) as Hinl.
  destruct (Z.leb_spec (page_bytes (inodeList_ v)) maxInlineBucketSize) as [Hle|Hgt].
  - destruct (inline_value Hle) as (w1&nv&Hrun&Hsv). by exists true, w1, nv, tv, mx, R, (delete (root h) S).
  - destruct (paged_value f Hgt) as (w1&nv&tv1&mx1&R1&S1&Hrun&Hsv). by exists false, w1, nv, tv1, mx1, R1, S1.
Qed.
End value.

(** ** The loop over the sub-buckets *)

Lemma frame_root_tx x w w' tv mx :
  bucket_frame t x w w' -> leaf_snapshot w mt im0 np pg -> root_tx t mt w tv mx ->
  leaf_snapshot w' mt im0 np pg /\ exists tv', root_tx t mt w' tv' mx.
Proof.
  intros Hfr Hsn [R1 R2 R3 R4 R5 R6]. split.
  - apply (leaf_snapshot_same w); try done; by rewrite ?(bf_db _ _ _ _ Hfr), ?(bf_file _ _ _ _ Hfr), ?(bf_map _ _ _ _ Hfr).
  - destruct (bf_tx _ _ _ _ Hfr tv R1) as (tv'&Ht'&Hs). exists tv'. unfold same_tx in Hs. rewrite <-Hs in R2, R3, R4, R6.
    destruct tv'. cbn in *. by split.
Qed.

(** A new value for the bucket under the key of [x]: where the search ends, and
    what [put] on the root's node leaves. *)
Lemma root_put w tv mx bv r l x nv :
  leaf_snapshot w mt im0 np pg -> root_tx t mt w tv mx -> root_at w bv r l -> few l -> Forall leaf_inode l ->
  inode_map l !! data_ (i_key x) = Some x -> Item_wf nv ->
  exists i ptr n s w2 w' bv' v, seek w b (i_key x) = Ok ([root_ref mt w r i], ptr, kv_of_inode x) /\
    Cursor_getNode b [root_ref mt w r i] w = Ok ((n, s), w2) /\
    Node_put n (i_key x) (i_key x) nv 0 bucketLeafFlag w2 = Ok (true, w') /\
    root_leaf w' bv' n v /\ bucket_frame t b w w' /\
    inode_map (inodeList_ v) = <[data_ (i_key x) := mkInode bucketLeafFlag 0 (i_key x) nv]> (inode_map l).
Proof.
  intros Hsn Hrt Hroot Hfew Hl Hx Hnv. destruct (inode_map_lookup _ _ _ Hx) as [Hin _].
  pose proof (proj1 (Forall_forall _ _) Hl x Hin) as ((Hkwf&_)&_&Hpos).
  destruct (root_find t b mt im0 np nf pg fl fuel w tv mx bv Hsn Hrt r l (i_key x) x Hroot Hfew Hl Hkwf Hx)
    as (_&_&i&ptr&Hseek&_).
  destruct (root_getNode t b mt im0 np nf pg fl fuel w tv mx bv Hsn Hrt r l i Hroot Hfew)
    as (n&v&bv'&w2&s&Hnode&Hleaf&Hv&_&Hfr2).
  destruct (frame_root_tx b w w2 tv mx Hfr2 Hsn Hrt) as (Hsn2&tv2&Hrt2).
  pose proof (root_leaf_bucket t b mt im0 np nf pg fl fuel w2 tv2 mx bv' Hsn2 Hrt2 n v Hleaf) as Hlb. rewrite Hv in Hlb.
  specialize (Hlb Hfew).
  destruct (leaf_bucket_Node_put _ _ _ _ _ _ _ Hlb (i_key x) nv bucketLeafFlag) as (l'&Hput&Hlb'&Hm'); [done|by rewrite Hv|].
  rewrite Hv in Hm'. cbn zeta in Hput. eexists i, ptr, n, s, w2, _, bv', (set_inodeList l' v).
  split_and!; [exact Hseek|exact Hnode|exact Hput| | |exact Hm'].
  - pose proof (lb_sorted _ _ _ _ _ _ _ Hlb') as Hs'. destruct Hleaf. split; try done; [apply node_of_with|].
    apply Forall_inode_map; [exact Hs'|]. intros k y. cbn [inodeList_ set_inodeList]. rewrite Hm', lookup_insert_Some.
    intros [[_ <-]|[_ Hy]]; [by split_and!|]. by apply (inode_map_Forall leaf_inode l k).
  - transitivity w2; [exact Hfr2|]. apply (bucket_frame_node t b w2 n v); apply Hleaf.
Qed.

Lemma getPagePtr_store w1 w2 : same_store w1 w2 -> forall id, getPagePtr w2 id = getPagePtr w1 id.
Proof. intros Hss id. unfold getPagePtr. by rewrite (ss_ps _ _ Hss), (ss_gen _ _ Hss). Qed.

(** The rest of [spill_child]: the new value is put under the bucket's key, and
    the root's node is made for it, if it is not. *)
Lemma entry_put f w w1 tv1 mx1 R1 bv r l x name c inl nv cv1 nc :
  c <> b -> staged w0 t mt w1 tv1 mx1 R1 -> totalPageNumber_ mx1 < 2 ^ 32 -> root_at w1 bv r l -> few l -> Forall leaf_inode l ->
  inode_map l !! name = Some x -> i_flag x = bucketLeafFlag -> Item_wf nv ->
  isInlineable w c = Ok inl -> new_value (Bucket_spill f) c inl w = Ok (Some nv, w1) ->
  bucket_of w1 c = Ok cv1 -> rootNode_ cv1 = Some nc ->
  exists w' tv' bv' n v, spill_child (Bucket_spill f) b name c w = Ok (true, w') /\ bucket_frame t b w1 w' /\
    staged w0 t mt w' tv' mx1 R1 /\ root_leaf w' bv' n v /\
    inode_map (inodeList_ v) = <[name := mkInode bucketLeafFlag 0 (i_key x) nv]> (inode_map l).
Proof.
  intros Hcb Hst1 Hsmall Hroot1 Hfew Hinodes Hx Hflag Hnv Hinl Hval Hc1 Hr1.
  destruct (staged_root_tx w1 tv1 mx1 R1 Hst1 Hsmall) as [Hsn1 Hrt1].
  destruct (root_at_bucket t b mt im0 np nf pg fl fuel w1 bv r l Hroot1) as [Hb1 Ht].
  set (w2 := with_tx t (count_cursor tv1) w1).
  assert (bucket_frame t b w1 w2) as Hfr12 by (apply bucket_frame_tx, Hst1).
  destruct (frame_root_tx b w1 w2 tv1 mx1 Hfr12 Hsn1 Hrt1) as (Hsn2&tv2&Hrt2).
  assert (root_at w2 bv r l) as Hroot2 by (destruct Hroot1 as [|n v []]; [by constructor|constructor; by split]).
  destruct (inode_map_lookup _ _ _ Hx) as [Hin Hk].
  pose proof (proj1 (Forall_forall _ _) Hinodes x Hin) as ((Hkwf&_)&_&Hpos).
  assert (Item_of_string name = i_key x) as Hkey by (rewrite <-Hk; by apply Item_of_name).
  rewrite <-Hk in Hx.
  destruct (root_put w2 tv2 mx1 bv r l x nv Hsn2 Hrt2 Hroot2 Hfew Hinodes Hx Hnv)
    as (i&ptr&n&s&w3&w'&bv'&v&Hseek&Hnode&Hput&Hleaf&Hfr2&Hm').
  assert (bucket_frame t b w1 w') as Hfr by (by transitivity w2).
  destruct (staged_frame w0 t mt im0 np nf pg fl current rwtx_t w1 tv1 mx1 R1 Hst1 b w' Hfr) as (tv'&Hst'&_).
  { intros cv' Hcv'. congruence. }
  exists w', tv', bv', n, v. split; [|by rewrite <-Hk].
  unfold spill_child. erewrite bindM_ok by (apply (reads_ok (fun w => isInlineable w c)); exact Hinl). cbn beta.
  erewrite bindM_ok by exact Hval. cbn beta iota. erewrite bindM_ok by (apply get_bucket_ok, Hc1). cbn beta.
  rewrite Hr1. erewrite bindM_ok.
  2:{ rewrite (createCursor_ok w1 b bv tv1); [rewrite Ht; reflexivity|exact Hb1|rewrite Ht; apply Hst1]. }
  cbn beta zeta. fold w2. rewrite Hkey.
  erewrite bindM_ok by (apply (reads_ok (fun w => seek w b (i_key x))); exact Hseek). cbn beta iota.
  cbn [kv_key kv_flag kv_of_inode]. unfold Item_eqb. rewrite bytes_eqb_refl, Hflag.
  erewrite bindM_ok by reflexivity. cbn beta. erewrite bindM_ok by reflexivity. cbn beta.
  erewrite bindM_ok by exact Hnode. cbn beta iota. by erewrite bindM_ok by exact Hput.
Qed.

(** One pass of the loop, at a changed sub-bucket [c]. *)
Section changed.
Context (w : World) (tv : Tx) (mx : meta) (R : gmap Z run) (bv : Bucket) (r : option nptr) (l : InodeList).
Context (S : gmap Z InodeList) (D : gset (list byte)) (m : db_map) (name : list byte) (c : bptr) (kids : list (list byte * bptr)).
Hypothesis loop : spilling w tv mx R bv r l S D m ((name, c) :: kids).
Hypothesis changed : name ∈ D.

(** The sub-bucket and its entry. *)
Lemma changed_child : c <> b /\ exists h nc cv vc x, edited_child w t c h nc cv vc /\ bucket_entries (inodeList_ vc) /\
  inode_map l !! name = Some x /\ i_flag x = bucketLeafFlag /\ value_root (i_value x) = root h /\
  m !! name = Some (values (inodeList_ vc)) /\ (root h = 0 \/ (is_Some (im_subs im0 !! root h) /\ is_Some (S !! root h))).
Proof.
  pose proof (sp_kids _ _ _ _ _ _ _ _ _ _ _ loop) as Hkids. apply Forall_cons in Hkids as [Hp _]. cbn [fst snd] in Hp.
  destruct Hp as [Hcb [(_&h&nc&cv&vc&Hed&Hent&[(x&Hx&Hxr) Hold]&Hm)|[? _]]]; [|done]. split; [done|].
  destruct (represents_but_lookup _ _ _ _ _ _ (sp_rep _ _ _ _ _ _ _ _ _ _ _ loop) Hm) as (x'&Hx'&Hflag&_).
  rewrite Hx in Hx'. injection Hx' as <-. exists h, nc, cv, vc, x. split_and!; try done.
  destruct Hold as [?|Hs]; [by left|].
  destruct (sp_known _ _ _ _ _ _ _ _ _ _ _ loop name x Hx) as [E|Hk]; rewrite Hxr in *; [by left|by right].
Qed.

(** A page less may be needed from now on, if this bucket takes one. *)
Lemma changed_count es : bucket_entries es -> m !! name = Some (values es) ->
  Z.of_nat (base.size ((D ∖ {[name]}) ∩ big_names m)) + (if page_bytes es <=? maxInlineBucketSize then 0 else 1) <=
  Z.of_nat (base.size (D ∩ big_names m)).
Proof.
  intros Hent Hm. assert (bucket_bytes (values es) = page_bytes es) as Hbb by (symmetry; apply bucket_bytes_entries; apply Hent).
  rewrite <-(size_without D (big_names m) name changed). destruct (Z.leb_spec (page_bytes es) maxInlineBucketSize);
    destruct (decide (name ∈ big_names m)) as [|Hn]; try lia. exfalso. apply Hn, elem_of_big_names.
  eexists. split; [exact Hm|]. unfold big. lia.
Qed.

(** What is left is as before, once the entry [x] of the bucket has its new
    value. *)
Context (h : bucketHeader) (nc : nptr) (es : InodeList) (x : Inode).
Hypothesis entry : inode_map l !! name = Some x.
Hypothesis flag : i_flag x = bucketLeafFlag.
Hypothesis root_x : value_root (i_value x) = root h.
Hypothesis entries : bucket_entries es.
Hypothesis found : m !! name = Some (values es).
Context (w1 : World) (nv : Item) (tv1 : Tx) (mx1 : meta) (R1 : gmap Z run) (S1 : gmap Z InodeList).
Hypothesis value : spilled_value w mx R S c h nc es w1 nv tv1 mx1 R1 S1.
Context (w' : World) (tv' : Tx) (bv' : Bucket) (n : nptr) (v : Node).
Hypothesis frame : bucket_frame t b w1 w'.
Hypothesis state' : staged w0 t mt w' tv' mx1 R1.
Hypothesis leaf : root_leaf w' bv' n v.
Hypothesis put : inode_map (inodeList_ v) = <[name := mkInode bucketLeafFlag 0 (i_key x) nv]> (inode_map l).

(** The other entries name other pages than the bucket's old one. *)
Lemma other_entry name' x' : name' <> name -> inode_map l !! name' = Some x' -> value_root (i_value x') <> 0 ->
  value_root (i_value x') <> root h /\ is_Some (S !! value_root (i_value x')) /\
  S1 !! value_root (i_value x') = S !! value_root (i_value x').
Proof.
  intros Hne Hx' Hnz. destruct (sp_known _ _ _ _ _ _ _ _ _ _ _ loop name' x' Hx') as [|Hs]; [done|].
  assert (value_root (i_value x') <> root h) as Hr.
  { intros E. destruct (sp_roots _ _ _ _ _ _ _ _ _ _ _ loop name' name x' x Hx' entry); congruence. }
  split_and!; [done..|]. by apply (sv_others _ _ _ _ _ _ _ _ _ _ _ _ _ _ value).
Qed.

Lemma changed_rep : represents_but S1 (D ∖ {[name]}) (inodeList_ v) m.
Proof.
  eapply (represents_but_write S1 _ l); [|exact put|exact found|split; [done|exists es; split; [apply value|done]]].
  assert ({[name]} ∪ D ∖ {[name]} = D) as ->.
  { apply leibniz_equiv. rewrite (comm_L (∪)), difference_union. pose proof changed. set_solver. }
  intros k. pose proof (sp_rep _ _ _ _ _ _ _ _ _ _ _ loop k) as Hrep.
  destruct (inode_map l !! k) as [y|] eqn:Hy, (m !! k); try done.
  destruct Hrep as [Hfl Hat]. split; [done|]. intros HkD. destruct (Hat HkD) as (_&es'&Hstd&Hes). split; [done|].
  exists es'. split; [|done]. apply (stored_mono S); [done|]. intros Hnz.
  apply (other_entry k y); [pose proof changed; congruence|done|done].
Qed.

Lemma changed_roots : roots_apart (inodeList_ v).
Proof.
  eapply roots_apart_write; [exact (sp_roots _ _ _ _ _ _ _ _ _ _ _ loop)|exact put|]. cbn [i_value]. intros Hnz name' x' Hne Hx' He.
  destruct (sv_new _ _ _ _ _ _ _ _ _ _ _ _ _ _ value) as [?|[Hnone _]]; [done|].
  destruct (other_entry name' x' Hne Hx') as (_&[? ?]&_); congruence.
Qed.

Lemma changed_known name' x' : inode_map (inodeList_ v) !! name' = Some x' ->
  value_root (i_value x') = 0 \/ is_Some (S1 !! value_root (i_value x')).
Proof.
  rewrite put, lookup_insert_Some. intros [[<- <-]|[Hne Hx']].
  - cbn [i_value]. destruct (sv_new _ _ _ _ _ _ _ _ _ _ _ _ _ _ value) as [?|[_ ?]]; [by left|by right].
  - destruct (decide (value_root (i_value x') = 0)) as [|Hnz]; [by left|right].
    destruct (other_entry name' x') as (_&Hs&Ho); [by apply not_eq_sym|done|done|]. by rewrite Ho.
Qed.

Lemma changed_kids : Forall (fun y => to_spill w' (inodeList_ v) (D ∖ {[name]}) m y.1 y.2) kids.
Proof.
  pose proof (sp_kids _ _ _ _ _ _ _ _ _ _ _ loop) as Hkids. apply Forall_cons in Hkids as [Hp Hkids].
  pose proof (sp_nodup _ _ _ _ _ _ _ _ _ _ _ loop) as Hnd. apply NoDup_cons in Hnd as [Hnot _].
  pose proof (sp_apart _ _ _ _ _ _ _ _ _ _ _ loop) as Hnd2. apply NoDup_cons in Hnd2 as [Hnot2 _].
  rewrite Forall_forall in Hkids |- *. intros [name' c'] Hin'. pose proof (Hkids _ Hin') as Hts. cbn [fst snd] in *.
  assert (name' <> name) as Hne by (intros ->; apply Hnot, list_elem_of_fmap; by exists (name, c')).
  assert (c <> c') as Hne2 by (intros <-; apply Hnot2, list_elem_of_fmap; by exists (name', c)).
  apply (to_spill_memory b w1 w' l _ D); [apply not_eq_sym, Hts|by eapply bucket_frame_memory| | |set_solver|].
  - intros id. unfold getPagePtr. by rewrite (bf_db _ _ _ _ frame), (bf_gen _ _ _ _ frame).
  - by rewrite put, lookup_insert_ne by (by apply not_eq_sym).
  - apply (to_spill_memory c w w1 l l D D); try done; [apply value|]. intros id.
    rewrite (getPagePtr_store w0 w1), (getPagePtr_store w0 w); [done|..];
      eapply (staged_store w0 t mt im0 np nf pg fl current rwtx_t); [apply loop|apply value].
Qed.

Lemma changed_spilling : spilling w' tv' mx1 R1 bv' (Some n) (inodeList_ v) S1 (D ∖ {[name]}) m kids.
Proof.
  pose proof value as [Hst1 Hrec1 Htot1 Hsubs1 Hfreed1 Hval1 Hoth1 Hnew1 _ Hmem1].
  pose proof (changed_count es entries found) as Hcount. pose proof (sp_total _ _ _ _ _ _ _ _ _ _ _ loop) as Htotal.
  pose proof (sp_nodup _ _ _ _ _ _ _ _ _ _ _ loop) as Hnd. apply NoDup_cons in Hnd as [_ Hnd].
  pose proof (sp_apart _ _ _ _ _ _ _ _ _ _ _ loop) as Hnd2. apply NoDup_cons in Hnd2 as [_ Hnd2].
  pose proof (sp_changed _ _ _ _ _ _ _ _ _ _ _ loop) as Hch. rewrite fmap_cons in Hch.
  split; try done; try apply leaf; try apply loop.
  - by constructor.
  - exact changed_rep.
  - exact changed_roots.
  - exact changed_known.
  - intros id es' Hid. destruct (Hsubs1 id es' Hid) as [?|[Ho Hsp]]; [by left|right]. split; [done|].
    by rewrite (bf_db _ _ _ _ frame).
  - intros y. rewrite (bf_db _ _ _ _ frame). intros [Hy|?]%Hfreed1; [by apply loop|by right].
  - lia.
  - exact changed_kids.
  - intros name' HD'. assert (name' ∈ D /\ name' <> name) as [HD1 Hne] by set_solver.
    by destruct (proj1 (elem_of_cons _ _ _) (Hch name' HD1)).
Qed.
End changed.

(** The entry of a changed sub-bucket gets its new value. *)
Lemma spill_changed w tv mx R bv r l S D m name c kids f :
  spilling w tv mx R bv r l S D m ((name, c) :: kids) -> name ∈ D -> map_room m ->
  exists w' tv' mx' R' bv' n l' S', spill_child (Bucket_spill (Datatypes.S f)) b name c w = Ok (true, w') /\
    spilling w' tv' mx' R' bv' (Some n) l' S' (D ∖ {[name]}) m kids.
Proof.
  intros Hsp HD Hroom. pose proof Hsp as [Hst Hrec Hroot Hrep Hapart Hknown Hsubs Hfreed Htotal Hfits Hbytes Hinodes Hsorted _ _ _ _].
  destruct (changed_child w tv mx R bv r l S D m name c kids Hsp HD) as (Hcb&h&nc&cv&vc&x&Hed&Hent&Hx&Hflag&Hxr&Hm&Hold).
  pose proof (represents_but_few _ _ _ _ Hrep Hsorted Hfits Hbytes) as Hfew.
  pose proof (changed_count w tv mx R bv r l S D m name c kids Hsp HD _ Hent Hm) as Hcount.
  pose proof (room_total m (totalPageNumber_ mx) Hroom ltac:(lia)) as Hrm.
  destruct (value_ok w tv mx R S Hst Hrec Hsubs Hrm c h nc cv vc Hed Hent Hold f)
    as (inl&w1&nv&tv1&mx1&R1&S1&Hinl&Hval&Hsv).
  pose proof Hsv as [Hst1 _ Htot1 _ _ Hval1 _ _ (cv1&Hc1&Hr1) Hmem1].
  pose proof (room_total m (totalPageNumber_ mx1) Hroom ltac:(lia)) as Hrm1.
  destruct (entry_put (Datatypes.S f) w w1 tv1 mx1 R1 bv r l x name c inl nv cv1 nc Hcb Hst1 ltac:(lia)
    (root_at_memory c w w1 bv r l Hcb Hmem1 Hroot) Hfew Hinodes Hx Hflag (stored_wf _ _ _ Hval1) Hinl Hval Hc1 Hr1)
    as (w'&tv'&bv'&n&v&Hrun&Hfr&Hst'&Hleaf&Hput).
  exists w', tv', mx1, R1, bv', n, (inodeList_ v), S1. split; [exact Hrun|].
  by apply (changed_spilling w tv mx R bv r l S D m name c kids Hsp HD h nc (inodeList_ vc) x Hx Hflag Hxr Hent Hm
    w1 nv tv1 mx1 R1 S1 Hsv).
Qed.

Lemma spill_pending m f : map_room m -> forall kids w tv mx R bv r l S D,
  spilling w tv mx R bv r l S D m kids ->
  exists w' tv' mx' R' bv' r' l' S', spill_buckets (Bucket_spill (Datatypes.S f)) b kids w = Ok (true, w') /\
    spilling w' tv' mx' R' bv' r' l' S' ∅ m [].
Proof.
  intros Hroom. induction kids as [|[name c] kids IH]; intros w tv mx R bv r l S D Hsp.
  { assert (D = ∅) as -> by (apply elem_of_equiv_empty_L; intros k Hk;
      by apply (sp_changed _ _ _ _ _ _ _ _ _ _ _ Hsp), elem_of_nil in Hk).
    by exists w, tv, mx, R, bv, r, l, S. }
  cbn [spill_buckets]. destruct (decide (name ∈ D)) as [HD|HD].
  - destruct (spill_changed w tv mx R bv r l S D m name c kids f Hsp HD Hroom)
      as (w1&tv1&mx1&R1&bv1&n&l1&S1&Hrun&Hsp1).
    destruct (IH _ _ _ _ _ _ _ _ _ Hsp1) as (w'&tv'&mx'&R'&bv'&r'&l'&S'&Hruns&Hsp').
    exists w', tv', mx', R', bv', r', l', S'. split; [by erewrite bindM_ok by exact Hrun|done].
  - pose proof (sp_kids _ _ _ _ _ _ _ _ _ _ _ Hsp) as Hkids. apply Forall_cons in Hkids as [Hp Hkids].
    cbn [fst snd] in Hp. destruct Hp as [Hcb [[? _]|[_ Hidle]]]; [done|].
    destruct (IH w tv mx R bv r l S D) as (w'&tv'&mx'&R'&bv'&r'&l'&S'&Hruns&Hrest).
    { destruct Hsp as [A1 A2 A3 A4 A5 A6 A7 A8 A9 A10 A11 A12 A13 A14 A15 A16 A17].
      rewrite fmap_cons in A15, A17. rewrite fmap_cons in A16. apply NoDup_cons in A15 as [Hnot A15]. apply NoDup_cons in A16 as [_ A16].
      split; try done. intros k Hk. destruct (proj1 (elem_of_cons _ _ _) (A17 k Hk)) as [->|]; done. }
    exists w', tv', mx', R', bv', r', l', S'. split; [|exact Hrest].
    erewrite bindM_ok by (by apply (idle_spill_child (H:=H) w ltac:(lia))). exact Hruns.
Qed.

(** ** Ready to commit *)

Lemma working_spilling w tv bv r l D O m :
  working w tv bv r l D O m -> tx_frame t w0 w -> spilling w tv (next_meta mt) ∅ bv r l (im_subs im0) D m (sub_buckets bv).
Proof.
  intros [W1 W2 W3 W4 W5 W6 W7 W8 W9 W10 W11 W12 W13 W14] Hfr. split; try done.
  - destruct W2. by apply (staged_init w0 t mt im0 np nf pg fl current rwtx_t).
  - intros name x Hx. pose proof (W9 name) as Hat. rewrite Hx in Hat. destruct (m !! name) as [es|] eqn:Hm; [|done].
    destruct (decide (name ∈ D)) as [HD|HD].
    + destruct (W6 name) as [c Hc]; [by apply W7|]. destruct (W4 name c Hc) as (_&[h n cv v _ _ _ [(x'&Hx'&<-) Hs] _|h qo es'|]&_); [|done..].
      rewrite Hx in Hx'. by injection Hx' as <-.
    + destruct Hat as [_ Hat]. destruct (Hat HD) as (_&es'&[Hh|id Hpt Hid _ _]&_); [left; by eapply holds_root|right].
      rewrite (points_root _ _ Hpt), Hid. by eexists.
  - intros id es Hid. right. split; [done|]. rewrite (tf_db _ _ _ Hfr). intros Hin.
    destruct (ve_subs _ _ _ _ _ _ _ current id es Hid) as (bs&[_ _ Hk]&_). by apply (Hk id); [lia|].
  - intros x. rewrite (tf_db _ _ _ Hfr). by left.
  - cbn. unfold bigs. assert (base.size (D ∩ big_names m) <= base.size (big_names m))%nat; [apply subseteq_size; set_solver|lia].
  - apply Forall_forall. intros [name c] Hc%sub_buckets_elem. destruct (W4 name c Hc) as (Hcb&Hkid&_). split; [done|].
    destruct Hkid as [h n cv v|h qo es ? ? ? ? ? ? Hb|].
    + left. split; [done|]. by exists h, n, cv, v.
    + right. split; [done|]. eexists. split; [exact Hb|done].
    + by right.
  - apply sub_buckets_nodup.
  - apply NoDup_fmap_2_strong; [|eapply NoDup_fmap_1, sub_buckets_nodup]. intros [n1 c1] [n2 c2] H1%sub_buckets_elem H2%sub_buckets_elem.
    cbn. intros ->. f_equal. by eapply W5.
  - intros name HD. destruct (W6 name) as [c Hc]; [by apply W7|]. rewrite sub_buckets_names. apply list_elem_of_fmap.
    exists (name, c). split; [done|]. by apply elem_of_map_to_list.
Qed.

(** The root's leaf, in a transaction that is not managed any more, is what
    [commit] spills, or keeps. *)
Lemma spilled_root w tv mx R bv r l S m :
  spilling w tv mx R bv r l S ∅ m [] ->
  represents (mkImage l S) m /\ page_bytes l < 4096 /\ root_ready w t mt b l0 l.
Proof.
  intros [A1 A2 A3 A4 A5 A6 A7 A8 A9 A10 A11 A12 A13 _ _ _ _].
  assert (represents (mkImage l S) m) as Hrep by (by apply represents_but_none).
  assert (page_bytes l < 4096) as Hpb by (change l with (im_root (mkImage l S)); rewrite (db_bytes_entries _ m) by done; apply A10).
  split; [exact Hrep|]. split; [exact Hpb|]. destruct A3 as [Hb Hf|n v [] ].
  - destruct (unread_fields _ _ _ Hf) as (Ht&Hh&_&Hr&_). by apply (ready_unread _ _ _ _ _ bv).
  - destruct (one_page_fits v) as (H1&H2&H3); [by left|done|done|]. apply (ready_loaded _ _ _ _ _ n bv); try done.
    split; try done. eapply Forall_impl; [exact rl_inodes|by intros x []].
Qed.
End gather.

Section ready.
Context `{OrderLaws} (t : txptr) (b : bptr) (mt : meta) (im0 : image) (np nf : Z) (pg fl : list byte).
Hypothesis fuel : (2 <= env_fuel)%nat.
#[local] Set Default Proof Using "All".

Lemma working_ready w tv bv r l D O m :
  working t b mt im0 np nf pg fl w tv bv r l D O m -> managed_ tv = false -> rwtx_ (w_db w) = Some t -> room_for_update w mt m ->
  exists w' im', commit_ready w t mt b im0 im' (bigs m) w' /\ represents im' m /\ leaf_pages_of im' (bigs m) <= 1 + bigs m.
Proof.
  intros Hst Hmg Hrw Hroom. assert (exists f, env_fuel = S (S f)) as [f Ef] by (exists (pred (pred env_fuel)); lia).
  pose proof (wk_version _ _ _ _ _ _ _ _ _ _ _ _ _ _ _ _ Hst) as Hver.
  destruct (working_rebalance t b mt im0 np nf pg fl fuel w tv bv r l D O m Hst) as (w1&tv1&Hreb&Hst1&Hfr1).
  pose proof (working_spilling t b mt im0 np nf pg fl fuel w Hver Hrw _ _ _ _ _ _ _ _ Hst1 Hfr1) as Hsp1.
  destruct (spill_pending t b mt im0 np nf pg fl fuel w Hver Hrw m f Hroom _ _ _ _ _ _ _ _ _ _ Hsp1)
    as (w2&tv2&mx2&R2&bv2&r2&l2&S2&Hspill&Hsp).
  destruct (spilled_root t b mt im0 np nf pg fl fuel w Hver Hrw _ _ _ _ _ _ _ _ _ Hsp) as (Hrep&Hpb&Hroot).
  exists w2, (mkImage l2 S2). split_and!; [|exact Hrep|].
  - destruct Hsp as [A1 A2 A3 A4 A5 A6 A7 A8 A9 A10 A11 A12 A13 _ _ _ _].
    destruct (wk_tx _ _ _ _ _ _ _ _ _ _ _ _ _ _ _ _ Hst). split; try done.
    + by exists tv.
    + exists w1, bv. split; [exact Hreb|]. split; [apply (working_bucket _ _ _ _ _ _ _ _ fuel _ _ _ _ _ _ _ _ Hst1)|].
      by rewrite Ef.
    + exists tv2, mx2, R2. split_and!; [exact A1|exact A2|lia|exact A7].
  - unfold leaf_pages_of, pages_for. cbn [im_root].
    pose proof (page_bytes_nonneg l2 (sp_inodes _ _ _ _ _ _ _ _ _ _ _ _ _ _ _ _ Hsp)). rewrite Z.div_small by lia. lia.
Qed.
End ready.
