(* ===== verification/Program.v ===== *)
(** * Program.v: callbacks of update as programs over a map of maps

    A callback of [DB::update] that works through [createBucket], [getBucket],
    [put], [remove] and [get], any number of times and deciding on what they
    return, is a [db_prog].  Run in a transaction it meets the contract
    [writes] of Update.v: each call returns what the map says, error codes
    included, what was written is read back at once, and what the callback
    leaves in memory is what the commit writes. *)
From S2P Require Import Bytes.
From S2P Require Import BinSearch.
From S2P Require Import Page.
From S2P Require Import FreeList.
From S2P Require Import Meta.
From S2P Require Import Node.
From S2P Require Import World.
From S2P Require Import Pager.
From S2P Require Import Tree.
From S2P Require Import Cursor.
From S2P Require Import Traversal.
From S2P Require Import Image.
From S2P Require Import Alloc.
From S2P Require Import Bucket.
From S2P Require Import Tx.
From S2P Require Import DB.
From S2P Require Import Stage.
From S2P Require Import Spill.
From S2P Require Import Commit.
From S2P Require Import Update.
From S2P Require Import Inline.
From S2P Require Import MapDB.
From S2P Require Import Work.
From S2P Require Import Gather.

(** ** Programs *)

(** What changes the database: [Tx::createBucket], and [put] and [remove] in
    a bucket looked up by name. *)
Variant db_op := Create (name : Item) | Put (name key value : Item) | Remove (name key : Item).

(** A callback: operations and reads, each with what follows on its result;
    in the end it returns 0. *)
Inductive db_prog :=
  | Done
  | Do (o : db_op) (k : Z -> db_prog)
  | Get (name key : Item) (k : option Item -> db_prog).

(** Operations one after another, whatever they return. *)
Definition do_all (os : list db_op) : db_prog := foldr (fun o p => Do o (fun _ => p)) Done os.

Section run.
Context `{Env}.

(** Work on the bucket called [name]: -1 when there is none. *)
Definition in_bucket (name : Item) (op : bptr -> M Z) (t : txptr) : M Z :=
  c ← Tx_getBucket t name; match c with Some c => op c | None => ret (-1) end.

Definition run_op (o : db_op) : txptr -> M Z :=
  match o with
  | Create name => make_bucket name
  | Put name key value => in_bucket name (fun c => Bucket_put c key value)
  | Remove name key => in_bucket name (fun c => Bucket_remove c key)
  end.

Fixpoint run_prog (p : db_prog) (t : txptr) : M Z :=
  match p with
  | Done => ret 0
  | Do o k => r ← run_op o t; run_prog (k r) t
  | Get name key k => v ← read_key name key t; run_prog (k v) t
  end.
End run.

(** ** Their meaning *)

(** What a callback sees of its transaction: the database; the buckets it has
    opened; and whether it has created one, so that the root bucket is a node
    in memory, and those not opened before cannot be used. *)
Record tx_abs := mkAbs {
  ta_map : db_map;
  ta_open : gset (list byte);
  ta_loaded : bool;
}.

Definition ta_start (m : db_map) : tx_abs := mkAbs m ∅ false.
Definition ta_opens (name : list byte) (s : tx_abs) : tx_abs :=
  mkAbs (ta_map s) (if ta_loaded s then ta_open s else {[name]} ∪ ta_open s) (ta_loaded s).
Definition ta_writes (name : list byte) (es : entries_map) (s : tx_abs) : tx_abs :=
  mkAbs (<[name := es]> (ta_map s)) (ta_open s) (ta_loaded s).

(** What an operation returns, and what it leaves. *)
Definition op_abs (o : db_op) (s : tx_abs) : Z * tx_abs :=
  match o with
  | Create name =>
      if length_ name =? 0 then (-1, s)
      else
        match ta_map s !! data_ name with
        | Some _ => (0, ta_opens (data_ name) s)
        | None => (0, mkAbs (<[data_ name := ∅]> (ta_map s)) (ta_open s) true)
        end
  | Put name key value =>
      match ta_map s !! data_ name with
      | None => (-1, s)
      | Some es =>
          if (length_ key =? 0) || (MAXKEYSIZE <? length_ key) || (MAXVALUESIZE <? length_ value)
          then (-1, ta_opens (data_ name) s)
          else (0, ta_writes (data_ name) (<[data_ key := value]> es) (ta_opens (data_ name) s))
      end
  | Remove name key =>
      match ta_map s !! data_ name with
      | None => (-1, s)
      | Some es =>
          if length_ key =? 0 then (-1, ta_opens (data_ name) s)
          else (0, ta_writes (data_ name) (delete (data_ key) es) (ta_opens (data_ name) s))
      end
  end.

Definition get_abs (name : Item) (s : tx_abs) : tx_abs :=
  match ta_map s !! data_ name with None => s | Some _ => ta_opens (data_ name) s end.

Fixpoint prog_abs (p : db_prog) (s : tx_abs) : tx_abs :=
  match p with
  | Done => s
  | Do o k => prog_abs (k (op_abs o s).1) (op_abs o s).2
  | Get name key k => prog_abs (k (lookup_key (ta_map s) name key)) (get_abs name s)
  end.

(** The database a callback makes of [m]. *)
Definition prog_map (p : db_prog) (m : db_map) : db_map := ta_map (prog_abs p (ta_start m)).

(** ** What they may do *)

(** A bucket that is there can be used unless a bucket was created before it
    was opened ([createBucket_page_dangles]). *)
Definition usable (name : list byte) (s : tx_abs) : Prop :=
  ta_map s !! name = None \/ ta_loaded s = false \/ name ∈ ta_open s.

Definition op_safe (o : db_op) (s : tx_abs) : Prop :=
  match o with
  | Create name => Item_wf name
  | Put name key value => Item_wf name /\ Item_wf key /\ Item_wf value /\ usable (data_ name) s
  | Remove name key => Item_wf name /\ Item_wf key /\ usable (data_ name) s
  end.

(** The database fits after each operation. *)
Fixpoint prog_ok (p : db_prog) (s : tx_abs) : Prop :=
  match p with
  | Done => True
  | Do o k => op_safe o s /\ fits_db (ta_map (op_abs o s).2) /\ prog_ok (k (op_abs o s).1) (op_abs o s).2
  | Get name key k =>
      Item_wf name /\ usable (data_ name) s /\ prog_ok (k (lookup_key (ta_map s) name key)) (get_abs name s)
  end.

#[export] Instance usable_dec name s : Decision (usable name s).
Proof. unfold usable. apply _. Defined.
#[export] Instance op_safe_dec o s : Decision (op_safe o s).
Proof. destruct o; cbn [op_safe]; apply _. Defined.
#[export] Instance prog_ok_dec p : forall s, Decision (prog_ok p s).
Proof. induction p as [|o k IH|name key k IH]; intros s; cbn [prog_ok]; apply _. Defined.

Lemma prog_ok_fits p : forall s, fits_db (ta_map s) -> prog_ok p s -> fits_db (ta_map (prog_abs p s)).
Proof.
  induction p as [|o k IH|name key k IH]; intros s Hf Hp; cbn in *; [done|..].
  - destruct Hp as (_&Hfit&Hp). by apply IH.
  - destruct Hp as (_&_&Hp). apply IH; [|exact Hp]. unfold get_abs. by destruct (ta_map s !! data_ name).
Qed.

Section program.
Context `{OrderLaws} (t : txptr) (b : bptr) (mt : meta) (im0 : image) (np nf : Z) (pg fl : list byte).
Hypothesis fuel : (2 <= env_fuel)%nat.
#[local] Set Default Proof Using "All".

Abbreviation working := (working t b mt im0 np nf pg fl).

(** ** Calls in a transaction at work *)

(** The transaction in [w] is as [s] says. *)
Definition models (w : World) (s : tx_abs) : Prop := exists tv bv r l D,
  working w tv bv r l D (ta_open s) (ta_map s) /\ ta_loaded s = (if r is Some _ then true else false).

(** [createBucket] of a name, in all cases. *)
Lemma create_models w s name :
  models w s -> op_safe (Create name) s -> fits_db (ta_map (op_abs (Create name) s).2) ->
  exists w', run_op (Create name) t w = Ok ((op_abs (Create name) s).1, w') /\ models w' (op_abs (Create name) s).2 /\
    tx_frame t w w'.
Proof.
  intros (tv&bv&r&l&D&Hst&Hld) Hname Hfit. cbn in Hname.
  assert (forall c w', createBucket b name w = Ok (c, w') ->
    run_op (Create name) t w = Ok (match c with Some _ => 0 | None => -1 end, w')) as Hrun.
  { intros c w' Hc. cbn [run_op]. unfold make_bucket, Tx_createBucket.
    pose proof (wk_tx _ _ _ _ _ _ _ _ _ _ _ _ _ _ _ _ Hst) as [Ht _ _ _ _ Hroot].
    erewrite bindM_ok by (erewrite bindM_ok by (by apply get_tx_ok); cbn beta; rewrite Hroot; exact Hc). done. }
  cbn [op_abs] in *. destruct (Z.eqb_spec (length_ name) 0) as [Hz|Hz]; cbn [fst snd] in *.
  - exists w. split_and!; [|by exists tv, bv, r, l, D|done]. apply (Hrun None).
    by apply (working_create_refused t b mt im0 np nf pg fl fuel w tv bv r l D (ta_open s) (ta_map s)).
  - assert (0 < length_ name) as Hpos by (destruct Hname; lia).
    destruct (ta_map s !! data_ name) as [es|] eqn:Hm; cbn [fst snd] in *.
    + destruct (working_create_again _ _ _ _ _ _ _ _ fuel _ _ _ _ _ _ _ _ Hst name es Hname Hm)
        as (w'&bv'&tv'&c&Hc&Hfr&Hst'). exists w'. split_and!; [by apply (Hrun (Some c))| |exact Hfr].
      exists tv', bv', r, l, D. cbn. rewrite Hld. by destruct r.
    + destruct (working_create _ _ _ _ _ _ _ _ fuel _ _ _ _ _ _ _ _ Hst name Hname Hpos Hm Hfit)
        as (w'&bv'&tv'&c&n&l'&Hc&Hfr&Hst'&_). exists w'. split_and!; [by apply (Hrun (Some c))| |exact Hfr].
      exists tv', bv', (Some n), l', D. by split_and!.
Qed.

(** The bucket of a new name cannot be used in the transaction that makes it. *)
Lemma create_unusable w s name :
  models w s -> Item_wf name -> 0 < length_ name -> ta_map s !! data_ name = None ->
  fits_db (<[data_ name := ∅]> (ta_map s)) ->
  exists c w', Tx_createBucket t name w = Ok (Some c, w') /\ unusable w' c.
Proof.
  intros (tv&bv&r&l&D&Hst&_) Hname Hpos Hm Hfit.
  destruct (working_create _ _ _ _ _ _ _ _ fuel _ _ _ _ _ _ _ _ Hst name Hname Hpos Hm Hfit)
    as (w'&bv'&tv'&c&n&l'&Hc&_&Hst'&Hdang). exists c, w'. split.
  - pose proof (wk_tx _ _ _ _ _ _ _ _ _ _ _ _ _ _ _ _ Hst) as [Ht _ _ _ _ Hroot].
    unfold Tx_createBucket. erewrite bindM_ok by (by apply get_tx_ok). cbn beta. by rewrite Hroot.
  - pose proof (wk_tx _ _ _ _ _ _ _ _ _ _ _ _ _ _ _ _ Hst') as [Ht' ? ? ?].
    apply (dangling_unusable w' c t tv'); try done. lia.
Qed.

(** A bucket that is not there. *)
Lemma getBucket_absent_models w s name :
  models w s -> ta_map s !! data_ name = None ->
  exists w', Tx_getBucket t name w = Ok (None, w') /\ models w' s /\ tx_frame t w w'.
Proof.
  intros (tv&bv&r&l&D&Hst&Hld) Hnone.
  destruct (working_getBucket_absent _ _ _ _ _ _ _ _ fuel _ _ _ _ _ _ _ _ Hst name Hnone) as (Hget&tv'&Hst').
  eexists. split_and!; [|by exists tv', bv, r, l, D|by eapply counted_frame].
  pose proof (wk_tx _ _ _ _ _ _ _ _ _ _ _ _ _ _ _ _ Hst) as [Ht _ _ _ _ Hroot].
  unfold Tx_getBucket. erewrite bindM_ok by (by apply get_tx_ok). cbn beta. by rewrite Hroot.
Qed.

(** The bucket [c] called [name] is open in a transaction that is as [s] says,
    with the header [h] and the entries [es]. *)
Definition child_of (w : World) (s : tx_abs) (name : list byte) (c : bptr) (h : bucketHeader) (es : InodeList) : Prop :=
  exists tv bv r l D, working w tv bv r l D (ta_open s) (ta_map s) /\ ta_loaded s = (if r is Some _ then true else false) /\
    buckets_ bv !! name = Some c /\ name ∈ ta_open s /\
    child_at w t c h es /\ entry_root im0 l name h /\ ta_map s !! name = Some (values es).

Definition opens_child (w : World) (s : tx_abs) (name : list byte) (c : bptr) (es : InodeList) : Prop :=
  exists h, child_of w s name c h es.

Lemma opens_child_models w s name c es : opens_child w s name c es -> models w s.
Proof. intros (h&tv&bv&r&l&D&Hst&Hld&_). by exists tv, bv, r, l, D. Qed.

Lemma getBucket_models w s name es :
  models w s -> Item_wf name -> ta_map s !! data_ name = Some es -> usable (data_ name) s ->
  exists w' c es', Tx_getBucket t name w = Ok (Some c, w') /\ opens_child w' (ta_opens (data_ name) s) (data_ name) c es' /\
    tx_frame t w w' /\ values es' = es.
Proof.
  intros (tv&bv&r&l&D&Hst&Hld) Hname Hm Huse.
  destruct (working_getBucket _ _ _ _ _ _ _ _ fuel _ _ _ _ _ _ _ _ Hst name es Hname Hm)
    as (w'&bv'&tv'&c&Hget&Hfr&Hst'&Hc).
  { destruct Huse as [?|[Hl|]]; [congruence| |by right]. left. rewrite Hl in Hld. by destruct r. }
  assert (ta_open (ta_opens (data_ name) s) = {[data_ name]} ∪ ta_open s) as HO.
  { cbn. destruct (ta_loaded s) eqn:El; [|done]. destruct Huse as [?|[?|?]]; [congruence|congruence|set_solver]. }
  rewrite <-HO in Hst'. assert (data_ name ∈ ta_open (ta_opens (data_ name) s)) as Hin by (rewrite HO; set_solver).
  pose proof (wk_tx _ _ _ _ _ _ _ _ _ _ _ _ _ _ _ _ Hst') as Hot.
  destruct (kid_child t b mt im0 np nf pg fl fuel w' tv' l D (ta_open (ta_opens (data_ name) s)) (ta_map s) (data_ name) c)
    as (h&es'&Hch'&Hes&Her); [apply Hst'|apply Hst'|exact Hot|exact Hin|by apply Hst'|].
  exists w', c, es'. split_and!; [|by exists h, tv', bv', r, l, D|exact Hfr|congruence].
  pose proof (wk_tx _ _ _ _ _ _ _ _ _ _ _ _ _ _ _ _ Hst) as [Ht _ _ _ _ Hroot].
  unfold Tx_getBucket. erewrite bindM_ok by (by apply get_tx_ok). cbn beta. by rewrite Hroot.
Qed.

(** Changing the entries of an open bucket. *)
Lemma opens_child_edit w s name c h es w' es' new :
  child_of w s name c h es -> child_becomes w w' t c h es' -> keys_sorted es' ->
  (forall k x, inode_map es' !! k = Some x -> leaf_inode x /\ plain x) -> values es' = new ->
  fits_db (<[name := new]> (ta_map s)) ->
  models w' (ta_writes name new s) /\ tx_frame t w w'.
Proof.
  intros (tv&bv&r&l&D&Hst&Hld&Hc&Hin&Hchild&Her&_) Hbec Hs Hall <- Hfit.
  assert (bucket_entries es') as Hent.
  { apply (edited_entries es' (inode_map es')); [done|done|exact Hall|]. apply (proj1 Hfit name), lookup_insert_eq. }
  destruct (working_edit _ _ _ _ _ _ _ _ fuel _ _ _ _ _ _ _ _ Hst name c h w' es' Hc Hin Her Hbec Hent Hfit) as [tv' Hst'].
  split.
  - by exists tv', bv, r, l, ({[name]} ∪ D).
  - destruct Hbec as (n&cv&v&_&_&Hfr). apply (bucket_frame_tx_frame t c); [exact Hfr|]. intros cv' Hcv'.
    destruct Hchild as [tv1 qo q [_ Hb _ _ _ _]|n1 cv1 v1 [[Hb Ht _ _ _ _ _ _ _ _ _ _] _ _ _] _ _]; rewrite Hb in Hcv';
      by injection Hcv' as <-.
Qed.

(** What the calls on an open bucket need of the transaction. *)
Lemma opens_child_tx w s name c es :
  opens_child w s name c es -> exists h tv, child_of w s name c h es /\ child_at w t c h es /\
    tx_of w t = Ok tv /\ db_ tv = true /\ writable_ tv = true /\
    (metaData_ tv = Some (next_meta mt) /\ 0 < wrap32 (totalPageNumber_ (next_meta mt))).
Proof.
  intros (h&tv&bv&r&l&D&Hst&Hrest). destruct (working_root_tx t b mt im0 np nf pg fl fuel _ _ _ _ _ _ _ _ Hst) as [Hsn Hrt].
  pose proof (mx_total t b mt im0 np nf pg fl fuel w tv _ bv Hsn Hrt) as Htot. destruct Hrt.
  exists h, tv. split_and!; try done; [by exists tv, bv, r, l, D|]. apply Hrest.
Qed.

Lemma in_bucket_absent w s name op :
  models w s -> ta_map s !! data_ name = None ->
  exists w', in_bucket name op t w = Ok (-1, w') /\ models w' s /\ tx_frame t w w'.
Proof.
  intros Hst Hnone. destruct (getBucket_absent_models w s name Hst Hnone) as (w'&Hget&Hst'&Hfr). exists w'.
  split_and!; [|done..]. unfold in_bucket. by erewrite bindM_ok by exact Hget.
Qed.

Lemma put_models w s name key value :
  models w s -> op_safe (Put name key value) s -> fits_db (ta_map (op_abs (Put name key value) s).2) ->
  exists w', run_op (Put name key value) t w = Ok ((op_abs (Put name key value) s).1, w') /\
    models w' (op_abs (Put name key value) s).2 /\ tx_frame t w w'.
Proof.
  intros Hst (Hname&Hkey&Hvalue&Huse) Hfit. cbn [run_op op_abs] in *.
  destruct (ta_map s !! data_ name) as [es|] eqn:Hm; [|by apply in_bucket_absent].
  destruct (getBucket_models w s name es Hst Hname Hm Huse) as (w1&c&es'&Hget&Hop&Hfr&Hes).
  destruct (opens_child_tx _ _ _ _ _ Hop) as (h&tv&Hco&Hch&Ht&Hdb&Hwr&Hmt). pose proof (child_at_entries _ _ _ _ _ Hch) as Hent.
  destruct (_ || (MAXVALUESIZE <? length_ value)) eqn:Hbad; cbn [fst snd] in *.
  { exists w1. split_and!; [|exact (opens_child_models _ _ _ _ _ Hop)|exact Hfr].
    unfold in_bucket. erewrite bindM_ok by exact Hget. cbn beta iota.
    apply (child_at_put_refused w1 t tv c h es' _ Hch Ht Hdb Hwr Hmt ltac:(lia)).
    rewrite !orb_true_iff, Z.eqb_eq, !Z.ltb_lt in Hbad. tauto. }
  rewrite !orb_false_iff, Z.eqb_neq, !Z.ltb_ge in Hbad. destruct Hbad as [[Hz Hk] Hv].
  destruct (child_at_put w1 t tv c h es' _ Hch Ht Hdb Hwr Hmt ltac:(lia) key value) as (w2&es2&Hput&Hbec&Hs&Hmap);
    [destruct Hkey; lia|lia|].
  destruct (opens_child_edit w1 _ _ c h es' w2 es2 (<[data_ key := value]> es) Hco Hbec Hs) as [Hst2 Hfr2].
  { intros k x. rewrite Hmap, lookup_insert_Some. intros [[_ <-]|[_ Hx]].
    - assert (0 < length_ key) by (destruct Hkey; lia). split; [by split_and!|done].
    - split; [eapply (inode_map_Forall leaf_inode); [apply Hent|done]|eapply (inode_map_Forall plain); [apply Hent|done]]. }
  { unfold values. by rewrite Hmap, fmap_insert, <-Hes. }
  { exact Hfit. }
  exists w2. split_and!; [|exact Hst2|by transitivity w1]. unfold in_bucket. erewrite bindM_ok by exact Hget. exact Hput.
Qed.

Lemma remove_models w s name key :
  models w s -> op_safe (Remove name key) s -> fits_db (ta_map (op_abs (Remove name key) s).2) ->
  exists w', run_op (Remove name key) t w = Ok ((op_abs (Remove name key) s).1, w') /\
    models w' (op_abs (Remove name key) s).2 /\ tx_frame t w w'.
Proof.
  intros Hst (Hname&Hkey&Huse) Hfit. cbn [run_op op_abs] in *.
  destruct (ta_map s !! data_ name) as [es|] eqn:Hm; [|by apply in_bucket_absent].
  destruct (getBucket_models w s name es Hst Hname Hm Huse) as (w1&c&es'&Hget&Hop&Hfr&Hes).
  destruct (opens_child_tx _ _ _ _ _ Hop) as (h&tv&Hco&Hch&Ht&Hdb&Hwr&Hmt). pose proof (child_at_entries _ _ _ _ _ Hch) as Hent.
  destruct (Z.eqb_spec (length_ key) 0) as [Hz|Hz]; cbn [fst snd] in *.
  { exists w1. split_and!; [|exact (opens_child_models _ _ _ _ _ Hop)|exact Hfr].
    unfold in_bucket. erewrite bindM_ok by exact Hget. cbn beta iota.
    by apply (child_at_remove_refused w1 t tv c h es' _ Hch Ht Hdb Hwr Hmt ltac:(lia)). }
  destruct (child_at_remove w1 t tv c h es' _ Hch Ht Hdb Hwr Hmt ltac:(lia) key) as (w2&es2&Hrem&Hbec&Hs&Hmap); [destruct Hkey; lia|].
  destruct (opens_child_edit w1 _ _ c h es' w2 es2 (delete (data_ key) es) Hco Hbec Hs) as [Hst2 Hfr2].
  { intros k x. rewrite Hmap. intros [_ Hx]%lookup_delete_Some.
    split; [eapply (inode_map_Forall leaf_inode); [apply Hent|done]|eapply (inode_map_Forall plain); [apply Hent|done]]. }
  { unfold values. by rewrite Hmap, fmap_delete, <-Hes. }
  { exact Hfit. }
  exists w2. split_and!; [|exact Hst2|by transitivity w1]. unfold in_bucket. erewrite bindM_ok by exact Hget. exact Hrem.
Qed.

Lemma op_models w s o :
  models w s -> op_safe o s -> fits_db (ta_map (op_abs o s).2) ->
  exists w', run_op o t w = Ok ((op_abs o s).1, w') /\ models w' (op_abs o s).2 /\ tx_frame t w w'.
Proof. destruct o; [apply create_models|apply put_models|apply remove_models]. Qed.

(** Reading what the transaction has written so far. *)
Lemma get_models w s name key :
  models w s -> Item_wf name -> usable (data_ name) s ->
  exists w', read_key name key t w = Ok (lookup_key (ta_map s) name key, w') /\ models w' (get_abs name s) /\ tx_frame t w w'.
Proof.
  intros Hst Hname Huse. unfold read_key, lookup_key, get_abs. destruct (ta_map s !! data_ name) as [es|] eqn:Hm.
  - destruct (getBucket_models w s name es Hst Hname Hm Huse) as (w1&c&es'&Hget&Hop&Hfr&Hes).
    destruct (opens_child_tx _ _ _ _ _ Hop) as (h&tv&_&Hch&Ht&Hdb&Hwr&Hmt).
    destruct Hop as (_&tv1&bv&r&l&D&Hst1&Hld&_).
    assert (tv1 = tv) as -> by (pose proof (ot_tx _ _ _ _ _ (wk_tx _ _ _ _ _ _ _ _ _ _ _ _ _ _ _ _ Hst1)); congruence).
    destruct (working_counted _ _ _ _ _ _ _ _ fuel _ _ _ _ _ _ _ _ Hst1) as [tv2 Hst2].
    eexists. split_and!; [|by exists tv2, bv, r, l, D|].
    + erewrite bindM_ok by exact Hget. cbn beta iota.
      erewrite bindM_ok by (apply (child_at_get w1 t tv c h es' _ Hch Ht Hdb Hwr Hmt ltac:(lia))).
      rewrite <-Hes. cbn. unfold values. by rewrite lookup_fmap.
    + transitivity w1; [exact Hfr|]. by eapply counted_frame.
  - destruct (getBucket_absent_models w s name Hst Hm) as (w'&Hget&Hst'&Hfr). exists w'. split_and!; [|done..].
    by erewrite bindM_ok by exact Hget.
Qed.

Lemma prog_models p : forall w s, models w s -> prog_ok p s ->
  exists w', run_prog p t w = Ok (0, w') /\ models w' (prog_abs p s) /\ tx_frame t w w'.
Proof.
  induction p as [|o k IH|name key k IH]; intros w s Hst Hp; cbn [run_prog prog_abs prog_ok] in *.
  - by exists w.
  - destruct Hp as (Hsafe&Hfit&Hp). destruct (op_models w s o Hst Hsafe Hfit) as (w1&Hrun&Hst1&Hfr1).
    destruct (IH _ w1 _ Hst1 Hp) as (w'&Hruns&Hst'&Hfr'). exists w'.
    split_and!; [by erewrite bindM_ok by exact Hrun|done|by transitivity w1].
  - destruct Hp as (Hname&Huse&Hp). destruct (get_models w s name key Hst Hname Huse) as (w1&Hrun&Hst1&Hfr1).
    destruct (IH _ w1 _ Hst1 Hp) as (w'&Hruns&Hst'&Hfr'). exists w'.
    split_and!; [by erewrite bindM_ok by exact Hrun|done|by transitivity w1].
Qed.
End program.

(** ** The contract of update *)

Section writes.
Context `{OrderLaws} (mt : meta) (im : image) (m : db_map).
Hypothesis fuel : (2 <= env_fuel)%nat.
Hypothesis txid_next : txid_ mt + 1 < 2 ^ 64.
Hypothesis rep : represents im m.
Hypothesis fits_now : fits_db m.
#[local] Set Default Proof Using "All".

Lemma represents_bucket_bytes : map_Forall (fun _ es => 0 <= bucket_bytes es) m.
Proof.
  intros name es Hm. destruct (represents_lookup _ _ _ _ rep Hm) as (x&_&_&es'&Hst&<-).
  pose proof (stored_entries _ _ _ Hst) as Hent. rewrite <-bucket_bytes_entries by apply Hent.
  pose proof (entries_count _ Hent). lia.
Qed.

(** A fresh transaction. *)
Lemma fresh_models w t b np nf pg fl :
  leaf_version w mt im np nf pg fl -> fresh_write_tx w t b mt -> models t b mt im np nf pg fl w (ta_start m).
Proof.
  intros Hver Hfw. exists (tset_managed_ true (begun true b mt)), (root_bucket t mt), None, (im_root im), ∅. cbn.
  split; [|done]. pose proof (fresh_meta b mt (ve_ok _ _ _ _ _ _ _ Hver) txid_next) as Hmeta.
  destruct (proj1 (represents_but_none _ _) rep) as [Hrep Hroots].
  split; try done; try apply Hver.
  - split; try done. apply Hfw.
  - constructor; [apply Hfw|done].
  - apply represents_bucket_bytes.
Qed.

Lemma prog_writes p :
  prog_ok p (ta_start m) -> writes (run_prog p) mt im (1 + bigs (prog_map p m)) (fun im' => represents im' (prog_map p m)).
Proof.
  intros Hp w t b np nf pg fl Hver Hfw Hroom. pose proof (fresh_models w t b np nf pg fl Hver Hfw) as Hst.
  destruct (prog_models t b mt im np nf pg fl fuel p w _ Hst Hp) as (w'&Hrun&Hst'&Hfr).
  destruct Hst' as (tv&bv&r&l'&D&Hwk&_).
  pose proof (wk_tx _ _ _ _ _ _ _ _ _ _ _ _ _ _ _ _ Hwk) as Hot.
  assert (open_tx (with_tx t (tset_managed_ false tv) w') t b mt (tset_managed_ false tv)) as Hot'
    by (destruct Hot; split; try done; apply tx_of_with).
  pose proof (working_with_tx _ _ _ _ _ _ _ _ fuel _ _ _ _ _ _ _ _ Hwk _ Hot') as Hwk'.
  assert (w_db (with_tx t (tset_managed_ false tv) w') = w_db w) as Hdb by apply Hfr.
  destruct (working_ready t b mt im np nf pg fl fuel _ _ _ _ _ _ _ _ Hwk') as (w2&im2&Hready&Hrep&Hk);
    [done|by rewrite Hdb; apply Hfw|unfold room_for_update, has_room; rewrite Hdb; exact Hroom|].
  exists w', w2, tv, im2, (bigs (prog_map p m)). split; [exact Hrun|]. split_and!; try apply Hfr; [|exact Hready|exact Hk|exact Hrep].
  apply tx_frame_txs; [exact Hfr|apply Hot].
Qed.
End writes.
