(* ===== verification/Reopen.v ===== *)
(** * Reopen.v: databases across processes

    What a database file holds by itself ([stored]), that a commit leaves such
    a file, and that [DB::Open] in a new process makes of it a database on
    the same version. *)
From S2P Require Import Bytes.
From S2P Require Import BinSearch.
From S2P Require Import Page.
From S2P Require Import FreeList.
From S2P Require Import Meta.
From S2P Require Import Node.
From S2P Require Import World.
From S2P Require Import Disk.
From S2P Require Import Pager.
From S2P Require Import Tree.
From S2P Require Import Cursor.
From S2P Require Import Traversal.
From S2P Require Import Image.
From S2P Require Import Alloc.
From S2P Require Import Bucket.
From S2P Require Import Tx.
From S2P Require Import DB.
From S2P Require Import Stage.
From S2P Require Import Spill.
From S2P Require Import Commit.
From S2P Require Import Update.

(** ** Reading the free list's page where it lies *)

Lemma load_pgids_lift m o bs : lies_at m o bs ->
  forall n d l, load_pgids bs d n = Ok l -> load_pgids m (o + d) n = Ok l.
Proof.
  intros Hm. induction n as [|n IH]; intros d l; [done|]. cbn [load_pgids]. intros Hl. inv_res.
  rewrite (load_lift _ _ _ _ _ _ Hm E). cbn [mbind res_bind]. rewrite <-Z.add_assoc, (IH _ _ E0). cbn. by rewrite Hl.
Qed.

Lemma freelist_read_lift m o bs g F :
  lies_at m o bs -> FreeList.read g bs 0 = Ok F -> FreeList.read g m o = Ok F.
Proof.
  intros Hm. unfold FreeList.read, Page_count, Page_ptr, PAGEHEADERSIZE. rewrite !Z.add_0_l.
  destruct (load 2 bs 10) as [cnt|] eqn:Ec; [|done]. cbn [mbind res_bind].
  rewrite (load_lift _ _ _ _ _ _ Hm Ec). cbn [mbind res_bind]. destruct (cnt =? 0xffff).
  - destruct (load 8 bs 16) as [c|] eqn:Eb; [|done]. cbn [mbind res_bind].
    rewrite (load_lift _ _ _ _ _ _ Hm Eb). cbn [mbind res_bind]. destruct (c =? 0); [done|].
    destruct (load_pgids bs (16 + 1 * 8) _) as [l|] eqn:El; [|done].
    replace (o + 16 + 1 * 8) with (o + (16 + 1 * 8)) by lia. by rewrite (load_pgids_lift _ _ _ Hm _ _ _ El).
  - cbn [mbind res_bind]. destruct (cnt =? 0); [done|].
    destruct (load_pgids bs (16 + 0 * 8) _) as [l|] eqn:El; [|done].
    replace (o + 16 + 0 * 8) with (o + (16 + 0 * 8)) by lia. by rewrite (load_pgids_lift _ _ _ Hm _ _ _ El).
Qed.

(** ** Files *)

(** The file [f] holds the version [mt] of a database whose leaves are [im];
    [old] is the version before it, and [free] the pages on the free list's
    page. *)
Record stored (f : list byte) (mt old : meta) (im : image) (np nf : Z) (pg fl : list byte) (free : list Z)
    : Prop := {
  so_slots : meta_slots f mt old;
  so_meta : meta_ok mt;
  so_cover : totalPageNumber_ mt * 4096 <= Z.of_nat (length f);
  so_root : page_image f 4096 (root (root_ mt)) np pg;
  so_root_range : 2 <= root (root_ mt) /\ 1 <= np /\ root (root_ mt) + np <= totalPageNumber_ mt;
  so_free : page_image f 4096 (freeListPageNumber_ mt) nf fl;
  so_free_range : 2 <= freeListPageNumber_ mt /\ 1 <= nf /\ freeListPageNumber_ mt + nf <= totalPageNumber_ mt;
  so_apart : root (root_ mt) + np <= freeListPageNumber_ mt \/ freeListPageNumber_ mt + nf <= root (root_ mt);
  so_leaf : page_leaf pg 0 (kv_of_inode <$> im_root im);
  so_inodes : Forall leaf_inode (im_root im);
  so_sorted : keys_sorted (im_root im);
  so_subs : forall id es, im_subs im !! id = Some es ->
    2 <= id < totalPageNumber_ mt /\ exists bs, page_image f 4096 id 1 bs /\ sub_leaf bs es;
  so_subs_apart : forall id, is_Some (im_subs im !! id) ->
    ~ root (root_ mt) <= id < root (root_ mt) + np /\
    ~ freeListPageNumber_ mt <= id < freeListPageNumber_ mt + nf;
  so_list : forall g, FreeList.read g fl 0 = Ok (reindex (mkFreeList free (pending_ g) (cache_ g)));
  so_strict : StronglySorted Z.lt free;
  so_pages : forall x, x ∈ free -> 2 <= x < totalPageNumber_ mt /\
    ~ root (root_ mt) <= x < root (root_ mt) + np /\
    ~ freeListPageNumber_ mt <= x < freeListPageNumber_ mt + nf /\
    im_subs im !! x = None;
}.

(** The list read from the page, in a database that had none. *)
Lemma stored_fl_ok f mt old im np nf pg fl free :
  stored f mt old im np nf pg fl free ->
  let F := reindex (mkFreeList free ∅ ∅) in
  fl_ok F (totalPageNumber_ mt) /\ forall x, x ∈ all_pages F -> x ∈ free.
Proof.
  intros Hs F. assert (all_pages F = free) as Hall by (unfold all_pages, F; cbn; apply app_nil_r).
  pose proof (so_meta _ _ _ _ _ _ _ _ _ Hs) as (?&?&?&?&?&?&?&?&?&?). split.
  - split.
    + split; [apply Hs|..]; rewrite Hall.
      * apply Forall_forall. intros x Hx. destruct (so_pages _ _ _ _ _ _ _ _ _ Hs x Hx) as [Hr _]. unfold pgid_ok. lia.
      * pose proof (so_strict _ _ _ _ _ _ _ _ _ Hs) as Hst. clear -Hst. induction Hst as [|x l _ IH Hx]; constructor; [|done].
        intros Hin. rewrite Forall_forall in Hx. specialize (Hx x Hin). lia.
    + intros x Hx. by apply reindex_cache_exact.
    + rewrite Hall. apply Forall_forall. intros x Hx. by apply (so_pages _ _ _ _ _ _ _ _ _ Hs).
  - intros x. by rewrite Hall.
Qed.

(** A commit leaves such a file: the free list's page names every page that
    was free or freed. *)
Lemma committed_stored w w' f mt mt' im im' k np nf pg fl :
  leaf_version w mt im np nf pg fl -> committed w w' f mt mt' im' k ->
  Z.of_nat (length (w_file w')) <= 2 ^ 30 ->
  exists n1 n2 pg' fl', leaf_version w' mt' im' n1 n2 pg' fl' /\
    stored (w_file w') mt' mt im' n1 n2 pg' fl' (sort_pgids (all_pages (freeList_ (w_db w')))).
Proof.
  intros Hver [(n1&n2&pg'&fl'&Hver'&Hread) Htx Hold _ _ _ _ _] Hlen. exists n1, n2, pg', fl'. split; [exact Hver'|].
  destruct Hver' as [_ _ _ _ V5 V6 V7 _ _ V10 _ [R1 R2 R3] [F1 F2 F3] V14 V15 V16 V17 Hsubs Hsap [Hwf _ Hb] V19].
  split; try done.
  - split; [exact V7| |exact V6|apply Hver|lia|lia]. rewrite Htx, other_slot. exact Hold.
  - intros id es Hid. destruct (Hsubs id es Hid) as (bs&[S1 S2 _]&Hl). split; [lia|by exists bs].
  - apply sorted_le_lt; [apply sort_pgids_sorted|]. rewrite sort_pgids_perm. apply Hwf.
  - intros x Hx. rewrite sort_pgids_perm in Hx. rewrite Forall_forall in Hb. pose proof (Hb x Hx).
    pose proof (proj1 (Forall_forall _ _) (fl_range _ Hwf) x Hx) as Hr. unfold pgid_ok in Hr.
    split; [lia|]. split_and!; [intros ?; by apply (R3 x)|intros ?; by apply (F3 x)|].
    destruct (im_subs im' !! x) as [es|] eqn:E; [|done]. destruct (Hsubs x es E) as (bs&[_ _ S3]&_).
    exfalso. apply (S3 x); [lia|done].
Qed.

(** ** New files *)

(** The file [Init] writes, and its pages. *)
Definition new_image : list byte := match init_pages DEFAULTPAGESIZE with Ok m => m | Err _ => [] end.
Definition new_page (i : nat) : list byte := take 4096 (drop (i * 4096) new_image).

Lemma new_page_image m i : m = new_image -> (i < 4)%nat -> Z.of_nat (length m) = 4 * 4096 ->
  Page_id (new_page i) 0 = Ok (Z.of_nat i) -> Page_overflow (new_page i) 0 = Ok 0 ->
  page_image m 4096 (Z.of_nat i) 1 (new_page i).
Proof.
  unfold new_page. intros <- Hi Hlen Hid Hov.
  assert (length (take 4096 (drop (i * 4096) m)) = 4096)%nat as Hl by (rewrite length_take, length_drop; lia).
  split; [|lia|done|done]. unfold lies_at. rewrite Hl, slice_ok by lia. do 3 f_equal. lia.
Qed.

Lemma new_stored m : init_pages DEFAULTPAGESIZE = Ok m -> new_file DEFAULTPAGESIZE m ->
  stored m (init_meta DEFAULTPAGESIZE 1) (init_meta DEFAULTPAGESIZE 0) (mkImage [] ∅) 1 1 (new_page 3) (new_page 2) [].
Proof.
  intros Hm Hnew. assert (m = new_image) as Hi by (unfold new_image; by rewrite Hm).
  pose proof (nf_length _ _ Hnew) as Hlen. change DEFAULTPAGESIZE with 4096 in Hlen. constructor.
  - exact (new_file_slots m Hnew).
  - apply init_meta_ok; unfold DEFAULTPAGESIZE; lia.
  - change (totalPageNumber_ (init_meta DEFAULTPAGESIZE 1)) with 4. lia.
  - apply (new_page_image m 3 Hi); [lia|lia|vm_compute; reflexivity..].
  - change (2 <= 3 /\ 1 <= 1 /\ 3 + 1 <= 4). lia.
  - apply (new_page_image m 2 Hi); [lia|lia|vm_compute; reflexivity..].
  - change (2 <= 2 /\ 1 <= 1 /\ 2 + 1 <= 4). lia.
  - right. change (2 + 1 <= 3). lia.
  - split; [|split; [vm_compute; reflexivity|done]]. exists leafPageFlag. split; vm_compute; reflexivity.
  - constructor.
  - constructor.
  - intros id es He. cbn in He. by rewrite lookup_empty in He.
  - intros id [es He]. cbn in He. by rewrite lookup_empty in He.
  - assert (Page_count (new_page 2) 0 = Ok 0) as Hc by (vm_compute; reflexivity).
    intros g. unfold FreeList.read. rewrite Hc. reflexivity.
  - constructor.
  - intros x Hx. exfalso. revert Hx. apply not_elem_of_nil.
Qed.

(** ** Opening a file *)

(** A database object that was never opened. *)
Record closed_db (w : World) : Prop := {
  cl_map : w_map w = None;
  cl_file : file_ (w_db w) = 0;
  cl_rwtx : rwtx_ (w_db w) = None;
  cl_writer : mmapWriter_ (w_db w) = false;
  cl_readers : mmapReaders_ (w_db w) = 0%nat;
  cl_list : freeList_ (w_db w) = freeList_new;
  cl_lock : rwLock_ (w_db w) = false;
  cl_txs : txs_ (w_db w) = [];
  cl_readonly : readOnly_ (w_db w) = false;
}.

Section open.
Context `{Env} (opts : Options) (fd : Z).
Hypothesis calls_succeed : forall k, env_syscall k = true.
Hypothesis pwrite_whole : forall k len, env_pwrite k len = len.
Hypothesis writable : ReadOnly opts = false.
Hypothesis map_size : 0 <= InitialMMapSize opts <= 2 ^ 30.
#[local] Set Default Proof Using "All".

(** [Open] from the first page on, of such a file. *)
Lemma open_pages_stored w mt old im np nf pg fl free :
  stored (w_file w) mt old im np nf pg fl free ->
  w_map w = None -> rwtx_ (w_db w) = None -> mmapWriter_ (w_db w) = false -> mmapReaders_ (w_db w) = 0%nat ->
  freeList_ (w_db w) = freeList_new -> filesz_ (w_db w) = Z.of_nat (length (w_file w)) ->
  exists w', open_pages opts w = Ok (0, w') /\ leaf_version w' mt im np nf pg fl /\ w_file w' = w_file w /\
    w_txs w' = w_txs w /\ w_calls w' = replicate 3 OtherCall ++ w_calls w /\
    InitialMMapSize opts <= datasz_ (w_db w') /\ exists f m0 m1 dz,
      pending_ f = ∅ /\ w_db w' = dset_freeList_ f (dset_meta0_ m0 (dset_meta1_ m1
      (dset_datasz_ dz (dset_DB_pageSize_ DEFAULTPAGESIZE (w_db w))))).
Proof.
  intros Hs Hmap Hrw Hwr Hrd Hfl Hsz. destruct (stored_fl_ok _ _ _ _ _ _ _ _ _ Hs) as [Hok Hall].
  destruct Hs as [[S1 S2 S3 S4 S5 S6] Hmt Hcov Hroot Hrr Hfree Hfr Hap Hleaf Hin Hso Hsubs Hsap Hlist _ Hpages].
  assert (FreeList.read (freeList_ (w_db w)) (w_file w) (freeListPageNumber_ mt * 4096) =
    Ok (reindex (mkFreeList free ∅ ∅))) as HF.
  { eapply freelist_read_lift; [apply Hfree|]. rewrite Hfl. apply Hlist. }
  destruct (open_pages_ok calls_succeed pwrite_whole w opts mt old _ ltac:(by split) Hmap Hrw Hwr Hrd Hsz map_size ltac:(lia) HF)
    as (i&w'&Hrun&Hgm&Hi&Hli&Hsi&Hf'&Hm'&Hg'&Htx'&Hcl'&Hdb').
  assert (2 ^ i <= 2 ^ 30) as Hi30 by (apply Z.pow_le_mono_r; lia).
  exists w'. split; [exact Hrun|]. split; [|split_and!; [done|done|done|by rewrite Hdb'|eexists _, _, _, _; by split; [|exact Hdb']]].
  split; rewrite ?Hdb', ?Hf', ?Hg'; cbn; try done; try lia.
  - split; rewrite ?Hf'; try done. rewrite Hdb'. cbn. intros x Hx Hx'%Hall. by destruct (Hpages x Hx') as (_&?&_).
  - split; rewrite ?Hf'; try done. rewrite Hdb'. cbn. intros x Hx Hx'%Hall. by destruct (Hpages x Hx') as (_&_&?&_).
  - intros id es Hid. destruct (Hsubs id es Hid) as (Hr&bs&Hbs&Hl). exists bs. split; [|done].
    split; rewrite ?Hf'; try done; try lia. rewrite Hdb'. cbn. intros x Hx Hx'%Hall. assert (x = id) as -> by lia.
    destruct (Hpages id Hx') as (_&_&_&?). congruence.
Qed.

(** [Open] of a file some process left. *)
Lemma Open_stored w mt old im np nf pg fl free :
  stored (w_file w) mt old im np nf pg fl free -> closed_db w ->
  exists w', Open opts fd w = Ok (0, w') /\ leaf_version w' mt im np nf pg fl /\ idle_db w' [] /\
    mmapWriter_ (w_db w') = false /\ w_file w' = w_file w /\ pending_ (freeList_ (w_db w')) = ∅ /\
    NoSync_ (w_db w') = NoSync_ (w_db w) /\ mmapReaders_ (w_db w') = 0%nat /\ InitialMMapSize opts <= datasz_ (w_db w') /\
    w_calls w' = replicate 6 OtherCall ++ w_calls w /\ AllocSize_ (w_db w') = DEFAULTALLOCSIZE.
Proof.
  intros Hs [C1 C2 C3 C4 C5 C6 C7 C8 C9]. pose proof (ms_length _ _ _ (so_slots _ _ _ _ _ _ _ _ _ Hs)) as Hlen.
  rewrite (Open_begin w opts fd C2) by apply calls_succeed. rewrite calls_succeed.
  set (w3 := begin_open opts fd true w).
  assert (filesz_ (w_db w3) = Z.of_nat (length (w_file w3))) as Hsz by (unfold w3; cbn; rewrite wrap_id; lia).
  rewrite (proj2 (Z.eqb_neq (filesz_ (w_db w3)) 0)) by (rewrite Hsz; change (w_file w3) with (w_file w); lia).
  erewrite bindM_ok by reflexivity. cbn [negb Z.eqb].
  destruct (open_pages_stored w3 mt old im np nf pg fl free) as (w'&Hrun&Hver&Hf&Htx&Hcl&Hsi&(f&m0&m1&dz&Hpend&Hdb)); [done..|].
  exists w'. split; [exact Hrun|]. split; [exact Hver|].
  split; [|split_and!; [by rewrite Hdb|exact Hf|by rewrite Hdb|by rewrite Hdb|by rewrite Hdb|exact Hsi|exact Hcl|by rewrite Hdb]].
  split; rewrite Hdb; cbn; try done.
  - by rewrite writable, C9.
  - by rewrite C8.
Qed.

(** [Open] of an empty file. *)
Lemma Open_new w :
  closed_db w -> w_file w = [] -> env_getpagesize = DEFAULTPAGESIZE ->
  exists w', Open opts fd w = Ok (0, w') /\
    leaf_version w' (init_meta DEFAULTPAGESIZE 1) (mkImage [] ∅) 1 1 (new_page 3) (new_page 2) /\ idle_db w' [] /\
    mmapWriter_ (w_db w') = false /\ InitialMMapSize opts <= datasz_ (w_db w') /\
    stored (w_file w') (init_meta DEFAULTPAGESIZE 1) (init_meta DEFAULTPAGESIZE 0) (mkImage [] ∅) 1 1 (new_page 3) (new_page 2) [] /\
    pending_ (freeList_ (w_db w')) = ∅ /\ NoSync_ (w_db w') = NoSync_ (w_db w) /\ mmapReaders_ (w_db w') = 0%nat /\
    AllocSize_ (w_db w') = DEFAULTALLOCSIZE /\ exists cs, w_calls w' = cs ++ w_calls w /\ forall d, latest d = w_file w -> disk_after cs d = synced (w_file w').
Proof.
  intros [C1 C2 C3 C4 C5 C6 C7 C8 C9] Hf Hps. rewrite (Open_begin w opts fd C2) by apply calls_succeed. rewrite calls_succeed.
  set (w3 := begin_open opts fd true w). assert (w_file w3 = []) as Hf3 by exact Hf.
  assert ((filesz_ (w_db w3) =? 0) = true) as -> by (unfold w3; cbn; by rewrite Hf).
  destruct (Init_ok calls_succeed pwrite_whole w3 Hf3) as (m&w4&Hini&Hm&Hnew&Hf4&Hdb4&Hmap4&_&_&Hcl4); [by rewrite Hps|].
  rewrite Hps in *. erewrite bindM_ok by exact Hini. cbn [negb Z.eqb].
  pose proof (new_stored m Hm Hnew) as Hst. clear Hm. rewrite <-Hf4 in Hst. pose proof (nf_length _ _ Hnew) as Hlen.
  destruct (open_pages_stored w4 _ _ _ _ _ _ _ _ Hst) as (w'&Hrun&Hver&Hf'&_&Hcl&Hsi&(f&m0&m1&dz&Hpend&Hdb)); rewrite ?Hmap4, ?Hdb4, ?Hf4; try done.
  exists w'. split; [exact Hrun|]. split; [exact Hver|].
  split; [|split_and!; [by rewrite Hdb, Hdb4|exact Hsi|by rewrite Hf'|by rewrite Hdb|by rewrite Hdb, Hdb4|by rewrite Hdb, Hdb4|by rewrite Hdb, Hdb4|]].
  2:{ exists (replicate 3 OtherCall ++ [Fsync; Pwrite 0 m] ++ replicate 3 OtherCall). split.
      - by rewrite Hcl, Hcl4.
      - intros d Hd. cbn. rewrite Hd, Hf, Hf', Hf4. unfold synced, file_write. cbn.
        by rewrite drop_ge, app_nil_r by (cbn; lia). }
  split; rewrite Hdb, Hdb4; cbn; try done.
  - by rewrite writable, C9.
  - by rewrite C8.
Qed.
End open.
