(* ===== verification/Session.v ===== *)
(** * Session.v: whole runs of the program

    From an empty file to a database that another process opens: many
    [DB::update]s, one after the other, each running a program of Program.v;
    and what becomes of a callback that uses the bucket it has created. *)
From S2P Require Import Bytes.
From S2P Require Import BinSearch.
From S2P Require Import Page.
From S2P Require Import FreeList.
From S2P Require Import Mvcc.
From S2P Require Import Meta.
From S2P Require Import Node.
From S2P Require Import World.
From S2P Require Import Disk.
From S2P Require Import Pager.
From S2P Require Import Tree.
From S2P Require Import Cursor.
From S2P Require Import Traversal.
From S2P Require Import Image.
From S2P Require Import Alloc.
From S2P Require Import Bucket.
From S2P Require Import Tx.
From S2P Require Import DB.
From S2P Require Import Stage.
From S2P Require Import Spill.
From S2P Require Import Commit.
From S2P Require Import Update.
From S2P Require Import Inline.
From S2P Require Import MapDB.
From S2P Require Import Work.
From S2P Require Import Gather.
From S2P Require Import Program.
From S2P Require Import Reopen.

(** ** Databases that last *)

(** A file the code can map, of at most 1 GB, holds the version. *)
Definition stored_if_small (f : list byte) (mt : meta) (im : image) (np nf : Z) (pg fl : list byte) : Prop :=
  Z.of_nat (length f) <= 2 ^ 30 -> exists old free, stored f mt old im np nf pg fl free.

Lemma committed_stored_if_small w w' f mt mt' im im' k np nf pg fl :
  leaf_version w mt im np nf pg fl -> committed w w' f mt mt' im' k ->
  exists n1 n2 pg' fl', leaf_version w' mt' im' n1 n2 pg' fl' /\ stored_if_small (w_file w') mt' im' n1 n2 pg' fl'.
Proof.
  intros Hver Hcm. destruct (decide (Z.of_nat (length (w_file w')) <= 2 ^ 30)) as [Hle|Hgt].
  - destruct (committed_stored _ _ _ _ _ _ _ _ _ _ _ _ Hver Hcm Hle) as (n1&n2&pg'&fl'&Hv&Hst).
    exists n1, n2, pg', fl'. split; [exact Hv|]. intros _. by eexists _, _.
  - destruct (cm_version _ _ _ _ _ _ _ Hcm) as (n1&n2&pg'&fl'&Hv&_).
    exists n1, n2, pg', fl'. split; [exact Hv|]. by intros ?.
Qed.

(** A new process that opens the file finds the database [m], and readers in
    it read [m]. *)
Definition durable `{Env} (f : list byte) (m : db_map) : Prop :=
  forall opts fd w2, ReadOnly opts = false -> 0 <= InitialMMapSize opts <= 2 ^ 30 ->
  Z.of_nat (length f) <= 2 ^ 30 -> closed_db w2 -> w_file w2 = f ->
  exists w3 mt, Open opts fd w2 = Ok (0, w3) /\ db_at w3 mt m /\ idle_db w3 [] /\ reads_db w3 m.

Section durable.
Context `{OrderLaws}.
Hypothesis calls_succeed : forall k, env_syscall k = true.
Hypothesis pwrite_whole : forall k len, env_pwrite k len = len.
Hypothesis fuel : (2 <= env_fuel)%nat.
#[local] Set Default Proof Using "All".

Lemma stored_durable f mt im np nf pg fl m :
  stored_if_small f mt im np nf pg fl -> represents im m -> fits_db m -> durable f m.
Proof.
  intros Hst Hrep Hfit opts fd w2 Hro Hms Hlen Hcl <-. destruct (Hst Hlen) as (old&free&Hs).
  destruct (Open_stored opts fd calls_succeed pwrite_whole Hro Hms w2 mt old im np nf pg fl free Hs Hcl)
    as (w3&Ho&Hv3&Hi3&Hwr3&_).
  assert (db_at w3 mt m) as Hat by (by exists im, np, nf, pg, fl).
  exists w3, mt. split_and!; try done. apply (db_at_reads w3 mt m Hat); [lia|done|apply Hi3].
Qed.

(** One update on a database that represents [m]. *)
Lemma update_prog w mt mts m p :
  db_at w mt m -> idle_db w mts -> prog_ok p (ta_start m) -> room_for_update w mt (prog_map p m) ->
  txid_ mt + 1 < 2 ^ 64 ->
  exists w' mt' im', update (run_prog p) w = Ok (0, w') /\
    committed w w' (begun_list w mts) mt mt' im' (1 + bigs (prog_map p m)) /\
    represents im' (prog_map p m) /\ idle_db w' mts /\ transactions_kept w w' /\
    db_at w' mt' (prog_map p m) /\ durable (w_file w') (prog_map p m).
Proof.
  intros (im&np&nf&pg&fl&Hver&Hrep&Hfit) Hidle Hok Hroom Htx.
  pose proof (prog_ok_fits p (ta_start m) Hfit Hok) as Hfit'.
  pose proof (prog_writes mt im m fuel Htx Hrep Hfit p Hok) as Hw.
  destruct (update_ok w mt mts im np nf pg fl calls_succeed pwrite_whole fuel Hver Hidle Htx (run_prog p) _ _ Hw Hroom)
    as (w'&mt'&im'&Hrun&Hcm&Hidle'&Hkept&Hrep').
  destruct (committed_stored_if_small _ _ _ _ _ _ _ _ _ _ _ _ Hver Hcm) as (n1&n2&pg'&fl'&Hver'&Hst).
  exists w', mt', im'. split_and!; try done.
  - by exists im', n1, n2, pg', fl'.
  - by eapply stored_durable.
Qed.
End durable.

(** ** Many updates *)

(** One thread running [update] on each callback: what each returns. *)
Fixpoint update_each `{Env} (fns : list (txptr -> M Z)) : M (list Z) :=
  match fns with
  | [] => ret []
  | fn :: fns => r ← update fn; rs ← update_each fns; ret (r :: rs)
  end.

(** What a run of callbacks makes of a map. *)
Definition prog_maps (ps : list db_prog) (m : db_map) : db_map := foldl (fun m p => prog_map p m) m ps.

(** Each may do what it does where its turn comes. *)
Fixpoint progs_ok (ps : list db_prog) (m : db_map) : Prop :=
  match ps with
  | [] => True
  | p :: ps => prog_ok p (ta_start m) /\ progs_ok ps (prog_map p m)
  end.

#[export] Instance progs_ok_dec ps : forall m, Decision (progs_ok ps m).
Proof. induction ps as [|p ps IH]; intros m; cbn [progs_ok]; apply _. Defined.

(** The pages an update that makes the map [m] may take from the end of the
    file, when the database has at most [T]; and those a run of updates may. *)
Definition update_cost (T : Z) (m : db_map) : Z := 1 + bigs m + pages_for (24 + 8 * T).

Fixpoint progs_cost (T : Z) (ps : list db_prog) (m : db_map) : Z :=
  match ps with
  | [] => 0
  | p :: ps => update_cost T (prog_map p m) + progs_cost T ps (prog_map p m)
  end.

Lemma pages_for_mono a b : a <= b -> pages_for a <= pages_for b.
Proof. intros ?. unfold pages_for. pose proof (Z.div_le_mono a b 4096). lia. Qed.

Lemma update_cost_mono T T' m : T <= T' -> update_cost T m <= update_cost T' m.
Proof. intros ?. unfold update_cost. pose proof (pages_for_mono (24 + 8 * T) (24 + 8 * T')). lia. Qed.

Lemma update_cost_pos T m : 0 <= T -> 1 <= update_cost T m.
Proof. intros ?. unfold update_cost, bigs. pose proof (pages_for_pos (24 + 8 * T)). lia. Qed.

Lemma update_cost_room w mt m :
  (totalPageNumber_ mt + update_cost (totalPageNumber_ mt) m + 1) * 4096 <= datasz_ (w_db w) -> room_for_update w mt m.
Proof. unfold room_for_update, has_room, update_cost. lia. Qed.

Lemma progs_cost_length T ps : 0 <= T -> forall m, Z.of_nat (length ps) <= progs_cost T ps m.
Proof.
  intros HT. induction ps as [|p ps IH]; intros m; [done|]. cbn [progs_cost length]. specialize (IH (prog_map p m)).
  pose proof (update_cost_pos T (prog_map p m)). lia.
Qed.

Section many.
Context `{OrderLaws}.
Hypothesis calls_succeed : forall k, env_syscall k = true.
Hypothesis pwrite_whole : forall k len, env_pwrite k len = len.
Hypothesis fuel : (2 <= env_fuel)%nat.
#[local] Set Default Proof Using "All".

Lemma update_progs T mts ps : 0 <= T -> forall m w mt,
  progs_ok ps m -> db_at w mt m -> idle_db w mts -> durable (w_file w) m ->
  txid_ mt + Z.of_nat (length ps) < 2 ^ 64 ->
  totalPageNumber_ mt + progs_cost T ps m <= T -> (T + 1) * 4096 <= datasz_ (w_db w) ->
  exists w' mt', update_each (run_prog <$> ps) w = Ok (replicate (length ps) 0, w') /\
    db_at w' mt' (prog_maps ps m) /\ idle_db w' mts /\ durable (w_file w') (prog_maps ps m).
Proof.
  intros HT. induction ps as [|p ps IH]; intros m w mt Hps Hat Hidle Hdur Htx Hroom Hdz; [by exists w, mt|].
  destruct Hps as (Hok&Hps). cbn [length progs_cost] in *. set (m1 := prog_map p m) in *.
  pose proof (progs_cost_length T ps HT m1) as Hcost. pose proof (update_cost_pos T m1 HT).
  pose proof (update_cost_mono (totalPageNumber_ mt) T m1 ltac:(lia)) as Hc.
  destruct (update_prog calls_succeed pwrite_whole fuel w mt mts m p) as (w1&mt1&im1&Hrun&Hcm&_&Hidle1&_&Hat1&Hdur1);
    [done|done|done|apply update_cost_room; fold m1; lia|lia|].
  pose proof (cm_txid _ _ _ _ _ _ _ Hcm) as Htx1. destruct (cm_db _ _ _ _ _ _ _ Hcm) as (f&fz&Hdb1).
  pose proof (cm_total _ _ _ _ _ _ _ Hcm) as Htot1. fold m1 in Htot1. unfold update_cost in *.
  destruct (IH m1 w1 mt1) as (w'&mt'&Hruns&Hrest); try done; [lia|lia|by rewrite Hdb1|].
  exists w', mt'. split; [|exact Hrest]. cbn [fmap list_fmap update_each].
  erewrite bindM_ok by exact Hrun. cbn beta. by erewrite bindM_ok by exact Hruns.
Qed.
End many.

(** ** Properties *)

(** C5. [DB::update] refines programs over a map of maps.  On a database whose
    current version represents [m], let the callback of an update create
    buckets, put, remove and get, any number of times and deciding on what
    they return: the results are those of the same program on [m], error
    codes and its own writes included; the update returns 0 and leaves a
    database that represents the map the program ends with; readers that begin
    then read exactly that map, through [getBucketByName] and [Bucket::get];
    and it survives the process.  A callback that changes nothing is one of
    them; small buckets live in their entry of the root bucket and larger ones
    on a page of their own, and a bucket moves from one place to the other as
    it grows and shrinks.  Each bucket fits a page and so does the root bucket,
    a bucket is opened before the first one is created, and the mapping has
    room for the new pages. *)
Theorem update_refines_map `{OrderLaws} w mt mts m p :
  (forall k, env_syscall k = true) -> (forall k len, env_pwrite k len = len) -> (2 <= env_fuel)%nat ->
  db_at w mt m -> idle_db w mts -> mmapWriter_ (w_db w) = false ->
  prog_ok p (ta_start m) -> room_for_update w mt (prog_map p m) -> txid_ mt + 1 < 2 ^ 64 ->
  exists w' mt', update (run_prog p) w = Ok (0, w') /\ db_at w' mt' (prog_map p m) /\ idle_db w' mts /\
    reads_db w' (prog_map p m) /\ durable (w_file w') (prog_map p m).
Proof.
  intros Hsys Hpw Hf Hat Hidle Hwr Hok Hroom Htx.
  destruct (update_prog Hsys Hpw Hf w mt mts m p) as (w'&mt'&im'&Hrun&Hcm&_&Hidle'&_&Hat'&Hdur); try done.
  destruct (cm_db _ _ _ _ _ _ _ Hcm) as (f&fz&Hdb).
  exists w', mt'. split_and!; try done. apply (db_at_reads w' mt' _ Hat'); [lia|by rewrite Hdb|apply Hidle'].
Qed.

(** C3. Writers make progress, and what they write lasts.  In a database
    created by [Open] of an empty file, a run of any length of updates, each a
    program as in [update_refines_map], returns 0 every time: no update waits
    for the lock of the one before it.  A new process that opens the file and
    begins a read transaction reads what the programs make of the
    empty map (buckets as in [update_refines_map]; the mapping large enough for
    the pages the updates may take). *)
Theorem session_progress `{OrderLaws} opts fd w ps T :
  (forall k, env_syscall k = true) -> (forall k len, env_pwrite k len = len) -> (2 <= env_fuel)%nat ->
  env_getpagesize = DEFAULTPAGESIZE -> ReadOnly opts = false -> 0 <= InitialMMapSize opts <= 2 ^ 30 ->
  closed_db w -> w_file w = [] -> progs_ok ps ∅ -> 0 <= T ->
  4 + progs_cost T ps ∅ <= T -> (T + 1) * 4096 <= InitialMMapSize opts ->
  exists w1 w', Open opts fd w = Ok (0, w1) /\
    update_each (run_prog <$> ps) w1 = Ok (replicate (length ps) 0, w') /\
    (Z.of_nat (length (w_file w')) <= 2 ^ 30 -> forall w2, closed_db w2 -> w_file w2 = w_file w' ->
     exists w3, Open opts fd w2 = Ok (0, w3) /\ reads_db w3 (prog_maps ps ∅)).
Proof.
  intros Hsys Hpw Hf Hps Hro Hms Hcl Hempty Hok HT Hroom Hmap.
  destruct (Open_new opts fd Hsys Hpw Hro Hms w Hcl Hempty Hps) as (w1&Ho&Hver&Hidle&_&Hdz&Hst&_).
  assert (fits_db ∅) as Hfit by (split; [apply map_Forall_empty|vm_compute; done]).
  destruct (update_progs Hsys Hpw Hf T [] ps HT ∅ w1 (init_meta DEFAULTPAGESIZE 1)) as (w'&mt'&Hrun&_&_&Hdur); try done.
  - by exists (mkImage [] ∅), 1, 1, (new_page 3), (new_page 2).
  - eapply (stored_durable Hsys Hpw Hf); [|exact represents_empty|exact Hfit]. intros _. by eexists _, _.
  - pose proof (progs_cost_length T ps HT ∅). cbn. lia.
  - lia.
  - exists w1, w'. split; [exact Ho|]. split; [exact Hrun|]. intros Hsmall w2 Hcl2 Hf2.
    destruct (Hdur opts fd w2 Hro Hms Hsmall Hcl2 Hf2) as (w3&mt3&Ho3&_&_&Hrd). by exists w3.
Qed.

(** The callback that runs [p], makes the bucket [name] and goes on with it, as
    callers of [createBucket] do: -1 when there is none. *)
Definition create_and_use `{Env} (p : db_prog) (name : Item) (use : bptr -> M Z) (t : txptr) : M Z :=
  _ ← run_prog p t;
  c ← Tx_createBucket t name;
  match c with Some c => use c | None => ret (-1) end.

(** C36. The bucket a caller gets from [createBucket] cannot be used.  In an
    update on a database that represents [m], after any run of calls, creating
    a bucket of a new name returns a bucket whose inline page pointed into the
    value that [putEmptyBucket] copied and freed: [get], [put], [remove],
    every cursor's [seek], [first] and [last], [for_each], and opening or
    creating a bucket inside it all read freed memory.  So an update whose
    callback makes one of these calls next does not return.  (Keys and values
    that the code refuses before it looks for the bucket's page are left out.
    The bucket may be the first one the transaction creates or a later one, on
    a root bucket that is still on its page or already in memory; the root
    bucket is a leaf.) *)
Theorem createBucket_page_dangles `{OrderLaws} w mt mts m p name :
  (2 <= env_fuel)%nat -> db_at w mt m -> idle_db w mts -> txid_ mt + 1 < 2 ^ 64 ->
  prog_ok p (ta_start m) -> prog_map p m !! data_ name = None ->
  Item_wf name -> 0 < length_ name -> fits_db (<[data_ name := ∅]> (prog_map p m)) ->
  let t := fresh_key (w_txs w) in
  exists c w2 w3, run_prog p t (update_world w mt mts) = Ok (0, w2) /\ Tx_createBucket t name w2 = Ok (Some c, w3) /\
    unusable w3 c /\
    forall use f, use c w3 = Err f -> update (create_and_use p name use) w = Err f.
Proof.
  intros Hf (im&np&nf&pg&fl&Hver&Hrep&Hfit) [Hop Hwr Hlk Hrw Hal Hrd] Htx Hok Hnone Hname Hpos Hnew t.
  destruct (beginRWTx_world w mt mts Hwr Hlk Hop (ve_current _ _ _ _ _ _ _ Hver) Hrd) as (w0&Hbegin&Hman). fold t in Hbegin, Hman.
  set (w1 := update_world w mt mts) in *.
  assert (leaf_version w1 mt im np nf pg fl) as Hver1.
  { apply (leaf_version_same w); [by split|apply begin_freelist_ok, Hver|intros x; cbn; by rewrite begin_freelist_pages|done]. }
  assert (fresh_write_tx w1 t (fresh_key (w_buckets w)) mt) as Hfw.
  { split; [done|apply tx_of_with|]. unfold bucket_of. cbn. apply the_ok, lookup_insert_eq. }
  pose proof (fresh_models mt im m Hf Htx Hrep Hfit w1 t _ np nf pg fl Hver1 Hfw) as Hst.
  destruct (prog_models t _ mt im np nf pg fl Hf p w1 _ Hst Hok) as (w2&Hrun&Hst2&_).
  destruct (create_unusable t _ mt im np nf pg fl Hf w2 _ name Hst2 Hname Hpos Hnone Hnew) as (c&w3&Hc&Hun).
  exists c, w2, w3. split_and!; try done. intros use f Huse.
  unfold update. erewrite bindM_ok by exact Hbegin. cbn beta iota. erewrite bindM_ok by exact Hman. cbn beta.
  apply bindM_err. unfold create_and_use. erewrite bindM_ok by exact Hrun. cbn beta. by erewrite bindM_ok by exact Hc.
Qed.

(** ** Witnesses: a new database, and two buckets *)

#[export] Instance sample_laws : OrderLaws (H:=sample_env).
Proof. by split. Qed.

Definition ex_opts : Options :=
  {| timeout := 0; NoGrowSync := false; ReadOnly := false; MmapFlags := 0; InitialMMapSize := 131072 |}.
Definition ex_a : Item := Item_of_string [Byte.x61].
Definition ex_b : Item := Item_of_string [Byte.x62].
Definition ex_c : Item := Item_of_string [Byte.x63].

(** The database [Open] creates. *)
Definition ex_session : World :=
  match Open (H:=sample_env) ex_opts 3 ex_closed with Ok (_, w) => w | Err _ => empty_world end.

Lemma ex_closed_db : closed_db ex_closed.
Proof. by split. Qed.

Lemma ex_session_ok :
  leaf_version ex_session (init_meta DEFAULTPAGESIZE 1) (mkImage [] ∅) 1 1 (new_page 3) (new_page 2) /\ idle_db ex_session [] /\
  mmapWriter_ (w_db ex_session) = false /\ 131072 <= datasz_ (w_db ex_session).
Proof.
  destruct (Open_new (H:=sample_env) ex_opts 3 ltac:(done) ltac:(done) eq_refl ltac:(cbn; lia) ex_closed ex_closed_db eq_refl eq_refl)
    as (w'&Hrun&Hver&Hidle&Hwr&Hdz&_).
  unfold ex_session. rewrite Hrun. split_and!; [exact Hver|exact Hidle|exact Hwr|exact Hdz].
Qed.

Lemma ex_session_room k : k <= 20 -> has_room ex_session (init_meta DEFAULTPAGESIZE 1) k.
Proof.
  intros Hk. destruct ex_session_ok as (_&_&_&Hdz). unfold has_room.
  change (totalPageNumber_ (init_meta DEFAULTPAGESIZE 1)) with 4.
  assert (pages_for (24 + 8 * 4) = 1) as -> by done. lia.
Qed.

Lemma ex_session_at : db_at ex_session (init_meta DEFAULTPAGESIZE 1) ∅.
Proof.
  destruct ex_session_ok as (Hver&_). exists (mkImage [] ∅), 1, 1, (new_page 3), (new_page 2).
  split; [exact Hver|]. split; [exact represents_empty|]. apply (bool_decide_unpack _). vm_compute. exact I.
Qed.

(** Callbacks that make two buckets; put keys in them, and what is read back
    from one in the other; remove a key, and look for a bucket that is not
    there; fill a bucket beyond what is stored in its entry; and change nothing. *)
Definition ex_create : db_prog := do_all [Create ex_a; Create ex_b].
Definition ex_copy : db_prog :=
  Do (Put ex_b ex_a ex_a) (fun _ => Do (Put ex_a ex_b ex_a) (fun _ => Do (Put ex_a ex_a ex_b) (fun _ =>
    Get ex_a ex_b (fun v => match v with Some v => Do (Put ex_b ex_b v) (fun _ => Done) | None => Done end)))).
Definition ex_remove : db_prog :=
  Do (Remove ex_a ex_b) (fun _ => Do (Remove ex_c ex_a) (fun r => if r =? 0 then Done else do_all [Create ex_a])).
Definition ex_long : Item := Item_of_string (replicate 1100 Byte.x63).
Definition ex_grow : db_prog := do_all [Put ex_a ex_b ex_long].
Definition ex_look : db_prog := Get ex_a ex_b (fun v => if decide (v = Some ex_long) then Done else do_all [Remove ex_a ex_b]).
Definition ex_progs : list db_prog := [ex_create; ex_copy; ex_remove; ex_grow; ex_look].

(** In the end one bucket has a page of its own. *)
Example ex_progs_result :
  prog_maps ex_progs ∅ = {[data_ ex_a := {[data_ ex_a := ex_b; data_ ex_b := ex_long]};
                           data_ ex_b := {[data_ ex_a := ex_a; data_ ex_b := ex_a]}]} /\
  bigs (prog_maps ex_progs ∅) = 1.
Proof. split; [apply (bool_decide_unpack _); vm_compute; exact I|vm_compute; reflexivity]. Qed.

Lemma update_refines_map_witness :
  exists w' mt', update (H:=sample_env) (run_prog (H:=sample_env) ex_create) ex_session = Ok (0, w') /\
    db_at w' mt' {[data_ ex_a := ∅; data_ ex_b := ∅]} /\ reads_db (H:=sample_env) w' {[data_ ex_a := ∅; data_ ex_b := ∅]}.
Proof.
  destruct ex_session_ok as (_&Hidle&Hwr&Hdz).
  destruct (update_refines_map (H:=sample_env) ex_session (init_meta DEFAULTPAGESIZE 1) [] ∅ ex_create)
    as (w'&mt'&Hrun&Hat&_&Hrd&_).
  - done.
  - done.
  - cbn. lia.
  - exact ex_session_at.
  - exact Hidle.
  - exact Hwr.
  - apply (bool_decide_unpack _). vm_compute. exact I.
  - apply ex_session_room. vm_compute. discriminate.
  - cbn. lia.
  - assert (prog_map ex_create ∅ = {[data_ ex_a := ∅; data_ ex_b := ∅]}) as He
      by (apply (bool_decide_unpack _); vm_compute; exact I).
    rewrite He in Hat, Hrd. exists w', mt'. split; [exact Hrun|]. split; [exact Hat|exact Hrd].
Defined.

Lemma createBucket_page_dangles_witness :
  update (H:=sample_env) (create_and_use (H:=sample_env) ex_create ex_c (fun c => Bucket_put (H:=sample_env) c ex_a ex_b)) ex_session
    = Err UseAfterFree.
Proof.
  destruct ex_session_ok as (_&Hidle&_&_).
  destruct (createBucket_page_dangles (H:=sample_env) ex_session (init_meta DEFAULTPAGESIZE 1) [] ∅ ex_create ex_c)
    as (c&w2&w3&_&_&Hun&Huse).
  - cbn. lia.
  - exact ex_session_at.
  - exact Hidle.
  - cbn. lia.
  - apply (bool_decide_unpack _). vm_compute. exact I.
  - vm_compute. reflexivity.
  - by split.
  - done.
  - apply (bool_decide_unpack _). vm_compute. exact I.
  - apply Huse, (un_put (H:=sample_env) _ _ Hun); vm_compute; try done; split; done.
Defined.

Lemma session_progress_witness :
  exists w1 w', Open (H:=sample_env) ex_opts 3 ex_closed = Ok (0, w1) /\
    update_each (H:=sample_env) (run_prog (H:=sample_env) <$> ex_progs) w1 = Ok ([0; 0; 0; 0; 0], w').
Proof.
  destruct (session_progress (H:=sample_env) ex_opts 3 ex_closed ex_progs 16) as (w1&w'&Ho&Hrun&_).
  - done.
  - done.
  - cbn. lia.
  - done.
  - done.
  - cbn. lia.
  - exact ex_closed_db.
  - done.
  - apply (bool_decide_unpack _). vm_compute. exact I.
  - done.
  - vm_compute. discriminate.
  - vm_compute. discriminate.
  - exists w1, w'. split; [exact Ho|exact Hrun].
Defined.
