(* ===== verification/Crash.v ===== *)
(** * Crash.v: updates across crashes

    The order in which a commit writes and syncs (Commit.v, [commit_calls])
    against the disk of Disk.v: whenever the machine stops, the file it leaves
    holds the map of before the update, or the map it makes; and processes
    that run one after the other on one file. *)
From S2P Require Import Bytes.
From S2P Require Import BinSearch.
From S2P Require Import Page.
From S2P Require Import FreeList.
From S2P Require Import Mvcc.
From S2P Require Import Meta.
From S2P Require Import Node.
From S2P Require Import World.
From S2P Require Import Disk.
From S2P Require Import Pager.
From S2P Require Import Tree.
From S2P Require Import Cursor.
From S2P Require Import Traversal.
From S2P Require Import Image.
From S2P Require Import Alloc.
From S2P Require Import Bucket.
From S2P Require Import Tx.
From S2P Require Import DB.
From S2P Require Import Stage.
From S2P Require Import Spill.
From S2P Require Import Commit.
From S2P Require Import Update.
From S2P Require Import Inline.
From S2P Require Import MapDB.
From S2P Require Import Work.
From S2P Require Import Gather.
From S2P Require Import Program.
From S2P Require Import Reopen.
From S2P Require Import Session.

(** ** What a version needs of a file *)

(** The bytes of [f] at [o] are in [f'] too. *)
Definition keeps (f f' : list byte) (o n : Z) : Prop := forall x, slice f o n = Ok x -> slice f' o n = Ok x.

(** A file with the meta records and the pages of a version stores it. *)
Lemma stored_kept f f' mt old im np nf pg fl free :
  stored f mt old im np nf pg fl free ->
  keeps f f' (0 * 4096 + PAGEHEADERSIZE) METASIZE -> keeps f f' (1 * 4096 + PAGEHEADERSIZE) METASIZE ->
  keeps f f' (root (root_ mt) * 4096) (np * 4096) -> keeps f f' (freeListPageNumber_ mt * 4096) (nf * 4096) ->
  (forall id es, im_subs im !! id = Some es -> keeps f f' (id * 4096) (1 * 4096)) ->
  totalPageNumber_ mt * 4096 <= Z.of_nat (length f') -> 8192 <= Z.of_nat (length f') <= 2 ^ 30 ->
  stored f' mt old im np nf pg fl free.
Proof.
  intros [[S1 S2 S3 S4 S5 S6] S7 S8 S9 S10 S11 S12 S13 S14 S15 S16 Ssub Ssap S17 S18 S19] K0 K1 Kr Kf Ks Hcov Hlen.
  assert (forall s mt0, s = 0 \/ s = 1 -> meta_read f (s * 4096 + PAGEHEADERSIZE) = Ok mt0 ->
    meta_read f' (s * 4096 + PAGEHEADERSIZE) = Ok mt0) as Hslot.
  { intros s mt0 Hs Hm. eapply (meta_read_kept f); [|unfold PAGEHEADERSIZE, METASIZE; lia..|exact Hm].
    by destruct Hs as [-> | ->]. }
  pose proof (Z.mod_pos_bound (txid_ mt) 2 ltac:(lia)).
  split; try done.
  - split; try done; apply Hslot; done || lia.
  - by apply (page_image_kept f); [apply Kr|].
  - by apply (page_image_kept f); [apply Kf|].
  - intros id es Hid. destruct (Ssub id es Hid) as (Hr&bs&Hbs&Hl). split; [done|]. exists bs. split; [|done].
    apply (page_image_kept f); [by eapply Ks|done].
Qed.

(** ** While the meta page is written *)

(** Between the start of the write of a meta page and the sync after it, the
    disk has one record or the other in the page's slot, and everything else
    as it is. *)
Lemma torn_slot f slot tmp f' :
  0 <= slot -> Z.of_nat (length tmp) = 4096 -> (slot + 1) * 4096 <= Z.of_nat (length f) ->
  let new := file_write f (slot * 4096) tmp in
  crash_image {| latest := new; pending := [f] |} f' ->
  length f' = length f /\
  (forall o n, o + n <= slot * 4096 \/ (slot + 1) * 4096 <= o -> keeps f f' o n /\ keeps new f' o n) /\
  (keeps f f' (slot * 4096 + PAGEHEADERSIZE) METASIZE \/ keeps new f' (slot * 4096 + PAGEHEADERSIZE) METASIZE).
Proof.
  intros Hs Ht Hl new Hc. pose proof (file_write_length_eq f (slot * 4096) tmp ltac:(lia)) as Hnew. fold new in Hnew.
  assert (forall s, s ∈ possible {| latest := new; pending := [f] |} -> s = new \/ s = f) as Hin.
  { intros s. change (possible _) with [new; f]. rewrite !elem_of_cons, elem_of_nil. tauto. }
  assert (length f' = length f) as Hlen.
  { destruct (ci_length _ _ Hc) as (s&[-> | ->]%Hin&->); lia. }
  assert (forall o n x, o + n <= slot * 4096 \/ (slot + 1) * 4096 <= o -> slice f o n = Ok x ->
    slice new o n = Ok x /\ slice f' o n = Ok x) as Hboth.
  { intros o n x Ho Hx. assert (slice new o n = Ok x) by (apply file_write_slice_other; [lia|done|lia]).
    split; [done|]. apply (crash_slice _ _ _ _ _ Hc). by intros s [-> | ->]%Hin. }
  split; [exact Hlen|]. split.
  - intros o n Ho. split; intros x Hx; [by apply Hboth|].
    apply slice_inv in Hx as Hb. destruct (slice f o n) as [y|] eqn:Hy; [|by rewrite slice_ok in Hy by lia].
    destruct (Hboth o n y Ho Hy) as [Hy1 Hy2]. congruence.
  - destruct (crash_sector _ _ (slot * 4096 + PAGEHEADERSIZE) METASIZE Hc) as (s&[-> | ->]%Hin&Hk);
      unfold PAGEHEADERSIZE, METASIZE in *; try lia; [|by right|by left].
    change (Z.of_nat SECTOR) with 512. replace (slot * 4096 + 16) with (16 + slot * 8 * 512) by lia.
    rewrite Z.mod_add by lia. vm_compute. discriminate.
Qed.

(** ** At any moment of a commit *)

Lemma suffix_cons_cases {A} (x : A) l l' : l `suffix_of` x :: l' -> l = x :: l' \/ l `suffix_of` l'.
Proof. destruct l as [|y l]; [right; apply suffix_nil|apply suffix_cons_inv]. Qed.

Lemma call_keeps_inside c o n o' n' : call_keeps o n c -> o <= o' -> o' + n' <= o + n -> call_keeps o' n' c.
Proof. intros Hc H1 H2. destruct c; cbn in *; lia. Qed.

Section commit.
Context (w w' : World) (fr : freeList) (mt mt' : meta) (im im' : image).
Context (np nf n1 n2 : Z) (pg fl pg' fl' : list byte).
Hypothesis before : leaf_version w mt im np nf pg fl.
Hypothesis after : leaf_version w' mt' im' n1 n2 pg' fl'.
Hypothesis same_pages : forall x, x ∈ ids_ fr -> x ∈ all_pages (freeList_ (w_db w)).
Hypothesis stored_before : stored_if_small (w_file w) mt im np nf pg fl.
Hypothesis stored_after : stored_if_small (w_file w') mt' im' n1 n2 pg' fl'.
Context (cs : list call) (tmp : list byte).
Hypothesis calls : commit_calls w w' (txid_ mt' mod 2) cs tmp.
Hypothesis slots_kept : Forall (call_keeps 0 8192) cs.
Hypothesis pages_kept : forall p n, 2 <= p -> 1 <= n -> p + n <= totalPageNumber_ mt ->
  (forall x, p <= x < p + n -> x ∉ ids_ fr) -> Forall (call_keeps (p * 4096) (n * 4096)) cs.
Let slot := txid_ mt' mod 2.
#[local] Set Default Proof Using "All".

Lemma slot_range : slot = 0 \/ slot = 1.
Proof. pose proof (Z.mod_pos_bound (txid_ mt') 2 ltac:(lia)). unfold slot. lia. Qed.

(** A file that kept the meta records, and what the page writes keep of the
    rest, stores the old version. *)
Lemma old_version f :
  (forall s, s = 0 \/ s = 1 -> keeps (w_file w) f (s * 4096 + PAGEHEADERSIZE) METASIZE) ->
  (forall o n, 8192 <= o -> Forall (call_keeps o n) cs -> keeps (w_file w) f o n) ->
  Z.of_nat (length (w_file w)) <= Z.of_nat (length f) <= 2 ^ 30 -> stored_if_small f mt im np nf pg fl.
Proof.
  intros Hs Hk Hl _. destruct stored_before as (old&free&Hst); [lia|]. exists old, free.
  destruct before as [_ _ _ _ _ _ _ _ _ V10 _ [_ R2 R3] [_ F2 F3] _ _ _ _ Hsubs _ _ V19].
  assert (forall p n, 2 <= p /\ 1 <= n /\ p + n <= totalPageNumber_ mt ->
    (forall x, p <= x < p + n -> x ∉ all_pages (freeList_ (w_db w))) -> keeps (w_file w) f (p * 4096) (n * 4096)) as Hpage.
  { intros p n (?&?&?) Hx. apply Hk, pages_kept; try done; [lia|]. intros x Hr Hin%same_pages. by apply (Hx x). }
  apply (stored_kept (w_file w)); [exact Hst|apply Hs; by left|apply Hs; by right|by apply Hpage|by apply Hpage| |lia|lia].
  intros id es Hid. destruct (Hsubs id es Hid) as (bs&[_ S2 S3]&_). by apply Hpage.
Qed.

(** Before the meta page is written, the file stores the old version. *)
Lemma early_version cs' f :
  cs' `suffix_of` Fsync :: cs -> crash_image (disk_after cs' (synced (w_file w))) f ->
  Z.of_nat (length f) <= 2 ^ 30 -> stored_if_small f mt im np nf pg fl.
Proof.
  intros [pre Hpre] Hc Hlen. destruct calls as [_ _ Hgr _].
  assert (forall P, P Fsync -> Forall P cs -> Forall P cs') as Hall.
  { intros P H1 H2. assert (Forall P (pre ++ cs')) as H3 by (rewrite <-Hpre; by constructor). by apply Forall_app in H3 as [_ ?]. }
  assert (forall o n, Forall (call_keeps o n) cs -> keeps (w_file w) f o n) as Hk.
  { intros o n Ho x Hx. eapply crash_keeps; [exact Hc|by apply Hall|exact Hx]. }
  apply old_version; [|by auto|].
  - intros s Hs. apply Hk. eapply Forall_impl; [exact slots_kept|]. intros c Hcall.
    eapply call_keeps_inside; [exact Hcall|..]; unfold PAGEHEADERSIZE, METASIZE; lia.
  - split; [|done]. eapply crash_grows; [exact Hc|by apply Hall|done].
Qed.

(** While the meta page is written, the file stores one of the two versions. *)
Lemma either_version f :
  crash_image {| latest := w_file w'; pending := [replay cs (w_file w)] |} f ->
  Z.of_nat (length f) <= 2 ^ 30 ->
  stored_if_small f mt im np nf pg fl \/ stored_if_small f mt' im' n1 n2 pg' fl'.
Proof.
  intros Hc Hlen. destruct calls as [_ Hpg Hgr Hfile]. fold slot in Hfile. pose proof slot_range as Hslot.
  pose proof (ve_file _ _ _ _ _ _ _ before) as Hfw. pose proof (replay_grows cs (w_file w) _ Hgr (Z.le_refl _)) as Hgrow.
  rewrite Hfile in Hc. destruct (torn_slot (replay cs (w_file w)) slot tmp f ltac:(lia) Hpg ltac:(lia) Hc) as (Hl&Hout&Hin).
  rewrite <-Hfile in Hout, Hin. assert (length (w_file w') = length f) as Hl'.
  { rewrite Hfile, Hl. apply Nat2Z.inj. rewrite file_write_length_eq by lia. lia. }
  assert (forall g, (forall o n, o + n <= slot * 4096 \/ (slot + 1) * 4096 <= o -> keeps g f o n) ->
    keeps g f (slot * 4096 + PAGEHEADERSIZE) METASIZE ->
    forall s, s = 0 \/ s = 1 -> keeps g f (s * 4096 + PAGEHEADERSIZE) METASIZE) as Hmeta.
  { intros g Ho Hs s Hs01. destruct (decide (s = slot)) as [->|]; [done|]. apply Ho. unfold PAGEHEADERSIZE, METASIZE. lia. }
  destruct Hin as [Hin|Hin].
  - left. pose proof (Hmeta _ (fun o n H => proj1 (Hout o n H)) Hin) as Hs. apply old_version; [|..|lia].
    + intros s Hs01 x Hx. apply Hs; [done|]. apply replay_keeps; [|done]. eapply Forall_impl; [exact slots_kept|].
      intros c Hcall. eapply call_keeps_inside; [exact Hcall|..]; unfold PAGEHEADERSIZE, METASIZE; lia.
    + intros o n Ho Hk x Hx. apply (proj1 (Hout o n ltac:(lia))). by apply replay_keeps.
  - right. intros _. destruct stored_after as (old&free&Hst); [lia|]. exists old, free.
    pose proof (Hmeta _ (fun o n H => proj2 (Hout o n H)) Hin) as Hs.
    destruct after as [_ _ _ _ _ _ _ _ _ V10 _ [_ R2 R3] [_ F2 F3] _ _ _ _ Hsubs _ _ V19].
    apply (stored_kept (w_file w')); [exact Hst|apply Hs; by left|apply Hs; by right|apply Hout; lia|apply Hout; lia| |lia|lia].
    intros id es Hid. destruct (Hsubs id es Hid) as (bs&[_ S2 _]&_). apply Hout. lia.
Qed.

(** Whenever the machine stops. *)
Lemma commit_crash cs' cs0 f :
  NoSync_ (w_db w) = false -> w_calls w' = cs0 ++ w_calls w -> cs' `suffix_of` cs0 ->
  crash_image (disk_after cs' (synced (w_file w))) f -> Z.of_nat (length f) <= 2 ^ 30 ->
  stored_if_small f mt im np nf pg fl \/ stored_if_small f mt' im' n1 n2 pg' fl'.
Proof.
  intros Hsync Hcs0 Hsuf Hc Hlen. pose proof calls as [Hcalls _ _ Hfile]. fold slot in Hfile. rewrite Hcs0 in Hcalls.
  apply app_inv_tail in Hcalls as ->. unfold syncs in Hsuf. rewrite Hsync in Hsuf. cbn [app] in Hsuf.
  apply suffix_cons_cases in Hsuf as [->|Hsuf]; [|apply suffix_cons_cases in Hsuf as [->|Hsuf]; [|left; by eapply early_version]].
  - right. change (disk_after (Fsync :: ?cs1) ?d) with (synced (latest (disk_after cs1 d))) in Hc.
    apply crash_synced in Hc as ->. rewrite latest_after. change (replay _ _) with (file_write (replay cs (w_file w)) (slot * 4096) tmp).
    by rewrite <-Hfile.
  - apply either_version; [|done]. rewrite Hfile.
    change (disk_after _ _) with {| latest := file_write (latest (disk_after cs (synced (w_file w)))) (slot * 4096) tmp;
      pending := [latest (disk_after cs (synced (w_file w)))] |} in Hc.
    by rewrite latest_after in Hc.
Qed.
End commit.

(** ** Databases on a disk *)

(** The file [f] holds the map [m], in a database of at most [T] pages after
    at most [n] transactions; a file that is empty will. *)
Definition holds_db (n T : Z) (f : list byte) (m : db_map) : Prop :=
  f = [] /\ m = ∅ /\ 1 <= n /\ 4 <= T \/
  exists mt old im np nf pg fl free, stored f mt old im np nf pg fl free /\ represents im m /\ fits_db m /\
    txid_ mt <= n /\ totalPageNumber_ mt <= T.

Lemma stored_holds n T f mt im np nf pg fl m :
  stored_if_small f mt im np nf pg fl -> Z.of_nat (length f) <= 2 ^ 30 -> represents im m -> fits_db m ->
  txid_ mt <= n -> totalPageNumber_ mt <= T -> holds_db n T f m.
Proof. intros Hst Hl Hr Hf Hn HT. destruct (Hst Hl) as (old&free&?). right. by exists mt, old, im, np, nf, pg, fl, free. Qed.

(** The database [w] is on the version [mt], which represents [m], and so is
    its file. *)
Definition lasting (w : World) (mt : meta) (m : db_map) : Prop :=
  exists im np nf pg fl, leaf_version w mt im np nf pg fl /\ represents im m /\ fits_db m /\
    stored_if_small (w_file w) mt im np nf pg fl.

Lemma lasting_at w mt m : lasting w mt m -> db_at w mt m.
Proof. intros (im&np&nf&pg&fl&Hver&Hrep&Hfit&_). by exists im, np, nf, pg, fl. Qed.

(** All that was written is on the disk, which held [f] at first. *)
Definition settled (f : list byte) (w : World) : Prop := disk_after (w_calls w) (synced f) = synced (w_file w).

(** At each moment between [w] and [w'], a crash leaves one of the maps [m]
    and [m']. *)
Definition crash_safe (n T : Z) (w w' : World) (m m' : db_map) : Prop :=
  forall f0 cs f, settled f0 w -> w_calls w `suffix_of` cs -> cs `suffix_of` w_calls w' ->
  crash_image (disk_after cs (synced f0)) f -> Z.of_nat (length f) <= 2 ^ 30 -> holds_db n T f m \/ holds_db n T f m'.

Lemma holds_db_mono n n' T T' f m : holds_db n T f m -> n <= n' -> T <= T' -> holds_db n' T' f m.
Proof.
  intros [(?&?&?&?)|(mt&old&im&np&nf&pg&fl&free&?&?&?&?&?)] Hn HT; [left; split_and!; done || lia|].
  right. exists mt, old, im, np, nf, pg, fl, free. split_and!; done || lia.
Qed.

Lemma crash_safe_mono n n' T T' w w' m m' :
  crash_safe n T w w' m m' -> n <= n' -> T <= T' -> crash_safe n' T' w w' m m'.
Proof.
  intros Hc Hn HT f0 cs f H1 H2 H3 H4 H5. destruct (Hc f0 cs f H1 H2 H3 H4 H5); [left|right]; by apply (holds_db_mono n _ T).
Qed.

Section lasting.
Context `{OrderLaws}.
Hypothesis calls_succeed : forall k, env_syscall k = true.
Hypothesis pwrite_whole : forall k len, env_pwrite k len = len.
Hypothesis fuel : (2 <= env_fuel)%nat.
#[local] Set Default Proof Using "All".

(** One update: it lasts, and a crash on the way loses at most all of it. *)
Lemma update_lasting w mt mts m p :
  lasting w mt m -> idle_db w mts -> NoSync_ (w_db w) = false -> prog_ok p (ta_start m) ->
  room_for_update w mt (prog_map p m) -> txid_ mt + 1 < 2 ^ 64 ->
  let T := totalPageNumber_ mt + update_cost (totalPageNumber_ mt) (prog_map p m) in
  exists w' mt', update (run_prog p) w = Ok (0, w') /\ lasting w' mt' (prog_map p m) /\ idle_db w' mts /\
    NoSync_ (w_db w') = false /\ datasz_ (w_db w') = datasz_ (w_db w) /\
    txid_ mt' = txid_ mt + 1 /\ totalPageNumber_ mt' <= T /\ AllocSize_ (w_db w') = AllocSize_ (w_db w) /\
    at_most (w_file w) (w_file w') ((totalPageNumber_ mt' + 1) * 4096 + AllocSize_ (w_db w)) /\
    w_calls w `suffix_of` w_calls w' /\ (forall f0, settled f0 w -> settled f0 w') /\
    crash_safe (txid_ mt') T w w' m (prog_map p m).
Proof.
  intros Hlast Hidle Hsync Hok Hroom Htx T. pose proof Hlast as (im&np&nf&pg&fl&Hver&Hrep&Hfit&Hst).
  pose proof (prog_ok_fits p (ta_start m) Hfit Hok) as Hfit'. fold (prog_map p m) in Hfit'.
  destruct (update_prog calls_succeed pwrite_whole fuel w mt mts m p) as (w'&mt'&im'&Hrun&Hcm&Hrep'&Hidle'&_);
    try done; [by apply lasting_at|].
  destruct (committed_stored_if_small _ _ _ _ _ _ _ _ _ _ _ _ Hver Hcm) as (n1&n2&pg'&fl'&Hver'&Hst').
  pose proof (cm_txid _ _ _ _ _ _ _ Hcm) as Htx'. destruct (cm_db _ _ _ _ _ _ _ Hcm) as (f1&fz&Hdb).
  destruct (cm_calls _ _ _ _ _ _ _ Hcm) as (cs&tmp&Hcalls&Hslots&Hpages).
  pose proof Hcalls as [Hcs _ _ Hfile]. set (cs0 := syncs _ ++ _) in Hcs.
  assert (totalPageNumber_ mt' <= T) as HT by (pose proof (cm_total _ _ _ _ _ _ _ Hcm); unfold T, update_cost; lia).
  exists w', mt'. split; [exact Hrun|]. split; [by exists im', n1, n2, pg', fl'|].
  split; [done|]. do 2 (split; [by rewrite Hdb|]). do 2 (split; [done|]). split; [by rewrite Hdb|]. split; [apply Hcm|].
  split; [by exists cs0|]. split.
  - intros f0 Hset. unfold settled in *. rewrite Hcs, disk_after_app, Hset. unfold cs0, syncs. rewrite Hsync. cbn [app].
    change (disk_after (Fsync :: ?cs1) ?d) with (synced (latest (disk_after cs1 d))). rewrite latest_after.
    by rewrite Hfile.
  - intros f0 cs1 f Hset [pre1 ->] Hsuf Hc Hlen. rewrite Hcs in Hsuf.
    rewrite disk_after_app, Hset in Hc.
    assert (pre1 `suffix_of` cs0) as Hsuf' by (destruct Hsuf as [k Hk]; exists k; rewrite app_assoc in Hk; by apply app_inv_tail in Hk).
    destruct (commit_crash w w' (begun_list w mts) mt mt' im im' np nf n1 n2 pg fl pg' fl') with (cs := cs) (tmp := tmp) (cs' := pre1) (cs0 := cs0) (f := f)
      as [Hs|Hs]; try done.
    + intros x Hx. rewrite <-(begin_freelist_pages _ (least_txid UINT64_MAX mts)). unfold all_pages. rewrite elem_of_app. by left.
    + left. eapply stored_holds; try done; [lia|]. pose proof (cm_total _ _ _ _ _ _ _ Hcm). lia.
    + right. by eapply stored_holds.
Qed.

(** A run of updates. *)
Lemma updates_lasting T mts ps : 0 <= T -> forall m w mt,
  progs_ok ps m -> lasting w mt m -> idle_db w mts -> NoSync_ (w_db w) = false ->
  txid_ mt + Z.of_nat (length ps) < 2 ^ 64 ->
  totalPageNumber_ mt + progs_cost T ps m <= T -> (T + 1) * 4096 <= datasz_ (w_db w) ->
  exists w' mt', update_each (run_prog <$> ps) w = Ok (replicate (length ps) 0, w') /\
    lasting w' mt' (prog_maps ps m) /\ idle_db w' mts /\ NoSync_ (w_db w') = false /\ datasz_ (w_db w') = datasz_ (w_db w) /\
    txid_ mt' = txid_ mt + Z.of_nat (length ps) /\
    totalPageNumber_ mt' <= totalPageNumber_ mt + progs_cost T ps m /\
    AllocSize_ (w_db w') = AllocSize_ (w_db w) /\
    at_most (w_file w) (w_file w') ((T + 1) * 4096 + AllocSize_ (w_db w)) /\
    (forall f0, settled f0 w -> settled f0 w').
Proof.
  intros HT. induction ps as [|p ps IH]; intros m w mt Hps Hlast Hidle Hsync Htx Hroom Hdz.
  { exists w, mt. cbn. unfold at_most. split_and!; done || lia. }
  destruct Hps as (Hok&Hps). cbn [length progs_cost] in *. set (m1 := prog_map p m) in *.
  pose proof (progs_cost_length T ps HT m1) as Hcost.
  pose proof (update_cost_mono (totalPageNumber_ mt) T m1) as Hc. pose proof (update_cost_pos T m1 HT).
  destruct (update_lasting w mt mts m p) as (w1&mt1&Hrun&Hlast1&Hidle1&Hsync1&Hdz1&Htx1&Htot1&Hal1&Hmost1&_&Hset1&_); try done;
    [apply update_cost_room; fold m1; lia|lia|]. fold m1 in Htot1.
  destruct (IH m1 w1 mt1) as (w'&mt'&Hruns&Hlast'&Hidle'&Hsync'&Hdz'&Htx'&Htot'&Hal'&Hmost'&Hset'); try done; try lia.
  exists w', mt'. split_and!; try done; [|congruence|lia|lia|congruence|rewrite Hal1 in Hmost'; unfold at_most in *; lia|by auto].
  cbn [fmap list_fmap update_each]. erewrite bindM_ok by exact Hrun. cbn beta. by erewrite bindM_ok by exact Hruns.
Qed.
End lasting.

Lemma progs_ok_app ps ps' : forall m, progs_ok (ps ++ ps') m <-> progs_ok ps m /\ progs_ok ps' (prog_maps ps m).
Proof. induction ps as [|p ps IH]; intros m; cbn; [tauto|]. rewrite IH. unfold prog_maps. cbn. tauto. Qed.

Lemma progs_cost_app T ps ps' : forall m,
  progs_cost T (ps ++ ps') m = progs_cost T ps m + progs_cost T ps' (prog_maps ps m).
Proof. induction ps as [|q ps IH]; intros m; cbn; [done|]. rewrite IH. unfold prog_maps. cbn. lia. Qed.

Lemma prog_maps_app ps ps' m : prog_maps (ps ++ ps') m = prog_maps ps' (prog_maps ps m).
Proof. unfold prog_maps. by rewrite foldl_app. Qed.

(** [Open] of a file that holds a map. *)
Lemma holds_open `{OrderLaws} opts fd n T m w :
  (forall k, env_syscall k = true) -> (forall k len, env_pwrite k len = len) -> (2 <= env_fuel)%nat ->
  env_getpagesize = DEFAULTPAGESIZE -> ReadOnly opts = false -> 0 <= InitialMMapSize opts <= 2 ^ 30 ->
  closed_db w -> holds_db n T (w_file w) m ->
  exists w' mt, Open opts fd w = Ok (0, w') /\ lasting w' mt m /\ idle_db w' [] /\ reads_db w' m /\
    (mmapWriter_ (w_db w') = false /\ mmapReaders_ (w_db w') = 0%nat) /\ NoSync_ (w_db w') = NoSync_ (w_db w) /\ InitialMMapSize opts <= datasz_ (w_db w') /\
    txid_ mt <= n /\ totalPageNumber_ mt <= T /\ (w_calls w = [] -> settled (w_file w) w') /\
    AllocSize_ (w_db w') = DEFAULTALLOCSIZE /\ Z.of_nat (length (w_file w')) <= 2 ^ 30.
Proof.
  intros Hsys Hpw Hf Hps Hro Hms Hcl Hh.
  assert (exists w' mt, Open opts fd w = Ok (0, w') /\ lasting w' mt m /\ idle_db w' [] /\ (mmapWriter_ (w_db w') = false /\ mmapReaders_ (w_db w') = 0%nat) /\
    NoSync_ (w_db w') = NoSync_ (w_db w) /\ InitialMMapSize opts <= datasz_ (w_db w') /\
    txid_ mt <= n /\ totalPageNumber_ mt <= T /\ (w_calls w = [] -> settled (w_file w) w') /\
    AllocSize_ (w_db w') = DEFAULTALLOCSIZE /\ Z.of_nat (length (w_file w')) <= 2 ^ 30)
    as (w'&mt&Ho&Hlast&Hidle&[Hwr Hrd]&Hrest).
  - destruct Hh as [(Hf0&->&Hn&HT)|(mt&old&im&np&nf&pg&fl&free&Hst&Hrep&Hfit&Hn&HT)].
    + destruct (Open_new opts fd Hsys Hpw Hro Hms w Hcl Hf0 Hps) as (w'&Ho&Hver&Hidle&Hwr&Hdz&Hst&_&Hns&Hrd&Hal&(cs&Hcs&Hdisk)).
      exists w', (init_meta DEFAULTPAGESIZE 1). split_and!; try done.
      * exists (mkImage [] ∅), 1, 1, (new_page 3), (new_page 2). split_and!; [done|exact represents_empty| |intros _; by eexists _, _].
        split; [apply map_Forall_empty|vm_compute; done].
      * intros Hc. unfold settled. rewrite Hcs, Hc, app_nil_r. by apply Hdisk.
      * apply (ms_length _ _ _ (so_slots _ _ _ _ _ _ _ _ _ Hst)).
    + destruct (Open_stored opts fd Hsys Hpw Hro Hms w mt old im np nf pg fl free Hst Hcl)
        as (w'&Ho&Hver&Hidle&Hwr&Hfile&_&Hns&Hrd&Hdz&Hcs&Hal).
      exists w', mt. split_and!; try done.
      * exists im, np, nf, pg, fl. split_and!; try done. intros _. exists old, free. by rewrite Hfile.
      * intros Hc. unfold settled. by rewrite Hcs, Hc, Hfile.
      * rewrite Hfile. apply (ms_length _ _ _ (so_slots _ _ _ _ _ _ _ _ _ Hst)).
  - exists w', mt. do 3 (split; [done|]). split; [|by split].
    by apply (db_at_reads w' mt m (lasting_at _ _ _ Hlast)); [lia|done|apply Hidle].
Qed.

(** ** Properties *)

(** The file [f] holds the map [m], and a process that opens it reads [m]. *)
Definition recovers `{Env} (opts : Options) (fd : Z) (n T : Z) (f : list byte) (m : db_map) : Prop :=
  holds_db n T f m /\ forall w, closed_db w -> w_file w = f -> exists w', Open opts fd w = Ok (0, w') /\ reads_db w' m.

(** C1. Updates are atomic and durable across crashes.  A process opens a file
    that holds the map [m], or is empty, and runs the updates [ps], and then
    [p]; all of them return 0.  Let the machine stop at any moment from the
    return of the last update of [ps] to that of [p], when the disk may have
    lost any sectors written and not yet synced.  A process that opens the
    file that is left finds the map of after [ps], or that of after [p] too,
    and nothing else; and the file is again one that this theorem starts from,
    with bounds on the transactions run and the pages in use. *)
Theorem updates_crash_safe `{OrderLaws} opts fd w ps p m n T0 T :
  (forall k, env_syscall k = true) -> (forall k len, env_pwrite k len = len) -> (2 <= env_fuel)%nat ->
  env_getpagesize = DEFAULTPAGESIZE -> ReadOnly opts = false -> 0 <= InitialMMapSize opts <= 2 ^ 30 ->
  closed_db w -> NoSync_ (w_db w) = false -> w_calls w = [] -> holds_db n T0 (w_file w) m ->
  progs_ok (ps ++ [p]) m -> let N := Z.of_nat (length ps) + 1 in
  0 <= T -> T0 + progs_cost T (ps ++ [p]) m <= T -> (T + 1) * 4096 <= InitialMMapSize opts -> n + N < 2 ^ 64 ->
  exists w1 w2 w3, Open opts fd w = Ok (0, w1) /\
    update_each (run_prog <$> ps) w1 = Ok (replicate (length ps) 0, w2) /\ update (run_prog p) w2 = Ok (0, w3) /\
    forall cs f, w_calls w2 `suffix_of` cs -> cs `suffix_of` w_calls w3 ->
    crash_image (disk_after cs (synced (w_file w))) f -> Z.of_nat (length f) <= 2 ^ 30 ->
    recovers opts fd (n + N) T f (prog_maps ps m) \/ recovers opts fd (n + N) T f (prog_maps (ps ++ [p]) m).
Proof.
  intros Hsys Hpw Hf Hps Hro Hms Hcl Hsync Hcalls Hh Hok N HT Hroom Hmap Hn.
  rewrite progs_cost_app in Hroom. cbn [progs_cost] in Hroom. set (m2 := prog_map p (prog_maps ps m)) in *.
  pose proof (progs_cost_length T ps HT m) as Hcost. pose proof (update_cost_pos T m2 HT).
  destruct (holds_open opts fd n T0 m w) as (w1&mt&Ho&Hlast&Hidle&_&_&Hs1&Hdz&Hn1&HT1&Hset&_); try done.
  destruct (proj1 (progs_ok_app ps [p] m) Hok) as [Hps' (Hp&_)].
  destruct (updates_lasting Hsys Hpw Hf T [] ps HT m w1 mt)
    as (w2&mt2&Hruns&Hlast2&Hidle2&Hs2&Hdz2&Htx2&Htot2&_&_&Hset2); try done; try (unfold N in *; lia); [congruence|].
  pose proof (update_cost_mono (totalPageNumber_ mt2) T m2 ltac:(lia)) as Hc.
  destruct (update_lasting Hsys Hpw Hf w2 mt2 [] (prog_maps ps m) p)
    as (w3&mt3&Hrun&_&_&_&_&Htx3&_&_&_&_&_&Hcs); try done; try (unfold N in *; lia);
    [apply update_cost_room; fold m2; lia|].
  exists w1, w2, w3. do 3 (split; [done|]). intros cs f Hs Hs' Hcr Hlen.
  apply (crash_safe_mono _ (n + N) _ T) in Hcs; [|unfold N in *; lia|fold m2; lia].
  assert (forall m', holds_db (n + N) T f m' -> recovers opts fd (n + N) T f m') as Hrec.
  { intros m' Hm'. split; [done|]. intros wr Hclr <-.
    destruct (holds_open opts fd (n + N) T m' wr) as (w'&mt'&Ho'&_&_&Hrd&_); try done. by exists w'. }
  rewrite prog_maps_app. destruct (Hcs (w_file w) cs f); [by auto|done..|left|right]; by apply Hrec.
Qed.

(** ** One process after the other *)

(** A process opens the file and runs updates. *)
Record process := mkProcess { pr_opts : Options; pr_fd : Z; pr_progs : list db_prog }.

(** Processes that run one after the other; [restart] makes the memory a new
    one starts with.  The result is what [Open] and each update returned. *)
Fixpoint run_processes `{Env} (restart : World -> World) (prs : list process) : M (list (Z * list Z)) :=
  match prs with
  | [] => ret []
  | pr :: prs =>
      _ ← modify restart;
      r ← Open (pr_opts pr) (pr_fd pr);
      rs ← update_each (run_prog <$> pr_progs pr);
      out ← run_processes restart prs;
      ret ((r, rs) :: out)
  end.

(** A process starts with a database that is not open, and syncs its files. *)
Record restarts (restart : World -> World) : Prop := {
  rst_file : forall w, w_file (restart w) = w_file w;
  rst_closed : forall w, closed_db (restart w);
  rst_sync : forall w, NoSync_ (w_db (restart w)) = false;
}.

(** It opens the file for writing, and maps [T] pages and one more. *)
Definition maps_pages (T : Z) (pr : process) : Prop :=
  ReadOnly (pr_opts pr) = false /\ (T + 1) * 4096 <= InitialMMapSize (pr_opts pr) <= 2 ^ 30.

Definition all_zero (pr : process) : Z * list Z := (0, replicate (length (pr_progs pr)) 0).

Section processes.
Context `{OrderLaws} (restart : World -> World) (T : Z).
Hypothesis calls_succeed : forall k, env_syscall k = true.
Hypothesis pwrite_whole : forall k len, env_pwrite k len = len.
Hypothesis fuel : (2 <= env_fuel)%nat.
Hypothesis pagesize : env_getpagesize = DEFAULTPAGESIZE.
Hypothesis new_memory : restarts restart.
Hypothesis pages : 0 <= T.
Hypothesis small : (T + 1) * 4096 + DEFAULTALLOCSIZE <= 2 ^ 30.
#[local] Set Default Proof Using "All".

(** One process. *)
Lemma process_holds pr n T0 m w :
  maps_pages T pr -> holds_db n T0 (w_file w) m -> progs_ok (pr_progs pr) m ->
  T0 + progs_cost T (pr_progs pr) m <= T -> n + Z.of_nat (length (pr_progs pr)) < 2 ^ 64 ->
  exists w1 w2, Open (pr_opts pr) (pr_fd pr) (restart w) = Ok (0, w1) /\
    update_each (run_prog <$> pr_progs pr) w1 = Ok (replicate (length (pr_progs pr)) 0, w2) /\
    holds_db (n + Z.of_nat (length (pr_progs pr))) (T0 + progs_cost T (pr_progs pr) m) (w_file w2)
      (prog_maps (pr_progs pr) m).
Proof.
  intros [Hro Hms] Hh Hok Hroom Hn. rewrite <-(rst_file _ new_memory w) in Hh.
  destruct (holds_open (pr_opts pr) (pr_fd pr) n T0 m (restart w))
    as (w1&mt&Ho&Hlast&Hidle&_&_&Hs1&Hdz&Hn1&HT1&_&Hal&Hlen); try done; [lia|apply new_memory|].
  destruct (updates_lasting calls_succeed pwrite_whole fuel T [] (pr_progs pr) pages m w1 mt)
    as (w2&mt2&Hruns&(im&np&nf&pg&fl&_&Hrep&Hfit&Hst)&_&_&_&Htx&Htot&_&Hmost&_); try done;
    [rewrite Hs1; apply new_memory|lia..|].
  exists w1, w2. do 2 (split; [done|]). rewrite Hal in Hmost. unfold at_most in Hmost.
  eapply stored_holds; try done; lia.
Qed.

Lemma processes_hold prs : forall n T0 m w, let ps := concat (pr_progs <$> prs) in
  Forall (maps_pages T) prs -> holds_db n T0 (w_file w) m -> progs_ok ps m ->
  T0 + progs_cost T ps m <= T -> n + Z.of_nat (length ps) < 2 ^ 64 ->
  exists w', run_processes restart prs w = Ok (all_zero <$> prs, w') /\
    holds_db (n + Z.of_nat (length ps)) (T0 + progs_cost T ps m) (w_file w') (prog_maps ps m).
Proof.
  induction prs as [|pr prs IH]; intros n T0 m w ps Hprs Hh Hok Hroom Hn; subst ps; cbn [concat fmap list_fmap] in *.
  { exists w. split; [done|]. cbn. by rewrite !Z.add_0_r. }
  apply Forall_cons in Hprs as [Hpr Hprs]. apply progs_ok_app in Hok as [Hok1 Hok].
  rewrite progs_cost_app in Hroom |- *. rewrite length_app, Nat2Z.inj_add in Hn |- *.
  rewrite prog_maps_app. set (qs := concat _) in *. set (m1 := prog_maps (pr_progs pr) m) in *.
  pose proof (progs_cost_length T qs pages m1).
  destruct (process_holds pr n T0 m w) as (w1&w2&Ho&Hrun&Hh2); try done; [lia|lia|]. fold m1 in Hh2.
  destruct (IH (n + Z.of_nat (length (pr_progs pr))) (T0 + progs_cost T (pr_progs pr) m) m1 w2) as (w'&Hruns&Hh');
    try done; [fold qs; lia|fold qs; lia|]. fold qs in Hh'.
  exists w'. split; [|by rewrite !Z.add_assoc].
  cbn [run_processes]. erewrite bindM_ok by reflexivity. cbn beta. erewrite bindM_ok by exact Ho. cbn beta.
  erewrite bindM_ok by exact Hrun. cbn beta. by erewrite bindM_ok by exact Hruns.
Qed.
End processes.

(** C4. What is committed lasts.  Let any number of processes run one after
    the other on a file that holds the map [m], or is empty, each with memory
    of its own: it opens the file with its own options and runs any number of
    updates, with callbacks that create buckets, put, remove and get.  Every
    [Open] and every update returns 0, and the file holds the map that all
    those programs make of [m], in the order they ran: a process that opens it
    reads exactly that map.  What each callback does is what
    [update_refines_map] asks of it; the pages that all updates may take, [T],
    fit the mapping of every process and a file of 1 GB with the 16 MB the
    file grows by, so that no process maps the file again and the file stays
    small enough to be opened. *)
Theorem processes_durable `{OrderLaws} restart prs opts fd n T0 T m w :
  (forall k, env_syscall k = true) -> (forall k len, env_pwrite k len = len) -> (2 <= env_fuel)%nat ->
  env_getpagesize = DEFAULTPAGESIZE -> restarts restart -> Forall (maps_pages T) prs ->
  ReadOnly opts = false -> 0 <= InitialMMapSize opts <= 2 ^ 30 ->
  holds_db n T0 (w_file w) m -> let ps := concat (pr_progs <$> prs) in
  progs_ok ps m -> 0 <= T -> T0 + progs_cost T ps m <= T -> (T + 1) * 4096 + DEFAULTALLOCSIZE <= 2 ^ 30 ->
  n + Z.of_nat (length ps) < 2 ^ 64 ->
  exists w', run_processes restart prs w = Ok (all_zero <$> prs, w') /\
    holds_db (n + Z.of_nat (length ps)) T (w_file w') (prog_maps ps m) /\
    exists w3, Open opts fd (restart w') = Ok (0, w3) /\ reads_db w3 (prog_maps ps m).
Proof.
  intros Hsys Hpw Hf Hps Hre Hprs Hro Hms Hh ps Hok HT Hroom Hsm Hn.
  destruct (processes_hold restart T Hsys Hpw Hf Hps Hre HT Hsm prs n T0 m w) as (w'&Hrun&Hh'); try done. fold ps in Hh'.
  exists w'. split; [done|]. split; [by apply (holds_db_mono (n + Z.of_nat (length ps)) _ (T0 + progs_cost T ps m))|].
  rewrite <-(rst_file _ Hre w') in Hh'.
  destruct (holds_open opts fd _ _ (prog_maps ps m) (restart w') Hsys Hpw Hf Hps Hro Hms (rst_closed _ Hre w') Hh')
    as (w3&mt&Ho&_&_&Hrd&_). by exists w3.
Qed.

(** ** Witness: two buckets and three keys, a crash while one of them is removed *)

Definition ex_before : list db_prog := [ex_create; ex_copy].

Lemma updates_crash_safe_witness :
  exists w1 w2 w3, Open (H:=sample_env) ex_opts 3 ex_closed = Ok (0, w1) /\
    update_each (H:=sample_env) (run_prog (H:=sample_env) <$> ex_before) w1 = Ok ([0; 0], w2) /\
    update (H:=sample_env) (run_prog (H:=sample_env) ex_remove) w2 = Ok (0, w3) /\
    forall cs f, w_calls w2 `suffix_of` cs -> cs `suffix_of` w_calls w3 ->
    crash_image (disk_after cs (synced [])) f -> Z.of_nat (length f) <= 2 ^ 30 ->
    recovers (H:=sample_env) ex_opts 3 4 15 f (prog_maps ex_before ∅) \/
    recovers (H:=sample_env) ex_opts 3 4 15 f (prog_maps (ex_before ++ [ex_remove]) ∅).
Proof.
  destruct (updates_crash_safe (H:=sample_env) ex_opts 3 ex_closed ex_before ex_remove ∅ 1 4 15)
    as (w1&w2&w3&Ho&Hruns&Hrun&Hcrash).
  - done.
  - done.
  - cbn. lia.
  - done.
  - done.
  - cbn. lia.
  - exact ex_closed_db.
  - done.
  - done.
  - left. split_and!; [done|done|lia|lia].
  - apply (bool_decide_unpack _). vm_compute. exact I.
  - done.
  - vm_compute. discriminate.
  - vm_compute. discriminate.
  - done.
  - exists w1, w2, w3. split; [exact Ho|]. split; [exact Hruns|]. split; [exact Hrun|exact Hcrash].
Defined.

(** Three processes that share [ex_progs], and one that runs nothing. *)
Definition ex_processes : list process :=
  [mkProcess ex_opts 3 ex_before; mkProcess ex_opts 4 [ex_remove]; mkProcess ex_opts 3 []; mkProcess ex_opts 5 [ex_grow; ex_look]].

(** The memory of a new process is that of [ex_closed]. *)
Definition ex_restart (w : World) : World := wset_w_file (w_file w) ex_closed.

Lemma ex_restarts : restarts ex_restart.
Proof. split; [done| |done]. intros w. by split. Qed.

Lemma processes_durable_witness :
  exists w' w3, run_processes (H:=sample_env) ex_restart ex_processes ex_closed =
      Ok ([(0, [0; 0]); (0, [0]); (0, []); (0, [0; 0])], w') /\
    Open (H:=sample_env) ex_opts 3 (ex_restart w') = Ok (0, w3) /\ reads_db (H:=sample_env) w3 (prog_maps ex_progs ∅).
Proof.
  destruct (processes_durable (H:=sample_env) ex_restart ex_processes ex_opts 3 1 4 31 ∅ ex_closed)
    as (w'&Hrun&_&w3&Ho&Hrd).
  - done.
  - done.
  - cbn. lia.
  - done.
  - exact ex_restarts.
  - unfold ex_processes, maps_pages. repeat constructor; cbn; lia.
  - done.
  - cbn. lia.
  - left. split_and!; [done|done|lia|lia].
  - apply (bool_decide_unpack _). vm_compute. exact I.
  - done.
  - vm_compute. discriminate.
  - vm_compute. discriminate.
  - done.
  - exists w', w3. split; [exact Hrun|]. split; [exact Ho|exact Hrd].
Defined.
