(* ===== verification/Handle.v ===== *)
(** * Handle.v: database objects and their lock files

    A [DB] object as its owner sees it: the database of World.v together with
    its member [lock_file_] (util.h), over the kernel of FileLock.v, from the
    constructor to the destructor (src/src/Bolt/db.cc).  The path is fixed
    here: after [DbClose] clears it the lock is refused before it is used. *)
From S2P Require Import Bytes.
From S2P Require Import FileLock.
From S2P Require Import Page.
From S2P Require Import FreeList.
From S2P Require Import Meta.
From S2P Require Import Node.
From S2P Require Import World.
From S2P Require Import Disk.
From S2P Require Import Pager.
From S2P Require Import Bucket.
From S2P Require Import Tx.
From S2P Require Import DB.
From S2P Require Import Spill.
From S2P Require Import Update.
From S2P Require Import MapDB.
From S2P Require Import Work.
From S2P Require Import Gather.
From S2P Require Import Program.
From S2P Require Import Reopen.
From S2P Require Import Session.
From S2P Require Import Crash.

Record Database := mkDatabase {
  db_world : World;
  db_lock : FlockUtil;
}.
Definition set_world (w : World) (x : Database) : Database := mkDatabase w (db_lock x).

Section handle.
Context `{Env} `{FlockOS}.

(** [DB(path)], in the state [w]; [garbage] supplies the members the
    constructors do not initialise. *)
Definition Database_new (garbage : DB) (garbage_fd : Z) (path : string) (w : World) : Database :=
  mkDatabase (wset_w_db (DB_new garbage) w) (FlockUtil_new garbage_fd (path +:+ "_lock")).

(** [Open(options)]; locking the file counts as a system call, as in [Open]. *)
Definition Database_Open (options : Options) (fd : Z) (x : Database) (s : os) : res (Z * Database * os) :=
  let w := db_world x in
  if 0 <? file_ (w_db w) then Ok (0, x, s)
  else
    let '(ok, u, s) := lock (db_lock x) s in
    let w := wset_w_calls (OtherCall :: w_calls w) w in
    if negb ok then Ok (-1, mkDatabase w u, s)
    else '(r, w) ← Open_locked options fd w; Ok (r, mkDatabase w u, s).

(** [DbClose()] leaves [lock_file_] alone. *)
Definition Database_close (x : Database) : res Database :=
  '(_, w) ← DbClose (db_world x); Ok (set_world w x).

(** [pthread_rwlock_destroy(&mmapLock_)] of a lock that is held is undefined. *)
Definition rwlock_destroy (d : DB) : res unit :=
  if mmapWriter_ d || (0 <? mmapReaders_ d)%nat then Err LockInUse else Ok tt.

(** [~DB()], and then the destructor of [lock_file_] *)
Definition Database_delete (x : Database) (s : os) : res os :=
  '(_, w) ← DbClose (db_world x);
  _ ← rwlock_destroy (w_db w);
  Ok (FlockUtil_delete (db_lock x) s).
End handle.

(** ** Opening *)

(** Opening with the lock file is [Open] where its call to lock succeeds. *)
Lemma Database_Open_locks `{Env} `{FlockOS} opts fd x s u s' :
  file_ (w_db (db_world x)) <= 0 -> lock (db_lock x) s = (true, u, s') ->
  env_syscall (length (w_calls (db_world x))) = true ->
  Database_Open opts fd x s = '(r, w) ← Open opts fd (db_world x); Ok (r, mkDatabase w u, s').
Proof.
  intros Hfd Hl Hsys. unfold Database_Open, Open. rewrite (proj2 (Z.ltb_ge _ _)) by lia. rewrite Hl. cbn [negb].
  erewrite bindM_ok by apply get_db_ok. cbn beta. rewrite (proj2 (Z.ltb_ge _ _)) by lia.
  erewrite bindM_ok by apply syscall_other. cbn beta. by rewrite Hsys.
Qed.

(** The object is open, holds the lock of its file, and runs no transaction. *)
Record owns `{FlockLaws} (x : Database) (s : os) : Prop := {
  ow_open : opened_ (w_db (db_world x)) = true;
  ow_unlocked : rwLock_ (w_db (db_world x)) = false;
  ow_writer : mmapWriter_ (w_db (db_world x)) = false;
  ow_readers : mmapReaders_ (w_db (db_world x)) = 0%nat;
  ow_lock : FileLock.view s !! fd_ (db_lock x) = Some (lock_file_ (db_lock x), true);
  ow_only : forall fd, FileLock.view s !! fd = Some (lock_file_ (db_lock x), true) -> fd = fd_ (db_lock x);
}.

(** ** Closing *)

(** [DbClose] of an open database: the locks of the process are as they were. *)
Lemma DbClose_open `{Env} w :
  rwLock_ (w_db w) = false -> mmapWriter_ (w_db w) = false -> opened_ (w_db w) = true ->
  exists w', DbClose w = Ok (tt, w') /\ opened_ (w_db w') = false /\ rwLock_ (w_db w') = false /\
    mmapWriter_ (w_db w') = false /\ mmapReaders_ (w_db w') = mmapReaders_ (w_db w) /\ file_ (w_db w') <= 0 /\
    w_file w' = w_file w.
Proof.
  intros Hlk Hwr Hop. destruct w as [ns bs ts d bl f m g c]. destruct d as [fd]. cbn in *. subst.
  unfold DbClose, lock_rw, getMmapRLock, unlockMmapLock, writerLeave, get_db, gets, upd_db, reads, mbind, M_bind. cbn.
  destruct (Z.eqb_spec fd 0) as [->|Hfd]; cbn; (eexists; split; [reflexivity|]); cbn; split_and!; done || lia.
Qed.

(** [DbClose] of a closed one takes the read lock and keeps it. *)
Lemma DbClose_closed `{Env} w :
  rwLock_ (w_db w) = false -> mmapWriter_ (w_db w) = false -> opened_ (w_db w) = false ->
  exists w', DbClose w = Ok (tt, w') /\ mmapReaders_ (w_db w') = S (mmapReaders_ (w_db w)) /\
    mmapWriter_ (w_db w') = false.
Proof.
  intros Hlk Hwr Hop. destruct w as [ns bs ts d bl f m g c]. destruct d. cbn in *. subst.
  unfold DbClose, lock_rw, getMmapRLock, get_db, gets, upd_db, reads. cbn. eexists. by split.
Qed.

Section owned.
Context `{Env} `{FlockLaws}.
#[local] Set Default Proof Using "All".

(** Whoever asks for a lock that is held is refused, and changes nothing. *)
Lemma Database_Open_refused opts fd y s :
  file_ (w_db (db_world y)) <= 0 -> held (FileLock.view s) (lock_file_ (db_lock y)) ->
  exists y' s', Database_Open opts fd y s = Ok (-1, y', s') /\ w_db (db_world y') = w_db (db_world y) /\
    w_file (db_world y') = w_file (db_world y) /\ lock_file_ (db_lock y') = lock_file_ (db_lock y) /\
    FileLock.view s' = FileLock.view s.
Proof.
  intros Hfd Hheld. destruct (lock_spec (db_lock y) s) as (ok&u&s'&Hl&Hfile&_&Hno&Hrefuse&_).
  rewrite Hrefuse in Hl, Hno by (by right). destruct Hno as [_ Hv]; [done|].
  exists (mkDatabase (wset_w_calls (OtherCall :: w_calls (db_world y)) (db_world y)) u), s'.
  unfold Database_Open. rewrite (proj2 (Z.ltb_ge _ _)) by lia. by rewrite Hl.
Qed.

(** Closing keeps the lock of the file; the destructor releases it, unless the
    object was closed before. *)
Lemma owned_close x s : owns x s ->
  exists x', Database_close x = Ok x' /\ db_lock x' = db_lock x /\ file_ (w_db (db_world x')) <= 0 /\
    w_file (db_world x') = w_file (db_world x) /\ forall s', Database_delete x' s' = Err LockInUse.
Proof.
  intros [O1 O2 O3 O4 _ _]. destruct (DbClose_open (db_world x) O2 O3 O1) as (w'&Hrun&Hop&Hlk&Hwr&_&Hfd&Hf).
  exists (set_world w' x). unfold Database_close. rewrite Hrun. split_and!; try done.
  intros s'. destruct (DbClose_closed w' Hlk Hwr Hop) as (w2&Hrun2&Hrd&Hwr2).
  unfold Database_delete. cbn [db_world set_world]. rewrite Hrun2. cbn [mbind res_bind].
  unfold rwlock_destroy. by rewrite Hwr2, Hrd.
Qed.

Lemma owned_delete x s : owns x s ->
  exists s', Database_delete x s = Ok s' /\ FileLock.view s' = delete (fd_ (db_lock x)) (FileLock.view s).
Proof.
  intros [O1 O2 O3 O4 _ _]. destruct (DbClose_open (db_world x) O2 O3 O1) as (w'&Hrun&_&_&Hwr&Hrd&_).
  exists (FlockUtil_delete (db_lock x) s). unfold Database_delete. rewrite Hrun. cbn [mbind res_bind].
  unfold rwlock_destroy. rewrite Hwr, Hrd, O4. split; [done|apply view_close].
Qed.
End owned.

(** ** Properties *)

(** C37. A database object and the lock of its file.  Opening a file that holds
    [m], when its lock is free, takes the lock, and readers read [m].  While
    it is open, whoever opens the file through another object is refused, and
    changes neither the file nor the lock.  The destructor releases the lock.
    But [DbClose] keeps it: the object it closed cannot be opened again; and
    it takes a read lock the second time it runs, so that destroying a closed
    object destroys a lock that is held. *)
Theorem database_lock_lifecycle `{OrderLaws} `{FlockLaws} opts fd x s n T m :
  (forall k, env_syscall k = true) -> (forall k len, env_pwrite k len = len) -> (2 <= env_fuel)%nat ->
  env_getpagesize = DEFAULTPAGESIZE -> ReadOnly opts = false -> 0 <= InitialMMapSize opts <= 2 ^ 30 ->
  closed_db (db_world x) -> holds_db n T (w_file (db_world x)) m ->
  0 <= (os_open s (lock_file_ (db_lock x))).1 -> ~ held (FileLock.view s) (lock_file_ (db_lock x)) ->
  exists x1 s1, Database_Open opts fd x s = Ok (0, x1, s1) /\ reads_db (db_world x1) m /\
    (forall opts' fd' y, lock_file_ (db_lock y) = lock_file_ (db_lock x) -> file_ (w_db (db_world y)) <= 0 ->
       exists y' s', Database_Open opts' fd' y s1 = Ok (-1, y', s') /\ w_db (db_world y') = w_db (db_world y) /\
         w_file (db_world y') = w_file (db_world y) /\ FileLock.view s' = FileLock.view s1) /\
    (exists s2, Database_delete x1 s1 = Ok s2 /\ FileLock.view s2 = FileLock.view s) /\
    (exists x2, Database_close x1 = Ok x2 /\ w_file (db_world x2) = w_file (db_world x1) /\
       (forall opts' fd', exists x3 s3, Database_Open opts' fd' x2 s1 = Ok (-1, x3, s3) /\ FileLock.view s3 = FileLock.view s1) /\
       forall s', Database_delete x2 s' = Err LockInUse).
Proof.
  intros Hsys Hpw Hf Hps Hro Hms Hcl Hh Hop Hfree.
  destruct (lock_spec (db_lock x) s) as (ok&u&s1&Hl&Hfile&Hyes&_&_&Htake).
  rewrite Htake in Hl, Hyes by done. destruct Hyes as (Hu&Hnew&_&Hview); [done|].
  destruct (holds_open opts fd n T m (db_world x) Hsys Hpw Hf Hps Hro Hms Hcl Hh)
    as (w1&mt&Ho&_&Hidle&Hrd&[Hwr Hrds]&_).
  exists (mkDatabase w1 u), s1.
  assert (owns (mkDatabase w1 u) s1) as Hown.
  { split; cbn; try apply Hidle; try done; rewrite Hfile, Hview; [apply lookup_insert_eq|].
    intros fd' [[<- _]|[_ Hx]]%lookup_insert_Some; [done|]. destruct Hfree. by exists fd'. }
  assert (held (FileLock.view s1) (lock_file_ (db_lock x))) as Hheld by (exists (fd_ u); rewrite Hview; apply lookup_insert_eq).
  split_and!.
  - rewrite (Database_Open_locks opts fd x s u s1); [by rewrite Ho|by rewrite (cl_file _ Hcl)|done|apply Hsys].
  - exact Hrd.
  - intros opts' fd' y Hy Hfd'. rewrite <-Hy in Hheld.
    destruct (Database_Open_refused opts' fd' y s1 Hfd' Hheld) as (y'&s'&?&?&?&_&?). by exists y', s'.
  - destruct (owned_delete _ _ Hown) as (s2&Hdel&Hv2). exists s2. split; [exact Hdel|].
    rewrite Hv2, Hview. by apply delete_insert_id.
  - destruct (owned_close _ _ Hown) as (x2&Hclose&Hlock&Hfd2&Hf2&Hdel). exists x2. split_and!; try done.
    intros opts' fd'. destruct (Database_Open_refused opts' fd' x2 s1 Hfd2) as (x3&s3&?&_&_&_&?); [|by exists x3, s3].
    by rewrite Hlock; cbn; rewrite Hfile.
Qed.

(** ** Witness: a new database, on the kernel of FileLock.v *)

Definition ex_database : Database := mkDatabase ex_closed (FlockUtil_new 7 "db_lock").

Lemma database_lock_lifecycle_witness :
  exists x1 s1, Database_Open (H:=sample_env) ex_opts 3 ex_database (∅ : table) = Ok (0, x1, s1) /\
    (exists y' s', Database_Open (H:=sample_env) ex_opts 3 ex_database s1 = Ok (-1, y', s')) /\
    exists x2, Database_close (H:=sample_env) x1 = Ok x2 /\ Database_delete (H:=sample_env) x2 s1 = Err LockInUse.
Proof.
  destruct (database_lock_lifecycle (H:=sample_env) (H2:=sample_flock) ex_opts 3 ex_database (∅ : table) 1 4 ∅)
    as (x1&s1&Ho&_&Hother&_&(x2&Hclose&_&_&Hdel)).
  - done.
  - done.
  - cbn. lia.
  - done.
  - done.
  - cbn. lia.
  - exact ex_closed_db.
  - left. split_and!; [done|done|lia|lia].
  - cbn. lia.
  - intros (fd&Hfd). cbn in Hfd. rewrite view_lookup in Hfd. destruct (fd <? 0); discriminate.
  - exists x1, s1. split; [exact Ho|]. split.
    + destruct (Hother ex_opts 3 ex_database) as (y'&s'&Hy&_); [reflexivity|done|]. exists y', s'. exact Hy.
    + exists x2. split; [exact Hclose|apply Hdel].
Defined.
