(* ===== verification/Snapshot.v ===== *)
(** * Snapshot.v: readers beside writers

    Any number of [DB::view]s overlapping a sequence of [DB::update]s: each
    view begins, reads and ends at its own points of the run.  The abstract
    program keeps the current map of maps and a copy of it for each view; this
    file shows that the engine returns what the abstract program returns. *)
From S2P Require Import Bytes.
From S2P Require Import BinSearch.
From S2P Require Import Page.
From S2P Require Import FreeList.
From S2P Require Import Mvcc.
From S2P Require Import Meta.
From S2P Require Import Node.
From S2P Require Import World.
From S2P Require Import Pager.
From S2P Require Import Tree.
From S2P Require Import Cursor.
From S2P Require Import Traversal.
From S2P Require Import Image.
From S2P Require Import Alloc.
From S2P Require Import Bucket.
From S2P Require Import Tx.
From S2P Require Import DB.
From S2P Require Import Stage.
From S2P Require Import Spill.
From S2P Require Import Commit.
From S2P Require Import Update.
From S2P Require Import Inline.
From S2P Require Import MapDB.
From S2P Require Import Work.
From S2P Require Import Gather.
From S2P Require Import Program.
From S2P Require Import Reopen.
From S2P Require Import Session.

(** ** The two halves of a view *)

(** [view] up to the call of its callback. *)
Definition begin_view `{Env} : M (option txptr) :=
  tx ← beginTx;
  match tx with
  | None => ret None
  | Some t => _ ← upd_tx t (tset_managed_ true); ret (Some t)
  end.

(** [view] from the return of its callback on. *)
Definition end_view `{Env} (t : txptr) : M unit :=
  _ ← upd_tx t (tset_managed_ false);
  _ ← rollback t;
  closeTx (Some t).

Lemma view_halves `{Env} fn w :
  view fn w = (tx ← begin_view;
               match tx with
               | None => ret (-1)
               | Some t => r ← fn t; _ ← end_view t; ret (if r =? 0 then 0 else -1)
               end) w.
Proof.
  unfold view, begin_view, end_view, mbind, M_bind, ret, mret, M_ret. destruct (beginTx w) as [[[t|] w1]|]; [|done|done].
  destruct (upd_tx t _ w1) as [[[] w2]|]; [|done]. destruct (fn t w2) as [[r w3]|]; [|done].
  destruct (upd_tx t _ w3) as [[[] w4]|]; [|done]. destruct (rollback t w4) as [[z w5]|]; [|done].
  by destruct (closeTx (Some t) w5) as [[[] w6]|].
Qed.

(** ** Runs *)

(** A step of some thread: a view begins, the [i]-th open view reads a key or
    ends, or an update runs. *)
Variant event := Begin | Read (i : nat) (name key : Item) | End (i : nat) | Update (p : db_prog).

(** What it returns: the result of the call, or what was read. *)
Variant outcome := Code (r : Z) | Value (v : option Item).

#[export] Instance outcome_eq_dec : EqDecision outcome.
Proof. solve_decision. Defined.

(** The engine, with the open views in the order they began. *)
Definition run_event `{Env} (ts : list txptr) (e : event) : M (list txptr * outcome) :=
  match e with
  | Begin => t ← begin_view; ret (match t with Some t => (ts ++ [t], Code 0) | None => (ts, Code (-1)) end)
  | Read i name key =>
      match ts !! i with
      | Some t => v ← read_key name key t; ret (ts, Value v)
      | None => ret (ts, Code (-1))
      end
  | End i =>
      match ts !! i with
      | Some t => _ ← end_view t; ret (delete i ts, Code 0)
      | None => ret (ts, Code (-1))
      end
  | Update p => r ← update (run_prog p); ret (ts, Code r)
  end.

Fixpoint run_events `{Env} (ts : list txptr) (es : list event) : M (list outcome) :=
  match es with
  | [] => ret []
  | e :: es => '(ts, r) ← run_event ts e; rs ← run_events ts es; ret (r :: rs)
  end.

(** The abstract program: the current map, and the maps of the open views. *)
Definition spec_event (m : db_map) (ms : list db_map) (e : event) : db_map * list db_map * outcome :=
  match e with
  | Begin => (m, ms ++ [m], Code 0)
  | Read i name key => (m, ms, match ms !! i with Some s => Value (lookup_key s name key) | None => Code (-1) end)
  | End i => match ms !! i with Some _ => (m, delete i ms, Code 0) | None => (m, ms, Code (-1)) end
  | Update p => (prog_map p m, ms, Code 0)
  end.

Fixpoint spec_events (m : db_map) (ms : list db_map) (es : list event) : db_map * list outcome :=
  match es with
  | [] => (m, [])
  | e :: es => let '(m, ms, r) := spec_event m ms e in let '(m, rs) := spec_events m ms es in (m, r :: rs)
  end.

(** Bucket names are items, and updates ask for something that fits. *)
Definition event_ok (m : db_map) (e : event) : Prop :=
  match e with
  | Begin | End _ => True
  | Read _ name _ => Item_wf name
  | Update p => prog_ok p (ta_start m)
  end.

Fixpoint events_ok (m : db_map) (es : list event) : Prop :=
  match es with
  | [] => True
  | e :: es => event_ok m e /\ events_ok (spec_event m [] e).1.1 es
  end.

#[export] Instance event_ok_dec m e : Decision (event_ok m e).
Proof. destruct e; cbn [event_ok]; apply _. Defined.
#[export] Instance events_ok_dec es : forall m, Decision (events_ok m es).
Proof. induction es as [|e es IH]; intros m; cbn [events_ok]; apply _. Defined.

(** The updates of a run. *)
Definition is_update (e : event) : bool := match e with Update _ => true | _ => false end.
Definition updates (es : list event) : Z := Z.of_nat (length (filter is_update es)).

(** The pages a run may take from the end of the file, when the database has
    at most [T]. *)
Definition event_cost (T : Z) (m : db_map) (e : event) : Z :=
  match e with Update p => update_cost T (prog_map p m) | _ => 0 end.

Fixpoint events_cost (T : Z) (m : db_map) (es : list event) : Z :=
  match es with
  | [] => 0
  | e :: es => event_cost T m e + events_cost T (spec_event m [] e).1.1 es
  end.

Lemma events_cost_updates T es : 0 <= T -> forall m, updates es <= events_cost T m es.
Proof.
  intros HT. unfold updates. induction es as [|e es IH]; intros m; [done|]. cbn [events_cost].
  specialize (IH (spec_event m [] e).1.1). rewrite filter_cons.
  destruct e as [| | |p]; cbn [event_cost is_update] in *; case_decide; try done; try lia.
  pose proof (update_cost_pos T (prog_map p m) HT). cbn [length]. lia.
Qed.

Lemma events_cost_nonneg T es m : 0 <= T -> 0 <= events_cost T m es.
Proof. intros HT. pose proof (events_cost_updates T es HT m). unfold updates in *. lia. Qed.

(** ** Snapshots *)

(** An open view: its transaction, the version it began on and what that
    represents. *)
Record snap := mkSnap { sn_tx : txptr; sn_meta : meta; sn_map : db_map }.

(** The version of a snapshot, as the free list must keep it: the pages of the
    root's leaf, and of the sub-buckets that have one. *)
Definition snap_version (mt : meta) (im : image) (np : Z) : version :=
  mkVersion (txid_ mt) (totalPageNumber_ mt) (page_run (root (root_ mt)) np ∪ dom (im_subs im)).

(** The pages of the snapshot are in the file [f'] where they are in [f]. *)
Definition pages_kept (f f' : list byte) (v : version) : Prop := forall p n bs,
  2 <= p -> 1 <= n -> p + n <= v_total v -> (forall x, p <= x < p + n -> x ∈ v_pages v) ->
  page_image f 4096 p n bs -> page_image f' 4096 p n bs.

(** The view reads its snapshot, and the free list keeps its pages. *)
Definition snapshot (w : World) (s : snap) : Prop := exists im np pg b tv bv,
  reader w (sn_tx s) (sn_meta s) im np pg b tv bv /\ represents im (sn_map s) /\
  kept (freeList_ (w_db w)) (snap_version (sn_meta s) im np) /\ db_ tv = true /\ writable_ tv = false.

(** A database with open views. *)
Record with_views (w : World) (mt : meta) (m : db_map) (rs : list snap) : Prop := {
  wv_current : db_at w mt m;
  wv_idle : idle_db w (sn_meta <$> rs);
  wv_txs : txs_ (w_db w) = sn_tx <$> rs;
  wv_distinct : NoDup (sn_tx <$> rs);
  wv_snapshots : forall s, s ∈ rs -> snapshot w s;
  wv_older : forall s, s ∈ rs -> txid_ (sn_meta s) <= txid_ mt /\ totalPageNumber_ (sn_meta s) <= totalPageNumber_ mt;
  wv_keys : forall u l, pending_ (freeList_ (w_db w)) !! u = Some l -> 0 <= u;
  wv_unmapped : mmapWriter_ (w_db w) = false;
}.

(** The transaction [t] and its buckets are as they were. *)
Record transaction_kept (t : txptr) (w w' : World) : Prop := {
  ok_tx : forall v, tx_of w t = Ok v -> tx_of w' t = Ok v;
  ok_bucket : forall c cv v, tx_of w t = Ok v -> bucket_of w c = Ok cv -> tx_ cv = t -> bucket_of w' c = Ok cv;
}.

Lemma transactions_kept_each w w' t : transactions_kept w w' -> transaction_kept t w w'.
Proof. intros [Ht Hb]. split; [apply Ht|]. intros c cv v Hv Hc He. apply (Hb c cv v); [done|by rewrite He]. Qed.

Lemma read_frame_kept t u w w' : read_frame t w w' -> u <> t -> transaction_kept u w w'.
Proof.
  intros [_ _ _ _ Ht _ Ho] Hne. split; [intros v; by rewrite Ht|].
  intros c cv v _ Hc He. apply Ho; [done|by rewrite He].
Qed.

(** A snapshot stays one wherever its pages, its transaction and its buckets
    stay, and the free list keeps the pages. *)
Lemma snapshot_kept w w' s :
  DB_pageSize_ (w_db w') = DB_pageSize_ (w_db w) -> datasz_ (w_db w') = datasz_ (w_db w) ->
  w_map w' = w_map w -> w_gen w' = w_gen w ->
  (forall im np, kept (freeList_ (w_db w)) (snap_version (sn_meta s) im np) ->
     kept (freeList_ (w_db w')) (snap_version (sn_meta s) im np) /\
     pages_kept (w_file w) (w_file w') (snap_version (sn_meta s) im np)) ->
  transaction_kept (sn_tx s) w w' -> snapshot w s -> snapshot w' s.
Proof.
  intros E1 E2 E3 E4 Hkept [Ktx Kb] (im&np&pg&b&tv&bv&Hr&Hrep&Hk&Hdb&Hwr).
  pose proof (ur_tx _ _ _ _ _ _ (rd_unread _ _ _ _ _ _ _ _ _ Hr)) as Htx.
  pose proof (rd_snapshot _ _ _ _ _ _ _ _ _ Hr) as Hs. destruct (Hkept im np Hk) as [Hk' Hfile].
  exists im, np, pg, b, tv, bv. split_and!; try done.
  apply (reader_same w); [|done|by apply Ktx| |done].
  - pose proof (ls_range _ _ _ _ _ Hs). apply (leaf_snapshot_same w); try done.
    + apply Hfile; cbn; [lia..|]. intros x Hx. apply elem_of_union_l. by apply elem_of_page_run.
    + intros id bs Hid. destruct Hid as [es Hes]. destruct (ls_subs _ _ _ _ _ Hs id es Hes) as (_&_&Hid&_).
      apply Hfile; cbn; [lia..|]. intros x Hx. assert (x = id) as -> by lia.
      apply elem_of_union_r, elem_of_dom. by exists es.
  - intros c cv Hc Ht. by apply (Kb c cv tv).
Qed.

(** Only the list of transactions and the locks change. *)
Lemma snapshot_kept_same w w' s :
  DB_pageSize_ (w_db w') = DB_pageSize_ (w_db w) -> datasz_ (w_db w') = datasz_ (w_db w) ->
  w_map w' = w_map w -> w_gen w' = w_gen w -> freeList_ (w_db w') = freeList_ (w_db w) -> w_file w' = w_file w ->
  transaction_kept (sn_tx s) w w' -> snapshot w s -> snapshot w' s.
Proof. intros E1 E2 E3 E4 E5 E6. apply snapshot_kept; try done. intros im np Hk. rewrite E5, E6. split; [done|by intros ?]. Qed.

(** The current version, as a snapshot. *)
Lemma version_kept w mt im np nf pg fl :
  leaf_version w mt im np nf pg fl -> kept (freeList_ (w_db w)) (snap_version mt im np).
Proof.
  intros Hver. destruct (ve_root _ _ _ _ _ _ _ Hver) as [_ Hr Hk].
  assert (forall p, p ∈ v_pages (snap_version mt im np) ->
    2 <= p < totalPageNumber_ mt /\ p ∉ all_pages (freeList_ (w_db w))) as Hall.
  { intros p [Hp%elem_of_page_run|[es Hes]%elem_of_dom]%elem_of_union; [split; [lia|by apply Hk]|].
    destruct (ve_subs _ _ _ _ _ _ _ Hver p es Hes) as (bs&[_ Hrs Hks]&_). split; [lia|apply Hks; lia]. }
  split.
  - intros p Hp. by apply Hall.
  - intros p Hp Hin. apply (proj2 (Hall p Hp)), elem_of_all_pages. by left.
  - intros p u l0 Hp Hu Hin. exfalso. apply (proj2 (Hall p Hp)), elem_of_all_pages. right. by exists u, l0.
Qed.

Lemma snapshot_live w s : snapshot w s -> exists tv, tx_of w (sn_tx s) = Ok tv.
Proof. intros (im&np&pg&b&tv&bv&Hr&_). exists tv. apply Hr. Qed.

(** The meta records of the views' transactions. *)
Lemma each_meta w rs :
  Forall2 (fun t mt => tx_meta w t = Ok mt) (sn_tx <$> rs) (sn_meta <$> rs) <->
  forall s, s ∈ rs -> tx_meta w (sn_tx s) = Ok (sn_meta s).
Proof.
  rewrite Forall2_fmap, <-Forall_forall. split; [|apply (Forall_Forall2_diag (fun s s' => tx_meta w (sn_tx s) = Ok (sn_meta s')))].
  induction rs as [|s rs IH]; [done|]. intros [Hs Hrs]%Forall2_cons. constructor; [exact Hs|by apply IH].
Qed.

(** ** Views *)

Section views.
Context `{Env} (w : World) (mt : meta) (m : db_map) (rs : list snap).
Hypothesis views : with_views w mt m rs.
#[local] Set Default Proof Using "All".

Lemma begin_view_ok :
  exists t w', begin_view w = Ok (Some t, w') /\ with_views w' mt m (rs ++ [mkSnap t mt m]) /\
    w_file w' = w_file w /\ datasz_ (w_db w') = datasz_ (w_db w).
Proof.
  destruct views as [(im&np&nf&pg&fl&Hver&Hrep&Hfit) Hidle Htxs Hnd Hsn Hold Hkeys Hmm]. pose proof Hidle as [Hop Hwr Hlk Hrw Hal Hrd].
  destruct (beginTx_ok w mt) as (w1&Hrun&Htx1&Hb1&Hdb1&Hf1&Hm1&Hg1&_&_); [done|done|apply Hver|].
  set (t := fresh_key (w_txs w)) in *. set (b := fresh_key (w_buckets w)) in *.
  set (tv := tset_managed_ true (begun false b mt)). set (w2 := with_tx t tv w1).
  assert (w_txs w2 = <[t := tv]> (w_txs w)) as Htx2 by (cbn; by rewrite Htx1, insert_insert_eq).
  assert (transactions_kept w w2) as Hkept.
  { apply (transactions_kept_new w w2 tv Htx2). by eapply others_kept_fresh. }
  assert (w_db w2 = w_db w1) as Hdb2 by done.
  assert (leaf_version w2 mt im np nf pg fl) as Hver2.
  { apply (leaf_version_same w); [|rewrite Hdb2, Hdb1; apply Hver|by rewrite Hdb2, Hdb1|exact Hver].
    split; rewrite ?Hdb2, ?Hdb1; done. }
  assert (forall s, s ∈ rs -> snapshot w2 s) as Hsn2.
  { intros s Hs. apply (snapshot_kept_same w); rewrite ?Hdb2, ?Hdb1; try done; [|by apply Hsn].
    by apply transactions_kept_each. }
  exists t, w2. split; [|split; [|by rewrite Hdb2, Hdb1]].
  { unfold begin_view. erewrite bindM_ok by exact Hrun. cbn beta iota.
    erewrite bindM_ok by (apply (upd_tx_ok _ (tset_managed_ true)); unfold tx_of; rewrite Htx1; apply the_ok, lookup_insert_eq).
    done. }
  split.
  - by exists im, np, nf, pg, fl.
  - split; rewrite ?Hdb2, ?Hdb1; try done. cbn. rewrite fmap_app. apply Forall2_app.
    + eapply Forall2_impl; [exact Hrd|]. intros u mu Hu. cbn in Hu |- *. unfold tx_meta in *.
      destruct (tx_of w u) as [v|] eqn:Hv; [|done]. by rewrite (xk_tx _ _ Hkept _ _ Hv).
    + apply Forall2_cons. split; [|constructor]. unfold tx_meta.
      assert (tx_of w2 t = Ok tv) as -> by apply tx_of_with. done.
  - rewrite Hdb2, Hdb1, fmap_app. cbn. by rewrite Htxs.
  - rewrite fmap_app. apply NoDup_app. split; [done|]. split; [|apply NoDup_singleton].
    intros u Hu. cbn. rewrite list_elem_of_singleton. intros ->.
    apply list_elem_of_fmap in Hu as (s&Hs1&Hs). destruct (snapshot_live _ _ (Hsn s Hs)) as [v Hv].
    rewrite <-Hs1 in Hv. unfold tx_of, t in Hv. by rewrite fresh_key_None in Hv.
  - intros s [Hs| ->%list_elem_of_singleton]%elem_of_app; [by apply Hsn2|].
    exists im, np, pg, b, tv, (root_bucket t mt). split_and!; try done; [|by eapply version_kept].
    split; [by eapply version_snapshot| |done|done|by intros name c Hc].
    split; [apply tx_of_with|by exists mt|done| |done].
    unfold bucket_of. change (w_buckets w2) with (w_buckets w1). rewrite Hb1. apply the_ok, lookup_insert_eq.
  - intros s [Hs| ->%list_elem_of_singleton]%elem_of_app; [by apply Hold|]. cbn. lia.
  - rewrite Hdb2, Hdb1. exact Hkeys.
  - rewrite Hdb2, Hdb1. exact Hmm.
Qed.

Section one.
Context (i : nat) (s : snap).
Hypothesis open : rs !! i = Some s.

Lemma other_views s' : s' ∈ delete i rs -> s' ∈ rs /\ sn_tx s' <> sn_tx s.
Proof.
  intros [j Hj]%list_elem_of_lookup. destruct views as [_ _ _ Hnd _ _ _ _].
  assert (exists k, k <> i /\ rs !! k = Some s') as (k&Hk&Hs').
  { destruct (decide (j < i)%nat).
    - exists j. split; [lia|]. by rewrite list_lookup_delete_lt in Hj by lia.
    - exists (S j). split; [lia|]. by rewrite list_lookup_delete_ge in Hj by lia. }
  split; [by eapply list_elem_of_lookup_2|]. intros He. apply Hk.
  eapply (NoDup_lookup (sn_tx <$> rs)); [done|..]; rewrite list_lookup_fmap.
  - by rewrite Hs'.
  - rewrite open. cbn. by rewrite He.
Qed.

(** Reading gives what the snapshot has. *)
Lemma read_view_ok name key :
  (0 < env_fuel)%nat -> Item_wf name ->
  exists w', read_key name key (sn_tx s) w = Ok (lookup_key (sn_map s) name key, w') /\ with_views w' mt m rs /\
    w_file w' = w_file w /\ w_db w' = w_db w.
Proof.
  intros Hf Hname. pose proof views as [(im&np&nf&pg&fl&Hver&Hrep&Hfit) Hidle Htxs Hnd Hsn Hold Hkeys Hmm].
  assert (s ∈ rs) as Hs by (by eapply list_elem_of_lookup_2).
  destruct (Hsn s Hs) as (sl&snp&spg&b&tv&bv&Hr&Hsrep&Hsk&Hsdb&Hswr).
  destruct (read_key_ok w (sn_tx s) (sn_meta s) sl snp spg b tv bv (sn_map s) Hr Hsrep Hf name key Hname)
    as (w'&tv'&bv'&Hrun&Hr'&Hfr&Hsame). pose proof Hfr as [Fdb Ff Fm Fg Ft Fmeta Fo].
  exists w'. split; [exact Hrun|]. split; [|done]. split; rewrite ?Fdb; try done.
  - exists im, np, nf, pg, fl. split; [|done]. apply (leaf_version_same w); rewrite ?Fdb; try done; [|apply Hver].
    split; by rewrite ?Fdb.
  - destruct Hidle. split; rewrite ?Fdb; try done. eapply Forall2_impl; [done|]. intros u mu Hu. cbn in Hu |- *.
    destruct (decide (u = sn_tx s)) as [->|Hne]; [by rewrite Fmeta|]. unfold tx_meta in *. by rewrite Ft.
  - intros s' Hs'. destruct (decide (sn_tx s' = sn_tx s)) as [He|Hne].
    + assert (s' = s) as ->.
      { apply list_elem_of_lookup in Hs' as [k Hk].
        assert (k = i) as ->; [|rewrite open in Hk; by injection Hk].
        eapply (NoDup_lookup (sn_tx <$> rs)); [done|..]; rewrite list_lookup_fmap; [by rewrite Hk|].
        rewrite open. cbn. by rewrite He. }
      exists sl, snp, spg, b, tv', bv'. rewrite Fdb. split_and!; try done; rewrite <-Hsame in *; by destruct tv'.
    + apply (snapshot_kept_same w); rewrite ?Fdb; try done; [|by apply Hsn]. by eapply read_frame_kept.
Qed.

Lemma erase_tx_delete l : forall k t, NoDup l -> l !! k = Some t -> erase_tx t l = delete k l.
Proof.
  induction l as [|x l IH]; intros k t Hnd Hk; [done|]. apply NoDup_cons in Hnd as [Hx Hnd]. cbn [erase_tx].
  destruct k as [|k]; cbn in Hk |- *.
  - injection Hk as ->. by rewrite decide_True.
  - rewrite decide_False; [by rewrite (IH k)|]. intros ->. by apply Hx, list_elem_of_lookup_2 with k.
Qed.

(** A view that ends leaves the others. *)
Lemma end_view_ok :
  exists w', end_view (sn_tx s) w = Ok (tt, w') /\ with_views w' mt m (delete i rs) /\
    w_file w' = w_file w /\ datasz_ (w_db w') = datasz_ (w_db w).
Proof.
  pose proof views as [(im&np&nf&pg&fl&Hver&Hrep&Hfit) Hidle Htxs Hnd Hsn Hold Hkeys Hmm].
  pose proof Hidle as [Hop Hwr Hlk Hrw Hal Hrd].
  assert (s ∈ rs) as Hs by (by eapply list_elem_of_lookup_2).
  destruct (Hsn s Hs) as (sl&snp&spg&b&tv&bv&Hr&Hsrep&Hsk&Hsdb&Hswr).
  pose proof (ur_tx _ _ _ _ _ _ (rd_unread _ _ _ _ _ _ _ _ _ Hr)) as Htx.
  set (t := sn_tx s) in *. set (w1 := with_tx t (tset_managed_ false tv) w).
  assert (NoDup (txs_ (w_db w))) as Hndt by (by rewrite Htxs).
  assert (erase_tx t (txs_ (w_db w)) = delete i (txs_ (w_db w))) as Her.
  { apply erase_tx_delete; [done|]. rewrite Htxs, list_lookup_fmap, open. done. }
  set (d := dset_txs_ (delete i (txs_ (w_db w))) (dset_mmapReaders_ (pred (mmapReaders_ (w_db w))) (w_db w))).
  set (w2 := wset_w_db d w1). assert (w_db w2 = d) as Hdb by done.
  assert (forall u, u <> t -> transaction_kept u w w2) as Hkept.
  { intros u Hu. split; [|by intros c cv]. intros v Hv. unfold tx_of. cbn.
    by rewrite lookup_insert_ne by (by apply not_eq_sym). }
  exists w2. split; [|split; [|done]].
  { unfold end_view. erewrite bindM_ok by (apply (upd_tx_ok _ (tset_managed_ false)); exact Htx). cbn beta. fold w1.
    erewrite bindM_ok.
    2:{ unfold rollback. erewrite bindM_ok by (apply get_tx_ok, tx_of_with). cbn beta.
        cbn [managed_ tset_managed_ db_ writable_]. rewrite Hsdb, Hswr. reflexivity. }
    cbn beta. unfold closeTx. erewrite bindM_ok by apply get_db_ok. cbn beta. change (w_db w1) with (w_db w).
    rewrite decide_False by congruence. unfold removeTx, unlockMmapLock.
    erewrite bindM_ok.
    2:{ erewrite bindM_ok by apply get_db_ok. cbn beta. change (w_db w1) with (w_db w). rewrite Hmm.
        erewrite bindM_ok by apply upd_db_ok. reflexivity. }
    cbn beta. rewrite upd_db_ok. do 2 f_equal. unfold w2, d. cbn. by rewrite Her. }
  assert (forall s', s' ∈ delete i rs -> s' ∈ rs) as Hsub by (intros s' Hs'; by apply other_views).
  split; rewrite ?Hdb; try done.
  - exists im, np, nf, pg, fl. split; [|done]. apply (leaf_version_same w); [by split|apply Hver|done|exact Hver].
  - split; rewrite ?Hdb; try done. cbn [txs_ dset_txs_ d].
    rewrite Htxs, <-!list_fmap_delete. apply each_meta. intros s' Hs'. destruct (other_views s' Hs') as [Hin Hne].
    rewrite Htxs, each_meta in Hrd. specialize (Hrd s' Hin). unfold tx_meta in *.
    destruct (tx_of w (sn_tx s')) as [v|] eqn:Hv; [|done]. by rewrite (ok_tx _ _ _ (Hkept _ Hne) _ Hv).
  - cbn [txs_ dset_txs_ d]. by rewrite Htxs, list_fmap_delete.
  - rewrite list_fmap_delete. eapply sublist_NoDup; [exact Hnd|apply sublist_delete].
  - intros s' Hs'. destruct (other_views s' Hs') as [Hin Hne].
    apply (snapshot_kept_same w); try done; [by apply Hkept|by apply Hsn].
  - intros s' Hs'. by apply Hold, Hsub.
Qed.
End one.
End views.

(** ** Updates beside views *)

(** The pages of a snapshot are not available to the next writer. *)
Lemma kept_begun w mt m rs s im np :
  with_views w mt m rs -> s ∈ rs -> kept (freeList_ (w_db w)) (snap_version (sn_meta s) im np) ->
  kept (begun_list w (sn_meta <$> rs)) (snap_version (sn_meta s) im np).
Proof.
  intros Hv Hs Hk. apply kept_begin; [apply Hv| |exact Hk]. intros p u l Hp Hu Hin.
  pose proof (kept_pending _ _ Hk p u l Hp Hu Hin) as Hlt. cbn in Hlt.
  destruct (least_txid_le (sn_meta <$> rs) UINT64_MAX) as [_ Hle].
  specialize (Hle (sn_meta s) ltac:(by apply list_elem_of_fmap_2)). lia.
Qed.

Lemma begun_list_keys w mts u l :
  (forall u l, pending_ (freeList_ (w_db w)) !! u = Some l -> 0 <= u) ->
  pending_ (begun_list w mts) !! u = Some l -> 0 <= u.
Proof. intros Hk [Hu _]%begin_freelist_pending. by eapply Hk. Qed.

Section update.
Context `{OrderLaws}.
Hypothesis calls_succeed : forall k, env_syscall k = true.
Hypothesis pwrite_whole : forall k len, env_pwrite k len = len.
Hypothesis fuel : (2 <= env_fuel)%nat.
#[local] Set Default Proof Using "All".

Lemma update_views w mt m rs p :
  with_views w mt m rs -> prog_ok p (ta_start m) -> room_for_update w mt (prog_map p m) -> txid_ mt + 1 < 2 ^ 64 ->
  exists w' mt', update (run_prog p) w = Ok (0, w') /\ with_views w' mt' (prog_map p m) rs /\
    durable (w_file w') (prog_map p m) /\ txid_ mt' = txid_ mt + 1 /\
    totalPageNumber_ mt' <= totalPageNumber_ mt + update_cost (totalPageNumber_ mt) (prog_map p m) /\
    datasz_ (w_db w') = datasz_ (w_db w).
Proof.
  intros Hv Hok Hroom Htx. pose proof Hv as [Hat Hidle Htxs Hnd Hsn Hold Hkeys Hmm].
  destruct (update_prog calls_succeed pwrite_whole fuel w mt (sn_meta <$> rs) m p Hat Hidle Hok Hroom Htx)
    as (w'&mt'&im'&Hrun&Hcm&Hrep&Hidle'&Hkept&Hat'&Hdur).
  pose proof Hcm as [_ Htx' _ Hframe Hsteps (f&fz&Hdb) [Hm Hg] _ _ [Hle Htot]].
  assert (0 <= txid_ mt) as Hpos by (destruct Hat as (?&?&?&?&?&Hver&_); apply (ve_ok _ _ _ _ _ _ _ Hver)).
  exists w', mt'. split_and!; try done; [|unfold update_cost; lia|by rewrite Hdb].
  split; try done.
  - by rewrite Hdb.
  - intros s Hs. destruct (Hold s Hs) as [Hst Hstot].
    apply (snapshot_kept w); rewrite ?Hdb; try done; [|by apply transactions_kept_each|by apply Hsn].
    intros im np Hk. pose proof (kept_begun _ _ _ _ _ _ _ Hv Hs Hk) as Hkb. split.
    + rewrite <-Hdb. by eapply kept_steps; [exact Hsteps|cbn; lia|].
    + intros q n bs H2 H1 Hend Hin. cbn in Hend. apply Hframe; [lia..|]. intros x Hx. apply (kept_ids _ _ Hkb). by apply Hin.
  - intros s Hs. destruct (Hold s Hs). lia.
  - intros u l Hu. destruct (decide (u = txid_ mt')) as [->|Hne]; [lia|].
    pose proof (writer_steps_pending _ _ _ Hsteps) as Hd. apply (f_equal (lookup u)) in Hd.
    rewrite !lookup_delete_ne, Hu in Hd by done. by eapply begun_list_keys.
  - by rewrite Hdb.
Qed.
End update.

(** ** Whole runs *)

Section run.
Context `{OrderLaws}.
Hypothesis calls_succeed : forall k, env_syscall k = true.
Hypothesis pwrite_whole : forall k len, env_pwrite k len = len.
Hypothesis fuel : (2 <= env_fuel)%nat.
Context (T : Z).
Hypothesis T_pos : 0 <= T.
#[local] Set Default Proof Using "All".

(** [n] more updates that take [k] pages fit: in the mapping, and in the
    transaction ids. *)
Record room_for (w : World) (mt : meta) (n k : Z) : Prop := {
  ro_pages : totalPageNumber_ mt + k <= T;
  ro_map : (T + 1) * 4096 <= datasz_ (w_db w);
  ro_txid : txid_ mt + n < 2 ^ 64;
}.

Lemma room_step w mt m n k : 0 <= n -> 0 <= k -> room_for w mt (1 + n) (update_cost T m + k) ->
  room_for_update w mt m /\ txid_ mt + 1 < 2 ^ 64 /\
  forall w' mt', txid_ mt' = txid_ mt + 1 ->
    totalPageNumber_ mt' <= totalPageNumber_ mt + update_cost (totalPageNumber_ mt) m ->
    datasz_ (w_db w') = datasz_ (w_db w) -> room_for w' mt' n k.
Proof.
  intros Hn Hk [Hp Hm Ht]. pose proof (update_cost_pos T m T_pos).
  pose proof (update_cost_mono (totalPageNumber_ mt) T m ltac:(lia)).
  split; [apply update_cost_room; lia|]. split; [lia|]. intros w' mt' Htx Htot Hdz. split; lia.
Qed.

(** One event, as the abstract program has it. *)
Lemma run_event_ok e w mt m rs n k :
  with_views w mt m rs -> durable (w_file w) m -> event_ok m e -> 0 <= n -> 0 <= k ->
  room_for w mt ((if is_update e then 1 else 0) + n) (event_cost T m e + k) ->
  exists w' mt' m' rs' r, run_event (sn_tx <$> rs) e w = Ok ((sn_tx <$> rs', r), w') /\
    spec_event m (sn_map <$> rs) e = (m', sn_map <$> rs', r) /\
    with_views w' mt' m' rs' /\ durable (w_file w') m' /\ room_for w' mt' n k.
Proof.
  intros Hv Hdur Hok Hn Hk Hroom.
  assert (forall w', datasz_ (w_db w') = datasz_ (w_db w) -> is_update e = false -> room_for w' mt n k) as Hroom'.
  { intros w' Hdz He. rewrite He in Hroom. assert (event_cost T m e = 0) as Hz by (by destruct e). rewrite Hz in Hroom. destruct Hroom. split; [lia|by rewrite Hdz|lia]. }
  destruct e as [|i name key|i|p]; cbn [event_ok event_cost is_update] in *.
  - destruct (begin_view_ok w mt m rs Hv) as (t&w'&Hrun&Hv'&Hf&Hdz).
    exists w', mt, m, (rs ++ [mkSnap t mt m]), (Code 0). split_and!; try done; [..|by rewrite Hf|by apply Hroom'].
    + unfold run_event. erewrite bindM_ok by exact Hrun. by rewrite fmap_app.
    + cbn. by rewrite fmap_app.
  - destruct (rs !! i) as [s|] eqn:Hi.
    + destruct (read_view_ok w mt m rs Hv i s Hi name key ltac:(lia) Hok) as (w'&Hrun&Hv'&Hf&Hdb).
      exists w', mt, m, rs, (Value (lookup_key (sn_map s) name key)).
      split_and!; try done; [..|by rewrite Hf|apply Hroom'; [by rewrite Hdb|done]].
      * unfold run_event. rewrite list_lookup_fmap, Hi. cbn. by erewrite bindM_ok by exact Hrun.
      * cbn. by rewrite list_lookup_fmap, Hi.
    + exists w, mt, m, rs, (Code (-1)). split_and!; try done; cbn; by rewrite list_lookup_fmap, Hi.
  - destruct (rs !! i) as [s|] eqn:Hi.
    + destruct (end_view_ok w mt m rs Hv i s Hi) as (w'&Hrun&Hv'&Hf&Hdz).
      exists w', mt, m, (delete i rs), (Code 0). split_and!; try done; [..|by rewrite Hf|by apply Hroom'].
      * unfold run_event. rewrite list_lookup_fmap, Hi. cbn. erewrite bindM_ok by exact Hrun. by rewrite list_fmap_delete.
      * cbn. by rewrite list_lookup_fmap, Hi, list_fmap_delete.
    + exists w, mt, m, rs, (Code (-1)). split_and!; try done; cbn; by rewrite list_lookup_fmap, Hi.
  - destruct (room_step w mt (prog_map p m) n k Hn Hk Hroom) as (Hru&Htx&Hnext).
    destruct (update_views calls_succeed pwrite_whole fuel w mt m rs p Hv Hok Hru Htx)
      as (w'&mt'&Hrun&Hv'&Hdur'&Htx'&Htot&Hdz).
    exists w', mt', (prog_map p m), rs, (Code 0). split_and!; try done; [|by apply Hnext].
    unfold run_event. by erewrite bindM_ok by exact Hrun.
Qed.

Lemma spec_event_map m ms ms' e : (spec_event m ms e).1.1 = (spec_event m ms' e).1.1.
Proof. destruct e as [| |i|]; cbn; [done|done| |done]. by destruct (ms !! i), (ms' !! i). Qed.

Lemma run_events_ok es : forall w mt m rs,
  with_views w mt m rs -> durable (w_file w) m -> events_ok m es -> room_for w mt (updates es) (events_cost T m es) ->
  exists w' m' outs, run_events (sn_tx <$> rs) es w = Ok (outs, w') /\
    spec_events m (sn_map <$> rs) es = (m', outs) /\ durable (w_file w') m'.
Proof.
  induction es as [|e es IH]; intros w mt m rs Hv Hdur Hok Hroom; [by exists w, m, []|].
  destruct Hok as [He Hes].
  assert (updates (e :: es) = (if is_update e then 1 else 0) + updates es) as Hup.
  { unfold updates. rewrite filter_cons. destruct (is_update e); cbn [decide decide_rel]; case_decide; cbn; try done; lia. }
  rewrite Hup in Hroom. cbn [events_cost] in Hroom.
  destruct (run_event_ok e w mt m rs (updates es) _ Hv Hdur He ltac:(unfold updates; lia) (events_cost_nonneg T es _ T_pos) Hroom)
    as (w1&mt1&m1&rs1&r&Hrun&Hspec&Hv1&Hdur1&Hroom1).
  rewrite (spec_event_map _ _ (sn_map <$> rs)), Hspec in Hes, Hroom1. cbn [fst] in Hes, Hroom1.
  destruct (IH w1 mt1 m1 rs1 Hv1 Hdur1 Hes Hroom1) as (w'&m'&outs&Hruns&Hspecs&Hdur').
  exists w', m', (r :: outs). split_and!; [|cbn; rewrite Hspec, Hspecs; done|done].
  cbn [run_events]. erewrite bindM_ok by exact Hrun. cbn beta iota. by erewrite bindM_ok by exact Hruns.
Qed.
End run.

(** ** Property *)

(** C2. Snapshot isolation, end to end.  In a database created by [Open] of an
    empty file, let views begin, read and end and updates run in any order,
    any number of them overlapping.  Every step returns, and returns what the
    abstract program returns: updates and the ends of views succeed, and each
    read of a view gives what the database held when that view began, whatever
    the updates since then did to it.  A new process that opens the file reads
    the final map (sizes as in [session_progress]). *)
Theorem snapshot_isolation `{OrderLaws} opts fd w es T :
  (forall k, env_syscall k = true) -> (forall k len, env_pwrite k len = len) -> (2 <= env_fuel)%nat ->
  env_getpagesize = DEFAULTPAGESIZE -> ReadOnly opts = false -> 0 <= InitialMMapSize opts <= 2 ^ 30 ->
  closed_db w -> w_file w = [] -> events_ok ∅ es -> 0 <= T ->
  4 + events_cost T ∅ es <= T -> (T + 1) * 4096 <= InitialMMapSize opts ->
  exists w1 w' m outs, Open opts fd w = Ok (0, w1) /\ run_events [] es w1 = Ok (outs, w') /\
    spec_events ∅ [] es = (m, outs) /\
    (Z.of_nat (length (w_file w')) <= 2 ^ 30 -> forall w2, closed_db w2 -> w_file w2 = w_file w' ->
     exists w3, Open opts fd w2 = Ok (0, w3) /\ reads_db w3 m).
Proof.
  intros Hsys Hpw Hf Hps Hro Hms Hcl Hempty Hes HT Hroom Hmap.
  destruct (Open_new opts fd Hsys Hpw Hro Hms w Hcl Hempty Hps) as (w1&Ho&Hver&Hidle&Hwr&Hdz&Hst&Hpend&_).
  assert (fits_db ∅) as Hfit by (split; [apply map_Forall_empty|vm_compute; done]).
  assert (with_views w1 (init_meta DEFAULTPAGESIZE 1) ∅ []) as Hv.
  { split; try done; [by exists (mkImage [] ∅), 1, 1, (new_page 3), (new_page 2)|eapply Forall2_nil_inv_r, Hidle|constructor|by intros s ?%not_elem_of_nil..|].
    rewrite Hpend. by intros u l Hu. }
  assert (durable (w_file w1) ∅) as Hdur.
  { eapply (stored_durable Hsys Hpw Hf); [|exact represents_empty|exact Hfit]. intros _. by eexists _, _. }
  destruct (run_events_ok Hsys Hpw Hf T HT es w1 (init_meta DEFAULTPAGESIZE 1) ∅ [] Hv Hdur Hes)
    as (w'&m&outs&Hrun&Hspec&Hdur').
  { pose proof (events_cost_updates T es HT ∅). split; cbn; lia. }
  exists w1, w', m, outs. split_and!; try done. intros Hsmall w2 Hcl2 Hf2.
  destruct (Hdur' opts fd w2 Hro Hms Hsmall Hcl2 Hf2) as (w3&mt3&Ho3&_&_&Hrd). by exists w3.
Qed.

(** ** Witness: views beside eight updates *)

(** The last update reads the pair it then removes. *)
Definition ex_take : db_prog :=
  Get ex_a ex_a (fun v => Do (Remove ex_a ex_a) (fun _ => match v with Some v => Do (Put ex_a ex_b v) (fun _ => Done) | None => Done end)).

Definition ex_events : list event :=
  [Update (do_all [Create ex_a; Create ex_b]); Update (do_all [Put ex_a ex_a ex_b; Put ex_b ex_a ex_a]); Begin;
   Update (do_all [Put ex_a ex_a ex_a]); Begin; Read 0 ex_a ex_a; Read 1 ex_a ex_a; Update ex_take;
   Read 0 ex_a ex_a; End 0; Read 0 ex_a ex_a; End 3; Begin; Read 1 ex_a ex_a; Read 1 ex_a ex_b;
   Update (do_all [Put ex_b ex_b ex_long]); Begin; Update (do_all [Remove ex_b ex_b]); Update (do_all []);
   Update (do_all [Put ex_b ex_c ex_long]); Read 2 ex_b ex_b; Read 2 ex_b ex_c].

(** The views go on reading the value that was there when they began, in the
    end one on a page that the bucket has left since. *)
Definition ex_outcomes : list outcome :=
  [Code 0; Code 0; Code 0; Code 0; Code 0; Value (Some ex_b); Value (Some ex_a); Code 0; Value (Some ex_b); Code 0;
   Value (Some ex_a); Code (-1); Code 0; Value (Some Item_empty); Value (Some ex_a);
   Code 0; Code 0; Code 0; Code 0; Code 0; Value (Some ex_long); Value (Some Item_empty)].

Example ex_events_spec : (spec_events ∅ [] ex_events).2 = ex_outcomes.
Proof. apply (bool_decide_unpack _). vm_compute. exact I. Qed.

Lemma snapshot_isolation_witness :
  exists w1 w', Open (H:=sample_env) ex_opts 3 ex_closed = Ok (0, w1) /\
    run_events (H:=sample_env) [] ex_events w1 = Ok (ex_outcomes, w').
Proof.
  destruct (snapshot_isolation (H:=sample_env) ex_opts 3 ex_closed ex_events 30) as (w1&w'&m&outs&Ho&Hrun&Hspec&_).
  - done.
  - done.
  - cbn. lia.
  - done.
  - done.
  - cbn. lia.
  - exact ex_closed_db.
  - done.
  - apply (bool_decide_unpack _). vm_compute. exact I.
  - done.
  - vm_compute. discriminate.
  - vm_compute. discriminate.
  - assert (outs = ex_outcomes) as -> by (rewrite <-ex_events_spec, Hspec; exact eq_refl). exists w1, w'. split; [exact Ho|exact Hrun].
Defined.
